(* ===== verification/_CoqProject ===== *)
-Q . S2P
Prelude.v
PhysMem.v
Layout.v
CString.v
Xtoa.v
Terminal.v
Outstream.v
Heap.v
Machine.v
DiskRead.v
Arena.v
Fat32.v
FatVolume.v
Fat32Proofs.v
Fat32Props.v
Fat32List.v
MemDetect.v
Elf.v
Multiboot.v
Stage1.v
Boot.v
Acpi.v
Cpu.v
X86.v
RealMode.v
Teletype.v
Stage0.v
A20.v
Stage1Entry.v
Interrupts.v
KernelEntry.v
Apic.v
Kmain.v
System.v
PowerOn.v
