(* ===== verification/Prelude.v ===== *)
(** * RainbowOS: a verification development

    RainbowOS is a boot loader and a kernel for 32-bit PCs.  The master boot record
    ([src/bootloader/stage0.S]) loads the second stage, whose assembly ([stage1.S]) opens
    the A20 gate and switches to protected mode for its C++ part ([stage1main.cpp]).  That
    runs on top of a small library: it mounts a FAT32 partition through the BIOS, reads
    KERNEL.BIN, loads it as an ELF image and jumps to it with a Multiboot info structure.
    The kernel ([src/kernel/]) sets up its segments and stack ([boot.S]), opens the screen
    and a temporary heap, finds the ACPI tables and the APICs, installs its interrupt table
    and raises an interrupt.  This library models all of it as executable functions, the C++
    code over physical memory, the assembly over a model of the processor, and proves what
    they do, alone and one behind the other.

    ** How the model is made

    - Integers are [Z] with the wrap-around of their width written out ([u8], [u16],
      [u32], [s8] of this file); memory is a finite map from 32-bit addresses to bytes
      ([PhysMem]); a struct is a [layout], a list of typed fields from which offsets are
      computed ([Layout]), and [p->f] is [get L "f" m p], an assignment [put].  Pointers
      are addresses, so aliasing is what it is in the machine.
    - A function that can panic, loop or change state is a [prog S A] (this file): it is
      [Done], [Panicked] with the message of [earlyPanic], [OutOfFuel] or [Undefined] (an
      access outside a local array, a fault of the processor).  [let*] and [do*] sequence
      programs.
    - A loop whose number of rounds is known recurses on it; other loops have fuel.  The
      theorems state that enough fuel gives the result ([returns], [panics]), never only
      what a result would be; where the code really loops for ever the theorem says that
      no fuel is enough ([Acpi.getEntry_endless], [Multiboot.multibootHeaderSearch_small_file]).
    - Assembly is translated instruction by instruction: an instruction of [X86.Asm] is a
      program on the registers, segments, flags, descriptor table and memory of [X86.x86],
      and a jump or call is the function of its target.  Memory goes through the A20 gate;
      a selector that the descriptor table does not allow, or a BIOS call in protected mode,
      is [Undefined].  Ports, gate and BIOS are the class [X86.Platform].
    - The disk and memory services of the BIOS are called from C++ through
      [Machine.real_mode_call] (int 10h of [realMode_terminal] is not), which is what
      [realModeCall.S] does ([RealMode.real_mode_call_agrees]): because of a missing [$] its
      mask is the byte of memory at 0xfffe, and with an odd byte there the call faults.  So
      the theorems ask for an even one where a call is made: [Machine.mask_even],
      [Arena.mask_safe] (outside the heap or in a block handed out), [DiskRead.mask_kept] (in
      what is read over it), [Boot.mask_placed] and [PowerOn.mask_at_start];
      [Boot.stage1_odd_mask] is what happens otherwise.
    - The BIOS services int 10h, 12h, 13h and 15h, CPUID, the addresses the linker chooses and
      the place of the interrupt stubs are parameters; what a theorem needs of them is a
      named hypothesis ([DiskRead.int13_reads], [Multiboot.int12_reports],
      [MemDetect.int15_lists], [Kmain.kernel_ready],
      [System.kernel_provided], [PowerOn.firmware_works], [PowerOn.kernel_placed]) with a concrete instance in the theorem's witness.

    ** The parts

    - [Prelude]: machine integers, programs and their laws, lists; [PhysMem], [Layout]:
      memory and structs; [Cpu]: processor state, bit fields, [cpuid.cpp], [msr.cpp],
      [cpuio.hpp], [checkCPUID.S].
    - [CString]: [lib/stdlibC/string.c].  [Xtoa]: the template of [klib/cstdlib.hpp].
    - [Terminal]: [lib/io/BIOSVideoIO.cpp]; the screen as a list of 2000 cells is the
      abstract state, and [putchar_spec] what a character does to it.
    - [Outstream]: [klib/io.hpp] and [klib/tracemax.hpp] over the class [BackEnd], with
      both back ends of [devices/BIOSVideoIO.hpp] as instances.
    - [Heap]: [lib/earlyLib/memory.cpp]; the abstract state is a list of blocks, and
      [kalloc], [kfree] are refinements of functions on it.  [Arena]: the view of a client
      that only allocates.
    - [Machine]: the global objects of a program (screen, stream, heap pointers) and
      [lib/stdlibC/cstdlib.cpp].
    - [DiskRead]: [lib/earlyLib/diskRead16.cpp] and its stub; the classes [Disk] and
      [BlockDevice] are what a file system needs of a disk, and [int13_BlockDevice] shows
      that [diskRead16] provides it.
    - [Fat32]: [lib/fs/fat32.cpp], over [Disk]; [FatVolume]: what a volume contains, read
      off its image; [Fat32Proofs], [Fat32Props], [Fat32List]: the driver against the volume,
      over any [BlockDevice]: mounting and reading files, listing the root directory.
    - [MemDetect], [Multiboot], [Elf], [Stage1]: the parts of [stage1main.cpp] and
      [lib/earlyLib/memoryDetection16.cpp]; [Boot]: the stage as a whole.
    - [Acpi]: [kernel/devices/acpiKernel.cpp] and [kernel/system/acpi.cpp]; [Interrupts]:
      [kernel/system/interrupts.cpp] and the stubs of [interruptHandler.S]; [Apic]:
      [kernel/devices/cpu/apic.cpp], the I/O APIC behind the class [IoApic]; [Kmain]:
      [kernel/kmain.cpp] as a whole; [System]: the two C++ programs one behind the other.
    - [X86]: the processor; [RealMode]: [lib/earlyLib/realModeCall.S] and the three functions
      it runs in real mode, with the proof that they are the stubs the C++ files call;
      [Teletype]: [write_loop] and [error], which both stages have, and what the BIOS may
      change; [Stage0]: [bootloader/stage0.S]; [A20]: the gate in [bootloader/stage1.S];
      [Stage1Entry]: the rest of that file; [KernelEntry]: [kernel/boot.S]; [PowerOn]: the
      machine from its first instruction on.

    ** What the theorems show

    - End to end: [PowerOn.power_on_boots] takes the machine from the first instruction of
      the boot record to the kernel's interrupt handler.  Its parts are theorems of their
      own: [Stage0.stage0_loads], [Stage1Entry.stage1_enters], [Boot.stage1_boots] from a
      mountable active partition and a valid KERNEL.BIN to the jump,
      [Stage1Entry.jumpKernel_jumps], [KernelEntry.kernel_enters], [Kmain.kmain_interrupted];
      [System.system_boots] composes the two C++ programs, [Kmain.terminal_handover] is their
      contract about the cursor.
    - The processor: [KernelEntry.selectors_typed] says which selectors the two descriptor
      tables give to which registers and jumps; opening the A20 gate ends, never returns
      with it closed, and opens it when the keyboard controller works;
      [RealMode.realModeCall_int13] and its like join the assembly to the C++ model.
    - Refinement: the terminal, the heap and the interrupt frame implement their abstract
      specifications on every branch; [Heap.heap_clients_safe] and
      [Terminal.terminal_reachable_inv] carry them over any sequence of operations.
    - Files: mounting, finding and reading a file of the root directory return exactly its
      bytes, on volumes with one sector per cluster, and listing that directory returns every
      entry with its attributes and, unless it is part of a long name, its name; a missing
      file, a disk that fails in any chunk, a refused image end as the code says.
    - The tables of the kernel: the search of the ACPI tables is the search of the first
      match; all 256 gates lead to their stubs, and an interrupt whose handler
      returns resumes the program as it was; both 8259s end masked; what is written to
      an I/O APIC register is read back.
    - The library: copies with overlap, comparison as lexicographic order, numerals and
      their values, strings on the screen.
    - Where the code does not do what its comments say, the theorem states what it does:
      [Apic.enable_effect], [Heap.kalloc_split_overlap], [Stage1.open_terminal_column],
      [Fat32Props.getRootFile_one_sector_per_cluster], [Xtoa.xtoa_negative],
      [RealMode.realModeCall_stuck], [Boot.stage1_odd_mask], [Acpi.findRSDPDesc_first],
      [A20.check_a20_correct] and others.

    ** Bounds

    Fuel is always a number the theorem leaves open above a bound it gives or shows to
    exist: the rounds of a chain or list plus one.  The boot theorem asks for fewer than
    100 memory regions (the code's own limit), a header in the first 8 KiB of the file,
    and segments above 1 MiB; the heap lies below the buffer at 0x70000 as the linker
    script places it.  The master boot record reads 1 to 127 sectors.  The loader's stack
    starts at 0x7ff; the theorems about 16-bit code need it between 0x600 and 0x1000, with
    room for the calls they make.

    ** Not modelled

    How compiled C++ code uses registers and stack: [PowerOn.power_on_boots] starts
    [_stage1Main] and [kmain] with the arguments on their stacks and the memory of that
    moment, and takes from the compiler that [jumpKernel] is called in the loader's segments,
    with a stack below 0x800 and memory as [_stage1Main] left it ([PowerOn.jump_called]).
    The three words [_temp] of [realModeCall.S], the stack slot it uses for the function's
    address, and the registers that the real mode functions change although C++ callers rely
    on them (%ebx, %esi, %edi) are in [RealMode] and not in the C++ machine, where
    [real_mode_call] has only the function's effect on memory.
    The processor model has no accesses through a null segment, no limits of segments, no privilege level but 0, of the
    arithmetic flags only carry and zero, and no interrupts that arrive while the loader
    runs.  Build files and linker scripts are left out.
    Code compiled only with TRACEMAX is left out, as is [madt_entry_type0], which nothing
    uses.  [changeBase] does not compile when used, as its return statement names a member
    function: [Outstream.changeBase] has what the statements before it do.  [inb], which
    nothing calls either, reads ports whose devices a read does not change.  Memory-mapped
    registers of the local APIC are treated as the memory they are accessed as.  The
    missing return statement of [interruptDescriptorTable::init] is modelled as returning
    no value. *)

From stdpp Require Export base tactics list numbers option strings gmap.
From Stdlib Require Export ZArith Lia Ascii String.

#[export] Set Default Goal Selector "!".

Open Scope Z_scope.

(** ** Machine integers

    A C++ unsigned integer of [w] bits is a [Z] in [[0, 2^w)]; every operation
    that can leave that range is followed by [wrap]. *)

Definition wrap (w x : Z) : Z := x mod 2 ^ w.

Declare Scope cpp_scope.
Delimit Scope cpp_scope with cpp.
Open Scope cpp_scope.

Abbreviation u8 := (wrap 8).
Abbreviation u16 := (wrap 16).
Abbreviation u32 := (wrap 32).
Abbreviation u64 := (wrap 64).

#[global] Arguments wrap : simpl never.

(** A signed integer of [w] bits with the bit pattern of [x]. *)
Definition sext (w x : Z) : Z := (x + 2 ^ (w - 1)) mod 2 ^ w - 2 ^ (w - 1).

Abbreviation s8 := (sext 8).
Abbreviation s32 := (sext 32).
Abbreviation s64 := (sext 64).

Lemma sext_small w x : 0 < w -> - 2 ^ (w - 1) <= x < 2 ^ (w - 1) -> sext w x = x.
Proof.
  intros Hw Hx. unfold sext.
  assert (2 ^ w = 2 * 2 ^ (w - 1)) as E.
  { rewrite <- Z.pow_succ_r by lia. f_equal. lia. }
  rewrite Z.mod_small by lia. lia.
Qed.

Lemma s8_small x : -128 <= x < 128 -> s8 x = x.
Proof. intros. by apply sext_small. Qed.

(** [lia] over divisions, remainders and wrapped integers. *)
Ltac pow2_simpl :=
  change (2 ^ 8) with 256 in *; change (2 ^ 16) with 65536 in *;
  change (2 ^ 32) with 4294967296 in *;
  change (2 ^ 64) with 18446744073709551616 in *.
Ltac wrap_lia := unfold wrap in *; pow2_simpl; Z.to_euclidean_division_equations; lia.

Create HintDb wrap discriminated.
Create Rewrite HintDb wrap.

Lemma wrap_bounds w x : 0 <= w -> 0 <= wrap w x < 2 ^ w.
Proof. intros Hw. apply Z.mod_pos_bound, Z.pow_pos_nonneg; lia. Qed.

Lemma wrap_small w x : 0 <= x < 2 ^ w -> wrap w x = x.
Proof. apply Z.mod_small. Qed.

Lemma wrap_wrap w x : wrap w (wrap w x) = wrap w x.
Proof. apply Z.mod_mod_divide. exists 1. lia. Qed.

Lemma u8_bounds x : 0 <= u8 x < 256.
Proof. apply (wrap_bounds 8); lia. Qed.
Lemma u16_bounds x : 0 <= u16 x < 65536.
Proof. apply (wrap_bounds 16); lia. Qed.
Lemma u32_bounds x : 0 <= u32 x < 4294967296.
Proof. apply (wrap_bounds 32); lia. Qed.
Lemma u8_small x : 0 <= x < 256 -> u8 x = x.
Proof. apply (wrap_small 8). Qed.
Lemma u16_small x : 0 <= x < 65536 -> u16 x = x.
Proof. apply (wrap_small 16). Qed.
Lemma u32_small x : 0 <= x < 4294967296 -> u32 x = x.
Proof. apply (wrap_small 32). Qed.

#[export] Hint Resolve wrap_bounds u8_bounds u16_bounds u32_bounds : wrap.
#[export] Hint Rewrite wrap_wrap : wrap.

Lemma wrap_add_l w x y : wrap w (wrap w x + y) = wrap w (x + y).
Proof. unfold wrap. apply Zplus_mod_idemp_l. Qed.
Lemma wrap_add_r w x y : wrap w (x + wrap w y) = wrap w (x + y).
Proof. unfold wrap. apply Zplus_mod_idemp_r. Qed.
Lemma wrap_sub_l w x y : wrap w (wrap w x - y) = wrap w (x - y).
Proof. unfold wrap. apply Zminus_mod_idemp_l. Qed.
Lemma wrap_sub_r w x y : wrap w (x - wrap w y) = wrap w (x - y).
Proof. unfold wrap. apply Zminus_mod_idemp_r. Qed.

Lemma wrap_mul_add w x y z : wrap w (wrap w x * y + z) = wrap w (x * y + z).
Proof. unfold wrap. by rewrite Zplus_mod, Zmult_mod_idemp_l, <- Zplus_mod. Qed.

#[export] Hint Rewrite wrap_add_l wrap_add_r wrap_sub_l wrap_sub_r : wrap.

(** [x & (2^n - 1)] keeps the low [n] bits. *)
Lemma land_ones_wrap n x : 0 <= n -> Z.land x (Z.ones n) = wrap n x.
Proof. intros. unfold wrap. by apply Z.land_ones. Qed.

(** [(h << n) | l] for an [l] of [n] bits. *)
Lemma lor_shiftl_add n h l : 0 <= n -> 0 <= l < 2 ^ n -> Z.lor (Z.shiftl h n) l = h * 2 ^ n + l.
Proof.
  intros Hn Hl. assert (Z.land (Z.shiftl h n) l = 0) as E.
  { apply Z.bits_inj'. intros k Hk. rewrite Z.land_spec, Z.bits_0.
    destruct (Z.lt_ge_cases k n).
    - by rewrite Z.shiftl_spec_low.
    - rewrite <- (Z.mod_small l (2 ^ n)) by done.
      rewrite Z.mod_pow2_bits_high by lia. apply andb_false_r. }
  rewrite <- Z.shiftl_mul_pow2 by done. by rewrite (Z.add_nocarry_lxor _ _ E), Z.lxor_lor.
Qed.

(** ** Outcomes of code that can panic or not return

    [earlyPanic] is [[noreturn]]: it prints its message and halts the machine,
    so it is an outcome that ends the computation.  [OutOfFuel] is the outcome
    of a model loop whose fuel ran out, which stands for "has not returned yet".
    [Undefined] is what the language gives no meaning, such as an access outside a
    local array, and what the processor faults on. *)

Inductive outcome (S A : Type) : Type :=
  | Done (a : A) (s : S)
  | Panicked (msg : string) (s : S)
  | OutOfFuel
  | Undefined.
Arguments Done {S A} a s.
Arguments Panicked {S A} msg s.
Arguments OutOfFuel {S A}.
Arguments Undefined {S A}.

(** A program over the state [S] that returns an [A]. *)
Definition prog (S A : Type) : Type := S -> outcome S A.

Lemma lor_u32 a b :
  0 <= a < 4294967296 -> 0 <= b < 4294967296 -> 0 <= Z.lor a b < 4294967296.
Proof.
  intros Ha Hb. split; [apply Z.lor_nonneg; lia|].
  assert (forall x, 0 <= x < 4294967296 -> x = Z.land x (Z.ones 32)) as Hm.
  { intros x Hx. rewrite Z.land_ones by lia. symmetry. by apply Z.mod_small. }
  rewrite (Hm a), (Hm b), <- Z.land_lor_distr_l, Z.land_ones by lia.
  by apply Z.mod_pos_bound.
Qed.

(** One bit of a word, as C tests it. *)
Lemma land_bit a k : 0 <= k -> negb (Z.land a (2 ^ k) =? 0) = Z.testbit a k.
Proof.
  intros Hk. destruct (Z.testbit a k) eqn:E.
  - apply negb_true_iff, Z.eqb_neq. intros H.
    assert (Z.testbit (Z.land a (2 ^ k)) k = true) as Hb
      by (rewrite Z.land_spec, E, Z.pow2_bits_true by done; done).
    by rewrite H, Z.bits_0 in Hb.
  - apply negb_false_iff, Z.eqb_eq, Z.bits_inj'. intros i Hi.
    rewrite Z.land_spec, Z.bits_0. destruct (Z.eq_dec i k) as [->|Hne]; [by rewrite E|].
    by rewrite Z.pow2_bits_false, andb_false_r by done.
Qed.

Section Prog.
Context {S : Type}.

Definition ret {A} (a : A) : prog S A := fun s => Done a s.

Definition bind {A B} (c : prog S A) (k : A -> prog S B) : prog S B := fun s =>
  match c s with
  | Done a s' => k a s'
  | Panicked msg s' => Panicked msg s'
  | OutOfFuel => OutOfFuel
  | Undefined => Undefined
  end.

(** The state, a projection of it, and its update. *)
Definition gets {A} (f : S -> A) : prog S A := fun s => Done (f s) s.
Definition modify (f : S -> S) : prog S unit := fun s => Done tt (f s).

Lemma bind_ret_l {A B} (a : A) (k : A -> prog S B) s : bind (ret a) k s = k a s.
Proof. reflexivity. Qed.

Lemma bind_ret_r {A} (c : prog S A) s : bind c ret s = c s.
Proof. unfold bind, ret. by destruct (c s). Qed.

Lemma bind_assoc {A B C} (c : prog S A) (k : A -> prog S B) (h : B -> prog S C) s :
  bind (bind c k) h s = bind c (fun a => bind (k a) h) s.
Proof. unfold bind. by destruct (c s). Qed.

Lemma bind_Done {A B} (c : prog S A) (k : A -> prog S B) s a s' :
  c s = Done a s' -> bind c k s = k a s'.
Proof. unfold bind. by intros ->. Qed.

Lemma bind_Undefined {A B} (c : prog S A) (k : A -> prog S B) s :
  c s = Undefined -> bind c k s = Undefined.
Proof. intros E. unfold bind. by rewrite E. Qed.

Lemma bind_Panicked {A B} (c : prog S A) (k : A -> prog S B) s msg s' :
  c s = Panicked msg s' -> bind c k s = Panicked msg s'.
Proof. unfold bind. by intros ->. Qed.

(** Run [f] on [i], [i+1], ..., [i+n-1] in order: a [for] loop with a fixed
    number of rounds. *)
Fixpoint for_loop (n : nat) (i : Z) (f : Z -> prog S unit) : prog S unit :=
  match n with
  | O => ret tt
  | Datatypes.S n' => bind (f i) (fun _ => for_loop n' (i + 1) f)
  end.

(** An invariant indexed by the counter. *)
Lemma for_loop_inv (P : Z -> S -> Prop) n i f s :
  P i s ->
  (forall j s', i <= j < i + Z.of_nat n -> P j s' -> exists s'', f j s' = Done tt s'' /\ P (j + 1) s'') ->
  exists s', for_loop n i f s = Done tt s' /\ P (i + Z.of_nat n) s'.
Proof.
  revert i s. induction n as [|n IH]; intros i s H0 Hstep.
  { exists s. split; [done|]. by rewrite Z.add_0_r. }
  destruct (Hstep i s) as (s1 & E1 & H1); [lia|done|].
  destruct (IH (i + 1) s1 H1) as (s2 & E2 & H2).
  { intros j s' Hj. apply Hstep. lia. }
  exists s2. cbn [for_loop]. rewrite (bind_Done _ _ _ _ _ E1). split; [done|].
  by replace (i + Z.of_nat (Datatypes.S n)) with (i + 1 + Z.of_nat n) by lia.
Qed.
End Prog.

(** A fuelled program that returns: some fuel is enough, and more fuel changes
    nothing. *)
Definition returns {S A} (c : nat -> prog S A) (s : S) (a : A) (s' : S) : Prop :=
  exists n, forall fuel, (n < fuel)%nat -> c fuel s = Done a s'.
Definition panics {S A} (c : nat -> prog S A) (s : S) (msg : string) (s' : S) : Prop :=
  exists n, forall fuel, (n < fuel)%nat -> c fuel s = Panicked msg s'.

(** A run that comes to what the language or the processor gives no meaning, or a fault. *)
Definition faults {S A} (c : nat -> prog S A) (s : S) : Prop :=
  exists n, forall fuel, (n < fuel)%nat -> c fuel s = Undefined.

Lemma returns_unique {S A} (c : nat -> prog S A) s a1 s1 a2 s2 :
  returns c s a1 s1 -> returns c s a2 s2 -> a1 = a2 /\ s1 = s2.
Proof.
  intros [n1 H1] [n2 H2]. specialize (H1 (Datatypes.S (n1 + n2)) ltac:(lia)).
  specialize (H2 (Datatypes.S (n1 + n2)) ltac:(lia)). rewrite H1 in H2. by injection H2.
Qed.

Lemma returns_not_panics {S A} (c : nat -> prog S A) s a s1 msg s2 :
  returns c s a s1 -> panics c s msg s2 -> False.
Proof.
  intros [n1 H1] [n2 H2]. specialize (H1 (Datatypes.S (n1 + n2)) ltac:(lia)).
  specialize (H2 (Datatypes.S (n1 + n2)) ltac:(lia)). by rewrite H1 in H2.
Qed.

Lemma returns_bind {S A B} (c : nat -> prog S A) (k : A -> nat -> prog S B) s a s1 b s2 :
  returns c s a s1 -> returns (k a) s1 b s2 ->
  returns (fun fuel => bind (c fuel) (fun x => k x fuel)) s b s2.
Proof.
  intros [n1 H1] [n2 H2]. exists (n1 + n2)%nat. intros fuel Hf.
  rewrite (bind_Done _ _ _ _ _ (H1 fuel ltac:(lia))). apply H2. lia.
Qed.

(** A program that needs no fuel. *)
Lemma returns_const {S A} (c : prog S A) s a s' : c s = Done a s' -> returns (fun _ => c) s a s'.
Proof. intros E. by exists 0%nat. Qed.

Notation "'let*' x ':=' c 'in' k" := (bind c (fun x => k))
  (at level 10, x name, c at level 100, k at level 200) : cpp_scope.
Notation "'do*' c 'in' k" := (bind c (fun _ => k))
  (at level 10, c at level 100, k at level 200) : cpp_scope.

(** Decompose one successful [bind] of a computed program. *)
Ltac step_bind H := erewrite bind_Done by (exact H).

(** ** Lists *)

Lemma lookup_total_app_l {A} `{!Inhabited A} (l k : list A) (i : nat) :
  (i < List.length l)%nat -> (l ++ k) !!! i = l !!! i.
Proof. intros. rewrite !list_lookup_total_alt. by rewrite lookup_app_l. Qed.

(** The bytes of a Coq string, as the [char] array of a C string literal
    without its terminator. *)
Definition bytes_of_string (s : string) : list Z :=
  map (fun c => Z.of_nat (nat_of_ascii c)) (list_ascii_of_string s).
