(* ===== verification/PhysMem.v ===== *)
(** Physical memory: the flat 32-bit address space both programs run in (no
    paging), as a finite map from addresses to bytes.  Every address can be
    read; an address that was never written reads as 0, and the theorems
    quantify over the initial map, so memory contents are arbitrary. *)

From S2P Require Import Prelude.

Abbreviation mem := (gmap Z Z).

(** ** Bytes *)

Definition rd8 (m : mem) (a : Z) : Z := u8 (default 0 (m !! u32 a)).
Definition wr8 (m : mem) (a v : Z) : mem := <[u32 a := u8 v]> m.

(** ** Little-endian integers of [n] bytes *)

Fixpoint load (n : nat) (m : mem) (a : Z) : Z :=
  match n with
  | O => 0
  | S n' => rd8 m a + 256 * load n' m (a + 1)
  end.

Fixpoint store (n : nat) (m : mem) (a v : Z) : mem :=
  match n with
  | O => m
  | S n' => store n' (wr8 m a v) (a + 1) (v / 256)
  end.

Abbreviation ld16 := (load 2).
Abbreviation ld32 := (load 4).
Abbreviation ld64 := (load 8).
Abbreviation st16 := (store 2).
Abbreviation st32 := (store 4).
Abbreviation st64 := (store 8).

(** ** Byte strings *)

Fixpoint read_bytes (m : mem) (a : Z) (n : nat) : list Z :=
  match n with
  | O => []
  | S n' => rd8 m a :: read_bytes m (a + 1) n'
  end.

Fixpoint write_bytes (m : mem) (a : Z) (l : list Z) : mem :=
  match l with
  | [] => m
  | b :: l' => write_bytes (wr8 m a b) (a + 1) l'
  end.

(** ** Equality of contents, and frames *)

(** Two memories with the same contents: coarser than equality of the maps. *)
Definition mem_eq (m1 m2 : mem) : Prop := forall a, rd8 m1 a = rd8 m2 a.
Infix "≃" := mem_eq (at level 70, no associativity).

(** [b] is one of the [n] addresses from [a] on (modulo 2^32). *)
Definition in_range (a n b : Z) : bool := u32 (b - a) <? n.

(** [m'] differs from [m] at most in the [n] bytes from [a] on. *)
Definition only_changes (a n : Z) (m m' : mem) : Prop :=
  forall b, in_range a n b = false -> rd8 m' b = rd8 m b.

#[export] Instance mem_eq_equiv : Equivalence mem_eq.
Proof. split; repeat intro; [done | by symmetry | etrans; eauto]. Qed.

Lemma rd8_bounds m a : 0 <= rd8 m a < 256.
Proof. apply u8_bounds. Qed.

Lemma rd8_u32 m a : rd8 m (u32 a) = rd8 m a.
Proof. unfold rd8. by rewrite wrap_wrap. Qed.

Lemma rd8_cong m a b : u32 a = u32 b -> rd8 m a = rd8 m b.
Proof. unfold rd8. by intros ->. Qed.

Lemma rd8_wr8_eq m a b v : u32 a = u32 b -> rd8 (wr8 m a v) b = u8 v.
Proof. unfold rd8, wr8. intros ->. rewrite lookup_insert_eq. apply wrap_wrap. Qed.

Lemma rd8_wr8_ne m a b v : u32 a <> u32 b -> rd8 (wr8 m a v) b = rd8 m b.
Proof. unfold rd8, wr8. intros. by rewrite lookup_insert_ne. Qed.

#[export] Instance rd8_proper : Proper (mem_eq ==> eq ==> eq) rd8.
Proof. intros m1 m2 H a b ->. apply H. Qed.

#[export] Instance wr8_proper : Proper (mem_eq ==> eq ==> eq ==> mem_eq) wr8.
Proof.
  intros m1 m2 H a ? <- v ? <- b.
  destruct (decide (u32 a = u32 b)).
  - by rewrite !rd8_wr8_eq.
  - rewrite !rd8_wr8_ne by done. apply H.
Qed.

#[export] Instance load_proper n : Proper (mem_eq ==> eq ==> eq) (load n).
Proof.
  induction n as [|n IH]; intros m1 m2 H a ? <-; cbn [load]; [done|].
  by rewrite H.
Qed.

#[export] Instance store_proper n : Proper (mem_eq ==> eq ==> eq ==> mem_eq) (store n).
Proof.
  induction n as [|n IH]; intros m1 m2 H a ? <- v ? <-; cbn [store]; [done|].
  apply IH; [by rewrite H | done | done].
Qed.

#[export] Instance read_bytes_proper : Proper (mem_eq ==> eq ==> eq ==> eq) read_bytes.
Proof.
  intros m1 m2 H a ? <- n ? <-. revert a.
  induction n as [|n IH]; intros a; simpl; [done|]. by rewrite H, IH.
Qed.

#[export] Instance write_bytes_proper :
  Proper (mem_eq ==> eq ==> eq ==> mem_eq) write_bytes.
Proof.
  intros m1 m2 H a ? <- l ? <-. revert m1 m2 a H.
  induction l as [|b l IH]; intros m1 m2 a H; simpl; [done|].
  apply IH. by rewrite H.
Qed.

(** ** Ranges *)

Lemma in_range_ge a n b : n <= u32 (b - a) -> in_range a n b = false.
Proof. apply Z.ltb_ge. Qed.
Lemma in_range_lt a n b : u32 (b - a) < n -> in_range a n b = true.
Proof. apply Z.ltb_lt. Qed.

Lemma in_range_nowrap a n b :
  0 <= a -> a + n <= 4294967296 -> 0 <= b < 4294967296 ->
  in_range a n b = (a <=? b) && (b <? a + n).
Proof.
  unfold in_range. intros.
  destruct (Z.leb_spec a b); cbn [andb].
  - rewrite u32_small by lia.
    apply Bool.eq_iff_eq_true. rewrite !Z.ltb_lt. lia.
  - apply Z.ltb_ge. wrap_lia.
Qed.

(** The usual way to show that an access misses a range: no address wraps. *)
Lemma in_range_false a n b :
  0 <= a -> a + n <= 4294967296 -> 0 <= b < 4294967296 ->
  b < a \/ a + n <= b -> in_range a n b = false.
Proof.
  intros. rewrite in_range_nowrap by done.
  destruct (Z.leb_spec a b), (Z.ltb_spec b (a + n)); simpl; lia.
Qed.

Lemma u32_sub_zero a b : u32 (b - a) = 0 <-> u32 a = u32 b.
Proof. wrap_lia. Qed.

(** The byte at [b] after storing [n] bytes of [v] at [a]. *)
Lemma rd8_store n m a v b :
  Z.of_nat n < 4294967296 ->
  rd8 (store n m a v) b =
    if in_range a (Z.of_nat n) b then u8 (v / 256 ^ u32 (b - a)) else rd8 m b.
Proof.
  revert m a v. induction n as [|n IH]; intros m a v Hn; cbn [store].
  { unfold in_range. pose proof (u32_bounds (b - a)).
    by rewrite (proj2 (Z.ltb_ge _ _)) by lia. }
  rewrite IH by lia. unfold in_range.
  destruct (decide (u32 a = u32 b)) as [E|E].
  - apply u32_sub_zero in E as E0.
    rewrite (proj2 (Z.ltb_ge (u32 (b - (a + 1))) _)) by wrap_lia.
    rewrite E0, (proj2 (Z.ltb_lt 0 _)), Z.div_1_r by lia.
    by rewrite rd8_wr8_eq.
  - assert (u32 (b - a) = u32 (b - (a + 1)) + 1) as Hs.
    { assert (u32 (b - a) <> 0) by (rewrite u32_sub_zero; done). wrap_lia. }
    pose proof (u32_bounds (b - (a + 1))). rewrite Hs.
    destruct (Z.ltb_spec (u32 (b - (a + 1))) (Z.of_nat n)).
    + rewrite (proj2 (Z.ltb_lt _ _)) by lia. f_equal.
      by rewrite Z.div_div, Z.pow_add_r, Z.mul_comm by lia.
    + rewrite (proj2 (Z.ltb_ge _ _)) by lia. by rewrite rd8_wr8_ne.
Qed.

Lemma store_only_changes n m a v :
  Z.of_nat n < 4294967296 -> only_changes a (Z.of_nat n) m (store n m a v).
Proof. intros Hn b Hb. rewrite rd8_store by done. by rewrite Hb. Qed.

Lemma load_ext n m1 m2 a b :
  (forall i, 0 <= i < Z.of_nat n -> rd8 m1 (a + i) = rd8 m2 (b + i)) ->
  load n m1 a = load n m2 b.
Proof.
  revert a b. induction n as [|n IH]; intros a b H; cbn [load read_bytes]; [done|].
  rewrite (IH (a + 1) (b + 1)).
  - specialize (H 0). rewrite !Z.add_0_r in H. rewrite H by lia. done.
  - intros i Hi. specialize (H (i + 1)).
    replace (a + 1 + i) with (a + (i + 1)) by lia.
    replace (b + 1 + i) with (b + (i + 1)) by lia. apply H. lia.
Qed.

Lemma load_bounds n m a : 0 <= load n m a < 256 ^ Z.of_nat n.
Proof.
  revert a. induction n as [|n IH]; intros a; simpl load; [lia|].
  specialize (IH (a + 1)). pose proof (rd8_bounds m a).
  rewrite Nat2Z.inj_succ, Z.pow_succ_r by lia. nia.
Qed.

Lemma ld16_bounds m a : 0 <= ld16 m a < 65536.
Proof. apply (load_bounds 2). Qed.
Lemma ld32_bounds m a : 0 <= ld32 m a < 4294967296.
Proof. apply (load_bounds 4). Qed.
Lemma ld64_bounds m a : 0 <= ld64 m a < 18446744073709551616.
Proof. apply (load_bounds 8). Qed.
#[export] Hint Resolve rd8_bounds ld16_bounds ld32_bounds ld64_bounds : wrap.

(** Reading back what was stored. *)
Lemma load_store n m a v :
  Z.of_nat n < 4294967296 -> load n (store n m a v) a = v mod 256 ^ Z.of_nat n.
Proof.
  revert m a v. induction n as [|n IH]; intros m a v Hn.
  { simpl. by rewrite Z.mod_1_r. }
  cbn [load store]. rewrite IH by lia.
  rewrite rd8_store by lia.
  rewrite in_range_ge by wrap_lia.
  rewrite rd8_wr8_eq by done.
  rewrite Nat2Z.inj_succ, Z.pow_succ_r by lia.
  rewrite Z.rem_mul_r by lia. unfold wrap. pow2_simpl. lia.
Qed.

(** A load that does not overlap the changed range is unchanged. *)
Lemma load_frame n m m' a k b :
  only_changes a k m m' ->
  (forall i, 0 <= i < Z.of_nat n -> in_range a k (b + i) = false) ->
  load n m' b = load n m b.
Proof. intros H Hd. apply load_ext. intros i Hi. apply H, Hd, Hi. Qed.

Lemma load_store_ne n k m a v b :
  Z.of_nat k < 4294967296 ->
  (forall i, 0 <= i < Z.of_nat n -> in_range a (Z.of_nat k) (b + i) = false) ->
  load n (store k m a v) b = load n m b.
Proof. intros Hk. apply load_frame. by apply store_only_changes. Qed.

(** ** Byte strings in memory *)

Lemma length_read_bytes m a n : List.length (read_bytes m a n) = n.
Proof. revert a. induction n; intros; simpl; auto. Qed.

Lemma lookup_read_bytes m a n (i : nat) :
  (i < n)%nat -> read_bytes m a n !! i = Some (rd8 m (a + Z.of_nat i)).
Proof.
  revert a i. induction n as [|n IH]; intros a i Hi; [lia|].
  destruct i as [|i]; simpl.
  - by rewrite Z.add_0_r.
  - rewrite IH by lia. f_equal. f_equal. lia.
Qed.

Lemma read_bytes_ext m1 m2 a b n :
  (forall i, 0 <= i < Z.of_nat n -> rd8 m1 (a + i) = rd8 m2 (b + i)) ->
  read_bytes m1 a n = read_bytes m2 b n.
Proof.
  revert a b. induction n as [|n IH]; intros a b H; cbn [load read_bytes]; [done|].
  rewrite (IH (a + 1) (b + 1)).
  - specialize (H 0). rewrite !Z.add_0_r in H. rewrite H by lia. done.
  - intros i Hi. specialize (H (i + 1)).
    replace (a + 1 + i) with (a + (i + 1)) by lia.
    replace (b + 1 + i) with (b + (i + 1)) by lia. apply H. lia.
Qed.

Lemma rd8_write_bytes m a l b :
  Z.of_nat (List.length l) < 4294967296 ->
  rd8 (write_bytes m a l) b =
    match l !! Z.to_nat (u32 (b - a)) with
    | Some v => u8 v
    | None => rd8 m b
    end.
Proof.
  revert m a. induction l as [|v l IH]; intros m a Hl; simpl in *; [done|].
  rewrite IH by lia.
  destruct (decide (u32 a = u32 b)) as [E|E].
  - apply u32_sub_zero in E as E0. rewrite E0. simpl.
    rewrite lookup_ge_None_2 by wrap_lia.
    by rewrite rd8_wr8_eq.
  - assert (u32 (b - a) = u32 (b - (a + 1)) + 1) as Hs.
    { assert (u32 (b - a) <> 0) by (rewrite u32_sub_zero; done). wrap_lia. }
    pose proof (u32_bounds (b - (a + 1))).
    rewrite Hs. rewrite Z2Nat.inj_add, Nat.add_comm by lia. simpl.
    destruct (l !! Z.to_nat (u32 (b - (a + 1)))); [done|].
    by rewrite rd8_wr8_ne.
Qed.

Lemma write_bytes_only_changes m a l :
  Z.of_nat (List.length l) < 4294967296 ->
  only_changes a (Z.of_nat (List.length l)) m (write_bytes m a l).
Proof.
  intros Hl b Hb. rewrite rd8_write_bytes by done.
  apply Z.ltb_ge in Hb. pose proof (u32_bounds (b - a)).
  by rewrite lookup_ge_None_2 by lia.
Qed.

Lemma write_bytes_app m a l1 l2 :
  write_bytes m a (l1 ++ l2) =
    write_bytes (write_bytes m a l1) (a + Z.of_nat (List.length l1)) l2.
Proof.
  revert m a. induction l1 as [|b l1 IH]; intros m a; cbn [app write_bytes].
  - by rewrite Z.add_0_r.
  - rewrite IH. f_equal. simpl. lia.
Qed.

(** What was written is read back, for a list of bytes. *)
Lemma read_write_bytes m a l :
  Z.of_nat (List.length l) < 4294967296 ->
  Forall (fun v => 0 <= v < 256) l ->
  read_bytes (write_bytes m a l) a (List.length l) = l.
Proof.
  intros Hl Hb. apply list_eq. intros i.
  destruct (decide (i < List.length l)%nat) as [Hi|Hi].
  - rewrite lookup_read_bytes, rd8_write_bytes by lia.
    replace (a + Z.of_nat i - a) with (Z.of_nat i) by lia.
    rewrite u32_small, Nat2Z.id by lia.
    destruct (lookup_lt_is_Some_2 l i Hi) as [v Hv]. rewrite Hv.
    f_equal. apply u8_small. by apply (Forall_lookup_1 _ _ _ _ Hb Hv).
  - rewrite !lookup_ge_None_2; [done| lia | rewrite length_read_bytes; lia].
Qed.

Lemma read_bytes_frame m m' a k b n :
  only_changes a k m m' ->
  (forall i, 0 <= i < Z.of_nat n -> in_range a k (b + i) = false) ->
  read_bytes m' b n = read_bytes m b n.
Proof. intros H Hd. apply read_bytes_ext. intros i Hi. apply H, Hd, Hi. Qed.

Lemma read_bytes_bounds m a n : Forall (fun v => 0 <= v < 256) (read_bytes m a n).
Proof.
  revert a. induction n as [|n IH]; intros a; cbn [read_bytes]; constructor.
  - apply rd8_bounds.
  - apply IH.
Qed.

Lemma only_changes_refl a n m : only_changes a n m m.
Proof. by intros b _. Qed.

Lemma only_changes_trans a n m1 m2 m3 :
  only_changes a n m1 m2 -> only_changes a n m2 m3 -> only_changes a n m1 m3.
Proof. intros H1 H2 b Hb. by rewrite H2, H1. Qed.

Lemma only_changes_weaken a n a' n' m m' :
  only_changes a n m m' ->
  (forall b, in_range a' n' b = false -> in_range a n b = false) -> only_changes a' n' m m'.
Proof. intros H Hi b Hb. apply H. eauto. Qed.

#[export] Hint Resolve only_changes_refl store_only_changes write_bytes_only_changes : wrap.

(** A region of [n] bytes that does not wrap around the address space. *)
Definition fits (p n : Z) : Prop := 0 <= p /\ 0 <= n /\ p + n <= 4294967296.

(** The frame in the form most proofs use it: no address wraps. *)
Lemma only_changes_out a n m m' b :
  only_changes a n m m' -> fits a n -> 0 <= b < 4294967296 -> b < a \/ a + n <= b ->
  rd8 m' b = rd8 m b.
Proof. intros H (?&?&?) Hb Ho. apply H. by apply in_range_false. Qed.

Lemma only_changes_intro a n m m' :
  fits a n ->
  (forall b, 0 <= b < 4294967296 -> b < a \/ a + n <= b -> rd8 m' b = rd8 m b) ->
  only_changes a n m m'.
Proof.
  intros (?&?&?) Ho b Hb. rewrite <- (rd8_u32 m'), <- (rd8_u32 m b).
  pose proof (u32_bounds b). apply Ho; [done|].
  apply Z.ltb_ge in Hb. rewrite <- wrap_sub_l in Hb.
  destruct (Z.lt_ge_cases (u32 b) a); [lia|]. rewrite u32_small in Hb by lia. lia.
Qed.

Lemma only_changes_sub a n a' n' m m' :
  only_changes a n m m' -> fits a' n' -> a' <= a -> 0 <= n -> a + n <= a' + n' ->
  only_changes a' n' m m'.
Proof.
  intros H (?&?&?) ???. apply only_changes_intro; [done|].
  intros b Hb Ho. eapply only_changes_out; [done|unfold fits; lia|done|lia].
Qed.

(** Integers read away from a change. *)
Lemma load_out n m m' a k b :
  only_changes a k m m' -> fits a k -> fits b (Z.of_nat n) ->
  b + Z.of_nat n <= a \/ a + k <= b -> load n m' b = load n m b.
Proof.
  intros H Ha (?&?&?) Ho. apply load_ext. intros i Hi.
  eapply only_changes_out; [done..|lia|lia].
Qed.

(** ** Stores that do not wrap, and what they leave alone *)

Lemma rd8_store_out n m a v b :
  0 <= a -> Z.of_nat n < 4294967296 -> a + Z.of_nat n <= 4294967296 -> 0 <= b < 4294967296 ->
  b < a \/ a + Z.of_nat n <= b -> rd8 (store n m a v) b = rd8 m b.
Proof. intros ? Hn ? ? ?. apply (store_only_changes n m a v Hn), in_range_false; done. Qed.

Lemma ld32_st32_out m a v p :
  0 <= a -> a + 4 <= 4294967296 -> 0 <= p -> p + 4 <= 4294967296 -> p + 4 <= a \/ a + 4 <= p ->
  ld32 (st32 m a v) p = ld32 m p.
Proof. intros. apply load_ext. intros i Hi. apply rd8_store_out; cbn in *; lia. Qed.

Lemma ld32_st32 m a v : 0 <= v < 4294967296 -> ld32 (st32 m a v) a = v.
Proof. intros. rewrite load_store by (cbn; lia). by apply Z.mod_small. Qed.

(** ** Integers as byte strings *)

Fixpoint bytes_le (n : nat) (v : Z) : list Z :=
  match n with
  | O => []
  | S n' => v mod 256 :: bytes_le n' (v / 256)
  end.

Lemma length_bytes_le n v : List.length (bytes_le n v) = n.
Proof. revert v. induction n; intros; simpl; auto. Qed.

Lemma bytes_le_Forall n v : Forall (fun c => 0 <= c < 256) (bytes_le n v).
Proof.
  revert v. induction n as [|n IH]; intros v; cbn [bytes_le]; constructor.
  - apply Z.mod_pos_bound. lia.
  - apply IH.
Qed.

Lemma bytes_le_app n k v : bytes_le (n + k) v = bytes_le n v ++ bytes_le k (v / 256 ^ Z.of_nat n).
Proof.
  revert v. induction n as [|n IH]; intros v; cbn [bytes_le Nat.add app].
  - by rewrite Z.div_1_r.
  - rewrite IH, Z.div_div, Nat2Z.inj_succ, Z.pow_succ_r by lia. done.
Qed.

Lemma load_app n k m a :
  load (n + k) m a = load n m a + 256 ^ Z.of_nat n * load k m (a + Z.of_nat n).
Proof.
  revert a. induction n as [|n IH]; intros a; cbn [load Nat.add].
  - rewrite Z.add_0_r. change (256 ^ Z.of_nat 0) with 1. lia.
  - rewrite IH, Nat2Z.inj_succ, Z.pow_succ_r by lia.
    replace (a + 1 + Z.of_nat n) with (a + Z.succ (Z.of_nat n)) by lia. lia.
Qed.

(** The bytes [l] are at [a]. *)
Definition bytes_at (m : mem) (a : Z) (l : list Z) : Prop :=
  forall i c, l !! i = Some c -> rd8 m (a + Z.of_nat i) = c.

Lemma bytes_at_app m a l1 l2 :
  bytes_at m a (l1 ++ l2) <-> bytes_at m a l1 /\ bytes_at m (a + Z.of_nat (List.length l1)) l2.
Proof.
  split.
  - intros H. split.
    + intros i c Hi. apply H. by apply lookup_app_l_Some.
    + intros i c Hi. rewrite <- Z.add_assoc, <- Nat2Z.inj_add. apply H.
      rewrite lookup_app_r by lia. by rewrite Nat.add_comm, Nat.add_sub.
  - intros [H1 H2] i c Hi. apply lookup_app_Some in Hi as [Hi|[Hl Hi]]; [by apply H1|].
    rewrite <- (H2 _ _ Hi). f_equal. lia.
Qed.

Lemma load_bytes_le m a n v : bytes_at m a (bytes_le n v) -> load n m a = v mod 256 ^ Z.of_nat n.
Proof.
  revert a v. induction n as [|n IH]; intros a v H; cbn [load].
  - by rewrite Z.mod_1_r.
  - rewrite <- (Z.add_0_r a) at 1. rewrite (H 0%nat (v mod 256) eq_refl : rd8 m (a + 0) = _).
    rewrite (IH (a + 1) (v / 256)).
    + rewrite Nat2Z.inj_succ, Z.pow_succ_r, Z.rem_mul_r by lia. done.
    + intros i c Hi. rewrite <- (H (S i) c Hi). f_equal. lia.
Qed.

Lemma bytes_at_ext m m' a l :
  (forall i, 0 <= i < Z.of_nat (List.length l) -> rd8 m' (a + i) = rd8 m (a + i)) ->
  bytes_at m a l -> bytes_at m' a l.
Proof.
  intros He H i c Hi. rewrite He; [by apply H|]. apply lookup_lt_Some in Hi. lia.
Qed.
