(* ===== verification/Layout.v ===== *)
(** Struct layouts as the i386 System V ABI gives them to the C++ structs of
    the repository: fields in order, each at its alignment unless the struct is
    [__attribute__((packed))], with access to a field of a struct in memory. *)

From S2P Require Import Prelude PhysMem.

(** ** Field types

    [uint64_t] is aligned to 4 bytes inside a struct on i386. *)
Inductive ctype : Type :=
  | U8 | U16 | U32 | U64
  | Arr (n : Z) (t : ctype)
  | Sub (size align : Z).

Fixpoint ty_size (t : ctype) : Z :=
  match t with
  | U8 => 1 | U16 => 2 | U32 => 4 | U64 => 8
  | Arr n t' => n * ty_size t'
  | Sub s _ => s
  end.

Fixpoint ty_align (t : ctype) : Z :=
  match t with
  | U8 => 1 | U16 => 2 | U32 => 4 | U64 => 4
  | Arr _ t' => ty_align t'
  | Sub _ a => a
  end.

Record layout : Type := Layout {
  l_packed : bool;
  l_fields : list (string * ctype);
}.

Definition align_up (off a : Z) : Z := (off + a - 1) / a * a.

Definition place (packed : bool) (off : Z) (t : ctype) : Z :=
  if packed then off else align_up off (ty_align t).

(** The offset and the type of field [f], the fields starting at [off]. *)
Fixpoint find_field (packed : bool) (off : Z) (fs : list (string * ctype)) (f : string) :
    option (Z * ctype) :=
  match fs with
  | [] => None
  | (g, t) :: fs' =>
      let o := place packed off t in
      if String.eqb f g then Some (o, t)
      else find_field packed (o + ty_size t) fs' f
  end.

Fixpoint end_of (packed : bool) (off : Z) (fs : list (string * ctype)) : Z :=
  match fs with
  | [] => off
  | (_, t) :: fs' => end_of packed (place packed off t + ty_size t) fs'
  end.

Definition l_align (L : layout) : Z :=
  if l_packed L then 1 else fold_right (fun ft a => Z.max (ty_align (snd ft)) a) 1 (l_fields L).

Definition sizeof (L : layout) : Z := align_up (end_of (l_packed L) 0 (l_fields L)) (l_align L).

Definition field_of (L : layout) (f : string) : option (Z * ctype) :=
  find_field (l_packed L) 0 (l_fields L) f.

(** [offsetof(L, f)] and the size of the field; the model only uses names the
    struct has. *)
Definition offsetof (L : layout) (f : string) : Z :=
  match field_of L f with Some (o, _) => o | None => -1 end.
Definition fieldsize (L : layout) (f : string) : Z :=
  match field_of L f with Some (_, t) => ty_size t | None => 0 end.

(** [p->f] as a value and as an assignment. *)
Definition get (L : layout) (f : string) (m : mem) (p : Z) : Z :=
  load (Z.to_nat (fieldsize L f)) m (p + offsetof L f).
Definition put (L : layout) (f : string) (m : mem) (p v : Z) : mem :=
  store (Z.to_nat (fieldsize L f)) m (p + offsetof L f) v.

(** A struct as a nested field type. *)
Definition sub (L : layout) : ctype := Sub (sizeof L) (l_align L).

(** ** Well-formed layouts: fields with positive alignment and natural size *)

Fixpoint ty_ok (t : ctype) : bool :=
  match t with
  | Arr n t' => (0 <=? n) && ty_ok t'
  | Sub s a => (0 <=? s) && (0 <? a)
  | _ => true
  end.

Definition layout_ok (L : layout) : bool :=
  forallb (fun ft => ty_ok (snd ft)) (l_fields L) && (sizeof L <? 2147483648).

Lemma ty_ok_size t : ty_ok t = true -> 0 <= ty_size t /\ 0 < ty_align t.
Proof.
  induction t as [| | | |n t IH|s a]; cbn -[Z.mul]; try lia.
  intros [Hn Ht]%andb_prop. apply IH in Ht. nia.
Qed.

Lemma align_up_ge off a : 0 < a -> off <= align_up off a.
Proof. unfold align_up. intros. pose proof (Z.mod_pos_bound (off + a - 1) a). pose proof (Z.div_mod (off + a - 1) a). nia. Qed.

Lemma place_ge packed off t : ty_ok t = true -> off <= place packed off t.
Proof.
  intros [_ Ha]%ty_ok_size. unfold place. destruct packed; [lia | by apply align_up_ge].
Qed.

Lemma end_of_ge packed off fs :
  forallb (fun ft => ty_ok (snd ft)) fs = true -> off <= end_of packed off fs.
Proof.
  revert off. induction fs as [|[g t] fs IH]; intros off; cbn; [lia|].
  intros [Ht Hfs]%andb_prop. specialize (IH (place packed off t + ty_size t) Hfs).
  pose proof (place_ge packed off t Ht). apply ty_ok_size in Ht. lia.
Qed.

Lemma find_field_bounds packed off fs f o t :
  forallb (fun ft => ty_ok (snd ft)) fs = true ->
  find_field packed off fs f = Some (o, t) ->
  off <= o /\ o + ty_size t <= end_of packed off fs /\ 0 <= ty_size t.
Proof.
  revert off. induction fs as [|[g t'] fs IH]; intros off; cbn; [done|].
  intros [Ht Hfs]%andb_prop. pose proof (place_ge packed off t' Ht).
  pose proof (ty_ok_size _ Ht). destruct (String.eqb f g).
  - intros [= <- <-]. pose proof (end_of_ge packed (place packed off t' + ty_size t') fs Hfs).
    lia.
  - intros Hf. apply IH in Hf; [lia | done].
Qed.

(** Two fields of different names do not overlap. *)
Lemma find_field_disjoint packed off fs f g o1 t1 o2 t2 :
  forallb (fun ft => ty_ok (snd ft)) fs = true -> f <> g ->
  find_field packed off fs f = Some (o1, t1) ->
  find_field packed off fs g = Some (o2, t2) ->
  o1 + ty_size t1 <= o2 \/ o2 + ty_size t2 <= o1.
Proof.
  intros Hok Hne. revert off Hok.
  induction fs as [|[h t] fs IH]; intros off; cbn; [done|].
  intros [Ht Hfs]%andb_prop.
  destruct (String.eqb_spec f h) as [->|Hf], (String.eqb_spec g h) as [->|Hg]; [done| | |].
  - intros [= <- <-] H2. left. by apply find_field_bounds in H2 as (? & _).
  - intros H1 [= <- <-]. right. by apply find_field_bounds in H1 as (? & _).
  - by apply IH.
Qed.

Lemma l_align_pos L : 0 < l_align L.
Proof.
  unfold l_align. destruct (l_packed L); [lia|].
  induction (l_fields L) as [|ft fs IH]; cbn [fold_right]; lia.
Qed.

Lemma field_of_bounds L f o t :
  layout_ok L = true -> field_of L f = Some (o, t) ->
  0 <= o /\ 0 <= ty_size t /\ o + ty_size t <= sizeof L /\ sizeof L < 2147483648.
Proof.
  intros [Hok Hs]%andb_prop Hf. apply find_field_bounds in Hf as (?&?&?); [|done].
  pose proof (l_align_pos L) as Ha.
  pose proof (align_up_ge (end_of (l_packed L) 0 (l_fields L)) _ Ha).
  unfold sizeof in *. lia.
Qed.

(** ** Field access laws *)

Lemma get_put_eq L f m p v :
  layout_ok L = true ->
  get L f (put L f m p v) p = v mod 256 ^ fieldsize L f.
Proof.
  intros Hok. unfold get, put, fieldsize, offsetof.
  destruct (field_of L f) as [[o t]|] eqn:E; [|by rewrite Z.mod_1_r].
  apply field_of_bounds in E; [|done].
  rewrite load_store by lia. by rewrite Z2Nat.id by lia.
Qed.

Lemma get_put_ne L f g m p v :
  layout_ok L = true -> f <> g -> get L g (put L f m p v) p = get L g m p.
Proof.
  intros Hok Hne. unfold get, put, fieldsize, offsetof.
  destruct (field_of L f) as [[o1 t1]|] eqn:E1; [|done].
  destruct (field_of L g) as [[o2 t2]|] eqn:E2; [|done].
  pose proof (field_of_bounds _ _ _ _ Hok E1). pose proof (field_of_bounds _ _ _ _ Hok E2).
  apply andb_prop in Hok as [Hok _].
  pose proof (find_field_disjoint _ _ _ _ _ _ _ _ _ Hok Hne E1 E2).
  apply load_store_ne; [lia|]. intros i Hi. apply in_range_ge.
  destruct (Z.le_gt_cases (o1 + ty_size t1) o2).
  - rewrite u32_small by lia. lia.
  - unfold wrap. rewrite <- (Z.mod_add _ 1) by lia. rewrite Z.mod_small by lia. lia.
Qed.

(** Assigning a field changes nothing outside the struct. *)
Lemma put_only_changes L f m p v :
  layout_ok L = true -> only_changes p (sizeof L) m (put L f m p v).
Proof.
  intros Hok. unfold put, fieldsize, offsetof.
  destruct (field_of L f) as [[o t]|] eqn:E; [|apply only_changes_refl].
  apply field_of_bounds in E; [|done].
  eapply only_changes_weaken; [apply store_only_changes; lia|].
  intros b Hb. apply Z.ltb_ge in Hb. apply in_range_ge.
  revert Hb. replace (b - (p + o)) with (b - p - o) by lia. generalize (b - p); intros x Hx.
  rewrite <- wrap_sub_l. pose proof (u32_bounds x). rewrite u32_small by lia. lia.
Qed.

(** A structure with the same bytes has the same fields. *)
Lemma get_same L f m m' p :
  layout_ok L = true -> (forall i, 0 <= i < sizeof L -> rd8 m' (p + i) = rd8 m (p + i)) ->
  get L f m' p = get L f m p.
Proof.
  intros Hok H. apply load_ext. intros i Hi. unfold fieldsize, offsetof in *.
  destruct (field_of L f) as [[o t]|] eqn:E; [|cbn in Hi; lia].
  apply field_of_bounds in E; [|done]. rewrite <- Z.add_assoc. apply H. lia.
Qed.
