(* ===== verification/CString.v ===== *)
(** The freestanding C library of [lib/stdlibC/string.c], over physical memory.
    Pointers are addresses; every loop is the source's loop, byte by byte, with
    its round count as structural argument when it is known ([memcpy],
    [memset], [memcmp], [memmove]) and with fuel when it depends on a
    terminator ([strlen], [strcmp], [strcpy]). *)

From S2P Require Import Prelude PhysMem.

(** ** [memcpy], [memset], [memmove], [memcmp] *)

(** [for (i = i0; ...; i++) dst[i] = src[i]], [k] rounds. *)
Fixpoint copy_up (k : nat) (i : Z) (m : mem) (dst src : Z) : mem :=
  match k with
  | O => m
  | S k' => copy_up k' (i + 1) (wr8 m (dst + i) (rd8 m (src + i))) dst src
  end.

(** [for (i = k; i != 0; i--) dst[i-1] = src[i-1]]. *)
Fixpoint copy_down (k : nat) (m : mem) (dst src : Z) : mem :=
  match k with
  | O => m
  | S k' => copy_down k' (wr8 m (dst + Z.of_nat k') (rd8 m (src + Z.of_nat k'))) dst src
  end.

Definition memcpy (m : mem) (dst src size : Z) : mem :=
  copy_up (Z.to_nat size) 0 m dst src.

Fixpoint fill_up (k : nat) (i : Z) (m : mem) (buf v : Z) : mem :=
  match k with
  | O => m
  | S k' => fill_up k' (i + 1) (wr8 m (buf + i) v) buf v
  end.

Definition memset (m : mem) (buf value size : Z) : mem :=
  fill_up (Z.to_nat size) 0 m buf (u8 value).

Fixpoint memcmp_from (k : nat) (i : Z) (m : mem) (p1 p2 : Z) : Z :=
  match k with
  | O => 0
  | S k' =>
      if rd8 m (p1 + i) <? rd8 m (p2 + i) then -1
      else if rd8 m (p2 + i) <? rd8 m (p1 + i) then 1
      else memcmp_from k' (i + 1) m p1 p2
  end.

Definition memcmp (m : mem) (p1 p2 size : Z) : Z := memcmp_from (Z.to_nat size) 0 m p1 p2.

Definition memmove (m : mem) (dst src size : Z) : mem :=
  if u32 dst <? u32 src then copy_up (Z.to_nat size) 0 m dst src
  else copy_down (Z.to_nat size) m dst src.

(** ** [strlen], [strcmp], [strcpy] *)

Fixpoint strlen_from (fuel : nat) (len : Z) (m : mem) (str : Z) : option Z :=
  match fuel with
  | O => None
  | S fuel' => if rd8 m (str + len) =? 0 then Some len else strlen_from fuel' (len + 1) m str
  end.

Definition strlen (fuel : nat) (m : mem) (str : Z) : option Z := strlen_from fuel 0 m str.

(** [char] is signed on i386. *)
Definition char_diff (m : mem) (a b : Z) : Z := s8 (rd8 m a) - s8 (rd8 m b).

Fixpoint strcmp_from (fuel : nat) (i : Z) (m : mem) (str1 str2 : Z) : option Z :=
  match fuel with
  | O => None
  | S fuel' =>
      if (rd8 m (str1 + i) =? 0) || (rd8 m (str2 + i) =? 0) then
        Some (char_diff m (str1 + i) (str2 + i))
      else if negb (rd8 m (str1 + i) =? rd8 m (str2 + i)) then
        Some (char_diff m (str1 + i) (str2 + i))
      else strcmp_from fuel' (i + 1) m str1 str2
  end.

Definition strcmp (fuel : nat) (m : mem) (str1 str2 : Z) : option Z :=
  strcmp_from fuel 0 m str1 str2.

(** [do { dest[i] = src[i]; } while (src[i++] != '\0')]: the test reads [src]
    after the store. *)
Fixpoint strcpy_from (fuel : nat) (i : Z) (m : mem) (dest src : Z) : option mem :=
  match fuel with
  | O => None
  | S fuel' =>
      let m' := wr8 m (dest + i) (rd8 m (src + i)) in
      if rd8 m' (src + i) =? 0 then Some m' else strcpy_from fuel' (i + 1) m' dest src
  end.

Definition strcpy (fuel : nat) (m : mem) (dest src : Z) : option mem :=
  strcpy_from fuel 0 m dest src.

(** ** Specifications *)

(** [m'] is [m] with the [n] bytes at [src], as they were in [m], copied to
    [dst]; nothing else changed. *)
Definition is_copy (m : mem) (dst src n : Z) (m' : mem) : Prop :=
  forall b, 0 <= b < 4294967296 ->
    rd8 m' b = if (dst <=? b) && (b <? dst + n) then rd8 m (src + (b - dst)) else rd8 m b.

(** The C string [s] (bytes without the terminator) is at [p]. *)
Definition cstring_at (m : mem) (p : Z) (s : list Z) : Prop :=
  (forall i c, s !! i = Some c -> rd8 m (p + Z.of_nat i) = c /\ c <> 0) /\
  rd8 m (p + Z.of_nat (List.length s)) = 0.

(** ** Proofs: copying *)

Lemma rd8_wr8_case m a v b :
  0 <= a < 4294967296 -> 0 <= b < 4294967296 -> 0 <= v < 256 ->
  rd8 (wr8 m a v) b = if a =? b then v else rd8 m b.
Proof.
  intros. destruct (Z.eqb_spec a b) as [->|Hne].
  - by rewrite rd8_wr8_eq, u8_small.
  - apply rd8_wr8_ne. by rewrite !u32_small.
Qed.

Lemma copy_up_spec k i m dst src b :
  0 <= i -> 0 <= dst -> 0 <= src ->
  dst + i + Z.of_nat k <= 4294967296 -> src + i + Z.of_nat k <= 4294967296 ->
  dst <= src \/ src + i + Z.of_nat k <= dst + i ->
  0 <= b < 4294967296 ->
  rd8 (copy_up k i m dst src) b =
    if (dst + i <=? b) && (b <? dst + i + Z.of_nat k) then rd8 m (src + (b - dst))
    else rd8 m b.
Proof.
  revert i m. induction k as [|k IH]; intros i m Hi Hd Hs Hdk Hsk Hov Hb; cbn [copy_up].
  { destruct (Z.leb_spec (dst + i) b), (Z.ltb_spec b (dst + i + Z.of_nat 0)); simpl; lia || done. }
  rewrite IH by lia.
  pose proof (rd8_bounds m (src + i)).
  destruct (Z.leb_spec (dst + (i + 1)) b), (Z.ltb_spec b (dst + (i + 1) + Z.of_nat k)); cbn [andb].
  - rewrite rd8_wr8_case by lia. rewrite (proj2 (Z.eqb_neq _ _)) by lia.
    by rewrite (proj2 (Z.leb_le _ _)), (proj2 (Z.ltb_lt _ _)) by lia.
  - rewrite rd8_wr8_case by lia. rewrite (proj2 (Z.eqb_neq _ _)) by lia.
    rewrite (proj2 (Z.ltb_ge _ _)) by lia. by rewrite andb_false_r.
  - rewrite rd8_wr8_case by lia. destruct (Z.eqb_spec (dst + i) b) as [<-|].
    + rewrite (proj2 (Z.leb_le _ _)), (proj2 (Z.ltb_lt _ _)) by lia.
      cbn [andb]. f_equal. lia.
    + by rewrite (proj2 (Z.leb_gt _ _)) by lia.
  - lia.
Qed.

Lemma copy_down_spec k m dst src b :
  0 <= dst -> 0 <= src ->
  dst + Z.of_nat k <= 4294967296 -> src + Z.of_nat k <= 4294967296 ->
  src <= dst -> 0 <= b < 4294967296 ->
  rd8 (copy_down k m dst src) b =
    if (dst <=? b) && (b <? dst + Z.of_nat k) then rd8 m (src + (b - dst)) else rd8 m b.
Proof.
  revert m. induction k as [|k IH]; intros m Hd Hs Hdk Hsk Hov Hb; cbn [copy_down].
  { destruct (Z.leb_spec dst b), (Z.ltb_spec b (dst + Z.of_nat 0)); simpl; lia || done. }
  rewrite IH by lia.
  pose proof (rd8_bounds m (src + Z.of_nat k)).
  destruct (Z.leb_spec dst b), (Z.ltb_spec b (dst + Z.of_nat k)); cbn [andb];
    rewrite rd8_wr8_case by lia.
  - rewrite (proj2 (Z.eqb_neq _ _)) by lia. by rewrite (proj2 (Z.ltb_lt _ _)) by lia.
  - destruct (Z.eqb_spec (dst + Z.of_nat k) b) as [<-|].
    + rewrite (proj2 (Z.ltb_lt _ _)) by lia. f_equal. lia.
    + by rewrite (proj2 (Z.ltb_ge _ _)) by lia.
  - by rewrite (proj2 (Z.eqb_neq _ _)) by lia.
  - by rewrite (proj2 (Z.eqb_neq _ _)) by lia.
Qed.

Lemma copy_up_is_copy m dst src n :
  fits dst n -> fits src n -> dst <= src \/ src + n <= dst ->
  is_copy m dst src n (copy_up (Z.to_nat n) 0 m dst src).
Proof.
  intros (?&?&?) (?&?&?) Hov b Hb. rewrite copy_up_spec; try lia.
  by rewrite !Z.add_0_r, Z2Nat.id by lia.
Qed.

Lemma copy_down_is_copy m dst src n :
  fits dst n -> fits src n -> src <= dst ->
  is_copy m dst src n (copy_down (Z.to_nat n) m dst src).
Proof.
  intros (?&?&?) (?&?&?) Hov b Hb. rewrite copy_down_spec; try lia.
  by rewrite Z2Nat.id by lia.
Qed.

Lemma memcpy_is_copy m dst src n :
  fits dst n -> fits src n -> dst <= src \/ src + n <= dst ->
  is_copy m dst src n (memcpy m dst src n).
Proof. apply copy_up_is_copy. Qed.

Lemma memmove_is_copy m dst src n :
  fits dst n -> fits src n -> is_copy m dst src n (memmove m dst src n).
Proof.
  intros Hd Hs. unfold memmove. destruct (decide (n = 0)) as [->|Hn].
  { destruct (_ <? _); (intros b Hb; simpl;
      destruct (Z.leb_spec dst b), (Z.ltb_spec b (dst + 0)); simpl; lia || done). }
  destruct (id Hd) as (?&?&?), (id Hs) as (?&?&?). rewrite !u32_small by lia.
  destruct (Z.ltb_spec dst src).
  - apply copy_up_is_copy; [done..|lia].
  - by apply copy_down_is_copy.
Qed.

(** *** Consequences of [is_copy] *)

Lemma is_copy_in m dst src n m' i :
  is_copy m dst src n m' -> fits dst n -> 0 <= i < n -> rd8 m' (dst + i) = rd8 m (src + i).
Proof.
  intros H (?&?&?) Hi. rewrite H by lia.
  rewrite (proj2 (Z.leb_le _ _)), (proj2 (Z.ltb_lt _ _)) by lia. simpl. f_equal. lia.
Qed.

Lemma is_copy_out m dst src n m' b :
  is_copy m dst src n m' -> 0 <= b < 4294967296 -> b < dst \/ dst + n <= b ->
  rd8 m' b = rd8 m b.
Proof.
  intros H Hb Ho. rewrite H by done.
  destruct (Z.leb_spec dst b), (Z.ltb_spec b (dst + n)); simpl; lia || done.
Qed.

Lemma is_copy_only_changes m dst src n m' :
  is_copy m dst src n m' -> fits dst n -> only_changes dst n m m'.
Proof.
  intros H Hf. apply only_changes_intro; [done|]. intros b Hb Ho. by eapply is_copy_out.
Qed.

Lemma is_copy_read_bytes m dst src n m' :
  is_copy m dst src n m' -> fits dst n ->
  read_bytes m' dst (Z.to_nat n) = read_bytes m src (Z.to_nat n).
Proof.
  intros H Hf. apply read_bytes_ext. intros i Hi. eapply is_copy_in; eauto. lia.
Qed.

(** ** Proofs: filling and comparing *)

Lemma fill_up_spec k i m buf v b :
  0 <= i -> 0 <= buf -> buf + i + Z.of_nat k <= 4294967296 -> 0 <= v < 256 ->
  0 <= b < 4294967296 ->
  rd8 (fill_up k i m buf v) b =
    if (buf + i <=? b) && (b <? buf + i + Z.of_nat k) then v else rd8 m b.
Proof.
  revert i m. induction k as [|k IH]; intros i m Hi Hbuf Hk Hv Hb; cbn [fill_up].
  { destruct (Z.leb_spec (buf + i) b), (Z.ltb_spec b (buf + i + Z.of_nat 0)); simpl; lia || done. }
  rewrite IH by lia. rewrite rd8_wr8_case by lia.
  destruct (Z.leb_spec (buf + (i + 1)) b), (Z.ltb_spec b (buf + (i + 1) + Z.of_nat k)),
    (Z.leb_spec (buf + i) b), (Z.ltb_spec b (buf + i + Z.of_nat (S k))),
    (Z.eqb_spec (buf + i) b); cbn [andb]; done || lia.
Qed.

Lemma memset_spec m buf value n b :
  fits buf n -> 0 <= b < 4294967296 ->
  rd8 (memset m buf value n) b =
    if (buf <=? b) && (b <? buf + n) then u8 value else rd8 m b.
Proof.
  intros (?&?&?) Hb. unfold memset. rewrite fill_up_spec by (try apply u8_bounds; lia).
  by rewrite Z.add_0_r, Z2Nat.id by lia.
Qed.

(** The sign of [memcmp] is the lexicographic order of the two byte strings. *)
Fixpoint lex_cmp (l1 l2 : list Z) : comparison :=
  match l1, l2 with
  | [], [] => Eq
  | [], _ => Lt
  | _, [] => Gt
  | x :: l1', y :: l2' => match x ?= y with Eq => lex_cmp l1' l2' | c => c end
  end.

Definition cmp_int (c : comparison) : Z := match c with Lt => -1 | Eq => 0 | Gt => 1 end.

Lemma lex_cmp_eq l1 l2 : lex_cmp l1 l2 = Eq <-> l1 = l2.
Proof.
  revert l2. induction l1 as [|x l1 IH]; intros [|y l2]; simpl; try done.
  destruct (Z.compare_spec x y) as [->| |].
  - rewrite IH. split; congruence.
  - split; [done | intros [= -> ->]; lia].
  - split; [done | intros [= -> ->]; lia].
Qed.

Lemma memcmp_from_spec k i m p1 p2 :
  memcmp_from k i m p1 p2 =
    cmp_int (lex_cmp (read_bytes m (p1 + i) k) (read_bytes m (p2 + i) k)).
Proof.
  revert i. induction k as [|k IH]; intros i; cbn [memcmp_from read_bytes lex_cmp]; [done|].
  destruct (Z.compare_spec (rd8 m (p1 + i)) (rd8 m (p2 + i))) as [E|E|E].
  - rewrite E, Z.ltb_irrefl, IH. by rewrite !Z.add_assoc.
  - by rewrite (proj2 (Z.ltb_lt _ _)) by done.
  - by rewrite (proj2 (Z.ltb_ge _ _)), (proj2 (Z.ltb_lt _ _)) by lia.
Qed.

Lemma memcmp_spec m p1 p2 n :
  memcmp m p1 p2 n =
    cmp_int (lex_cmp (read_bytes m p1 (Z.to_nat n)) (read_bytes m p2 (Z.to_nat n))).
Proof. unfold memcmp. by rewrite memcmp_from_spec, !Z.add_0_r. Qed.

Lemma memcmp_zero m p1 p2 n :
  memcmp m p1 p2 n = 0 <-> read_bytes m p1 (Z.to_nat n) = read_bytes m p2 (Z.to_nat n).
Proof.
  rewrite memcmp_spec, <- lex_cmp_eq. by destruct (lex_cmp _ _).
Qed.

(** ** Proofs: strings *)

Lemma cstring_at_tail m p c s : cstring_at m p (c :: s) -> cstring_at m (p + 1) s.
Proof.
  intros [H H0]. split.
  - intros i d Hi. specialize (H (S i) d Hi).
    replace (p + 1 + Z.of_nat i) with (p + Z.of_nat (S i)) by lia. done.
  - replace (p + 1 + Z.of_nat (List.length s)) with (p + Z.of_nat (List.length (c :: s)))
      by (simpl; lia). done.
Qed.

Lemma cstring_at_head m p c s : cstring_at m p (c :: s) -> rd8 m p = c /\ c <> 0.
Proof. intros [H _]. specialize (H 0%nat c eq_refl). by rewrite Z.add_0_r in H. Qed.

Lemma cstring_at_nil m p : cstring_at m p [] -> rd8 m p = 0.
Proof. intros [_ H]. simpl in H. by rewrite Z.add_0_r in H. Qed.

Lemma cstring_at_read m p s :
  cstring_at m p s -> read_bytes m p (List.length s) = s.
Proof.
  revert p. induction s as [|c s IH]; intros p Hs; [done|]. cbn [read_bytes List.length].
  destruct (cstring_at_head _ _ _ _ Hs) as [Hc _].
  rewrite (IH (p + 1)), Hc; [done|]. by eapply cstring_at_tail.
Qed.

(** The string at an address is determined by the memory. *)
Lemma cstring_at_inj m p s1 s2 : cstring_at m p s1 -> cstring_at m p s2 -> s1 = s2.
Proof.
  revert p s2. induction s1 as [|c1 s1 IH]; intros p [|c2 s2] H1 H2; [done| | |].
  - apply cstring_at_nil in H1. apply cstring_at_head in H2 as [??]. congruence.
  - apply cstring_at_nil in H2. apply cstring_at_head in H1 as [??]. congruence.
  - f_equal.
    + apply cstring_at_head in H1 as [??], H2 as [??]. congruence.
    + eapply IH; by eapply cstring_at_tail.
Qed.

Lemma strlen_from_spec fuel len m str s :
  cstring_at m (str + len) s -> (List.length s < fuel)%nat ->
  strlen_from fuel len m str = Some (len + Z.of_nat (List.length s)).
Proof.
  revert len s. induction fuel as [|fuel IH]; intros len s Hs Hf; [lia|]. cbn [strlen_from].
  destruct s as [|c s].
  - rewrite (cstring_at_nil _ _ Hs). simpl. by rewrite Z.add_0_r.
  - destruct (cstring_at_head _ _ _ _ Hs) as [Hc Hne].
    rewrite Hc, (proj2 (Z.eqb_neq _ _)) by done.
    apply cstring_at_tail in Hs. rewrite <- Z.add_assoc in Hs.
    rewrite (IH (len + 1) s) by (simpl in Hf; done || lia). f_equal. simpl List.length. lia.
Qed.

Lemma strlen_spec fuel m str s :
  cstring_at m str s -> (List.length s < fuel)%nat ->
  strlen fuel m str = Some (Z.of_nat (List.length s)).
Proof. intros. unfold strlen. by erewrite strlen_from_spec; rewrite ?Z.add_0_r. Qed.

(** The difference [strcmp] returns, on string values: that of the first
    characters that differ, the terminator counting as 0. *)
Fixpoint str_diff (s1 s2 : list Z) : Z :=
  match s1, s2 with
  | [], [] => 0
  | [], c2 :: _ => s8 0 - s8 c2
  | c1 :: _, [] => s8 c1 - s8 0
  | c1 :: s1', c2 :: s2' => if c1 =? c2 then str_diff s1' s2' else s8 c1 - s8 c2
  end.

Lemma s8_inj a b : 0 <= a < 256 -> 0 <= b < 256 -> s8 a = s8 b -> a = b.
Proof. unfold sext. pow2_simpl. change (2 ^ (8 - 1)) with 128. intros.
  Z.to_euclidean_division_equations; lia. Qed.

Lemma str_diff_zero s1 s2 :
  Forall (fun c => 0 < c < 256) s1 -> Forall (fun c => 0 < c < 256) s2 ->
  str_diff s1 s2 = 0 <-> s1 = s2.
Proof.
  intros H1. revert s2.
  induction H1 as [|c1 s1 Hc1 H1 IH]; intros s2 [|c2 s2' Hc2 H2]; simpl; try done.
  - split; [|done]. intros E. assert (0 = c2) by (apply s8_inj; lia). lia.
  - split; [|done]. intros E. assert (c1 = 0) by (apply s8_inj; lia). lia.
  - destruct (Z.eqb_spec c1 c2) as [->|Hne].
    + rewrite IH by done. split; congruence.
    + split; [|congruence]. intros E. assert (c1 = c2) by (apply s8_inj; lia). done.
Qed.

Lemma strcmp_from_spec fuel i m p1 p2 s1 s2 :
  cstring_at m (p1 + i) s1 -> cstring_at m (p2 + i) s2 ->
  (Nat.min (List.length s1) (List.length s2) < fuel)%nat ->
  strcmp_from fuel i m p1 p2 = Some (str_diff s1 s2).
Proof.
  revert i s1 s2. induction fuel as [|fuel IH]; intros i s1 s2 H1 H2 Hf; [lia|].
  cbn [strcmp_from]. unfold char_diff.
  destruct s1 as [|c1 s1].
  { rewrite (cstring_at_nil _ _ H1). simpl orb. cbv iota.
    destruct s2 as [|c2 s2].
    - by rewrite (cstring_at_nil _ _ H2).
    - by destruct (cstring_at_head _ _ _ _ H2) as [-> _]. }
  destruct (cstring_at_head _ _ _ _ H1) as [-> Hn1].
  destruct s2 as [|c2 s2].
  { by rewrite (cstring_at_nil _ _ H2), orb_true_r. }
  destruct (cstring_at_head _ _ _ _ H2) as [-> Hn2].
  rewrite !(proj2 (Z.eqb_neq _ 0)) by done. cbn [orb str_diff].
  destruct (c1 =? c2); [|done]. cbn [negb].
  apply IH; [| | simpl in Hf; lia].
  - rewrite Z.add_assoc. by eapply cstring_at_tail.
  - rewrite Z.add_assoc. by eapply cstring_at_tail.
Qed.

Lemma strcmp_spec fuel m p1 p2 s1 s2 :
  cstring_at m p1 s1 -> cstring_at m p2 s2 ->
  (Nat.min (List.length s1) (List.length s2) < fuel)%nat ->
  strcmp fuel m p1 p2 = Some (str_diff s1 s2).
Proof. intros. apply strcmp_from_spec; by rewrite ?Z.add_0_r. Qed.

Lemma cstring_at_chars m p s : cstring_at m p s -> Forall (fun c => 0 < c < 256) s.
Proof.
  intros [H _]. apply Forall_lookup. intros i c Hi.
  destruct (H i c Hi) as [<- ?]. pose proof (rd8_bounds m (p + Z.of_nat i)). lia.
Qed.

Lemma strcmp_zero fuel m p1 p2 s1 s2 r :
  cstring_at m p1 s1 -> cstring_at m p2 s2 ->
  (Nat.min (List.length s1) (List.length s2) < fuel)%nat ->
  strcmp fuel m p1 p2 = Some r -> r = 0 <-> s1 = s2.
Proof.
  intros H1 H2 Hf. rewrite (strcmp_spec fuel m p1 p2 s1 s2) by done. intros [= <-].
  apply str_diff_zero; eapply cstring_at_chars; eauto.
Qed.

(** Strings survive writes elsewhere. *)
Lemma cstring_at_ext m m' p q s :
  (forall i, 0 <= i <= Z.of_nat (List.length s) -> rd8 m' (q + i) = rd8 m (p + i)) ->
  cstring_at m p s -> cstring_at m' q s.
Proof.
  intros Heq [H H0]. split.
  - intros i c Hi. rewrite Heq; [by apply H|]. apply lookup_lt_Some in Hi. lia.
  - rewrite Heq by lia. done.
Qed.

(** A string in a concrete memory, by computation. *)
Lemma example_string m p str :
  forallb (fun i => rd8 m (p + Z.of_nat i) =? nth i str 0) (seq 0 (S (List.length str))) = true ->
  Forall (fun c => c <> 0) str -> cstring_at m p str.
Proof.
  intros H Hs. rewrite forallb_forall in H. split.
  - intros i c Hi. apply lookup_lt_Some in Hi as Hlt. split; [|exact (Forall_lookup_1 _ _ _ _ Hs Hi)].
    rewrite <- (nth_lookup_Some _ _ 0 _ Hi). apply Z.eqb_eq, H, in_seq. lia.
  - transitivity (nth (List.length str) str 0); [|apply nth_overflow; lia].
    apply Z.eqb_eq, H, in_seq. lia.
Qed.

Lemma strcpy_from_copy fuel i m dest src s :
  0 <= i -> cstring_at m (src + i) s -> (List.length s < fuel)%nat ->
  0 <= dest -> 0 <= src ->
  dest + i + Z.of_nat (List.length s) < 4294967296 ->
  src + i + Z.of_nat (List.length s) < 4294967296 ->
  src + i + Z.of_nat (List.length s) < dest \/ dest + i + Z.of_nat (List.length s) < src ->
  strcpy_from fuel i m dest src = Some (copy_up (S (List.length s)) i m dest src).
Proof.
  revert i m s. induction fuel as [|fuel IH]; intros i m s Hi Hs Hf Hd0 Hs0 Hd Hsr Hov; [lia|].
  cbn [strcpy_from]. set (m' := wr8 m (dest + i) (rd8 m (src + i))).
  assert (forall b, src <= b -> b <= src + i + Z.of_nat (List.length s) ->
    rd8 m' b = rd8 m b) as Hsame.
  { intros b Hb1 Hb2. unfold m'. rewrite rd8_wr8_case; [|lia|lia|apply rd8_bounds].
    rewrite (proj2 (Z.eqb_neq _ _)) by lia. done. }
  rewrite Hsame by lia. destruct s as [|c s].
  - by rewrite (cstring_at_nil _ _ Hs).
  - destruct (cstring_at_head _ _ _ _ Hs) as [Hc Hn].
    rewrite Hc, (proj2 (Z.eqb_neq _ _)) by done.
    simpl List.length in *. rewrite (IH (i + 1) m' s); try lia; [done|].
    apply cstring_at_tail in Hs. rewrite <- Z.add_assoc in Hs.
    eapply cstring_at_ext; [|exact Hs]. intros j Hj. apply Hsame; lia.
Qed.

Lemma strcpy_is_copy fuel m dest src s :
  cstring_at m src s -> (List.length s < fuel)%nat ->
  fits dest (Z.of_nat (List.length s) + 1) -> fits src (Z.of_nat (List.length s) + 1) ->
  src + Z.of_nat (List.length s) < dest \/ dest + Z.of_nat (List.length s) < src ->
  exists m', strcpy fuel m dest src = Some m' /\
    is_copy m dest src (Z.of_nat (List.length s) + 1) m' /\ cstring_at m' dest s.
Proof.
  intros Hs Hf Hd Hsr Hov. destruct (id Hd) as (?&?&?), (id Hsr) as (?&?&?).
  eexists. split; [apply strcpy_from_copy with (s := s); rewrite ?Z.add_0_r; done || lia|].
  replace (S (List.length s)) with (Z.to_nat (Z.of_nat (List.length s) + 1)) by lia.
  assert (is_copy m dest src (Z.of_nat (List.length s) + 1)
    (copy_up (Z.to_nat (Z.of_nat (List.length s) + 1)) 0 m dest src)) as Hcp.
  { apply copy_up_is_copy; [done..|lia]. }
  split; [done|]. eapply cstring_at_ext; [|exact Hs].
  intros i Hi. eapply is_copy_in; [done..|lia].
Qed.

(** ** Properties *)

(** C38: [memmove] copies the bytes the source held before the call and changes
    nothing else, however the two buffers overlap. *)
Theorem memmove_correct m dst src n :
  fits dst n -> fits src n ->
  let m' := memmove m dst src n in
  read_bytes m' dst (Z.to_nat n) = read_bytes m src (Z.to_nat n) /\
  only_changes dst n m m'.
Proof.
  intros Hd Hs m'. pose proof (memmove_is_copy m dst src n Hd Hs) as H.
  split; [by apply is_copy_read_bytes|by eapply is_copy_only_changes].
Qed.

Lemma memmove_correct_witness :
  let m := write_bytes ∅ 100 [1; 2; 3; 4; 5] in
  read_bytes (memmove m 102 100 5) 102 5 = [1; 2; 3; 4; 5].
Proof.
  intros m. destruct (memmove_correct m 102 100 5) as [E _]; [unfold fits; lia..|].
  etransitivity; [exact E|reflexivity].
Defined.

(** C39: [memcmp] is the lexicographic order of the two buffers as unsigned bytes:
    -1, 0 or 1, and 0 exactly when they are equal. *)
Theorem memcmp_order m p1 p2 n :
  memcmp m p1 p2 n =
    cmp_int (lex_cmp (read_bytes m p1 (Z.to_nat n)) (read_bytes m p2 (Z.to_nat n))) /\
  (memcmp m p1 p2 n = 0 <-> read_bytes m p1 (Z.to_nat n) = read_bytes m p2 (Z.to_nat n)).
Proof. split; [apply memcmp_spec|apply memcmp_zero]. Qed.

(** [strcpy] of a string into a buffer that does not overlap it returns,
    copies the string with its terminator and nothing else; [strlen] of the copy
    is the string's length and [strcmp] finds the copy equal to the original. *)
Theorem strcpy_roundtrip fuel m dest src s :
  cstring_at m src s -> (List.length s < fuel)%nat ->
  fits dest (Z.of_nat (List.length s) + 1) -> fits src (Z.of_nat (List.length s) + 1) ->
  src + Z.of_nat (List.length s) < dest \/ dest + Z.of_nat (List.length s) < src ->
  exists m', strcpy fuel m dest src = Some m' /\
    cstring_at m' dest s /\ only_changes dest (Z.of_nat (List.length s) + 1) m m' /\
    strlen fuel m' dest = Some (Z.of_nat (List.length s)) /\
    strcmp fuel m' dest src = Some 0.
Proof.
  intros Hs Hf Hd Hsr Hov. destruct (strcpy_is_copy fuel m dest src s) as (m' & E & Hc & Hs');
    [done..|].
  exists m'. split; [done|]. split; [done|]. split; [by eapply is_copy_only_changes|].
  split; [by apply strlen_spec|].
  assert (cstring_at m' src s) as Hs2.
  { destruct Hd as (? & ? & ?), Hsr as (? & ? & ?).
    eapply cstring_at_ext; [|exact Hs]. intros i Hi. eapply is_copy_out; [done|lia|lia]. }
  rewrite (strcmp_spec fuel m' dest src s s) by (done || lia). f_equal.
  apply str_diff_zero; [by eapply cstring_at_chars..|done].
Qed.

Lemma strcpy_roundtrip_witness :
  let m := write_bytes ∅ 100 [72; 105; 0] in
  exists m', strcpy 3 m 200 100 = Some m' /\ strlen 3 m' 200 = Some 2 /\
    strcmp 3 m' 200 100 = Some 0.
Proof.
  intros m. destruct (strcpy_roundtrip 3 m 200 100 [72; 105]) as (m' & E & _ & _ & E1 & E2);
    [|simpl; lia|unfold fits; simpl; lia..|exists m'; split; [exact E|by split]].
  split; [|reflexivity].
  intros [|[|i]] c Hi; [injection Hi as <-|injection Hi as <-|done]; split; reflexivity || lia.
Defined.
