(* ===== verification/Xtoa.v ===== *)
(** Number formatting: the template [xtoa<T>] of [include/klib/cstdlib.hpp].
    [T] is an integer type of [w] bits, signed or not.  The output array is a
    list of bytes; a write outside it is a [Fault]. *)

From S2P Require Import Prelude.

(** ** Array accesses that can go out of bounds *)

Inductive buf_result (A : Type) : Type :=
  | Val (a : A)
  | Fault
  | NoFuel.
Arguments Val {A} a.
Arguments Fault {A}.
Arguments NoFuel {A}.

Definition buf_bind {A B} (r : buf_result A) (k : A -> buf_result B) : buf_result B :=
  match r with Val a => k a | Fault => Fault | NoFuel => NoFuel end.

Notation "'let?' x ':=' c 'in' k" := (buf_bind c (fun x => k))
  (at level 10, x name, c at level 100, k at level 200) : cpp_scope.

(** [str[i] = c] and [str[i]]. *)
Definition poke (str : list Z) (i c : Z) : buf_result (list Z) :=
  if (0 <=? i) && (i <? Z.of_nat (List.length str)) then Val (<[Z.to_nat i := u8 c]> str) else Fault.
Definition peek (str : list Z) (i : Z) : buf_result Z :=
  if 0 <=? i then match str !! Z.to_nat i with Some c => Val c | None => Fault end else Fault.

(** [#define MAX_NUM_STR_SIZE 65]: the size callers give the array. *)
Definition MAX_NUM_STR_SIZE : Z := 65.

(** The C string an array holds. *)
Fixpoint c_str (str : list Z) : list Z :=
  match str with
  | [] => []
  | c :: str' => if c =? 0 then [] else c :: c_str str'
  end.

(** ** [xtoa] *)

Section Xtoa.
Variables (w : Z) (signed : bool).

(** [static_cast<T>]. *)
Definition castT (x : Z) : Z := if signed then sext w x else wrap w x.

(** The character of the remainder [num % convertedBase]; [char] is signed. *)
Definition digit_char (digit : Z) : Z :=
  if digit <? 10 then u8 (48 + digit) else u8 (65 + digit - 10).

(** [for (; num != 0; ++index) {...}]: C++ division truncates. *)
Fixpoint digits_loop (fuel : nat) (convertedBase num index : Z) (str : list Z) :
    buf_result (Z * list Z) :=
  match fuel with
  | O => NoFuel
  | S fuel' =>
      if num =? 0 then Val (index, str)
      else
        let digit := s8 (Z.rem num convertedBase) in
        let? str' := poke str index (digit_char digit) in
        digits_loop fuel' convertedBase (Z.quot num convertedBase) (index + 1) str'
  end.

(** [for (i = 0; i < index/2+1; i++)]: swap [str[i]] and [str[index-i]]. *)
Fixpoint swap_loop (k : nat) (i index : Z) (str : list Z) : buf_result (list Z) :=
  match k with
  | O => Val str
  | S k' =>
      let? tmp := peek str i in
      let? c := peek str (index - i) in
      let? str1 := poke str i c in
      let? str2 := poke str1 (index - i) tmp in
      swap_loop k' (i + 1) index str2
  end.

(** [Val None] is the [NULL] result. *)
Definition xtoa (value : Z) (str : list Z) (base : Z) : buf_result (option (list Z)) :=
  if (base <? 2) || (16 <? base) then Val None
  else
    let convertedBase := castT base in
    if value =? 0 then
      let? str1 := poke str 0 48 in
      let? str2 := poke str1 1 0 in
      Val (Some str2)
    else
      let? r := digits_loop (Z.to_nat w + 1) convertedBase value 0 str in
      let? r2 :=
        (if (convertedBase =? 10) && (value <? 0) then
           let? str1 := poke (snd r) (fst r) 45 in Val (fst r + 1, str1)
         else Val r) in
      let? str3 := poke (snd r2) (fst r2) 0 in
      let index := fst r2 - 1 in
      let? str4 := swap_loop (Z.to_nat (index / 2 + 1)) 0 index str3 in
      Val (Some str4).
End Xtoa.

(** ** The numeral a string denotes *)

Definition char_value (c : Z) : Z := if c <? 65 then c - 48 else c - 65 + 10.

(** Most significant character first. *)
Definition numeral_value (base : Z) (s : list Z) : Z :=
  fold_left (fun acc c => acc * base + char_value c) s 0.

Definition is_digit (base c : Z) : Prop :=
  0 <= char_value c < base /\ (48 <= c <= 57 \/ 65 <= c <= 70).

(** The digits of [num], least significant first. *)
Fixpoint le_digits (fuel : nat) (base num : Z) : list Z :=
  match fuel with
  | O => []
  | S fuel' =>
      if num =? 0 then [] else digit_char (num mod base) :: le_digits fuel' base (num / base)
  end.

Lemma digit_char_value d : 0 <= d < 16 ->
  char_value (digit_char d) = d /\ (48 <= digit_char d <= 57 \/ 65 <= digit_char d <= 70).
Proof.
  intros Hd. unfold digit_char, char_value.
  destruct (Z.ltb_spec d 10); rewrite u8_small by lia.
  - rewrite (proj2 (Z.ltb_lt _ _)) by lia. lia.
  - rewrite (proj2 (Z.ltb_ge _ _)) by lia. lia.
Qed.

Lemma le_digits_Forall fuel base num :
  2 <= base <= 16 -> Forall (is_digit base) (le_digits fuel base num).
Proof.
  intros Hb. revert num. induction fuel as [|fuel IH]; intros num; cbn [le_digits]; [done|].
  destruct (num =? 0); [done|]. constructor; [|done].
  pose proof (Z.mod_pos_bound num base).
  destruct (digit_char_value (num mod base)) as [E ?]; [lia|].
  unfold is_digit. rewrite E. lia.
Qed.

Lemma numeral_value_snoc base s c :
  numeral_value base (s ++ [c]) = numeral_value base s * base + char_value c.
Proof. unfold numeral_value. by rewrite fold_left_app. Qed.

Lemma half_lt num base k :
  2 <= base -> 0 <= num < 2 ^ Z.of_nat (S k) -> 0 <= num / base < 2 ^ Z.of_nat k.
Proof.
  intros Hb [H0 H1]. rewrite Nat2Z.inj_succ, Z.pow_succ_r in H1 by lia.
  split; [apply Z.div_pos; lia|]. apply Z.div_lt_upper_bound; [lia|]. nia.
Qed.

Lemma le_digits_value fuel base num :
  2 <= base <= 16 -> 0 <= num < 2 ^ Z.of_nat fuel ->
  numeral_value base (reverse (le_digits fuel base num)) = num.
Proof.
  intros Hb. revert num. induction fuel as [|fuel IH]; intros num Hn; cbn [le_digits].
  { cbn in *. lia. }
  destruct (Z.eqb_spec num 0) as [->|Hne]; [done|].
  rewrite reverse_cons, numeral_value_snoc, IH by (apply half_lt; lia).
  pose proof (Z.mod_pos_bound num base).
  rewrite (proj1 (digit_char_value (num mod base) ltac:(lia))).
  pose proof (Z.div_mod num base). lia.
Qed.

Lemma le_digits_length fuel base num :
  (List.length (le_digits fuel base num) <= fuel)%nat.
Proof.
  revert num. induction fuel as [|fuel IH]; intros num; cbn [le_digits]; [done|].
  destruct (num =? 0); simpl; [lia|]. specialize (IH (num / base)). lia.
Qed.

(** No leading zero: the last (most significant) digit is not ['0']. *)
Lemma le_digits_last fuel base num c :
  2 <= base <= 16 -> 0 < num < 2 ^ Z.of_nat fuel ->
  List.last (le_digits fuel base num) c <> 48.
Proof.
  intros Hb. revert num c. induction fuel as [|fuel IH]; intros num c Hn; cbn [le_digits].
  { cbn in *. lia. }
  rewrite (proj2 (Z.eqb_neq _ _)) by lia.
  destruct (decide (num / base = 0)) as [E|E].
  - rewrite E. assert (le_digits fuel base 0 = []) as -> by (by destruct fuel).
    cbn. intros Hd. pose proof (Z.mod_pos_bound num base). pose proof (Z.div_mod num base).
    pose proof (proj1 (digit_char_value (num mod base) ltac:(lia))) as Hv.
    rewrite Hd in Hv. cbn in Hv. lia.
  - pose proof (half_lt num base fuel ltac:(lia) ltac:(lia)).
    assert (0 < num / base < 2 ^ Z.of_nat fuel) as Hq by lia.
    specialize (IH (num / base) c Hq).
    destruct (le_digits fuel base (num / base)) eqn:El; [|exact IH].
    destruct fuel; [cbn in *; lia|]. cbn in El. by rewrite (proj2 (Z.eqb_neq _ _)) in El by lia.
Qed.

(** ** The loops *)

Lemma poke_val str i c :
  0 <= i < Z.of_nat (List.length str) -> poke str i c = Val (<[Z.to_nat i := u8 c]> str).
Proof.
  intros. unfold poke. by rewrite (proj2 (Z.leb_le _ _)), (proj2 (Z.ltb_lt _ _)) by lia.
Qed.

Lemma peek_val str i :
  0 <= i < Z.of_nat (List.length str) -> peek str i = Val (str !!! Z.to_nat i).
Proof.
  intros. unfold peek. rewrite (proj2 (Z.leb_le _ _)) by lia.
  rewrite list_lookup_total_alt.
  by destruct (lookup_lt_is_Some_2 str (Z.to_nat i) ltac:(lia)) as [c ->].
Qed.

Lemma digit_char_u8 d : u8 (digit_char d) = digit_char d.
Proof. unfold digit_char. destruct (d <? 10); apply wrap_wrap. Qed.

(** On a non-negative number the first loop writes [le_digits] at [index]. *)
Lemma digits_loop_spec fuel base num pre suf :
  2 <= base <= 16 -> 0 <= num < 2 ^ Z.of_nat fuel -> (fuel <= List.length suf)%nat ->
  let ds := le_digits fuel base num in
  digits_loop (S fuel) base num (Z.of_nat (List.length pre)) (pre ++ suf) =
    Val (Z.of_nat (List.length (pre ++ ds)), (pre ++ ds) ++ drop (List.length ds) suf).
Proof.
  intros Hb. revert num pre suf.
  induction fuel as [|fuel IH]; intros num pre suf Hn Hs ds; unfold ds.
  { assert (num = 0) as -> by (cbn in *; lia). cbn. by rewrite app_nil_r. }
  cbn [digits_loop le_digits]. fold digits_loop.
  destruct (Z.eqb_spec num 0) as [->|Hne]; [by rewrite !app_nil_r|].
  destruct suf as [|x suf]; [simpl in Hs; lia|].
  rewrite Z.rem_mod_nonneg, Z.quot_div_nonneg by lia.
  pose proof (Z.mod_pos_bound num base).
  rewrite s8_small by lia.
  rewrite poke_val by (rewrite length_app; simpl; lia).
  cbn [buf_bind]. rewrite digit_char_u8, Nat2Z.id, insert_app_r_alt, Nat.sub_diag by lia.
  change (<[0%nat:=digit_char (num mod base)]> (x :: suf)) with (digit_char (num mod base) :: suf).
  replace (pre ++ digit_char (num mod base) :: suf)
    with ((pre ++ [digit_char (num mod base)]) ++ suf) by (by rewrite <- app_assoc).
  replace (Z.of_nat (List.length pre) + 1)
    with (Z.of_nat (List.length (pre ++ [digit_char (num mod base)])))
    by (rewrite length_app; simpl; lia).
  pose proof (half_lt num base fuel ltac:(lia) ltac:(lia)).
  pose proof (IH (num / base) (pre ++ [digit_char (num mod base)]) suf) as IH'.
  cbv zeta in IH'. cbn [digits_loop] in IH'. rewrite IH' by (simpl in Hs; lia).
  by rewrite <- !app_assoc.
Qed.

Lemma lookup_total_u8 str (n : nat) :
  Forall (fun c => 0 <= c < 256) str -> (n < List.length str)%nat -> u8 (str !!! n) = str !!! n.
Proof.
  intros Hc Hn. apply u8_small. rewrite list_lookup_total_alt.
  destruct (lookup_lt_is_Some_2 str n Hn) as [c Hl]. rewrite Hl.
  apply (Forall_lookup_1 _ _ _ _ Hc Hl).
Qed.

(** One round of the second loop exchanges positions [i] and [i'].*)
Definition exchange (i i' : Z) (str : list Z) : list Z :=
  <[Z.to_nat i' := str !!! Z.to_nat i]> (<[Z.to_nat i := str !!! Z.to_nat i']> str).

Lemma lookup_exchange i i' str (n : nat) :
  0 <= i < Z.of_nat (List.length str) -> 0 <= i' < Z.of_nat (List.length str) ->
  (n < List.length str)%nat ->
  exchange i i' str !!! n =
    if Z.of_nat n =? i' then str !!! Z.to_nat i
    else if Z.of_nat n =? i then str !!! Z.to_nat i' else str !!! n.
Proof.
  intros Hi Hi' Hn. unfold exchange. rewrite !list_lookup_total_alt.
  destruct (Z.eqb_spec (Z.of_nat n) i') as [E|E].
  - rewrite <- E, Nat2Z.id, list_lookup_insert_eq; [done|rewrite length_insert; lia].
  - rewrite list_lookup_insert_ne by lia.
    destruct (Z.eqb_spec (Z.of_nat n) i) as [E'|E'].
    + rewrite <- E', Nat2Z.id, list_lookup_insert_eq by lia. done.
    + by rewrite list_lookup_insert_ne by lia.
Qed.

Lemma exchange_bytes i i' str :
  0 <= i < Z.of_nat (List.length str) -> 0 <= i' < Z.of_nat (List.length str) ->
  Forall (fun c => 0 <= c < 256) str -> Forall (fun c => 0 <= c < 256) (exchange i i' str).
Proof.
  intros Hi Hi' Hc. unfold exchange. repeat apply Forall_insert; [done| |];
    rewrite <- lookup_total_u8 by (done || lia); apply u8_bounds.
Qed.

Lemma swap_round i index str k :
  0 <= i <= index -> index < Z.of_nat (List.length str) ->
  Forall (fun c => 0 <= c < 256) str ->
  swap_loop (S k) i index str = swap_loop k (i + 1) index (exchange i (index - i) str).
Proof.
  intros Hi Hx Hc. cbn [swap_loop]. rewrite !peek_val by lia. cbn [buf_bind].
  rewrite poke_val by lia. cbn [buf_bind]. rewrite poke_val by (rewrite length_insert; lia).
  cbn [buf_bind]. by rewrite !lookup_total_u8 by (done || lia).
Qed.

(** The second loop reverses [str[0..index]] in place. *)
Lemma swap_loop_spec k i index str :
  0 <= i -> i + Z.of_nat k = index / 2 + 1 -> 0 <= index < Z.of_nat (List.length str) ->
  Forall (fun c => 0 <= c < 256) str ->
  exists str', swap_loop k i index str = Val str' /\
    List.length str' = List.length str /\
    forall j : nat, (j < List.length str)%nat ->
      str' !!! j = if (i <=? Z.of_nat j) && (Z.of_nat j <=? index - i)
                   then str !!! Z.to_nat (index - Z.of_nat j) else str !!! j.
Proof.
  pose proof (Z.div_mod index 2 ltac:(done)). pose proof (Z.mod_pos_bound index 2 ltac:(done)).
  revert i str. induction k as [|k IH]; intros i str Hi Hk Hx Hc.
  { exists str. split; [done|]. split; [done|]. intros j Hj.
    destruct (Z.leb_spec i (Z.of_nat j)), (Z.leb_spec (Z.of_nat j) (index - i)); try done. lia. }
  rewrite swap_round by (done || lia).
  assert (List.length (exchange i (index - i) str) = List.length str) as Hl2
    by (unfold exchange; by rewrite !length_insert).
  destruct (IH (i + 1) (exchange i (index - i) str)) as (str' & Hs & Hl & Hj);
    [lia|lia|lia|by apply exchange_bytes; (done || lia)|].
  exists str'. split; [done|]. split; [lia|]. intros j Hlt. rewrite Hj by lia.
  destruct (Z.leb_spec (i + 1) (Z.of_nat j)), (Z.leb_spec (Z.of_nat j) (index - (i + 1)));
    cbn [andb]; rewrite lookup_exchange, ?Z2Nat.id by lia.
  - rewrite !(proj2 (Z.eqb_neq _ _)) by lia.
    by rewrite !(proj2 (Z.leb_le _ _)) by lia.
  - destruct (Z.eqb_spec (Z.of_nat j) (index - i)) as [E|E].
    + rewrite !(proj2 (Z.leb_le _ _)) by lia. cbn [andb]. f_equal. lia.
    + rewrite (proj2 (Z.eqb_neq _ _)) by lia.
      rewrite (proj2 (Z.leb_gt _ (index - i))) by lia. by rewrite andb_false_r.
  - destruct (Z.eqb_spec (Z.of_nat j) (index - i)) as [E|E].
    + rewrite !(proj2 (Z.leb_le _ _)) by lia. cbn [andb]. f_equal. lia.
    + destruct (Z.eqb_spec (Z.of_nat j) i) as [E'|E'].
      * rewrite !(proj2 (Z.leb_le _ _)) by lia. cbn [andb]. f_equal. lia.
      * by rewrite (proj2 (Z.leb_gt i _)) by lia.
  - assert (Z.of_nat j = i) as E by lia. rewrite E, !(proj2 (Z.leb_le _ _)) by lia.
    cbn [andb]. destruct (Z.eqb_spec i (index - i)); [f_equal; lia|by rewrite Z.eqb_refl].
Qed.

(** ** The whole function *)

Lemma c_str_app s t : Forall (fun c => c <> 0) s -> c_str (s ++ 0 :: t) = s.
Proof.
  induction 1 as [|c s Hc Hs IH]; simpl; [done|]. rewrite (proj2 (Z.eqb_neq _ _)) by done.
  by rewrite IH.
Qed.

Lemma castT_base w sg base : 8 <= w -> 2 <= base <= 16 -> castT w sg base = base.
Proof.
  intros Hw Hb.
  assert (2 ^ 7 <= 2 ^ (w - 1)) by (apply Z.pow_le_mono_r; lia).
  assert (2 ^ (w - 1) <= 2 ^ w) by (apply Z.pow_le_mono_r; lia).
  change (2 ^ 7) with 128 in *. unfold castT.
  destruct sg; [apply sext_small | apply wrap_small]; lia.
Qed.

(** The buffer after the terminator is written and the digits are reversed. *)
Lemma swap_all_rev ds t :
  ds <> [] -> Forall (fun c => 0 <= c < 256) (ds ++ t) ->
  let index := Z.of_nat (List.length ds) - 1 in
  swap_loop (Z.to_nat (index / 2 + 1)) 0 index (ds ++ t) = Val (reverse ds ++ t).
Proof.
  intros Hne Hc index.
  assert (0 < List.length ds)%nat by (destruct ds; simpl; [done|lia]).
  assert (0 <= index / 2) by (apply Z.div_pos; lia).
  destruct (swap_loop_spec (Z.to_nat (index / 2 + 1)) 0 index (ds ++ t)) as (str' & -> & Hl & Hj);
    [lia|lia|rewrite length_app; lia|done|].
  f_equal. apply list_eq_same_length with (n := List.length (ds ++ t)); [
    by rewrite !length_app, length_reverse | done |].
  intros j x y Hlt Hx Hy. apply list_lookup_total_correct in Hx as <-.
  rewrite Hj by done. rewrite (proj2 (Z.leb_le 0 _)) by lia. cbn [andb].
  apply list_lookup_total_correct in Hy as <-. rewrite !list_lookup_total_alt.
  destruct (Z.leb_spec (Z.of_nat j) (index - 0)).
  - rewrite !lookup_app_l by (rewrite ?length_reverse; lia).
    rewrite reverse_lookup by lia. do 2 f_equal. lia.
  - rewrite !lookup_app_r by (rewrite ?length_reverse; lia). by rewrite length_reverse.
Qed.

(** For a non-negative value the result holds the digits of the value, most
    significant first, and the array is never left. *)
Lemma xtoa_nonzero w sg value str base :
  8 <= w -> 2 <= base <= 16 -> 0 < value < 2 ^ w ->
  Forall (fun c => 0 <= c < 256) str -> w < Z.of_nat (List.length str) ->
  exists t, xtoa w sg value str base =
    Val (Some (reverse (le_digits (Z.to_nat w) base value) ++ 0 :: t)) /\
    (List.length (le_digits (Z.to_nat w) base value) + S (List.length t) = List.length str)%nat.
Proof.
  intros Hw Hb Hv Hc Hl. unfold xtoa.
  rewrite (proj2 (Z.ltb_ge base 2)), (proj2 (Z.ltb_ge 16 base)) by lia. cbn [orb].
  rewrite (proj2 (Z.eqb_neq value 0)), castT_base by lia. cbv zeta.
  set (ds := le_digits (Z.to_nat w) base value).
  pose proof (le_digits_length (Z.to_nat w) base value) as Hds. fold ds in Hds.
  assert (Forall (is_digit base) ds) as Hdig by (by apply le_digits_Forall).
  replace (Z.to_nat w + 1)%nat with (S (Z.to_nat w)) by lia.
  pose proof (digits_loop_spec (Z.to_nat w) base value [] str) as Hloop. cbv zeta in Hloop.
  simpl List.length in Hloop. rewrite !app_nil_l in Hloop. fold ds in Hloop.
  change (Z.of_nat 0) with 0 in Hloop.
  rewrite Hloop by (rewrite ?Z2Nat.id; lia). cbn [buf_bind].
  rewrite (proj2 (Z.ltb_ge value 0)), andb_false_r by lia. cbn [buf_bind fst snd].
  assert (exists x t, drop (List.length ds) str = x :: t) as (x & t & Hd).
  { destruct (drop (List.length ds) str) as [|x t] eqn:E; [|eauto].
    apply (f_equal (@List.length Z)) in E. rewrite length_drop in E. simpl in E. lia. }
  rewrite Hd, poke_val by (rewrite length_app; simpl; lia). cbn [buf_bind].
  rewrite Nat2Z.id, insert_app_r_alt, Nat.sub_diag by lia.
  change (<[0%nat := u8 0]> (x :: t)) with (0 :: t).
  exists t. split.
  - rewrite swap_all_rev; [done| |].
    + unfold ds. intros E. pose proof (le_digits_value (Z.to_nat w) base value) as Hval.
      rewrite E in Hval. cbn in Hval. rewrite Z2Nat.id in Hval by lia. lia.
    + apply Forall_app. split.
      * eapply Forall_impl; [exact Hdig|]. intros c [_ ?]. lia.
      * constructor; [lia|]. apply (Forall_drop _ (List.length ds)) in Hc. rewrite Hd in Hc.
        by inversion Hc.
  - apply (f_equal (@List.length Z)) in Hd. rewrite length_drop in Hd. simpl in Hd. lia.
Qed.

Lemma castT_range w sg value :
  8 <= w -> castT w sg value = value -> 0 <= value -> value < 2 ^ w.
Proof.
  intros Hw Hc H0. rewrite <- Hc. unfold castT. destruct sg.
  - unfold sext. pose proof (Z.mod_pos_bound (value + 2 ^ (w - 1)) (2 ^ w)).
    assert (0 < 2 ^ w) by (apply Z.pow_pos_nonneg; lia).
    assert (0 < 2 ^ (w - 1)) by (apply Z.pow_pos_nonneg; lia). lia.
  - pose proof (wrap_bounds w value). lia.
Qed.

Lemma is_digit_nonzero base c : is_digit base c -> c <> 0.
Proof. unfold is_digit. lia. Qed.

Lemma xtoa_digits w sg value str base :
  8 <= w <= 64 -> 2 <= base <= 16 -> castT w sg value = value -> 0 <= value ->
  Forall (fun c => 0 <= c < 256) str -> Z.of_nat (List.length str) = MAX_NUM_STR_SIZE ->
  exists buf, xtoa w sg value str base = Val (Some buf) /\
    List.length buf = List.length str /\
    Forall (is_digit base) (c_str buf) /\
    numeral_value base (c_str buf) = value /\
    (head (c_str buf) = Some 48 -> c_str buf = [48]).
Proof.
  unfold MAX_NUM_STR_SIZE. intros Hw Hb Hc H0 Hstr Hl.
  destruct (decide (value = 0)) as [->|Hne].
  { destruct str as [|x [|y str]]; [done|done|].
    unfold xtoa. rewrite (proj2 (Z.ltb_ge base 2)), (proj2 (Z.ltb_ge 16 base)) by lia.
    rewrite Z.eqb_refl, poke_val by (simpl; lia). cbn [orb buf_bind].
    rewrite poke_val by (rewrite length_insert; simpl; lia).
    change (u8 48) with 48. change (u8 0) with 0.
    eexists. split; [done|]. split; [done|]. cbn. split; [|by split].
    constructor; [|constructor]. unfold is_digit. cbn. lia. }
  pose proof (castT_range _ _ _ (proj1 Hw) Hc H0).
  destruct (xtoa_nonzero w sg value str base) as (t & -> & Ht); [lia|done|lia|done|lia|].
  pose proof (le_digits_Forall (Z.to_nat w) base value Hb) as Hd.
  eexists. split; [done|]. rewrite c_str_app.
  2:{ apply Forall_reverse. eapply Forall_impl; [exact Hd|]. apply is_digit_nonzero. }
  split; [rewrite length_app, length_reverse; simpl; lia|].
  split; [by apply Forall_reverse|]. split; [apply le_digits_value; rewrite ?Z2Nat.id; lia|].
  intros Hh. exfalso. apply (le_digits_last (Z.to_nat w) base value 0); [lia|rewrite Z2Nat.id; lia|].
  destruct (le_digits (Z.to_nat w) base value) as [|d ds] using rev_ind; [done|].
  rewrite reverse_snoc in Hh. injection Hh as ->. by rewrite List.last_last.
Qed.

(** C37: for every non-negative value of an integer type of 8 to 64 bits and
    every base from 2 to 16, [xtoa] into a [MAX_NUM_STR_SIZE] array stays inside
    the array and leaves a terminated string of digits of that base that denotes
    the value, without a leading zero. *)
Theorem xtoa_roundtrip w sg value str base :
  8 <= w <= 64 -> 2 <= base <= 16 -> castT w sg value = value -> 0 <= value ->
  Forall (fun c => 0 <= c < 256) str -> Z.of_nat (List.length str) = MAX_NUM_STR_SIZE ->
  exists buf, xtoa w sg value str base = Val (Some buf) /\
    List.length buf = List.length str /\
    Forall (is_digit base) (c_str buf) /\
    numeral_value base (c_str buf) = value /\
    (head (c_str buf) = Some 48 -> c_str buf = [48]).
Proof. apply xtoa_digits. Qed.

Lemma xtoa_roundtrip_witness :
  exists buf, xtoa 32 false 48879 (replicate 65 0) 16 = Val (Some buf) /\
    List.length buf = List.length (replicate 65 0) /\
    Forall (is_digit 16) (c_str buf) /\
    numeral_value 16 (c_str buf) = 48879 /\
    (head (c_str buf) = Some 48 -> c_str buf = [48]).
Proof.
  apply (xtoa_roundtrip 32 false 48879 (replicate 65 0) 16); try reflexivity; try lia.
  apply Forall_replicate. lia.
Defined.

(** The string for 48879 in base 16 is "BEEF". *)
Example xtoa_beef : buf_bind (xtoa 32 false 48879 (replicate 65 0) 16)
    (fun r => match r with Some s => Val (c_str s) | None => Fault end) =
  Val (bytes_of_string "BEEF").
Proof. reflexivity. Qed.

(** On a negative value of a signed type C++'s [%] is negative, so the character
    computed is ['0'] minus the digit: -5 in base 10 prints as "-+", not "-5". *)
Theorem xtoa_negative value :
  -10 < value < 0 ->
  exists buf, xtoa 32 true value (replicate 65 0) 10 = Val (Some buf) /\
    c_str buf = [45; 48 + value].
Proof.
  intros Hv.
  assert (value = -1 \/ value = -2 \/ value = -3 \/ value = -4 \/ value = -5 \/
    value = -6 \/ value = -7 \/ value = -8 \/ value = -9) as Hc by lia.
  repeat (destruct Hc as [->|Hc]; [eexists; split; reflexivity|]).
  subst. eexists. split; reflexivity.
Qed.

Lemma xtoa_negative_witness :
  exists buf, xtoa 32 true (-5) (replicate 65 0) 10 = Val (Some buf) /\ c_str buf = [45; 43].
Proof. apply (xtoa_negative (-5)). lia. Defined.
