(* ===== verification/Terminal.v ===== *)
(** The text-mode terminal: [io::framebuffer_terminal] of
    [include/devices/BIOSVideoIO.hpp] and [lib/io/BIOSVideoIO.cpp].  The object's
    fields are a record; the screen is the memory the object's [_buffer] points
    to, 25 rows of 80 little-endian 16-bit cells. *)

From S2P Require Import Prelude PhysMem CString.

Definition FRAMEBUFFER_LOCATION : Z := 753664. (* 0xb8000 *)
Definition vga_height : Z := 25.
Definition vga_width : Z := 80.

Inductive vga_color : Type :=
  | VGA_COLOR_BLACK | VGA_COLOR_BLUE | VGA_COLOR_GREEN | VGA_COLOR_CYAN
  | VGA_COLOR_RED | VGA_COLOR_MAGENTA | VGA_COLOR_BROWN | VGA_COLOR_LIGHT_GREY
  | VGA_COLOR_DARK_GREY | VGA_COLOR_LIGHT_BLUE | VGA_COLOR_LIGHT_GREEN
  | VGA_COLOR_LIGHT_CYAN | VGA_COLOR_LIGHT_RED | VGA_COLOR_LIGHT_MAGENTA
  | VGA_COLOR_LIGHT_BROWN | VGA_COLOR_WHITE.

#[export] Instance vga_color_eq_dec : EqDecision vga_color.
Proof. solve_decision. Defined.

(** The [uint8_t] value of an enumerator. *)
Definition vga_color_code (c : vga_color) : Z :=
  match c with
  | VGA_COLOR_BLACK => 0 | VGA_COLOR_BLUE => 1 | VGA_COLOR_GREEN => 2
  | VGA_COLOR_CYAN => 3 | VGA_COLOR_RED => 4 | VGA_COLOR_MAGENTA => 5
  | VGA_COLOR_BROWN => 6 | VGA_COLOR_LIGHT_GREY => 7 | VGA_COLOR_DARK_GREY => 8
  | VGA_COLOR_LIGHT_BLUE => 9 | VGA_COLOR_LIGHT_GREEN => 10
  | VGA_COLOR_LIGHT_CYAN => 11 | VGA_COLOR_LIGHT_RED => 12
  | VGA_COLOR_LIGHT_MAGENTA => 13 | VGA_COLOR_LIGHT_BROWN => 14
  | VGA_COLOR_WHITE => 15
  end.

Record terminal : Type := Terminal {
  t_row : Z;        (* uint16_t _row *)
  t_column : Z;     (* uint16_t _column *)
  t_color : Z;      (* uint8_t _color *)
  t_fullLine : bool;
  t_buffer : Z;     (* uint16_t* _buffer *)
}.

(** The constructor: it does not touch the screen. *)
Definition new_terminal : terminal := Terminal 0 0 7 false FRAMEBUFFER_LOCATION.

Definition vga_entry_color (fg bg : vga_color) : Z :=
  u8 (Z.lor (vga_color_code fg) (Z.shiftl (vga_color_code bg) 4)).

Definition vga_entry (uc tColor : Z) : Z := u16 (Z.lor uc (Z.shiftl tColor 8)).

Definition setColor (fg bg : vga_color) (t : terminal) : terminal :=
  Terminal (t_row t) (t_column t) (vga_entry_color fg bg) (t_fullLine t) (t_buffer t).

Definition reset (t : terminal) : terminal :=
  setColor VGA_COLOR_LIGHT_GREY VGA_COLOR_BLACK
    (Terminal 0 0 (t_color t) false FRAMEBUFFER_LOCATION).

Definition getRow (t : terminal) : Z := t_row t.
Definition getColumn (t : terminal) : Z := t_column t.

(** [_buffer[index] = v]. *)
Definition set_cell (t : terminal) (m : mem) (index v : Z) : mem :=
  st16 m (t_buffer t + 2 * index) v.

(** The inner loop over [x] and the outer loop over [y] of [clear] and of the
    last lines in [scroll]: [k] rounds from the given index on. *)
Fixpoint blank_columns (k : nat) (x y : Z) (t : terminal) (m : mem) : mem :=
  match k with
  | O => m
  | S k' =>
      blank_columns k' (x + 1) y t
        (set_cell t m (u32 (y * vga_width + x)) (vga_entry 32 (t_color t)))
  end.

Fixpoint blank_rows (k : nat) (y : Z) (t : terminal) (m : mem) : mem :=
  match k with
  | O => m
  | S k' => blank_rows k' (y + 1) t (blank_columns (Z.to_nat vga_width) 0 y t m)
  end.

Definition clear (t : terminal) (m : mem) : mem :=
  blank_rows (Z.to_nat vga_height) 0 t m.

(** [scroll] returns 0, or 1 when [lines] is out of range. *)
Definition scroll (lines : Z) (t : terminal) (m : mem) : Z * mem :=
  if vga_height <=? lines then (1, m)
  else
    let size := u32 (vga_width * (vga_height - lines) * 2) in
    let m1 := memmove m (t_buffer t) (t_buffer t + 2 * (vga_width * lines)) size in
    (0, blank_rows (Z.to_nat lines) (vga_height - lines) t m1).

(** [if (++_row == vga_height) { scroll(1); _row--; }]. *)
Definition next_row (t : terminal) (m : mem) : terminal * mem :=
  let row := u16 (t_row t + 1) in
  let t1 := Terminal row (t_column t) (t_color t) (t_fullLine t) (t_buffer t) in
  if row =? vga_height then
    (Terminal (u16 (row - 1)) (t_column t) (t_color t) (t_fullLine t) (t_buffer t),
     snd (scroll 1 t1 m))
  else (t1, m).

(** [c] is the byte of a (signed) [char]; the result is 0, or 1 for a character
    out of bounds. *)
Definition putchar (c : Z) (t : terminal) (m : mem) : Z * terminal * mem :=
  if c =? 10 then
    if t_fullLine t then
      (0, Terminal (t_row t) (t_column t) (t_color t) false (t_buffer t), m)
    else
      let '(t1, m1) := next_row (Terminal (t_row t) 0 (t_color t) (t_fullLine t) (t_buffer t)) m in
      (0, t1, m1)
  else
    let t0 := Terminal (t_row t) (t_column t) (t_color t) false (t_buffer t) in
    let index := u32 (t_row t0 * vga_width + t_column t0) in
    if (s8 c <? 20) || (126 <? s8 c) then (1, t0, m)
    else
      let m1 := set_cell t0 m index (vga_entry (u8 c) (t_color t0)) in
      let column := u16 (t_column t0 + 1) in
      if column =? vga_width then
        let '(t2, m2) := next_row (Terminal (t_row t0) 0 (t_color t0) true (t_buffer t0)) m1 in
        (0, t2, m2)
      else (0, Terminal (t_row t0) column (t_color t0) (t_fullLine t0) (t_buffer t0), m1).

Definition setCursor (row column : Z) (t : terminal) : bool * terminal :=
  if (vga_height <=? row) || (vga_width <=? column) then (false, t)
  else (true, Terminal row column (t_color t) (t_fullLine t) (t_buffer t)).

(** ** The screen as a list of cells *)

Definition cells : Z := 2000.

Definition screen_at (m : mem) (buf : Z) (scr : list Z) : Prop :=
  Z.of_nat (List.length scr) = cells /\
  forall i v, scr !! i = Some v -> ld16 m (buf + 2 * Z.of_nat i) = v.

(** The object is in a state the constructor, [reset], [setCursor] and the
    operations can reach. *)
Record terminal_ok (t : terminal) : Prop := {
  ok_row : 0 <= t_row t < vga_height;
  ok_column : 0 <= t_column t < vga_width;
  ok_color : 0 <= t_color t < 256;
  ok_buffer : fits (t_buffer t) (2 * cells);
}.

(** What the operations do, on the list of cells. *)

Definition blank (color : Z) : Z := vga_entry 32 color.

Definition scrolled (lines : nat) (color : Z) (scr : list Z) : list Z :=
  drop (80 * lines) scr ++ replicate (80 * lines) (blank color).

Definition next_row_spec (t : terminal) (scr : list Z) : terminal * list Z :=
  if t_row t =? 24 then (t, scrolled 1 (t_color t) scr)
  else (Terminal (t_row t + 1) (t_column t) (t_color t) (t_fullLine t) (t_buffer t), scr).

Definition printable (c : Z) : bool := (20 <=? c) && (c <=? 126).

Definition putchar_spec (c : Z) (t : terminal) (scr : list Z) : Z * terminal * list Z :=
  if c =? 10 then
    if t_fullLine t then
      (0, Terminal (t_row t) (t_column t) (t_color t) false (t_buffer t), scr)
    else
      let '(t1, scr1) :=
        next_row_spec (Terminal (t_row t) 0 (t_color t) (t_fullLine t) (t_buffer t)) scr in
      (0, t1, scr1)
  else if printable c then
    let scr1 := <[Z.to_nat (t_row t * 80 + t_column t) := vga_entry c (t_color t)]> scr in
    if t_column t =? 79 then
      let '(t2, scr2) :=
        next_row_spec (Terminal (t_row t) 0 (t_color t) true (t_buffer t)) scr1 in
      (0, t2, scr2)
    else
      (0, Terminal (t_row t) (t_column t + 1) (t_color t) false (t_buffer t), scr1)
  else (1, Terminal (t_row t) (t_column t) (t_color t) false (t_buffer t), scr).

(** ** Cells in memory *)

Lemma vga_entry_bounds uc color : 0 <= vga_entry uc color < 65536.
Proof. apply u16_bounds. Qed.

Lemma set_cell_only_changes t m i v : only_changes (t_buffer t + 2 * i) 2 m (set_cell t m i v).
Proof. apply (store_only_changes 2). lia. Qed.

(** Writing cell [i] updates element [i] of the screen. *)
Lemma set_cell_screen t m scr i v :
  terminal_ok t -> screen_at m (t_buffer t) scr -> 0 <= i < cells -> 0 <= v < 65536 ->
  screen_at (set_cell t m i v) (t_buffer t) (<[Z.to_nat i := v]> scr).
Proof.
  intros [_ _ _ (?&?&?)] [Hl Hs] Hi Hv. unfold cells in *. split; [by rewrite length_insert|].
  intros j w Hj. unfold set_cell.
  destruct (decide (j = Z.to_nat i)) as [->|Hne].
  - rewrite list_lookup_insert_eq in Hj by lia. injection Hj as <-.
    rewrite Z2Nat.id by lia. rewrite load_store by lia. rewrite Z.mod_small; [done|].
    change (256 ^ Z.of_nat 2) with 65536. lia.
  - rewrite list_lookup_insert_ne in Hj by done.
    assert (j < List.length scr)%nat by (by eapply lookup_lt_Some).
    rewrite load_store_ne by (lia || (intros k Hk; apply in_range_false; lia)). by apply Hs.
Qed.

Lemma set_cell_frame t m i v :
  terminal_ok t -> 0 <= i < cells ->
  only_changes (t_buffer t) (2 * cells) m (set_cell t m i v).
Proof.
  intros [_ _ _ Hb] Hi. unfold cells in *. destruct (id Hb) as (?&?&?).
  eapply only_changes_sub; [apply set_cell_only_changes|done|lia..].
Qed.

(** ** The blanking loops *)

(** Positions [p], ..., [p+n-1] set to [v]. *)
Definition fill (p n : nat) (v : Z) (scr : list Z) : list Z :=
  take p scr ++ replicate n v ++ drop (p + n) scr.

Lemma lookup_fill p n v scr i :
  (p + n <= List.length scr)%nat ->
  fill p n v scr !! i = if decide (p <= i < p + n)%nat then Some v else scr !! i.
Proof.
  intros Hl. unfold fill. assert (List.length (take p scr) = p) as Ht by (rewrite length_take; lia).
  case_decide as Hd.
  - rewrite lookup_app_r, Ht, lookup_app_l by (rewrite ?length_replicate; lia).
    apply lookup_replicate. lia.
  - destruct (decide (i < p)%nat) as [Hi|Hi].
    + by rewrite lookup_app_l, lookup_take_lt by (lia || rewrite Ht; lia).
    + rewrite lookup_app_r, Ht, lookup_app_r by (rewrite ?length_replicate; lia).
      rewrite length_replicate, lookup_drop. f_equal. lia.
Qed.

Lemma length_fill p n v scr :
  (p + n <= List.length scr)%nat -> List.length (fill p n v scr) = List.length scr.
Proof. intros. unfold fill. rewrite !length_app, length_take, length_replicate, length_drop. lia. Qed.

Lemma fill_fill p n1 n2 v scr :
  (p + n1 + n2 <= List.length scr)%nat ->
  fill (p + n1) n2 v (fill p n1 v scr) = fill p (n1 + n2) v scr.
Proof.
  intros Hl. apply list_eq. intros i.
  rewrite !lookup_fill by (rewrite ?length_fill by lia; lia).
  repeat case_decide; done || lia.
Qed.

Lemma fill_insert p v scr :
  (p < List.length scr)%nat -> <[p := v]> scr = fill p 1 v scr.
Proof.
  intros Hl. apply list_eq. intros i. rewrite lookup_fill by lia.
  case_decide as Hd.
  - replace i with p by lia. by apply list_lookup_insert_eq.
  - apply list_lookup_insert_ne. lia.
Qed.

Lemma fill_0 p v scr : fill p 0 v scr = scr.
Proof. unfold fill. rewrite Nat.add_0_r. apply take_drop. Qed.

Lemma blank_columns_spec k x y t m scr :
  terminal_ok t -> screen_at m (t_buffer t) scr ->
  0 <= x -> x + Z.of_nat k <= vga_width -> 0 <= y < vga_height ->
  screen_at (blank_columns k x y t m) (t_buffer t)
    (fill (Z.to_nat (y * 80 + x)) k (blank (t_color t)) scr) /\
  only_changes (t_buffer t) (2 * cells) m (blank_columns k x y t m).
Proof.
  intros Ht. unfold vga_width, vga_height, cells in *.
  revert x m scr. induction k as [|k IH]; intros x m scr Hs Hx Hk Hy; cbn [blank_columns].
  { rewrite fill_0. split; [done|apply only_changes_refl]. }
  unfold vga_width. rewrite u32_small by lia.
  pose proof (proj1 Hs) as Hl. unfold cells in Hl.
  destruct (IH (x + 1) (set_cell t m (y * 80 + x) (vga_entry 32 (t_color t)))
    (<[Z.to_nat (y * 80 + x) := blank (t_color t)]> scr)) as [IH1 IH2]; try lia.
  { apply set_cell_screen; [done..|unfold cells; lia|apply vga_entry_bounds]. }
  split.
  - rewrite fill_insert in IH1 by lia.
    replace (Z.to_nat (y * 80 + (x + 1))) with (Z.to_nat (y * 80 + x) + 1)%nat in IH1 by lia.
    by rewrite fill_fill in IH1 by lia.
  - eapply only_changes_trans; [|exact IH2]. apply set_cell_frame; [done|unfold cells; lia].
Qed.

Lemma blank_rows_spec k y t m scr :
  terminal_ok t -> screen_at m (t_buffer t) scr ->
  0 <= y -> y + Z.of_nat k <= vga_height ->
  screen_at (blank_rows k y t m) (t_buffer t)
    (fill (Z.to_nat (y * 80)) (80 * k) (blank (t_color t)) scr) /\
  only_changes (t_buffer t) (2 * cells) m (blank_rows k y t m).
Proof.
  intros Ht. unfold vga_height.
  revert y m scr. induction k as [|k IH]; intros y m scr Hs Hy Hk; cbn [blank_rows].
  { rewrite Nat.mul_0_r, fill_0. split; [done|apply only_changes_refl]. }
  pose proof (proj1 Hs) as Hl. unfold cells in Hl.
  destruct (blank_columns_spec (Z.to_nat vga_width) 0 y t m scr) as [Hc1 Hc2];
    unfold vga_width, vga_height in *; try lia; [done..|].
  rewrite Z.add_0_r in Hc1.
  destruct (IH (y + 1) _ _ Hc1) as [IH1 IH2]; [lia..|]. split.
  - replace (Z.to_nat ((y + 1) * 80)) with (Z.to_nat (y * 80) + 80)%nat in IH1 by lia.
    change (Z.to_nat 80) with 80%nat in IH1. rewrite fill_fill in IH1 by lia.
    by replace (80 * S k)%nat with (80 + 80 * k)%nat by lia.
  - by eapply only_changes_trans.
Qed.

(** ** [clear] and [scroll] *)

Lemma clear_screen t m scr :
  terminal_ok t -> screen_at m (t_buffer t) scr ->
  screen_at (clear t m) (t_buffer t) (replicate 2000 (blank (t_color t))) /\
  only_changes (t_buffer t) (2 * cells) m (clear t m).
Proof.
  intros Ht Hs. destruct (blank_rows_spec (Z.to_nat vga_height) 0 t m scr) as [H1 H2];
    unfold vga_height in *; [done..|lia|lia|]. split; [|done].
  destruct Hs as [Hl _]. unfold cells in Hl. revert H1. unfold fill, clear.
  change (Z.to_nat (0 * 80)) with 0%nat. rewrite drop_ge by (simpl; lia).
  simpl take. by rewrite app_nil_r.
Qed.

(** The screen after the [memmove] of [scroll]: the lines have moved up, the last
    ones are still there. *)
Definition moved_up (lines : nat) (scr : list Z) : list Z :=
  drop (80 * lines) scr ++ drop (2000 - 80 * lines) scr.

Lemma scroll_move t m scr lines :
  terminal_ok t -> screen_at m (t_buffer t) scr -> 0 <= lines < vga_height ->
  let m1 := memmove m (t_buffer t) (t_buffer t + 2 * (vga_width * lines))
              (vga_width * (vga_height - lines) * 2) in
  screen_at m1 (t_buffer t) (moved_up (Z.to_nat lines) scr) /\
  only_changes (t_buffer t) (2 * cells) m m1.
Proof.
  intros [_ _ _ (?&?&?)] [Hl Hs] Hn m1. unfold vga_height, vga_width, cells in *.
  assert (is_copy m (t_buffer t) (t_buffer t + 2 * (80 * lines)) (80 * (25 - lines) * 2) m1) as Hc.
  { apply memmove_is_copy; unfold fits; lia. }
  assert (fits (t_buffer t) (80 * (25 - lines) * 2)) as Hf by (unfold fits; lia).
  split.
  - split; [unfold moved_up, cells; rewrite length_app, !length_drop; lia|].
    intros i v Hi. assert (i < 2000)%nat.
    { apply lookup_lt_Some in Hi. unfold moved_up in Hi.
      rewrite length_app, !length_drop in Hi. lia. }
    unfold moved_up in Hi.
    destruct (decide (i < 2000 - 80 * Z.to_nat lines)%nat).
    + rewrite lookup_app_l, lookup_drop in Hi by (rewrite length_drop; lia).
      rewrite <- (Hs _ _ Hi). apply load_ext. intros j Hj.
      rewrite <- Z.add_assoc. rewrite (is_copy_in _ _ _ _ _ _ Hc Hf) by lia. f_equal. lia.
    + rewrite lookup_app_r, lookup_drop, length_drop in Hi by (rewrite length_drop; lia).
      replace (2000 - 80 * Z.to_nat lines + (i - (List.length scr - 80 * Z.to_nat lines)))%nat
        with i in Hi by lia.
      rewrite <- (Hs _ _ Hi). apply load_ext. intros j Hj.
      apply (is_copy_out _ _ _ _ _ _ Hc); lia.
  - eapply only_changes_weaken; [by eapply is_copy_only_changes|].
    intros b Hb. apply Z.ltb_ge in Hb. apply in_range_ge. lia.
Qed.

Lemma scroll_screen t m scr lines :
  terminal_ok t -> screen_at m (t_buffer t) scr -> 0 <= lines < vga_height ->
  exists m', scroll lines t m = (0, m') /\
    screen_at m' (t_buffer t) (scrolled (Z.to_nat lines) (t_color t) scr) /\
    only_changes (t_buffer t) (2 * cells) m m'.
Proof.
  intros Ht Hs Hn. unfold scroll. rewrite (proj2 (Z.leb_gt _ _)) by lia.
  destruct (scroll_move t m scr lines Ht Hs Hn) as [Hm1 Hm2]. cbv zeta in *.
  rewrite u32_small by (unfold vga_width, vga_height in *; lia).
  destruct (blank_rows_spec (Z.to_nat lines) (vga_height - lines) t _ _ Ht Hm1) as [Hb1 Hb2];
    [lia..|].
  eexists. split; [done|]. split; [|by eapply only_changes_trans].
  replace (scrolled (Z.to_nat lines) (t_color t) scr)
    with (fill (Z.to_nat ((vga_height - lines) * 80)) (80 * Z.to_nat lines)
            (blank (t_color t)) (moved_up (Z.to_nat lines) scr)); [done|].
  destruct Hs as [Hl _]. unfold cells, vga_height in *.
  unfold fill, scrolled, moved_up.
  rewrite take_app_length' by (rewrite length_drop; lia).
  rewrite (drop_ge (_ ++ _)) by (rewrite length_app, !length_drop; lia). by rewrite app_nil_r.
Qed.

(** ** [putchar] *)

Lemma next_row_refines t m scr :
  terminal_ok t -> screen_at m (t_buffer t) scr ->
  exists m', next_row t m = (fst (next_row_spec t scr), m') /\
    screen_at m' (t_buffer t) (snd (next_row_spec t scr)) /\
    only_changes (t_buffer t) (2 * cells) m m' /\ terminal_ok (fst (next_row_spec t scr)).
Proof.
  intros Ht Hs. destruct (id Ht) as [Hr Hc Hco Hb]. unfold next_row, next_row_spec.
  unfold vga_height in Hr. rewrite u16_small by lia.
  destruct (Z.eqb_spec (t_row t + 1) vga_height) as [E|E]; unfold vga_height in E.
  - rewrite (proj2 (Z.eqb_eq _ _)) by lia. cbn [fst snd].
    destruct (scroll_screen t m scr 1 Ht Hs) as (m' & Hm & H1 & H2);
      [unfold vga_height; lia|].
    exists m'. rewrite u16_small by lia.
    replace (scroll 1 (Terminal _ _ _ _ _) m) with (scroll 1 t m) by done.
    rewrite Hm. replace (t_row t + 1 - 1) with (t_row t) by lia. by destruct t.
  - rewrite (proj2 (Z.eqb_neq _ _)) by lia. cbn [fst snd].
    exists m. split; [done|]. split; [done|]. split; [apply only_changes_refl|].
    split; cbn; unfold vga_height, vga_width in *; done || lia.
Qed.

Lemma s8_printable c : 0 <= c < 256 ->
  (s8 c <? 20) || (126 <? s8 c) = negb (printable c).
Proof.
  intros Hc. unfold printable, sext. pow2_simpl. change (2 ^ (8 - 1)) with 128.
  destruct (Z.lt_ge_cases c 128).
  - rewrite Z.mod_small by lia.
    destruct (Z.ltb_spec (c + 128 - 128) 20), (Z.ltb_spec 126 (c + 128 - 128)),
      (Z.leb_spec 20 c), (Z.leb_spec c 126); simpl; lia || done.
  - replace ((c + 128) mod 256) with (c - 128) by (Z.to_euclidean_division_equations; lia).
    destruct (Z.ltb_spec (c - 128 - 128) 20), (Z.leb_spec c 126); simpl; lia.
Qed.

Lemma terminal_ok_moved t col fl :
  terminal_ok t -> 0 <= col < vga_width ->
  terminal_ok (Terminal (t_row t) col (t_color t) fl (t_buffer t)).
Proof. intros [] ?. by split. Qed.

(** The start of a new line, in the form [putchar] uses it. *)
Lemma new_line_refines fl t m scr :
  terminal_ok t -> screen_at m (t_buffer t) scr ->
  let '(t2, scr2) :=
    next_row_spec (Terminal (t_row t) 0 (t_color t) fl (t_buffer t)) scr in
  exists m', next_row (Terminal (t_row t) 0 (t_color t) fl (t_buffer t)) m = (t2, m') /\
    screen_at m' (t_buffer t2) scr2 /\ only_changes (t_buffer t) (2 * cells) m m' /\
    terminal_ok t2 /\ t_buffer t2 = t_buffer t.
Proof.
  intros Ht Hs.
  destruct (next_row_refines (Terminal (t_row t) 0 (t_color t) fl (t_buffer t)) m scr)
    as (m' & -> & H1 & H2 & H3);
    [by apply terminal_ok_moved; unfold vga_width|done|].
  assert (t_buffer (next_row_spec (Terminal (t_row t) 0 (t_color t) fl (t_buffer t)) scr).1
    = t_buffer t) as Hbuf by (unfold next_row_spec; by destruct (_ =? 24)).
  destruct (next_row_spec _ _) as [t2 scr2]. cbn [fst snd] in *. rewrite Hbuf. exists m'. done.
Qed.

Lemma putchar_refines_lemma c t m scr :
  terminal_ok t -> screen_at m (t_buffer t) scr -> 0 <= c < 256 ->
  let '(r, t', scr') := putchar_spec c t scr in
  exists m', putchar c t m = (r, t', m') /\ screen_at m' (t_buffer t') scr' /\
    only_changes (t_buffer t) (2 * cells) m m' /\ terminal_ok t' /\ t_buffer t' = t_buffer t.
Proof.
  intros Ht Hs Hc. destruct (id Ht) as [Hr Hcol Hco Hb]. unfold vga_height, vga_width in *.
  pose proof (fun col fl => terminal_ok_moved t col fl Ht) as Hok. unfold vga_width in Hok.
  unfold putchar, putchar_spec. destruct (Z.eqb_spec c 10) as [->|Hnl].
  { destruct (t_fullLine t) eqn:Hf.
    - exists m. split; [done|]. split; [done|]. split; [apply only_changes_refl|].
      split; [by apply Hok|done].
    - pose proof (new_line_refines false t m scr Ht Hs) as Hnext.
      destruct (next_row_spec _ _) as [t1 scr1]. destruct Hnext as (m' & -> & ?). eauto. }
  rewrite s8_printable by done. destruct (printable c) eqn:Hp; cbn [negb].
  2:{ exists m. split; [done|]. split; [done|]. split; [apply only_changes_refl|].
      split; [by apply Hok|done]. }
  cbn [t_row t_column t_color t_fullLine t_buffer]. unfold vga_width.
  rewrite (u32_small (t_row t * 80 + t_column t)), (u16_small (t_column t + 1)), u8_small by lia.
  set (m1 := set_cell _ _ _ _).
  assert (screen_at m1 (t_buffer t)
    (<[Z.to_nat (t_row t * 80 + t_column t) := vga_entry c (t_color t)]> scr)) as H1.
  { apply (set_cell_screen (Terminal (t_row t) (t_column t) (t_color t) false (t_buffer t)));
      [by apply Hok|done|unfold cells; lia|apply vga_entry_bounds]. }
  assert (only_changes (t_buffer t) (2 * cells) m m1) as Hm1.
  { apply (set_cell_frame (Terminal (t_row t) (t_column t) (t_color t) false (t_buffer t)));
      [by apply Hok|unfold cells; lia]. }
  destruct (Z.eqb_spec (t_column t) 79) as [E|E].
  - rewrite (proj2 (Z.eqb_eq (t_column t + 1) 80)) by lia.
    pose proof (new_line_refines true t m1 _ Ht H1) as Hnext. destruct (next_row_spec _ _) as [t2 scr2].
    destruct Hnext as (m' & -> & ? & ? & ?). exists m'. split; [done|]. split; [done|].
    split; [by eapply only_changes_trans|done].
  - rewrite (proj2 (Z.eqb_neq (t_column t + 1) 80)) by lia.
    exists m1. split; [done|]. split; [done|]. split; [done|]. split; [apply Hok; lia|done].
Qed.

(** ** The terminal as a state machine *)

(** One call of a public operation on the object. *)
Inductive term_step : terminal * mem -> terminal * mem -> Prop :=
  | step_putchar c t m r t' m' :
      0 <= c < 256 -> putchar c t m = (r, t', m') -> term_step (t, m) (t', m')
  | step_setColor fg bg t m : term_step (t, m) (setColor fg bg t, m)
  | step_setCursor row column t m :
      0 <= row < 256 -> 0 <= column < 256 ->
      term_step (t, m) (snd (setCursor row column t), m)
  | step_scroll lines t m :
      0 <= lines -> term_step (t, m) (t, snd (scroll lines t m))
  | step_clear t m : term_step (t, m) (t, clear t m)
  | step_reset t m : term_step (t, m) (reset t, m).

(** What holds of the object and of memory after any calls, [m0] being the memory
    when the object was made. *)
Definition terminal_inv (m0 : mem) (s : terminal * mem) : Prop :=
  terminal_ok (fst s) /\ t_buffer (fst s) = FRAMEBUFFER_LOCATION /\
  only_changes FRAMEBUFFER_LOCATION (2 * cells) m0 (snd s).

(** The cells of any memory form a screen. *)
Definition read_screen (m : mem) (buf : Z) : list Z :=
  map (fun i => ld16 m (buf + 2 * i)) (seqZ 0 cells).

Lemma read_screen_at m buf : screen_at m buf (read_screen m buf).
Proof.
  unfold read_screen. split; [by rewrite length_map, length_seqZ|].
  intros i v Hi. change (map ?f ?l) with (f <$> l) in Hi. rewrite list_lookup_fmap in Hi.
  destruct (seqZ 0 cells !! i) as [z|] eqn:E; [|done]. apply lookup_seqZ in E as [-> _].
  cbn in Hi. by injection Hi as <-.
Qed.

Lemma vga_entry_color_bounds fg bg : 0 <= vga_entry_color fg bg < 256.
Proof. apply u8_bounds. Qed.

Lemma new_terminal_ok : terminal_ok new_terminal.
Proof. split; cbn; unfold fits, vga_height, vga_width, FRAMEBUFFER_LOCATION, cells; lia. Qed.

Lemma setColor_ok fg bg t : terminal_ok t -> terminal_ok (setColor fg bg t).
Proof. intros []. split; try done. apply vga_entry_color_bounds. Qed.

Lemma setCursor_ok row column t :
  0 <= row -> 0 <= column -> terminal_ok t -> terminal_ok (snd (setCursor row column t)).
Proof.
  intros Hr Hc Ht. unfold setCursor.
  destruct (Z.leb_spec vga_height row), (Z.leb_spec vga_width column); simpl; try done.
  destruct Ht. split; cbn; unfold vga_height, vga_width in *; done || lia.
Qed.

Lemma reset_ok t : terminal_ok t -> terminal_ok (reset t).
Proof. intros Ht. pose proof new_terminal_ok as []. destruct Ht. by apply setColor_ok. Qed.

(** A changed frame buffer composes with earlier changes to it. *)
Lemma terminal_inv_mem m0 t m t' m' :
  terminal_inv m0 (t, m) -> terminal_ok t' -> t_buffer t' = t_buffer t ->
  only_changes (t_buffer t) (2 * cells) m m' -> terminal_inv m0 (t', m').
Proof.
  intros (Ht & Hb & Hc) Ht' Hb' Hc'. cbn [fst snd] in *. rewrite Hb in Hc', Hb'.
  split; [done|]. split; [done|]. by eapply only_changes_trans.
Qed.

Lemma term_step_inv m0 s s' : term_step s s' -> terminal_inv m0 s -> terminal_inv m0 s'.
Proof.
  intros Hstep Hinv. destruct (id Hinv) as (Ht & Hb & Hc).
  destruct Hstep as [c t m r t' m' Hc0 E|fg bg t m|row col t m Hr Hcl|lines t m Hl|t m|t m];
    cbn [fst snd] in *.
  - pose proof (putchar_refines_lemma c t m _ Ht (read_screen_at m _) Hc0) as H.
    destruct (putchar_spec c t _) as [[r1 t1] scr1].
    destruct H as (m1 & E1 & _ & H1 & H2 & H3). rewrite E1 in E. injection E as <- <- <-.
    by eapply terminal_inv_mem.
  - eapply terminal_inv_mem; [done|by apply setColor_ok|done|apply only_changes_refl].
  - eapply terminal_inv_mem; [done|apply setCursor_ok; lia || done| |apply only_changes_refl].
    unfold setCursor. by destruct (_ || _).
  - destruct (Z.lt_ge_cases lines vga_height).
    + destruct (scroll_screen t m _ lines Ht (read_screen_at m _)) as (m' & -> & _ & Hm); [lia|].
      by eapply terminal_inv_mem.
    + unfold scroll. by rewrite (proj2 (Z.leb_le _ _)) by lia.
  - eapply terminal_inv_mem; [done..|]. eapply clear_screen; [done|apply read_screen_at].
  - split; [by apply reset_ok|]. by split.
Qed.

(** ** Properties *)

(** C16: one [putchar], on every branch (newline, newline after a full line,
    character out of bounds, end of line, end of screen with a scroll), does to
    the object and to the 25 x 80 screen what its list specification says, and
    changes no memory outside the frame buffer. *)
Theorem putchar_refines c t m scr :
  terminal_ok t -> screen_at m (t_buffer t) scr -> 0 <= c < 256 ->
  let '(r, t', scr') := putchar_spec c t scr in
  exists m', putchar c t m = (r, t', m') /\ screen_at m' (t_buffer t') scr' /\
    only_changes (t_buffer t) (2 * cells) m m' /\ terminal_ok t' /\ t_buffer t' = t_buffer t.
Proof. apply putchar_refines_lemma. Qed.

Lemma putchar_refines_witness :
  terminal_ok new_terminal /\
  exists m', putchar 65 new_terminal ∅ =
    (0, Terminal 0 1 7 false FRAMEBUFFER_LOCATION, m') /\
    screen_at m' FRAMEBUFFER_LOCATION
      (<[0%nat := 1857]> (read_screen ∅ FRAMEBUFFER_LOCATION)).
Proof.
  split; [exact new_terminal_ok|].
  destruct (putchar_refines 65 new_terminal ∅ _ new_terminal_ok
    (read_screen_at ∅ FRAMEBUFFER_LOCATION) ltac:(lia)) as (m' & E & Hs & _).
  exists m'. split; [exact E|exact Hs].
Defined.

(** C33: whatever sequence of public operations runs on a terminal made by its
    constructor, the cursor stays on the screen, the buffer pointer stays at
    0xb8000 and memory changes only inside the 4000 bytes of the frame buffer. *)
Theorem terminal_reachable_inv m0 s :
  rtc term_step (new_terminal, m0) s ->
  terminal_ok (fst s) /\ t_buffer (fst s) = FRAMEBUFFER_LOCATION /\
  only_changes FRAMEBUFFER_LOCATION (2 * cells) m0 (snd s).
Proof.
  assert (terminal_inv m0 (new_terminal, m0)) as H0.
  { split; [apply new_terminal_ok|]. split; [done|apply only_changes_refl]. }
  intros Hr. change (terminal_inv m0 s). revert H0.
  induction Hr as [s|s1 s2 s3 Hs Hr IH]; [done|]. intros H0.
  apply IH. by eapply term_step_inv.
Qed.

Lemma terminal_reachable_inv_witness :
  let s := (new_terminal, clear new_terminal ∅) in
  terminal_ok (fst s) /\ t_buffer (fst s) = FRAMEBUFFER_LOCATION /\
  only_changes FRAMEBUFFER_LOCATION (2 * cells) ∅ (snd s).
Proof.
  intros s. apply (terminal_reachable_inv ∅ s). eapply rtc_l; [apply step_clear|apply rtc_refl].
Defined.
