(* ===== verification/Outstream.v ===== *)
(** The formatted output stream [io::_outstream<backEnd>] of
    [include/klib/io.hpp], the [tracemax] wrapper of [include/klib/tracemax.hpp],
    and the BIOS teletype back end [io::realMode_terminal].  The template
    parameter [backEnd] is a type class: what the stream needs of a back end is
    [putchar] and [clear]. *)

From S2P Require Import Prelude PhysMem CString Xtoa Terminal.

(** ** The back-end interface

    [B] is the state [putchar] and [clear] work on: the object and whatever it
    reaches. *)
Class BackEnd (B : Type) : Type := {
  be_putchar : Z -> B -> Z * B;
  be_clear : B -> B;
}.

#[export] Instance framebuffer_BackEnd : BackEnd (terminal * mem) := {
  be_putchar c s := let '(r, t, m) := putchar c (fst s) (snd s) in (r, (t, m));
  be_clear s := (fst s, clear (fst s) (snd s));
}.

(** [realMode_terminal]: the [int $0x10] calls made, most recent first, as the
    values of eax, ebx, ecx and edx ([None]: not set by the code). *)
Record int10_call : Type := Int10 {
  i10_eax : Z; i10_ebx : option Z; i10_ecx : option Z; i10_edx : option Z
}.

Definition rm_reset (s : list int10_call) : list int10_call := Int10 3 None None None :: s.

Definition rm_clear (s : list int10_call) : list int10_call :=
  Int10 1536 (Some 2048) (Some 0) (Some 6223) :: s.

Definition rm_scroll (lines : Z) (s : list int10_call) : Z * list int10_call :=
  if lines =? 0 then (1, s)
  else (0, Int10 (Z.lor 1536 (u8 lines)) (Some 2048) (Some 0) (Some 6223) :: s).

Definition rm_putchar (c : Z) (s : list int10_call) : Z * list int10_call :=
  (0, Int10 (u32 (Z.lor 3584 (s8 c))) (Some 0) None None :: s).

#[export] Instance realMode_BackEnd : BackEnd (list int10_call) := {
  be_putchar := rm_putchar;
  be_clear := rm_clear;
}.

(** ** The stream *)

Section Outstream.
Context {B : Type} `{!BackEnd B}.

(** The object: [_base] and the state behind [_backEnd]. *)
Record outstream : Type := Outstream { o_base : Z; o_back : B }.

Definition out_init (b : B) : outstream := Outstream 10 b.
Definition out_clear (o : outstream) : outstream := Outstream (o_base o) (be_clear (o_back o)).

(** [writeString(const char*, size_t)]: the characters in order, whatever
    [putchar] answers; returns the number of characters. *)
Fixpoint put_chars (s : list Z) (b : B) : B :=
  match s with
  | [] => b
  | c :: s' => put_chars s' (snd (be_putchar c b))
  end.

Definition writeString_n (str : list Z) (size : nat) (o : outstream) : Z * outstream :=
  (Z.of_nat size, Outstream (o_base o) (put_chars (take size str) (o_back o))).

(** [writeString(const char* str)]: up to the terminator of the array [str]. *)
Definition writeString (str : list Z) (o : outstream) : Z * outstream :=
  let s := c_str str in
  (Z.of_nat (List.length s), Outstream (o_base o) (put_chars s (o_back o))).

(** [writeNum<T>]: [xtoa] into a local array, whose contents before the call
    are [str0], then [writeString]. *)
Definition write_radix (w : Z) (sg : bool) (num base : Z) (str0 : list Z) (o : outstream) :
    buf_result (Z * outstream) :=
  let? r := xtoa w sg num str0 base in
  Val (writeString (match r with Some buf => buf | None => str0 end) o).

Definition writeNum (w : Z) (sg : bool) (num : Z) (str0 : list Z) (o : outstream) :
    buf_result (Z * outstream) := write_radix w sg num (o_base o) str0 o.

Definition writeHex (num : Z) (str0 : list Z) (o : outstream) : buf_result (Z * outstream) :=
  write_radix 64 false num 16 str0 o.

Definition writeInt (num : Z) (str0 : list Z) (o : outstream) : buf_result (Z * outstream) :=
  write_radix 64 true num 10 str0 o.

Definition hex (o : outstream) : outstream := Outstream 16 (o_back o).
Definition dec (o : outstream) : outstream := Outstream 10 (o_back o).
Definition base (num : Z) (o : outstream) : outstream :=
  if (num <? 2) || (16 <? num) then o else Outstream num (o_back o).

(** [changeBase]: [return base] names the member function above, so that no call of this
    template member compiles; the value is then [None]. *)
Definition changeBase (num : Z) (o : outstream) : option Z * outstream :=
  if (num <? 2) || (16 <? num) then (Some (-1), o) else (None, Outstream num (o_back o)).

Definition getBackEnd (o : outstream) : B := o_back o.

(** [operator<<]: a C string, a number of type [T], a pointer (converted to
    [uint64_t]). *)
Definition shl_str (str : list Z) (o : outstream) : outstream := snd (writeString str o).
Definition shl_num (w : Z) (sg : bool) (num : Z) (str0 : list Z) (o : outstream) :
    buf_result outstream :=
  let? r := writeNum w sg num str0 o in Val (snd r).
Definition shl_ptr (ptr : Z) (str0 : list Z) (o : outstream) : buf_result outstream :=
  shl_num 64 false ptr str0 o.

(** [operator<<(_outstream&)], for the manipulators: [out << out.hex()]. *)
Definition shl_stream (other : outstream) (o : outstream) : outstream := o.

(** *** Laws *)

Lemma put_chars_app s1 s2 b : put_chars (s1 ++ s2) b = put_chars s2 (put_chars s1 b).
Proof. revert b. induction s1 as [|c s1 IH]; intros b; simpl; auto. Qed.

Lemma shl_str_app s1 s2 o :
  Forall (fun c => c <> 0) s1 ->
  shl_str (s1 ++ s2) o = shl_str s2 (shl_str s1 o).
Proof.
  intros H. unfold shl_str, writeString. cbn [snd o_base o_back]. f_equal.
  assert (c_str (s1 ++ s2) = c_str s1 ++ c_str s2) as ->; [|by rewrite put_chars_app].
  induction H as [|c s1 Hc H IH]; [done|]. cbn. rewrite (proj2 (Z.eqb_neq _ _)) by done.
  by rewrite IH.
Qed.

(** The bases [init], [hex], [dec] and [base] can leave the stream in. *)
Definition out_ok (o : outstream) : Prop := 2 <= o_base o <= 16.

Lemma out_init_ok b : out_ok (out_init b).
Proof. unfold out_ok. cbn. lia. Qed.

Lemma base_ok num o : out_ok o -> out_ok (base num o).
Proof.
  unfold out_ok, base. intros.
  destruct (Z.ltb_spec num 2), (Z.ltb_spec 16 num); cbn; lia.
Qed.

(** What [changeBase] would do to the stream is what [base] does. *)
Lemma changeBase_base num o :
  snd (changeBase num o) = base num o /\ (fst (changeBase num o) = Some (-1) <-> num < 2 \/ 16 < num).
Proof.
  unfold changeBase, base. destruct (Z.ltb_spec num 2), (Z.ltb_spec 16 num); cbn; (split; [done|split; [lia || done|]]);
    done || lia.
Qed.
End Outstream.
Arguments outstream B : clear implicits.

(** ** [tracemax]: forwards every [<<] to the stream behind it *)
Section Tracemax.
Context {B : Type} `{!BackEnd B}.
Record tracemax : Type := Tracemax { tr_back : outstream B }.
Definition trace_init (o : outstream B) : tracemax := Tracemax o.
Definition trace_shl_str (str : list Z) (t : tracemax) : tracemax :=
  Tracemax (shl_str str (tr_back t)).
Definition trace_shl_num (w : Z) (sg : bool) (num : Z) (str0 : list Z) (t : tracemax) :
    buf_result tracemax :=
  let? o := shl_num w sg num str0 (tr_back t) in Val (Tracemax o).
End Tracemax.

(** ** Text on the frame buffer *)

(** The screen after printable characters written from cell [p] on. *)
Fixpoint put_cells (p : nat) (color : Z) (s : list Z) (scr : list Z) : list Z :=
  match s with
  | [] => scr
  | c :: s' => put_cells (S p) color s' (<[p := vga_entry c color]> scr)
  end.

Lemma put_cells_lookup p color s scr i c :
  (p + List.length s <= List.length scr)%nat -> s !! i = Some c ->
  put_cells p color s scr !! (p + i)%nat = Some (vga_entry c color).
Proof.
  revert p scr i. induction s as [|d s IH]; intros p scr i Hl Hi; [done|].
  cbn [put_cells]. simpl in Hl. destruct i as [|i].
  - injection Hi as ->. rewrite Nat.add_0_r. clear IH.
    assert (forall s0 q scr0, (p < q)%nat -> (p < List.length scr0)%nat ->
      put_cells q color s0 scr0 !! p = scr0 !! p) as Hkeep.
    { intros s0. induction s0 as [|e s0 IH0]; intros q scr0 Hq Hp; cbn; [done|].
      rewrite IH0 by (rewrite ?length_insert; lia). by rewrite list_lookup_insert_ne by lia. }
    rewrite Hkeep by (rewrite ?length_insert; lia). apply list_lookup_insert_eq. lia.
  - replace (p + S i)%nat with (S p + i)%nat by lia. apply IH; [rewrite length_insert; lia|done].
Qed.

Lemma put_chars_step c s t m r t' m' :
  putchar c t m = (r, t', m') -> put_chars (c :: s) (t, m) = put_chars s (t', m').
Proof. intros E. cbn. by rewrite E. Qed.

Lemma put_chars_fits s t m scr :
  terminal_ok t -> screen_at m (t_buffer t) scr ->
  Forall (fun c => printable c = true) s ->
  t_column t + Z.of_nat (List.length s) < vga_width -> s <> [] ->
  exists m',
    put_chars s (t, m) =
      (Terminal (t_row t) (t_column t + Z.of_nat (List.length s)) (t_color t) false (t_buffer t), m') /\
    screen_at m' (t_buffer t)
      (put_cells (Z.to_nat (t_row t * 80 + t_column t)) (t_color t) s scr) /\
    only_changes (t_buffer t) (2 * cells) m m'.
Proof.
  intros Ht Hs Hp Hcol Hne. revert t m scr Ht Hs Hcol.
  induction Hp as [|c s Hc Hp IH]; [done|]. intros t m scr Ht Hs Hcol.
  simpl List.length in *. unfold vga_width in *.
  assert (20 <= c <= 126 /\ c <> 10) as [Hcb Hc10].
  { apply andb_prop in Hc as [?%Z.leb_le ?%Z.leb_le]. lia. }
  pose proof (putchar_refines_lemma c t m scr Ht Hs ltac:(lia)) as Href.
  unfold putchar_spec in Href.
  rewrite (proj2 (Z.eqb_neq c 10)), Hc, (proj2 (Z.eqb_neq (t_column t) 79)) in Href by lia.
  destruct Href as (m1 & E & H1 & H2 & H3 & _). cbn [t_buffer] in H1.
  destruct s as [|d s].
  - exists m1. by rewrite (put_chars_step _ _ _ _ _ _ _ E).
  - destruct (IH ltac:(done) _ m1 _ H3 H1) as (m' & E' & H1' & H2'); [cbn in *; lia|].
    cbn [t_row t_column t_color t_fullLine t_buffer] in *.
    exists m'. split.
    + rewrite (put_chars_step _ _ _ _ _ _ _ E), E'.
      do 2 f_equal. simpl. lia.
    + destruct Ht as [? ? ? ?]. unfold vga_height, vga_width in *.
      replace (Z.to_nat (t_row t * 80 + (t_column t + 1)))
        with (S (Z.to_nat (t_row t * 80 + t_column t))) in H1' by lia.
      split; [done|]. by eapply only_changes_trans.
Qed.

Lemma put_cells_app p color s1 s2 scr :
  put_cells p color (s1 ++ s2) scr =
    put_cells (p + List.length s1) color s2 (put_cells p color s1 scr).
Proof.
  revert p scr. induction s1 as [|c s1 IH]; intros p scr; simpl; [by rewrite Nat.add_0_r|].
  rewrite IH. f_equal. lia.
Qed.

(** The newline that ends a line which is not full. *)
Lemma put_newline t m scr :
  terminal_ok t -> screen_at m (t_buffer t) scr -> t_fullLine t = false -> t_row t < 24 ->
  exists m',
    put_chars [10] (t, m) = (Terminal (t_row t + 1) 0 (t_color t) false (t_buffer t), m') /\
    screen_at m' (t_buffer t) scr.
Proof.
  intros Ht Hs Hf Hr. pose proof (putchar_refines_lemma 10 t m scr Ht Hs ltac:(lia)) as H.
  unfold putchar_spec, next_row_spec in H. cbn [Z.eqb Pos.eqb] in H.
  cbn [t_row t_column t_color t_fullLine t_buffer] in H.
  rewrite Hf, (proj2 (Z.eqb_neq _ _)) in H by lia.
  destruct H as (m' & E & H & _). exists m'. split; [|done].
  by rewrite (put_chars_step _ _ _ _ _ _ _ E).
Qed.

(** The last character of a full line, and the newline after it. *)
Lemma put_last_newline c t m scr :
  terminal_ok t -> screen_at m (t_buffer t) scr -> printable c = true ->
  t_column t = 79 -> t_row t < 24 ->
  exists m',
    put_chars [c; 10] (t, m) = (Terminal (t_row t + 1) 0 (t_color t) false (t_buffer t), m') /\
    screen_at m' (t_buffer t)
      (<[Z.to_nat (t_row t * 80 + 79) := vga_entry c (t_color t)]> scr).
Proof.
  intros Ht Hs Hc Hcol Hr. assert (20 <= c <= 126 /\ c <> 10) as [Hcb Hc10].
  { apply andb_prop in Hc as [?%Z.leb_le ?%Z.leb_le]. lia. }
  pose proof (putchar_refines_lemma c t m scr Ht Hs ltac:(lia)) as H.
  unfold putchar_spec, next_row_spec in H.
  rewrite (proj2 (Z.eqb_neq c 10)), Hc, Hcol, Z.eqb_refl in H by lia.
  cbn [t_row t_column t_color t_fullLine t_buffer] in H.
  rewrite (proj2 (Z.eqb_neq (t_row t) 24)) in H by lia.
  destruct H as (m' & E & H & _). exists m'. split; [|done].
  by rewrite (put_chars_step _ _ _ _ _ _ _ E).
Qed.

(** A line of at most 80 printable characters followed by a newline, written
    from the start of a row above the last one, puts its characters in the cells
    of that row and leaves the cursor at the start of the next row: a line that
    fills the row exactly is not followed by an empty row. *)
Theorem write_line s t m scr :
  terminal_ok t -> screen_at m (t_buffer t) scr ->
  t_column t = 0 -> t_fullLine t = false -> t_row t < 24 ->
  Forall (fun c => printable c = true) s -> Z.of_nat (List.length s) <= vga_width ->
  exists m',
    put_chars (s ++ [10]) (t, m) =
      (Terminal (t_row t + 1) 0 (t_color t) false (t_buffer t), m') /\
    screen_at m' (t_buffer t) (put_cells (Z.to_nat (t_row t * 80)) (t_color t) s scr).
Proof.
  intros Ht Hs Hcol Hf Hr Hp Hl. rewrite put_chars_app. unfold vga_width in *.
  destruct (decide (s = [])) as [->|Hne]; [by apply put_newline|].
  destruct (decide (List.length s < 80)%nat) as [Hlt|Hge].
  - destruct (put_chars_fits s t m scr) as (m1 & -> & H1 & H2);
      [done..|unfold vga_width; lia|done|].
    rewrite Hcol, !Z.add_0_l, Z.add_0_r in *.
    apply (put_newline (Terminal (t_row t) (Z.of_nat (List.length s)) (t_color t) false (t_buffer t)));
      [apply terminal_ok_moved; unfold vga_width; done || lia|done..].
  - destruct s as [|c s _] using rev_ind; [done|].
    rewrite length_app in Hl, Hge. simpl in Hl, Hge.
    apply Forall_app in Hp as [Hp [Hc _]%Forall_cons].
    destruct (put_chars_fits s t m scr) as (m1 & E1 & H1 & H2);
      [done..|unfold vga_width; lia|intros ->; simpl in *; lia|].
    rewrite <- put_chars_app, <- app_assoc. simpl app. rewrite put_chars_app, E1.
    rewrite Hcol, Z.add_0_r, Z.add_0_l in *. rewrite put_cells_app.
    replace (Z.of_nat (List.length s)) with 79 by lia.
    destruct (put_last_newline c (Terminal (t_row t) 79 (t_color t) false (t_buffer t)) m1 _
      ltac:(apply terminal_ok_moved; unfold vga_width; done || lia) H1 Hc) as (m' & E' & H'); [done..|].
    exists m'. split; [done|]. cbn [put_cells]. cbn in H'. destruct Ht as [? _ _ _].
    unfold vga_height in *.
    by replace (Z.to_nat (t_row t * 80) + List.length s)%nat
      with (Z.to_nat (t_row t * 80 + 79)) by lia.
Qed.

Lemma write_line_witness :
  let s := replicate 80 65 in
  exists m',
    put_chars (s ++ [10]) (new_terminal, ∅) = (Terminal 1 0 7 false FRAMEBUFFER_LOCATION, m') /\
    screen_at m' FRAMEBUFFER_LOCATION
      (put_cells 0 7 s (read_screen ∅ FRAMEBUFFER_LOCATION)).
Proof.
  intros s. apply (write_line s new_terminal ∅); try reflexivity.
  - exact new_terminal_ok.
  - apply read_screen_at.
  - apply Forall_replicate. reflexivity.
Defined.

(** Printing a non-negative number through a stream set to any base the
    interface allows writes exactly the characters of a numeral that denotes the
    number in that base, and never leaves the local array. *)
Theorem writeNum_prints {B} `{!BackEnd B} w sg num str0 (o : outstream B) :
  out_ok o -> 8 <= w <= 64 -> castT w sg num = num -> 0 <= num ->
  Forall (fun c => 0 <= c < 256) str0 -> Z.of_nat (List.length str0) = MAX_NUM_STR_SIZE ->
  exists s,
    writeNum w sg num str0 o =
      Val (Z.of_nat (List.length s), Outstream (o_base o) (put_chars s (o_back o))) /\
    Forall (is_digit (o_base o)) s /\ numeral_value (o_base o) s = num.
Proof.
  intros Ho Hw Hc H0 Hs Hl. unfold writeNum, write_radix.
  destruct (xtoa_digits w sg num str0 (o_base o)) as (buf & -> & _ & Hd & Hv & _); [done..|].
  exists (c_str buf). by cbn [buf_bind].
Qed.

Lemma writeNum_prints_witness :
  let o : outstream (terminal * mem) := hex (out_init (new_terminal, ∅)) in
  exists s,
    writeNum 32 false 753664 (replicate 65 0) o =
      Val (Z.of_nat (List.length s), Outstream 16 (put_chars s (new_terminal, ∅))) /\
    Forall (is_digit 16) s /\ numeral_value 16 s = 753664.
Proof.
  intros o. apply (writeNum_prints 32 false 753664 (replicate 65 0) o); try reflexivity; try lia.
  - unfold out_ok. simpl. lia.
  - apply Forall_replicate. lia.
Defined.
