(* ===== verification/Heap.v ===== *)
(** The heap: [lib/earlyLib/memory.cpp] and [include/earlyLib/memory.hpp].
    The heap is a singly linked list of [heapEntry] headers inside the memory it
    manages; each header is followed by the data of its block, and a header with a
    null [_next] ends the list.  All operations are programs over physical memory. *)

From S2P Require Import Prelude PhysMem Layout.

(** ** [class heapEntry] *)

Definition heapEntry : layout := Layout false [("_next"%string, U32); ("_flags"%string, U8)].

(** [sizeof(heapEntry)], 8: the flags byte is padded to the pointer's alignment. *)
Definition heapEntry_headerSize : Z := sizeof heapEntry.

Definition get_next (m : mem) (this : Z) : Z := ld32 m this.
Definition set_next (m : mem) (this v : Z) : mem := st32 m this v.

(** [_flags.reserved], a one-bit field: bit 0 of the byte after [_next]. *)
Definition get_reserved (m : mem) (this : Z) : bool := Z.odd (rd8 m (this + 4)).
Definition set_reserved (m : mem) (this : Z) (b : bool) : mem :=
  wr8 m (this + 4) (Z.lor (Z.land (rd8 m (this + 4)) 254) (Z.b2z b)).

Definition init (m : mem) (this next : Z) : mem :=
  set_next (set_reserved m this (next =? 0)) this next.

Definition getSize (m : mem) (this : Z) : Z :=
  u32 (get_next m this - this - heapEntry_headerSize).
Definition getDataPtr (this : Z) : Z := u32 (this + heapEntry_headerSize).
Definition isLast (m : mem) (this : Z) : bool := get_next m this =? 0.
Definition getNext (m : mem) (this : Z) : Z := get_next m this.

#[global] Arguments get_next : simpl never.
#[global] Arguments get_reserved : simpl never.
#[global] Arguments getSize : simpl never.

(** The part of [allocate] after a free, large enough block was found. *)
Definition take_block (m : mem) (this size available : Z) : mem :=
  let ptr := getDataPtr this in
  let m1 :=
    if heapEntry_headerSize + 4 <? u32 (size - available) then
      let old_next := get_next m this in
      let m' := set_next m this (u32 (ptr + size)) in
      init m' (get_next m' this) old_next
    else m in
  set_reserved m1 this true.

(** The recursion along the list is on [fuel]. *)
Fixpoint allocate (fuel : nat) (this size : Z) : prog mem Z := fun m =>
  match fuel with
  | O => OutOfFuel
  | S fuel' =>
      if get_next m this =? 0 then Done 0 m
      else if get_reserved m this || (getSize m this <? size) then
        allocate fuel' (get_next m this) size m
      else Done (getDataPtr this) (take_block m this size (getSize m this))
  end.

Fixpoint defragment (fuel : nat) (this : Z) : prog mem unit := fun m =>
  match fuel with
  | O => OutOfFuel
  | S fuel' =>
      if negb (get_reserved m (get_next m this)) then
        defragment fuel' this (set_next m this (get_next m (get_next m this)))
      else Done tt m
  end.

Definition free (fuel : nat) (this : Z) : prog mem unit := fun m =>
  defragment fuel this (set_reserved m this false).

(** ** [kalloc], [kfree], [heapInitialize]; [heap] is the static list head *)

Definition kalloc (fuel : nat) (heap size : Z) : prog mem Z := allocate fuel heap size.

Fixpoint kfree_from (fuel fuel2 : nat) (it ptr : Z) : prog mem unit := fun m =>
  match fuel with
  | O => OutOfFuel
  | S fuel' =>
      if isLast m it then Panicked "kfree: no such memory address!" m
      else if getDataPtr it =? ptr then free fuel2 it m
      else kfree_from fuel' fuel2 (getNext m it) ptr m
  end.

Definition kfree (fuel : nat) (heap ptr : Z) : prog mem unit := kfree_from fuel fuel heap ptr.

(** The two static pointers and memory after [heapInitialize]. *)
Definition heapInitialize (ptr maxSize : Z) (m : mem) : Z * Z * mem :=
  let heap := ptr in
  let heapEnd := u32 (ptr + maxSize - heapEntry_headerSize) in
  let m1 := init m heap heapEnd in
  (heap, heapEnd, init m1 heapEnd 0).

(** [operator new], [new[]], [delete] and [delete[]], sized or not. *)
Definition op_new (fuel : nat) (heap size : Z) : prog mem Z := allocate fuel heap size.
Definition op_delete (fuel : nat) (heap ptr : Z) : prog mem unit := kfree fuel heap ptr.

(** ** The abstract heap: a list of blocks *)

Record block : Type := Blk { b_size : Z; b_reserved : bool }.

#[export] Instance block_eq_dec : EqDecision block.
Proof. solve_decision. Defined.

(** The blocks of the list at [p], whose last header is at [e]. *)
Fixpoint heap_at (m : mem) (p : Z) (bl : list block) (e : Z) : Prop :=
  match bl with
  | [] => p = e /\ get_next m p = 0 /\ get_reserved m p = true
  | b :: bl' =>
      0 <= b_size b /\ get_next m p = p + 8 + b_size b /\ get_reserved m p = b_reserved b /\
      heap_at m (p + 8 + b_size b) bl' e
  end.

(** A heap: not at address 0, and inside the address space. *)
Definition heap_ok (m : mem) (p : Z) (bl : list block) (e : Z) : Prop :=
  0 < p /\ e + 8 <= 4294967296 /\ heap_at m p bl e.

(** What first fit does with a request. *)
Inductive alloc_result : Type :=
  | NoMemory
  | Fits (bl : list block) (ptr : Z)
  | TooClose (hdr leftover : Z). (* the rest of the block cannot hold a header *)

Fixpoint alloc_spec (p size : Z) (bl : list block) : alloc_result :=
  match bl with
  | [] => NoMemory
  | b :: bl' =>
      if b_reserved b || (b_size b <? size) then
        match alloc_spec (p + 8 + b_size b) size bl' with
        | Fits bl'' ptr => Fits (b :: bl'') ptr
        | r => r
        end
      else if b_size b =? size then Fits (Blk size true :: bl') (p + 8)
      else if size + 8 <=? b_size b then
        Fits (Blk size true :: Blk (b_size b - size - 8) false :: bl') (p + 8)
      else TooClose p (b_size b - size)
  end.

(** A free block of [sz] bytes swallows the free blocks that follow it. *)
Fixpoint absorb (sz : Z) (bl : list block) : Z * list block :=
  match bl with
  | Blk s false :: bl' => absorb (sz + 8 + s) bl'
  | _ => (sz, bl)
  end.

(** [None]: no block has its data at [ptr]. *)
Fixpoint free_spec (p ptr : Z) (bl : list block) : option (list block) :=
  match bl with
  | [] => None
  | b :: bl' =>
      if p + 8 =? ptr then
        let '(sz, rest) := absorb (b_size b) bl' in Some (Blk sz false :: rest)
      else
        match free_spec (p + 8 + b_size b) ptr bl' with
        | Some bl'' => Some (b :: bl'')
        | None => None
        end
  end.

(** The data of the reserved blocks: address and size. *)
Fixpoint owned (p : Z) (bl : list block) : list (Z * Z) :=
  match bl with
  | [] => []
  | b :: bl' =>
      (if b_reserved b then [(p + 8, b_size b)] else []) ++ owned (p + 8 + b_size b) bl'
  end.

(** Bytes the list spans, headers included, without the last header. *)
Fixpoint span (bl : list block) : Z :=
  match bl with
  | [] => 0
  | b :: bl' => 8 + b_size b + span bl'
  end.

Example headerSize_8 : heapEntry_headerSize = 8.
Proof. reflexivity. Qed.

(** ** Headers in memory *)

Lemma get_next_bounds m p : 0 <= get_next m p < 4294967296.
Proof. apply ld32_bounds. Qed.

Lemma get_next_set m p v : get_next (set_next m p v) p = u32 v.
Proof. unfold get_next, set_next. by rewrite load_store by lia. Qed.

Lemma set_next_changes m p v : only_changes p 4 m (set_next m p v).
Proof. apply (store_only_changes 4). lia. Qed.

Lemma set_reserved_changes m p b : only_changes (p + 4) 1 m (set_reserved m p b).
Proof.
  intros c Hc. apply rd8_wr8_ne. intros E. apply u32_sub_zero in E.
  apply Z.ltb_ge in Hc. lia.
Qed.

Lemma set_reserved_byte_odd x b : 0 <= x < 256 -> Z.odd (u8 (Z.lor (Z.land x 254) (Z.b2z b))) = b.
Proof.
  intros Hx. rewrite <- Z.bit0_odd. unfold wrap.
  rewrite Z.mod_pow2_bits_low, Z.lor_spec, Z.land_spec by lia.
  change (Z.testbit 254 0) with false. rewrite andb_false_r. by destruct b.
Qed.

Lemma get_reserved_set m p b : get_reserved (set_reserved m p b) p = b.
Proof.
  unfold get_reserved, set_reserved. rewrite rd8_wr8_eq by done.
  apply set_reserved_byte_odd, rd8_bounds.
Qed.

(** Header reads depend only on the header's bytes. *)
Lemma header_frame m m' p :
  (forall b, p <= b < p + 8 -> rd8 m' b = rd8 m b) ->
  get_next m' p = get_next m p /\ get_reserved m' p = get_reserved m p.
Proof.
  intros H. split.
  - apply load_ext. intros i Hi. apply H. lia.
  - unfold get_reserved. by rewrite H by lia.
Qed.

Lemma get_next_set_reserved m p b : get_next (set_reserved m p b) p = get_next m p.
Proof.
  apply load_ext. intros i Hi. apply set_reserved_changes, in_range_ge. wrap_lia.
Qed.

Lemma get_reserved_set_next m p v : get_reserved (set_next m p v) p = get_reserved m p.
Proof.
  unfold get_reserved. f_equal. apply set_next_changes, in_range_ge. wrap_lia.
Qed.

Lemma init_spec m p next :
  0 <= next < 4294967296 ->
  get_next (init m p next) p = next /\ get_reserved (init m p next) p = (next =? 0).
Proof.
  intros Hn. unfold init. rewrite get_next_set, get_reserved_set_next, get_reserved_set.
  by rewrite u32_small.
Qed.

Lemma set_next_changes8 m p v : fits p 8 -> only_changes p 8 m (set_next m p v).
Proof. intros Hf. eapply only_changes_sub; [apply set_next_changes|done|lia..]. Qed.

Lemma set_reserved_changes8 m p b : fits p 8 -> only_changes p 8 m (set_reserved m p b).
Proof. intros Hf. eapply only_changes_sub; [apply set_reserved_changes|done|lia..]. Qed.

Lemma init_changes m p next : fits p 8 -> only_changes p 8 m (init m p next).
Proof.
  intros Hf. eapply only_changes_trans; [by apply set_reserved_changes8|].
  by apply set_next_changes8.
Qed.

#[export] Hint Resolve set_next_changes8 set_reserved_changes8 init_changes : wrap.

(** ** The list *)

Lemma heap_at_end m p bl e : heap_at m p bl e -> e = p + span bl.
Proof.
  revert p. induction bl as [|b bl IH]; intros p; cbn [heap_at span]; [lia|].
  intros (_ & _ & _ & H). apply IH in H. lia.
Qed.

Lemma span_nonneg m p bl e : heap_at m p bl e -> 0 <= span bl.
Proof.
  revert p. induction bl as [|b bl IH]; intros p; cbn [heap_at span]; [lia|].
  intros (? & _ & _ & H). apply IH in H. lia.
Qed.

Lemma heap_at_le m p bl e : heap_at m p bl e -> p <= e.
Proof. intros H. pose proof (heap_at_end _ _ _ _ H). apply span_nonneg in H. lia. Qed.

(** The list is unchanged when its bytes are. *)
Lemma heap_at_frame m m' p bl e :
  (forall b, p <= b < e + 8 -> rd8 m' b = rd8 m b) -> heap_at m p bl e -> heap_at m' p bl e.
Proof.
  intros H Hh. revert p H Hh. induction bl as [|b bl IH]; intros p H Hh.
  - destruct Hh as (-> & Hn & Hr). destruct (header_frame m m' e) as [E1 E2].
    { intros b Hb. apply H. lia. }
    split; [done|]. by rewrite E1, E2.
  - destruct Hh as (Hs & Hn & Hr & Hh). pose proof (heap_at_le _ _ _ _ Hh).
    destruct (header_frame m m' p) as [E1 E2]. { intros c Hc. apply H. lia. }
    cbn [heap_at]. rewrite E1, E2. repeat split; [done..|]. apply IH; [|done].
    intros c Hc. apply H. lia.
Qed.

Lemma heap_ok_tail m p b bl e :
  heap_ok m p (b :: bl) e -> heap_ok m (p + 8 + b_size b) bl e.
Proof. intros (? & ? & Hs & _ & _ & H). split; [lia|]. by split. Qed.

Lemma heap_ok_bounds m p b bl e :
  heap_ok m p (b :: bl) e ->
  0 < p /\ 0 <= b_size b /\ p + 8 + b_size b <= e /\ e + 8 <= 4294967296.
Proof. intros (? & ? & Hs & _ & _ & H). apply heap_at_le in H. lia. Qed.

Lemma getSize_block m p b bl e :
  heap_ok m p (b :: bl) e -> getSize m p = b_size b.
Proof.
  intros H. apply heap_ok_bounds in H as Hb. destruct H as (_ & _ & _ & Hn & _).
  unfold getSize. rewrite Hn. change heapEntry_headerSize with 8.
  rewrite u32_small by lia. lia.
Qed.

(** ** [allocate] *)

(** The split block: a free block of [sz] bytes at [p], of which [size] are
    taken, the rest being large enough for a header. *)
Lemma take_block_split m p b bl e size :
  heap_ok m p (b :: bl) e -> b_reserved b = false -> 0 <= size -> size + 8 <= b_size b ->
  let m' := take_block m p size (b_size b) in
  heap_at m' p (Blk size true :: Blk (b_size b - size - 8) false :: bl) e /\
  (forall a, 0 <= a < 4294967296 -> a < p \/ p + 8 <= a ->
     a < p + 8 + size \/ p + 16 + size <= a -> rd8 m' a = rd8 m a).
Proof.
  intros H Hres Hs Hfit m'. apply heap_ok_bounds in H as Hb.
  destruct H as (_ & _ & _ & Hn & _ & Hrest).
  unfold m', take_block. change heapEntry_headerSize with 8.
  replace (getDataPtr p) with (p + 8)
    by (unfold getDataPtr; change heapEntry_headerSize with 8; by rewrite u32_small by lia).
  rewrite (proj2 (Z.ltb_lt (8 + 4) _)) by wrap_lia. cbv zeta.
  rewrite get_next_set, wrap_wrap, (u32_small (p + 8 + size)) by lia.
  rewrite Hn. set (q := p + 8 + size). set (m1 := set_next m p q).
  set (m2 := init m1 q (p + 8 + b_size b)). set (m3 := set_reserved m2 p true).
  assert (only_changes p 8 m m1) as C1 by (apply set_next_changes8; unfold fits; lia).
  assert (only_changes q 8 m1 m2) as C2 by (apply init_changes; unfold fits; lia).
  assert (only_changes p 8 m2 m3) as C3 by (apply set_reserved_changes8; unfold fits; lia).
  assert (forall a, 0 <= a < 4294967296 -> a < p \/ p + 8 <= a -> rd8 m3 a = rd8 m2 a) as F3.
  { intros a Ha Ho. apply (only_changes_out _ _ _ _ _ C3); unfold fits; lia. }
  assert (forall a, 0 <= a < 4294967296 -> a < q \/ q + 8 <= a -> rd8 m2 a = rd8 m1 a) as F2.
  { intros a Ha Ho. apply (only_changes_out _ _ _ _ _ C2); unfold fits; lia. }
  assert (forall a, 0 <= a < 4294967296 -> a < p \/ p + 8 <= a -> rd8 m1 a = rd8 m a) as F1.
  { intros a Ha Ho. apply (only_changes_out _ _ _ _ _ C1); unfold fits; lia. }
  split.
  - cbn [heap_at b_size b_reserved].
    destruct (header_frame m1 m2 p) as [E1 _]. { intros a Ha. apply F2; lia. }
    destruct (header_frame m2 m3 q) as [E2 E3]. { intros a Ha. apply F3; lia. }
    destruct (init_spec m1 q (p + 8 + b_size b)) as [E4 E5]; [lia|]. fold m2 in E4, E5.
    split; [lia|]. split.
    { unfold m3. rewrite get_next_set_reserved, E1. unfold m1. rewrite get_next_set.
      apply u32_small. lia. }
    split; [apply get_reserved_set|]. fold q. split; [lia|].
    rewrite E2, E3, E4, E5. split; [lia|]. split; [apply Z.eqb_neq; lia|].
    replace (q + 8 + (b_size b - size - 8)) with (p + 8 + b_size b) by lia.
    eapply heap_at_frame; [|exact Hrest]. intros a Ha. rewrite F3, F2, F1 by lia. done.
  - intros a Ha H1 H2. rewrite F3, F2, F1 by lia. done.
Qed.

(** The block that fits exactly. *)
Lemma take_block_exact m p b bl e :
  heap_ok m p (b :: bl) e -> b_reserved b = false ->
  let m' := take_block m p (b_size b) (b_size b) in
  heap_at m' p (Blk (b_size b) true :: bl) e /\
  (forall a, 0 <= a < 4294967296 -> a < p \/ p + 8 <= a -> rd8 m' a = rd8 m a).
Proof.
  intros H Hres m'. apply heap_ok_bounds in H as Hb.
  destruct H as (_ & _ & Hs & Hn & _ & Hrest).
  unfold m', take_block. rewrite Z.sub_diag. change (_ <? u32 0) with false. cbv iota.
  assert (only_changes p 8 m (set_reserved m p true)) as C
    by (apply set_reserved_changes8; unfold fits; lia).
  assert (forall a, 0 <= a < 4294967296 -> a < p \/ p + 8 <= a ->
    rd8 (set_reserved m p true) a = rd8 m a) as F.
  { intros a Ha Ho. apply (only_changes_out _ _ _ _ _ C); unfold fits; lia. }
  split; [|done]. cbn [heap_at b_size b_reserved].
  rewrite get_next_set_reserved, get_reserved_set. split; [done|]. split; [done|].
  split; [done|]. eapply heap_at_frame; [|exact Hrest]. intros a Ha. apply F; lia.
Qed.

(** A block whose rest, [1] to [7] bytes, cannot hold a header: the code splits it
    all the same, and the new header claims almost the whole address space. *)
Lemma take_block_overlap m p b bl e size :
  heap_ok m p (b :: bl) e -> b_reserved b = false -> 0 <= size ->
  0 < b_size b - size < 8 ->
  let m' := take_block m p size (b_size b) in
  get_next m' p = p + 8 + size /\
  get_reserved m' (p + 8 + size) = false /\
  getSize m' (p + 8 + size) = 4294967296 - 8 + (b_size b - size).
Proof.
  intros H Hres Hs Hl m'. apply heap_ok_bounds in H as Hb.
  destruct H as (_ & _ & _ & Hn & _ & _).
  unfold m', take_block. change heapEntry_headerSize with 8.
  replace (getDataPtr p) with (p + 8)
    by (unfold getDataPtr; change heapEntry_headerSize with 8; by rewrite u32_small by lia).
  rewrite (proj2 (Z.ltb_lt (8 + 4) _)) by wrap_lia. cbv zeta.
  rewrite get_next_set, wrap_wrap, (u32_small (p + 8 + size)) by lia.
  rewrite Hn. set (q := p + 8 + size). set (m1 := set_next m p q).
  set (m2 := init m1 q (p + 8 + b_size b)).
  assert (only_changes q 8 m1 m2) as C2 by (apply init_changes; unfold fits; lia).
  assert (only_changes p 8 m2 (set_reserved m2 p true)) as C3
    by (apply set_reserved_changes8; unfold fits; lia).
  destruct (header_frame m1 m2 p) as [E1 _].
  { intros a Ha. apply (only_changes_out _ _ _ _ _ C2); unfold fits; lia. }
  destruct (header_frame m2 (set_reserved m2 p true) q) as [E2 E3].
  { intros a Ha. apply (only_changes_out _ _ _ _ _ C3); unfold fits; lia. }
  destruct (init_spec m1 q (p + 8 + b_size b)) as [E4 E5]; [lia|]. fold m2 in E4, E5.
  rewrite get_next_set_reserved, E1. unfold m1 at 1. rewrite get_next_set, u32_small by lia.
  split; [done|]. unfold getSize. rewrite E3, E2, E4, E5. change heapEntry_headerSize with 8.
  split; [apply Z.eqb_neq; lia|]. wrap_lia.
Qed.

(** Bytes an allocation of [size] bytes at [q] may change: the header before the
    data, and the header of the rest after it. *)
Definition alloc_frame (q size : Z) (m m' : mem) : Prop :=
  forall a, 0 <= a < 4294967296 -> a < q - 8 \/ q <= a ->
    a < q + size \/ q + size + 8 <= a -> rd8 m' a = rd8 m a.

Definition alloc_post (m : mem) (p size e : Z) (r : alloc_result) (o : outcome mem Z) : Prop :=
  match r with
  | NoMemory => o = Done 0 m
  | Fits bl' q =>
      exists m', o = Done q m' /\ heap_ok m' p bl' e /\ alloc_frame q size m m' /\
        p + 8 <= q /\ q + size <= e
  | TooClose hdr leftover =>
      0 < leftover < 8 /\
      exists m', o = Done (hdr + 8) m' /\ get_reserved m' (hdr + 8 + size) = false /\
        getSize m' (hdr + 8 + size) = 4294967296 - 8 + leftover
  end.

Lemma allocate_take fuel m p b bl e size :
  heap_ok m p (b :: bl) e -> b_reserved b = false -> size <= b_size b ->
  allocate (S fuel) p size m = Done (p + 8) (take_block m p size (b_size b)).
Proof.
  intros H Hres Hs. apply heap_ok_bounds in H as Hb.
  rewrite <- (getSize_block _ _ _ _ _ H). destruct (id H) as (_ & _ & _ & Hn & Hr & _).
  cbn [allocate]. rewrite Hr, Hres, Hn, (proj2 (Z.eqb_neq _ _)) by lia. cbn [orb].
  rewrite (getSize_block _ _ _ _ _ H), (proj2 (Z.ltb_ge _ _)) by lia.
  unfold getDataPtr. change heapEntry_headerSize with 8. by rewrite u32_small by lia.
Qed.

Lemma allocate_skip fuel m p b bl e size :
  heap_ok m p (b :: bl) e -> b_reserved b || (b_size b <? size) = true ->
  allocate (S fuel) p size m = allocate fuel (p + 8 + b_size b) size m.
Proof.
  intros H Hskip. apply heap_ok_bounds in H as Hb.
  destruct (id H) as (_ & _ & _ & Hn & Hr & _).
  cbn [allocate]. rewrite (getSize_block _ _ _ _ _ H), Hr, Hskip, Hn.
  by rewrite (proj2 (Z.eqb_neq _ _)) by lia.
Qed.

(** A block before the allocated one stays in front of the list. *)
Lemma heap_ok_cons m m' p b bl bl' e q size :
  heap_ok m p (b :: bl) e -> heap_ok m' (p + 8 + b_size b) bl' e ->
  alloc_frame q size m m' -> p + 8 + b_size b + 8 <= q -> 0 <= size ->
  heap_ok m' p (b :: bl') e.
Proof.
  intros H (_ & _ & H') Hf Hq Hs. apply heap_ok_bounds in H as Hb.
  destruct H as (? & ? & ? & Hn & Hr & _). split; [done|]. split; [done|].
  destruct (header_frame m m' p) as [E1 E2]. { intros a Ha. apply Hf; lia. }
  cbn [heap_at]. by rewrite E1, E2.
Qed.

Lemma allocate_refines fuel m p bl e size :
  heap_ok m p bl e -> 0 <= size -> (List.length bl < fuel)%nat ->
  alloc_post m p size e (alloc_spec p size bl) (allocate fuel p size m).
Proof.
  intros H Hs. revert p H fuel. induction bl as [|b bl IH]; intros p H fuel Hf;
    (destruct fuel as [|fuel]; [simpl in Hf; lia|]).
  { destruct H as (_ & _ & -> & Hn & _). cbn. by rewrite Hn. }
  simpl in Hf. apply heap_ok_bounds in H as Hb. cbn [alloc_spec].
  destruct (b_reserved b || (b_size b <? size)) eqn:Hskip.
  - rewrite (allocate_skip _ _ _ _ _ _ _ H Hskip).
    specialize (IH _ (heap_ok_tail _ _ _ _ _ H) fuel ltac:(lia)).
    destruct (alloc_spec (p + 8 + b_size b) size bl) as [|bl' q|hdr l]; cbn in *; [done| |done].
    destruct IH as (m' & E & H' & Hfr & ? & ?). exists m'. split; [done|].
    split; [by eapply heap_ok_cons|]. split; [done|lia].
  - apply orb_false_elim in Hskip as [Hres Hle%Z.ltb_ge].
    rewrite (allocate_take _ _ _ _ _ _ _ H Hres Hle).
    destruct (Z.eqb_spec (b_size b) size) as [<-|Hne].
    + destruct (take_block_exact _ _ _ _ _ H Hres) as [H1 H2]. cbn.
      eexists. split; [done|]. destruct H as (? & ? & _). split; [by split|].
      split; [|lia]. intros a Ha ? ?. apply H2; lia.
    + destruct (Z.leb_spec (size + 8) (b_size b)).
      * destruct (take_block_split _ _ _ _ _ size H Hres) as [H1 H2]; [lia..|]. cbn.
        eexists. split; [done|]. destruct H as (? & ? & _). split; [by split|].
        split; [|lia]. intros a Ha ? ?. apply H2; lia.
      * destruct (take_block_overlap _ _ _ _ _ size H Hres) as (_ & H1 & H2); [lia..|]. cbn.
        split; [lia|]. eauto.
Qed.

(** ** [free] and [kfree] *)

(** Fusing the block at [p] with the one behind it. *)
Lemma fuse_next m p b c bl e :
  heap_ok m p (b :: c :: bl) e ->
  let m' := set_next m p (p + 8 + b_size b + 8 + b_size c) in
  heap_ok m' p (Blk (b_size b + 8 + b_size c) (b_reserved b) :: bl) e /\ only_changes p 8 m m'.
Proof.
  intros H m'. apply heap_ok_bounds in H as Hb. apply heap_ok_tail in H as Ht.
  apply heap_ok_bounds in Ht as Hc. destruct H as (? & ? & ? & Hn & Hr & ? & _ & _ & Hrest).
  assert (only_changes p 8 m m') as C by (apply set_next_changes8; unfold fits; lia).
  split; [|done]. split; [done|]. split; [done|]. cbn [heap_at b_size b_reserved].
  split; [lia|]. unfold m' at 1 2. rewrite get_next_set, get_reserved_set_next, u32_small by lia.
  split; [lia|]. split; [done|].
  replace (p + 8 + (b_size b + 8 + b_size c)) with (p + 8 + b_size b + 8 + b_size c) by lia.
  eapply heap_at_frame; [|exact Hrest]. intros a Ha.
  apply heap_at_le in Hrest.
  apply (only_changes_out _ _ _ _ _ C); unfold fits; lia.
Qed.

Definition defragment_post (m : mem) (p : Z) (res : bool) (e : Z) (ab : Z * list block)
    (o : outcome mem unit) : Prop :=
  exists m', o = Done tt m' /\ heap_ok m' p (Blk (fst ab) res :: snd ab) e /\ only_changes p 8 m m'.

Lemma defragment_stop fuel m p b bl e :
  heap_ok m p (b :: bl) e -> get_reserved m (p + 8 + b_size b) = true ->
  defragment_post m p (b_reserved b) e (b_size b, bl) (defragment (S fuel) p m).
Proof.
  intros H Hr. exists m. destruct (id H) as (_ & _ & _ & Hn & _).
  cbn [defragment]. rewrite Hn, Hr. split; [done|]. by destruct b.
Qed.

Lemma defragment_refines fuel m p b bl e :
  heap_ok m p (b :: bl) e -> (List.length bl < fuel)%nat ->
  defragment_post m p (b_reserved b) e (absorb (b_size b) bl) (defragment fuel p m).
Proof.
  revert fuel m b. induction bl as [|[cs cr] bl IH]; intros fuel m b H Hf;
    (destruct fuel as [|fuel]; [simpl in Hf; lia|]).
  { apply defragment_stop; [done|]. apply heap_ok_tail in H as (_ & _ & -> & _ & ?). done. }
  apply heap_ok_tail in H as Ht. apply heap_ok_bounds in H as Hb.
  apply heap_ok_bounds in Ht as Hc. destruct (id Ht) as (_ & _ & _ & Hn' & Hr' & _).
  cbn [b_size b_reserved] in *. destruct cr; [by apply defragment_stop|].
  destruct (fuse_next _ _ _ _ _ _ H) as [H1 C1]. cbn [b_size b_reserved] in *.
  destruct (IH fuel _ _ H1 ltac:(simpl in Hf; lia)) as (m' & E & H' & C').
  cbn [b_size b_reserved absorb] in *.
  destruct (id H) as (_ & _ & _ & Hn & _). exists m'. cbn [defragment].
  rewrite Hn, Hr', Hn'. cbn [negb]. split; [done|]. split; [done|].
  by eapply only_changes_trans.
Qed.

Lemma heap_ok_set_free m p b bl e :
  heap_ok m p (b :: bl) e ->
  heap_ok (set_reserved m p false) p (Blk (b_size b) false :: bl) e /\
  only_changes p 8 m (set_reserved m p false).
Proof.
  intros H. apply heap_ok_bounds in H as Hb. destruct H as (? & ? & Hs & Hn & Hr & Hrest).
  assert (only_changes p 8 m (set_reserved m p false)) as C
    by (apply set_reserved_changes8; unfold fits; lia).
  split; [|done]. split; [done|]. split; [done|]. cbn [heap_at b_size b_reserved].
  rewrite get_next_set_reserved, get_reserved_set. repeat split; [done..|].
  eapply heap_at_frame; [|exact Hrest]. intros a Ha.
  apply (only_changes_out _ _ _ _ _ C); unfold fits; lia.
Qed.

Lemma free_refines fuel m p b bl e :
  heap_ok m p (b :: bl) e -> (List.length bl < fuel)%nat ->
  defragment_post m p false e (absorb (b_size b) bl) (free fuel p m).
Proof.
  intros H Hf. destruct (heap_ok_set_free _ _ _ _ _ H) as [H1 C1].
  destruct (defragment_refines fuel _ _ _ _ _ H1 Hf) as (m' & E & H' & C').
  exists m'. split; [exact E|]. split; [done|]. by eapply only_changes_trans.
Qed.

(** [kfree] changes one header, the one before [ptr]. *)
Definition kfree_post (m : mem) (p ptr e : Z) (r : option (list block)) (o : outcome mem unit) :
    Prop :=
  match r with
  | None => o = Panicked "kfree: no such memory address!" m
  | Some bl' =>
      p + 8 <= ptr /\ ptr <= e /\
      exists m', o = Done tt m' /\ heap_ok m' p bl' e /\ only_changes (ptr - 8) 8 m m'
  end.

Lemma heap_ok_cons_changed m m' p b bl bl' e q :
  heap_ok m p (b :: bl) e -> heap_ok m' (p + 8 + b_size b) bl' e ->
  only_changes q 8 m m' -> p + 8 + b_size b <= q -> q + 8 <= 4294967296 ->
  heap_ok m' p (b :: bl') e.
Proof.
  intros H (_ & _ & H') C Hq Hq'. apply heap_ok_bounds in H as Hb.
  destruct H as (? & ? & ? & Hn & Hr & _). split; [done|]. split; [done|].
  destruct (header_frame m m' p) as [E1 E2].
  { intros a Ha. apply (only_changes_out _ _ _ _ _ C); unfold fits; lia. }
  cbn [heap_at]. by rewrite E1, E2.
Qed.

Lemma kfree_from_refines fuel fuel2 m p bl e ptr :
  heap_ok m p bl e -> (List.length bl < fuel)%nat -> (List.length bl < fuel2)%nat ->
  kfree_post m p ptr e (free_spec p ptr bl) (kfree_from fuel fuel2 p ptr m).
Proof.
  revert p fuel. induction bl as [|b bl IH]; intros p fuel H Hf Hf2;
    (destruct fuel as [|fuel]; [simpl in Hf; lia|]).
  { destruct H as (_ & _ & -> & Hn & _). cbn. unfold isLast. by rewrite Hn. }
  simpl in Hf, Hf2. apply heap_ok_bounds in H as Hb.
  destruct (id H) as (_ & _ & _ & Hn & _).
  cbn [kfree_from free_spec]. unfold isLast, getNext, getDataPtr.
  change heapEntry_headerSize with 8.
  rewrite Hn, (proj2 (Z.eqb_neq (p + 8 + b_size b) 0)), (u32_small (p + 8)) by lia.
  destruct (Z.eqb_spec (p + 8) ptr) as [<-|Hne].
  - destruct (free_refines fuel2 _ _ _ _ _ H ltac:(lia)) as (m' & E & H' & C).
    destruct (absorb (b_size b) bl) as [sz rest]. cbn in *. split; [lia|]. split; [lia|].
    exists m'. replace (p + 8 - 8) with p by lia. done.
  - specialize (IH _ fuel (heap_ok_tail _ _ _ _ _ H) ltac:(lia) ltac:(lia)).
    destruct (free_spec (p + 8 + b_size b) ptr bl) as [bl'|]; cbn in *; [|done].
    destruct IH as (? & ? & m' & E & H' & C). split; [lia|]. split; [lia|].
    exists m'. split; [done|]. split; [|done].
    eapply heap_ok_cons_changed; [done..|lia|lia].
Qed.

Lemma kfree_refines_lemma fuel m p bl e ptr :
  heap_ok m p bl e -> (List.length bl < fuel)%nat ->
  kfree_post m p ptr e (free_spec p ptr bl) (kfree fuel p ptr m).
Proof. intros. by apply kfree_from_refines. Qed.

(** ** [heapInitialize] *)

Lemma heapInitialize_spec ptr maxSize m :
  0 < ptr -> 16 <= maxSize -> ptr + maxSize <= 4294967296 ->
  let '(heap, heapEnd, m') := heapInitialize ptr maxSize m in
  heap = ptr /\ heapEnd = ptr + maxSize - 8 /\
  heap_ok m' heap [Blk (maxSize - 16) false] heapEnd /\
  (forall a, 0 <= a < 4294967296 -> a < ptr \/ ptr + 8 <= a ->
     a < ptr + maxSize - 8 \/ ptr + maxSize <= a -> rd8 m' a = rd8 m a).
Proof.
  intros Hp Hs Hf. unfold heapInitialize. change heapEntry_headerSize with 8.
  rewrite u32_small by lia. set (e := ptr + maxSize - 8). set (m1 := init m ptr e).
  set (m2 := init m1 e 0).
  assert (only_changes ptr 8 m m1) as C1 by (apply init_changes; unfold fits; lia).
  assert (only_changes e 8 m1 m2) as C2 by (apply init_changes; unfold fits; lia).
  destruct (init_spec m ptr e) as [E1 E2]; [lia|]. fold m1 in E1, E2.
  destruct (init_spec m1 e 0) as [E3 E4]; [lia|]. fold m2 in E3, E4.
  destruct (header_frame m1 m2 ptr) as [E5 E6].
  { intros a Ha. apply (only_changes_out _ _ _ _ _ C2); unfold fits; lia. }
  split; [done|]. split; [done|]. split.
  - split; [done|]. split; [lia|]. cbn [heap_at b_size b_reserved].
    rewrite E5, E6, E1, E2. split; [lia|]. split; [lia|]. split; [apply Z.eqb_neq; lia|].
    replace (ptr + 8 + (maxSize - 16)) with e by lia. done.
  - intros a Ha H1 H2. rewrite (only_changes_out _ _ _ _ _ C2) by (unfold fits; lia).
    apply (only_changes_out _ _ _ _ _ C1); unfold fits; lia.
Qed.

(** ** What the clients of the heap own *)

Definition sizes_ok (bl : list block) : Prop := Forall (fun b => 0 <= b_size b) bl.

Lemma heap_ok_sizes m p bl e : heap_ok m p bl e -> sizes_ok bl.
Proof.
  intros (_ & _ & H). revert p H. induction bl as [|b bl IH]; intros p H; [constructor|].
  destruct H as (? & _ & _ & H). constructor; [done|]. by eapply IH.
Qed.

Lemma owned_bounds p bl q s :
  sizes_ok bl -> (q, s) ∈ owned p bl -> p + 8 <= q /\ 0 <= s /\ q + s <= p + span bl.
Proof.
  intros Hs. revert p. induction Hs as [|b bl Hb Hs IH]; intros p; cbn [owned span]; [set_solver|].
  assert (0 <= span bl) as Hsp by (clear -Hs; induction Hs; cbn [span]; lia).
  rewrite elem_of_app. intros [H|H].
  - destruct (b_reserved b); [|set_solver].
    apply list_elem_of_singleton in H as [= -> ->]. lia.
  - apply IH in H. lia.
Qed.

(** Two blocks are apart when a header fits between them. *)
Definition apart (x y : Z * Z) : Prop := x.1 + x.2 + 8 <= y.1 \/ y.1 + y.2 + 8 <= x.1.

Fixpoint pairwise_apart (l : list (Z * Z)) : Prop :=
  match l with
  | [] => True
  | x :: l' => (forall y, y ∈ l' -> apart x y) /\ pairwise_apart l'
  end.

#[export] Instance pairwise_apart_perm : Proper ((≡ₚ) ==> iff) pairwise_apart.
Proof.
  assert (forall l k, l ≡ₚ k -> pairwise_apart l -> pairwise_apart k) as Hd.
  { induction 1 as [|x l k H IH|x y l|l k j _ IH1 _ IH2]; cbn; [done| |..|auto].
    - intros [Hx Hl]. split; [|auto]. intros z Hz. apply Hx. by rewrite H.
    - intros (Hx & Hy & Hl). split; [|split; [|done]].
      + intros z [->|Hz]%elem_of_cons; [|auto].
        destruct (Hx x) as [?|?]; [left|by right|by left].
      + intros z Hz. apply Hx. by right. }
  intros l k H. split; apply Hd; [done|]. by symmetry.
Qed.

Lemma owned_apart p bl : sizes_ok bl -> pairwise_apart (owned p bl).
Proof.
  intros Hs. revert p. induction Hs as [|b bl Hb Hs IH]; intros p; cbn [owned]; [done|].
  destruct (b_reserved b); [|apply IH]. cbn [app pairwise_apart]. split; [|apply IH].
  intros [q s] Hy. apply owned_bounds in Hy; [|done]. left. cbn. lia.
Qed.

Lemma alloc_spec_lower p size bl bl' q :
  sizes_ok bl -> alloc_spec p size bl = Fits bl' q -> p + 8 <= q.
Proof.
  intros Hs. revert p bl'.
  induction Hs as [|b bl Hb Hs IH]; intros p bl'; cbn [alloc_spec]; [done|].
  destruct (_ || _).
  - destruct (alloc_spec _ _ _) as [|bl2 q2|] eqn:E; [done| |done]. intros [= <- ->].
    apply IH in E. lia.
  - destruct (_ =? _); [intros [= <- <-]; lia|]. destruct (_ <=? _); [|done].
    intros [= <- <-]. lia.
Qed.

(** An allocation adds its block, clear of the others and of their headers. *)
Lemma alloc_spec_owned p size bl bl' q :
  sizes_ok bl -> 0 <= size -> alloc_spec p size bl = Fits bl' q ->
  owned p bl' ≡ₚ (q, size) :: owned p bl /\
  (forall x, x ∈ owned p bl -> apart (q, size) x).
Proof.
  intros Hs Hsz. revert p bl'. induction Hs as [|b bl Hb Hs IH]; intros p bl'; [done|].
  cbn [alloc_spec]. destruct (b_reserved b || (b_size b <? size)) eqn:Hskip.
  - destruct (alloc_spec (p + 8 + b_size b) size bl) as [|bl1 q1|] eqn:E; [done| |done].
    intros [= <- ->]. destruct (IH _ _ E) as [H1 H2]. cbn [owned]. split.
    + rewrite H1. by rewrite Permutation_middle.
    + intros x [Hx|Hx]%elem_of_app; [|auto].
      destruct (b_reserved b); [|set_solver]. apply list_elem_of_singleton in Hx as ->.
      right. cbn. apply alloc_spec_lower in E; [lia|done].
  - apply orb_false_elim in Hskip as [Hres Hle%Z.ltb_ge].
    assert (forall x, x ∈ owned (p + 8 + b_size b) bl -> apart (p + 8, size) x) as Hap.
    { intros [q' s'] Hx. apply owned_bounds in Hx; [|done]. left. cbn. lia. }
    destruct (Z.eqb_spec (b_size b) size) as [<-|Hne].
    + intros [= <- <-]. cbn [owned b_reserved b_size]. by rewrite Hres.
    + destruct (Z.leb_spec (size + 8) (b_size b)); [|done]. intros [= <- <-].
      cbn [owned b_reserved b_size]. rewrite Hres. cbn [app].
      by replace (p + 8 + size + 8 + (b_size b - size - 8)) with (p + 8 + b_size b) by lia.
Qed.

Lemma owned_absorb p sz bl :
  owned (p + 8 + fst (absorb sz bl)) (snd (absorb sz bl)) = owned (p + 8 + sz) bl.
Proof.
  revert sz. induction bl as [|[s []] bl IH]; intros sz; cbn [absorb fst snd]; [done..|].
  rewrite IH. cbn [owned b_reserved b_size app]. f_equal. lia.
Qed.

(** [kfree] of an owned block finds it and gives up nothing else. *)
Lemma free_spec_owned p bl q s :
  sizes_ok bl -> (q, s) ∈ owned p bl ->
  exists bl', free_spec p q bl = Some bl' /\ owned p bl ≡ₚ (q, s) :: owned p bl'.
Proof.
  intros Hs. revert p. induction Hs as [|b bl Hb Hs IH]; intros p; cbn [owned free_spec]; [set_solver|].
  rewrite elem_of_app. intros [H|H].
  - destruct (b_reserved b); [|set_solver]. apply list_elem_of_singleton in H as [= -> ->].
    rewrite Z.eqb_refl. pose proof (owned_absorb p (b_size b) bl) as E.
    destruct (absorb (b_size b) bl) as [sz rest]. eexists. split; [done|].
    cbn in *. by rewrite E.
  - apply owned_bounds in H as Hq; [|done]. rewrite (proj2 (Z.eqb_neq (p + 8) q)) by lia.
    destruct (IH _ H) as (bl' & -> & E). eexists. split; [done|]. cbn [owned].
    by rewrite E, Permutation_middle.
Qed.

(** A client that writes into a block it owns leaves the headers alone. *)
Lemma heap_ok_write m m' p bl e q s :
  heap_ok m p bl e -> (q, s) ∈ owned p bl -> only_changes q s m m' -> heap_ok m' p bl e.
Proof.
  intros H Hq C. pose proof (owned_bounds _ _ _ _ (heap_ok_sizes _ _ _ _ H) Hq) as Hall.
  assert (fits q s) as Hf.
  { destruct H as (? & ? & He%heap_at_end). unfold fits. lia. }
  assert (forall a, 0 <= a < 4294967296 -> a < q \/ q + s <= a -> rd8 m' a = rd8 m a) as F
    by (intros; by eapply only_changes_out).
  clear C Hall Hf. split; [by destruct H|]. split; [by destruct H as (? & ? & ?)|].
  revert p H Hq. induction bl as [|b bl IH]; intros p H Hq; [by inversion Hq|].
  apply heap_ok_sizes in H as Hs. apply heap_ok_bounds in H as Hb.
  apply heap_ok_tail in H as Ht. destruct H as (_ & _ & ? & Hn & Hr & H).
  pose proof (owned_bounds _ _ _ _ Hs Hq) as Hall. inversion_clear Hs.
  cbn [owned] in Hq. apply elem_of_app in Hq.
  destruct (header_frame m m' p) as [E1 E2]. { intros a Ha. apply F; lia. }
  cbn [heap_at]. rewrite E1, E2. repeat split; [done..|].
  destruct Hq as [Hq|Hq]; [|by apply IH].
  destruct (b_reserved b); [|by apply not_elem_of_nil in Hq]. apply list_elem_of_singleton in Hq as [= -> ->].
  eapply heap_at_frame; [|done]. apply heap_at_le in H. intros a Ha. apply F; lia.
Qed.

(** ** Requests in multiples of eight never split a block too closely *)

Definition aligned (bl : list block) : Prop := Forall (fun b => b_size b mod 8 = 0) bl.

Lemma alloc_spec_aligned p size bl :
  aligned bl -> size mod 8 = 0 ->
  match alloc_spec p size bl with
  | NoMemory => True
  | Fits bl' _ => aligned bl'
  | TooClose _ _ => False
  end.
Proof.
  intros Ha Hs. revert p. induction Ha as [|b bl Hb Ha IH]; intros p; [done|]. cbn [alloc_spec].
  destruct (b_reserved b || (b_size b <? size)) eqn:Hskip.
  - specialize (IH (p + 8 + b_size b)).
    destruct (alloc_spec (p + 8 + b_size b) size bl); [done| |done]. by constructor.
  - apply orb_false_elim in Hskip as [_ Hle%Z.ltb_ge].
    destruct (Z.eqb_spec (b_size b) size); [by repeat constructor|].
    destruct (Z.leb_spec (size + 8) (b_size b)).
    + constructor; [done|]. constructor; [|done]. cbn [b_size].
      Z.to_euclidean_division_equations; lia.
    + Z.to_euclidean_division_equations; lia.
Qed.

Lemma absorb_aligned sz bl :
  sz mod 8 = 0 -> aligned bl ->
  fst (absorb sz bl) mod 8 = 0 /\ aligned (snd (absorb sz bl)).
Proof.
  intros Hs Ha. revert sz Hs. induction Ha as [|[s []] bl Hb Ha IH]; intros sz Hs; cbn [absorb];
    [by repeat constructor|by repeat constructor|].
  apply IH. cbn in Hb. Z.to_euclidean_division_equations; lia.
Qed.

Lemma free_spec_aligned p q bl bl' :
  aligned bl -> free_spec p q bl = Some bl' -> aligned bl'.
Proof.
  intros Ha. revert p bl'. induction Ha as [|b bl Hb Ha IH]; intros p bl'; cbn [free_spec]; [done|].
  destruct (_ =? _).
  - destruct (absorb_aligned _ _ Hb Ha) as [H1 H2]. destruct (absorb _ _). intros [= <-].
    by constructor.
  - destruct (free_spec _ _ _) as [bl1|] eqn:E; [|done]. intros [= <-]. constructor; [done|].
    by eapply IH.
Qed.

(** ** The heap and its clients as a state machine

    The state is memory and the blocks handed out and not yet given back. *)
Inductive heap_step (heap : Z) : mem * list (Z * Z) -> mem * list (Z * Z) -> Prop :=
  | step_kalloc size q m m' own :
      0 <= size -> size mod 8 = 0 ->
      returns (fun fuel => kalloc fuel heap size) m q m' ->
      heap_step heap (m, own) (m', if q =? 0 then own else (q, size) :: own)
  | step_kfree q s m m' own1 own2 :
      returns (fun fuel => kfree fuel heap q) m tt m' ->
      heap_step heap (m, own1 ++ (q, s) :: own2) (m', own1 ++ own2)
  | step_write q s m m' own :
      (q, s) ∈ own -> only_changes q s m m' -> heap_step heap (m, own) (m', own).

(** More fuel does not change a result. *)
Lemma allocate_fuel f f' p size m :
  (f <= f')%nat -> allocate f p size m <> OutOfFuel ->
  allocate f' p size m = allocate f p size m.
Proof.
  revert f' p. induction f as [|f IH]; intros f' p Hf Hne; [done|].
  destruct f' as [|f']; [lia|]. cbn [allocate] in *.
  destruct (get_next m p =? 0); [done|]. destruct (_ || _); [|done]. apply IH; [lia|done].
Qed.

Lemma defragment_fuel f f' p m :
  (f <= f')%nat -> defragment f p m <> OutOfFuel -> defragment f' p m = defragment f p m.
Proof.
  revert f' m. induction f as [|f IH]; intros f' m Hf Hne; [done|].
  destruct f' as [|f']; [lia|]. cbn [defragment] in *.
  destruct (negb _); [|done]. apply IH; [lia|done].
Qed.

Lemma kfree_from_fuel f f' g g' p q m :
  (f <= f')%nat -> (g <= g')%nat -> kfree_from f g p q m <> OutOfFuel ->
  kfree_from f' g' p q m = kfree_from f g p q m.
Proof.
  revert f' p. induction f as [|f IH]; intros f' p Hf Hg Hne; [done|].
  destruct f' as [|f']; [lia|]. cbn [kfree_from] in *.
  destruct (isLast m p); [done|]. destruct (_ =? q); [by apply defragment_fuel|].
  apply IH; [lia..|done].
Qed.

Definition clients_inv (heap e : Z) (st : mem * list (Z * Z)) : Prop :=
  exists bl, heap_ok st.1 heap bl e /\ aligned bl /\ st.2 ≡ₚ owned heap bl.

Lemma kalloc_returns m p bl e size :
  heap_ok m p bl e -> 0 <= size ->
  match alloc_spec p size bl with
  | NoMemory => returns (fun fuel => kalloc fuel p size) m 0 m
  | Fits bl' q =>
      exists m', returns (fun fuel => kalloc fuel p size) m q m' /\
        heap_ok m' p bl' e /\ alloc_frame q size m m' /\ p + 8 <= q
  | TooClose hdr leftover => exists m', returns (fun fuel => kalloc fuel p size) m (hdr + 8) m'
  end.
Proof.
  intros H Hs. pose proof (fun f => allocate_refines f _ _ _ _ _ H Hs) as Hr.
  unfold alloc_post in Hr. specialize (Hr (S (List.length bl)) ltac:(lia)).
  destruct (alloc_spec p size bl) as [|bl' q|hdr l].
  - exists (List.length bl). intros fuel Hf. unfold kalloc.
    rewrite (allocate_fuel (S (List.length bl))); [done|lia|by rewrite Hr].
  - destruct Hr as (m' & E & H' & Hfr & Hq & _). exists m'. split; [|done].
    exists (List.length bl). intros fuel Hf. unfold kalloc.
    rewrite (allocate_fuel (S (List.length bl))); [done|lia|by rewrite E].
  - destruct Hr as (_ & m' & E & _). exists m'. exists (List.length bl). intros fuel Hf.
    unfold kalloc. rewrite (allocate_fuel (S (List.length bl))); [done|lia|by rewrite E].
Qed.

Lemma kfree_returns m p bl e q :
  heap_ok m p bl e ->
  match free_spec p q bl with
  | None => panics (fun fuel => kfree fuel p q) m "kfree: no such memory address!" m
  | Some bl' =>
      exists m', returns (fun fuel => kfree fuel p q) m tt m' /\
        heap_ok m' p bl' e /\ only_changes (q - 8) 8 m m' /\ p + 8 <= q /\ q <= e
  end.
Proof.
  intros H. pose proof (kfree_refines_lemma (S (List.length bl)) _ _ _ _ q H ltac:(lia)) as Hr.
  unfold kfree, kfree_post in *. destruct (free_spec p q bl) as [bl'|].
  - destruct Hr as (? & ? & m' & E & H' & C). exists m'. split; [|done].
    exists (List.length bl). intros fuel Hf.
    rewrite (kfree_from_fuel (S (List.length bl)) _ (S (List.length bl))); [done|lia|lia|by rewrite E].
  - exists (List.length bl). intros fuel Hf.
    rewrite (kfree_from_fuel (S (List.length bl)) _ (S (List.length bl))); [done|lia|lia|by rewrite Hr].
Qed.

(** The bytes of a block survive what changes elsewhere. *)
Lemma alloc_frame_owned m m' q size x s :
  alloc_frame q size m m' -> 8 <= q -> 0 <= size -> fits x s -> apart (q, size) (x, s) ->
  read_bytes m' x (Z.to_nat s) = read_bytes m x (Z.to_nat s).
Proof.
  intros Hf Hq Hs (? & ? & ?) Ha. apply read_bytes_ext. intros i Hi.
  unfold apart in Ha. cbn in Ha. apply Hf; lia.
Qed.

Lemma owned_fits m p bl e q s :
  heap_ok m p bl e -> (q, s) ∈ owned p bl -> fits q s /\ p + 8 <= q /\ q + s <= e.
Proof.
  intros H Hq. apply owned_bounds in Hq; [|by eapply heap_ok_sizes].
  destruct H as (? & ? & He%heap_at_end). unfold fits. lia.
Qed.

Lemma clients_step heap e st st' :
  clients_inv heap e st -> heap_step heap st st' -> clients_inv heap e st'.
Proof.
  intros (bl & H & Ha & Hown) Hstep.
  destruct Hstep as [size q m m' own Hs Hal Hret|q s m m' own1 own2 Hret|q s m m' own Hq C];
    cbn [fst snd] in *.
  - pose proof (kalloc_returns _ _ _ _ _ H Hs) as Hspec.
    pose proof (alloc_spec_aligned heap size bl Ha Hal) as Hal'.
    pose proof (alloc_spec_owned heap size bl) as Ho.
    destruct (alloc_spec heap size bl) as [|bl' q'|]; [| |done].
    + destruct (returns_unique _ _ _ _ _ _ Hret Hspec) as [-> ->]. by exists bl.
    + destruct Hspec as (m1 & Hspec & H' & _ & Hq).
      destruct (returns_unique _ _ _ _ _ _ Hret Hspec) as [-> ->].
      destruct (id H) as [? _]. rewrite (proj2 (Z.eqb_neq _ _)) by lia.
      exists bl'. split; [done|]. split; [done|]. cbn [snd].
      rewrite (proj1 (Ho _ _ (heap_ok_sizes _ _ _ _ H) Hs eq_refl)). by rewrite Hown.
  - assert ((q, s) ∈ owned heap bl) as Hq by (rewrite <- Hown; set_solver).
    destruct (free_spec_owned heap bl q s (heap_ok_sizes _ _ _ _ H) Hq) as (bl' & E & Ho).
    pose proof (kfree_returns _ _ _ _ q H) as Hspec. rewrite E in Hspec.
    destruct Hspec as (m1 & Hspec & H' & _).
    destruct (returns_unique _ _ _ _ _ _ Hret Hspec) as [_ ->].
    exists bl'. split; [done|]. split; [by eapply free_spec_aligned|]. cbn [snd].
    apply (Permutation_cons_inv (a := (q, s))). by rewrite Permutation_middle, Hown.
  - exists bl. split; [|done]. eapply heap_ok_write; [done| |done]. by rewrite <- Hown.
Qed.

(** ** Properties *)

(** C14: [kalloc] is first fit.  On a well-formed heap it returns, with the memory
    and the list its specification says: null and unchanged memory when no free
    block is large enough; otherwise the data of the first free block that is,
    the rest split off as a free block when a header fits in it, only the two
    headers written and the list still well formed. *)
Theorem kalloc_refines fuel m heap bl e size :
  heap_ok m heap bl e -> 0 <= size -> (List.length bl < fuel)%nat ->
  alloc_post m heap size e (alloc_spec heap size bl) (kalloc fuel heap size m).
Proof. intros. by apply allocate_refines. Qed.

(** The heap of 4096 bytes the examples use. *)
Definition example_heap : mem := snd (heapInitialize 65536 4096 ∅).

Lemma example_heap_ok : heap_ok example_heap 65536 [Blk 4080 false] 69624.
Proof.
  destruct (heapInitialize_spec 65536 4096 ∅ ltac:(lia) ltac:(lia) ltac:(lia)) as (_ & _ & H & _).
  exact H.
Qed.

Lemma kalloc_refines_witness :
  exists m', kalloc 2 65536 100 example_heap = Done 65544 m' /\
    heap_ok m' 65536 [Blk 100 true; Blk 3972 false] 69624.
Proof.
  destruct (kalloc_refines 2 example_heap 65536 [Blk 4080 false] 69624 100 example_heap_ok
    ltac:(lia) ltac:(simpl; lia)) as (m' & E & H & _).
  exists m'. split; [exact E|exact H].
Defined.

(** C15: [kfree] on a well-formed heap: a pointer that is the data of a block
    frees it, swallowing every free block right behind it, and writes that one
    header; any other pointer is a panic that changes nothing.  Both loops end. *)
Theorem kfree_refines fuel m heap bl e ptr :
  heap_ok m heap bl e -> (List.length bl < fuel)%nat ->
  kfree_post m heap ptr e (free_spec heap ptr bl) (kfree fuel heap ptr m).
Proof. intros. by apply kfree_refines_lemma. Qed.

Lemma kfree_refines_witness :
  kfree 2 65536 70000 example_heap = Panicked "kfree: no such memory address!" example_heap.
Proof. apply (kfree_refines 2 example_heap 65536 [Blk 4080 false] 69624 70000 example_heap_ok). simpl. lia. Defined.

(** C9: memory safety for clients that ask for multiples of 8 bytes.  Start from
    [heapInitialize] on a region whose size is a multiple of 8 and run any
    sequence of [kalloc]s, [kfree]s of blocks handed out and not given back, and
    writes inside such blocks: the blocks held stay inside the region, a header
    apart from each other, and each can be given back without a panic. *)
Theorem heap_clients_safe ptr maxSize m0 m own :
  0 < ptr -> 16 <= maxSize -> ptr + maxSize <= 4294967296 -> maxSize mod 8 = 0 ->
  rtc (heap_step ptr) (snd (heapInitialize ptr maxSize m0), []) (m, own) ->
  pairwise_apart own /\
  forall q s, (q, s) ∈ own ->
    ptr + 8 <= q /\ q + s <= ptr + maxSize - 8 /\
    exists m', returns (fun fuel => kfree fuel ptr q) m tt m'.
Proof.
  intros Hp Hs Hf Hal Hrun. pose proof (heapInitialize_spec ptr maxSize m0 Hp Hs Hf) as Hi.
  destruct (heapInitialize ptr maxSize m0) as [[heap he] mi]. destruct Hi as (-> & -> & Hi & _).
  assert (clients_inv ptr (ptr + maxSize - 8) (mi, [])) as H0.
  { exists [Blk (maxSize - 16) false]. split; [done|]. split; [|done].
    constructor; [|constructor]. cbn. Z.to_euclidean_division_equations; lia. }
  assert (clients_inv ptr (ptr + maxSize - 8) (m, own)) as (bl & H & _ & Ho).
  { cbn [snd] in Hrun. revert H0. induction Hrun as [|st1 st2 st3 Hst _ IH]; [done|].
    intros H0. apply IH. by eapply clients_step. }
  cbn [fst snd] in *. pose proof (heap_ok_sizes _ _ _ _ H) as Hsz. rewrite Ho.
  split; [by apply owned_apart|]. intros q s Hq. rewrite Ho in Hq.
  apply (owned_fits _ _ _ _ _ _ H) in Hq as Hb. split; [lia|]. split; [lia|].
  destruct (free_spec_owned _ _ _ _ Hsz Hq) as (bl' & E & _).
  pose proof (kfree_returns _ _ _ _ q H) as Hspec. rewrite E in Hspec.
  destruct Hspec as (m' & ? & _). by exists m'.
Qed.

Lemma heap_clients_safe_witness :
  exists m', rtc (heap_step 65536) (example_heap, []) (m', [(65544, 96)]) /\
    pairwise_apart [(65544, 96)] /\
    forall q s, (q, s) ∈ [(65544, 96)] ->
      65544 <= q /\ q + s <= 69624 /\
      exists m'', returns (fun fuel => kfree fuel 65536 q) m' tt m''.
Proof.
  pose proof (kalloc_returns _ _ _ _ 96 example_heap_ok ltac:(lia)) as (m' & Hr & _).
  exists m'. assert (rtc (heap_step 65536) (example_heap, []) (m', [(65544, 96)])) as Hrun.
  { eapply rtc_l; [|apply rtc_refl].
    apply (step_kalloc 65536 96 65544 example_heap m' []); [lia|reflexivity|exact Hr]. }
  split; [exact Hrun|].
  apply (heap_clients_safe 65536 4096 ∅ m' [(65544, 96)]); try lia; [reflexivity|exact Hrun].
Defined.

(** An allocation never hands out memory in use, whatever its size: when
    [kalloc] finds room, the new block is a header apart from every reserved
    block, and no byte of those blocks changes; giving the new block back with
    [kfree] succeeds and leaves exactly the blocks reserved before, still with
    their contents. *)
Theorem kalloc_kfree_roundtrip m heap bl e size bl' q :
  heap_ok m heap bl e -> 0 <= size -> alloc_spec heap size bl = Fits bl' q ->
  exists m1 m2 bl2,
    returns (fun fuel => kalloc fuel heap size) m q m1 /\
    returns (fun fuel => kfree fuel heap q) m1 tt m2 /\
    heap_ok m2 heap bl2 e /\ owned heap bl2 ≡ₚ owned heap bl /\
    forall x s, (x, s) ∈ owned heap bl ->
      apart (q, size) (x, s) /\
      read_bytes m1 x (Z.to_nat s) = read_bytes m x (Z.to_nat s) /\
      read_bytes m2 x (Z.to_nat s) = read_bytes m x (Z.to_nat s).
Proof.
  intros H Hs Hspec. pose proof (kalloc_returns _ _ _ _ _ H Hs) as Hr. rewrite Hspec in Hr.
  destruct Hr as (m1 & Hr & H1 & Hfr & Hq).
  destruct (alloc_spec_owned _ _ _ _ _ (heap_ok_sizes _ _ _ _ H) Hs Hspec) as [Ho Hap].
  assert ((q, size) ∈ owned heap bl') as Hin by (rewrite Ho; left).
  destruct (free_spec_owned _ _ _ _ (heap_ok_sizes _ _ _ _ H1) Hin) as (bl2 & E & Ho2).
  pose proof (kfree_returns _ _ _ _ q H1) as Hk. rewrite E in Hk.
  destruct Hk as (m2 & Hk & H2 & C & _ & Hqe). exists m1, m2, bl2.
  split; [done|]. split; [done|]. split; [done|]. split.
  { apply (Permutation_cons_inv (a := (q, size))). by rewrite <- Ho2, Ho. }
  intros x s Hx. specialize (Hap _ Hx). destruct (owned_fits _ _ _ _ _ _ H Hx) as (Hf & _).
  assert (read_bytes m1 x (Z.to_nat s) = read_bytes m x (Z.to_nat s)) as E1.
  { destruct (id H) as [? _]. eapply alloc_frame_owned; done || lia. }
  split; [done|]. split; [done|]. rewrite <- E1. apply read_bytes_ext. intros i Hi.
  destruct Hf as (? & ? & ?). destruct (id H) as (? & ? & _). unfold apart in Hap. cbn in Hap.
  apply (only_changes_out _ _ _ _ _ C); unfold fits; lia.
Qed.

Lemma kalloc_kfree_roundtrip_witness :
  exists m1 m2 bl2,
    returns (fun fuel => kalloc fuel 65536 100) example_heap 65544 m1 /\
    returns (fun fuel => kfree fuel 65536 65544) m1 tt m2 /\
    heap_ok m2 65536 bl2 69624 /\ owned 65536 bl2 ≡ₚ [].
Proof.
  destruct (kalloc_kfree_roundtrip example_heap 65536 [Blk 4080 false] 69624 100
    [Blk 100 true; Blk 3972 false] 65544 example_heap_ok ltac:(lia) eq_refl)
    as (m1 & m2 & bl2 & H1 & H2 & H3 & H4 & _).
  exists m1, m2, bl2. split; [done|]. split; [done|]. by split.
Defined.

(** The test that decides on a split subtracts the wrong way round, so every block that
    does not fit exactly is split: one with 1 to 7 bytes to spare gets a header that
    overlaps the block behind it, marked free, with a size of nearly 2^32 bytes. *)
Theorem kalloc_split_overlap fuel m heap b bl e size :
  heap_ok m heap (b :: bl) e -> b_reserved b = false -> 0 <= size ->
  0 < b_size b - size < 8 ->
  exists m', kalloc (S fuel) heap size m = Done (heap + 8) m' /\
    get_reserved m' (heap + 8 + size) = false /\
    getSize m' (heap + 8 + size) = 4294967296 - 8 + (b_size b - size).
Proof.
  intros H Hr Hs Hl. destruct (take_block_overlap _ _ _ _ _ _ H Hr Hs Hl) as (_ & H1 & H2).
  eexists. split; [by apply (allocate_take fuel _ _ _ _ _ size H Hr); lia|]. by split.
Qed.

Lemma kalloc_split_overlap_witness :
  exists m', kalloc 1 65536 4079 example_heap = Done 65544 m' /\
    get_reserved m' 69623 = false /\ getSize m' 69623 = 4294967289.
Proof.
  apply (kalloc_split_overlap 0 example_heap 65536 (Blk 4080 false) [] 69624 4079 example_heap_ok);
    [reflexivity|lia|simpl; lia].
Defined.
