(* ===== verification/Machine.v ===== *)
(** The machine the 32-bit programs run on: physical memory, the terminal object
    behind the global stream [out], and the static variables of the C++ files,
    with the programs of the other components lifted to it.  [earlyPanic] and
    [hang] are those of [lib/stdlibC/cstdlib.cpp] and [include/klib/stdlib.h]. *)

From S2P Require Import Prelude PhysMem CString Xtoa Terminal Outstream Heap.

Record machine : Type := Machine {
  m_ram : mem;
  m_term : terminal;   (* the framebuffer_terminal [out] writes to *)
  m_base : Z;          (* out._base *)
  m_heap : Z;          (* memory.cpp: heap *)
  m_heapEnd : Z;       (* memory.cpp: heapEnd *)
  m_disk : Z;          (* stage1main.cpp: disk *)
}.

Definition set_ram (m : mem) (s : machine) : machine :=
  Machine m (m_term s) (m_base s) (m_heap s) (m_heapEnd s) (m_disk s).
Definition set_term (t : terminal) (s : machine) : machine :=
  Machine (m_ram s) t (m_base s) (m_heap s) (m_heapEnd s) (m_disk s).

(** ** The stream [out] *)

Definition out_of (s : machine) : outstream (terminal * mem) :=
  Outstream (m_base s) (m_term s, m_ram s).
Definition set_out (o : outstream (terminal * mem)) (s : machine) : machine :=
  Machine (snd (o_back o)) (fst (o_back o)) (o_base o) (m_heap s) (m_heapEnd s) (m_disk s).

(** [out << "..."]. *)
Definition print (str : string) : prog machine unit :=
  modify (fun s => set_out (shl_str (bytes_of_string str) (out_of s)) s).

(** The string "\n". *)
Definition newline : string := String "010" EmptyString.

(** A local [char str[MAX_NUM_STR_SIZE]] before its first assignment; [xtoa]
    writes it before it is read as long as the base is in range. *)
Definition uninit : list Z := replicate 65 0.

(** [out << num] for a [uint32_t] or a [size_t]. *)
Definition print_u32 (num : Z) : prog machine unit := fun s =>
  match shl_num 32 false num uninit (out_of s) with
  | Val o => Done tt (set_out o s)
  | Fault => Undefined
  | NoFuel => OutOfFuel
  end.

(** [earlyPanic]: the change of colour is compiled only when [__is32__] or
    [__is64__] is defined, which the build never does.  [hang] never returns. *)
Definition hang {A} (msg : string) : prog machine A := fun s => Panicked msg s.

Definition earlyPanic {A} (str : string) : prog machine A :=
  do* print "earlyPanic(): " in
  do* print str in
  hang str.

(** [abort], which libgcc needs. *)
Definition abort {A} : prog machine A := earlyPanic "kernel: panic: abort()".

(** ** Memory programs on the machine: a panic is [earlyPanic] *)

Definition on_ram {A} (c : prog mem A) : prog machine A := fun s =>
  match c (m_ram s) with
  | Done a m => Done a (set_ram m s)
  | Panicked msg m => earlyPanic msg (set_ram m s)
  | OutOfFuel => OutOfFuel
  | Undefined => Undefined
  end.

Definition load_ram {A} (f : mem -> A) : prog machine A := gets (fun s => f (m_ram s)).
Definition store_ram (f : mem -> mem) : prog machine unit :=
  modify (fun s => set_ram (f (m_ram s)) s).

(** [new T]: [operator new] on the static heap. *)
Definition new_bytes (fuel : nat) (size : Z) : prog machine Z := fun s =>
  on_ram (op_new fuel (m_heap s) size) s.
Definition delete_bytes (fuel : nat) (ptr : Z) : prog machine unit := fun s =>
  on_ram (op_delete fuel (m_heap s) ptr) s.

(** ** Calling the BIOS

    [realModeCall(&fn, ...)]: the processor goes to real mode, runs [fn] there and comes
    back.  The mask that clears bit 0 of [%cr0] is the byte of memory at 0xfffe
    ([realModeCall.S] has [~0x01] for [$~0x01]): when it is odd the processor stays in
    protected mode and faults.  [RealMode] has the instructions, and the theorems that say
    so: [realModeCall_int13], [realModeCall_int15] and [realModeCall_stuck]. *)
Definition mask_address : Z := 65534.
Definition even_byte (v : Z) : Prop := Z.testbit v 0 = false.
Definition mask_even (m : mem) : Prop := even_byte (rd8 m mask_address).

Definition real_mode_call {A} (fn : mem -> A * mem) : prog machine A := fun s =>
  if Z.testbit (rd8 (m_ram s) mask_address) 0 then Undefined
  else let '(r, m) := fn (m_ram s) in Done r (set_ram m s).

Lemma real_mode_call_even {A} (fn : mem -> A * mem) s r m :
  mask_even (m_ram s) -> fn (m_ram s) = (r, m) -> real_mode_call fn s = Done r (set_ram m s).
Proof. intros He E. unfold real_mode_call. by rewrite He, E. Qed.

Lemma real_mode_call_odd {A} (fn : mem -> A * mem) s :
  ~ mask_even (m_ram s) -> real_mode_call fn s = Undefined.
Proof. unfold mask_even, even_byte, real_mode_call. by destruct (Z.testbit _ _). Qed.

(** A pure function of memory that can run out of fuel. *)
Definition run_opt {A} (f : mem -> option A) : prog machine A := fun s =>
  match f (m_ram s) with Some a => Done a s | None => OutOfFuel end.

(** [terminal.setColor]. *)
Definition set_color (fg bg : vga_color) : prog machine unit :=
  modify (fun s => set_term (setColor fg bg (m_term s)) s).


(** [mem::heapInitialize] on the static heap pointers. *)
Definition open_heap (ptr maxSize : Z) : prog machine unit := fun s =>
  let '(heap, heapEnd, m) := heapInitialize ptr maxSize (m_ram s) in
  Done tt (Machine m (m_term s) (m_base s) heap heapEnd (m_disk s)).

(** ** What a stream operation leaves alone *)

Definition machine_ok (s : machine) : Prop :=
  terminal_ok (m_term s) /\ t_buffer (m_term s) = FRAMEBUFFER_LOCATION /\ 2 <= m_base s <= 16.

(** Everything but memory and the terminal's fields is the same. *)
Definition same_statics (s s' : machine) : Prop :=
  m_base s' = m_base s /\ m_heap s' = m_heap s /\ m_heapEnd s' = m_heapEnd s /\
  m_disk s' = m_disk s.

(** The bytes of the screen. *)
Definition on_screen (a : Z) : Prop := FRAMEBUFFER_LOCATION <= a < FRAMEBUFFER_LOCATION + 2 * cells.

(** Only the screen differs. *)
Definition same_but_screen (s s' : machine) : Prop :=
  machine_ok s' /\ same_statics s s' /\
  only_changes FRAMEBUFFER_LOCATION (2 * cells) (m_ram s) (m_ram s').

#[export] Instance same_statics_equiv : Equivalence same_statics.
Proof.
  split.
  - by repeat split.
  - intros s s' (? & ? & ? & ?). by repeat split.
  - intros s1 s2 s3 (? & ? & ? & ?) (? & ? & ? & ?). repeat split; congruence.
Qed.

Lemma same_but_screen_trans s1 s2 s3 :
  same_but_screen s1 s2 -> same_but_screen s2 s3 -> same_but_screen s1 s3.
Proof.
  intros (? & ? & ?) (? & ? & ?). split; [done|]. split; [by etrans|].
  by eapply only_changes_trans.
Qed.

Lemma bytes_of_string_bounds str : Forall (fun c => 0 <= c < 256) (bytes_of_string str).
Proof.
  apply Forall_fmap, Forall_true. intros c. unfold compose.
  pose proof (nat_ascii_bounded c). lia.
Qed.

(** Any characters on a good terminal leave it good and touch only the screen. *)
Lemma put_chars_frame str t m :
  terminal_ok t -> Forall (fun c => 0 <= c < 256) str ->
  exists t' m', put_chars str (t, m) = (t', m') /\ terminal_ok t' /\
    t_buffer t' = t_buffer t /\ only_changes (t_buffer t) (2 * cells) m m'.
Proof.
  intros Ht Hs. revert t m Ht. induction Hs as [|c str Hc Hs IH]; intros t m Ht.
  { exists t, m. split; [done|]. split; [done|]. split; [done|apply only_changes_refl]. }
  pose proof (putchar_refines_lemma c t m _ Ht (read_screen_at m _) Hc) as H.
  destruct (putchar_spec c t _) as [[r t1] scr1]. destruct H as (m1 & E & _ & H1 & H2 & H3).
  destruct (IH t1 m1 H2) as (t' & m' & E' & H1' & H2' & H3').
  exists t', m'. rewrite (put_chars_step _ _ _ _ _ _ _ E). split; [done|]. split; [done|].
  rewrite H3 in H2', H3'. split; [done|]. by eapply only_changes_trans.
Qed.

Lemma set_out_screen s str :
  machine_ok s -> Forall (fun c => 0 <= c < 256) str ->
  same_but_screen s (set_out (Outstream (m_base s) (put_chars str (m_term s, m_ram s))) s).
Proof.
  intros (Ht & Hb & Hbase) Hs. destruct (put_chars_frame str _ (m_ram s) Ht Hs)
    as (t' & m' & -> & Ht' & Hb' & Hm). rewrite Hb in *.
  split; [split; [done|]; by split|]. by split.
Qed.

Lemma c_str_Forall (P : Z -> Prop) str : Forall P str -> Forall P (c_str str).
Proof.
  induction 1 as [|c str Hc H IH]; cbn; [done|]. destruct (c =? 0); [done|]. by constructor.
Qed.

Lemma print_screen str s :
  machine_ok s -> exists s', print str s = Done tt s' /\ same_but_screen s s'.
Proof.
  intros Hok. eexists. split; [reflexivity|]. apply set_out_screen; [done|].
  apply c_str_Forall, bytes_of_string_bounds.
Qed.

Lemma print_u32_screen num s :
  machine_ok s -> 0 <= num < 4294967296 ->
  exists s', print_u32 num s = Done tt s' /\ same_but_screen s s'.
Proof.
  intros Hok Hn. destruct (id Hok) as (_ & _ & Hb).
  unfold print_u32, shl_num, writeNum, write_radix.
  destruct (xtoa_digits 32 false num uninit (m_base s)) as (buf & E & _ & Hd & _);
    [lia|done|by apply wrap_small|lia|apply Forall_replicate; lia|done|].
  cbn [out_of o_base o_back]. rewrite E. cbn [buf_bind snd writeString].
  eexists. split; [reflexivity|]. apply set_out_screen; [done|].
  eapply Forall_impl; [exact Hd|]. intros c [_ Hc]. lia.
Qed.

(** A panic prints its message, then the machine halts. *)
Lemma earlyPanic_panics {A} str s :
  machine_ok s ->
  exists s', earlyPanic (A := A) str s = Panicked str s' /\ same_but_screen s s'.
Proof.
  intros Hok. destruct (print_screen "earlyPanic(): " s Hok) as (s1 & E1 & H1).
  destruct (print_screen str s1 (proj1 H1)) as (s2 & E2 & H2).
  exists s2. split; [|by eapply same_but_screen_trans].
  unfold earlyPanic. rewrite (bind_Done _ _ _ _ _ E1), (bind_Done _ _ _ _ _ E2). done.
Qed.

(** ** Memory set aside

    Low memory up to 0x800 belongs to the BIOS and the stack; the disk address
    packet is at 0x1000; the disk bounce buffer holds 127 sectors at 0x70000. *)
Definition scratch (a : Z) : Prop :=
  0 <= a < 2048 \/ 4096 <= a < 4112 \/ 458752 <= a < 523776.

(** Programs that only touch memory. *)
Definition ram_only (s s' : machine) : Prop := s' = set_ram (m_ram s') s.

Lemma ram_only_refl s : ram_only s s.
Proof. by destruct s. Qed.

Lemma ram_only_trans s1 s2 s3 : ram_only s1 s2 -> ram_only s2 s3 -> ram_only s1 s3.
Proof. unfold ram_only. intros -> ->. done. Qed.

Lemma ram_only_set s m : ram_only s (set_ram m s).
Proof. done. Qed.

Lemma ram_only_ok s s' : ram_only s s' -> machine_ok s -> machine_ok s'.
Proof. by intros ->. Qed.

#[export] Hint Resolve ram_only_refl ram_only_set : wrap.
