(* ===== verification/DiskRead.v ===== *)
(** Reading the disk through the BIOS: [lib/earlyLib/diskRead16.cpp], the stub
    [lib/earlyLib/asmCall_int13.S], and the interface a file system needs of a
    disk, which [diskRead16] implements. *)

From S2P Require Import Prelude PhysMem Layout CString Terminal Machine.

(** ** What a file system needs of a disk *)

(** [read lba buffer n] copied [n] sectors of [image] (byte [i] of sector [lba]
    is [image lba i]) to [buffer]; other memory changed only in [scratch]. *)
Definition sectors_read (image : Z -> Z -> Z) (lba buffer n : Z) (s s' : machine) : Prop :=
  ram_only s s' /\
  (forall i, 0 <= i < 512 * n -> rd8 (m_ram s') (buffer + i) = image (lba + i / 512) (i mod 512)) /\
  (forall a, 0 <= a < 4294967296 -> ~ buffer <= a < buffer + 512 * n -> ~ scratch a ->
     rd8 (m_ram s') a = rd8 (m_ram s) a).

(** A buffer of [n] sectors away from the memory a read uses for itself. *)
Definition buffer_ok (buffer n : Z) : Prop :=
  (fits buffer (512 * n) /\ buffer + 512 * n < 4294967296) /\
  forall a, buffer <= a < buffer + 512 * n -> ~ scratch a.

(** The operation the file system is given: sector, buffer, number of sectors. *)
Class Disk : Type := bd_read : Z -> Z -> Z -> prog machine Z.

(** Its laws: in a machine where the disk is ready, reads succeed.  The device may be
    called only while the bytes it watches are fine, and stays so after a read when the
    sectors leave fine bytes at these addresses. *)
Class BlockDevice (D : Disk) : Type := {
  bd_image : Z -> Z -> Z;
  bd_ready : machine -> Prop;
  bd_watch : Z -> Prop;
  bd_fine : Z -> Prop;
  bd_ready_ram s s' : ram_only s s' -> bd_ready s -> bd_ready s';
  bd_watch_range a : bd_watch a -> 0 <= a < 4294967296 /\ ~ scratch a;
  bd_spec lba buffer n s :
    machine_ok s -> bd_ready s -> 0 <= lba -> lba + n < 4294967296 -> 0 <= n ->
    buffer_ok buffer n ->
    (forall a, bd_watch a -> bd_fine (rd8 (m_ram s) a)) ->
    (forall i, 0 <= i < 512 * n -> bd_watch (buffer + i) -> bd_fine (bd_image (lba + i / 512) (i mod 512))) ->
    exists r s', bd_read lba buffer n s = Done r s' /\ r <> 0 /\
      sectors_read bd_image lba buffer n s s';
}.

(** ** [diskRead16] *)

Definition MAX_SECTORS : Z := 127.
Definition SECTOR_SIZE : Z := 512.
Definition dap : Z := 4096.             (* _dap_memory_location *)
Definition readBuffer : Z := 458752.    (* _disk_read_location *)
Definition dap_offset : Z := readBuffer mod 16.
Definition dap_segment : Z := (readBuffer - dap_offset) / 16.

Definition DAP : layout :=
  Layout false [("size"%string, U8); ("unused"%string, U8); ("numSectors"%string, U16);
    ("buffer"%string, U32); ("LBA"%string, U64)].

Definition _fillDAP (LBA sectors : Z) (m : mem) : mem :=
  let m := put DAP "size" m dap 16 in
  let m := put DAP "unused" m dap 0 in
  let m := put DAP "numSectors" m dap (u16 sectors) in
  let m := put DAP "buffer" m dap (Z.lor (u32 (Z.shiftl dap_segment 16)) dap_offset) in
  put DAP "LBA" m dap LBA.

(** The BIOS: [int $0x13] with [%eax = 0x4200], the drive in [%edx] and the packet
    at [%ds:%si], on memory, answers the carry flag, [%ah] and memory. *)
Section Int13.
Variable int13 : Z -> Z -> mem -> bool * Z * mem.

(** The stub leaves its answer in the byte the caller passes. *)
Definition asmCall_int13 (disk : Z) (m : mem) : Z * mem :=
  let '(carry, ah, m') := int13 disk dap m in
  if carry then (u8 ah, m') else (0, m').

(** Round [i] of the loop, [k] rounds to go. *)
Fixpoint disk_rounds (k : nat) (i iterations currentBuffer currentLBA sectors disk : Z) :
    prog machine unit :=
  match k with
  | O => ret tt
  | S k' =>
      let currentSectors :=
        if i =? iterations then u32 (sectors - u32 (MAX_SECTORS * iterations)) else MAX_SECTORS in
      do* store_ram (_fillDAP currentLBA currentSectors) in
      let* result := real_mode_call (asmCall_int13 disk) in
      do* (if negb (result =? 0) then earlyPanic "diskRead16(): Failure reading" else ret tt) in
      do* store_ram (fun m =>
        memmove m currentBuffer readBuffer (u32 (currentSectors * SECTOR_SIZE))) in
      disk_rounds k' (i + 1) iterations (u32 (currentBuffer + MAX_SECTORS * SECTOR_SIZE))
        (u32 (currentLBA + MAX_SECTORS)) sectors disk
  end.

Definition diskRead16 (LBA buffer sectors disk : Z) : prog machine Z :=
  let iterations := sectors / MAX_SECTORS in
  do* disk_rounds (Z.to_nat (iterations + 1)) 0 iterations buffer LBA sectors disk in
  ret 1.

(** stage1main.cpp's [diskReadFunc], the callback the file system gets. *)
Definition diskReadFunc (LBA buffer sectors : Z) : prog machine Z := fun s =>
  diskRead16 (u32 LBA) buffer sectors (m_disk s) s.
End Int13.

(** ** The packet *)

Lemma DAP_ok : layout_ok DAP = true.
Proof. reflexivity. Qed.

(** The documented reading of the packet in memory. *)
Definition dap_request (m : mem) : Z * Z * Z * Z :=
  (get DAP "size" m dap, get DAP "LBA" m dap, get DAP "numSectors" m dap,
   16 * (get DAP "buffer" m dap / 65536) + get DAP "buffer" m dap mod 65536).

Lemma fillDAP_request LBA n m :
  0 <= LBA < 4294967296 -> 0 <= n < 65536 ->
  dap_request (_fillDAP LBA n m) = (16, LBA, n, readBuffer).
Proof.
  intros Hl Hn. unfold dap_request, _fillDAP.
  rewrite !(get_put_eq DAP), ?(get_put_ne DAP) by (exact DAP_ok || discriminate).
  repeat (rewrite ?(get_put_eq DAP) by exact DAP_ok;
    rewrite ?(get_put_ne DAP) by (exact DAP_ok || discriminate)).
  change (256 ^ fieldsize DAP "size") with 256. change (256 ^ fieldsize DAP "LBA") with (2 ^ 64).
  change (256 ^ fieldsize DAP "numSectors") with 65536.
  change (256 ^ fieldsize DAP "buffer") with (2 ^ 32). pow2_simpl.
  rewrite u16_small, !Z.mod_small by lia.
  reflexivity.
Qed.

Lemma fillDAP_changes LBA n m : only_changes dap 16 m (_fillDAP LBA n m).
Proof.
  unfold _fillDAP. change 16 with (sizeof DAP).
  repeat (eapply only_changes_trans; [|by apply put_only_changes]). apply only_changes_refl.
Qed.

(** ** Correctness for a working drive *)

(** What the extended read service documents, for requests that end by sector [limit]:
    with a 16-byte packet for at most 127 sectors, carry is clear, the sectors are in the
    packet's buffer, and the rest of memory is as it was, the BIOS's own low memory aside.
    A count of 0 transfers nothing; [diskRead16] asks for 0 sectors in its last round when
    the number of sectors is a multiple of 127. *)
Definition int13_reads_below (limit : Z) (int13 : Z -> Z -> mem -> bool * Z * mem) (drive : Z)
    (image : Z -> Z -> Z) : Prop :=
  forall m lba n buf, dap_request m = (16, lba, n, buf) -> 0 <= n <= 127 -> lba + n <= limit ->
    fits buf (512 * n) ->
    exists ah m', int13 drive dap m = (false, ah, m') /\
      (forall i, 0 <= i < 512 * n -> rd8 m' (buf + i) = image (lba + i / 512) (i mod 512)) /\
      (forall a, 2048 <= a < 4294967296 -> a < buf \/ buf + 512 * n <= a -> rd8 m' a = rd8 m a).

(** A drive that reads every sector. *)
Definition int13_reads (int13 : Z -> Z -> mem -> bool * Z * mem) (drive : Z)
    (image : Z -> Z -> Z) : Prop :=
  forall m lba n buf, dap_request m = (16, lba, n, buf) -> 0 <= n <= 127 ->
    fits buf (512 * n) ->
    exists ah m', int13 drive dap m = (false, ah, m') /\
      (forall i, 0 <= i < 512 * n -> rd8 m' (buf + i) = image (lba + i / 512) (i mod 512)) /\
      (forall a, 2048 <= a < 4294967296 -> a < buf \/ buf + 512 * n <= a -> rd8 m' a = rd8 m a).

Lemma int13_reads_limit limit int13 drive image :
  int13_reads int13 drive image -> int13_reads_below limit int13 drive image.
Proof. intros H m lba n buf E Hn _. by apply H. Qed.

(** A drive on which a request that reaches sector [bad] or a later one fails: carry, with
    an error code. *)
Definition int13_fails_from (bad : Z) (int13 : Z -> Z -> mem -> bool * Z * mem) (drive : Z) : Prop :=
  forall m lba n buf, dap_request m = (16, lba, n, buf) -> 0 <= n <= 127 -> bad < lba + n ->
    exists ah m', int13 drive dap m = (true, ah, m') /\ u8 ah <> 0 /\
      forall a, 2048 <= a < 4294967296 -> a < buf \/ buf + 512 * n <= a -> rd8 m' a = rd8 m a.

(** The mask byte after a read: even if it was and the sectors leave it so. *)
Lemma sectors_read_mask image lba buf n s s' :
  sectors_read image lba buf n s s' -> mask_even (m_ram s) ->
  (forall i, 0 <= i < 512 * n -> buf + i = mask_address -> even_byte (image (lba + i / 512) (i mod 512))) ->
  mask_even (m_ram s').
Proof.
  intros (_ & H & F) He Hi. unfold mask_even.
  destruct (decide (buf <= mask_address < buf + 512 * n)) as [Hin|Hout].
  - replace mask_address with (buf + (mask_address - buf)) by lia. rewrite H by lia. apply Hi; lia.
  - rewrite F; [exact He|unfold mask_address; lia|done|unfold scratch, mask_address; lia].
Qed.

Section Correct.
Context (int13 : Z -> Z -> mem -> bool * Z * mem) (image : Z -> Z -> Z) (drive limit : Z).
Hypothesis Hint13 : int13_reads_below limit int13 drive image.

Lemma sectors_read_app lba buf n1 n2 s1 s2 s3 :
  0 <= n1 -> 0 <= n2 -> buffer_ok buf (n1 + n2) ->
  sectors_read image lba buf n1 s1 s2 ->
  sectors_read image (lba + n1) (buf + 512 * n1) n2 s2 s3 ->
  sectors_read image lba buf (n1 + n2) s1 s3.
Proof.
  intros Hn1 Hn2 [((Hp & Hq & Hr) & Hlt) Hsc] (R1 & H1 & F1) (R2 & H2 & F2).
  split; [by eapply ram_only_trans|]. split.
  - intros i Hi. destruct (Z.lt_ge_cases i (512 * n1)).
    + rewrite F2; [apply H1; lia|lia|lia|apply Hsc; lia].
    + specialize (H2 (i - 512 * n1) ltac:(lia)).
      replace (buf + 512 * n1 + (i - 512 * n1)) with (buf + i) in H2 by lia.
      rewrite H2. f_equal; Z.to_euclidean_division_equations; lia.
  - intros a Ha Ho Hs. rewrite F2 by (done || lia). apply F1; done || lia.
Qed.

(** One round: the call and the copy. *)
Lemma disk_round s lba buf n :
  0 <= lba < 4294967296 -> 0 <= n <= 127 -> lba + n <= limit -> buffer_ok buf n -> mask_even (m_ram s) ->
  exists m1,
    (forall B (k : Z -> prog machine B),
      (do* store_ram (_fillDAP lba n) in let* result := real_mode_call (asmCall_int13 int13 drive) in k result) s =
        k 0 (set_ram m1 s)) /\
    sectors_read image lba buf n s (set_ram (memmove m1 buf readBuffer (512 * n)) s).
Proof.
  intros Hl Hn Hlim [[Hf _] Hsc] He.
  destruct (Hint13 (_fillDAP lba n (m_ram s)) lba n readBuffer) as (ah & m1 & E & H1 & F1);
    [by apply fillDAP_request; lia|done|done|unfold fits, readBuffer; lia|].
  exists m1. split.
  - intros B k. unfold bind, store_ram, modify.
    rewrite (real_mode_call_even _ (set_ram _ s) 0 m1); [done|..]; cbn [m_ram set_ram].
    + unfold mask_even, mask_address.
      rewrite (only_changes_out _ _ _ _ _ (fillDAP_changes _ _ _)); [exact He|unfold fits, dap; lia..].
    + unfold asmCall_int13. by rewrite E.
  - pose proof (memmove_is_copy m1 buf readBuffer (512 * n) Hf
      ltac:(unfold fits, readBuffer; lia)) as Hcp.
    split; [apply ram_only_set|]. cbn [m_ram set_ram]. split.
    + intros i Hi. rewrite (is_copy_in _ _ _ _ _ _ Hcp) by done. by apply H1.
    + intros a Ha Ho Hs. unfold scratch in Hs.
      rewrite (is_copy_out _ _ _ _ _ _ Hcp) by lia.
      rewrite F1 by (unfold readBuffer; lia).
      apply (only_changes_out _ _ _ _ _ (fillDAP_changes _ _ _)); unfold fits, dap; lia.
Qed.

Lemma buffer_ok_sub buf n o k :
  buffer_ok buf n -> 0 <= o -> 0 <= k -> o + k <= n -> buffer_ok (buf + 512 * o) k.
Proof.
  intros [((? & ? & ?) & ?) Hsc] ???. split; [unfold fits; lia|]. intros a Ha. apply Hsc. lia.
Qed.

(** Bytes of a read that come to lie at the mask's address are even. *)
Definition mask_kept (lba buf len : Z) : Prop :=
  forall i, 0 <= i < len -> buf + i = mask_address -> even_byte (image (lba + i / 512) (i mod 512)).

Lemma mask_kept_le lba buf len len' : len' <= len -> mask_kept lba buf len -> mask_kept lba buf len'.
Proof. intros Hl H i Hi. apply H. lia. Qed.

Lemma mask_kept_shift lba buf len k :
  0 <= k -> mask_kept lba buf (512 * k + len) -> mask_kept (lba + k) (buf + 512 * k) len.
Proof.
  intros Hk H i Hi Hm. specialize (H (512 * k + i) ltac:(lia) ltac:(lia)).
  replace (512 * k + i) with (i + k * 512) in H by lia. rewrite Z.div_add, Z.mod_add in H by lia.
  by replace (lba + k + i / 512) with (lba + (i / 512 + k)) by lia.
Qed.

(** [j] full rounds, whatever comes behind them. *)
Lemma full_rounds j k i s lba buf sectors iterations :
  0 <= i -> i + Z.of_nat j <= iterations -> 0 <= lba ->
  lba + 127 * Z.of_nat j <= limit -> lba + 127 * Z.of_nat j < 4294967296 ->
  buffer_ok buf (127 * Z.of_nat j) -> mask_even (m_ram s) -> mask_kept lba buf (65024 * Z.of_nat j) ->
  exists s', disk_rounds int13 (j + k) i iterations buf lba sectors drive s =
      disk_rounds int13 k (i + Z.of_nat j) iterations (buf + 65024 * Z.of_nat j) (lba + 127 * Z.of_nat j)
        sectors drive s' /\
    sectors_read image lba buf (127 * Z.of_nat j) s s' /\ mask_even (m_ram s').
Proof.
  revert i s lba buf. induction j as [|j IH]; intros i s lba buf Hi Hij Hl Hlim Hlb Hbuf He Hk.
  { exists s. rewrite !Z.mul_0_r, !Z.add_0_r. split; [done|]. split; [|done].
    split; [apply ram_only_refl|]. split; [lia|done]. }
  rewrite Nat2Z.inj_succ in *.
  assert (buffer_ok buf 127) as Hb1.
  { replace buf with (buf + 512 * 0) by lia. eapply buffer_ok_sub; [done|lia..]. }
  destruct (disk_round s lba buf 127) as (m1 & E & Hr); [lia..|done|done|].
  set (s1 := set_ram (memmove m1 buf readBuffer (512 * 127)) s) in *.
  destruct (IH (i + 1) s1 (lba + 127) (buf + 512 * 127)) as (s' & E' & Hr' & He'); [lia..| | | |].
  { eapply buffer_ok_sub; [exact Hbuf|lia..]. }
  { eapply sectors_read_mask; [exact Hr|exact He|]. eapply mask_kept_le; [|exact Hk]. lia. }
  { apply mask_kept_shift; [lia|]. eapply mask_kept_le; [|exact Hk]. lia. }
  exists s'. replace (127 * Z.succ (Z.of_nat j)) with (127 + 127 * Z.of_nat j) in * by lia.
  split; [|split; [eapply sectors_read_app; [..|exact Hr|exact Hr']; lia || done|done]].
  cbn [Nat.add disk_rounds]. rewrite (proj2 (Z.eqb_neq i iterations)) by lia. unfold MAX_SECTORS at 1 2.
  rewrite E. cbn [Z.eqb negb]. rewrite bind_ret_l. unfold bind, store_ram, modify. cbn [m_ram set_ram].
  unfold SECTOR_SIZE, MAX_SECTORS. rewrite (u32_small (127 * 512)) by lia.
  destruct Hbuf as [((? & ? & ?) & ?) _]. rewrite (u32_small (buf + 127 * 512)), (u32_small (lba + 127)) by lia.
  replace (i + Z.succ (Z.of_nat j)) with (i + 1 + Z.of_nat j) by lia.
  replace (buf + 65024 * Z.succ (Z.of_nat j)) with (buf + 512 * 127 + 65024 * Z.of_nat j) by lia.
  replace (lba + (127 + 127 * Z.of_nat j)) with (lba + 127 + 127 * Z.of_nat j) by lia. exact E'.
Qed.

(** The count of a round: 127 sectors, the rest in the last. *)
Lemma last_count sectors :
  0 <= sectors < 4294967296 -> u32 (sectors - u32 (MAX_SECTORS * (sectors / MAX_SECTORS))) = sectors mod 127.
Proof. intros Hs. unfold MAX_SECTORS. rewrite wrap_sub_r, u32_small; Z.to_euclidean_division_equations; lia. Qed.

Lemma diskRead16_spec s lba buf sectors :
  0 <= lba -> lba + sectors < 4294967296 -> lba + sectors <= limit -> 0 <= sectors ->
  buffer_ok buf sectors -> mask_even (m_ram s) -> mask_kept lba buf (65024 * (sectors / 127)) ->
  exists s', diskRead16 int13 lba buf sectors drive s = Done 1 s' /\
    sectors_read image lba buf sectors s s'.
Proof.
  intros Hl Hlb Hlim Hs Hbuf He Hk.
  pose proof (Z.div_mod sectors 127 ltac:(lia)) as Hd.
  pose proof (Z.mod_pos_bound sectors 127 ltac:(lia)).
  assert (0 <= sectors / 127) as Hq by (apply Z.div_pos; lia).
  assert (buffer_ok buf (127 * (sectors / 127))) as Hb1.
  { replace buf with (buf + 512 * 0) by lia. eapply buffer_ok_sub; [done|lia..]. }
  destruct (full_rounds (Z.to_nat (sectors / 127)) 1 0 s lba buf sectors (sectors / 127))
    as (s1 & E1 & Hr1 & He1); rewrite ?Z2Nat.id in * by done; [lia..|done|done|done|].
  destruct (disk_round s1 (lba + 127 * (sectors / 127)) (buf + 512 * (127 * (sectors / 127))) (sectors mod 127))
    as (m1 & E & Hr); [lia..|eapply buffer_ok_sub; [exact Hbuf|lia..]|done|].
  pose proof (sectors_read_app lba buf (127 * (sectors / 127)) (sectors mod 127) s s1 _ ltac:(lia) ltac:(lia)
    ltac:(by rewrite <- Hd) Hr1 Hr) as Hall.
  rewrite <- Hd in Hall. eexists. split; [|exact Hall].
  unfold diskRead16. change MAX_SECTORS with 127. cbv zeta. rewrite Z2Nat.inj_add by lia. change (Z.to_nat 1) with 1%nat.
  unfold bind at 1. rewrite E1. cbn [disk_rounds]. rewrite Z.add_0_l, Z.eqb_refl, last_count by lia.
  replace (buf + 65024 * (sectors / 127)) with (buf + 512 * (127 * (sectors / 127))) by lia.
  rewrite E. cbn [Z.eqb negb]. rewrite bind_ret_l. unfold bind, store_ram, modify, ret. cbn [m_ram set_ram].
  unfold SECTOR_SIZE. rewrite u32_small by lia. by rewrite (Z.mul_comm (sectors mod 127)).
Qed.
End Correct.

(** With an odd mask byte the first call faults, whatever the drive. *)
Lemma diskRead16_odd int13 drive s lba buf sectors :
  0 <= sectors -> ~ mask_even (m_ram s) -> diskRead16 int13 lba buf sectors drive s = Undefined.
Proof.
  intros Hs Ho. unfold diskRead16. apply bind_Undefined.
  assert (0 <= sectors / MAX_SECTORS) by (apply Z.div_pos; unfold MAX_SECTORS; lia).
  rewrite Z2Nat.inj_add, Nat.add_1_r by lia. cbn [disk_rounds].
  unfold bind at 1, store_ram, modify. apply bind_Undefined, real_mode_call_odd. cbn [m_ram set_ram].
  unfold mask_even, mask_address in *.
  rewrite (only_changes_out _ _ _ _ _ (fillDAP_changes _ _ _)); [exact Ho|unfold fits, dap; lia..].
Qed.

(** A round that fails: the error code is the result, the buffer is as it was. *)
Lemma disk_round_fails int13 drive bad s lba n :
  int13_fails_from bad int13 drive ->
  0 <= lba < 4294967296 -> 0 <= n <= 127 /\ bad < lba + n -> mask_even (m_ram s) ->
  exists r m1,
    (forall B (k : Z -> prog machine B),
      (do* store_ram (_fillDAP lba n) in let* result := real_mode_call (asmCall_int13 int13 drive) in k result) s =
        k r (set_ram m1 s)) /\
    r <> 0 /\ forall a, 0 <= a < 4294967296 -> ~ scratch a -> rd8 m1 a = rd8 (m_ram s) a.
Proof.
  intros Hfail Hl [Hn Hbad] He.
  destruct (Hfail (_fillDAP lba n (m_ram s)) lba n readBuffer) as (ah & m1 & E & Ha & F1);
    [by apply fillDAP_request; lia|done|done|].
  exists (u8 ah), m1. split; [|split; [done|]].
  - intros B k. unfold bind, store_ram, modify.
    rewrite (real_mode_call_even _ (set_ram _ s) (u8 ah) m1); [done|..]; cbn [m_ram set_ram].
    + unfold mask_even, mask_address.
      rewrite (only_changes_out _ _ _ _ _ (fillDAP_changes _ _ _)); [exact He|unfold fits, dap; lia..].
    + unfold asmCall_int13. by rewrite E.
  - intros a Ha' Hs. unfold scratch in Hs. rewrite F1 by (unfold readBuffer; lia).
    apply (only_changes_out _ _ _ _ _ (fillDAP_changes _ _ _)); unfold fits, dap; lia.
Qed.

(** [diskReadFunc] is a block device while [disk] is the drive that reads; it watches the
    mask byte. *)
Definition int13_Disk int13 : Disk := diskReadFunc int13.

Program Definition int13_BlockDevice int13 image drive
    (H : int13_reads int13 drive image) : BlockDevice (int13_Disk int13) := {|
  bd_image := image;
  bd_ready s := m_disk s = drive;
  bd_watch a := a = mask_address;
  bd_fine := even_byte;
|}.
Next Obligation. intros int13 image drive H s s' -> Hd. exact Hd. Qed.
Next Obligation. intros int13 image drive H a ->. unfold scratch, mask_address. lia. Qed.
Next Obligation.
  intros int13 image drive H lba buf n s _ <- Hl Hlb Hn Hb Hw Hk.
  destruct (diskRead16_spec _ _ _ _ (int13_reads_limit (lba + n) _ _ _ H) s lba buf n Hl Hlb ltac:(lia) Hn Hb)
    as (s' & E & Hr).
  { by apply Hw. }
  { intros i Hi. apply Hk. assert (65024 * (n / 127) <= 512 * n) by (Z.to_euclidean_division_equations; lia). lia. }
  exists 1, s'. split; [|by split]. unfold bd_read, int13_Disk, diskReadFunc.
  by rewrite u32_small by lia.
Qed.

(** A BIOS for examples: drive 128 is a disk whose byte [i] of sector [lba] is
    [image lba i]; other drives fail with code 1. *)
Definition sector_bytes (image : Z -> Z -> Z) (lba n : Z) : list Z :=
  map (fun i => image (lba + i / 512) (i mod 512)) (seqZ 0 (512 * n)).

Definition example_int13 (image : Z -> Z -> Z) (drive packet : Z) (m : mem) : bool * Z * mem :=
  let '(_, lba, n, buf) := dap_request m in
  if drive =? 128 then (false, 0, write_bytes m buf (sector_bytes image lba n)) else (true, 1, m).

Lemma sector_bytes_lookup image lba n i :
  0 <= i < 512 * n ->
  sector_bytes image lba n !! Z.to_nat i = Some (image (lba + i / 512) (i mod 512)).
Proof.
  intros Hi. unfold sector_bytes. change (map ?f ?l) with (f <$> l).
  rewrite list_lookup_fmap, (proj2 (lookup_seqZ 0 (512 * n) (Z.to_nat i) i)); [done|lia].
Qed.

Lemma example_int13_reads image :
  (forall lba i, 0 <= image lba i < 256) -> int13_reads (example_int13 image) 128 image.
Proof.
  intros Hi m lba n buf E Hn Hf. unfold example_int13. rewrite E.
  change (128 =? 128) with true. cbv iota. destruct (id Hf) as (? & ? & ?).
  assert (Z.of_nat (List.length (sector_bytes image lba n)) = 512 * n) as Hlen.
  { unfold sector_bytes. rewrite length_map, length_seqZ. lia. }
  eexists _, _. split; [reflexivity|]. split.
  - intros i Hb. rewrite rd8_write_bytes by lia.
    replace (buf + i - buf) with i by lia. rewrite u32_small by lia.
    rewrite sector_bytes_lookup by done. apply u8_small, Hi.
  - intros a Ha Ho. rewrite rd8_write_bytes by lia.
    rewrite lookup_ge_None_2; [done|].
    assert (in_range buf (512 * n) a = false) as Hr by (apply in_range_false; lia).
    apply Z.ltb_ge in Hr. lia.
Qed.

(** ** Properties *)

(** C13: on a drive that reads, [diskRead16] returns true and the buffer holds the
    sectors asked for, in order, however many chunks of 127 they take; outside the
    buffer it changes only the packet, the bounce buffer and the BIOS's low memory,
    and no static of the program.  For the calls to reach real mode the byte at 0xfffe
    has to be even, at the start and when a chunk but the last is read over it. *)
Theorem diskRead16_correct int13 image drive s lba buf sectors :
  int13_reads int13 drive image ->
  0 <= lba -> lba + sectors < 4294967296 -> 0 <= sectors -> buffer_ok buf sectors ->
  mask_even (m_ram s) -> mask_kept image lba buf (65024 * (sectors / 127)) ->
  exists s', diskRead16 int13 lba buf sectors drive s = Done 1 s' /\
    sectors_read image lba buf sectors s s'.
Proof.
  intros H. intros. apply (diskRead16_spec int13 image drive (lba + sectors)); try done. by apply int13_reads_limit.
Qed.

Definition example_image (lba i : Z) : Z := (lba + i) mod 256.
Definition example_machine : machine := Machine ∅ new_terminal 10 0 0 0.

Lemma diskRead16_correct_witness :
  exists s', diskRead16 (example_int13 example_image) 2048 1048576 300 128 example_machine =
      Done 1 s' /\
    sectors_read example_image 2048 1048576 300 example_machine s'.
Proof.
  apply diskRead16_correct; try lia.
  - apply example_int13_reads. intros lba i. apply Z.mod_pos_bound. lia.
  - split; [unfold fits; lia|]. intros a Ha. unfold scratch. lia.
  - reflexivity.
  - intros i Hi. unfold mask_address. lia.
Defined.

(** C35: when the request of some chunk fails, the first to reach sector [bad], with an
    error code, [diskRead16] panics in its round; the chunks before it are in the buffer,
    and no error is turned into a return value. *)
Theorem diskRead16_failure int13 image drive bad s lba buf sectors :
  int13_reads_below bad int13 drive image -> int13_fails_from bad int13 drive ->
  machine_ok s -> 0 <= lba <= bad -> bad < lba + sectors -> lba + sectors < 4294967296 ->
  buffer_ok buf sectors -> mask_even (m_ram s) ->
  let chunks := (bad - lba) / 127 in
  mask_kept image lba buf (65024 * chunks) ->
  exists s1 s', diskRead16 int13 lba buf sectors drive s =
      Panicked "diskRead16(): Failure reading" s' /\
    sectors_read image lba buf (127 * chunks) s s1 /\ same_but_screen s1 s'.
Proof.
  intros Hread Hfail Hok Hl Hbad Hlb Hbuf He chunks Hk.
  assert (0 <= chunks /\ chunks <= sectors / 127 /\ lba + 127 * chunks <= bad /\ bad < lba + 127 * chunks + 127) as (Hc & Hle & Hc1 & Hc2)
    by (unfold chunks; Z.to_euclidean_division_equations; lia).
  assert (127 * chunks <= sectors) as Hcs by lia.
  destruct (full_rounds int13 image drive bad Hread (Z.to_nat chunks) (Z.to_nat (sectors / 127 - chunks) + 1) 0 s lba buf
    sectors (sectors / 127)) as (s1 & E1 & Hr1 & He1); rewrite ?Z2Nat.id in * by done; [lia..| |done|done|].
  { replace buf with (buf + 512 * 0) by lia. eapply buffer_ok_sub; [done|lia..]. }
  destruct (disk_round_fails int13 drive bad s1 (lba + 127 * chunks)
    (if chunks =? sectors / 127 then u32 (sectors - u32 (MAX_SECTORS * (sectors / MAX_SECTORS))) else MAX_SECTORS))
    as (ah & m1 & E & Ha & Hsame); [done|lia| |done|].
  { destruct (Z.eqb_spec chunks (sectors / 127)) as [E|E]; [rewrite last_count by lia|unfold MAX_SECTORS];
      Z.to_euclidean_division_equations; lia. }
  destruct (earlyPanic_panics (A := unit) "diskRead16(): Failure reading" (set_ram m1 s1))
    as (s' & Ep & Hp); [by rewrite (proj1 Hr1)|].
  exists (set_ram m1 s1), s'. split; [|split; [|done]].
  - unfold diskRead16. change MAX_SECTORS with 127. cbv zeta. apply bind_Panicked.
    replace (Z.to_nat (sectors / 127 + 1)) with (Z.to_nat chunks + (Z.to_nat (sectors / 127 - chunks) + 1))%nat by lia.
    rewrite E1, Nat.add_1_r. cbn [disk_rounds]. rewrite Z.add_0_l, E, (proj2 (Z.eqb_neq _ _)) by done.
    cbn [negb]. by apply bind_Panicked.
  - destruct Hr1 as (R & H1 & F1). split; [by rewrite R|]. cbn [m_ram set_ram]. destruct Hbuf as [((? & ? & ?) & ?) Hsc].
    split; [intros i Hi; rewrite Hsame; [by apply H1|lia|apply Hsc; lia]|].
    intros a Ha' Ho Hs. by rewrite Hsame, F1.
Qed.

(** Drive 0 of the example fails from sector 200 on: its second chunk here. *)
Definition example_bad_int13 (image : Z -> Z -> Z) (drive packet : Z) (m : mem) : bool * Z * mem :=
  let '(_, lba, n, buf) := dap_request m in
  if lba + n <=? 200 then (false, 0, write_bytes m buf (sector_bytes image lba n)) else (true, 4, m).

Lemma diskRead16_failure_witness :
  exists s1 s', diskRead16 (example_bad_int13 example_image) 0 1048576 300 0 example_machine =
      Panicked "diskRead16(): Failure reading" s' /\
    sectors_read example_image 0 1048576 127 example_machine s1 /\ same_but_screen s1 s'.
Proof.
  apply (diskRead16_failure (example_bad_int13 example_image) example_image 0 200 example_machine 0 1048576 300).
  - intros m lba n buf E Hn Hlim Hf. apply Z.leb_le in Hlim.
    destruct (example_int13_reads example_image ltac:(intros; apply Z.mod_pos_bound; lia) m lba n buf E Hn Hf)
      as (ah & m' & H). exists ah, m'. unfold example_bad_int13. rewrite E, Hlim.
    unfold example_int13 in H. rewrite E in H. exact H.
  - intros m lba n buf E _ Hlt. exists 4, m. unfold example_bad_int13. rewrite E, (proj2 (Z.leb_gt _ _)) by lia. done.
  - split; [exact new_terminal_ok|]. split; [reflexivity|simpl; lia].
  - lia.
  - lia.
  - lia.
  - split; [unfold fits; lia|]. intros a Ha. unfold scratch. lia.
  - reflexivity.
  - intros i Hi. unfold mask_address. lia.
Defined.
