(* ===== verification/Arena.v ===== *)
(** Clients of the heap that only allocate, as the boot loader's are: the free
    memory is then one block at the end of the list, and allocations come from it
    in order.  The file also says what one program step leaves alone, for the
    proofs of the clients. *)

From S2P Require Import Prelude PhysMem Layout CString Terminal Heap Machine DiskRead.

(** ** The shape of the heap *)

(** Reserved blocks, whose data are [own] in order of address, then one free block
    with its data at [top], then the last header at [e]. *)
Definition arena (m : mem) (heap : Z) (own : list (Z * Z)) (top e : Z) : Prop :=
  exists bl, heap_ok m heap (bl ++ [Blk (e - top) false]) e /\
    Forall (fun b => b_reserved b = true) bl /\ own = owned heap bl.

Lemma span_app bl1 bl2 : span (bl1 ++ bl2) = span bl1 + span bl2.
Proof. induction bl1 as [|b bl1 IH]; cbn [span app]; lia. Qed.

Lemma owned_app p bl1 bl2 : owned p (bl1 ++ bl2) = owned p bl1 ++ owned (p + span bl1) bl2.
Proof.
  revert p. induction bl1 as [|b bl1 IH]; intros p; cbn [owned span app].
  - by rewrite Z.add_0_r.
  - rewrite IH, <- app_assoc. do 3 f_equal. lia.
Qed.

Lemma arena_owned heap bl top e :
  owned heap bl = owned heap (bl ++ [Blk (e - top) false]).
Proof. rewrite owned_app. cbn. by rewrite app_nil_r. Qed.

Lemma alloc_spec_arena p size bl fr :
  Forall (fun b => b_reserved b = true) bl -> 0 <= size -> size + 8 <= fr ->
  alloc_spec p size (bl ++ [Blk fr false]) =
    Fits (bl ++ [Blk size true; Blk (fr - size - 8) false]) (p + span bl + 8).
Proof.
  intros Hr Hs Hf. revert p. induction Hr as [|b bl Hb Hr IH]; intros p; cbn [alloc_spec app span].
  - cbn [b_reserved b_size orb]. rewrite (proj2 (Z.ltb_ge _ _)), (proj2 (Z.eqb_neq _ _)) by lia.
    rewrite (proj2 (Z.leb_le _ _)) by lia. f_equal; lia.
  - rewrite Hb. cbn [orb]. rewrite IH. f_equal; lia.
Qed.

Lemma arena_bounds m heap own top e :
  arena m heap own top e -> 0 < heap /\ heap + 8 <= top /\ top <= e /\ e + 8 <= 4294967296.
Proof.
  intros (bl & H & _ & _). pose proof (heap_ok_sizes _ _ _ _ H) as Hs.
  destruct H as (? & ? & He%heap_at_end). rewrite span_app in He. cbn [span b_size] in He.
  apply Forall_app in Hs as [Hs1 Hs2]. apply Forall_cons in Hs2 as [Hs2 _]. cbn in Hs2.
  assert (0 <= span bl) by (clear -Hs1; induction Hs1; cbn [span]; lia). lia.
Qed.

(** The header of the free block, just below [top], has the last header for its next one. *)
Lemma arena_free_header m heap own top e : arena m heap own top e -> get_next m (top - 8) = e.
Proof.
  intros (bl & (_ & _ & H) & _ & _). revert H. generalize heap.
  induction bl as [|b bl IH]; intros p H; cbn [app heap_at b_size] in H; [|by apply (IH (p + 8 + b_size b)), H].
  destruct H as (_ & Hn & _ & He & _). replace (top - 8) with p by lia. lia.
Qed.

(** Blocks handed out lie below [top], each followed by a header. *)
Lemma arena_block m heap own top e q s :
  arena m heap own top e -> (q, s) ∈ own -> heap + 8 <= q /\ 0 <= s /\ q + s + 8 <= top.
Proof.
  intros (bl & H & _ & ->) Hq. pose proof (heap_ok_sizes _ _ _ _ H) as Hs.
  apply Forall_app in Hs as [Hs _]. destruct (owned_bounds _ _ _ _ Hs Hq) as (? & ? & ?).
  destruct H as (_ & _ & He%heap_at_end). rewrite span_app in He. cbn [span b_size] in He. lia.
Qed.

Lemma arena_apart m heap own top e : arena m heap own top e -> pairwise_apart own.
Proof.
  intros (bl & H & _ & ->). apply owned_apart. apply heap_ok_sizes in H.
  by apply Forall_app in H as [? _].
Qed.

Lemma arena_alloc m heap own top e size :
  arena m heap own top e -> 0 <= size -> top + size + 8 <= e ->
  exists m', returns (fun fuel => kalloc fuel heap size) m top m' /\
    arena m' heap (own ++ [(top, size)]) (top + size + 8) e /\ alloc_frame top size m m'.
Proof.
  intros (bl & H & Hr & ->) Hs Hf. pose proof (kalloc_returns _ _ _ _ _ H Hs) as Hk.
  rewrite alloc_spec_arena in Hk by (done || lia).
  destruct (id H) as (_ & _ & He%heap_at_end). rewrite span_app in He. cbn [span b_size] in He.
  replace (heap + span bl + 8) with top in Hk by lia.
  destruct Hk as (m' & Hk & H' & Hfr & _). exists m'. split; [done|]. split; [|done].
  exists (bl ++ [Blk size true]). split; [|split].
  - rewrite <- app_assoc. cbn [app].
    by replace (e - (top + size + 8)) with (e - top - size - 8) by lia.
  - apply Forall_app. split; [done|]. by constructor.
  - rewrite owned_app. cbn [owned b_reserved b_size app]. do 3 f_equal. lia.
Qed.

Lemma arena_write m m' heap own top e q s :
  arena m heap own top e -> (q, s) ∈ own -> only_changes q s m m' -> arena m' heap own top e.
Proof.
  intros (bl & H & Hr & ->) Hq C. exists bl. split; [|done].
  eapply heap_ok_write; [done| |done]. by rewrite <- arena_owned.
Qed.

Lemma arena_outside m m' heap own top e :
  arena m heap own top e -> (forall a, heap <= a < e + 8 -> rd8 m' a = rd8 m a) ->
  arena m' heap own top e.
Proof.
  intros (bl & (H1 & H2 & H) & Hr & ->) Hsame. exists bl. split; [|done].
  split; [done|]. split; [done|]. eapply heap_at_frame; [|done]. done.
Qed.

Lemma arena_init ptr maxSize m :
  0 < ptr -> 16 <= maxSize -> ptr + maxSize <= 4294967296 ->
  let '(heap, heapEnd, m') := heapInitialize ptr maxSize m in
  heap = ptr /\ heapEnd = ptr + maxSize - 8 /\ arena m' heap [] (ptr + 8) heapEnd.
Proof.
  intros. pose proof (heapInitialize_spec ptr maxSize m) as Hi.
  destruct (heapInitialize ptr maxSize m) as [[heap he] m'].
  destruct Hi as (-> & -> & Hi & _); [done..|]. split; [done|]. split; [done|].
  exists []. split; [|done]. cbn [app].
  by replace (ptr + maxSize - 8 - (ptr + 8)) with (maxSize - 16) by lia.
Qed.

(** ** The machine of a client *)

(** The heap lies between the disk address packet and the bounce buffer. *)
Record world (s : machine) (own : list (Z * Z)) (top : Z) : Prop := {
  w_ok : machine_ok s;
  w_arena : arena (m_ram s) (m_heap s) own top (m_heapEnd s);
  w_low : 4112 <= m_heap s;
  w_high : m_heapEnd s + 8 <= 458752;
}.

Definition in_heap (s : machine) (a : Z) : Prop := m_heap s <= a < m_heapEnd s + 8.

(** [s'] is [s] after allocations and writes into the new blocks: the old blocks
    and memory outside the heap, [scratch] aside, are as they were. *)
Definition grows (s : machine) (own : list (Z * Z)) (s' : machine) (own' : list (Z * Z)) : Prop :=
  ram_only s s' /\ (exists new, own' = own ++ new) /\
  (forall q n a, (q, n) ∈ own -> q <= a < q + n -> rd8 (m_ram s') a = rd8 (m_ram s) a) /\
  (forall a, 0 <= a < 4294967296 -> ~ in_heap s a -> ~ scratch a ->
     rd8 (m_ram s') a = rd8 (m_ram s) a).

(** A step that writes only the [n] bytes at [q], and [scratch]. *)
Definition updates (q n : Z) (s s' : machine) : Prop :=
  ram_only s s' /\
  forall a, 0 <= a < 4294967296 -> ~ q <= a < q + n -> ~ scratch a ->
    rd8 (m_ram s') a = rd8 (m_ram s) a.

Lemma grows_refl s own : grows s own s own.
Proof. split; [apply ram_only_refl|]. split; [exists []; by rewrite app_nil_r|]. done. Qed.

Lemma ram_only_heap s s' : ram_only s s' -> m_heap s' = m_heap s /\ m_heapEnd s' = m_heapEnd s.
Proof. by intros ->. Qed.

Lemma grows_trans s1 own1 s2 own2 s3 own3 :
  grows s1 own1 s2 own2 -> grows s2 own2 s3 own3 -> grows s1 own1 s3 own3.
Proof.
  intros (R1 & [new1 ->] & B1 & O1) (R2 & [new2 ->] & B2 & O2).
  apply ram_only_heap in R1 as Hh. destruct Hh as [Hh1 Hh2].
  split; [by eapply ram_only_trans|]. split; [exists (new1 ++ new2); by rewrite app_assoc|]. split.
  - intros q n a Hq Ha. rewrite (B2 q n); [by apply (B1 q n)| |done]. apply elem_of_app. by left.
  - intros a Ha Hh Hs. rewrite O2; [by apply O1|done| |done]. unfold in_heap. by rewrite Hh1, Hh2.
Qed.

Lemma world_block s own top q n :
  world s own top -> (q, n) ∈ own ->
  fits q n /\ m_heap s + 8 <= q /\ 0 <= n /\ q + n + 8 <= top /\ top <= m_heapEnd s.
Proof.
  intros [_ Har Hlo Hhi] Hq. destruct (arena_block _ _ _ _ _ _ _ Har Hq) as (? & ? & ?).
  destruct (arena_bounds _ _ _ _ _ Har) as (? & ? & ? & ?). unfold fits. lia.
Qed.

Lemma not_scratch_heap s own top a : world s own top -> in_heap s a -> ~ scratch a.
Proof. intros [_ _ Hlo Hhi] Ha. unfold in_heap, scratch in *. lia. Qed.

Lemma world_apart s own top q n q' n' :
  world s own top -> (exists l1 l2, own = l1 ++ l2 /\ (q, n) ∈ l1 /\ (q', n') ∈ l2) ->
  q + n + 8 <= q' \/ q' + n' + 8 <= q.
Proof.
  intros [_ Har _ _] (l1 & l2 & -> & H1 & H2). apply arena_apart in Har.
  induction l1 as [|x l1 IH]; [by apply not_elem_of_nil in H1|].
  destruct Har as [Hx Hl]. apply elem_of_cons in H1 as [<-|H1]; [|by apply IH].
  specialize (Hx (q', n')). destruct Hx as [?|?]; [|by left|by right].
  apply elem_of_app. by right.
Qed.

(** A write into a block allocated since [s] keeps everything [s] relies on. *)
Lemma grows_update s own s1 own1 top1 s2 new q n q' n' :
  grows s own s1 own1 -> world s1 own1 top1 -> own1 = own ++ new -> (q, n) ∈ new ->
  updates q' n' s1 s2 -> q <= q' -> 0 <= n' -> q' + n' <= q + n ->
  grows s own s2 own1 /\ world s2 own1 top1.
Proof.
  intros Hg Hw Hown Hq [R U] Hlo Hn Hhi. destruct Hg as (R1 & N1 & B1 & O1).
  assert ((q, n) ∈ own1) as Hq1 by (rewrite Hown; apply elem_of_app; by right).
  destruct (world_block _ _ _ _ _ Hw Hq1) as ((? & ? & ?) & ? & ? & ? & ?).
  destruct (ram_only_heap _ _ R) as [Hh1 Hh2]. destruct (ram_only_heap _ _ R1) as [Hh3 Hh4].
  split; [split; [by eapply ram_only_trans|split; [done|split]]|].
  - intros p k a Hp Ha. rewrite <- (B1 p k a Hp Ha).
    assert (p + k + 8 <= q \/ q + n + 8 <= p) as Hap.
    { eapply world_apart; [done|]. by exists own, new. }
    assert ((p, k) ∈ own1) as Hp1 by (rewrite Hown; apply elem_of_app; by left).
    destruct (world_block _ _ _ _ _ Hw Hp1) as ((? & ? & ?) & ? & ? & ? & ?).
    apply U; [lia|lia|]. eapply not_scratch_heap; [done|]. unfold in_heap. lia.
  - intros a Ha Hh Hs. rewrite <- (O1 a Ha Hh Hs). apply U; [done| |done].
    unfold in_heap in Hh. lia.
  - split.
    + eapply ram_only_ok; [done|apply Hw].
    + rewrite Hh1, Hh2.
      set (m1 := m_ram s1). set (m2 := m_ram s2).
      pose proof (w_high _ _ _ Hw). pose proof (w_low _ _ _ Hw).
      assert (arena (write_bytes m1 q (read_bytes m2 q (Z.to_nat n))) (m_heap s1) own1 top1 (m_heapEnd s1))
        as Har.
      { eapply arena_write; [apply Hw|exact Hq1|].
        replace n with (Z.of_nat (List.length (read_bytes m2 q (Z.to_nat n)))) at 1
          by (rewrite length_read_bytes; lia).
        apply write_bytes_only_changes. rewrite length_read_bytes. lia. }
      eapply arena_outside; [exact Har|]. intros a Ha.
      destruct Hw as [_ Hw1 Hw2 Hw3].
      rewrite rd8_write_bytes by (rewrite length_read_bytes; lia).
      destruct (decide (q <= a < q + n)) as [Hin|Hout].
      * rewrite u32_small by lia. rewrite lookup_read_bytes by lia.
        replace (q + Z.of_nat (Z.to_nat (a - q))) with a by lia.
        symmetry. apply u8_small, rd8_bounds.
      * rewrite lookup_ge_None_2.
        -- apply U; [lia|lia|]. unfold scratch. lia.
        -- rewrite length_read_bytes.
           assert (in_range q n a = false) as Hr by (apply in_range_false; lia).
           apply Z.ltb_ge in Hr. lia.
    + rewrite Hh1. apply Hw.
    + rewrite Hh2. apply Hw.
Qed.

(** [new] on a heap with room. *)
Lemma new_bytes_spec s own top size :
  world s own top -> 0 <= size -> top + size + 8 <= m_heapEnd s ->
  exists s', returns (fun fuel => new_bytes fuel size) s top s' /\
    grows s own s' (own ++ [(top, size)]) /\ world s' (own ++ [(top, size)]) (top + size + 8) /\
    m_heapEnd s' = m_heapEnd s /\ top <> 0 /\
    ram_only s s' /\
    alloc_frame top size (m_ram s) (m_ram s').
Proof.
  intros Hw Hs Hf. destruct (arena_alloc _ _ _ _ _ size (w_arena _ _ _ Hw) Hs Hf)
    as (m' & [f0 Hr] & Har & Hfr).
  destruct (arena_bounds _ _ _ _ _ (w_arena _ _ _ Hw)) as (? & ? & ? & ?).
  exists (set_ram m' s). split.
  { exists f0. intros fuel Hfu. unfold new_bytes, on_ram, op_new. unfold kalloc in Hr.
    by rewrite (Hr fuel Hfu). }
  split; [|split; [|split; [done|split; [lia|split; [apply ram_only_set|]]]]].
  - split; [apply ram_only_set|]. split; [by exists [(top, size)]|]. split.
    + intros q n a Hq Ha. destruct (world_block _ _ _ _ _ Hw Hq) as ((? & ? & ?) & ? & ? & ? & ?).
      apply Hfr; lia.
    + intros a Ha Hh _. unfold in_heap in Hh. apply Hfr; lia.
  - destruct Hw. by split.
  - exact Hfr.
Qed.

Lemma grows_end s own s' own' : grows s own s' own' -> m_heapEnd s' = m_heapEnd s /\ m_heap s' = m_heap s.
Proof. intros (R & _). by apply ram_only_heap in R as [??]. Qed.

(** An address outside the heap and the scratch memory, or in a block of the program:
    allocations and writes to new blocks leave its byte alone. *)
Definition anchored (s : machine) (own : list (Z * Z)) (a : Z) : Prop :=
  (0 <= a < 4294967296 /\ ~ in_heap s a /\ ~ scratch a) \/ exists q n, (q, n) ∈ own /\ q <= a < q + n.

Lemma anchored_grows s own s' own' a :
  grows s own s' own' -> anchored s own a -> anchored s' own' a /\ rd8 (m_ram s') a = rd8 (m_ram s) a.
Proof.
  intros (R & [new ->] & B & O) [(Ha & Hh & Hs)|(q & n & Hq & Ha)].
  - split; [left|by apply O]. destruct (ram_only_heap _ _ R) as [E1 E2].
    unfold in_heap in *. by rewrite E1, E2.
  - split; [right|by apply (B q n)]. exists q, n. split; [apply elem_of_app; by left|done].
Qed.

(** Anchored addresses are off the free memory and the header before it. *)
Lemma anchored_off_free s own top a :
  world s own top -> anchored s own a -> a < top - 8 \/ m_heapEnd s + 8 <= a.
Proof.
  intros Hw. destruct (arena_bounds _ _ _ _ _ (w_arena _ _ _ Hw)) as (? & ? & ? & ?).
  intros [(_ & Hh & _)|(q & n & Hq & Ha)].
  - unfold in_heap in Hh. lia.
  - destruct (world_block _ _ _ _ _ Hw Hq) as (_ & ? & ? & ? & ?). lia.
Qed.

(** A block handed out later holds no anchored address. *)
Lemma anchored_apart s0 own0 s own top q n a :
  grows s0 own0 s own -> world s own top -> own = own0 ++ [(q, n)] -> anchored s0 own0 a ->
  ~ (q <= a < q + n).
Proof.
  intros Hg Hw -> Ha Hin. assert ((q, n) ∈ own0 ++ [(q, n)]) as Hq by (apply elem_of_app; right; left).
  destruct (world_block _ _ _ _ _ Hw Hq) as (_ & ? & ? & ? & ?).
  destruct (grows_end _ _ _ _ Hg) as [E1 E2]. destruct Ha as [(_ & Hh & _)|(q' & n' & Hq' & Ha)].
  - unfold in_heap in Hh. lia.
  - assert (q' + n' + 8 <= q \/ q + n + 8 <= q') as Hap; [|lia].
    eapply world_apart; [exact Hw|]. exists own0, [(q, n)]. split; [done|]. split; [done|left].
Qed.

(** The BIOS can be called now and while the heap only grows. *)
Definition mask_safe (s : machine) (own : list (Z * Z)) : Prop :=
  mask_even (m_ram s) /\ anchored s own mask_address.

Lemma mask_safe_grows s own s' own' : grows s own s' own' -> mask_safe s own -> mask_safe s' own'.
Proof.
  intros Hg [He Ha]. destruct (anchored_grows _ _ _ _ _ Hg Ha) as [Ha' E].
  split; [|done]. unfold mask_even. by rewrite E.
Qed.

(** ** Stepping through programs *)

Lemma bind_load {A B} (f : mem -> A) (k : A -> prog machine B) s :
  bind (load_ram f) k s = k (f (m_ram s)) s.
Proof. reflexivity. Qed.

Lemma bind_store {B} (f : mem -> mem) (k : unit -> prog machine B) s :
  bind (store_ram f) k s = k tt (set_ram (f (m_ram s)) s).
Proof. reflexivity. Qed.

Ltac run := repeat (rewrite bind_load || rewrite bind_store || rewrite bind_ret_l); cbv beta zeta.
Ltac run_call H := rewrite (bind_Done _ _ _ _ _ H); cbv beta zeta.

(** ** Updates of the machine's memory *)

Lemma updates_store s q n m' :
  only_changes q n (m_ram s) m' -> fits q n -> updates q n s (set_ram m' s).
Proof.
  intros H Hf. split; [apply ram_only_set|]. intros a Ha Ho _. cbn [m_ram set_ram].
  destruct (id Hf) as (? & ? & ?). eapply only_changes_out; done || lia.
Qed.

Lemma updates_read image lba buf n s s' :
  sectors_read image lba buf n s s' -> updates buf (512 * n) s s'.
Proof. intros (R & _ & F). split; [done|]. exact F. Qed.

Lemma updates_trans q n s1 s2 s3 : updates q n s1 s2 -> updates q n s2 s3 -> updates q n s1 s3.
Proof.
  intros [R1 U1] [R2 U2]. split; [by eapply ram_only_trans|].
  intros a Ha Ho Hs. by rewrite U2, U1.
Qed.

Lemma updates_put L f s p v :
  layout_ok L = true -> fits p (sizeof L) -> updates p (sizeof L) s (set_ram (put L f (m_ram s) p v) s).
Proof. intros. apply updates_store; [by apply put_only_changes|done]. Qed.

(** The blocks of [own] are as they were. *)
Lemma grows_block s own s' own' q n i :
  grows s own s' own' -> (q, n) ∈ own -> 0 <= i < n -> rd8 (m_ram s') (q + i) = rd8 (m_ram s) (q + i).
Proof. intros (_ & _ & B & _) Hq Hi. apply (B q n); [done|lia]. Qed.

Lemma grows_in s own s' own' x : grows s own s' own' -> x ∈ own -> x ∈ own'.
Proof. intros (_ & [new ->] & _) Hx. apply elem_of_app. by left. Qed.

Lemma grows_get L f s own s' own' q n :
  grows s own s' own' -> (q, n) ∈ own -> layout_ok L = true -> sizeof L <= n ->
  get L f (m_ram s') q = get L f (m_ram s) q.
Proof.
  intros Hg Hq Hok Hn. apply load_ext. intros i Hi. unfold fieldsize, offsetof in *.
  destruct (field_of L f) as [[o t]|] eqn:E; [|cbn in Hi; lia].
  apply field_of_bounds in E; [|done]. rewrite <- Z.add_assoc.
  apply (grows_block _ _ _ _ _ n _ Hg Hq). lia.
Qed.


(** A string outside the heap and the scratch memory: a literal of the program. *)
Definition literal_at (s : machine) (p : Z) (str : list Z) : Prop :=
  cstring_at (m_ram s) p str /\
  forall i, 0 <= i <= Z.of_nat (List.length str) ->
    0 <= p + i < 4294967296 /\ ~ in_heap s (p + i) /\ ~ scratch (p + i).

Lemma grows_literal s own s' own' p str :
  grows s own s' own' -> literal_at s p str -> literal_at s' p str.
Proof.
  intros Hg [Hc Ho]. destruct (grows_end _ _ _ _ Hg) as [He Hh].
  split; [|intros i Hi; unfold in_heap; rewrite He, Hh; by apply Ho].
  eapply cstring_at_ext; [|exact Hc]. intros i Hi. destruct (Ho i Hi) as (? & ? & ?).
  destruct Hg as (_ & _ & _ & O). by apply O.
Qed.

(** A block the heap hands out can take sectors. *)
Lemma block_buffer s own top q n o k :
  world s own top -> (q, n) ∈ own -> 0 <= o -> 0 <= k -> o + 512 * k <= n -> buffer_ok (q + o) k.
Proof.
  intros Hw Hq Ho Hk Hle. destruct (world_block _ _ _ _ _ Hw Hq) as ((? & ? & ?) & ? & ? & ? & ?).
  destruct (id Hw) as [_ _ ? ?].
  split; [unfold fits; lia|]. intros a Ha. eapply not_scratch_heap; [done|]. unfold in_heap. lia.
Qed.

(** Three assignments to different fields of a structure. *)
Lemma put3_spec (m : mem) L f1 f2 f3 p v1 v2 v3 :
  layout_ok L = true -> f1 <> f2 -> f1 <> f3 -> f2 <> f3 ->
  let m' := put L f3 (put L f2 (put L f1 m p v1) p v2) p v3 in
  get L f1 m' p = v1 mod 256 ^ fieldsize L f1 /\ get L f2 m' p = v2 mod 256 ^ fieldsize L f2 /\
  get L f3 m' p = v3 mod 256 ^ fieldsize L f3 /\ only_changes p (sizeof L) m m'.
Proof.
  intros Hok H12 H13 H23 m'. unfold m'.
  repeat split.
  - by rewrite get_put_ne, get_put_ne, get_put_eq by congruence.
  - by rewrite get_put_ne, get_put_eq by congruence.
  - by rewrite get_put_eq by congruence.
  - repeat (eapply only_changes_trans; [|by apply put_only_changes]). apply only_changes_refl.
Qed.

