(* ===== verification/Fat32.v ===== *)
(** The FAT32 driver: [lib/fs/fat32.cpp] and [include/fs/fat32.hpp], over the block
    device interface.  Its structures are in the heap; the object itself is a
    record. *)

From S2P Require Import Prelude PhysMem Layout CString Xtoa Heap Machine DiskRead Arena.

Local Open Scope string_scope.
Local Open Scope list_scope.
Local Open Scope Z_scope.

(** ** On-disk structures *)

Definition fat32_BPD : layout := Layout true [
  ("bytesPerSector", U16); ("sectorsPerCluster", U8); ("reservedSectors", U16);
  ("numberOfFATs", U8); ("rootDirectoryEntries", U16); ("totalSectors", U16);
  ("mediaDescriptor", U8); ("sectorsPerFAT_fat1216", U16); ("sectorsPerTrack", U16);
  ("numberOfHeads", U16); ("hiddenSectors", U32); ("largeSectorCount", U32);
  ("sectorsPerFAT", U32); ("flags", U16); ("FATVersion", U16); ("clusterNumberRoot", U32);
  ("sectorNumberFSInfo", U16); ("sectorNumberBackupBoot", U16); ("reserved", Arr 12 U8);
  ("driveNumber", U8); ("NTFlags", U8); ("signature", U8); ("volumeIDSerial", U32);
  ("volumeLabelString", Arr 11 U8); ("systemIdentifierStr", Arr 8 U8)].

Definition VBR : layout := Layout true [
  ("jump", Arr 3 U8); ("OEM", Arr 8 U8); ("bpd", sub fat32_BPD); ("vbrCode", Arr 420 U8);
  ("bootableSignature", U16)].

Definition FAT32FSInfo : layout := Layout false [
  ("leadSignature", U32); ("reserved", Arr 480 U8); ("anotherSignature", U32);
  ("lastFreeClusterCount", U32); ("hintAvailableCluster", U32); ("reserved2", Arr 12 U8);
  ("trailSignature", U16)].

Definition FSINFO_LEAD_SIGNATURE : Z := 1096897106.   (* 0x41615252 *)
Definition FSINFO_OTHER_SIGNATURE : Z := 1631679090.  (* 0x61417272 *)
Definition FSINFO_TRAIL_SIGNATURE : Z := 2857697280.  (* 0xAA550000 *)

Definition attr_NORMAL : Z := 0.
Definition attr_READ_ONLY : Z := 1.
Definition attr_HIDDEN : Z := 2.
Definition attr_SYSTEM : Z := 4.
Definition attr_SUBDIRECTORY : Z := 16.
Definition attr_ARCHIVE : Z := 32.
Definition attr_LFN : Z := 15.

(** Packed bit fields, allocated from the low bit up, of a 16-bit word. *)
Definition fat32_Time_hour (w : Z) : Z := Z.land w 31.
Definition fat32_Time_minutes (w : Z) : Z := Z.land (Z.shiftr w 5) 63.
Definition fat32_Time_doubleSeconds (w : Z) : Z := Z.land (Z.shiftr w 11) 31.
Definition fat32_Date_year (w : Z) : Z := Z.land w 127.
Definition fat32_Date_month (w : Z) : Z := Z.land (Z.shiftr w 7) 15.
Definition fat32_Date_day (w : Z) : Z := Z.land (Z.shiftr w 11) 31.

Definition fat32_dirEntry : layout := Layout true [
  ("fileName", Arr 8 U8); ("fileExtension", Arr 3 U8); ("attributes", U8);
  ("winNTReserved", U8); ("fineCreationTime", U8); ("creationTime", U16);
  ("creationDate", U16); ("lastAccessed", U16); ("highClusterNumber", U16);
  ("modificationTime", U16); ("modificationDate", U16); ("lowClusterNumber", U16);
  ("size", U32)].

(** ** Structures of the driver *)

Definition fat32_internalDirList : layout := Layout false [
  ("returnCode", U32); ("size", U32); ("list", U32); ("attr", U32)].
Definition fat32_fileResult : layout := Layout false [
  ("returnCode", U32); ("size", U32); ("ptr", U32)].
Definition readDirResult : layout := Layout false [
  ("returnCode", U32); ("numEntries", U32); ("entries", U32)].

Definition clusterMask : Z := 268435455. (* 0xFFFFFFF *)
Definition FAT_NAME_SIZE : Z := 13.
Definition sectorSize : Z := 512.

(** The object's fields; [_diskReadFunc] is the block device. *)
Record fat32 : Type := Fat32 { f_FATptr : Z; f_vbr : Z; f_partitionLBA : Z }.

Definition isClusterEnd (clusterNum : Z) : bool :=
  let c := Z.land clusterNum 268435455 in
  (268435448 <=? c) && (c <=? 268435455).

(** The size [new T[count]] asks for, [elt] being [sizeof(T)]. *)
Definition array_new (count elt : Z) : Z :=
  if count <=? 2147483647 / elt then count * elt else 4294967295.

Section Driver.
Context {D : Disk}.

(** Addresses the linker and the compiler choose: the static array [lfn] of
    [nameFromEntry], and the local array [str] ("LFN") of [getInternalDirectoryList];
    and what the other local array [str] of that function holds before it is written. *)
Variables (lfn lfn_local : Z) (str0 : list Z).

(** [_vbr->bpd.f]. *)
Definition bpd (fs : fat32) (f : string) : prog machine Z :=
  load_ram (fun m => get fat32_BPD f m (f_vbr fs + offsetof VBR "bpd")).

Definition init (fuel : nat) (fs : fat32) (partitionLBA : Z) : prog machine (Z * fat32) :=
  let* vbr := new_bytes fuel (sizeof VBR) in
  let fs := Fat32 (f_FATptr fs) vbr (f_partitionLBA fs) in
  if vbr =? 0 then ret (99, fs) else
  let* r := bd_read partitionLBA vbr 1 in
  if r =? 0 then ret (1, fs) else
  let* FATsectors := bpd fs "sectorsPerFAT" in
  let* fat := new_bytes fuel (array_new (u32 (FATsectors * sectorSize) / 4) 4) in
  let fs := Fat32 fat vbr (f_partitionLBA fs) in
  if fat =? 0 then ret (99, fs) else
  let* reserved := bpd fs "reservedSectors" in
  let* r := bd_read (u32 (partitionLBA + reserved)) fat FATsectors in
  if r =? 0 then ret (2, fs) else
  ret (0, Fat32 fat vbr partitionLBA).

(** [reservedSectors + numberOfFATs * sectorsPerFAT]. *)
Definition firstDataSector (fs : fat32) : prog machine Z :=
  let* reserved := bpd fs "reservedSectors" in
  let* nfats := bpd fs "numberOfFATs" in
  let* spf := bpd fs "sectorsPerFAT" in
  ret (u32 (reserved + u32 (nfats * spf))).

(** [(clusterNum - 2) * sectorsPerCluster + firstDataSector + _partitionLBA]. *)
Definition clusterLBA (fs : fat32) (clusterNum firstData : Z) : prog machine Z :=
  let* spc := bpd fs "sectorsPerCluster" in
  ret (u32 (u32 (clusterNum - 2) * spc + firstData + f_partitionLBA fs)).

(** [_FATptr[clusterNum] & clusterMask]. *)
Definition nextCluster (fs : fat32) (clusterNum : Z) : prog machine Z :=
  let* e := load_ram (fun m => ld32 m (f_FATptr fs + 4 * clusterNum)) in
  ret (Z.land e clusterMask).

Fixpoint count_entries (fuel : nat) (dirPtr numEntries : Z) : prog machine Z :=
  match fuel with
  | O => fun _ => OutOfFuel
  | S fuel' =>
      let* c := load_ram (fun m => rd8 m (dirPtr + 32 * numEntries)) in
      if negb (c =? 0) then count_entries fuel' dirPtr (u32 (numEntries + 1)) else ret numEntries
  end.

Definition readDir (fuel : nat) (fs : fat32) (clusterNumber : Z) : prog machine Z :=
  let* cluster := nextCluster fs clusterNumber in
  if negb (Z.land cluster 268435440 =? 268435440) && (Z.land cluster 15 <? 8) then
    earlyPanic "readDir(): No support for multiclusters right now"
  else
  let* spc := bpd fs "sectorsPerCluster" in
  let* bps := bpd fs "bytesPerSector" in
  let* dirPtr := new_bytes fuel (array_new (spc * bps) 1) in
  let* firstData := firstDataSector fs in
  let* currentLBA := clusterLBA fs clusterNumber firstData in
  let* spc := bpd fs "sectorsPerCluster" in
  let* r := bd_read currentLBA dirPtr spc in
  if r =? 0 then earlyPanic "readDir(): Disk read failure!" else
  let* numEntries := count_entries fuel dirPtr 0 in
  let* returnStruct := new_bytes fuel (sizeof readDirResult) in
  do* store_ram (fun m => put readDirResult "returnCode" m returnStruct 0) in
  do* store_ram (fun m => put readDirResult "numEntries" m returnStruct numEntries) in
  do* store_ram (fun m => put readDirResult "entries" m returnStruct dirPtr) in
  ret returnStruct.

(** The loop over the eight characters of the name: stops at a space. *)
Fixpoint name_chars (k : nat) (i ptr fileName : Z) : prog machine Z :=
  match k with
  | O => ret i
  | S k' =>
      let* c := load_ram (fun m => rd8 m (ptr + i)) in
      if c =? 32 then ret i else
      do* store_ram (fun m => wr8 m (fileName + i) c) in
      name_chars k' (i + 1) ptr fileName
  end.

(** The loop over the three characters of the extension. *)
Fixpoint ext_chars (k : nat) (j i ptr fileName : Z) : prog machine Z :=
  match k with
  | O => ret i
  | S k' =>
      let* c := load_ram (fun m => rd8 m (ptr + offsetof fat32_dirEntry "fileExtension" + j)) in
      do* store_ram (fun m => wr8 m (fileName + i) c) in
      ext_chars k' (j + 1) (i + 1) ptr fileName
  end.

Definition nameFromEntry (fuel : nat) (ptr : Z) : prog machine Z :=
  let* attributes := load_ram (fun m => get fat32_dirEntry "attributes" m ptr) in
  if attributes =? attr_LFN then ret lfn else
  let* fileName := new_bytes fuel FAT_NAME_SIZE in
  let* i := name_chars 8 0 ptr fileName in
  let* attributes := load_ram (fun m => get fat32_dirEntry "attributes" m ptr) in
  let* i :=
    (if negb (attributes =? attr_SUBDIRECTORY) then
       do* store_ram (fun m => wr8 m (fileName + i) 46) in
       ext_chars 3 0 (i + 1) ptr fileName
     else ret i) in
  do* store_ram (fun m => wr8 m (fileName + i) 0) in
  ret fileName.

(** The loop of [getRootFile] over a cluster chain: one sector per cluster. *)
Fixpoint read_chain (fuel : nat) (fs : fat32) (clusterNum firstData buffer j : Z) :
    prog machine unit :=
  match fuel with
  | O => fun _ => OutOfFuel
  | S fuel' =>
      if isClusterEnd clusterNum then ret tt else
      let* currLBA := clusterLBA fs clusterNum firstData in
      let* r := bd_read currLBA (u32 (buffer + u32 (j * sectorSize))) 1 in
      if r =? 0 then earlyPanic "getRootFile(): Failure on read!" else
      let* next := nextCluster fs clusterNum in
      read_chain fuel' fs next firstData buffer (u32 (j + 1))
  end.

(** A directory entry was found: read its file. *)
Definition read_file (fuel : nat) (fs : fat32) (ptr returnStruct : Z) : prog machine Z :=
  let* high := load_ram (fun m => get fat32_dirEntry "highClusterNumber" m ptr) in
  let* low := load_ram (fun m => get fat32_dirEntry "lowClusterNumber" m ptr) in
  let clusterNum := u32 (Z.lor (Z.shiftl high 16) low) in
  let* firstData := firstDataSector fs in
  let* size := load_ram (fun m => get fat32_dirEntry "size" m ptr) in
  let numSectors := u32 (size / sectorSize + 1) in
  let* buffer := new_bytes fuel (array_new (u32 (numSectors * sectorSize)) 1) in
  do* read_chain fuel fs clusterNum firstData buffer 0 in
  do* store_ram (fun m => put fat32_fileResult "ptr" m returnStruct buffer) in
  do* store_ram (fun m => put fat32_fileResult "returnCode" m returnStruct 0) in
  let* size := load_ram (fun m => get fat32_dirEntry "size" m ptr) in
  do* store_ram (fun m => put fat32_fileResult "size" m returnStruct size) in
  ret returnStruct.

(** The loop of [getRootFile] over the directory's entries. *)
Fixpoint search_entries (fuel fuel0 : nat) (fs : fat32) (directory returnStruct file i : Z) :
    prog machine Z :=
  match fuel with
  | O => fun _ => OutOfFuel
  | S fuel' =>
      let* numEntries := load_ram (fun m => get readDirResult "numEntries" m directory) in
      if i <? numEntries then
        let* entries := load_ram (fun m => get readDirResult "entries" m directory) in
        let ptr := u32 (entries + 32 * i) in
        let* testFilename := nameFromEntry fuel0 ptr in
        let* cmp := run_opt (fun m => strcmp fuel0 m testFilename file) in
        if cmp =? 0 then read_file fuel0 fs ptr returnStruct
        else search_entries fuel' fuel0 fs directory returnStruct file (i + 1)
      else
        do* store_ram (fun m => put fat32_fileResult "returnCode" m returnStruct 1) in
        do* store_ram (fun m => put fat32_fileResult "ptr" m returnStruct 0) in
        do* store_ram (fun m => put fat32_fileResult "size" m returnStruct 0) in
        ret returnStruct
  end.

Definition getRootFile (fuel : nat) (fs : fat32) (file : Z) : prog machine Z :=
  let* clusterNumberRoot := bpd fs "clusterNumberRoot" in
  let* directory := readDir fuel fs clusterNumberRoot in
  let* returnStruct := new_bytes fuel (sizeof fat32_fileResult) in
  let* code := load_ram (fun m => get readDirResult "returnCode" m directory) in
  if negb (code =? 0) then earlyPanic "getRootFile(): Failure reading directory!" else
  search_entries fuel fuel fs directory returnStruct file 0.

(** *** [getInternalDirectoryList] *)

(** The same two loops on the local array [str]. *)
Fixpoint local_chars (k : nat) (j : Z) (m : mem) (ptr : Z) (str : list Z) :
    buf_result (Z * list Z) :=
  match k with
  | O => Val (j, str)
  | S k' =>
      let c := rd8 m (ptr + j) in
      if c =? 32 then Val (j, str) else
      let? str := poke str j c in
      local_chars k' (j + 1) m ptr str
  end.

Fixpoint local_ext (k : nat) (i j : Z) (m : mem) (ptr : Z) (str : list Z) :
    buf_result (Z * list Z) :=
  match k with
  | O => Val (j, str)
  | S k' =>
      let? str := poke str j (rd8 m (ptr + offsetof fat32_dirEntry "fileExtension" + i)) in
      local_ext k' (i + 1) (j + 1) m ptr str
  end.

Definition local_name (m : mem) (ptr : Z) : buf_result (list Z) :=
  let? r := local_chars 8 0 m ptr str0 in
  let? r :=
    (if negb (get fat32_dirEntry "attributes" m ptr =? attr_SUBDIRECTORY) then
       let? str := poke (snd r) (fst r) 46 in
       local_ext 3 0 (fst r + 1) m ptr str
     else Val r) in
  poke (snd r) (fst r) 0.

Definition run_buf {A} (f : mem -> buf_result A) : prog machine A := fun s =>
  match f (m_ram s) with Val a => Done a s | Fault => Undefined | NoFuel => OutOfFuel end.

Fixpoint list_names (fuel fuel0 : nat) (dirStruct returnStruct filenameList i : Z) :
    prog machine unit :=
  match fuel with
  | O => fun _ => OutOfFuel
  | S fuel' =>
      let* numEntries := load_ram (fun m => get readDirResult "numEntries" m dirStruct) in
      if negb (i <? numEntries) then ret tt else
      let* entries := load_ram (fun m => get readDirResult "entries" m dirStruct) in
      let ptr := u32 (entries + 32 * i) in
      let* attributes := load_ram (fun m => get fat32_dirEntry "attributes" m ptr) in
      do* (if attributes =? attr_LFN then
             do* store_ram (fun m => st32 m (filenameList + 4 * i) lfn_local) in
             let* attr := load_ram (fun m => get fat32_internalDirList "attr" m returnStruct) in
             store_ram (fun m => st32 m (attr + 4 * i) attr_LFN)
           else
             let* str := run_buf (fun m => local_name m ptr) in
             let name := c_str str in
             let* p := new_bytes fuel0 (array_new (Z.of_nat (List.length name) + 1) 1) in
             do* store_ram (fun m => st32 m (filenameList + 4 * i) p) in
             do* store_ram (fun m => write_bytes m p (name ++ [0])) in
             let* attr := load_ram (fun m => get fat32_internalDirList "attr" m returnStruct) in
             store_ram (fun m =>
               st32 m (attr + 4 * i) (get fat32_dirEntry "attributes" m ptr))) in
      list_names fuel' fuel0 dirStruct returnStruct filenameList (i + 1)
  end.

(** The argument [directory] is not used: the list is that of the root directory. *)
Definition getInternalDirectoryList (fuel : nat) (fs : fat32) (directory : Z) : prog machine Z :=
  let* clusterNumberRoot := bpd fs "clusterNumberRoot" in
  let* dirStruct := readDir fuel fs clusterNumberRoot in
  let* returnStruct := new_bytes fuel (sizeof fat32_internalDirList) in
  let* numEntries := load_ram (fun m => get readDirResult "numEntries" m dirStruct) in
  let* filenameList := new_bytes fuel (array_new numEntries 4) in
  let* numEntries := load_ram (fun m => get readDirResult "numEntries" m dirStruct) in
  let* attr := new_bytes fuel (array_new numEntries 4) in
  do* store_ram (fun m => put fat32_internalDirList "attr" m returnStruct attr) in
  do* list_names fuel fuel dirStruct returnStruct filenameList 0 in
  do* store_ram (fun m => put fat32_internalDirList "list" m returnStruct filenameList) in
  let* numEntries := load_ram (fun m => get readDirResult "numEntries" m dirStruct) in
  do* store_ram (fun m => put fat32_internalDirList "size" m returnStruct numEntries) in
  do* store_ram (fun m => put fat32_internalDirList "returnCode" m returnStruct 0) in
  ret returnStruct.
End Driver.
