(* ===== verification/FatVolume.v ===== *)
(** What a FAT32 volume contains, read off the disk image: the specification the
    driver of [Fat32] is proved against.  [image lba i] is byte [i] of sector
    [lba], [part] the first sector of the partition. *)

From S2P Require Import Prelude PhysMem Layout CString Xtoa Fat32.

Local Open Scope string_scope.
Local Open Scope list_scope.
Local Open Scope Z_scope.

(** The part of a name before its padding. *)
Fixpoint upto_space (l : list Z) : list Z :=
  match l with
  | [] => []
  | c :: l' => if c =? 32 then [] else c :: upto_space l'
  end.

Section Volume.
Context (image : Z -> Z -> Z) (part : Z).

(** Byte [off] after the start of sector [lba], and little-endian integers. *)
Definition disk_byte (lba off : Z) : Z := image (lba + off / 512) (off mod 512).

Fixpoint disk_le (n : nat) (lba off : Z) : Z :=
  match n with
  | O => 0
  | S n' => disk_byte lba off + 256 * disk_le n' lba (off + 1)
  end.

Definition vbr_field (f : string) : Z :=
  disk_le (Z.to_nat (fieldsize fat32_BPD f)) part (11 + offsetof fat32_BPD f).

Definition v_spc : Z := vbr_field "sectorsPerCluster".
Definition v_reserved : Z := vbr_field "reservedSectors".
Definition v_nfats : Z := vbr_field "numberOfFATs".
Definition v_spf : Z := vbr_field "sectorsPerFAT".
Definition v_root : Z := vbr_field "clusterNumberRoot".
Definition v_first_data : Z := v_reserved + v_nfats * v_spf.

(** The first sector of a cluster, and its entry in the first FAT. *)
Definition v_cluster (c : Z) : Z := part + v_first_data + (c - 2) * v_spc.
Definition v_fat (c : Z) : Z := Z.land (disk_le 4 (part + v_reserved) (4 * c)) clusterMask.

(** The clusters of a file from cluster [c] on; each has its entry inside the FAT
    and its sectors inside the 32-bit range. *)
Inductive chain : Z -> list Z -> Prop :=
  | chain_end c : isClusterEnd c = true -> chain c []
  | chain_next c l :
      isClusterEnd c = false -> 0 <= c < 128 * v_spf -> 0 <= v_cluster c < 4294967294 ->
      chain (v_fat c) l -> chain c (c :: l).

(** The root directory's entries, in its first cluster. *)
Definition de_byte (i k : Z) : Z := disk_byte (v_cluster v_root) (32 * i + k).
Definition de_field (i : Z) (f : string) : Z :=
  disk_le (Z.to_nat (fieldsize fat32_dirEntry f)) (v_cluster v_root)
    (32 * i + offsetof fat32_dirEntry f).

Definition de_cluster (i : Z) : Z :=
  de_field i "highClusterNumber" * 65536 + de_field i "lowClusterNumber".

(** The bytes of an entry's name, with a dot and the extension unless the entry is a
    plain subdirectory. *)
Definition entry_chars (i : Z) : list Z :=
  upto_space (map (de_byte i) (seqZ 0 8)) ++
  (if de_field i "attributes" =? attr_SUBDIRECTORY then []
   else 46 :: map (de_byte i) (seqZ 8 3)).

Definition entry_name (i : Z) : list Z :=
  if de_field i "attributes" =? attr_LFN then bytes_of_string "LFN" else c_str (entry_chars i).

(** The first of the [k] entries from [i] on that has this name. *)
Fixpoint find_entry (k : nat) (i : Z) (name : list Z) : option Z :=
  match k with
  | O => None
  | S k' => if decide (entry_name i = name) then Some i else find_entry k' (i + 1) name
  end.

(** A volume the driver can read: 512-byte sectors, the structures inside the 32-bit
    range, a root directory of one cluster, with [n] entries and the null byte that
    ends them. *)
Record volume_ok (n : Z) : Prop := {
  vo_part : 0 <= part < 4294967294;
  vo_bps : vbr_field "bytesPerSector" = 512;
  vo_spc : 0 < v_spc;
  vo_spf : 0 < v_spf < 4194304;
  vo_data : part + v_first_data < 4294967294;
  vo_fat : v_reserved + v_spf <= v_first_data;
  vo_root : 0 <= v_root < 128 * v_spf;
  vo_root_end : (Z.land (v_fat v_root) 268435440 =? 268435440) ||
                (8 <=? Z.land (v_fat v_root) 15) = true;
  vo_root_lba : 0 <= v_cluster v_root /\ v_cluster v_root + v_spc < 4294967295;
  vo_entries : 0 <= n < 16 * v_spc;
  vo_used i : 0 <= i < n -> de_byte i 0 <> 0;
  vo_last : de_byte n 0 = 0;
}.

(** Memory that holds sectors holds the integers in them. *)
Lemma load_disk n m buf len lba off :
  (forall i, 0 <= i < len -> rd8 m (buf + i) = disk_byte lba i) ->
  0 <= off -> off + Z.of_nat n <= len -> load n m (buf + off) = disk_le n lba off.
Proof.
  intros H. revert off. induction n as [|n IH]; intros off Ho Hl; cbn [load disk_le]; [done|].
  rewrite H by lia. f_equal. f_equal. rewrite <- IH by lia. f_equal. lia.
Qed.

Lemma disk_byte_add lba k i :
  disk_byte lba (512 * k + i) = disk_byte (lba + k) i.
Proof.
  unfold disk_byte. f_equal; Z.to_euclidean_division_equations; lia.
Qed.

Lemma find_entry_Some k i name j :
  find_entry k i name = Some j -> i <= j < i + Z.of_nat k /\ entry_name j = name.
Proof.
  revert i. induction k as [|k IH]; intros i; cbn [find_entry]; [done|].
  destruct (decide (entry_name i = name)).
  - intros [= <-]. by split; [lia|].
  - intros H. apply IH in H as [??]. by split; [lia|].
Qed.

Lemma isClusterEnd_range c : 0 <= c < 268435456 ->
  isClusterEnd c = (268435448 <=? c).
Proof.
  intros Hc. unfold isClusterEnd. change 268435455 with (Z.ones 28).
  rewrite Z.land_ones, Z.mod_small by (change (2 ^ 28) with 268435456; lia).
  change (Z.ones 28) with 268435455. rewrite (proj2 (Z.leb_le c 268435455)) by lia.
  apply andb_true_r.
Qed.

(** The bytes of a file of [size] bytes in the clusters [l]. *)
Definition cluster_bytes (c : Z) : list Z :=
  map (disk_byte (v_cluster c)) (seqZ 0 (512 * v_spc)).
Definition file_bytes (l : list Z) (size : Z) : list Z :=
  take (Z.to_nat size) (flat_map cluster_bytes l).
End Volume.
