(* ===== verification/Fat32Proofs.v ===== *)
(** The FAT32 driver finds and reads files: [Fat32] against [FatVolume], for any
    block device. *)

From S2P Require Import Prelude PhysMem Layout CString Xtoa Terminal Heap Machine DiskRead Arena Fat32 FatVolume.

Local Open Scope string_scope.
Local Open Scope list_scope.
Local Open Scope Z_scope.

Lemma array_new_small count elt : 0 < elt -> 0 <= count -> count * elt <= 2147483647 ->
  array_new count elt = count * elt.
Proof.
  intros He Hc Hl. unfold array_new. rewrite (proj2 (Z.leb_le _ _)); [done|].
  apply Z.div_le_lower_bound; lia.
Qed.

(** ** A buffer filled from the disk *)

(** The bytes the device watches are fine in memory; those of [len] bytes of sectors read
    to [buf] are. *)
Definition watch_fine {D : Disk} {BD : BlockDevice D} (m : mem) : Prop :=
  forall a, bd_watch a -> bd_fine (rd8 m a).
Definition reads_fine {D : Disk} {BD : BlockDevice D} (lba buf len : Z) : Prop :=
  forall a, bd_watch a -> buf <= a < buf + len -> bd_fine (disk_byte bd_image lba (a - buf)).

Lemma watch_fine_read {D : Disk} {BD : BlockDevice D} lba buf k s s' :
  sectors_read bd_image lba buf k s s' -> watch_fine (m_ram s) -> reads_fine lba buf (512 * k) ->
  watch_fine (m_ram s').
Proof.
  intros (_ & H & F) Hw Hr a Ha. destruct (bd_watch_range a Ha) as [Hra Hsc].
  destruct (decide (buf <= a < buf + 512 * k)) as [Hin|Hout].
  - replace a with (buf + (a - buf)) by lia. rewrite H by lia. by apply Hr.
  - rewrite F by done. by apply Hw.
Qed.

(** The law of the device, for a buffer in a block of the heap. *)
Lemma read_block {D : Disk} {BD : BlockDevice D} s own top q n lba o k :
  world s own top -> bd_ready s -> (q, n) ∈ own -> 0 <= o -> 0 <= k -> o + 512 * k <= n ->
  0 <= lba -> lba + k < 4294967296 -> watch_fine (m_ram s) -> reads_fine lba (q + o) (512 * k) ->
  exists r s', bd_read lba (q + o) k s = Done r s' /\ r <> 0 /\ sectors_read bd_image lba (q + o) k s s' /\
    watch_fine (m_ram s').
Proof.
  intros Hw Hready Hin Ho Hk Hle Hl Hlk Hf Hr.
  destruct (bd_spec lba (q + o) k s) as (r & s' & E & Hr0 & Hsec);
    [apply Hw|done|done|done|done|by eapply block_buffer|exact Hf| |].
  { intros i Hi Ha. specialize (Hr _ Ha ltac:(lia)). unfold disk_byte in Hr.
    by replace (q + o + i - (q + o)) with i in Hr by lia. }
  exists r, s'. split; [done|]. split; [done|]. split; [done|]. by eapply watch_fine_read.
Qed.

(** A new block of [k] sectors at [top], then [k] sectors read into it; what the heap
    looked like before stays. *)
Lemma new_sectors_spec {D : Disk} {BD : BlockDevice D} s own top lba k :
  world s own top -> bd_ready s -> 0 <= lba -> lba + k < 4294967296 -> 0 < k -> top + 512 * k + 8 <= m_heapEnd s ->
  watch_fine (m_ram s) -> reads_fine lba top (512 * k) ->
  (forall a, bd_watch a -> ~ (top - 8 <= a < top) /\ ~ (top + 512 * k <= a < top + 512 * k + 8)) ->
  exists s1 s2 r, returns (fun fuel => new_bytes fuel (512 * k)) s top s1 /\ bd_read lba top k s1 = Done r s2 /\
    r <> 0 /\ top <> 0 /\
    grows s own s1 (own ++ [(top, 512 * k)]) /\ world s1 (own ++ [(top, 512 * k)]) (top + 512 * k + 8) /\
    grows s own s2 (own ++ [(top, 512 * k)]) /\ world s2 (own ++ [(top, 512 * k)]) (top + 512 * k + 8) /\
    (forall i, 0 <= i < 512 * k -> rd8 (m_ram s2) (top + i) = disk_byte bd_image lba i) /\
    watch_fine (m_ram s2).
Proof.
  intros Hw Hready Hl Hlk Hk Hroom Hf Hrf Hhdr.
  destruct (new_bytes_spec s own top (512 * k) Hw) as (s1 & Hr1 & Hg1 & Hw1 & _ & Htop & _ & Hfr); [lia|lia|].
  set (own1 := own ++ [(top, 512 * k)]) in *.
  assert ((top, 512 * k) ∈ own1) as Hin by (apply elem_of_app; right; left).
  assert (watch_fine (m_ram s1)) as Hf1.
  { intros a Ha. destruct (bd_watch_range a Ha) as [Hra _]. specialize (Hhdr a Ha).
    rewrite Hfr by lia. by apply Hf. }
  pose proof (read_block s1 own1 _ top (512 * k) lba 0 k Hw1 (bd_ready_ram _ _ (proj1 Hg1) Hready) Hin) as Hrb.
  rewrite Z.add_0_r in Hrb. destruct Hrb as (r & s2 & Hrd & Hr & Hsec & Hf2); [lia..|done|done|].
  destruct (grows_update s own s1 own1 _ s2 [(top, 512 * k)] top (512 * k) top (512 * k) Hg1 Hw1)
    as [Hg2 Hw2]; [done|left|by eapply updates_read|lia..|].
  exists s1, s2, r. destruct Hsec as (_ & Hsec & _). repeat (split; [done|]). exact Hf2.
Qed.

Section Proofs.
Context {D : Disk} {BD : BlockDevice D}.
Context (lfn part n : Z).
Abbreviation image := bd_image.
Hypothesis Hvol : volume_ok image part n.

(** ** The mounted volume *)

Record mounted (fs : fat32) (s : machine) (own : list (Z * Z)) : Prop := {
  mo_ready : bd_ready s;
  mo_fine : watch_fine (m_ram s);
  mo_watch a : bd_watch a -> anchored s own a;
  mo_part : f_partitionLBA fs = part;
  mo_vbr_own : (f_vbr fs, 512) ∈ own;
  mo_vbr i : 0 <= i < 512 -> rd8 (m_ram s) (f_vbr fs + i) = disk_byte image part i;
  mo_fat_own : (f_FATptr fs, 512 * v_spf image part) ∈ own;
  mo_fat i : 0 <= i < 512 * v_spf image part ->
    rd8 (m_ram s) (f_FATptr fs + i) = disk_byte image (part + v_reserved image part) i;
}.

Lemma mounted_grows fs s own s' own' :
  mounted fs s own -> grows s own s' own' -> mounted fs s' own'.
Proof.
  intros [Hrd Hfi Hwa Hp Hv1 Hv2 Hf1 Hf2] Hg. split; [| | |done| | | |].
  - eapply bd_ready_ram; [apply Hg|done].
  - intros a Ha. destruct (anchored_grows _ _ _ _ _ Hg (Hwa a Ha)) as [_ ->]. by apply Hfi.
  - intros a Ha. by apply (anchored_grows _ _ _ _ _ Hg), Hwa.
  - by eapply grows_in.
  - intros i Hi. rewrite (grows_block _ _ _ _ _ _ _ Hg Hv1 Hi). by apply Hv2.
  - by eapply grows_in.
  - intros i Hi. rewrite (grows_block _ _ _ _ _ _ _ Hg Hf1 Hi). by apply Hf2.
Qed.

(** Sectors read into new blocks do not reach what the device watches. *)
Lemma mounted_reads fs s own top lba k :
  world s own top -> mounted fs s own -> 0 <= k -> top + 512 * k + 8 <= m_heapEnd s ->
  reads_fine lba top (512 * k) /\
  forall a, bd_watch a -> ~ (top - 8 <= a < top) /\ ~ (top + 512 * k <= a < top + 512 * k + 8).
Proof.
  intros Hw Hm Hk Hroom. destruct (arena_bounds _ _ _ _ _ (w_arena _ _ _ Hw)) as (? & ? & ? & ?).
  split; intros a Ha; pose proof (anchored_off_free s own top a Hw (mo_watch _ _ _ Hm a Ha)); [intros Hin; exfalso|];
    lia.
Qed.

Lemma vbr_loaded (m : mem) vbr f :
  (forall i, 0 <= i < 512 -> rd8 m (vbr + i) = disk_byte image part i) ->
  get fat32_BPD f m (vbr + offsetof VBR "bpd") = vbr_field image part f.
Proof.
  intros H. unfold get, vbr_field. change (offsetof VBR "bpd") with 11. rewrite <- Z.add_assoc.
  unfold fieldsize, offsetof.
  destruct (field_of fat32_BPD f) as [[o t]|] eqn:E; [|reflexivity].
  apply field_of_bounds in E; [|reflexivity]. change (sizeof fat32_BPD) with 79 in E.
  apply (load_disk image _ _ _ 512); [done|lia|lia].
Qed.

Lemma bpd_spec {B} fs s own f (k : Z -> prog machine B) :
  mounted fs s own -> bind (bpd fs f) k s = k (vbr_field image part f) s.
Proof.
  intros Hm. unfold bpd. rewrite bind_load. by rewrite (vbr_loaded _ _ _ (mo_vbr _ _ _ Hm)).
Qed.

Lemma vbr_field_bounds fs s own f :
  mounted fs s own -> 0 <= vbr_field image part f < 256 ^ Z.of_nat (Z.to_nat (fieldsize fat32_BPD f)).
Proof.
  intros Hm. rewrite <- (vbr_loaded _ _ f (mo_vbr _ _ _ Hm)). apply load_bounds.
Qed.

Lemma volume_bounds fs s own :
  mounted fs s own ->
  0 < v_spc image part < 256 /\ 0 <= v_reserved image part /\ 0 <= v_nfats image part /\
  0 <= v_nfats image part * v_spf image part /\
  0 <= v_root image part /\ 0 <= v_first_data image part < 4294967294 /\ 0 <= part.
Proof.
  intros Hm. pose proof (vbr_field_bounds _ _ _ "sectorsPerCluster" Hm).
  pose proof (vbr_field_bounds _ _ _ "reservedSectors" Hm).
  pose proof (vbr_field_bounds _ _ _ "numberOfFATs" Hm).
  pose proof (vbr_field_bounds _ _ _ "clusterNumberRoot" Hm).
  destruct Hvol. unfold v_first_data, v_spc, v_reserved, v_nfats, v_root in *.
  change (256 ^ Z.of_nat (Z.to_nat (fieldsize fat32_BPD "sectorsPerCluster"))) with 256 in *.
  assert (0 <= vbr_field image part "numberOfFATs" * v_spf image part)
    by (apply Z.mul_nonneg_nonneg; lia).
  lia.
Qed.

Lemma firstData_spec {B} fs s own (k : Z -> prog machine B) :
  mounted fs s own -> bind (firstDataSector fs) k s = k (v_first_data image part) s.
Proof.
  intros Hm. unfold firstDataSector. rewrite !bind_assoc.
  rewrite (bpd_spec fs s own) by done. rewrite bind_assoc, (bpd_spec fs s own) by done.
  rewrite bind_assoc, (bpd_spec fs s own) by done. rewrite bind_ret_l.
  destruct (volume_bounds _ _ _ Hm) as (_ & ? & ? & ? & _ & ? & ?).
  f_equal. unfold v_first_data, v_reserved, v_nfats, v_spf in *.
  rewrite (u32_small (_ * _)), u32_small by lia. done.
Qed.

Lemma clusterLBA_spec {B} fs s own c (k : Z -> prog machine B) :
  mounted fs s own -> 0 <= v_cluster image part c < 4294967296 ->
  bind (clusterLBA fs c (v_first_data image part)) k s = k (v_cluster image part c) s.
Proof.
  intros Hm Hc. unfold clusterLBA. rewrite bind_assoc, (bpd_spec fs s own) by done.
  rewrite bind_ret_l, (mo_part _ _ _ Hm). f_equal. rewrite <- Z.add_assoc, wrap_mul_add.
  unfold v_cluster, v_spc in *. rewrite u32_small; lia.
Qed.

Lemma nextCluster_spec {B} fs s own c (k : Z -> prog machine B) :
  mounted fs s own -> 0 <= c < 128 * v_spf image part ->
  bind (nextCluster fs c) k s = k (v_fat image part c) s.
Proof.
  intros Hm Hc. unfold nextCluster. rewrite bind_assoc, bind_load, bind_ret_l.
  f_equal. unfold v_fat. f_equal.
  apply (load_disk image _ _ _ (512 * v_spf image part)); [apply Hm|lia..].
Qed.

(** ** Reading a directory *)

Lemma count_entries_spec k i fuel dirPtr s :
  0 <= i -> i + Z.of_nat k < 4294967296 -> (k < fuel)%nat ->
  (forall j, i <= j < i + Z.of_nat k -> rd8 (m_ram s) (dirPtr + 32 * j) <> 0) ->
  rd8 (m_ram s) (dirPtr + 32 * (i + Z.of_nat k)) = 0 ->
  count_entries fuel dirPtr i s = Done (i + Z.of_nat k) s.
Proof.
  revert i fuel. induction k as [|k IH]; intros i fuel Hi Hk Hf Hused Hend;
    (destruct fuel as [|fuel]; [lia|]); cbn [count_entries]; rewrite bind_load.
  - rewrite Z.add_0_r in *. by rewrite Hend.
  - rewrite (proj2 (Z.eqb_neq _ _)) by (apply Hused; lia). cbn [negb].
    rewrite u32_small by lia. rewrite (IH (i + 1)); try lia.
    + f_equal. lia.
    + intros j Hj. apply Hused. lia.
    + by replace (i + 1 + Z.of_nat k) with (i + Z.of_nat (S k)) by lia.
Qed.

(** A directory in memory: the structure [readDir] returns, at [d], with the sectors
    of the root directory's cluster at [dir]. *)
Record dir_at (s : machine) (own : list (Z * Z)) (d dir : Z) : Prop := {
  da_own : (d, 12) ∈ own;
  da_code : get readDirResult "returnCode" (m_ram s) d = 0;
  da_num : get readDirResult "numEntries" (m_ram s) d = n;
  da_entries : get readDirResult "entries" (m_ram s) d = dir;
  da_dir_own : (dir, 512 * v_spc image part) ∈ own;
  da_dir i : 0 <= i < 512 * v_spc image part ->
    rd8 (m_ram s) (dir + i) = disk_byte image (v_cluster image part (v_root image part)) i;
}.

Lemma dir_at_grows s own s' own' d dir :
  dir_at s own d dir -> grows s own s' own' -> dir_at s' own' d dir.
Proof.
  intros [H1 H2 H3 H4 H5 H6] Hg.
  split; [by eapply grows_in| | | |by eapply grows_in|].
  - by rewrite (grows_get _ _ _ _ _ _ _ _ Hg H1) by (reflexivity || done).
  - by rewrite (grows_get _ _ _ _ _ _ _ _ Hg H1) by (reflexivity || done).
  - by rewrite (grows_get _ _ _ _ _ _ _ _ Hg H1) by (reflexivity || done).
  - intros i Hi. rewrite (grows_block _ _ _ _ _ _ _ Hg H5 Hi). by apply H6.
Qed.

(** The condition under which [readDir] takes the root directory. *)
Lemma root_not_multi :
  negb (Z.land (v_fat image part (v_root image part)) 268435440 =? 268435440) &&
    (Z.land (v_fat image part (v_root image part)) 15 <? 8) = false.
Proof.
  destruct (orb_prop _ _ (vo_root_end _ _ _ Hvol)) as [->|H]; [done|].
  apply Z.leb_le in H. rewrite (proj2 (Z.ltb_ge _ _)) by done. by rewrite andb_false_r.
Qed.

Lemma dir_count fs s own dir fuel :
  mounted fs s own ->
  (forall i, 0 <= i < 512 * v_spc image part ->
    rd8 (m_ram s) (dir + i) = disk_byte image (v_cluster image part (v_root image part)) i) ->
  (Z.to_nat n < fuel)%nat -> count_entries fuel dir 0 s = Done n s.
Proof.
  intros Hm Hd Hf. pose proof (volume_bounds _ _ _ Hm) as (? & _).
  destruct (vo_entries _ _ _ Hvol) as [H0 Hn].
  rewrite (count_entries_spec (Z.to_nat n)); rewrite ?Z2Nat.id by lia; try lia.
  - f_equal.
  - intros j Hj. rewrite Hd by lia. pose proof (vo_used _ _ _ Hvol j) as Hu.
    unfold de_byte in Hu. rewrite Z.add_0_r in Hu. apply Hu. lia.
  - rewrite Hd by lia. pose proof (vo_last _ _ _ Hvol) as Hu.
    unfold de_byte in Hu. by rewrite Z.add_0_r in Hu.
Qed.

Lemma readDir_spec fs s own top :
  world s own top -> mounted fs s own ->
  let dirsize := 512 * v_spc image part in
  let d := top + dirsize + 8 in
  let own' := (own ++ [(top, dirsize)]) ++ [(d, 12)] in
  d + 20 <= m_heapEnd s ->
  exists s', returns (fun fuel => readDir fuel fs (v_root image part)) s d s' /\
    grows s own s' own' /\ world s' own' (d + 20) /\ dir_at s' own' d top.
Proof.
  intros Hw Hm dirsize d own' Hroom. pose proof (volume_bounds _ _ _ Hm) as (Hspc & _).
  pose proof (vo_root_lba _ _ _ Hvol) as [Hlba1 Hlba2].
  destruct (new_sectors_spec s own top (v_cluster image part (v_root image part)) (v_spc image part) Hw)
    as (s1 & s2 & r & [f1 Hr1] & Hrd & Hr & Htop & Hg1 & Hw1 & Hg2 & Hw2 & Hsec & _);
    [apply Hm|lia|lia|lia|unfold d, dirsize in *; lia|apply Hm|
     by apply (mounted_reads fs s own); [..|lia|unfold d, dirsize in *; lia]..|].
  set (own1 := own ++ [(top, dirsize)]) in *. fold dirsize in Hr1, Hg1, Hw1, Hg2, Hw2, Hsec. fold own1 in Hg1, Hw1, Hg2, Hw2.
  assert ((top, dirsize) ∈ own1) as Hin1 by (apply elem_of_app; right; left).
  pose proof (mounted_grows _ _ _ _ _ Hm Hg1) as Hm1. pose proof (mounted_grows _ _ _ _ _ Hm Hg2) as Hm2.
  replace (top + dirsize + 8) with d in Hw2 by done.
  destruct (new_bytes_spec s2 own1 d 12 Hw2) as (s3 & [f3 Hr3] & Hg3 & Hw3 & He3 & Hd0 & _);
    [lia|destruct (grows_end _ _ _ _ Hg2); lia|].
  set (m4 := put readDirResult "entries" (put readDirResult "numEntries"
    (put readDirResult "returnCode" (m_ram s3) d 0) d n) d top).
  destruct (put3_spec (m_ram s3) readDirResult "returnCode" "numEntries" "entries" d 0 n top)
    as (E1 & E2 & E3 & Hch); [done..|]. fold m4 in E1, E2, E3, Hch.
  assert ((d, 12) ∈ own') as Hin3 by (apply elem_of_app; right; left).
  destruct (world_block _ _ _ _ _ Hw3 Hin3) as (Hfd & Hblk).
  destruct (grows_update s2 own1 s3 own' _ (set_ram m4 s3) [(d, 12)] d 12 d 12 Hg3 Hw3)
    as [Hg4 Hw4]; [done|left|by apply updates_store|lia..|].
  exists (set_ram m4 s3). split; [|split; [|split]].
  - exists (f1 + f3 + Z.to_nat n)%nat. intros fuel Hf. unfold readDir.
    rewrite (nextCluster_spec fs s own) by (done || apply Hvol). rewrite root_not_multi.
    rewrite !(bpd_spec fs s own) by done. rewrite (vo_bps _ _ _ Hvol).
    change (vbr_field image part "sectorsPerCluster") with (v_spc image part).
    rewrite array_new_small by lia. rewrite Z.mul_1_r, Z.mul_comm. fold dirsize.
    run_call (Hr1 fuel ltac:(lia)). rewrite (firstData_spec fs s1 own1) by done.
    rewrite (clusterLBA_spec fs s1 own1) by (done || lia).
    rewrite (bpd_spec fs s1 own1) by done.
    change (vbr_field image part "sectorsPerCluster") with (v_spc image part).
    rewrite (bind_Done _ _ _ _ _ Hrd), (proj2 (Z.eqb_neq _ _)) by done.
    rewrite (bind_Done _ _ _ _ _ (dir_count fs s2 own1 top fuel Hm2 Hsec ltac:(lia))).
    run_call (Hr3 fuel ltac:(lia)). run. done.
  - by eapply grows_trans.
  - replace (d + 20) with (d + 12 + 8) by lia. done.
  - destruct (vo_entries _ _ _ Hvol). destruct (world_block _ _ _ _ _ Hw1 Hin1) as ((? & ? & ?) & _).
    split; cbn [m_ram set_ram].
    + done.
    + by rewrite E1.
    + rewrite E2. apply Z.mod_small. change (256 ^ fieldsize readDirResult "numEntries") with 4294967296.
      lia.
    + rewrite E3. apply Z.mod_small. change (256 ^ fieldsize readDirResult "entries") with 4294967296.
      unfold dirsize in *. lia.
    + apply elem_of_app. by left.
    + intros i Hi. transitivity (rd8 (m_ram s2) (top + i)); [|by apply Hsec].
      exact (grows_block _ _ _ _ _ _ _ Hg4 Hin1 Hi).
Qed.

(** ** Names *)

Lemma entry_byte s own d dir i k :
  dir_at s own d dir -> 0 <= i < 16 * v_spc image part -> 0 <= k < 32 ->
  rd8 (m_ram s) (dir + 32 * i + k) = de_byte image part i k.
Proof.
  intros Hd Hi Hk. rewrite <- Z.add_assoc, (da_dir _ _ _ _ Hd) by lia. done.
Qed.

Lemma entry_get s own d dir i f :
  dir_at s own d dir -> 0 <= i < 16 * v_spc image part ->
  get fat32_dirEntry f (m_ram s) (dir + 32 * i) = de_field image part i f.
Proof.
  intros Hd Hi. unfold get, de_field, fieldsize, offsetof. rewrite <- Z.add_assoc.
  destruct (field_of fat32_dirEntry f) as [[o t]|] eqn:E; [|reflexivity].
  apply field_of_bounds in E; [|reflexivity]. change (sizeof fat32_dirEntry) with 32 in E.
  apply (load_disk image _ _ _ (512 * v_spc image part)); [apply Hd|lia|lia].
Qed.
End Proofs.

Definition disjoint_entry (ptr p : Z) : Prop :=
  fits ptr 32 /\ fits p 13 /\ (ptr + 32 <= p \/ p + 13 <= ptr).

Lemma upto_space_length l : (List.length (upto_space l) <= List.length l)%nat.
Proof. induction l as [|c l IH]; cbn; [lia|]. destruct (c =? 32); simpl; lia. Qed.

(** Writing the name leaves the entry alone. *)
Lemma entry_stable m ptr p l o k :
  disjoint_entry ptr p -> 0 <= o -> 0 <= k -> o + Z.of_nat (List.length l) <= 13 -> k < 32 ->
  rd8 (write_bytes m (p + o) l) (ptr + k) = rd8 m (ptr + k).
Proof.
  intros ((? & ? & ?) & (? & ? & ?) & Hd) Ho Hk Hl Hk2.
  assert (only_changes (p + o) (Z.of_nat (List.length l)) m (write_bytes m (p + o) l)) as C
    by (apply write_bytes_only_changes; lia).
  apply (only_changes_out _ _ _ _ _ C); unfold fits; lia.
Qed.

Lemma name_chars_spec k i ptr p s :
  disjoint_entry ptr p -> 0 <= i -> i + Z.of_nat k <= 8 ->
  let u := upto_space (read_bytes (m_ram s) (ptr + i) k) in
  name_chars k i ptr p s =
    Done (i + Z.of_nat (List.length u)) (set_ram (write_bytes (m_ram s) (p + i) u) s).
Proof.
  intros Hd. revert i s. induction k as [|k IH]; intros i s Hi Hk u; unfold u.
  { cbn. rewrite Z.add_0_r. by destruct s. }
  cbn [name_chars read_bytes upto_space]. rewrite bind_load.
  destruct (Z.eqb_spec (rd8 (m_ram s) (ptr + i)) 32) as [E|E].
  - cbn. rewrite Z.add_0_r. by destruct s.
  - rewrite bind_store, IH by lia. cbn [m_ram set_ram]. set (c := rd8 (m_ram s) (ptr + i)).
    replace (read_bytes (wr8 (m_ram s) (p + i) c) (ptr + (i + 1)) k)
      with (read_bytes (m_ram s) (ptr + i + 1) k).
    + cbn [List.length write_bytes]. f_equal; [lia|]. unfold set_ram. cbn.
      by rewrite Z.add_assoc.
    + rewrite <- Z.add_assoc. apply read_bytes_ext. intros j Hj. symmetry.
      rewrite <- !Z.add_assoc. apply (entry_stable _ _ _ [c]); simpl; done || lia.
Qed.

Lemma ext_chars_spec k j i ptr p s :
  disjoint_entry ptr p -> 0 <= j -> j + Z.of_nat k <= 3 -> 0 <= i -> i + Z.of_nat k <= 13 ->
  let u := read_bytes (m_ram s) (ptr + 8 + j) k in
  ext_chars k j i ptr p s =
    Done (i + Z.of_nat k) (set_ram (write_bytes (m_ram s) (p + i) u) s).
Proof.
  intros Hd. revert j i s. induction k as [|k IH]; intros j i s Hj Hk Hi Hik u; unfold u.
  { cbn. rewrite Z.add_0_r. by destruct s. }
  cbn [ext_chars read_bytes]. change (offsetof fat32_dirEntry "fileExtension") with 8.
  rewrite bind_load, bind_store, IH by lia. cbn [m_ram set_ram].
  set (c := rd8 (m_ram s) (ptr + 8 + j)).
  replace (read_bytes (wr8 (m_ram s) (p + i) c) (ptr + 8 + (j + 1)) k)
    with (read_bytes (m_ram s) (ptr + 8 + j + 1) k).
  - cbn [write_bytes]. f_equal; [lia|]. unfold set_ram. cbn. by rewrite Z.add_assoc.
  - rewrite <- (Z.add_assoc _ j 1). apply read_bytes_ext. intros q Hq. symmetry.
    rewrite <- !Z.add_assoc. apply (entry_stable _ _ _ [c]); simpl; done || lia.
Qed.

(** A written, terminated string is the string at its address. *)
Lemma cstring_written m p l :
  Forall (fun c => 0 <= c < 256) l -> fits p (Z.of_nat (List.length l) + 1) ->
  Z.of_nat (List.length l) + 1 < 4294967296 ->
  cstring_at (write_bytes m p (l ++ [0])) p (c_str l).
Proof.
  intros Hl Hf Hlen. destruct Hf as (? & ? & ?).
  assert (forall i, (i <= List.length l)%nat ->
    rd8 (write_bytes m p (l ++ [0])) (p + Z.of_nat i) = default 0 (l !! i)) as Hr.
  { intros i Hi. rewrite rd8_write_bytes by (rewrite length_app; simpl; lia).
    replace (p + Z.of_nat i - p) with (Z.of_nat i) by lia. rewrite u32_small, Nat2Z.id by lia.
    destruct (decide (i < List.length l)%nat) as [Hlt|Hge].
    - rewrite lookup_app_l by lia. destruct (lookup_lt_is_Some_2 l i Hlt) as [c Hc].
      rewrite Hc. cbn. apply u8_small. apply (Forall_lookup_1 _ _ _ _ Hl Hc).
    - rewrite lookup_app_r by lia. replace (i - List.length l)%nat with 0%nat by lia. cbn.
      by rewrite lookup_ge_None_2 by lia. }
  assert (exists k, (k <= List.length l)%nat /\ c_str l = take k l /\ default 0 (l !! k) = 0 /\
    Forall (fun c => c <> 0) (take k l)) as (k & Hk & E & Hz & Hne).
  { clear. induction l as [|c l IH].
    - exists 0%nat. by repeat split; constructor.
    - cbn. destruct (Z.eqb_spec c 0) as [->|Hc].
      + exists 0%nat. split; [lia|]. split; [done|]. split; [done|constructor].
      + destruct IH as (k & Hk & E & H0 & Hne). exists (S k). cbn. split; [lia|].
        split; [by rewrite E|]. split; [done|]. by constructor. }
  rewrite E. split.
  - intros i c Hi. apply lookup_take_Some in Hi as Hi'. destruct Hi' as [Hi' Hlt].
    rewrite Hr by lia. rewrite Hi'. split; [done|].
    apply (Forall_lookup_1 _ _ _ _ Hne Hi).
  - rewrite length_take, Nat.min_l by lia. by rewrite Hr by lia.
Qed.

Lemma upto_space_Forall (P : Z -> Prop) l : Forall P l -> Forall P (upto_space l).
Proof. induction 1 as [|c l Hc H IH]; cbn; [done|]. destruct (c =? 32); [done|by constructor]. Qed.

(** The characters the driver writes for the entry at [ptr]. *)
Definition chars_at (m : mem) (ptr : Z) : list Z :=
  upto_space (read_bytes m ptr 8) ++
  (if get fat32_dirEntry "attributes" m ptr =? attr_SUBDIRECTORY then []
   else 46 :: read_bytes m (ptr + 8) 3).

Lemma chars_at_length m ptr : Z.of_nat (List.length (chars_at m ptr)) <= 12.
Proof.
  unfold chars_at. rewrite length_app. pose proof (upto_space_length (read_bytes m ptr 8)) as H.
  rewrite length_read_bytes in H. destruct (_ =? _); cbn [List.length]; rewrite ?length_read_bytes; lia.
Qed.

Lemma chars_at_Forall m ptr : Forall (fun c => 0 <= c < 256) (chars_at m ptr).
Proof.
  apply Forall_app. split; [apply upto_space_Forall, read_bytes_bounds|].
  destruct (_ =? _); [constructor|]. constructor; [lia|apply read_bytes_bounds].
Qed.

Lemma stable_attributes m ptr p l :
  disjoint_entry ptr p -> Z.of_nat (List.length l) <= 13 ->
  get fat32_dirEntry "attributes" (write_bytes m p l) ptr = get fat32_dirEntry "attributes" m ptr.
Proof.
  intros Hd Hl. apply load_ext. intros k Hk. change (offsetof fat32_dirEntry "attributes") with 11.
  change (Z.of_nat (Z.to_nat (fieldsize fat32_dirEntry "attributes"))) with 1 in Hk.
  rewrite <- Z.add_assoc. rewrite <- (Z.add_0_r p) at 1. apply entry_stable; done || lia.
Qed.

Lemma stable_bytes m ptr p l o k :
  disjoint_entry ptr p -> Z.of_nat (List.length l) <= 13 -> 0 <= o -> o + Z.of_nat k <= 32 ->
  read_bytes (write_bytes m p l) (ptr + o) k = read_bytes m (ptr + o) k.
Proof.
  intros Hd Hl Ho Hk. apply read_bytes_ext. intros j Hj. rewrite <- !Z.add_assoc.
  rewrite <- (Z.add_0_r p) at 1. apply entry_stable; done || lia.
Qed.

(** The writes of [nameFromEntry], the buffer being at [p]. *)
Lemma write_name ptr p s :
  disjoint_entry ptr p ->
  bind (name_chars 8 0 ptr p) (fun i =>
    let* attributes := load_ram (fun m => get fat32_dirEntry "attributes" m ptr) in
    let* i :=
      (if negb (attributes =? attr_SUBDIRECTORY) then
         do* store_ram (fun m => wr8 m (p + i) 46) in
         ext_chars 3 0 (i + 1) ptr p
       else ret i) in
    do* store_ram (fun m => wr8 m (p + i) 0) in
    ret p) s =
  Done p (set_ram (write_bytes (m_ram s) p (chars_at (m_ram s) ptr ++ [0])) s).
Proof.
  intros Hd. rewrite (bind_Done _ _ _ _ _ (name_chars_spec 8 0 ptr p s Hd ltac:(lia) ltac:(lia))).
  rewrite !Z.add_0_r, Z.add_0_l. unfold chars_at. set (u := upto_space _).
  assert (Z.of_nat (List.length u) <= 8) as Hu.
  { unfold u. pose proof (upto_space_length (read_bytes (m_ram s) ptr 8)) as H.
    rewrite length_read_bytes in H. lia. }
  clearbody u. rewrite bind_load. cbn [m_ram set_ram]. rewrite stable_attributes by (done || lia).
  destruct (_ =? attr_SUBDIRECTORY); cbn [negb].
  - rewrite bind_ret_l, bind_store. cbn [m_ram set_ram ret]. rewrite app_nil_r.
    by rewrite write_bytes_app.
  - rewrite bind_assoc, bind_store. cbn [m_ram set_ram].
    set (s1 := set_ram (wr8 (write_bytes (m_ram s) p u) (p + Z.of_nat (List.length u)) 46)
      (set_ram (write_bytes (m_ram s) p u) s)).
    assert (m_ram s1 = write_bytes (m_ram s) p (u ++ [46])) as E1.
    { unfold s1. cbn [m_ram set_ram]. by rewrite write_bytes_app. }
    rewrite (bind_Done _ _ _ _ _ (ext_chars_spec 3 0 (Z.of_nat (List.length u) + 1) ptr p s1 Hd ltac:(lia) ltac:(lia)
      ltac:(lia) ltac:(lia))).
    rewrite E1, Z.add_0_r.
    rewrite stable_bytes by (rewrite ?length_app; simpl; done || lia).
    rewrite bind_store. cbn [m_ram set_ram ret]. f_equal. unfold set_ram, s1. cbn. f_equal.
    rewrite (write_bytes_app _ _ (u ++ _) [0]), (write_bytes_app _ _ u (46 :: _)).
    rewrite write_bytes_app, length_app. cbn [write_bytes read_bytes List.length].
    repeat (f_equal; [|lia]). f_equal; lia.
Qed.

Lemma read_bytes_seqZ (f : Z -> Z) m a o k :
  (forall i, o <= i < o + Z.of_nat k -> rd8 m (a + i) = f i) ->
  read_bytes m (a + o) k = map f (seqZ o (Z.of_nat k)).
Proof.
  revert o. induction k as [|k IH]; intros o H; [done|].
  rewrite Nat2Z.inj_succ, seqZ_cons by lia. cbn [read_bytes map]. rewrite H by lia. f_equal.
  rewrite <- Z.add_assoc. replace (Z.pred (Z.succ (Z.of_nat k))) with (Z.of_nat k) by lia.
  rewrite <- Z.add_1_r. apply IH. intros i Hi. apply H. lia.
Qed.

Section Search.
Context {D : Disk} {BD : BlockDevice D}.
Context (lfn part n : Z).
Hypothesis Hvol : volume_ok bd_image part n.

Abbreviation spc := (v_spc bd_image part).

Lemma chars_at_entry s own d dir i :
  dir_at part n s own d dir -> 0 <= i < 16 * spc ->
  chars_at (m_ram s) (dir + 32 * i) = entry_chars bd_image part i.
Proof.
  intros Hd Hi. unfold chars_at, entry_chars. rewrite (entry_get part n s own d dir) by done.
  rewrite <- (Z.add_0_r (dir + 32 * i)) at 1.
  rewrite (read_bytes_seqZ (de_byte bd_image part i)).
  - destruct (_ =? _); [done|]. rewrite (read_bytes_seqZ (de_byte bd_image part i)); [done|].
    intros k Hk. by apply (entry_byte part n s own d dir); [..|lia].
  - intros k Hk. by apply (entry_byte part n s own d dir); [..|lia].
Qed.

(** [nameFromEntry] returns a string that is the entry's name. *)
Lemma nameFromEntry_spec s own top d dir i :
  world s own top -> dir_at part n s own d dir -> 0 <= i < 16 * spc ->
  literal_at s lfn (bytes_of_string "LFN") -> top + 21 <= m_heapEnd s ->
  exists p s' own' top',
    returns (fun fuel => nameFromEntry lfn fuel (dir + 32 * i)) s p s' /\
    grows s own s' own' /\ world s' own' top' /\ top <= top' <= top + 21 /\
    cstring_at (m_ram s') p (entry_name bd_image part i).
Proof.
  intros Hw Hd Hi Hlfn Hroom. unfold entry_name.
  pose proof (entry_get part n s own d dir i "attributes" Hd Hi) as Ha.
  destruct (Z.eqb_spec (de_field bd_image part i "attributes") attr_LFN) as [E|E].
  { exists lfn, s, own, top. split; [|split; [apply grows_refl|split; [done|split; [lia|apply Hlfn]]]].
    exists 0%nat. intros fuel _. unfold nameFromEntry.
    rewrite bind_load, Ha, E. done. }
  destruct (new_bytes_spec s own top FAT_NAME_SIZE Hw) as (s1 & [f1 Hr1] & Hg1 & Hw1 & He1 & Htop & _);
    [done|unfold FAT_NAME_SIZE; lia|]. unfold FAT_NAME_SIZE in *.
  set (own1 := own ++ [(top, 13)]) in *.
  assert ((top, 13) ∈ own1) as Hin by (apply elem_of_app; right; left).
  pose proof (dir_at_grows part n _ _ _ _ _ _ Hd Hg1) as Hd1.
  destruct (world_block _ _ _ _ _ Hw1 Hin) as (Hf & ? & ? & ? & ?).
  assert (disjoint_entry (dir + 32 * i) top) as Hdis.
  { destruct (world_block _ _ _ _ _ Hw (da_dir_own _ _ _ _ _ _ Hd)) as ((? & ? & ?) & ? & ? & ? & ?).
    destruct (id Hf) as (? & ? & ?). unfold disjoint_entry, fits. lia. }
  pose proof (write_name _ _ s1 Hdis) as Hrun.
  rewrite (chars_at_entry s1 own1 d dir i Hd1 Hi) in Hrun.
  set (l := entry_chars bd_image part i) in *.
  assert (Z.of_nat (List.length l) <= 12) as Hlen.
  { unfold l. rewrite <- (chars_at_entry s1 own1 d dir i Hd1 Hi). apply chars_at_length. }
  assert (Forall (fun c => 0 <= c < 256) l) as Hch.
  { unfold l. rewrite <- (chars_at_entry s1 own1 d dir i Hd1 Hi). apply chars_at_Forall. }
  set (m2 := write_bytes (m_ram s1) top (l ++ [0])) in *.
  destruct (grows_update s own s1 own1 _ (set_ram m2 s1) [(top, 13)] top 13 top
    (Z.of_nat (List.length (l ++ [0]))) Hg1 Hw1) as [Hg2 Hw2]; [done|left| |lia|lia|..].
  { destruct Hf as (? & ? & ?). apply updates_store.
    - apply write_bytes_only_changes. rewrite length_app. simpl. lia.
    - unfold fits. rewrite length_app. simpl. lia. }
  { rewrite length_app. simpl. lia. }
  exists top, (set_ram m2 s1), own1, (top + 13 + 8). split; [|split; [done|split; [done|split; [lia|]]]].
  - exists f1. intros fuel Hfu. unfold nameFromEntry. rewrite bind_load, Ha.
    rewrite (proj2 (Z.eqb_neq _ _)) by done. unfold FAT_NAME_SIZE.
    run_call (Hr1 fuel Hfu). exact Hrun.
  - cbn [m_ram set_ram]. apply cstring_written; [done| |lia].
    destruct Hf as (? & ? & ?). unfold fits. lia.
Qed.

(** ** Reading a file *)

(** The sectors of the clusters [l] are at [buf]: the first sector of each. *)
Definition chain_at (m : mem) (buf : Z) (l : list Z) : Prop :=
  forall k c i, l !! k = Some c -> 0 <= i < 512 ->
    rd8 m (buf + 512 * Z.of_nat k + i) = bd_image (v_cluster bd_image part c) i.

Lemma read_chain_spec fs s0 own0 len buf l c s top j :
  let own := own0 ++ [(buf, len)] in
  mounted part fs s0 own0 -> chain bd_image part c l ->
  grows s0 own0 s own -> world s own top ->
  0 <= j -> 512 * (j + Z.of_nat (List.length l)) <= len ->
  exists s', returns (fun fuel => read_chain fuel fs c (v_first_data bd_image part) buf j) s tt s' /\
    grows s0 own0 s' own /\ world s' own top /\
    (forall a, buf <= a < buf + 512 * j -> rd8 (m_ram s') a = rd8 (m_ram s) a) /\
    chain_at (m_ram s') (buf + 512 * j) l.
Proof.
  intros own Hm0 Hc. assert ((buf, len) ∈ own) as Hin by (apply elem_of_app; right; left).
  revert s j. induction Hc as [c Hend|c l Hend Hc Hlba Hch IH]; intros s j Hg Hw Hj Hlen;
    pose proof (mounted_grows part _ _ _ _ _ Hm0 Hg) as Hm.
  { exists s. split; [|split; [done|split; [done|split; [done|]]]].
    - exists 0%nat. intros [|fuel] Hf; [lia|]. cbn [read_chain]. by rewrite Hend.
    - intros k c' i Hk. done. }
  simpl List.length in Hlen.
  destruct (world_block _ _ _ _ _ Hw Hin) as ((? & ? & ?) & ? & ? & ? & ?).
  destruct (read_block s own top buf len (v_cluster bd_image part c) (512 * j) 1 Hw (mo_ready _ _ _ _ Hm) Hin)
    as (r & s1 & Hrd & Hr & Hsec & _); [lia..|apply Hm| |].
  { intros a Ha Hab. exfalso. eapply (anchored_apart s0 own0 s own top buf len); [exact Hg|exact Hw|done|by apply Hm0|lia]. }
  destruct (grows_update s0 own0 s own top s1 [(buf, len)] buf len (buf + 512 * j) (512 * 1) Hg Hw)
    as [Hg1 Hw1]; [done|left|by eapply updates_read|lia..|].
  destruct (IH s1 (j + 1) Hg1 Hw1 ltac:(lia) ltac:(lia)) as (s' & [f' Hr'] & Hg' & Hw' & Hold & Hnew).
  exists s'. split; [|split; [done|split; [done|split]]].
  - exists (S f'). intros [|fuel] Hf; [lia|]. cbn [read_chain]. rewrite Hend.
    rewrite (clusterLBA_spec part fs s own) by (done || lia).
    unfold sectorSize. rewrite (u32_small (j * 512)), u32_small by lia.
    rewrite (Z.mul_comm j), (bind_Done _ _ _ _ _ Hrd), (proj2 (Z.eqb_neq _ _)) by done.
    rewrite (nextCluster_spec part fs s1 own) by (exact Hc || exact (mounted_grows part _ _ _ _ _ Hm0 Hg1)).
    rewrite u32_small by lia. apply Hr'. lia.
  - intros a Ha. rewrite Hold by lia. destruct (updates_read _ _ _ _ _ _ Hsec) as [_ U].
    apply U; [lia|lia|]. eapply not_scratch_heap; [exact Hw|]. unfold in_heap. lia.
  - intros [|k] c' i Hk Hi.
    + injection Hk as <-. rewrite Z.mul_0_r, Z.add_0_r, Hold by lia.
      destruct Hsec as (_ & Hs & _). rewrite Hs by lia.
      f_equal; Z.to_euclidean_division_equations; lia.
    + rewrite <- (Hnew k c' i Hk Hi). f_equal. lia.
Qed.

Definition result_at (m : mem) (rs code size ptr : Z) : Prop :=
  get fat32_fileResult "returnCode" m rs = code /\ get fat32_fileResult "size" m rs = size /\
  get fat32_fileResult "ptr" m rs = ptr.

(** A directory in memory does not notice writes behind it. *)
Lemma updates_below s own top q n' s' p k :
  world s own top -> updates q n' s s' -> (p, k) ∈ own -> p + k <= q ->
  forall i, 0 <= i < k -> rd8 (m_ram s') (p + i) = rd8 (m_ram s) (p + i).
Proof.
  intros Hw [_ U] Hp Hle i Hi. destruct (world_block _ _ _ _ _ Hw Hp) as ((? & ? & ?) & ? & ? & ? & ?).
  apply U; [lia|lia|]. eapply not_scratch_heap; [exact Hw|]. unfold in_heap. lia.
Qed.

Lemma dir_at_updates s own top s' d dir q n' :
  world s own top -> dir_at part n s own d dir -> updates q n' s s' ->
  dir + 512 * spc <= q -> d + 12 <= q -> dir_at part n s' own d dir.
Proof.
  intros Hw [H1 H2 H3 H4 H5 H6] U Hq1 Hq2.
  assert (forall f, get readDirResult f (m_ram s') d = get readDirResult f (m_ram s) d) as Hget.
  { intros f. apply load_ext. intros i Hi. unfold fieldsize, offsetof in *.
    destruct (field_of readDirResult f) as [[o t]|] eqn:E; [|cbn in Hi; lia].
    apply field_of_bounds in E; [|reflexivity]. change (sizeof readDirResult) with 12 in E.
    rewrite <- Z.add_assoc. eapply updates_below; [exact Hw|exact U|exact H1|done|lia]. }
  split; rewrite ?Hget; try done.
  intros i Hi. rewrite (updates_below _ _ _ _ _ _ _ _ Hw U H5); [by apply H6|lia|done].
Qed.

Lemma de_field_bounds s own d dir i f :
  dir_at part n s own d dir -> 0 <= i < 16 * spc ->
  0 <= de_field bd_image part i f < 256 ^ Z.of_nat (Z.to_nat (fieldsize fat32_dirEntry f)).
Proof. intros Hd Hi. rewrite <- (entry_get part n s own d dir) by done. apply load_bounds. Qed.

(** Bytes of the buffer a file takes: whole sectors, and one more than needed for
    sizes that are a multiple of 512. *)
Definition buffer_size (i : Z) : Z := 512 * (de_field bd_image part i "size" / 512 + 1).

(** The cluster of an entry from its two halves. *)
Lemma de_cluster_halves s own d dir i :
  dir_at part n s own d dir -> 0 <= i < 16 * spc ->
  u32 (Z.lor (Z.shiftl (de_field bd_image part i "highClusterNumber") 16) (de_field bd_image part i "lowClusterNumber")) =
    de_cluster bd_image part i.
Proof.
  intros Hd Hi. pose proof (de_field_bounds s own d dir i "highClusterNumber" Hd Hi) as Hhigh.
  pose proof (de_field_bounds s own d dir i "lowClusterNumber" Hd Hi) as Hlow.
  change (256 ^ _) with 65536 in Hhigh. change (256 ^ _) with 65536 in Hlow.
  rewrite lor_shiftl_add by (change (2 ^ 16) with 65536; lia).
  change (2 ^ 16) with 65536. unfold de_cluster. rewrite u32_small; lia.
Qed.

(** The three assignments to the result. *)
Lemma result_filled m rs top size :
  0 <= top < 4294967296 -> 0 <= size < 4294967296 ->
  let mb := put fat32_fileResult "returnCode" (put fat32_fileResult "ptr" m rs top) rs 0 in
  let mc := put fat32_fileResult "size" mb rs size in
  result_at mc rs 0 size top /\ only_changes rs (sizeof fat32_fileResult) m mc.
Proof.
  intros Htop Hsize mb mc.
  destruct (put3_spec m fat32_fileResult "ptr" "returnCode" "size" rs top 0 size) as (E1 & E2 & E3 & Hch); [done..|].
  fold mb mc in E1, E2, E3, Hch. split; [|exact Hch].
  split; [exact E2|]. split; [|rewrite E1; by apply Z.mod_small]. rewrite E3. by apply Z.mod_small.
Qed.

(** A chain in a block of the heap, and a write to another block. *)
Lemma chain_at_updates s s' own top len top' rs l :
  world s (own ++ [(top, len)]) top' -> (rs, 12) ∈ own -> updates rs 12 s s' ->
  512 * Z.of_nat (List.length l) <= len -> chain_at (m_ram s) top l -> chain_at (m_ram s') top l.
Proof.
  intros Hw Hin [_ U] Hlen Hchain k c j Hk Hj. rewrite <- (Hchain k c j Hk Hj).
  assert (rs + 12 + 8 <= top \/ top + len + 8 <= rs) as Hap.
  { eapply world_apart; [exact Hw|]. exists own, [(top, len)]. split; [done|]. split; [done|left]. }
  apply lookup_lt_Some in Hk.
  destruct (world_block _ _ _ _ _ Hw (ltac:(apply elem_of_app; right; left) : (top, len) ∈ own ++ [(top, len)]))
    as ((? & ? & ?) & ? & ? & ? & ?).
  apply U; [lia|lia|]. eapply not_scratch_heap; [exact Hw|]. unfold in_heap. lia.
Qed.

Lemma read_file_spec fs sB ownB new s own top d dir i rs l :
  grows sB ownB s own -> own = ownB ++ new -> (rs, 12) ∈ new ->
  world s own top -> mounted part fs s own -> dir_at part n s own d dir ->
  dir + 512 * spc <= rs -> d + 12 <= rs -> 0 <= i < 16 * spc ->
  chain bd_image part (de_cluster bd_image part i) l ->
  512 * Z.of_nat (List.length l) <= buffer_size i -> top + buffer_size i + 8 <= m_heapEnd s ->
  exists s',
    returns (fun fuel => read_file fuel fs (dir + 32 * i) rs) s rs s' /\
    grows sB ownB s' (own ++ [(top, buffer_size i)]) /\
    world s' (own ++ [(top, buffer_size i)]) (top + buffer_size i + 8) /\
    result_at (m_ram s') rs 0 (de_field bd_image part i "size") top /\ chain_at (m_ram s') top l.
Proof.
  intros Hg Hown Hrs Hw Hm Hd Hr1 Hr2 Hi Hch Hlen Hroom.
  set (size := de_field bd_image part i "size") in *. set (len := buffer_size i) in *.
  pose proof (de_field_bounds s own d dir i "size" Hd Hi : 0 <= size < 4294967296) as Hsize.
  assert (len = 512 * (size / 512 + 1) /\ 0 < len < 458752) as (Hl1 & Hl2).
  { pose proof (w_high _ _ _ Hw). destruct (arena_bounds _ _ _ _ _ (w_arena _ _ _ Hw)) as (? & ? & ? & ?).
    split; [done|]. unfold len, buffer_size. fold size.
    assert (0 <= size / 512) by (apply Z.div_pos; lia). unfold len, buffer_size in Hroom. fold size in Hroom. lia. }
  assert ((rs, 12) ∈ own) as Hin by (rewrite Hown; apply elem_of_app; by right).
  destruct (new_bytes_spec s own top len Hw) as (s1 & [f1 Hr] & Hg1 & Hw1 & He1 & Htop & _); [lia|lia|].
  set (own1 := own ++ [(top, len)]) in *.
  destruct (read_chain_spec fs s own len top l _ s1 (top + len + 8) 0 Hm Hch Hg1 Hw1)
    as (s2 & [f2 Hrun2] & Hg2 & Hw2 & _ & Hchain); [lia|lia|]. fold own1 in Hg2, Hw2.
  rewrite Z.mul_0_r, Z.add_0_r in Hchain.
  pose proof (dir_at_grows part n _ _ _ _ _ _ Hd Hg2) as Hd2.
  assert ((rs, 12) ∈ own1) as Hin1 by (apply elem_of_app; by left).
  destruct (world_block _ _ _ _ _ Hw2 Hin1) as (Hfrs & Hblk).
  set (ma := put fat32_fileResult "ptr" (m_ram s2) rs top).
  set (mb := put fat32_fileResult "returnCode" ma rs 0).
  set (mc := put fat32_fileResult "size" mb rs size).
  destruct (world_block _ _ _ _ _ Hw1 (ltac:(apply elem_of_app; right; left) : (top, len) ∈ own1)) as ((? & ? & ?) & _).
  destruct (result_filled (m_ram s2) rs top size ltac:(lia) Hsize) as [Hres Hch3]. fold ma mb mc in Hres, Hch3.
  assert (updates rs 12 s2 (set_ram mb s2)) as Ub.
  { apply updates_store; [|done]. change 12 with (sizeof fat32_fileResult).
    eapply only_changes_trans; by apply put_only_changes. }
  pose proof (updates_store _ _ _ _ Hch3 Hfrs) as Uc.
  assert (get fat32_dirEntry "size" mb (dir + 32 * i) = size) as Esz.
  { apply (entry_get part n (set_ram mb s2) own1 d dir); [|done].
    eapply dir_at_updates; [exact Hw2|done|exact Ub|done|done]. }
  destruct (grows_update sB ownB s2 own1 _ (set_ram mc s2) (new ++ [(top, len)]) rs 12 rs 12
    (grows_trans _ _ _ _ _ _ Hg Hg2) Hw2) as [Hg3 Hw3];
    [unfold own1; by rewrite Hown, app_assoc|apply elem_of_app; by left|exact Uc|lia..|].
  exists (set_ram mc s2). split; [|split; [done|split; [done|split]]].
  - exists (f1 + f2)%nat. intros fuel Hf. unfold read_file. rewrite !bind_load.
    rewrite !(entry_get part n s own d dir) by done. fold size.
    rewrite (firstData_spec part n Hvol fs s own) by done. rewrite bind_load.
    rewrite (entry_get part n s own d dir) by done. fold size. cbv zeta.
    unfold sectorSize. rewrite (u32_small (size / 512 + 1)) by lia.
    rewrite (u32_small (_ * 512)) by lia. rewrite array_new_small by lia.
    replace ((size / 512 + 1) * 512 * 1) with len by lia.
    run_call (Hr fuel ltac:(lia)).
    rewrite (de_cluster_halves s own d dir i Hd Hi).
    run_call (Hrun2 fuel ltac:(lia)). run. cbn [m_ram set_ram]. fold ma mb. rewrite Esz.
    done.
  - exact Hres.
  - eapply chain_at_updates; [exact Hw2|exact Hin|exact Uc|lia|exact Hchain].
Qed.

(** ** Searching the directory *)

(** Where the search stands: [sB] is the state [getRootFile] began in. *)
Record searching (fs : fat32) (sB : machine) (ownB : list (Z * Z)) (file : Z) (name : list Z)
    (d dir rs : Z) (s : machine) (own : list (Z * Z)) (top : Z) : Prop := {
  se_grows : grows sB ownB s own;
  se_rs : exists new, own = ownB ++ new /\ (rs, 12) ∈ new;
  se_world : world s own top;
  se_mounted : mounted part fs s own;
  se_dir : dir_at part n s own d dir;
  se_file : literal_at s file name;
  se_lfn : literal_at s lfn (bytes_of_string "LFN");
  se_order : dir + 512 * spc <= rs /\ d + 12 <= rs;
}.

Lemma searching_grows fs sB ownB file name d dir rs s own top s' own' top' :
  searching fs sB ownB file name d dir rs s own top -> grows s own s' own' -> world s' own' top' ->
  searching fs sB ownB file name d dir rs s' own' top'.
Proof.
  intros [Hg (new & Hown & Hrs) Hw Hm Hd Hf Hl Ho] Hg' Hw'. split.
  - by eapply grows_trans.
  - destruct (id Hg') as (_ & [new' ->] & _). exists (new ++ new').
    split; [by rewrite Hown, app_assoc|]. apply elem_of_app. by left.
  - done.
  - by eapply mounted_grows.
  - by eapply dir_at_grows.
  - by eapply grows_literal.
  - by eapply grows_literal.
  - done.
Qed.

(** A run of the search that ends with the pointer [rs]. *)
Definition search_returns (fs : fat32) (d rs file i : Z) (s s' : machine) : Prop :=
  exists f, forall fuel fuel0, (f < fuel)%nat -> (f < fuel0)%nat ->
    search_entries lfn fuel fuel0 fs d rs file i s = Done rs s'.

Definition search_post (sB : machine) (ownB : list (Z * Z)) (rs limit : Z) (r : option (Z * list Z))
    (s' : machine) : Prop :=
  exists own' top', grows sB ownB s' own' /\ world s' own' top' /\
    match r with
    | None => result_at (m_ram s') rs 1 0 0
    | Some (j, l) =>
        top' <= limit /\ (rs, 12) ∈ own' /\
        exists buf, result_at (m_ram s') rs 0 (de_field bd_image part j "size") buf /\
          (buf, buffer_size j) ∈ own' /\ chain_at (m_ram s') buf l
    end.

(** No entry is left. *)
Lemma search_end fs sB ownB file name d dir rs limit s own top :
  searching fs sB ownB file name d dir rs s own top ->
  exists s', search_returns fs d rs file n s s' /\ search_post sB ownB rs limit None s'.
Proof.
  intros [Hg (new & Hown & Hrs) Hw Hm Hd Hf Hl Ho].
  assert ((rs, 12) ∈ own) as Hin by (rewrite Hown; apply elem_of_app; by right).
  destruct (world_block _ _ _ _ _ Hw Hin) as (Hfrs & _).
  destruct (put3_spec (m_ram s) fat32_fileResult "returnCode" "ptr" "size" rs 1 0 0)
    as (E1 & E2 & E3 & Hch); [done..|]. set (m' := put _ "size" _ _ _) in *.
  destruct (grows_update sB ownB s own _ (set_ram m' s) new rs 12 rs 12 Hg Hw)
    as [Hg' Hw']; [done|done|by apply updates_store|lia..|].
  exists (set_ram m' s). split.
  - exists 0%nat. intros [|fuel] fuel0 Hfu _; [lia|]. cbn [search_entries].
    rewrite bind_load, (da_num _ _ _ _ _ _ Hd), Z.ltb_irrefl. by run.
  - exists own, top. split; [done|]. split; [done|]. cbn [m_ram set_ram].
    split; [exact E1|]. split; [exact E3|exact E2].
Qed.

(** One entry: its name, and whether it is the one looked for. *)
Lemma search_step fs sB ownB file name d dir rs s own top i :
  searching fs sB ownB file name d dir rs s own top -> 0 <= i < n -> top + 21 <= m_heapEnd s ->
  exists s1 own1 top1 f,
    searching fs sB ownB file name d dir rs s1 own1 top1 /\ m_heapEnd s1 = m_heapEnd s /\
    top1 <= top + 21 /\
    forall fuel fuel0, (f < fuel0)%nat ->
      search_entries lfn (S fuel) fuel0 fs d rs file i s =
        if decide (entry_name bd_image part i = name)
        then read_file fuel0 fs (dir + 32 * i) rs s1
        else search_entries lfn fuel fuel0 fs d rs file (i + 1) s1.
Proof.
  intros Hs Hi Hroom. destruct (vo_entries _ _ _ Hvol) as [_ Hn].
  destruct (nameFromEntry_spec s own top d dir i (se_world _ _ _ _ _ _ _ _ _ _ _ Hs)
    (se_dir _ _ _ _ _ _ _ _ _ _ _ Hs) ltac:(lia) (se_lfn _ _ _ _ _ _ _ _ _ _ _ Hs) Hroom)
    as (p & s1 & own1 & top1 & [f1 Hr] & Hg1 & Hw1 & Ht & Hname).
  pose proof (searching_grows _ _ _ _ _ _ _ _ _ _ _ _ _ _ Hs Hg1 Hw1) as Hs1.
  destruct (se_file _ _ _ _ _ _ _ _ _ _ _ Hs1) as [Hfile _].
  exists s1, own1, top1, (f1 + List.length name)%nat. split; [done|].
  split; [by destruct (grows_end _ _ _ _ Hg1)|]. split; [lia|].
  intros fuel fuel0 Hf. pose proof (se_dir _ _ _ _ _ _ _ _ _ _ _ Hs) as Hd.
  destruct (world_block _ _ _ _ _ (se_world _ _ _ _ _ _ _ _ _ _ _ Hs) (da_dir_own _ _ _ _ _ _ Hd))
    as ((? & ? & ?) & ? & ? & ? & ?). pose proof (w_high _ _ _ (se_world _ _ _ _ _ _ _ _ _ _ _ Hs)).
  cbn [search_entries]. rewrite bind_load, (da_num _ _ _ _ _ _ Hd), (proj2 (Z.ltb_lt _ _)) by lia.
  rewrite bind_load, (da_entries _ _ _ _ _ _ Hd), u32_small by lia. cbv zeta.
  run_call (Hr fuel0 ltac:(lia)).
  rewrite (bind_Done _ _ _ (str_diff (entry_name bd_image part i) name) s1).
  2: { unfold run_opt. by rewrite (strcmp_spec fuel0 _ _ _ _ _ Hname Hfile) by lia. }
  pose proof (str_diff_zero _ _ (cstring_at_chars _ _ _ Hname) (cstring_at_chars _ _ _ Hfile)) as Hz.
  destruct (decide (entry_name bd_image part i = name)) as [E|E].
  - by rewrite (proj2 Hz E).
  - by rewrite (proj2 (Z.eqb_neq _ _)) by tauto.
Qed.

Lemma search_found fs sB ownB file name d dir rs limit k s own top i j l :
  searching fs sB ownB file name d dir rs s own top -> 0 <= i -> i + Z.of_nat k = n ->
  find_entry bd_image part k i name = Some j ->
  chain bd_image part (de_cluster bd_image part j) l ->
  512 * Z.of_nat (List.length l) <= buffer_size j ->
  top + 21 * Z.of_nat k + buffer_size j + 8 <= m_heapEnd s -> 0 <= buffer_size j ->
  top + 21 * Z.of_nat k + buffer_size j + 8 <= limit ->
  exists s', search_returns fs d rs file i s s' /\ search_post sB ownB rs limit (Some (j, l)) s'.
Proof.
  intros Hs Hi Hk Hfind Hch Hlen Hroom Hbs Hlim. revert i s own top Hs Hi Hk Hfind Hroom Hlim.
  induction k as [|k IH]; intros i s own top Hs Hi Hk Hfind Hroom Hlim; [done|]. cbn [find_entry] in Hfind.
  destruct (search_step _ _ _ _ _ _ _ _ _ _ _ i Hs) as (s1 & own1 & top1 & f & Hs1 & He & Ht & Hrun);
    [lia..|]. destruct (vo_entries _ _ _ Hvol) as [_ Hn].
  destruct (decide (entry_name bd_image part i = name)) as [E|E].
  - injection Hfind as ->. destruct (id Hs1) as [Hg (new & Hown & Hrs) Hw Hm Hd _ _ [Ho1 Ho2]].
    destruct (read_file_spec fs sB ownB new s1 own1 top1 d dir j rs l Hg Hown Hrs Hw Hm Hd Ho1 Ho2
      ltac:(lia) Hch Hlen ltac:(lia)) as (s' & [f2 Hr] & Hg' & Hw' & Hres & Hdata).
    exists s'. split.
    + exists (f + f2)%nat. intros [|fuel] fuel0 Hf1 Hf2; [lia|].
      rewrite Hrun by lia. apply Hr. lia.
    + exists (own1 ++ [(top1, buffer_size j)]), (top1 + buffer_size j + 8).
      split; [done|]. split; [done|]. split; [lia|].
      split; [apply elem_of_app; left; rewrite Hown; apply elem_of_app; by right|].
      exists top1. split; [done|]. split; [|done]. apply elem_of_app. right. left.
  - destruct (IH (i + 1) s1 own1 top1 Hs1 ltac:(lia) ltac:(lia) Hfind ltac:(lia) ltac:(lia))
      as (s' & [f2 Hr] & Hpost).
    exists s'. split; [|done]. exists (S (f + f2))%nat. intros [|fuel] fuel0 Hf1 Hf2; [lia|].
    rewrite Hrun by lia. apply Hr; lia.
Qed.

Lemma search_not_found fs sB ownB file name d dir rs limit k s own top i :
  searching fs sB ownB file name d dir rs s own top -> 0 <= i -> i + Z.of_nat k = n ->
  find_entry bd_image part k i name = None -> top + 21 * Z.of_nat k <= m_heapEnd s ->
  exists s', search_returns fs d rs file i s s' /\ search_post sB ownB rs limit None s'.
Proof.
  revert i s own top. induction k as [|k IH]; intros i s own top Hs Hi Hk Hfind Hroom.
  { replace i with n by lia. by eapply search_end. }
  cbn [find_entry] in Hfind.
  destruct (search_step _ _ _ _ _ _ _ _ _ _ _ i Hs) as (s1 & own1 & top1 & f & Hs1 & He & Ht & Hrun);
    [lia..|].
  destruct (decide (entry_name bd_image part i = name)) as [E|E]; [done|].
  destruct (IH (i + 1) s1 own1 top1 Hs1 ltac:(lia) ltac:(lia) Hfind ltac:(lia))
    as (s' & [f2 Hr] & Hpost).
  exists s'. split; [|done]. exists (S (f + f2))%nat. intros [|fuel] fuel0 Hf1 Hf2; [lia|].
  rewrite Hrun by lia. apply Hr; lia.
Qed.

(** ** [getRootFile] *)

Lemma search_start fs s own top file name :
  world s own top -> mounted part fs s own -> literal_at s file name ->
  literal_at s lfn (bytes_of_string "LFN") ->
  top + 512 * spc + 48 <= m_heapEnd s ->
  exists f d dir rs s1 own1,
    searching fs s own file name d dir rs s1 own1 (top + 512 * spc + 48) /\
    m_heapEnd s1 = m_heapEnd s /\
    forall fuel, (f < fuel)%nat ->
      getRootFile lfn fuel fs file s = search_entries lfn fuel fuel fs d rs file 0 s1.
Proof.
  intros Hw Hm Hf Hl Hroom. pose proof (volume_bounds part n Hvol _ _ _ Hm) as (Hspc & _).
  destruct (readDir_spec part n Hvol fs s own top Hw Hm) as (s1 & [f1 Hr1] & Hg1 & Hw1 & Hd1); [lia|].
  set (d := top + 512 * spc + 8) in *. set (own1 := (own ++ _) ++ _) in *.
  destruct (new_bytes_spec s1 own1 (d + 20) 12 Hw1) as (s2 & [f2 Hr2] & Hg2 & Hw2 & He2 & Hz & _);
    [lia|destruct (grows_end _ _ _ _ Hg1); unfold d in *; lia|].
  set (own2 := own1 ++ [(d + 20, 12)]) in *.
  pose proof (grows_trans _ _ _ _ _ _ Hg1 Hg2) as Hg.
  exists (f1 + f2)%nat, d, top, (d + 20), s2, own2. split; [split|split].
  - done.
  - exists ([(top, 512 * spc)] ++ [(d, 12)] ++ [(d + 20, 12)]).
    split; [unfold own2, own1; by rewrite <- !app_assoc|]. right. right. left.
  - replace (top + 512 * spc + 48) with (d + 20 + 12 + 8) by (unfold d; lia). done.
  - by eapply mounted_grows.
  - by eapply dir_at_grows.
  - by eapply grows_literal.
  - by eapply grows_literal.
  - unfold d. lia.
  - by destruct (grows_end _ _ _ _ Hg).
  - intros fuel Hfu. unfold getRootFile. rewrite (bpd_spec part fs s own) by done.
    change (vbr_field bd_image part "clusterNumberRoot") with (v_root bd_image part).
    run_call (Hr1 fuel ltac:(lia)).
    change (sizeof fat32_fileResult) with 12. run_call (Hr2 fuel ltac:(lia)).
    rewrite bind_load, (da_code part n s2 own2 d top) by (by eapply dir_at_grows). done.
Qed.

Lemma getRootFile_found_lemma fs s own top file name j l :
  world s own top -> mounted part fs s own -> literal_at s file name ->
  literal_at s lfn (bytes_of_string "LFN") ->
  find_entry bd_image part (Z.to_nat n) 0 name = Some j ->
  chain bd_image part (de_cluster bd_image part j) l ->
  512 * Z.of_nat (List.length l) <= buffer_size j ->
  top + 512 * spc + 56 + 21 * n + buffer_size j <= m_heapEnd s ->
  exists rs s', returns (fun fuel => getRootFile lfn fuel fs file) s rs s' /\
    search_post s own rs (top + 512 * spc + 56 + 21 * n + buffer_size j) (Some (j, l)) s'.
Proof.
  intros Hw Hm Hf Hl Hfind Hch Hlen Hroom. destruct (vo_entries _ _ _ Hvol) as [Hn0 _].
  destruct (search_start fs s own top file name Hw Hm Hf Hl) as (f & d & dir & rs & s1 & own1 & Hs & He & Hrun).
  { lia. }
  destruct (search_found _ _ _ _ _ _ _ _ (top + 512 * spc + 56 + 21 * n + buffer_size j)
    (Z.to_nat n) _ _ _ 0 j l Hs ltac:(lia) ltac:(lia) Hfind Hch Hlen)
    as (s' & [f2 Hr] & Hpost); [lia|lia|lia|].
  exists rs, s'. split; [|done]. exists (f + f2)%nat. intros fuel Hfu.
  rewrite Hrun by lia. apply Hr; lia.
Qed.

Lemma getRootFile_missing_lemma fs s own top file name :
  world s own top -> mounted part fs s own -> literal_at s file name ->
  literal_at s lfn (bytes_of_string "LFN") ->
  find_entry bd_image part (Z.to_nat n) 0 name = None ->
  top + 512 * spc + 48 + 21 * n <= m_heapEnd s ->
  exists rs s', returns (fun fuel => getRootFile lfn fuel fs file) s rs s' /\
    search_post s own rs (m_heapEnd s) None s'.
Proof.
  intros Hw Hm Hf Hl Hfind Hroom. destruct (vo_entries _ _ _ Hvol) as [Hn0 _].
  destruct (search_start fs s own top file name Hw Hm Hf Hl) as (f & d & dir & rs & s1 & own1 & Hs & He & Hrun).
  { lia. }
  destruct (search_not_found _ _ _ _ _ _ _ _ (m_heapEnd s) (Z.to_nat n) _ _ _ 0 Hs ltac:(lia) ltac:(lia) Hfind)
    as (s' & [f2 Hr] & Hpost); [lia|].
  exists rs, s'. split; [|done]. exists (f + f2)%nat. intros fuel Hfu.
  rewrite Hrun by lia. apply Hr; lia.
Qed.

(** ** [init] *)

(** The device can be called: what it watches is fine now, and lies outside the heap, in a
    block already handed out, or where the boot record or the FAT goes and leaves it fine. *)
Record device_ready (s : machine) (own : list (Z * Z)) (top : Z) : Prop := {
  dr_ready : bd_ready s;
  dr_fine : watch_fine (m_ram s);
  dr_placed a : bd_watch a -> anchored s own a \/
    (top <= a < top + 512 /\ bd_fine (disk_byte bd_image part (a - top))) \/
    (top + 520 <= a < top + 520 + 512 * v_spf bd_image part /\
      bd_fine (disk_byte bd_image (part + v_reserved bd_image part) (a - (top + 520))));
}.

Lemma fat32_init_spec fs0 s own top :
  world s own top -> device_ready s own top -> top + 528 + 512 * v_spf bd_image part <= m_heapEnd s ->
  let own' := (own ++ [(top, 512)]) ++ [(top + 520, 512 * v_spf bd_image part)] in
  exists s', returns (fun fuel => init fuel fs0 part) s (0, Fat32 (top + 520) top part) s' /\
    grows s own s' own' /\ world s' own' (top + 528 + 512 * v_spf bd_image part) /\
    mounted part (Fat32 (top + 520) top part) s' own'.
Proof.
  intros Hw [Hready Hfine Hplaced] Hroom own'. destruct Hvol as [Hpart _ _ Hspf Hdata Hfat _ _ _ _ _ _].
  set (spf := v_spf bd_image part) in *.
  assert (forall a, bd_watch a -> anchored s own a -> a < top - 8 \/ top + 528 + 512 * spf <= a) as Hoff.
  { intros a _ Ha. destruct (anchored_off_free s own top a Hw Ha); lia. }
  destruct (new_sectors_spec s own top part 1 Hw Hready)
    as (s1 & s2 & r & [f1 Hr1] & Hrd & Hr & Hz1 & Hg1 & Hw1 & Hg2 & Hw2 & Hv2 & Hfine2); [lia..|done| | |].
  { intros a Ha Hin. destruct (Hplaced a Ha) as [H|[[_ H]|[H _]]]; [specialize (Hoff a Ha H); lia|done|lia]. }
  { intros a Ha. destruct (Hplaced a Ha) as [H|[[H _]|[H _]]]; [specialize (Hoff a Ha H); lia|lia..]. }
  change (512 * 1) with 512 in *. set (own1 := own ++ [(top, 512)]) in *.
  assert ((top, 512) ∈ own1) as Hin1 by (apply elem_of_app; right; left).
  pose proof (vbr_loaded part (m_ram s2) top) as Hfield.
  assert (0 <= v_reserved bd_image part) as Hres.
  { unfold v_reserved. rewrite <- (Hfield "reservedSectors" Hv2). apply load_bounds. }
  replace (top + 512 + 8) with (top + 520) in Hw2 by lia.
  destruct (new_sectors_spec s2 own1 (top + 520) (part + v_reserved bd_image part) spf Hw2)
    as (s3 & s4 & r4 & [f3 Hr3] & Hrd4 & Hr4 & Hz3 & Hg3 & _ & Hg4 & Hw4 & Hsec4 & Hfine4);
    [exact (bd_ready_ram _ _ (proj1 Hg2) Hready)|lia..|destruct (grows_end _ _ _ _ Hg2); lia|exact Hfine2| | |].
  { intros a Ha Hin. destruct (Hplaced a Ha) as [H|[[H _]|[_ H]]]; [specialize (Hoff a Ha H); lia|lia|done]. }
  { intros a Ha. destruct (Hplaced a Ha) as [H|[[H _]|[H _]]]; [specialize (Hoff a Ha H); lia|lia..]. }
  fold own' in Hg3, Hg4, Hw4.
  assert (forall i, 0 <= i < 512 -> rd8 (m_ram s3) (top + i) = disk_byte bd_image part i) as Hv3.
  { intros i Hi. by rewrite (grows_block _ _ _ _ _ _ _ Hg3 Hin1 Hi), Hv2. }
  exists s4. split; [|split; [by eapply grows_trans|split]].
  - exists (f1 + f3)%nat. intros fuel Hfu. unfold init. change (sizeof VBR) with 512.
    run_call (Hr1 fuel ltac:(lia)). rewrite (proj2 (Z.eqb_neq top 0)) by done.
    rewrite (bind_Done _ _ _ _ _ Hrd), (proj2 (Z.eqb_neq r 0)) by done.
    unfold bpd at 1. rewrite bind_load. cbn [f_vbr]. rewrite (Hfield "sectorsPerFAT" Hv2).
    change (vbr_field bd_image part "sectorsPerFAT") with spf.
    unfold sectorSize. rewrite (u32_small (spf * 512)) by lia.
    replace (spf * 512 / 4) with (spf * 128) by (rewrite <- (Z.div_mul (spf * 128) 4) by lia; f_equal; lia).
    rewrite array_new_small by lia. replace (spf * 128 * 4) with (512 * spf) by lia.
    run_call (Hr3 fuel ltac:(lia)). rewrite (proj2 (Z.eqb_neq (top + 520) 0)) by done.
    unfold bpd. rewrite bind_load. cbn [f_vbr]. rewrite (vbr_loaded part _ top "reservedSectors" Hv3).
    change (vbr_field bd_image part "reservedSectors") with (v_reserved bd_image part).
    rewrite u32_small by lia. rewrite (bind_Done _ _ _ _ _ Hrd4), (proj2 (Z.eqb_neq r4 0)) by done.
    done.
  - by replace (top + 528 + 512 * spf) with (top + 520 + 512 * spf + 8) by lia.
  - split; cbn [f_partitionLBA f_vbr f_FATptr].
    + exact (bd_ready_ram _ _ (ram_only_trans _ _ _ (proj1 Hg2) (proj1 Hg4)) Hready).
    + exact Hfine4.
    + intros a Ha. destruct (Hplaced a Ha) as [H|[[H _]|[H _]]].
      * by apply (anchored_grows _ _ _ _ _ (grows_trans _ _ _ _ _ _ Hg2 Hg4)).
      * right. exists top, 512. split; [apply elem_of_app; by left|done].
      * right. exists (top + 520), (512 * spf). split; [apply elem_of_app; right; left|done].
    + done.
    + apply elem_of_app. by left.
    + intros i Hi. by rewrite (grows_block _ _ _ _ _ _ _ Hg4 Hin1 Hi), Hv2.
    + apply elem_of_app. right. left.
    + intros i Hi. by apply Hsec4.
Qed.
End Search.
