(* ===== verification/Fat32Props.v ===== *)
(** What the FAT32 driver guarantees: mounting a volume and reading a file of its
    root directory, with an example volume; and what it does not. *)

From S2P Require Import Prelude PhysMem Layout CString Xtoa Terminal Heap Machine DiskRead Arena Fat32 FatVolume Fat32Proofs.

Local Open Scope string_scope.
Local Open Scope list_scope.
Local Open Scope Z_scope.

(** ** From sectors to files *)

Lemma take_read_bytes m a (k j : nat) :
  (k <= j)%nat -> take k (read_bytes m a j) = read_bytes m a k.
Proof.
  revert a j. induction k as [|k IH]; intros a [|j] H; [done|done|lia|].
  cbn. by rewrite IH by lia.
Qed.

Lemma read_bytes_app m a (k j : nat) :
  read_bytes m a (k + j) = read_bytes m a k ++ read_bytes m (a + Z.of_nat k) j.
Proof.
  revert a. induction k as [|k IH]; intros a; cbn [read_bytes Nat.add app].
  - by rewrite Z.add_0_r.
  - rewrite IH. do 3 f_equal. lia.
Qed.

Section Files.
Context {D : Disk} {BD : BlockDevice D}.
Context (part : Z).

(** With one sector per cluster, a buffer with the first sector of each cluster holds
    the clusters. *)
Lemma chain_at_clusters m buf l :
  v_spc bd_image part = 1 -> chain_at part m buf l ->
  read_bytes m buf (512 * List.length l) = flat_map (cluster_bytes bd_image part) l.
Proof.
  intros Hspc. revert buf. induction l as [|c l IH]; intros buf H; [done|].
  replace (512 * List.length (c :: l))%nat with (512 + 512 * List.length l)%nat by (simpl; lia).
  rewrite read_bytes_app. cbn [flat_map]. f_equal.
  - unfold cluster_bytes. rewrite Hspc, <- (Z.add_0_r buf).
    change (512 * 1) with (Z.of_nat 512).
    apply (read_bytes_seqZ (disk_byte bd_image (v_cluster bd_image part c))).
    intros i Hi. specialize (H 0%nat c i eq_refl ltac:(lia)).
    rewrite Z.mul_0_r, Z.add_0_r in H. rewrite H. unfold disk_byte.
    f_equal; Z.to_euclidean_division_equations; lia.
  - apply IH. intros k c' i Hk Hi. rewrite <- (H (S k) c' i Hk Hi). f_equal. lia.
Qed.

Lemma chain_at_file m buf l size :
  v_spc bd_image part = 1 -> chain_at part m buf l ->
  0 <= size <= 512 * Z.of_nat (List.length l) ->
  read_bytes m buf (Z.to_nat size) = file_bytes bd_image part l size.
Proof.
  intros Hspc H Hs. unfold file_bytes.
  rewrite <- (chain_at_clusters m buf l Hspc H). rewrite take_read_bytes; [done|lia].
Qed.
End Files.

(** ** An example volume

    Partition at sector 8: boot sector, one FAT of one sector, the root directory in
    cluster 2, and the file FILE.TXT of 600 bytes in clusters 3 and 5. *)

(** The boot sector from byte 11 on, and the rest of the sectors. *)
Definition example_bpb : list Z :=
  replicate 11 0 ++ bytes_le 2 512 ++ bytes_le 1 1 ++ bytes_le 2 1 ++ bytes_le 1 1 ++
  replicate 19 0 ++ bytes_le 4 1 ++ bytes_le 2 0 ++ bytes_le 2 0 ++ bytes_le 4 2.

Definition example_fat : list Z :=
  bytes_le 4 268435448 ++ bytes_le 4 268435455 ++ bytes_le 4 268435455 ++ bytes_le 4 5 ++
  bytes_le 4 0 ++ bytes_le 4 268435455.

Definition example_root : list Z :=
  bytes_of_string "FILE    TXT" ++ [32; 0; 0; 0; 0; 0; 0; 0; 0; 0; 0; 0; 0; 0; 0] ++
  bytes_le 2 3 ++ bytes_le 4 600.

Definition example_volume (lba i : Z) : Z :=
  if lba =? 8 then u8 (nth (Z.to_nat i) example_bpb 0)
  else if lba =? 9 then u8 (nth (Z.to_nat i) example_fat 0)
  else if lba =? 10 then u8 (nth (Z.to_nat i) example_root 0)
  else if lba =? 11 then 65 else if lba =? 13 then 66 else 0.

Lemma example_volume_byte lba i : 0 <= example_volume lba i < 256.
Proof. unfold example_volume. repeat destruct (_ =? _); try apply u8_bounds; lia. Qed.

#[export] Instance example_disk : Disk := int13_Disk (example_int13 example_volume).
#[export] Instance example_device : BlockDevice example_disk :=
  int13_BlockDevice (example_int13 example_volume) example_volume 128
    (example_int13_reads example_volume example_volume_byte).

Lemma example_volume_ok : volume_ok bd_image 8 1.
Proof.
  split; try (repeat split; vm_compute; (reflexivity || discriminate)).
  intros i Hi. assert (i = 0) as -> by lia. vm_compute. discriminate.
Qed.

(** A machine with a heap of 64 KiB at 64 KiB and the two literals below it. *)
Definition example_ram : mem :=
  write_bytes (write_bytes ∅ 12288 (bytes_of_string "LFN" ++ [0])) 12304
    (bytes_of_string "FILE.TXT" ++ [0]).

Definition example_boot : machine :=
  let '(heap, heapEnd, m) := heapInitialize 65536 65536 example_ram in
  Machine m new_terminal 16 heap heapEnd 128.

Lemma example_boot_world : world example_boot [] 65544.
Proof.
  pose proof (arena_init 65536 65536 example_ram ltac:(lia) ltac:(lia) ltac:(lia)) as H.
  unfold example_boot. destruct (heapInitialize 65536 65536 example_ram) as [[h e] m].
  destruct H as (-> & -> & H). split; cbn [m_ram m_heap m_heapEnd]; [|exact H|lia|lia].
  split; [exact new_terminal_ok|]. split; [done|]. cbn. lia.
Qed.

Lemma example_boot_ready : device_ready 8 example_boot [] 65544.
Proof.
  split; [reflexivity|intros a ->; vm_compute; reflexivity|].
  intros a ->. left. left. unfold in_heap, scratch, mask_address. change (m_heap example_boot) with 65536. lia.
Qed.

(** Literals of the example. *)
Lemma example_literal p str :
  p = 12288 /\ str = bytes_of_string "LFN" \/ p = 12304 /\ str = bytes_of_string "FILE.TXT" ->
  literal_at example_boot p str.
Proof.
  intros H.
  assert (List.length str <= 8)%nat as Hlen.
  { destruct H as [[_ ->]|[_ ->]]; cbn; lia. }
  split.
  - split.
    + intros i c Hi. destruct H as [[-> ->]|[-> ->]];
        repeat (destruct i as [|i]; [injection Hi as <-; by split|]); done.
    + destruct H as [[-> ->]|[-> ->]]; reflexivity.
  - intros i Hi. unfold in_heap, scratch. cbn.
    destruct H as [[-> _]|[-> _]]; lia.
Qed.

Lemma example_chain : chain bd_image 8 (de_cluster bd_image 8 0) [3; 5].
Proof.
  change (de_cluster bd_image 8 0) with 3.
  apply chain_next; [reflexivity|split; vm_compute; (reflexivity || discriminate)|split; vm_compute; (reflexivity || discriminate)|].
  change (v_fat bd_image 8 3) with 5.
  apply chain_next; [reflexivity|split; vm_compute; (reflexivity || discriminate)|split; vm_compute; (reflexivity || discriminate)|].
  apply chain_end. reflexivity.
Qed.

(** The strings the lookup compares: the caller's, and the one for long-name entries. *)
Definition literals (s : machine) (lfn file : Z) (name : list Z) : Prop :=
  literal_at s file name /\ literal_at s lfn (bytes_of_string "LFN").

(** The volume is one the driver reads, and the heap has room for its FAT. *)
Record can_mount {D : Disk} {BD : BlockDevice D} (part n : Z) (s : machine) (own : list (Z * Z)) (top : Z) : Prop := {
  cm_volume : volume_ok bd_image part n;
  cm_world : world s own top;
  cm_ready : device_ready part s own top;
  cm_room : top + 528 + 512 * v_spf bd_image part <= m_heapEnd s;
}.

Lemma example_literals str :
  str = bytes_of_string "LFN" \/ str = bytes_of_string "FILE.TXT" ->
  literals example_boot 12288 (if decide (str = bytes_of_string "LFN") then 12288 else 12304) str.
Proof.
  intros [->| ->]; split; apply example_literal; vm_compute; tauto.
Qed.

Lemma grows_literals s own s' own' lfn file name :
  grows s own s' own' -> literals s lfn file name -> literals s' lfn file name.
Proof. intros Hg [H1 H2]. split; by eapply grows_literal. Qed.

(** ** Properties *)

Section Mounted.
Context {D : Disk} {BD : BlockDevice D}.
Context (lfn part n : Z).

(** Mounting, then looking a file up, from any heap with room. *)
Lemma mount_and_find fs0 s own top file name j l :
  volume_ok bd_image part n -> world s own top -> device_ready part s own top ->
  literal_at s file name -> literal_at s lfn (bytes_of_string "LFN") ->
  find_entry bd_image part (Z.to_nat n) 0 name = Some j ->
  chain bd_image part (de_cluster bd_image part j) l ->
  512 * Z.of_nat (List.length l) <= buffer_size part j ->
  top + 584 + 512 * v_spf bd_image part + 512 * v_spc bd_image part + 21 * n +
    buffer_size part j <= m_heapEnd s ->
  exists fs s1 rs s2,
    returns (fun fuel => init fuel fs0 part) s (0, fs) s1 /\
    returns (fun fuel => getRootFile lfn fuel fs file) s1 rs s2 /\
    (exists own1, grows s own s1 own1 /\ mounted part fs s1 own1 /\
      search_post part s1 own1 rs
        (top + 584 + 512 * v_spf bd_image part + 512 * v_spc bd_image part + 21 * n + buffer_size part j)
        (Some (j, l)) s2).
Proof.
  intros Hvol Hw Hready Hf Hl Hfind Hch Hlen Hroom.
  destruct (fat32_init_spec part n Hvol fs0 s own top Hw Hready) as (s1 & Hr1 & Hg1 & Hw1 & Hm1).
  { destruct (vo_entries _ _ _ Hvol), (vo_spc _ _ _ Hvol). lia. }
  destruct (getRootFile_found_lemma lfn part n Hvol _ s1 _ _ file name j l Hw1 Hm1
    (grows_literal _ _ _ _ _ _ Hg1 Hf) (grows_literal _ _ _ _ _ _ Hg1 Hl) Hfind Hch Hlen)
    as (rs & s2 & Hr2 & Hpost); [destruct (grows_end _ _ _ _ Hg1); lia|].
  eexists _, s1, rs, s2. split; [exact Hr1|]. split; [exact Hr2|]. eexists.
  split; [exact Hg1|]. split; [exact Hm1|].
  replace (top + 584 + 512 * v_spf bd_image part + 512 * v_spc bd_image part + 21 * n + buffer_size part j)
    with (top + 528 + 512 * v_spf bd_image part + 512 * v_spc bd_image part + 56 + 21 * n +
      buffer_size part j) by lia. exact Hpost.
Qed.
End Mounted.

(** C10: on a volume with one sector per cluster, mounting and then looking up a name
    of the root directory returns (both calls end) a result with code 0, the size in
    the directory entry, and a buffer whose first [size] bytes are the bytes of the
    file: the clusters of its chain in order, cut at its size.  With more sectors per
    cluster the driver reads one of each: [getRootFile_one_sector_per_cluster]. *)
Theorem fat32_reads_file {D : Disk} {BD : BlockDevice D} lfn part n fs0 s own top file name j l :
  volume_ok bd_image part n -> v_spc bd_image part = 1 -> world s own top -> device_ready part s own top ->
  literals s lfn file name ->
  find_entry bd_image part (Z.to_nat n) 0 name = Some j ->
  chain bd_image part (de_cluster bd_image part j) l ->
  let size := de_field bd_image part j "size" in
  0 <= size <= 512 * Z.of_nat (List.length l) ->
  512 * Z.of_nat (List.length l) <= buffer_size part j ->
  top + 584 + 512 * v_spf bd_image part + 512 * v_spc bd_image part + 21 * n +
    buffer_size part j <= m_heapEnd s ->
  exists fs s1 rs s2 buf,
    returns (fun fuel => init fuel fs0 part) s (0, fs) s1 /\
    returns (fun fuel => getRootFile lfn fuel fs file) s1 rs s2 /\
    result_at (m_ram s2) rs 0 size buf /\
    read_bytes (m_ram s2) buf (Z.to_nat size) = file_bytes bd_image part l size.
Proof.
  intros Hvol Hspc Hw Hready [Hf Hl] Hfind Hch size Hsize Hlen Hroom.
  destruct (mount_and_find lfn part n fs0 s own top file name j l) as
    (fs & s1 & rs & s2 & H1 & H2 & own1 & _ & _ & own2 & top2 & _ & _ & _ & _ & buf & Hres & _ & Hdata); [done..|].
  exists fs, s1, rs, s2, buf. split; [done|]. split; [done|]. split; [done|].
  by apply chain_at_file.
Qed.

Lemma fat32_reads_file_witness :
  exists fs s1 rs s2 buf,
    returns (fun fuel => init fuel (Fat32 0 0 0) 8) example_boot (0, fs) s1 /\
    returns (fun fuel => getRootFile 12288 fuel fs 12304) s1 rs s2 /\
    result_at (m_ram s2) rs 0 600 buf /\
    read_bytes (m_ram s2) buf 600 = replicate 512 65 ++ replicate 88 66.
Proof.
  destruct (fat32_reads_file 12288 8 1 (Fat32 0 0 0) example_boot [] 65544 12304
    (bytes_of_string "FILE.TXT") 0 [3; 5]) as (fs & s1 & rs & s2 & buf & H1 & H2 & H3 & H4);
    [exact example_volume_ok|reflexivity|exact example_boot_world|exact example_boot_ready
    |apply (example_literals (bytes_of_string "FILE.TXT")); by right|vm_compute; reflexivity
    |exact example_chain|vm_compute; split; discriminate|vm_compute; discriminate
    |vm_compute; discriminate|].
  exists fs, s1, rs, s2, buf. split; [exact H1|]. split; [exact H2|]. split; [exact H3|].
  etransitivity; [exact H4|]. vm_compute. reflexivity.
Defined.

(** Looking up a name that no entry of the root directory has returns a result
    with code 1, a null pointer and size 0; every block allocated before, and memory
    outside the heap and the scratch area, is as it was. *)
Theorem getRootFile_missing {D : Disk} {BD : BlockDevice D} lfn part n fs s own top file name :
  volume_ok bd_image part n -> world s own top -> mounted part fs s own ->
  literals s lfn file name ->
  find_entry bd_image part (Z.to_nat n) 0 name = None ->
  top + 512 * v_spc bd_image part + 48 + 21 * n <= m_heapEnd s ->
  exists rs s' own', returns (fun fuel => getRootFile lfn fuel fs file) s rs s' /\
    result_at (m_ram s') rs 1 0 0 /\ grows s own s' own'.
Proof.
  intros Hvol Hw Hm [Hf Hl] Hfind Hroom.
  destruct (getRootFile_missing_lemma lfn part n Hvol fs s own top file name)
    as (rs & s' & Hr & own' & top' & Hg & _ & Hres); [done..|].
  exists rs, s', own'. by split.
Qed.

Lemma getRootFile_missing_witness :
  exists fs s1 rs s2 own1 own2,
    returns (fun fuel => init fuel (Fat32 0 0 0) 8) example_boot (0, fs) s1 /\
    returns (fun fuel => getRootFile 12288 fuel fs 12288) s1 rs s2 /\
    result_at (m_ram s2) rs 1 0 0 /\ grows s1 own1 s2 own2.
Proof.
  destruct (fat32_init_spec 8 1 example_volume_ok (Fat32 0 0 0) example_boot [] 65544
    example_boot_world example_boot_ready) as (s1 & Hr1 & Hg1 & Hw1 & Hm1); [vm_compute; discriminate|].
  destruct (getRootFile_missing 12288 8 1 _ s1 _ _ 12288 (bytes_of_string "LFN") example_volume_ok
    Hw1 Hm1 (grows_literals _ _ _ _ _ _ _ Hg1 (example_literals _ (or_introl eq_refl)))) as (rs & s2 & own2 & H1 & H2 & H3);
    [vm_compute; reflexivity|destruct (grows_end _ _ _ _ Hg1) as [-> _]; vm_compute; discriminate|].
  eexists _, s1, rs, s2, _, own2. split; [exact Hr1|]. split; [exact H1|]. by split.
Defined.

(** [init] mounts a volume: it returns 0, with the boot sector and the whole
    first FAT in blocks of the heap. *)
Theorem init_mounts {D : Disk} {BD : BlockDevice D} part n fs0 s own top :
  can_mount part n s own top ->
  exists fs s' own' top', returns (fun fuel => init fuel fs0 part) s (0, fs) s' /\
    grows s own s' own' /\ world s' own' top' /\ mounted part fs s' own'.
Proof.
  intros [Hvol Hw Hready Hroom].
  destruct (fat32_init_spec part n Hvol fs0 s own top Hw Hready Hroom) as (s' & H1 & H2 & H3 & H4).
  eexists _, s', _, _. split; [exact H1|]. split; [exact H2|]. by split.
Qed.

Lemma init_mounts_witness :
  exists fs s' own' top', returns (fun fuel => init fuel (Fat32 0 0 0) 8) example_boot (0, fs) s' /\
    grows example_boot [] s' own' /\ world s' own' top' /\ mounted 8 fs s' own'.
Proof.
  apply (init_mounts 8 1 (Fat32 0 0 0) example_boot [] 65544).
  split; [exact example_volume_ok|exact example_boot_world|exact example_boot_ready|]. vm_compute. discriminate.
Defined.

(** Whatever the number of sectors per cluster, the lookup reads one sector of
    each cluster of the chain: sector [k] of the buffer is the first sector of
    cluster [k].  On a volume with more than one sector per cluster the rest of each
    cluster is missing from the file. *)
Theorem getRootFile_one_sector_per_cluster {D : Disk} {BD : BlockDevice D} lfn part n fs s own top file name j l :
  volume_ok bd_image part n -> world s own top -> mounted part fs s own ->
  literals s lfn file name ->
  find_entry bd_image part (Z.to_nat n) 0 name = Some j ->
  chain bd_image part (de_cluster bd_image part j) l ->
  512 * Z.of_nat (List.length l) <= buffer_size part j ->
  top + 512 * v_spc bd_image part + 56 + 21 * n + buffer_size part j <= m_heapEnd s ->
  exists rs s' buf, returns (fun fuel => getRootFile lfn fuel fs file) s rs s' /\
    result_at (m_ram s') rs 0 (de_field bd_image part j "size") buf /\
    forall k c i, l !! k = Some c -> 0 <= i < 512 ->
      rd8 (m_ram s') (buf + 512 * Z.of_nat k + i) = disk_byte bd_image (v_cluster bd_image part c) i.
Proof.
  intros Hvol Hw Hm [Hf Hl] Hfind Hch Hlen Hroom.
  destruct (getRootFile_found_lemma lfn part n Hvol fs s own top file name j l)
    as (rs & s' & Hr & own' & top' & _ & _ & _ & _ & buf & Hres & _ & Hdata); [done..|].
  exists rs, s', buf. split; [done|]. split; [done|]. intros k c i Hk Hi.
  rewrite (Hdata k c i Hk Hi). unfold disk_byte.
  f_equal; Z.to_euclidean_division_equations; lia.
Qed.

Lemma getRootFile_one_sector_per_cluster_witness :
  exists fs s1 rs s2 buf,
    returns (fun fuel => init fuel (Fat32 0 0 0) 8) example_boot (0, fs) s1 /\
    returns (fun fuel => getRootFile 12288 fuel fs 12304) s1 rs s2 /\
    rd8 (m_ram s2) (buf + 512 * 1 + 7) = 66.
Proof.
  destruct (fat32_init_spec 8 1 example_volume_ok (Fat32 0 0 0) example_boot [] 65544
    example_boot_world example_boot_ready) as (s1 & Hr1 & Hg1 & Hw1 & Hm1); [vm_compute; discriminate|].
  destruct (getRootFile_one_sector_per_cluster 12288 8 1 _ s1 _ _ 12304 (bytes_of_string "FILE.TXT")
    0 [3; 5] example_volume_ok Hw1 Hm1 
    (grows_literals _ _ _ _ _ _ _ Hg1 (example_literals _ (or_intror eq_refl)))) as (rs & s2 & buf & H1 & H2 & H3);
    [vm_compute; reflexivity|exact example_chain|vm_compute; discriminate
    |destruct (grows_end _ _ _ _ Hg1) as [-> _]; vm_compute; discriminate|].
  eexists _, s1, rs, s2, buf. split; [exact Hr1|]. split; [exact H1|].
  etransitivity; [exact (H3 1%nat 5 7 eq_refl ltac:(lia))|]. vm_compute. reflexivity.
Defined.

(** ** The test for a directory of more than one cluster *)

(** The FAT entries [readDir] refuses to follow. *)
Definition link_refused (e : Z) : bool :=
  negb (Z.land e 268435440 =? 268435440) && (Z.land e 15 <? 8).

(** [readDir] panics when the cluster's FAT entry is a link it recognises, which
    is never an end mark; the test recognises only links whose low four bits are
    below 8 and that are not among the last 16 values. *)
Theorem readDir_multicluster {D : Disk} {BD : BlockDevice D} part fs s own fuel c :
  machine_ok s -> mounted part fs s own -> 0 <= c < 128 * v_spf bd_image part ->
  link_refused (v_fat bd_image part c) = true ->
  (exists s', readDir fuel fs c s =
     Panicked "readDir(): No support for multiclusters right now" s' /\ same_but_screen s s') /\
  isClusterEnd (v_fat bd_image part c) = false.
Proof.
  intros Hw Hm Hc Hlink. split.
  - destruct (earlyPanic_panics (A := Z) "readDir(): No support for multiclusters right now" s
      Hw) as (s' & E & Hs). exists s'. split; [|done].
    unfold readDir. rewrite (nextCluster_spec part fs s own) by done.
    unfold link_refused in Hlink. rewrite Hlink. exact E.
  - unfold isClusterEnd. apply andb_prop in Hlink as [Hl1 Hl2].
    set (e := v_fat bd_image part c) in *.
    apply negb_true_iff, Z.eqb_neq in Hl1. apply andb_false_iff. left. apply Z.leb_gt.
    change 268435455 with (Z.ones 28). rewrite Z.land_ones by lia.
    destruct (Z.lt_ge_cases (e mod 2 ^ 28) 268435448) as [?|Hge]; [done|]. exfalso. apply Hl1.
    pose proof (Z.mod_pos_bound e (2 ^ 28) ltac:(lia)) as Hb.
    change 268435440 with (Z.land (Z.ones 28) 268435440).
    rewrite Z.land_assoc, Z.land_ones by lia. change (2 ^ 28) with 268435456 in *.
    assert (e mod 268435456 = 268435448 \/ e mod 268435456 = 268435449 \/
      e mod 268435456 = 268435450 \/ e mod 268435456 = 268435451 \/ e mod 268435456 = 268435452 \/
      e mod 268435456 = 268435453 \/ e mod 268435456 = 268435454 \/ e mod 268435456 = 268435455)
      as Hcases by lia.
    repeat (destruct Hcases as [->|Hcases]; [reflexivity|]). by rewrite Hcases.
Qed.

Lemma readDir_multicluster_witness :
  exists fs s1 s2,
    readDir 1 fs 3 s1 = Panicked "readDir(): No support for multiclusters right now" s2.
Proof.
  destruct (fat32_init_spec 8 1 example_volume_ok (Fat32 0 0 0) example_boot [] 65544
    example_boot_world example_boot_ready) as (s1 & Hr1 & Hg1 & Hw1 & Hm1); [vm_compute; discriminate|].
  destruct (readDir_multicluster 8 _ s1 _ 1 3 (w_ok _ _ _ Hw1) Hm1) as ((s2 & E & _) & _);
    [split; vm_compute; (reflexivity || discriminate)|vm_compute; reflexivity|].
  eexists _, s1, s2. exact E.
Defined.
