(* ===== verification/Fat32List.v ===== *)
(** The directory listing of the FAT32 driver, [getInternalDirectoryList] of
    [lib/fs/fat32.cpp]: the array of names and the array of attributes it builds,
    against the directory on the volume. *)

From S2P Require Import Prelude PhysMem Layout CString Xtoa Terminal Heap Machine DiskRead Arena Fat32 FatVolume Fat32Proofs Fat32Props.

Local Open Scope string_scope.
Local Open Scope list_scope.
Local Open Scope Z_scope.

(** ** The local array *)

Lemma poke_app (pre : list Z) x post c j :
  0 <= c < 256 -> j = Z.of_nat (List.length pre) -> poke (pre ++ x :: post) j c = Val (pre ++ c :: post).
Proof.
  intros Hc ->. rewrite poke_val by (rewrite length_app; cbn; lia).
  rewrite Nat2Z.id, u8_small by done. f_equal. rewrite <- (Nat.add_0_r (List.length pre)).
  by rewrite insert_app_r.
Qed.

(** The characters go behind those already there. *)
Lemma local_chars_spec k m ptr pre rest j :
  (k <= List.length rest)%nat -> j = Z.of_nat (List.length pre) ->
  let u := upto_space (read_bytes m (ptr + j) k) in
  local_chars k j m ptr (pre ++ rest) =
    Val (j + Z.of_nat (List.length u), pre ++ u ++ drop (List.length u) rest).
Proof.
  revert pre rest j. induction k as [|k IH]; intros pre rest j Hk Hj u; unfold u.
  { cbn. by rewrite Z.add_0_r. }
  cbn [local_chars read_bytes upto_space]. destruct (Z.eqb_spec (rd8 m (ptr + j)) 32) as [E|E].
  { cbn. by rewrite Z.add_0_r. }
  destruct rest as [|x rest]; [cbn in Hk; lia|]. cbn in Hk.
  rewrite poke_app by (apply rd8_bounds || done). cbn [buf_bind]. set (c := rd8 m (ptr + j)).
  replace (pre ++ c :: rest) with ((pre ++ [c]) ++ rest) by (by rewrite <- app_assoc).
  rewrite IH by (rewrite ?length_app; cbn; lia). rewrite (Z.add_assoc ptr j 1).
  f_equal. f_equal; [cbn [List.length]; lia|]. by rewrite <- app_assoc.
Qed.

Lemma local_ext_spec k i m ptr pre rest j :
  (k <= List.length rest)%nat -> j = Z.of_nat (List.length pre) ->
  local_ext k i j m ptr (pre ++ rest) =
    Val (j + Z.of_nat k, pre ++ read_bytes m (ptr + 8 + i) k ++ drop k rest).
Proof.
  revert i pre rest j. induction k as [|k IH]; intros i pre rest j Hk Hj.
  { cbn. by rewrite Z.add_0_r. }
  destruct rest as [|x rest]; [cbn in Hk; lia|]. cbn in Hk. cbn [local_ext read_bytes].
  change (offsetof fat32_dirEntry "fileExtension") with 8.
  rewrite poke_app by (apply rd8_bounds || done). cbn [buf_bind]. set (c := rd8 m (ptr + 8 + i)).
  replace (pre ++ c :: rest) with ((pre ++ [c]) ++ rest) by (by rewrite <- app_assoc).
  rewrite IH by (rewrite ?length_app; cbn; lia). rewrite (Z.add_assoc (ptr + 8) i 1).
  f_equal. f_equal; [lia|]. by rewrite <- app_assoc.
Qed.

(** Whatever the array held, it holds the characters and the terminator. *)
Lemma local_name_spec str0 m ptr :
  List.length str0 = 13%nat -> exists rest, local_name str0 m ptr = Val (chars_at m ptr ++ 0 :: rest).
Proof.
  intros Hs. unfold local_name, chars_at.
  rewrite (local_chars_spec 8 m ptr [] str0) by (cbn; lia). rewrite Z.add_0_r, Z.add_0_l. cbn [buf_bind fst snd app].
  pose proof (upto_space_length (read_bytes m ptr 8)) as Hu. rewrite length_read_bytes in Hu.
  set (u := upto_space _) in *. clearbody u.
  assert (List.length (drop (List.length u) str0) = (13 - List.length u)%nat) as Hd by (rewrite length_drop; lia).
  set (rest := drop _ _) in *. clearbody rest.
  destruct (_ =? attr_SUBDIRECTORY); cbn [negb].
  - cbn [buf_bind fst snd]. destruct rest as [|x rest]; [cbn in Hd; lia|]. rewrite poke_app by done.
    exists rest. by rewrite app_nil_r.
  - destruct rest as [|x rest]; [cbn in Hd; lia|]. rewrite poke_app by done. cbn [buf_bind].
    replace (u ++ 46 :: rest) with ((u ++ [46]) ++ rest) by (by rewrite <- app_assoc).
    cbn [List.length] in Hd.
    rewrite local_ext_spec by (rewrite ?length_app; cbn; lia). cbn [buf_bind fst snd]. rewrite Z.add_0_r.
    assert (List.length (drop 3 rest) = (9 - List.length u)%nat) as Hd' by (rewrite length_drop; lia).
    destruct (drop 3 rest) as [|y rest']; [cbn in Hd'; lia|].
    rewrite (app_assoc (u ++ [46])).
    rewrite poke_app by (rewrite ?length_app, ?length_read_bytes; cbn; lia).
    exists rest'. by rewrite <- !app_assoc.
Qed.

Lemma c_str_terminated l rest : c_str (l ++ 0 :: rest) = c_str l.
Proof. induction l as [|c l IH]; [done|]. cbn. destruct (c =? 0); [done|]. by rewrite IH. Qed.

Lemma c_str_nonzero l : Forall (fun c => c <> 0) (c_str l).
Proof. induction l as [|c l IH]; cbn; [done|]. destruct (Z.eqb_spec c 0); by constructor. Qed.

Lemma c_str_idemp l : c_str (c_str l) = c_str l.
Proof.
  pose proof (c_str_app (c_str l) [] (c_str_nonzero l)) as H. by rewrite c_str_terminated in H.
Qed.

Lemma c_str_length l : (List.length (c_str l) <= List.length l)%nat.
Proof. induction l as [|c l IH]; cbn; [lia|]. destruct (c =? 0); cbn; lia. Qed.

(** ** A directory that fills its cluster *)

(** The count ends at a null byte, wherever that is. *)
Lemma count_entries_end fuel dirPtr i s r s' :
  0 <= i -> count_entries fuel dirPtr i s = Done r s' -> 0 <= r /\ rd8 (m_ram s) (dirPtr + 32 * r) = 0.
Proof.
  revert i. induction fuel as [|fuel IH]; intros i Hi; [done|]. cbn [count_entries]. rewrite bind_load.
  destruct (Z.eqb_spec (rd8 (m_ram s) (dirPtr + 32 * i)) 0) as [E|E]; cbn [negb].
  - by intros [= <- <-].
  - apply IH. apply wrap_bounds. lia.
Qed.

(** With all [k] entries of the buffer used, the header of the heap behind it is taken for
    one more entry, unless the heap ends at a multiple of 256 (the loader's does not: it
    ends 8 bytes below 0x70000). *)
Lemma count_entries_past s own dir k fuel r s' :
  world s own (dir + 32 * k + 8) -> (dir, 32 * k) ∈ own -> m_heapEnd s mod 256 <> 0 ->
  (forall j, 0 <= j < k -> rd8 (m_ram s) (dir + 32 * j) <> 0) ->
  count_entries fuel dir 0 s = Done r s' -> k < r.
Proof.
  intros Hw Hin He Hu E. apply count_entries_end in E as [Hr E0]; [|done].
  assert (rd8 (m_ram s) (dir + 32 * k) <> 0) as Hk.
  { pose proof (arena_free_header _ _ _ _ _ (w_arena _ _ _ Hw)) as Hn. unfold get_next in Hn.
    replace (dir + 32 * k + 8 - 8) with (dir + 32 * k) in Hn by lia. cbn [load] in Hn.
    intros Hz. apply He. rewrite <- Hn, Hz, Z.add_0_l, Z.mul_comm. by apply Z.mod_mul. }
  destruct (Z.lt_trichotomy r k) as [Hlt|[->|Hgt]]; [|done|done].
  by apply Hu in E0; [|lia].
Qed.

(** ** The list *)

(** What the arrays at [lst] and [atr] hold for entry [j]: the attribute byte, and the
    address of the name; for a part of a long name that is the array of the loop body. *)
Definition listed {D : Disk} {BD : BlockDevice D} (part lfn_local : Z) (m : mem) (lst atr j : Z) : Prop :=
  ld32 m (atr + 4 * j) = de_field bd_image part j "attributes" /\
  (if de_field bd_image part j "attributes" =? attr_LFN then ld32 m (lst + 4 * j) = lfn_local
   else cstring_at m (ld32 m (lst + 4 * j)) (entry_name bd_image part j)).

Section Listing.
Context {D : Disk} {BD : BlockDevice D}.
Context (lfn_local : Z) (str0 : list Z) (part n : Z).
Hypotheses (Hlfn : 0 <= lfn_local < 4294967296) (Hstr0 : List.length str0 = 13%nat).
Hypothesis Hvol : volume_ok bd_image part n.

(** The machine after [readDir], and the blocks allocated behind it. *)
Context (sC : machine) (ownC : list (Z * Z)) (d dir rs lst atr t0 : Z).
Hypothesis Hdir : dir_at part n sC ownC d dir.
Hypotheses (Hrs : 0 <= rs) (Hlst : rs + 24 <= lst) (Hatr : lst + 4 * n + 8 <= atr) (Ht0 : atr + 4 * n + 8 <= t0).

Abbreviation attributes j := (de_field bd_image part j "attributes").
Abbreviation name j := (entry_name bd_image part j).

Record linked (s : machine) (new : list (Z * Z)) (top : Z) : Prop := {
  lk_world : world s (ownC ++ new) top;
  lk_grows : grows sC ownC s (ownC ++ new);
  lk_rs : (rs, 16) ∈ new;
  lk_lst : (lst, 4 * n) ∈ new;
  lk_atr : (atr, 4 * n) ∈ new;
  lk_top : t0 <= top;
  lk_attr : get fat32_internalDirList "attr" (m_ram s) rs = atr;
}.

Lemma linked_dir s new top : linked s new top -> dir_at part n s (ownC ++ new) d dir.
Proof. intros H. eapply dir_at_grows; [exact Hdir|apply H]. Qed.

Lemma linked_block s new top q k :
  linked s new top -> (q, k) ∈ new -> fits q k /\ 0 <= k /\ q + k + 8 <= top /\ top < 458752.
Proof.
  intros H Hq. destruct (world_block s (ownC ++ new) top q k) as (Hf & ? & ? & ? & ?).
  - apply H.
  - apply elem_of_app. by right.
  - pose proof (w_high _ _ _ (lk_world _ _ _ H)). split; [exact Hf|]. lia.
Qed.

(** A write into a block behind [rs]. *)
Lemma linked_write s new top b k q l m' :
  linked s new top -> (b, k) ∈ new -> rs + 16 <= b -> only_changes q l (m_ram s) m' ->
  b <= q -> 0 <= l -> q + l <= b + k -> linked (set_ram m' s) new top.
Proof.
  intros H Hb Hbr C Hq Hl Hlk. destruct (linked_block _ _ _ _ _ H Hb) as ((? & ? & ?) & ? & ? & ?).
  assert (fits q l) as Hf by (unfold fits; lia).
  destruct (grows_update sC ownC s (ownC ++ new) top (set_ram m' s) new b k q l) as [Hg Hw];
    [apply H|apply H|done|done|by apply updates_store|lia..|].
  destruct H. split; [done|done|done|done|done|done|]. cbn [m_ram set_ram]. rewrite <- lk_attr0.
  unfold get. change (offsetof fat32_internalDirList "attr") with 12.
  change (Z.to_nat (fieldsize fat32_internalDirList "attr")) with 4%nat.
  apply (load_out 4 _ _ _ _ _ C Hf); unfold fits; lia.
Qed.

Lemma linked_cell s new top b i v :
  linked s new top -> b = lst \/ b = atr -> 0 <= i < n -> linked (set_ram (st32 (m_ram s) (b + 4 * i) v) s) new top.
Proof.
  intros H Hb Hi. eapply (linked_write _ _ _ b (4 * n) (b + 4 * i) 4); [done| | | |lia..].
  - destruct Hb as [-> | ->]; apply H.
  - lia.
  - by apply (store_only_changes 4).
Qed.

(** Entry [j] is in the arrays; its name, when it is not that of a long-name part, lies
    between [t0] and [top]. *)
Definition entered (m : mem) (top j : Z) : Prop :=
  listed part lfn_local m lst atr j /\
  (attributes j <> attr_LFN ->
   t0 <= ld32 m (lst + 4 * j) /\ ld32 m (lst + 4 * j) + Z.of_nat (List.length (name j)) + 9 <= top).

(** Memory below the free block, the cells of entry [i] and the result structure aside. *)
Definition kept_but (i top : Z) (m m' : mem) : Prop :=
  forall a, 0 <= a < top - 8 -> ~ lst + 4 * i <= a < lst + 4 * i + 4 ->
    ~ atr + 4 * i <= a < atr + 4 * i + 4 -> ~ rs <= a < rs + 16 -> rd8 m' a = rd8 m a.

Lemma entered_kept m m' top top' i j :
  entered m top j -> kept_but i top m m' -> 0 <= j < n -> 0 <= i <= n -> j <> i -> t0 <= top -> top <= top' -> entered m' top' j.
Proof.
  intros [[Ha Hn] Hp] F Hj Hi Hij Ht Ht'.
  assert (forall b, b = lst \/ b = atr -> ld32 m' (b + 4 * j) = ld32 m (b + 4 * j)) as E.
  { intros b Hb. apply load_ext. intros k Hk. apply F; destruct Hb as [-> | ->]; lia. }
  unfold entered, listed. rewrite !E by auto. split; [split; [exact Ha|]|intros Hl; specialize (Hp Hl); lia].
  destruct (Z.eqb_spec (attributes j) attr_LFN) as [|Hl]; [exact Hn|]. destruct (Hp Hl) as [Hp1 Hp2].
  eapply cstring_at_ext; [|exact Hn]. intros k Hk. apply F; lia.
Qed.

Lemma attributes_bounds s own i : dir_at part n s own d dir -> 0 <= i < n -> 0 <= attributes i < 256.
Proof.
  intros H Hi. pose proof (vo_entries _ _ _ Hvol). rewrite <- (entry_get part n s own d dir i "attributes" H) by lia.
  apply (load_bounds 1).
Qed.

(** The writes for an entry: the name's address, its bytes, the attribute. *)
Definition set_cells (i p : Z) (w : list Z) (v : Z) (m : mem) : mem :=
  st32 (write_bytes (st32 m (lst + 4 * i) p) p w) (atr + 4 * i) v.

(** The bytes go into a block of their own behind the arrays, or there are none. *)
Definition room_for (new : list (Z * Z)) (p : Z) (w : list Z) : Prop :=
  w = [] \/ t0 <= p /\ (p, Z.of_nat (List.length w)) ∈ new.

Lemma linked_named s new top i p w :
  linked s new top -> 0 <= i < n -> room_for new p w ->
  linked (set_ram (write_bytes (st32 (m_ram s) (lst + 4 * i) p) p w) s) new top.
Proof.
  intros H Hi Hw. pose proof (linked_cell s new top lst i p H (or_introl eq_refl) Hi) as H1.
  set (s1 := set_ram (st32 (m_ram s) (lst + 4 * i) p) s) in *.
  change (linked (set_ram (write_bytes (m_ram s1) p w) s1) new top).
  destruct Hw as [-> | [Hp Hw]]; [exact H1|]. destruct (linked_block _ _ _ _ _ H1 Hw) as ((? & ? & ?) & ? & ? & ?).
  apply (linked_write _ _ _ p _ p (Z.of_nat (List.length w)) _ H1 Hw); [lia|apply write_bytes_only_changes; lia|lia..].
Qed.

Lemma linked_cells s new top i p w v :
  linked s new top -> 0 <= i < n -> room_for new p w ->
  linked (set_ram (set_cells i p w v (m_ram s)) s) new top.
Proof.
  intros H Hi Hw. apply (linked_cell _ new top atr i v (linked_named s new top i p w H Hi Hw)); [by right|done].
Qed.

Lemma cells_written s new top i p w v :
  linked s new top -> 0 <= i < n -> room_for new p w -> 0 <= p < 4294967296 -> 0 <= v < 4294967296 ->
  let m' := set_cells i p w v (m_ram s) in
  ld32 m' (lst + 4 * i) = p /\ ld32 m' (atr + 4 * i) = v /\
  (forall j, 0 <= j < Z.of_nat (List.length w) ->
     rd8 m' (p + j) = rd8 (write_bytes (st32 (m_ram s) (lst + 4 * i) p) p w) (p + j)) /\
  (forall a, 0 <= a < 4294967296 -> ~ lst + 4 * i <= a < lst + 4 * i + 4 -> ~ atr + 4 * i <= a < atr + 4 * i + 4 ->
     ~ p <= a < p + Z.of_nat (List.length w) -> rd8 m' a = rd8 (m_ram s) a).
Proof.
  intros H Hi Hw Hp Hv m'. unfold m', set_cells.
  destruct (linked_block _ _ _ _ _ H (lk_atr _ _ _ H)) as (_ & _ & ? & ?). set (m1 := st32 (m_ram s) (lst + 4 * i) p).
  assert (forall a, 0 <= a < 4294967296 -> ~ p <= a < p + Z.of_nat (List.length w) ->
    rd8 (write_bytes m1 p w) a = rd8 m1 a) as F.
  { intros a Ha Ho. destruct Hw as [-> | [Ht Hw]]; [done|].
    destruct (linked_block _ _ _ _ _ H Hw) as (Hf & ? & ? & ?). destruct (id Hf) as (? & ? & ?).
    eapply only_changes_out; [apply write_bytes_only_changes; lia|done|done|lia]. }
  assert (w = [] \/ t0 <= p) as Hpt by (destruct Hw as [|[? _]]; auto).
  split; [|split; [|split]].
  - rewrite ld32_st32_out by lia. transitivity (ld32 m1 (lst + 4 * i)); [|by apply ld32_st32].
    apply load_ext. intros k Hk. apply F; [lia|]. destruct Hpt as [-> |]; cbn; lia.
  - by apply ld32_st32.
  - intros j Hj. destruct Hw as [-> | [Ht Hw]]; [cbn in Hj; lia|].
    destruct (linked_block _ _ _ _ _ H Hw) as (_ & ? & ? & ?). apply rd8_store_out; cbn; lia.
  - intros a Ha Ho1 Ho2 Ho3. rewrite rd8_store_out by (cbn; lia). rewrite F by done.
    unfold m1. apply rd8_store_out; cbn; lia.
Qed.

(** One entry: the arrays' cells and the name, as [list_names] writes them. *)
Definition enters (i : Z) (s : machine) (top : Z) (s' : machine) (top' : Z) : Prop :=
  entered (m_ram s') top' i /\ kept_but i top (m_ram s) (m_ram s') /\ m_heapEnd s' = m_heapEnd s /\
  top <= top' <= top + 21.

Lemma enter_lfn s new top i :
  linked s new top -> 0 <= i < n -> attributes i = attr_LFN ->
  let s' := set_ram (set_cells i lfn_local [] attr_LFN (m_ram s)) s in
  linked s' new top /\ enters i s top s' top.
Proof.
  intros H Hi Ha s'. destruct (cells_written s new top i lfn_local [] attr_LFN) as (C1 & C2 & _ & C4);
    [done|done|by left|done|done|].
  split; [apply linked_cells; [done|done|by left]|]. split; [|split; [|split; [done|lia]]].
  - split; [|by intros ?]. unfold listed. rewrite Ha. by split.
  - intros a Ha' Ho1 Ho2 Ho3. pose proof (lk_top _ _ _ H).
    destruct (linked_block _ _ _ _ _ H (lk_atr _ _ _ H)) as (_ & _ & ? & ?). apply C4; cbn; lia.
Qed.

Lemma linked_new s new top k :
  linked s new top -> 0 <= k -> top + k + 8 <= m_heapEnd s ->
  exists s1, returns (fun fuel => new_bytes fuel k) s top s1 /\
    linked s1 (new ++ [(top, k)]) (top + k + 8) /\ m_heapEnd s1 = m_heapEnd s /\
    forall a, 0 <= a < top - 8 -> rd8 (m_ram s1) a = rd8 (m_ram s) a.
Proof.
  intros H Hk Hroom. destruct (new_bytes_spec s (ownC ++ new) top k (lk_world _ _ _ H) Hk Hroom)
    as (s1 & Hr & Hg & Hw & He & _ & _ & F).
  exists s1. split; [exact Hr|]. split; [|split; [done|]].
  - assert (forall x, x ∈ new -> x ∈ new ++ [(top, k)]) as Hin by (intros; apply elem_of_app; by left).
    rewrite <- app_assoc in Hg, Hw. destruct H.
    split; [done|by eapply grows_trans|by apply Hin..|lia|]. rewrite <- lk_attr0.
    apply (grows_get _ _ _ _ _ _ _ 16 Hg); [|done..]. apply elem_of_app. by right.
  - intros a Ha. pose proof (w_high _ _ _ (lk_world _ _ _ H)). apply F; lia.
Qed.

Lemma name_bounds s own i :
  dir_at part n s own d dir -> 0 <= i < n -> attributes i <> attr_LFN ->
  name i = c_str (entry_chars bd_image part i) /\ Z.of_nat (List.length (name i)) <= 12 /\
  Forall (fun c => 0 <= c < 256) (name i).
Proof.
  intros H Hi Ha. pose proof (vo_entries _ _ _ Hvol).
  assert (name i = c_str (entry_chars bd_image part i)) as E.
  { unfold entry_name. by rewrite (proj2 (Z.eqb_neq _ _)) by done. }
  split; [exact E|]. rewrite E, <- (chars_at_entry part n s own d dir i H) by lia.
  split; [|apply c_str_Forall, chars_at_Forall].
  pose proof (c_str_length (chars_at (m_ram s) (dir + 32 * i))). pose proof (chars_at_length (m_ram s) (dir + 32 * i)). lia.
Qed.

Lemma enter_name s new top i :
  linked s new top -> 0 <= i < n -> attributes i <> attr_LFN -> top + 21 <= m_heapEnd s ->
  let k := Z.of_nat (List.length (name i)) + 1 in
  exists s1, returns (fun fuel => new_bytes fuel k) s top s1 /\
    room_for (new ++ [(top, k)]) top (name i ++ [0]) /\ linked s1 (new ++ [(top, k)]) (top + k + 8) /\
    let s' := set_ram (set_cells i top (name i ++ [0]) (attributes i) (m_ram s1)) s1 in
    linked s' (new ++ [(top, k)]) (top + k + 8) /\ enters i s top s' (top + k + 8).
Proof.
  intros H Hi Ha Hroom k.
  destruct (name_bounds s _ i (linked_dir _ _ _ H) Hi Ha) as (En & Hlen & Hch).
  destruct (linked_new s new top k H) as (s1 & Hr & H1 & He & F); [lia..|].
  exists s1. split; [exact Hr|].
  pose proof (lk_top _ _ _ H) as Ht. pose proof (attributes_bounds _ _ i (linked_dir _ _ _ H) Hi) as Hab.
  assert (Z.of_nat (List.length (name i ++ [0])) = k) as Hk by (rewrite length_app; cbn; lia).
  assert (room_for (new ++ [(top, k)]) top (name i ++ [0])) as Hw.
  { right. split; [done|]. rewrite Hk. apply elem_of_app. right. left. }
  split; [exact Hw|]. split; [exact H1|]. intros s'.
  destruct (linked_block _ _ _ top k H1) as ((? & ? & ?) & ? & ? & ?); [apply elem_of_app; right; left|].
  destruct (cells_written s1 _ _ i top (name i ++ [0]) (attributes i) H1 Hi Hw) as (C1 & C2 & C3 & C4); [lia..|].
  split; [by apply linked_cells|]. split; [|split; [|split; [done|lia]]].
  - unfold entered, listed. cbn [m_ram set_ram s']. rewrite (proj2 (Z.eqb_neq _ _)) by done.
    rewrite C1, C2. split; [split; [done|]|lia].
    rewrite Hk in C3. set (m' := set_cells _ _ _ _ _) in *. clearbody m'.
    eapply cstring_at_ext; [intros j Hj; apply C3; lia|].
    assert (c_str (name i) = name i) as Ec by (rewrite En; apply c_str_idemp).
    rewrite <- Ec at 2. apply cstring_written; [done|unfold fits; lia|lia].
  - intros a Ha' Ho1 Ho2 Ho3. rewrite <- F by done. apply C4; [lia|done|done|lia].
Qed.

Lemma entry_ptr s new top i :
  linked s new top -> 0 <= i < n -> u32 (dir + 32 * i) = dir + 32 * i.
Proof.
  intros H Hi. pose proof (linked_dir _ _ _ H) as Hd. pose proof (vo_entries _ _ _ Hvol).
  destruct (world_block _ _ _ _ _ (lk_world _ _ _ H) (da_dir_own _ _ _ _ _ _ Hd)) as ((? & ? & ?) & _).
  apply u32_small. lia.
Qed.

Lemma bind_run_buf {A B} (f : mem -> buf_result A) (k : A -> prog machine B) s a :
  f (m_ram s) = Val a -> bind (run_buf f) k s = k a s.
Proof. intros E. unfold bind, run_buf. by rewrite E. Qed.

(** One round of the loop. *)
Lemma list_round s new top i fuel fuel0 :
  linked s new top -> 0 <= i < n ->
  list_names lfn_local str0 (S fuel) fuel0 d rs lst i s =
    bind (if attributes i =? attr_LFN then
            do* store_ram (fun m => st32 m (lst + 4 * i) lfn_local) in
            let* attr := load_ram (fun m => get fat32_internalDirList "attr" m rs) in
            store_ram (fun m => st32 m (attr + 4 * i) attr_LFN)
          else
            let* str := run_buf (fun m => local_name str0 m (dir + 32 * i)) in
            let name := c_str str in
            let* p := new_bytes fuel0 (array_new (Z.of_nat (List.length name) + 1) 1) in
            do* store_ram (fun m => st32 m (lst + 4 * i) p) in
            do* store_ram (fun m => write_bytes m p (name ++ [0])) in
            let* attr := load_ram (fun m => get fat32_internalDirList "attr" m rs) in
            store_ram (fun m => st32 m (attr + 4 * i) (get fat32_dirEntry "attributes" m (dir + 32 * i))))
      (fun _ => list_names lfn_local str0 fuel fuel0 d rs lst (i + 1)) s.
Proof.
  intros H Hi. pose proof (linked_dir _ _ _ H) as Hd. pose proof (vo_entries _ _ _ Hvol) as Hn.
  cbn [list_names]. rewrite bind_load, (da_num _ _ _ _ _ _ Hd).
  rewrite (proj2 (Z.ltb_lt _ _)) by lia. cbn [negb]. rewrite bind_load, (da_entries _ _ _ _ _ _ Hd).
  rewrite (entry_ptr _ _ _ _ H Hi). cbv zeta. rewrite bind_load.
  by rewrite (entry_get part n s _ d dir i "attributes" Hd) by lia.
Qed.

Lemma list_step s new top i :
  linked s new top -> 0 <= i < n -> top + 21 <= m_heapEnd s ->
  exists s' new' top' f, linked s' new' top' /\ enters i s top s' top' /\
    forall fuel fuel0, (f < fuel0)%nat ->
      list_names lfn_local str0 (S fuel) fuel0 d rs lst i s = list_names lfn_local str0 fuel fuel0 d rs lst (i + 1) s'.
Proof.
  intros H Hi Hroom. pose proof (linked_dir _ _ _ H) as Hd. pose proof (vo_entries _ _ _ Hvol) as Hn.
  pose proof (linked_cell s new top lst i lfn_local H (or_introl eq_refl) Hi) as Hc.
  destruct (Z.eqb_spec (attributes i) attr_LFN) as [Ha|Ha].
  - destruct (enter_lfn s new top i H Hi Ha) as [H' He]. eexists _, _, _, 0%nat.
    split; [exact H'|]. split; [exact He|]. intros fuel fuel0 _. rewrite (list_round s new top) by done.
    rewrite (proj2 (Z.eqb_eq _ _) Ha), !bind_assoc, bind_store, bind_assoc, bind_load.
    rewrite (lk_attr _ _ _ Hc). by rewrite bind_store.
  - destruct (enter_name s new top i H Hi Ha Hroom) as (s1 & [f Hr] & Hw & H1 & H' & He).
    eexists _, _, _, f. split; [exact H'|]. split; [exact He|]. intros fuel fuel0 Hf.
    rewrite (list_round s new top) by done. rewrite (proj2 (Z.eqb_neq _ _) Ha).
    destruct (local_name_spec str0 (m_ram s) (dir + 32 * i) Hstr0) as [rest Es].
    rewrite bind_assoc, (bind_run_buf _ _ _ _ Es), c_str_terminated. cbv zeta.
    rewrite (chars_at_entry part n s _ d dir i Hd) by lia.
    destruct (name_bounds _ _ _ Hd Hi Ha) as (En & Hlen & _). rewrite <- En.
    rewrite array_new_small, Z.mul_1_r by lia. rewrite bind_assoc, (bind_Done _ _ _ _ _ (Hr fuel0 Hf)).
    rewrite bind_assoc, bind_store, bind_assoc, bind_store, bind_assoc, bind_load.
    pose proof (linked_named _ _ _ i top _ H1 Hi Hw) as H2. pose proof (lk_attr _ _ _ H2) as Eat.
    cbn [m_ram set_ram] in Eat |- *. rewrite Eat, bind_store. cbn [m_ram set_ram].
    pose proof (entry_get part n _ _ d dir i "attributes" (linked_dir _ _ _ H2) ltac:(lia)) as Ea2.
    cbn [m_ram set_ram] in Ea2. by rewrite Ea2.
Qed.

(** The rounds from entry [i] on. *)
Lemma list_rounds k i s new top :
  i + Z.of_nat k = n -> 0 <= i -> linked s new top -> (forall j, 0 <= j < i -> entered (m_ram s) top j) ->
  top + 21 * Z.of_nat k <= m_heapEnd s ->
  exists s' new' top' f, linked s' new' top' /\ (forall j, 0 <= j < n -> entered (m_ram s') top' j) /\
    forall fuel fuel0, (k < fuel)%nat -> (f < fuel0)%nat -> list_names lfn_local str0 fuel fuel0 d rs lst i s = Done tt s'.
Proof.
  revert i s new top. induction k as [|k IH]; intros i s new top Hk Hi H He Hroom.
  { exists s, new, top, 0%nat. split; [done|]. split; [intros j Hj; apply He; lia|].
    intros fuel fuel0 Hf _. destruct fuel as [|fuel]; [lia|]. cbn [list_names].
    rewrite bind_load, (da_num _ _ _ _ _ _ (linked_dir _ _ _ H)). by rewrite (proj2 (Z.ltb_ge _ _)) by lia. }
  destruct (list_step s new top i H) as (s1 & new1 & top1 & f1 & H1 & (E1 & K1 & He1 & Ht1) & Hrun); [lia|lia|].
  destruct (IH (i + 1) s1 new1 top1) as (s2 & new2 & top2 & f2 & H2 & E2 & Hrun2); [lia|lia|done| |lia|].
  { intros j Hj. destruct (Z.eq_dec j i) as [->|Hne]; [exact E1|].
    apply (entered_kept (m_ram s) _ top _ i); [apply He; lia|exact K1|lia|lia|done|apply H|lia]. }
  exists s2, new2, top2, (f1 + f2)%nat. split; [done|]. split; [done|]. intros fuel fuel0 Hf Hf0.
  destruct fuel as [|fuel]; [lia|]. rewrite Hrun by lia. apply Hrun2; lia.
Qed.

(** Filling in the result structure at the end. *)
Lemma result_write s new top m' :
  linked s new top -> only_changes rs 16 (m_ram s) m' ->
  grows sC ownC (set_ram m' s) (ownC ++ new) /\ world (set_ram m' s) (ownC ++ new) top /\
  forall j, 0 <= j < n -> entered (m_ram s) top j -> entered m' top j.
Proof.
  intros H C. destruct (linked_block _ _ _ _ _ H (lk_rs _ _ _ H)) as (Hf & _ & _ & ?).
  destruct (grows_update sC ownC s (ownC ++ new) top (set_ram m' s) new rs 16 rs 16) as [Hg Hw];
    [apply H|apply H|done|apply H|by apply updates_store|lia..|].
  split; [done|]. split; [done|]. intros j Hj He.
  apply (entered_kept (m_ram s) m' top top n j He); [|lia|lia|lia|apply H|lia].
  intros a Ha _ _ Hr. apply (only_changes_out _ _ _ _ _ C Hf); lia.
Qed.
End Listing.

(** ** The whole function *)

Section Whole.
Context {D : Disk} {BD : BlockDevice D}.
Context (part n : Z).
Hypothesis Hvol : volume_ok bd_image part n.

(** The structure and the two arrays. *)
Lemma list_arrays sC ownC d dir rs :
  dir_at part n sC ownC d dir -> world sC ownC rs ->
  let lst := rs + 24 in let atr := lst + 4 * n + 8 in let t0 := atr + 4 * n + 8 in
  t0 <= m_heapEnd sC ->
  exists s' new f, linked n sC ownC rs lst atr t0 s' new t0 /\ m_heapEnd s' = m_heapEnd sC /\
    forall A (k : Z -> Z -> prog machine A) fuel, (f < fuel)%nat ->
      (let* returnStruct := new_bytes fuel (sizeof fat32_internalDirList) in
       let* numEntries := load_ram (fun m => get readDirResult "numEntries" m d) in
       let* filenameList := new_bytes fuel (array_new numEntries 4) in
       let* numEntries := load_ram (fun m => get readDirResult "numEntries" m d) in
       let* attr := new_bytes fuel (array_new numEntries 4) in
       do* store_ram (fun m => put fat32_internalDirList "attr" m returnStruct attr) in
       k returnStruct filenameList) sC = k rs lst s'.
Proof.
  intros Hd Hw lst atr t0 Hroom. pose proof (vo_entries _ _ _ Hvol) as Hn.
  assert (n < 2097152) as Hn'.
  { destruct (world_block _ _ _ _ _ Hw (da_dir_own _ _ _ _ _ _ Hd)) as ((? & ? & ?) & ? & ? & ? & ?).
    pose proof (w_high _ _ _ Hw). lia. }
  destruct (new_bytes_spec sC ownC rs 16 Hw) as (s1 & [f1 R1] & G1 & W1 & E1 & _); [lia|lia|].
  replace (rs + 16 + 8) with lst in W1 by (unfold lst; lia).
  destruct (new_bytes_spec s1 _ lst (4 * n) W1) as (s2 & [f2 R2] & G2 & W2 & E2 & _); [lia|lia|].
  replace (lst + 4 * n + 8) with atr in W2 by done.
  destruct (new_bytes_spec s2 _ atr (4 * n) W2) as (s3 & [f3 R3] & G3 & W3 & E3 & _); [lia|lia|].
  replace (atr + 4 * n + 8) with t0 in W3 by done.
  pose proof (dir_at_grows part n _ _ _ _ _ _ Hd G1) as D1.
  pose proof (grows_trans _ _ _ _ _ _ G1 G2) as G12. pose proof (dir_at_grows part n _ _ _ _ _ _ Hd G12) as D2.
  pose proof (grows_trans _ _ _ _ _ _ G12 G3) as G13.
  set (new := [(rs, 16); (lst, 4 * n); (atr, 4 * n)]).
  replace (((ownC ++ [(rs, 16)]) ++ [(lst, 4 * n)]) ++ [(atr, 4 * n)]) with (ownC ++ new) in G13, W3
    by (unfold new; by rewrite <- !app_assoc).
  assert ((rs, 16) ∈ new) as Hin by left.
  destruct (world_block _ _ _ rs 16 W3) as (Hf & ? & ? & ? & ?); [apply elem_of_app; by right|].
  pose proof (w_high _ _ _ W3). destruct (id Hf) as (Hrs & _ & _).
  set (m' := put fat32_internalDirList "attr" (m_ram s3) rs atr).
  destruct (grows_update sC ownC s3 _ t0 (set_ram m' s3) new rs 16 rs 16 G13 W3) as [G W];
    [done|done|by apply updates_put|lia..|].
  exists (set_ram m' s3), new, (f1 + f2 + f3)%nat. split; [|split; [cbn; lia|]].
  - split; [done|done|done|right; left|right; right; left|lia|].
    cbn [m_ram set_ram]. unfold m'. rewrite get_put_eq by done. apply Z.mod_small.
    change (256 ^ fieldsize fat32_internalDirList "attr") with 4294967296. lia.
  - intros A k fuel Hfu. change (sizeof fat32_internalDirList) with 16.
    rewrite (bind_Done _ _ _ _ _ (R1 fuel ltac:(lia))), bind_load, (da_num _ _ _ _ _ _ D1).
    rewrite array_new_small, Z.mul_comm by lia.
    rewrite (bind_Done _ _ _ _ _ (R2 fuel ltac:(lia))), bind_load, (da_num _ _ _ _ _ _ D2).
    rewrite array_new_small, Z.mul_comm by lia.
    by rewrite (bind_Done _ _ _ _ _ (R3 fuel ltac:(lia))), bind_store.
Qed.
End Whole.

(** The list [getInternalDirectoryList] returns. *)
Record dirlist_at {D : Disk} {BD : BlockDevice D} (part n lfn_local : Z) (m : mem) (rs lst atr : Z) : Prop := {
  dl_code : get fat32_internalDirList "returnCode" m rs = 0;
  dl_size : get fat32_internalDirList "size" m rs = n;
  dl_list : get fat32_internalDirList "list" m rs = lst;
  dl_attr : get fat32_internalDirList "attr" m rs = atr;
  dl_entry j : 0 <= j < n -> listed part lfn_local m lst atr j;
}.

(** C11: on any volume the driver can read and with room on the heap, listing the root
    directory returns (the call ends) a structure with code 0 and the number of entries,
    whose arrays hold for every entry its attribute byte and an address: that of its name as
    a string on the heap, unless it is part of a long name; for those entries it is only the
    address of a local array of the call, which is dead by then.  The blocks allocated before
    are as they were. *)
Theorem getInternalDirectoryList_lists {D : Disk} {BD : BlockDevice D} lfn_local str0 part n fs s own top directory :
  volume_ok bd_image part n -> world s own top -> mounted part fs s own ->
  0 <= lfn_local < 4294967296 -> List.length str0 = 13%nat ->
  top + 512 * v_spc bd_image part + 68 + 29 * n <= m_heapEnd s ->
  exists rs s' own' lst atr,
    returns (fun fuel => getInternalDirectoryList lfn_local str0 fuel fs directory) s rs s' /\
    dirlist_at part n lfn_local (m_ram s') rs lst atr /\ grows s own s' own'.
Proof.
  intros Hvol Hw Hm Hlfn Hstr0 Hroom. pose proof (vo_entries _ _ _ Hvol) as Hn. pose proof (w_high _ _ _ Hw).
  destruct (readDir_spec part n Hvol fs s own top Hw Hm) as (sC & [f1 R1] & GC & WC & Hdir); [lia|].
  set (d := top + 512 * v_spc bd_image part + 8) in *. destruct (grows_end _ _ _ _ GC) as [HeC _].
  destruct (list_arrays part n Hvol sC _ d top (d + 20) Hdir WC) as (s2 & new & f2 & L2 & He2 & R2); [lia|].
  set (rs := d + 20) in *. set (lst := rs + 24) in *. set (atr := lst + 4 * n + 8) in *. set (t0 := atr + 4 * n + 8) in *.
  destruct (world_block _ _ _ _ _ WC (da_own _ _ _ _ _ _ Hdir)) as ((? & _ & _) & _).
  destruct (list_rounds lfn_local str0 part n Hlfn Hstr0 Hvol sC _ d top rs lst atr t0 Hdir ltac:(lia) ltac:(lia)
    ltac:(lia) ltac:(lia) (Z.to_nat n) 0 s2 new t0) as (s3 & new3 & top3 & f3 & L3 & E3 & R3);
    [lia|lia|done|intros j Hj; lia|lia|].
  set (m1 := put fat32_internalDirList "list" (m_ram s3) rs lst).
  set (m2 := put fat32_internalDirList "size" m1 rs n). set (m3 := put fat32_internalDirList "returnCode" m2 rs 0).
  destruct (put3_spec (m_ram s3) fat32_internalDirList "list" "size" "returnCode" rs lst n 0)
    as (G1 & G2 & G3 & C); [done..|]. fold m1 m2 m3 in G1, G2, G3, C.
  assert (only_changes rs 16 (m_ram s3) m1) as C1 by (by apply (put_only_changes fat32_internalDirList)).
  eapply (result_write lfn_local str0 part) in C as (Gf & Wf & Ef); [|exact Hstr0|..|exact L3]; [|lia..].
  eapply (result_write lfn_local str0 part) in C1 as (Gf1 & _ & _); [|exact Hstr0|..|exact L3]; [|lia..].
  pose proof (dir_at_grows part n _ _ _ _ _ _ Hdir Gf1) as D1.
  destruct (world_block _ _ _ rs 16 (lk_world _ _ _ _ _ _ _ _ _ _ L3)) as ((? & _ & ?) & ? & _ & ? & ?);
    [apply elem_of_app; right; apply L3|].
  eexists rs, (set_ram m3 s3), _, lst, atr. split; [|split; [|by eapply grows_trans]].
  - exists (f1 + f2 + f3 + Z.to_nat n)%nat. intros fuel Hf. unfold getInternalDirectoryList.
    rewrite (bpd_spec part fs s own) by done. change (vbr_field bd_image part "clusterNumberRoot") with (v_root bd_image part).
    rewrite (bind_Done _ _ _ _ _ (R1 fuel ltac:(lia))). etransitivity; [refine (R2 _ _ fuel _); lia|]. cbv beta.
    rewrite (bind_Done _ _ _ _ _ (R3 fuel fuel ltac:(lia) ltac:(lia))), bind_store, bind_load.
    pose proof (da_num _ _ _ _ _ _ D1) as N1. cbn [m_ram set_ram] in N1 |- *. fold m1. rewrite N1, !bind_store. done.
  - split; cbn [m_ram set_ram].
    + exact G3.
    + rewrite G2. apply Z.mod_small. change (256 ^ fieldsize fat32_internalDirList "size") with 4294967296. lia.
    + rewrite G1. apply Z.mod_small. change (256 ^ fieldsize fat32_internalDirList "list") with 4294967296. lia.
    + unfold m3, m2, m1. rewrite !get_put_ne by done. apply L3.
    + intros j Hj. by apply Ef, E3.
Qed.

Lemma getInternalDirectoryList_lists_witness :
  exists fs s1 rs s2 lst atr,
    returns (fun fuel => init fuel (Fat32 0 0 0) 8) example_boot (0, fs) s1 /\
    returns (fun fuel => getInternalDirectoryList 12352 (replicate 13 7) fuel fs 0) s1 rs s2 /\
    get fat32_internalDirList "size" (m_ram s2) rs = 1 /\
    ld32 (m_ram s2) (atr + 0) = attr_ARCHIVE /\ cstring_at (m_ram s2) (ld32 (m_ram s2) (lst + 0)) (bytes_of_string "FILE.TXT").
Proof.
  destruct (fat32_init_spec 8 1 example_volume_ok (Fat32 0 0 0) example_boot [] 65544
    example_boot_world example_boot_ready) as (s1 & Hr1 & Hg1 & Hw1 & Hm1); [vm_compute; discriminate|].
  destruct (getInternalDirectoryList_lists 12352 (replicate 13 7) 8 1 _ s1 _ _ 0 example_volume_ok Hw1 Hm1)
    as (rs & s2 & own2 & lst & atr & H1 & [_ H2 _ _ H3] & _);
    [lia|reflexivity|destruct (grows_end _ _ _ _ Hg1) as [-> _]; vm_compute; discriminate|].
  eexists _, s1, rs, s2, lst, atr. split; [exact Hr1|]. split; [exact H1|]. split; [exact H2|].
  destruct (H3 0 ltac:(lia)) as [Ha Hn]. split; [exact Ha|exact Hn].
Defined.
