(* ===== verification/MemDetect.v ===== *)
(** Memory detection through the BIOS: [lib/earlyLib/memoryDetection16.cpp], with its
    stubs [asmCall_int12.S] and [asmCall_int15.S] and the memory map structures of
    [include/sys/multiboot.h]. *)

From S2P Require Import Prelude PhysMem Layout CString Terminal Heap Machine DiskRead Arena.

Local Open Scope string_scope.
Local Open Scope list_scope.
Local Open Scope Z_scope.

Definition mmap_structure_entry : layout := Layout false [
  ("entry_length", U32); ("base_addr", U64); ("length", U64); ("type", U32);
  ("acpi_3_0_extended", U32)].

Definition upperMemory_mmap_struct : layout := Layout false [("size", U32); ("ptr", U32)].

(** 28 bytes: 4 more than the entry the BIOS writes. *)
Definition mmap_entry_size : Z := sizeof mmap_structure_entry.

Definition eaxSignature : Z := 1397571920. (* 0x534D4150, "SMAP" *)
Definition maxSize : Z := 100.

(** What [int $0x15] leaves in the registers and in memory. *)
Record int15_result : Type := Int15 {
  r15_carry : bool; r15_eax : Z; r15_ebx : Z; r15_ecx : Z; r15_mem : mem
}.

(** [acpi_3_0_extended & 0x0001]. *)
Definition extended_bit (m : mem) (entry : Z) : Z :=
  Z.land (get mmap_structure_entry "acpi_3_0_extended" m entry) 1.

Section MemDetect.
(** [int $0x12]: carry, [%ax] and memory; [int $0x15] with [%eax = 0xE820],
    [%edx = "SMAP"], [%ecx = 24]: from [%es], [%di] and [%ebx]. *)
Variable int12 : mem -> bool * Z * mem.
Variable int15 : Z -> Z -> Z -> mem -> int15_result.

Definition asmCall_int12 (m : mem) : Z * mem :=
  let '(carry, ax, m') := int12 m in if carry then (0, m') else (u16 ax, m').

Definition queryLowerMemory : prog machine Z :=
  let* result := real_mode_call asmCall_int12 in
  do* (if result =? 0 then earlyPanic "queryLowerMemory(): Failure to query lower memory!"
       else ret tt) in
  ret result.

(** The stub loads 16-bit [%es] and [%di]. *)
Definition asmCall_int15 (offset segment ebx : Z) (m : mem) : int15_result :=
  int15 (u16 segment) (u16 offset) ebx m.

(** The [do ... while (ebx != 0)] loop; returns the number of entries kept. *)
Fixpoint upper_rounds (fuel : nat) (mmapPtr size ebx : Z) : prog machine Z :=
  match fuel with
  | O => fun _ => OutOfFuel
  | S fuel' =>
      let currPtr := u32 (mmapPtr + mmap_entry_size * size) in
      let offset := currPtr mod 16 in
      let segment := (currPtr - offset) / 16 in
      let* r := real_mode_call (fun m =>
        (asmCall_int15 offset segment ebx m, r15_mem (asmCall_int15 offset segment ebx m))) in
      do* (if r15_carry r then earlyPanic "queryUpperMemory(): Failure! Carry was set"
           else ret tt) in
      do* (if negb (r15_eax r =? eaxSignature)
           then earlyPanic "queryUpperMemory(): Failure! %eax is different than signature"
           else ret tt) in
      let* ext := load_ram (fun m => extended_bit m currPtr) in
      let size := if (r15_ecx r <=? 20) || (ext =? 0) then u32 (size + 1) else size in
      do* (if maxSize <=? size
           then earlyPanic "queryUpperMemory(): Failure! List got a little too big"
           else ret tt) in
      if negb (r15_ebx r =? 0) then upper_rounds fuel' mmapPtr size (r15_ebx r) else ret size
  end.

Definition queryUpperMemory (fuel : nat) : prog machine Z :=
  let* mmapPtr := new_bytes fuel (mmap_entry_size * maxSize) in
  let* size := upper_rounds fuel mmapPtr 0 0 in
  let* returnStruct := new_bytes fuel (sizeof upperMemory_mmap_struct) in
  do* store_ram (fun m => put upperMemory_mmap_struct "size" m returnStruct size) in
  do* store_ram (fun m => put upperMemory_mmap_struct "ptr" m returnStruct mmapPtr) in
  ret returnStruct.
End MemDetect.

(** The loop over [k] entries from [entry] on. *)
Fixpoint sum_lengths (k : nat) (entry finalSize : Z) (m : mem) : Z :=
  match k with
  | O => finalSize
  | S k' =>
      let test := u64 (finalSize + get mmap_structure_entry "length" m entry) in
      if 4294967295 <? test then 0
      else sum_lengths k' (entry + mmap_entry_size) (u32 test) m
  end.

Definition getUpperMemorySize (ptr : Z) (m : mem) : Z :=
  sum_lengths (Z.to_nat (get upperMemory_mmap_struct "size" m ptr))
    (get upperMemory_mmap_struct "ptr" m ptr) 0 m.

(** ** [getUpperMemorySize] sums the lengths, or gives up *)

(** The [length] fields of the [k] entries from [entry] on. *)
Fixpoint lengths (k : nat) (entry : Z) (m : mem) : list Z :=
  match k with
  | O => []
  | S k' => get mmap_structure_entry "length" m entry :: lengths k' (entry + mmap_entry_size) m
  end.

Definition sum_list (l : list Z) : Z := fold_right Z.add 0 l.

Lemma length_field_bounds m entry :
  0 <= get mmap_structure_entry "length" m entry < 18446744073709551616.
Proof. apply (load_bounds 8). Qed.

Lemma lengths_nonneg k entry m : 0 <= sum_list (lengths k entry m).
Proof.
  revert entry. induction k as [|k IH]; intros entry; cbn [lengths sum_list fold_right]; [lia|].
  pose proof (length_field_bounds m entry). specialize (IH (entry + mmap_entry_size)).
  unfold sum_list in IH. lia.
Qed.

Lemma sum_lengths_spec k entry acc m :
  0 <= acc < 4294967296 ->
  Forall (fun x => x < 9223372036854775808) (lengths k entry m) ->
  sum_lengths k entry acc m =
    if acc + sum_list (lengths k entry m) <=? 4294967295
    then acc + sum_list (lengths k entry m) else 0.
Proof.
  revert entry acc. induction k as [|k IH]; intros entry acc Ha Hl;
    cbn [sum_lengths lengths sum_list fold_right].
  { rewrite Z.add_0_r. by rewrite (proj2 (Z.leb_le _ _)) by lia. }
  pose proof (length_field_bounds m entry). cbn [lengths] in Hl.
  apply Forall_cons in Hl as [Hx Hl].
  pose proof (lengths_nonneg k (entry + mmap_entry_size) m) as Hn. unfold sum_list in Hn.
  set (x := get mmap_structure_entry "length" m entry) in *.
  replace (u64 (acc + x)) with (acc + x) by (symmetry; apply (wrap_small 64); lia).
  destruct (Z.ltb_spec 4294967295 (acc + x)).
  - by rewrite (proj2 (Z.leb_gt _ _)) by lia.
  - rewrite u32_small, IH by (done || lia). unfold sum_list. by rewrite Z.add_assoc.
Qed.

(** ** What the BIOS lists *)

(** A memory region of the BIOS's map: 20 bytes. *)
Record region : Type := Region { rg_base : Z; rg_length : Z; rg_type : Z }.

Definition region_bytes (r : region) : list Z :=
  bytes_le 8 (rg_base r) ++ bytes_le 8 (rg_length r) ++ bytes_le 4 (rg_type r).

(** Documented behaviour of function 0xE820 for a map of plain 20-byte regions: with
    continuation value [i], region [i] goes to [%es:%di], [%eax] is the signature,
    [%ecx] is 20, and [%ebx] is the next value, 0 after the last region. *)
Definition int15_lists (int15 : Z -> Z -> Z -> mem -> int15_result) (rs : list region) : Prop :=
  forall es di i r m, rs !! Z.to_nat i = Some r -> 0 <= i -> 2048 <= 16 * es + di ->
    16 * es + di + 20 <= 458752 ->
    exists m', int15 es di i m =
        Int15 false eaxSignature (if i + 1 =? Z.of_nat (List.length rs) then 0 else i + 1) 20 m' /\
      bytes_at m' (16 * es + di) (region_bytes r) /\
      forall a, 0 <= a < 4294967296 -> ~ (16 * es + di <= a < 16 * es + di + 20) -> ~ scratch a ->
        rd8 m' a = rd8 m a.

Lemma length_region_bytes r : List.length (region_bytes r) = 20%nat.
Proof. unfold region_bytes. by rewrite !length_app, !length_bytes_le. Qed.

(** The regions [rs] one per entry, at the start of the entry. *)
Definition regions_at (m : mem) (mmapPtr : Z) (rs : list region) : Prop :=
  forall k r, rs !! k = Some r -> bytes_at m (mmapPtr + 28 * Z.of_nat k) (region_bytes r).

Lemma segment_offset p : 0 <= p < 458752 ->
  16 * u16 ((p - p mod 16) / 16) + u16 (p mod 16) = p.
Proof.
  intros Hp. rewrite !u16_small; Z.to_euclidean_division_equations; lia.
Qed.

Lemma int15_call int15 offset segment ebx s r :
  mask_even (m_ram s) -> asmCall_int15 int15 offset segment ebx (m_ram s) = r ->
  real_mode_call (fun m =>
    (asmCall_int15 int15 offset segment ebx m, r15_mem (asmCall_int15 int15 offset segment ebx m))) s =
    Done r (set_ram (r15_mem r) s).
Proof. intros He <-. by apply real_mode_call_even. Qed.

Section Lists.
Context (int15 : Z -> Z -> Z -> mem -> int15_result) (rs : list region).
Hypothesis Hlists : int15_lists int15 rs.
Hypothesis Hcount : (0 < List.length rs < 100)%nat.
Context (s0 : machine) (own0 new : list (Z * Z)) (mmapPtr top : Z).
Hypothesis Hblock : (mmapPtr, 2800) ∈ new.
Let own := own0 ++ new.

Hypothesis Hmask : mask_safe s0 own0.

(** One region arrives. *)
Lemma int15_step s (i : nat) r :
  grows s0 own0 s own -> world s own top -> rs !! i = Some r ->
  regions_at (m_ram s) mmapPtr (take i rs) ->
  let p := mmapPtr + 28 * Z.of_nat i in
  exists m1,
    asmCall_int15 int15 (p mod 16) ((p - p mod 16) / 16) (Z.of_nat i) (m_ram s) =
      Int15 false eaxSignature
        (if Z.of_nat i + 1 =? Z.of_nat (List.length rs) then 0 else Z.of_nat i + 1) 20 m1 /\
    0 <= p < 458752 /\
    grows s0 own0 (set_ram m1 s) own /\ world (set_ram m1 s) own top /\
    regions_at m1 mmapPtr (take (S i) rs).
Proof.
  intros Hg Hw Hr Hprev p. assert ((mmapPtr, 2800) ∈ own) as Hin by (apply elem_of_app; by right).
  apply lookup_lt_Some in Hr as Hi.
  destruct (world_block _ _ _ _ _ Hw Hin) as ((? & ? & ?) & ? & ? & ? & ?).
  pose proof (w_low _ _ _ Hw). pose proof (w_high _ _ _ Hw).
  pose proof (segment_offset p ltac:(lia)) as Hp.
  destruct (Hlists (u16 ((p - p mod 16) / 16)) (u16 (p mod 16)) (Z.of_nat i) r (m_ram s))
    as (m1 & E & Hb & Hf); [by rewrite Nat2Z.id|lia|lia|lia|]. rewrite Hp in Hb, Hf.
  exists m1. split; [exact E|]. split; [lia|].
  assert (updates p 20 s (set_ram m1 s)) as U by (split; [apply ram_only_set|exact Hf]).
  destruct (grows_update s0 own0 s own top (set_ram m1 s) new mmapPtr 2800 p 20 Hg Hw)
    as [Hg' Hw']; [done|done|exact U|lia..|]. split; [done|]. split; [done|].
  intros k r' Hk. rewrite lookup_take_Some in Hk. destruct Hk as [Hk Hlt].
  destruct (decide (k = i)) as [->|Hne]; [by replace r' with r by congruence|].
  eapply bytes_at_ext; [|apply (Hprev k r')]; [|by apply lookup_take_Some; split; [|lia]].
  intros j Hj. rewrite length_region_bytes in Hj. apply Hf; [lia|lia|].
  eapply not_scratch_heap; [exact Hw|]. unfold in_heap. lia.
Qed.

Lemma upper_rounds_spec k (i : nat) s :
  (i + S k)%nat = List.length rs ->
  grows s0 own0 s own -> world s own top -> regions_at (m_ram s) mmapPtr (take i rs) ->
  exists s', (forall fuel, (k < fuel)%nat ->
      upper_rounds int15 fuel mmapPtr (Z.of_nat i) (Z.of_nat i) s =
        Done (Z.of_nat (List.length rs)) s') /\
    grows s0 own0 s' own /\ world s' own top /\ regions_at (m_ram s') mmapPtr rs.
Proof.
  revert i s. induction k as [|k IH]; intros i s Hk Hg Hw Hprev;
    destruct (lookup_lt_is_Some_2 rs i ltac:(lia)) as [r Hr];
    destruct (int15_step s i r Hg Hw Hr Hprev) as (m1 & E & Hp & Hg1 & Hw1 & Hat).
  - exists (set_ram m1 s). split; [|split; [done|split; [done|]]].
    + intros [|fuel] Hf; [lia|]. cbn [upper_rounds]. change mmap_entry_size with 28.
      rewrite u32_small by lia. cbv zeta.
      unfold bind at 1. rewrite (int15_call _ _ _ _ _ _ (proj1 (mask_safe_grows _ _ _ _ Hg Hmask)) E). cbn [r15_carry r15_eax r15_ecx r15_ebx r15_mem].
      rewrite Z.eqb_refl, (proj2 (Z.eqb_eq _ (Z.of_nat (List.length rs)))) by lia. cbn [negb Z.leb Z.compare Pos.compare Pos.compare_cont orb].
      unfold bind, ret, load_ram, gets. rewrite u32_small by lia.
      unfold maxSize. rewrite (proj2 (Z.leb_gt _ _)) by lia. cbn. f_equal. lia.
    + cbn [m_ram set_ram]. by rewrite take_ge in Hat by lia.
  - destruct (IH (S i) (set_ram m1 s)) as (s' & Hrun & Hg' & Hw' & Hat'); [lia|done..|].
    exists s'. split; [|done]. intros [|fuel] Hf; [lia|]. cbn [upper_rounds].
    change mmap_entry_size with 28. rewrite u32_small by lia. cbv zeta.
    unfold bind at 1. rewrite (int15_call _ _ _ _ _ _ (proj1 (mask_safe_grows _ _ _ _ Hg Hmask)) E). cbn [r15_carry r15_eax r15_ecx r15_ebx r15_mem].
    rewrite Z.eqb_refl, (proj2 (Z.eqb_neq _ (Z.of_nat (List.length rs)))) by lia.
    cbn [negb Z.leb Z.compare Pos.compare Pos.compare_cont orb].
    unfold bind, ret, load_ram, gets. rewrite u32_small by lia.
    unfold maxSize. rewrite (proj2 (Z.leb_gt _ _)) by lia.
    rewrite (proj2 (Z.eqb_neq _ 0)) by lia. cbn [negb].
    replace (Z.of_nat i + 1) with (Z.of_nat (S i)) by lia. apply Hrun. lia.
Qed.
End Lists.

Lemma queryUpperMemory_spec int15 rs s own top :
  int15_lists int15 rs -> (0 < List.length rs < 100)%nat -> world s own top -> mask_safe s own ->
  top + 2824 <= m_heapEnd s ->
  let own' := (own ++ [(top, 2800)]) ++ [(top + 2808, 8)] in
  exists s', returns (fun fuel => queryUpperMemory int15 fuel) s (top + 2808) s' /\
    grows s own s' own' /\ world s' own' (top + 2824) /\
    get upperMemory_mmap_struct "size" (m_ram s') (top + 2808) = Z.of_nat (List.length rs) /\
    get upperMemory_mmap_struct "ptr" (m_ram s') (top + 2808) = top /\
    regions_at (m_ram s') top rs.
Proof.
  intros Hl Hn Hw Hmask Hroom own'.
  destruct (new_bytes_spec s own top 2800 Hw) as (s1 & [f1 Hr1] & Hg1 & Hw1 & He1 & Hz1 & _); [lia|lia|].
  assert ((top, 2800) ∈ own ++ [(top, 2800)]) as Hin1 by (apply elem_of_app; right; left).
  destruct (upper_rounds_spec int15 rs Hl Hn s own [(top, 2800)] top (top + 2800 + 8) ltac:(left) Hmask
    (pred (List.length rs)) 0 s1) as (s2 & Hr2 & Hg2 & Hw2 & Hat); [lia|done|done| |].
  { intros k r Hk. rewrite take_0 in Hk. done. }
  destruct (new_bytes_spec s2 _ (top + 2808) 8 ltac:(by replace (top + 2808) with (top + 2800 + 8) by lia))
    as (s3 & [f3 Hr3] & Hg3 & Hw3 & He3 & Hz3 & _); [lia|destruct (grows_end _ _ _ _ Hg2); lia|].
  fold own' in Hg3, Hw3. assert ((top + 2808, 8) ∈ own') as Hin3 by (apply elem_of_app; right; left).
  destruct (world_block _ _ _ _ _ Hw3 Hin3) as ((? & ? & ?) & ? & ? & ? & ?).
  destruct (world_block _ _ _ _ _ Hw1 Hin1) as ((? & ? & ?) & _).
  set (ma := put upperMemory_mmap_struct "size" (m_ram s3) (top + 2808) (Z.of_nat (List.length rs))).
  set (mb := put upperMemory_mmap_struct "ptr" ma (top + 2808) top).
  assert (only_changes (top + 2808) 8 (m_ram s3) mb) as Hch.
  { change 8 with (sizeof upperMemory_mmap_struct). eapply only_changes_trans; by apply put_only_changes. }
  destruct (grows_update s2 (own ++ [(top, 2800)]) s3 own' _ (set_ram mb s3) [(top + 2808, 8)]
    (top + 2808) 8 (top + 2808) 8 Hg3 Hw3) as [Hg4 Hw4];
    [done|left|by apply updates_store|lia..|].
  exists (set_ram mb s3). split; [|split; [by eapply grows_trans|split; [|split; [|split]]]].
  - exists (f1 + f3 + List.length rs)%nat. intros fuel Hf. unfold queryUpperMemory.
    change (mmap_entry_size * maxSize) with 2800. rewrite (bind_Done _ _ _ _ _ (Hr1 fuel ltac:(lia))).
    rewrite (bind_Done _ _ _ _ _ (Hr2 fuel ltac:(lia))).
    change (sizeof upperMemory_mmap_struct) with 8.
    rewrite (bind_Done _ _ _ _ _ (Hr3 fuel ltac:(lia))). reflexivity.
  - by replace (top + 2824) with (top + 2808 + 8 + 8) by lia.
  - cbn [m_ram set_ram]. unfold mb, ma. rewrite get_put_ne, get_put_eq by done.
    apply Z.mod_small. change (256 ^ _) with 4294967296. lia.
  - cbn [m_ram set_ram]. unfold mb. rewrite get_put_eq by done.
    apply Z.mod_small. change (256 ^ _) with 4294967296. lia.
  - intros k r Hk. eapply bytes_at_ext; [|by apply Hat].
    intros j Hj. rewrite length_region_bytes in Hj. apply lookup_lt_Some in Hk.
    rewrite <- Z.add_assoc. apply (grows_block _ _ _ _ _ _ _ Hg4 Hin1). lia.
Qed.

(** ** What [getUpperMemorySize] makes of the BIOS's map

    The BIOS's entry goes to the start of a [mmap_structure_entry], where the struct
    has [entry_length]; the struct's [length] field then holds the high half of the
    length and the type. *)
Lemma length_field_shifted m p r :
  bytes_at m p (region_bytes r) -> 0 <= rg_length r < 18446744073709551616 ->
  0 <= rg_type r < 4294967296 ->
  get mmap_structure_entry "length" m p = rg_length r / 4294967296 + 4294967296 * rg_type r.
Proof.
  intros Hb Hl Ht. unfold region_bytes in Hb.
  change (bytes_le 8 (rg_length r)) with (bytes_le (4 + 4) (rg_length r)) in Hb.
  rewrite (bytes_le_app 4 4 (rg_length r)) in Hb.
  rewrite !bytes_at_app in Hb. rewrite !length_app, !length_bytes_le in Hb.
  destruct Hb as (_ & (_ & H1) & H2).
  unfold get. change (offsetof mmap_structure_entry "length") with 12.
  change (Z.to_nat (fieldsize mmap_structure_entry "length")) with (4 + 4)%nat.
  rewrite load_app. replace (p + Z.of_nat 8 + Z.of_nat 4) with (p + 12) in H1 by lia.
  replace (p + Z.of_nat 8 + Z.of_nat (4 + 4)) with (p + 12 + Z.of_nat 4) in H2 by lia.
  rewrite (load_bytes_le _ _ 4 _ H1), (load_bytes_le _ _ 4 _ H2).
  change (256 ^ Z.of_nat 4) with 4294967296.
  rewrite (Z.mod_small (rg_type r)) by lia.
  rewrite Z.mod_small; [done|]. split; [apply Z.div_pos; lia|apply Z.div_lt_upper_bound; lia].
Qed.

Lemma upper_size_zero ptr m r rs :
  get upperMemory_mmap_struct "size" m ptr = Z.of_nat (List.length (r :: rs)) ->
  regions_at m (get upperMemory_mmap_struct "ptr" m ptr) (r :: rs) ->
  0 <= rg_length r < 18446744073709551616 -> 1 <= rg_type r < 4294967295 ->
  getUpperMemorySize ptr m = 0.
Proof.
  intros Hs Hat Hl Ht. unfold getUpperMemorySize. rewrite Hs, Nat2Z.id.
  cbn [List.length sum_lengths].
  specialize (Hat 0%nat r eq_refl). rewrite Z.mul_0_r, Z.add_0_r in Hat.
  rewrite (length_field_shifted _ _ r Hat Hl) by lia. rewrite Z.add_0_l.
  assert (0 <= rg_length r / 4294967296 < 4294967296) as Hq.
  { split; [apply Z.div_pos; lia|apply Z.div_lt_upper_bound; lia]. }
  replace (u64 _) with (rg_length r / 4294967296 + 4294967296 * rg_type r)
    by (symmetry; apply (wrap_small 64); lia).
  by rewrite (proj2 (Z.ltb_lt _ _)) by lia.
Qed.

(** ** Properties *)

(** C17: with a BIOS that lists 1 to 99 plain regions, [queryUpperMemory] returns a
    structure with their number and a pointer to them, one per 28-byte entry; the
    loop ends with the region whose continuation value is 0.  The byte at 0xfffe is even,
    and outside the heap or in a block handed out before, so that every call reaches real
    mode. *)
Theorem queryUpperMemory_lists int15 rs s own top :
  int15_lists int15 rs -> (0 < List.length rs < 100)%nat -> world s own top -> mask_safe s own ->
  top + 2824 <= m_heapEnd s ->
  exists p mmapPtr s' own', returns (fun fuel => queryUpperMemory int15 fuel) s p s' /\
    get upperMemory_mmap_struct "size" (m_ram s') p = Z.of_nat (List.length rs) /\
    get upperMemory_mmap_struct "ptr" (m_ram s') p = mmapPtr /\
    regions_at (m_ram s') mmapPtr rs /\ grows s own s' own'.
Proof.
  intros Hl Hn Hw Hmask Hroom.
  destruct (queryUpperMemory_spec int15 rs s own top Hl Hn Hw Hmask Hroom) as (s' & H1 & H2 & _ & H3 & H4 & H5).
  eexists _, top, s', _. split; [exact H1|]. split; [done|]. split; [done|]. by split.
Qed.

(** A BIOS for examples: continuation value [i] is region [i]. *)
Definition example_int15 (rs : list region) (es di i : Z) (m : mem) : int15_result :=
  match rs !! Z.to_nat i with
  | Some r =>
      Int15 false eaxSignature (if i + 1 =? Z.of_nat (List.length rs) then 0 else i + 1) 20
        (write_bytes m (16 * es + di) (region_bytes r))
  | None => Int15 true 0 0 0 m
  end.

Lemma bytes_at_written m a l :
  Forall (fun c => 0 <= c < 256) l -> Z.of_nat (List.length l) < 4294967296 ->
  bytes_at (write_bytes m a l) a l.
Proof.
  intros Hl Hn i c Hi. rewrite rd8_write_bytes by done.
  replace (a + Z.of_nat i - a) with (Z.of_nat i) by lia. apply lookup_lt_Some in Hi as Hlt.
  rewrite u32_small, Nat2Z.id, Hi by lia. apply u8_small. apply (Forall_lookup_1 _ _ _ _ Hl Hi).
Qed.

Lemma example_int15_lists rs : int15_lists (example_int15 rs) rs.
Proof.
  intros es di i r m Hr Hi Hlo Hhi. eexists. unfold example_int15. rewrite Hr.
  split; [reflexivity|]. split.
  - apply bytes_at_written; [|rewrite length_region_bytes; lia].
    unfold region_bytes. rewrite !Forall_app. repeat split; apply bytes_le_Forall.
  - intros a Ha Ho _.
    assert (only_changes (16 * es + di) 20 m (write_bytes m (16 * es + di) (region_bytes r))) as C.
    { change 20 with (Z.of_nat 20). rewrite <- (length_region_bytes r).
      apply write_bytes_only_changes. rewrite length_region_bytes. lia. }
    apply (only_changes_out _ _ _ _ _ C); unfold fits; lia.
Qed.

Definition example_regions : list region :=
  [Region 0 654336 1; Region 1048576 66060288 1; Region 4294705152 262144 2].

Definition example_heap_machine : machine :=
  let '(heap, heapEnd, m) := heapInitialize 65536 65536 ∅ in
  Machine m new_terminal 16 heap heapEnd 128.

Lemma example_heap_world : world example_heap_machine [] 65544.
Proof.
  pose proof (arena_init 65536 65536 ∅ ltac:(lia) ltac:(lia) ltac:(lia)) as H.
  unfold example_heap_machine. destruct (heapInitialize 65536 65536 ∅) as [[h e] m].
  destruct H as (-> & -> & H). split; cbn [m_ram m_heap m_heapEnd]; [|exact H|lia|lia].
  split; [exact new_terminal_ok|]. split; [done|]. cbn. lia.
Qed.

Lemma example_heap_mask : mask_safe example_heap_machine [].
Proof.
  split; [vm_compute; reflexivity|]. left. unfold in_heap, scratch, mask_address.
  change (m_heap example_heap_machine) with 65536. lia.
Qed.

Lemma queryUpperMemory_lists_witness :
  exists p mmapPtr s' own',
    returns (fun fuel => queryUpperMemory (example_int15 example_regions) fuel)
      example_heap_machine p s' /\
    get upperMemory_mmap_struct "size" (m_ram s') p = 3 /\
    get upperMemory_mmap_struct "ptr" (m_ram s') p = mmapPtr /\
    regions_at (m_ram s') mmapPtr example_regions /\ grows example_heap_machine [] s' own'.
Proof.
  apply (queryUpperMemory_lists (example_int15 example_regions) example_regions
    example_heap_machine [] 65544);
    [apply example_int15_lists|simpl; lia|exact example_heap_world|exact example_heap_mask|].
  vm_compute. discriminate.
Defined.

(** [getUpperMemorySize] returns the sum of the [length] fields of the structure's
    entries when it fits in 32 bits, and 0 otherwise, for lengths below 2^63. *)
Theorem getUpperMemorySize_sum ptr m :
  let n := Z.to_nat (get upperMemory_mmap_struct "size" m ptr) in
  let ls := lengths n (get upperMemory_mmap_struct "ptr" m ptr) m in
  Forall (fun x => x < 9223372036854775808) ls ->
  getUpperMemorySize ptr m = if sum_list ls <=? 4294967295 then sum_list ls else 0.
Proof. intros n ls Hl. unfold getUpperMemorySize. by rewrite sum_lengths_spec. Qed.

Lemma getUpperMemorySize_sum_witness :
  let m := put mmap_structure_entry "length"
             (put upperMemory_mmap_struct "ptr" (put upperMemory_mmap_struct "size" ∅ 5000 1) 5000 6000)
             6000 4096 in
  getUpperMemorySize 5000 m = 4096.
Proof.
  intros m. etransitivity; [apply (getUpperMemorySize_sum 5000 m)|vm_compute; reflexivity].
  replace (lengths _ _ _) with [4096] by (vm_compute; reflexivity).
  constructor; [lia|constructor].
Defined.

(** On what the BIOS really writes, the size computed is 0: the entry's [length]
    field holds the region's type in its high half, so a list that starts with a
    region of any defined type (1 and up) already exceeds 32 bits. *)
Theorem upper_memory_size_zero ptr m r rs :
  get upperMemory_mmap_struct "size" m ptr = Z.of_nat (List.length (r :: rs)) ->
  regions_at m (get upperMemory_mmap_struct "ptr" m ptr) (r :: rs) ->
  0 <= rg_length r < 18446744073709551616 -> 1 <= rg_type r < 4294967295 ->
  getUpperMemorySize ptr m = 0.
Proof. apply upper_size_zero. Qed.

Lemma upper_memory_size_zero_witness :
  exists p s', returns (fun fuel => queryUpperMemory (example_int15 example_regions) fuel)
      example_heap_machine p s' /\ getUpperMemorySize p (m_ram s') = 0.
Proof.
  destruct (queryUpperMemory_spec (example_int15 example_regions) example_regions
    example_heap_machine [] 65544 (example_int15_lists _) ltac:(simpl; lia) example_heap_world example_heap_mask)
    as (s' & H1 & _ & _ & H3 & H4 & H5); [vm_compute; discriminate|].
  eexists _, s'. split; [exact H1|].
  apply (upper_memory_size_zero _ _ (Region 0 654336 1)
    [Region 1048576 66060288 1; Region 4294705152 262144 2]); [exact H3|rewrite H4; exact H5|simpl; lia..].
Defined.
