(* ===== verification/Elf.v ===== *)
(** Loading the kernel's ELF image: [elf_check_file], [elf_check_prog_header] and
    [elf32_load] of [bootloader/stage1main.cpp], with the structures of
    [include/sys/elf.h]. *)

From S2P Require Import Prelude PhysMem Layout CString Xtoa Terminal Outstream Machine DiskRead Arena.

Local Open Scope string_scope.
Local Open Scope list_scope.
Local Open Scope Z_scope.

(** ** Structures and constants *)

Definition elf32_Ehdr : layout := Layout false [
  ("e_ident", Arr 16 U8); ("e_type", U16); ("e_machine", U16); ("e_version", U32);
  ("e_entry", U32); ("e_phoff", U32); ("e_shoff", U32); ("e_flags", U32); ("e_ehsize", U16);
  ("e_phentsize", U16); ("e_phnum", U16); ("e_shentsize", U16); ("e_shnum", U16);
  ("e_shstrndx", U16)].

Definition elf32_Phdr : layout := Layout false [
  ("p_type", U32); ("p_offset", U32); ("p_vaddr", U32); ("p_paddr", U32); ("p_filesz", U32);
  ("p_memsz", U32); ("p_flags", U32); ("p_align", U32)].

Definition ELFMAG0 : Z := 127.
Definition ELFMAG1 : Z := 69.
Definition ELFMAG2 : Z := 76.
Definition ELFMAG3 : Z := 70.
Definition ELFCLASS32 : Z := 1.
Definition ELFDATA2LSB : Z := 1.
Definition EM_386 : Z := 3.
Definition EV_CURRENT : Z := 1.
Definition ET_EXEC : Z := 2.
Definition PT_LOAD : Z := 1.
Definition PT_DYNAMIC : Z := 2.
Definition PT_INTERP : Z := 3.

(** [enum elf_Ident]. *)
Definition EI_MAG0 : Z := 0.
Definition EI_MAG1 : Z := 1.
Definition EI_MAG2 : Z := 2.
Definition EI_MAG3 : Z := 3.
Definition EI_CLASS : Z := 4.
Definition EI_DATA : Z := 5.
Definition EI_VERSION : Z := 6.

(** ** The checks *)

Definition e_ident (m : mem) (header i : Z) : Z := rd8 m (header + i).

Definition elf_check_file (header : Z) (m : mem) : bool :=
  if header =? 0 then false
  else if negb (e_ident m header EI_MAG0 =? ELFMAG0) then false
  else if negb (e_ident m header EI_MAG1 =? ELFMAG1) then false
  else if negb (e_ident m header EI_MAG2 =? ELFMAG2) then false
  else if negb (e_ident m header EI_MAG3 =? ELFMAG3) then false
  else if negb (e_ident m header EI_CLASS =? ELFCLASS32) then false
  else if negb (e_ident m header EI_DATA =? ELFDATA2LSB) then false
  else if negb (get elf32_Ehdr "e_machine" m header =? EM_386) then false
  else if negb (e_ident m header EI_VERSION =? EV_CURRENT) then false
  else if negb (get elf32_Ehdr "e_type" m header =? ET_EXEC) then false
  else true.

Definition elf_check_prog_header (header : Z) (m : mem) : bool :=
  if get elf32_Phdr "p_type" m header =? PT_DYNAMIC then false
  else if get elf32_Phdr "p_type" m header =? PT_INTERP then false
  else true.

(** ** [elf32_load] *)

(** The body of the loop after the two [continue]s. *)
Definition load_segment (header ph : Z) : prog machine unit :=
  let* dest := load_ram (fun m => get elf32_Phdr "p_paddr" m ph) in
  let* offset := load_ram (fun m => get elf32_Phdr "p_offset" m ph) in
  let src := u32 (header + offset) in
  do* print "Loading it to 0x" in
  do* print_u32 dest in
  do* print newline in
  let* filesz := load_ram (fun m => get elf32_Phdr "p_filesz" m ph) in
  do* store_ram (fun m => memcpy m dest src filesz) in
  let* memsz := load_ram (fun m => get elf32_Phdr "p_memsz" m ph) in
  let* filesz := load_ram (fun m => get elf32_Phdr "p_filesz" m ph) in
  if filesz <? memsz then
    store_ram (fun m =>
      memset m (u32 (dest + get elf32_Phdr "p_filesz" m ph)) 0
        (u32 (get elf32_Phdr "p_memsz" m ph - get elf32_Phdr "p_filesz" m ph)))
  else ret tt.

(** The loop: the header it stopped at and the number of segments loaded, or [None]
    when a program header is refused ([return 0]). *)
Fixpoint load_loop (fuel : nat) (header ph eph i : Z) : prog machine (option (Z * Z)) :=
  match fuel with
  | O => fun _ => OutOfFuel
  | S fuel' =>
      if ph <? eph then
        do* print "Found segment at 0x" in
        do* print_u32 ph in
        do* print " of type " in
        let* p_type := load_ram (fun m => get elf32_Phdr "p_type" m ph) in
        do* print_u32 p_type in
        do* print newline in
        let* ok := load_ram (elf_check_prog_header ph) in
        if negb ok then ret None else
        let* p_type := load_ram (fun m => get elf32_Phdr "p_type" m ph) in
        let* memsz := load_ram (fun m => get elf32_Phdr "p_memsz" m ph) in
        let* i :=
          (if negb (p_type =? PT_LOAD) then ret i
           else if memsz =? 0 then ret i
           else (do* load_segment header ph in ret (u32 (i + 1)))) in
        let* phentsize := load_ram (fun m => get elf32_Ehdr "e_phentsize" m header) in
        load_loop fuel' header (u32 (ph + phentsize)) eph i
      else ret (Some (ph, i))
  end.

Definition elf32_load (fuel : nat) (header : Z) : prog machine Z :=
  let* phoff := load_ram (fun m => get elf32_Ehdr "e_phoff" m header) in
  let ph := u32 (header + phoff) in
  let* phnum := load_ram (fun m => get elf32_Ehdr "e_phnum" m header) in
  let eph := u32 (ph + sizeof elf32_Phdr * phnum) in
  let* r := load_loop fuel header ph eph 0 in
  match r with
  | None => ret 0
  | Some (ph, i) =>
      let* phentsize := load_ram (fun m => get elf32_Ehdr "e_phentsize" m header) in
      let ph := u32 (ph - phentsize) in
      let* finalMem := load_ram (fun m =>
        u32 (get elf32_Phdr "p_paddr" m ph + get elf32_Phdr "p_memsz" m ph)) in
      do* print "Loaded " in
      do* print_u32 i in
      do* print (" segments total!" ++ newline)%string in
      ret finalMem
  end.

(** ** Specification: a segment's effect on a byte *)

Record segment : Type := Segment {
  sg_type : Z; sg_offset : Z; sg_paddr : Z; sg_filesz : Z; sg_memsz : Z
}.

Definition segment_at (m : mem) (ph : Z) : segment :=
  Segment (get elf32_Phdr "p_type" m ph) (get elf32_Phdr "p_offset" m ph)
    (get elf32_Phdr "p_paddr" m ph) (get elf32_Phdr "p_filesz" m ph) (get elf32_Phdr "p_memsz" m ph).

Definition loadable (g : segment) : bool := (sg_type g =? PT_LOAD) && negb (sg_memsz g =? 0).
Definition refused (g : segment) : bool := (sg_type g =? PT_DYNAMIC) || (sg_type g =? PT_INTERP).

(** The byte at [a] after loading [g], [file] being the image's bytes and [old] the
    byte before. *)
Definition seg_byte (file : Z -> Z) (a : Z) (old : Z) (g : segment) : Z :=
  if loadable g && (sg_paddr g <=? a) && (a <? sg_paddr g + sg_memsz g) then
    if a <? sg_paddr g + sg_filesz g then file (sg_offset g + (a - sg_paddr g)) else 0
  else old.

Definition program_headers (m : mem) (ph : Z) (k : nat) : list segment :=
  map (fun i => segment_at m (ph + 32 * Z.of_nat i)) (seq 0 k).

(** Segments that can be loaded without touching the image or the screen. *)
Definition segment_ok (header len : Z) (g : segment) : Prop :=
  refused g = false /\
  (loadable g = true ->
    sg_filesz g <= sg_memsz g /\ sg_paddr g + sg_memsz g <= 4294967296 /\
    sg_offset g + sg_filesz g <= len /\
    (sg_paddr g + sg_memsz g <= header \/ header + len <= sg_paddr g) /\
    (sg_paddr g + sg_memsz g <= FRAMEBUFFER_LOCATION \/
     FRAMEBUFFER_LOCATION + 2 * cells <= sg_paddr g)).

(** ** Proofs *)

(** The image: [len] bytes at [header], off the screen. *)
Record image_at (header len : Z) (file : Z -> Z) (m : mem) : Prop := {
  im_range : 0 < header /\ 52 <= len /\ header + len < 4294967296;
  im_screen : header + len <= FRAMEBUFFER_LOCATION \/ FRAMEBUFFER_LOCATION + 2 * cells <= header;
  im_bytes i : 0 <= i < len -> rd8 m (header + i) = file i;
}.

(** A machine reached from [s] whose memory, off the screen, is [byte]. *)
Definition reached (s : machine) (byte : Z -> Z) (s' : machine) : Prop :=
  machine_ok s' /\ same_statics s s' /\
  forall a, 0 <= a < 4294967296 -> ~ on_screen a -> rd8 (m_ram s') a = byte a.

Lemma screen_reached s s' : same_but_screen s s' -> reached s (rd8 (m_ram s)) s'.
Proof.
  intros (Hok & Hst & Hc). split; [done|]. split; [done|]. intros a Ha Ho.
  unfold on_screen in Ho. apply (only_changes_out _ _ _ _ _ Hc);
    unfold fits, FRAMEBUFFER_LOCATION, cells in *; lia.
Qed.

(** Messages on the screen. *)
Lemma print_quiet str s :
  machine_ok s -> exists s', print str s = Done tt s' /\ reached s (rd8 (m_ram s)) s'.
Proof.
  intros Hok. destruct (print_screen str s Hok) as (s' & E & H). exists s'.
  split; [done|by apply screen_reached].
Qed.

Lemma set_color_quiet fg bg s :
  machine_ok s -> exists s', set_color fg bg s = Done tt s' /\ reached s (rd8 (m_ram s)) s'.
Proof.
  intros (Ht & Hb & Hbase). eexists. split; [reflexivity|]. split; [|by split].
  split; [by apply setColor_ok|]. by split.
Qed.

Lemma reached_trans s1 b1 s2 b2 s3 :
  reached s1 b1 s2 -> reached s2 b2 s3 ->
  (forall a, 0 <= a < 4294967296 -> ~ on_screen a -> b2 a = b1 a) -> reached s1 b1 s3.
Proof.
  intros (Hok1 & Hst1 & H1) (Hok2 & Hst2 & H2) Hb. split; [done|]. split; [by etrans|].
  intros a Ha Ho. by rewrite H2, Hb.
Qed.

Lemma image_off_screen header len file m i :
  image_at header len file m -> 0 <= i < len ->
  0 <= header + i < 4294967296 /\ ~ on_screen (header + i).
Proof. intros [? ? _] Hi. unfold on_screen. lia. Qed.

Lemma image_reached s s' header len file :
  image_at header len file (m_ram s) -> reached s (rd8 (m_ram s)) s' ->
  image_at header len file (m_ram s').
Proof.
  intros H (_ & _ & Hb). destruct (id H) as [? ? Hf]. split; [done..|]. intros i Hi.
  destruct (image_off_screen _ _ _ _ _ H Hi). by rewrite Hb, Hf.
Qed.

Lemma get_image L f m1 m2 header len file o :
  image_at header len file m1 -> image_at header len file m2 -> layout_ok L = true ->
  0 <= o -> o + sizeof L <= len -> get L f m1 (header + o) = get L f m2 (header + o).
Proof.
  intros [_ _ H1] [_ _ H2] Hok Ho Hl. apply load_ext. intros i Hi.
  unfold fieldsize, offsetof in *. destruct (field_of L f) as [[o' t]|] eqn:E; [|cbn in Hi; lia].
  apply field_of_bounds in E; [|done]. rewrite <- !Z.add_assoc. rewrite H1, H2 by lia. done.
Qed.

Lemma segment_image m1 m2 header len file o :
  image_at header len file m1 -> image_at header len file m2 -> 0 <= o -> o + 32 <= len ->
  segment_at m1 (header + o) = segment_at m2 (header + o).
Proof.
  intros H1 H2 Ho Hl. unfold segment_at.
  f_equal; eapply (get_image elf32_Phdr); try exact H1; try exact H2; done.
Qed.

Lemma segment_bounds m ph : let g := segment_at m ph in
  0 <= sg_type g < 4294967296 /\ 0 <= sg_offset g < 4294967296 /\ 0 <= sg_paddr g < 4294967296 /\
  0 <= sg_filesz g < 4294967296 /\ 0 <= sg_memsz g < 4294967296.
Proof. repeat split; apply (load_bounds 4). Qed.

(** Printing, as a step of a larger program. *)
Lemma run_print {A} str (k : unit -> prog machine A) s :
  machine_ok s -> exists s', bind (print str) k s = k tt s' /\ reached s (rd8 (m_ram s)) s'.
Proof.
  intros Hok. destruct (print_screen str s Hok) as (s' & E & H). exists s'.
  split; [by rewrite (bind_Done _ _ _ _ _ E)|by apply screen_reached].
Qed.

Lemma run_print_u32 {A} num (k : unit -> prog machine A) s :
  machine_ok s -> 0 <= num < 4294967296 ->
  exists s', bind (print_u32 num) k s = k tt s' /\ reached s (rd8 (m_ram s)) s'.
Proof.
  intros Hok Hn. destruct (print_u32_screen num s Hok Hn) as (s' & E & H). exists s'.
  split; [by rewrite (bind_Done _ _ _ _ _ E)|by apply screen_reached].
Qed.

Section Loading.
Context (header len : Z) (file : Z -> Z).

Lemma copy_segment m g :
  image_at header len file m -> segment_ok header len g -> loadable g = true ->
  0 <= sg_offset g -> 0 <= sg_paddr g -> 0 <= sg_filesz g ->
  forall a, 0 <= a < 4294967296 ->
    rd8 (memcpy m (sg_paddr g) (u32 (header + sg_offset g)) (sg_filesz g)) a =
      if (sg_paddr g <=? a) && (a <? sg_paddr g + sg_filesz g)
      then file (sg_offset g + (a - sg_paddr g)) else rd8 m a.
Proof.
  intros Him [_ Hg] Hl Ho Hp Hfz a Ha. destruct (Hg Hl) as (H1 & H2 & H3 & H4 & _).
  destruct (id Him) as [(? & ? & ?) _ Hb].
  destruct (decide (sg_filesz g = 0)) as [E|E].
  { rewrite E. unfold memcpy. cbn [Z.to_nat copy_up].
    destruct (Z.leb_spec (sg_paddr g) a), (Z.ltb_spec a (sg_paddr g + 0)); cbn; lia || done. }
  rewrite u32_small by lia.
  pose proof (memcpy_is_copy m (sg_paddr g) (header + sg_offset g) (sg_filesz g)
    ltac:(unfold fits; lia) ltac:(unfold fits; lia) ltac:(lia)) as Hcp.
  rewrite (Hcp a Ha).
  destruct (Z.leb_spec (sg_paddr g) a), (Z.ltb_spec a (sg_paddr g + sg_filesz g)); cbn; try done.
  rewrite <- Z.add_assoc. apply Hb. lia.
Qed.

Lemma load_segment_mem m g :
  image_at header len file m -> segment_ok header len g -> loadable g = true ->
  0 <= sg_offset g -> 0 <= sg_paddr g -> 0 <= sg_filesz g -> sg_memsz g < 4294967296 ->
  let m1 := memcpy m (sg_paddr g) (u32 (header + sg_offset g)) (sg_filesz g) in
  let m2 := if sg_filesz g <? sg_memsz g
            then memset m1 (u32 (sg_paddr g + sg_filesz g)) 0 (u32 (sg_memsz g - sg_filesz g))
            else m1 in
  forall a, 0 <= a < 4294967296 -> rd8 m2 a = seg_byte file a (rd8 m a) g.
Proof.
  intros Him Hg Hl Ho Hp Hfz Hmz m1 m2 a Ha. pose proof (copy_segment m g Him Hg Hl Ho Hp Hfz a Ha) as H1.
  fold m1 in H1. destruct Hg as [_ Hg]. destruct (Hg Hl) as (H2 & H3 & _).
  unfold seg_byte. rewrite Hl. cbn [andb]. unfold m2.
  destruct (Z.ltb_spec (sg_filesz g) (sg_memsz g)).
  - rewrite (u32_small (sg_paddr g + _)), u32_small by lia.
    rewrite memset_spec by (unfold fits; lia). rewrite H1.
    destruct (Z.leb_spec (sg_paddr g + sg_filesz g) a), (Z.leb_spec (sg_paddr g) a),
      (Z.ltb_spec a (sg_paddr g + sg_memsz g)), (Z.ltb_spec a (sg_paddr g + sg_filesz g)),
      (Z.ltb_spec a (sg_paddr g + sg_filesz g + (sg_memsz g - sg_filesz g))); cbn; done || lia.
  - rewrite H1. replace (sg_memsz g) with (sg_filesz g) by lia.
    destruct (Z.leb_spec (sg_paddr g) a), (Z.ltb_spec a (sg_paddr g + sg_filesz g)); done.
Qed.

(** Loading a segment leaves the image alone. *)
Lemma seg_byte_image g a old :
  segment_ok header len g -> header <= a < header + len -> seg_byte file a old g = old.
Proof.
  intros [_ Hg] Ha. unfold seg_byte. destruct (loadable g) eqn:Hl; [|done].
  destruct (Hg eq_refl) as (? & ? & ? & ? & _). cbn [andb].
  destruct (Z.leb_spec (sg_paddr g) a), (Z.ltb_spec a (sg_paddr g + sg_memsz g)); cbn; done || lia.
Qed.

Lemma load_segment_spec {A} o s (k : unit -> prog machine A) :
  let g := segment_at (m_ram s) (header + o) in
  machine_ok s -> image_at header len file (m_ram s) -> 0 <= o -> o + 32 <= len ->
  segment_ok header len g -> loadable g = true ->
  exists s', bind (load_segment header (header + o)) k s = k tt s' /\
    image_at header len file (m_ram s') /\
    reached s (fun a => seg_byte file a (rd8 (m_ram s) a) g) s'.
Proof.
  intros g Hok Him Ho Hlen Hg Hl.
  destruct (segment_bounds (m_ram s) (header + o)) as (_ & Hb1 & Hb2 & Hb3 & Hb4). fold g in Hb1, Hb2, Hb3, Hb4.
  destruct (print_screen "Loading it to 0x" s Hok) as (s1 & E1 & R1).
  destruct (print_u32_screen (sg_paddr g) s1 (proj1 R1) Hb2) as (s2 & E2 & R2).
  destruct (print_screen newline s2 (proj1 R2)) as (s3 & E3 & R3).
  pose proof (screen_reached _ _ (same_but_screen_trans _ _ _ (same_but_screen_trans _ _ _ R1 R2) R3)) as R.
  pose proof (image_reached _ _ _ _ _ Him R) as Him3.
  pose proof (segment_image _ _ _ _ _ o Him3 Him Ho Hlen) as Hseg. fold g in Hseg.
  set (m4 := memcpy (m_ram s3) (sg_paddr g) (u32 (header + sg_offset g)) (sg_filesz g)).
  set (m5 := if sg_filesz g <? sg_memsz g
             then memset m4 (u32 (sg_paddr g + sg_filesz g)) 0 (u32 (sg_memsz g - sg_filesz g)) else m4).
  assert (forall a, 0 <= a < 4294967296 -> rd8 m5 a = seg_byte file a (rd8 (m_ram s3) a) g) as H5
    by (apply load_segment_mem; done || lia).
  assert (image_at header len file m4) as Him4.
  { destruct (id Him3) as [Hr Hs Hf]. split; [done..|]. intros i Hi.
    unfold m4. rewrite (copy_segment (m_ram s3) g) by (done || lia).
    destruct Hg as [_ Hg]. destruct (Hg Hl) as (? & ? & ? & ? & _).
    destruct (Z.leb_spec (sg_paddr g) (header + i)), (Z.ltb_spec (header + i) (sg_paddr g + sg_filesz g));
      cbn; apply Hf || lia; lia. }
  pose proof (segment_image _ _ _ _ _ o Him4 Him Ho Hlen) as Hseg4. fold g in Hseg4.
  exists (set_ram m5 s3). split; [|split].
  - unfold load_segment. rewrite !bind_assoc, bind_load.
    change (get elf32_Phdr "p_paddr" (m_ram s) (header + o)) with (sg_paddr g).
    rewrite bind_assoc, bind_load.
    change (get elf32_Phdr "p_offset" (m_ram s) (header + o)) with (sg_offset g).
    rewrite !bind_assoc, (bind_Done _ _ _ _ _ E1), !bind_assoc, (bind_Done _ _ _ _ _ E2),
      !bind_assoc, (bind_Done _ _ _ _ _ E3), !bind_assoc, bind_load.
    rewrite (f_equal sg_filesz Hseg : get elf32_Phdr "p_filesz" (m_ram s3) (header + o) = sg_filesz g).
    rewrite !bind_assoc, bind_store, !bind_assoc, bind_load. cbn [m_ram set_ram]. fold m4.
    rewrite (f_equal sg_memsz Hseg4 : get elf32_Phdr "p_memsz" m4 (header + o) = sg_memsz g).
    rewrite !bind_assoc, bind_load. cbn [m_ram set_ram]. fold m4.
    rewrite (f_equal sg_filesz Hseg4 : get elf32_Phdr "p_filesz" m4 (header + o) = sg_filesz g).
    unfold m5. destruct (sg_filesz g <? sg_memsz g); [|reflexivity].
    rewrite bind_store. cbn [m_ram set_ram]. fold m4.
    rewrite (f_equal sg_filesz Hseg4 : get elf32_Phdr "p_filesz" m4 (header + o) = sg_filesz g).
    rewrite (f_equal sg_memsz Hseg4 : get elf32_Phdr "p_memsz" m4 (header + o) = sg_memsz g).
    reflexivity.
  - destruct (id Him3) as [Hr Hs Hf]. split; [done..|]. intros i Hi. cbn [m_ram set_ram].
    rewrite H5 by lia. rewrite seg_byte_image by (done || lia). by apply Hf.
  - destruct R as (Hok3 & Hst3 & Hb). split; [done|]. split; [done|].
    intros a Ha Hns. cbn [m_ram set_ram]. rewrite H5 by done. by rewrite Hb.
Qed.

Lemma ehdr_image f m1 m2 :
  image_at header len file m1 -> image_at header len file m2 ->
  get elf32_Ehdr f m1 header = get elf32_Ehdr f m2 header.
Proof.
  intros H1 H2. destruct (id H1) as [(? & ? & ?) _ _].
  pose proof (get_image elf32_Ehdr f m1 m2 header len file 0 H1 H2 eq_refl ltac:(lia)) as Hget.
  rewrite Z.add_0_r in Hget. apply Hget. change (sizeof elf32_Ehdr) with 52. lia.
Qed.

Lemma program_headers_cons m ph k :
  program_headers m ph (S k) = segment_at m ph :: program_headers m (ph + 32) k.
Proof.
  unfold program_headers. cbn [seq map]. rewrite Z.mul_0_r, Z.add_0_r. f_equal.
  rewrite <- seq_shift, map_map. apply map_ext. intros i. f_equal. lia.
Qed.

(** The byte at [a] after loading the segments [gs] in order. *)
Definition loaded_byte (gs : list segment) (old : Z -> Z) (a : Z) : Z :=
  fold_left (seg_byte file a) gs (old a).

Lemma reached_cong s b1 b2 s' :
  reached s b1 s' -> (forall a, 0 <= a < 4294967296 -> ~ on_screen a -> b1 a = b2 a) ->
  reached s b2 s'.
Proof.
  intros (H1 & H2 & H3) Hb. split; [done|]. split; [done|]. intros a Ha Ho. by rewrite H3, Hb.
Qed.

(** One round over a segment that is not refused. *)
(** What a round does with a segment after printing it. *)
Definition round_body (g : segment) (ph i : Z) : prog machine Z :=
  if negb (sg_type g =? PT_LOAD) then ret i else if sg_memsz g =? 0 then ret i
  else do* load_segment header ph in ret (u32 (i + 1)).

Lemma round_body_skip g ph i : loadable g = false -> round_body g ph i = ret i.
Proof.
  unfold round_body, loadable. destruct (sg_type g =? PT_LOAD); [|done]. cbn [negb andb].
  by intros ->%negb_false_iff.
Qed.

Lemma round_body_load g ph i :
  loadable g = true -> round_body g ph i = (do* load_segment header ph in ret (u32 (i + 1))).
Proof. unfold round_body. by intros [-> ->%negb_true_iff]%andb_prop. Qed.

(** The messages of a round, and the checks behind them. *)
Lemma load_round_print o s i eph m0 :
  machine_ok s -> image_at header len file (m_ram s) -> image_at header len file m0 ->
  0 <= o -> o + 32 <= len -> header + o < eph -> refused (segment_at m0 (header + o)) = false ->
  exists s5, image_at header len file (m_ram s5) /\ reached s (rd8 (m_ram s)) s5 /\
    segment_at (m_ram s5) (header + o) = segment_at m0 (header + o) /\
    forall fuel, load_loop (S fuel) header (header + o) eph i s =
      bind (round_body (segment_at m0 (header + o)) (header + o) i) (fun i =>
        let* phentsize := load_ram (fun m => get elf32_Ehdr "e_phentsize" m header) in
        load_loop fuel header (u32 (header + o + phentsize)) eph i) s5.
Proof.
  intros Hok Him Him0 Ho Hlen Heph Hr. set (g := segment_at m0 (header + o)) in *.
  destruct (id Him) as [(? & ? & ?) _ _].
  destruct (print_screen "Found segment at 0x" s Hok) as (s1 & E1 & R1).
  destruct (print_u32_screen (header + o) s1 (proj1 R1) ltac:(lia)) as (s2 & E2 & R2).
  destruct (print_screen " of type " s2 (proj1 R2)) as (s3 & E3 & R3).
  destruct (segment_bounds m0 (header + o)) as (Ht & _). fold g in Ht.
  destruct (print_u32_screen (sg_type g) s3 (proj1 R3) Ht) as (s4 & E4 & R4).
  destruct (print_screen newline s4 (proj1 R4)) as (s5 & E5 & R5).
  pose proof (same_but_screen_trans _ _ _ (same_but_screen_trans _ _ _ R1 R2) R3) as R13.
  pose proof (image_reached _ _ _ _ _ Him (screen_reached _ _ R13)) as Him3.
  pose proof (screen_reached _ _ (same_but_screen_trans _ _ _ (same_but_screen_trans _ _ _ R13 R4) R5)) as R.
  pose proof (image_reached _ _ _ _ _ Him R) as Him5.
  pose proof (segment_image _ _ _ _ _ o Him3 Him0 Ho Hlen) as Hs3.
  pose proof (segment_image _ _ _ _ _ o Him5 Him0 Ho Hlen) as Hs5. fold g in Hs3, Hs5.
  exists s5. split; [done|]. split; [done|]. split; [done|]. intros fuel. cbn [load_loop].
  rewrite (proj2 (Z.ltb_lt _ _)) by done.
  rewrite (bind_Done _ _ _ _ _ E1), (bind_Done _ _ _ _ _ E2), (bind_Done _ _ _ _ _ E3), bind_load.
  rewrite (f_equal sg_type Hs3 : get elf32_Phdr "p_type" (m_ram s3) (header + o) = sg_type g).
  rewrite (bind_Done _ _ _ _ _ E4), (bind_Done _ _ _ _ _ E5), bind_load.
  pose proof (f_equal sg_type Hs5 : get elf32_Phdr "p_type" (m_ram s5) (header + o) = sg_type g) as Htype.
  assert (elf_check_prog_header (header + o) (m_ram s5) = true) as ->.
  { unfold elf_check_prog_header. rewrite Htype. by apply orb_false_elim in Hr as [-> ->]. }
  cbn [negb]. rewrite !bind_load, Htype.
  by rewrite (f_equal sg_memsz Hs5 : get elf32_Phdr "p_memsz" (m_ram s5) (header + o) = sg_memsz g).
Qed.

Lemma load_round o s i eph m0 :
  machine_ok s -> image_at header len file (m_ram s) -> image_at header len file m0 ->
  0 <= o -> o + 32 <= len -> header + o < eph ->
  segment_ok header len (segment_at m0 (header + o)) -> 0 <= i < 4294967295 ->
  get elf32_Ehdr "e_phentsize" m0 header = 32 ->
  exists s' i', (forall fuel, load_loop (S fuel) header (header + o) eph i s =
      load_loop fuel header (header + (o + 32)) eph i' s') /\
    (i' = i \/ i' = i + 1) /\ image_at header len file (m_ram s') /\
    reached s (fun a => seg_byte file a (rd8 (m_ram s) a) (segment_at m0 (header + o))) s'.
Proof.
  intros Hok Him Him0 Ho Hlen Heph Hg Hi Hent.
  destruct (load_round_print o s i eph m0 Hok Him Him0 Ho Hlen Heph (proj1 Hg)) as (s5 & Him5 & R & Hs5 & Hrun).
  set (g := segment_at m0 (header + o)) in *. destruct (id Him) as [(? & ? & ?) _ _].
  assert (forall s', image_at header len file (m_ram s') ->
    u32 (header + o + get elf32_Ehdr "e_phentsize" (m_ram s') header) = header + (o + 32)) as Hnext.
  { intros s' Him'. rewrite (ehdr_image _ _ _ Him' Him0), Hent, u32_small; lia. }
  destruct (loadable g) eqn:Hl.
  - rewrite <- Hs5 in Hg.
    destruct (load_segment_spec o s5 (fun _ => ret (u32 (i + 1))) (proj1 R) Him5 Ho Hlen Hg)
      as (s6 & E6 & Him6 & R6); [by rewrite Hs5|].
    exists s6, (i + 1). split; [|split; [by right|split; [done|]]].
    + intros fuel. rewrite Hrun, round_body_load, (bind_Done _ _ _ (u32 (i + 1)) s6) by (done || exact E6).
      by rewrite bind_load, (Hnext s6 Him6), (u32_small (i + 1)) by lia.
    + rewrite Hs5 in R6. destruct R as (_ & Hst & Hb), R6 as (Hok6 & Hst6 & Hb6).
      split; [done|]. split; [by etrans|]. intros a Ha Hns. by rewrite Hb6, Hb.
  - exists s5, i. split; [|split; [by left|split; [done|]]].
    + intros fuel. by rewrite Hrun, round_body_skip, bind_ret_l, bind_load, (Hnext s5 Him5).
    + eapply reached_cong; [exact R|]. intros a _ _. unfold seg_byte. by rewrite Hl.
Qed.

(** [k] rounds over segments that are not refused. *)
Lemma load_rounds k o i s eph m0 :
  machine_ok s -> image_at header len file (m_ram s) -> image_at header len file m0 ->
  0 <= o -> o + 32 * Z.of_nat k <= len -> header + (o + 32 * Z.of_nat k) <= eph ->
  Forall (segment_ok header len) (program_headers m0 (header + o) k) ->
  0 <= i -> i + Z.of_nat k < 4294967295 -> get elf32_Ehdr "e_phentsize" m0 header = 32 ->
  exists s' i', (forall fuel, load_loop (k + fuel) header (header + o) eph i s =
      load_loop fuel header (header + (o + 32 * Z.of_nat k)) eph i' s') /\
    0 <= i' < 4294967295 /\ image_at header len file (m_ram s') /\
    reached s (loaded_byte (program_headers m0 (header + o) k) (rd8 (m_ram s))) s'.
Proof.
  revert o i s. induction k as [|k IH]; intros o i s Hok Him Him0 Ho Hlen Heph Hall Hi Hik Hent.
  { exists s, i. rewrite Z.mul_0_r, Z.add_0_r. split; [done|]. split; [lia|].
    split; [done|]. by split. }
  rewrite program_headers_cons in *. apply Forall_cons in Hall as [Hg Hall].
  destruct (load_round o s i eph m0 Hok Him Him0 Ho ltac:(lia) ltac:(lia) Hg ltac:(lia) Hent)
    as (s1 & i1 & E1 & Hi1 & Him1 & R1).
  rewrite <- Z.add_assoc in Hall.
  destruct (IH (o + 32) i1 s1 (proj1 R1) Him1 Him0 ltac:(lia) ltac:(lia) ltac:(lia) Hall
    ltac:(lia) ltac:(lia) Hent) as (s' & i' & E' & Hi' & Him' & R').
  exists s', i'. replace (o + 32 * Z.of_nat (S k)) with (o + 32 + 32 * Z.of_nat k) by lia.
  split; [intros fuel; cbn [Nat.add]; by rewrite E1, E'|]. split; [done|]. split; [done|].
  destruct R1 as (_ & Hst1 & Hb1), R' as (Hok' & Hst' & Hb'). split; [done|]. split; [by etrans|].
  intros a Ha Hns. rewrite Hb' by done. unfold loaded_byte. cbn [fold_left].
  rewrite Hb1 by done. by rewrite <- Z.add_assoc.
Qed.

(** A refused program header ends the loop at once. *)
Lemma load_refused o s i eph m0 :
  machine_ok s -> image_at header len file (m_ram s) -> image_at header len file m0 ->
  0 <= o -> o + 32 <= len -> header + o < eph ->
  refused (segment_at m0 (header + o)) = true ->
  exists s', (forall fuel, load_loop (S fuel) header (header + o) eph i s = Done None s') /\
    reached s (rd8 (m_ram s)) s'.
Proof.
  intros Hok Him Him0 Ho Hlen Heph Hg. set (g := segment_at m0 (header + o)) in *.
  destruct (id Him) as [(? & ? & ?) _ _].
  destruct (print_screen "Found segment at 0x" s Hok) as (s1 & E1 & R1).
  destruct (print_u32_screen (header + o) s1 (proj1 R1) ltac:(lia)) as (s2 & E2 & R2).
  destruct (print_screen " of type " s2 (proj1 R2)) as (s3 & E3 & R3).
  pose proof (same_but_screen_trans _ _ _ (same_but_screen_trans _ _ _ R1 R2) R3) as R13.
  pose proof (segment_image _ _ _ _ _ o (image_reached _ _ _ _ _ Him (screen_reached _ _ R13)) Him0 Ho Hlen)
    as Hs3. fold g in Hs3.
  destruct (segment_bounds m0 (header + o)) as (Ht & _). fold g in Ht.
  destruct (print_u32_screen (sg_type g) s3 (proj1 R3) Ht) as (s4 & E4 & R4).
  destruct (print_screen newline s4 (proj1 R4)) as (s5 & E5 & R5).
  pose proof (screen_reached _ _ (same_but_screen_trans _ _ _ (same_but_screen_trans _ _ _ R13 R4) R5)) as R.
  pose proof (segment_image _ _ _ _ _ o (image_reached _ _ _ _ _ Him R) Him0 Ho Hlen) as Hs5.
  fold g in Hs5. exists s5. split; [|done]. intros fuel.
  cbn [load_loop]. rewrite (proj2 (Z.ltb_lt _ _)) by done.
  rewrite (bind_Done _ _ _ _ _ E1), (bind_Done _ _ _ _ _ E2), (bind_Done _ _ _ _ _ E3), bind_load.
  rewrite (f_equal sg_type Hs3 : get elf32_Phdr "p_type" (m_ram s3) (header + o) = sg_type g).
  rewrite (bind_Done _ _ _ _ _ E4), (bind_Done _ _ _ _ _ E5), bind_load.
  assert (elf_check_prog_header (header + o) (m_ram s5) = false) as ->; [|done].
  unfold elf_check_prog_header.
  rewrite (f_equal sg_type Hs5 : get elf32_Phdr "p_type" (m_ram s5) (header + o) = sg_type g).
  unfold refused in Hg. destruct (sg_type g =? PT_DYNAMIC); [done|]. cbn [orb] in Hg. by rewrite Hg.
Qed.

(** What the loader needs of the image and its header. *)
Record loadable_image (m : mem) (phoff : Z) (phnum : nat) : Prop := {
  li_image : image_at header len file m;
  li_phoff : get elf32_Ehdr "e_phoff" m header = phoff;
  li_phnum : get elf32_Ehdr "e_phnum" m header = Z.of_nat phnum;
  li_phentsize : get elf32_Ehdr "e_phentsize" m header = 32;
  li_inside : phoff + 32 * Z.of_nat phnum <= len;
}.

Lemma loadable_phoff m phoff phnum :
  loadable_image m phoff phnum -> 0 <= phoff /\ Z.of_nat phnum < 65536.
Proof.
  intros [_ <- Hn _ _]. split; [apply (load_bounds 4)|].
  rewrite <- Hn. apply (load_bounds 2).
Qed.

Lemma elf32_load_lemma s phoff phnum :
  machine_ok s -> loadable_image (m_ram s) phoff (S phnum) ->
  let gs := program_headers (m_ram s) (header + phoff) (S phnum) in
  let g := segment_at (m_ram s) (header + phoff + 32 * Z.of_nat phnum) in
  Forall (segment_ok header len) gs ->
  exists s', returns (fun fuel => elf32_load fuel header) s (u32 (sg_paddr g + sg_memsz g)) s' /\
    reached s (loaded_byte gs (rd8 (m_ram s))) s'.
Proof.
  intros Hok Hli gs g Hall. destruct (loadable_phoff _ _ _ Hli) as [Hp Hn].
  destruct (id Hli) as [Him Hphoff Hphnum Hent Hin]. destruct (id Him) as [(? & ? & ?) _ _].
  set (eph := header + (phoff + 32 * Z.of_nat (S phnum))).
  destruct (load_rounds (S phnum) phoff 0 s eph (m_ram s) Hok Him Him Hp Hin ltac:(done) Hall
    ltac:(lia) ltac:(lia) Hent) as (s1 & i1 & E1 & Hi1 & Him1 & R1).
  destruct (print_screen "Loaded " s1 (proj1 R1)) as (s2 & E2 & R2).
  destruct (print_u32_screen i1 s2 (proj1 R2) ltac:(lia)) as (s3 & E3 & R3).
  destruct (print_screen (" segments total!" ++ newline)%string s3 (proj1 R3)) as (s4 & E4 & R4).
  exists s4. split.
  - exists (S phnum). intros fuel Hf. unfold elf32_load. rewrite !bind_load, Hphoff, Hphnum. cbv zeta.
    change (sizeof elf32_Phdr) with 32. rewrite (u32_small (header + phoff)), u32_small by lia.
    replace (header + phoff + 32 * Z.of_nat (S phnum)) with eph by (unfold eph; lia).
    replace fuel with (S phnum + S (fuel - S (S phnum)))%nat by lia.
    rewrite (bind_Done _ _ _ (Some (eph, i1)) s1).
    2: { rewrite E1. cbn [load_loop]. by rewrite Z.ltb_irrefl. }
    rewrite bind_load, (ehdr_image _ _ _ Him1 Him), Hent, bind_load.
    rewrite (u32_small (eph - 32)) by (unfold eph; lia).
    replace (eph - 32) with (header + (phoff + 32 * Z.of_nat phnum)) by (unfold eph; lia).
    pose proof (segment_image _ _ _ _ _ (phoff + 32 * Z.of_nat phnum) Him1 Him ltac:(lia) ltac:(lia)) as Hseg.
    rewrite (f_equal sg_paddr Hseg : get elf32_Phdr "p_paddr" (m_ram s1) _ = sg_paddr _).
    rewrite (f_equal sg_memsz Hseg : get elf32_Phdr "p_memsz" (m_ram s1) _ = sg_memsz _).
    rewrite Z.add_assoc. fold g.
    rewrite (bind_Done _ _ _ _ _ E2), (bind_Done _ _ _ _ _ E3), (bind_Done _ _ _ _ _ E4). done.
  - eapply reached_trans; [exact R1| |].
    + apply screen_reached. eapply same_but_screen_trans; [eapply same_but_screen_trans; eassumption|done].
    + intros a Ha Ho. destruct R1 as (_ & _ & Hb). by apply Hb.
Qed.

Lemma elf32_load_refused_lemma s phoff phnum k :
  machine_ok s -> loadable_image (m_ram s) phoff phnum -> (k < phnum)%nat ->
  let gs := program_headers (m_ram s) (header + phoff) k in
  Forall (segment_ok header len) gs ->
  refused (segment_at (m_ram s) (header + phoff + 32 * Z.of_nat k)) = true ->
  exists s', returns (fun fuel => elf32_load fuel header) s 0 s' /\
    reached s (loaded_byte gs (rd8 (m_ram s))) s'.
Proof.
  intros Hok Hli Hk gs Hall Href. destruct (loadable_phoff _ _ _ Hli) as [Hp Hn].
  destruct (id Hli) as [Him Hphoff Hphnum Hent Hin]. destruct (id Him) as [(? & ? & ?) _ _].
  set (eph := header + (phoff + 32 * Z.of_nat phnum)).
  destruct (load_rounds k phoff 0 s eph (m_ram s) Hok Him Him Hp ltac:(lia) ltac:(unfold eph; lia) Hall
    ltac:(lia) ltac:(lia) Hent) as (s1 & i1 & E1 & Hi1 & Him1 & R1).
  rewrite <- Z.add_assoc in Href.
  destruct (load_refused (phoff + 32 * Z.of_nat k) s1 i1 eph (m_ram s) (proj1 R1) Him1 Him
    ltac:(lia) ltac:(lia) ltac:(unfold eph; lia) Href) as (s2 & E2 & R2).
  exists s2. split.
  - exists (S k). intros fuel Hf. unfold elf32_load. rewrite !bind_load, Hphoff, Hphnum. cbv zeta.
    change (sizeof elf32_Phdr) with 32. rewrite (u32_small (header + phoff)), u32_small by lia.
    replace (header + phoff + 32 * Z.of_nat phnum) with eph by (unfold eph; lia).
    replace fuel with (k + S (fuel - S k))%nat by lia.
    by rewrite (bind_Done _ _ _ None s2) by (by rewrite E1).
  - eapply reached_trans; [exact R1|exact R2|]. intros a Ha Ho.
    destruct R1 as (_ & _ & Hb). by apply Hb.
Qed.
End Loading.

(** ** An example image: a data segment of 4 bytes, 8 in memory, at 1 MiB, and a
    [PT_GNU_STACK] header, as the linker writes it. *)

Definition example_ehdr (phnum : Z) : list Z :=
  [127; 69; 76; 70; 1; 1; 1; 0; 0; 0; 0; 0; 0; 0; 0; 0] ++ bytes_le 2 2 ++ bytes_le 2 3 ++
  bytes_le 4 1 ++ bytes_le 4 1048576 ++ bytes_le 4 52 ++ bytes_le 4 0 ++ bytes_le 4 0 ++
  bytes_le 2 52 ++ bytes_le 2 32 ++ bytes_le 2 phnum ++ replicate 6 0.

Definition example_phdr (ty offset paddr filesz memsz : Z) : list Z :=
  bytes_le 4 ty ++ bytes_le 4 offset ++ bytes_le 4 paddr ++ bytes_le 4 paddr ++
  bytes_le 4 filesz ++ bytes_le 4 memsz ++ bytes_le 4 7 ++ bytes_le 4 16.

Lemma example_ehdr_bytes phnum : Forall (fun c => 0 <= c < 256) (example_ehdr phnum).
Proof.
  unfold example_ehdr. apply Forall_app. split; [repeat (constructor; [lia|]); constructor|].
  rewrite !Forall_app. repeat split; try apply bytes_le_Forall.
  apply Forall_replicate. lia.
Qed.

Lemma example_phdr_bytes ty offset paddr filesz memsz :
  Forall (fun c => 0 <= c < 256) (example_phdr ty offset paddr filesz memsz).
Proof. unfold example_phdr. rewrite !Forall_app. repeat split; apply bytes_le_Forall. Qed.

Definition example_elf (second : list Z) : list Z :=
  example_ehdr 2 ++ example_phdr 1 116 1048576 4 8 ++ second ++ [222; 173; 190; 239].

Definition example_gnu_stack : list Z := example_phdr 1685382481 0 0 0 0.
Definition example_data : list Z := example_phdr 1 116 1048584 4 4.
Definition example_interp : list Z := example_phdr 3 116 0 4 4.

Definition example_loader (second : list Z) : machine :=
  Machine (write_bytes ∅ 65536 (example_elf second)) new_terminal 16 0 0 128.

Lemma example_loader_ok second : machine_ok (example_loader second).
Proof. split; [exact new_terminal_ok|]. split; [done|]. cbn. lia. Qed.

Lemma example_loadable second :
  List.length second = 32%nat -> Forall (fun c => 0 <= c < 256) second ->
  get elf32_Ehdr "e_phoff" (m_ram (example_loader second)) 65536 = 52 ->
  get elf32_Ehdr "e_phnum" (m_ram (example_loader second)) 65536 = 2 ->
  get elf32_Ehdr "e_phentsize" (m_ram (example_loader second)) 65536 = 32 ->
  loadable_image 65536 120 (fun i => nth (Z.to_nat i) (example_elf second) 0)
    (m_ram (example_loader second)) 52 2.
Proof.
  intros Hl Hb H1 H2 H3. split; [|done|done|done|lia].
  assert (List.length (example_elf second) = 120%nat) as Hlen
    by (unfold example_elf; rewrite !length_app, Hl; reflexivity).
  split; [lia|unfold FRAMEBUFFER_LOCATION, cells; lia|].
  intros i Hi. unfold example_loader. cbn [m_ram].
  rewrite rd8_write_bytes by lia. replace (65536 + i - 65536) with i by lia.
  rewrite u32_small by lia. destruct (lookup_lt_is_Some_2 (example_elf second) (Z.to_nat i)) as [c Hc]; [lia|].
  rewrite Hc. rewrite (nth_lookup_Some _ _ _ _ Hc). apply u8_small.
  assert (Forall (fun c => 0 <= c < 256) (example_elf second)) as Hall; [|exact (Forall_lookup_1 _ _ _ _ Hall Hc)].
  unfold example_elf. rewrite !Forall_app. split; [apply example_ehdr_bytes|].
  split; [apply example_phdr_bytes|]. split; [done|]. repeat (constructor; [lia|]). constructor.
Qed.

(** ** Properties *)

(** C12: [elf32_load] on an image whose program headers are neither PT_DYNAMIC nor
    PT_INTERP, with segments that fit and stay clear of the image and the screen: the
    call ends, returns the end address of the last program header, and memory (the
    screen aside) is what it was with every PT_LOAD segment in place, in order: the
    file's bytes, then zeros up to the size in memory. *)
Theorem elf32_load_loads header len file s phoff phnum :
  machine_ok s -> loadable_image header len file (m_ram s) phoff (S phnum) ->
  let gs := program_headers (m_ram s) (header + phoff) (S phnum) in
  let g := segment_at (m_ram s) (header + phoff + 32 * Z.of_nat phnum) in
  Forall (segment_ok header len) gs ->
  exists s', returns (fun fuel => elf32_load fuel header) s (u32 (sg_paddr g + sg_memsz g)) s' /\
    reached s (loaded_byte file gs (rd8 (m_ram s))) s'.
Proof. apply elf32_load_lemma. Qed.

Lemma reached_map s f s' a n :
  reached s f s' -> 1048576 <= a -> a + n <= 4294967296 ->
  map (rd8 (m_ram s')) (seqZ a n) = map f (seqZ a n).
Proof.
  intros (_ & _ & Hb) Ha Hn. apply map_ext_in. intros x Hx%list_elem_of_In%elem_of_seqZ.
  apply Hb; [lia|]. unfold on_screen, FRAMEBUFFER_LOCATION, cells. lia.
Qed.

Lemma example_segments second gs :
  program_headers (m_ram (example_loader second)) (65536 + 52) 2 = gs ->
  Forall (fun g => refused g = false /\ (loadable g = true ->
    sg_filesz g <= sg_memsz g /\ 1048576 <= sg_paddr g /\ sg_paddr g + sg_memsz g <= 4294967296 /\
    sg_offset g + sg_filesz g <= 120)) gs ->
  Forall (segment_ok 65536 120) (program_headers (m_ram (example_loader second)) (65536 + 52) 2).
Proof.
  intros -> H. eapply Forall_impl; [exact H|]. intros g [Hr Hg]. split; [done|].
  intros Hl. specialize (Hg Hl). unfold FRAMEBUFFER_LOCATION, cells. lia.
Qed.

Lemma elf32_load_loads_witness :
  exists s', returns (fun fuel => elf32_load fuel 65536) (example_loader example_data) 1048588 s' /\
    map (rd8 (m_ram s')) (seqZ 1048576 12) = [222; 173; 190; 239; 0; 0; 0; 0; 222; 173; 190; 239].
Proof.
  destruct (elf32_load_loads 65536 120 (fun i => nth (Z.to_nat i) (example_elf example_data) 0)
    (example_loader example_data) 52 1 (example_loader_ok _)) as (s' & E & R).
  - apply example_loadable; [reflexivity|apply example_phdr_bytes|vm_compute; reflexivity..].
  - eapply example_segments; [vm_compute; reflexivity|].
    repeat (constructor; [split; [reflexivity|cbn; lia]|]). constructor.
  - exists s'. split; [exact E|]. rewrite (reached_map _ _ _ _ _ R) by lia. vm_compute. reflexivity.
Defined.

(** A PT_DYNAMIC or PT_INTERP program header makes [elf32_load] return 0 at that
    header, with the segments before it loaded and nothing after it. *)
Theorem elf32_load_refuses header len file s phoff phnum k :
  machine_ok s -> loadable_image header len file (m_ram s) phoff phnum -> (k < phnum)%nat ->
  let gs := program_headers (m_ram s) (header + phoff) k in
  Forall (segment_ok header len) gs ->
  refused (segment_at (m_ram s) (header + phoff + 32 * Z.of_nat k)) = true ->
  exists s', returns (fun fuel => elf32_load fuel header) s 0 s' /\
    reached s (loaded_byte file gs (rd8 (m_ram s))) s'.
Proof. apply elf32_load_refused_lemma. Qed.

Lemma elf32_load_refuses_witness :
  exists s', returns (fun fuel => elf32_load fuel 65536) (example_loader example_interp) 0 s'.
Proof.
  destruct (elf32_load_refuses 65536 120 (fun i => nth (Z.to_nat i) (example_elf example_interp) 0)
    (example_loader example_interp) 52 2 1 (example_loader_ok _)) as (s' & E & _).
  - apply example_loadable; [reflexivity|apply example_phdr_bytes|vm_compute; reflexivity..].
  - lia.
  - change (program_headers (m_ram (example_loader example_interp)) (65536 + 52) 1)
      with [segment_at (m_ram (example_loader example_interp)) (65536 + 52 + 32 * Z.of_nat 0)].
    replace (segment_at _ _) with (Segment 1 116 1048576 4 8) by (vm_compute; reflexivity).
    constructor; [|constructor]. split; [reflexivity|].
    intros _. unfold FRAMEBUFFER_LOCATION, cells. cbn. lia.
  - vm_compute. reflexivity.
  - exists s'. exact E.
Defined.

(** The result is the end of the last program header, whatever its type, and the
    caller takes 0 for a failure: an image that ends with a header of address and size
    0, such as the PT_GNU_STACK header linkers add, is loaded completely and still
    reported as failed. *)
Theorem elf32_load_last_header_null header len file s phoff phnum :
  machine_ok s -> loadable_image header len file (m_ram s) phoff (S phnum) ->
  let gs := program_headers (m_ram s) (header + phoff) (S phnum) in
  let g := segment_at (m_ram s) (header + phoff + 32 * Z.of_nat phnum) in
  Forall (segment_ok header len) gs -> sg_paddr g = 0 -> sg_memsz g = 0 ->
  exists s', returns (fun fuel => elf32_load fuel header) s 0 s' /\
    reached s (loaded_byte file gs (rd8 (m_ram s))) s'.
Proof.
  intros Hok Hli gs g Hall Hp Hm.
  destruct (elf32_load_lemma header len file s phoff phnum Hok Hli Hall) as (s' & E & R).
  fold g in E. rewrite Hp, Hm in E. by exists s'.
Qed.

Lemma elf32_load_last_header_null_witness :
  exists s', returns (fun fuel => elf32_load fuel 65536) (example_loader example_gnu_stack) 0 s' /\
    map (rd8 (m_ram s')) (seqZ 1048576 4) = [222; 173; 190; 239].
Proof.
  destruct (elf32_load_last_header_null 65536 120 (fun i => nth (Z.to_nat i) (example_elf example_gnu_stack) 0)
    (example_loader example_gnu_stack) 52 1 (example_loader_ok _)) as (s' & E & R).
  - apply example_loadable; [reflexivity|apply example_phdr_bytes|vm_compute; reflexivity..].
  - eapply example_segments; [vm_compute; reflexivity|].
    constructor; [split; [reflexivity|cbn; lia]|].
    constructor; [split; [reflexivity|discriminate]|constructor].
  - vm_compute. reflexivity.
  - vm_compute. reflexivity.
  - exists s'. split; [exact E|]. rewrite (reached_map _ _ _ _ _ R) by lia. vm_compute. reflexivity.
Defined.

(** [elf_check_file] accepts exactly the non-null pointers to a 32-bit little-endian
    executable for the 80386 with the current version. *)
Theorem elf_check_file_accepts header m :
  elf_check_file header m = true <->
  header <> 0 /\ read_bytes m header 7 = [127; 69; 76; 70; 1; 1; 1] /\
  ld16 m (header + 16) = 2 /\ ld16 m (header + 18) = 3.
Proof.
  unfold elf_check_file, e_ident, EI_MAG0, EI_MAG1, EI_MAG2, EI_MAG3, EI_CLASS, EI_DATA, EI_VERSION,
    ELFMAG0, ELFMAG1, ELFMAG2, ELFMAG3, ELFCLASS32, ELFDATA2LSB, EM_386, EV_CURRENT, ET_EXEC.
  change (get elf32_Ehdr "e_machine" m header) with (ld16 m (header + 18)).
  change (get elf32_Ehdr "e_type" m header) with (ld16 m (header + 16)).
  cbn [read_bytes]. rewrite <- !Z.add_assoc, Z.add_0_r.
  change (1 + (1 + (1 + (1 + (1 + 1))))) with 6. change (1 + (1 + (1 + (1 + 1)))) with 5.
  change (1 + (1 + (1 + 1))) with 4. change (1 + (1 + 1)) with 3. change (1 + 1) with 2.
  destruct (Z.eqb_spec header 0); cbn [negb]; [split; [done|tauto]|].
  repeat match goal with
  | |- context [?x =? ?y] =>
      destruct (Z.eqb_spec x y) as [->|]; cbn [negb]; [|split; [done|intros (? & [=] & ? & ?); congruence]]
  end.
  done.
Qed.
