(* ===== verification/Multiboot.v ===== *)
(** Multiboot in the boot loader: [multibootHeaderSearch] and [buildMultibootInfo] of
    [bootloader/stage1main.cpp], with the structures of [include/sys/multiboot.h]. *)

From S2P Require Import Prelude PhysMem Layout CString Terminal Heap Machine DiskRead Arena Fat32 MemDetect.

Local Open Scope string_scope.
Local Open Scope list_scope.
Local Open Scope Z_scope.

Definition multiboot_header : layout := Layout false [
  ("magic", U32); ("flags", U32); ("checksum", U32); ("header_addr", U32); ("load_addr", U32);
  ("load_end_addr", U32); ("bss_end_addr", U32); ("entry_addr", U32); ("mode_type", U32);
  ("width", U32); ("height", U32); ("depth", U32)].

Definition multiboot_info_structure : layout := Layout false [
  ("flags", U32); ("mem_lower", U32); ("mem_upper", U32); ("boot_device", U32); ("cmdline", U32);
  ("mods_count", U32); ("mods_addr", U32); ("syms_1", U32); ("syms_2", U32); ("syms_3", U32);
  ("syms_4", U32); ("mmap_length", U32); ("mmap_addr", U32); ("drives_length", U32);
  ("drives_addr", U32); ("config_table", U32); ("boot_loader_name", U32); ("apm_table", U32);
  ("vbe_control_info", U32); ("vbe_mode_info", U32); ("vbe_mode", U16);
  ("vbe_interface_seg", U16); ("vbe_interface_off", U16); ("vbe_interface_len", U16);
  ("framebuffer_addr", U64); ("framebuffer_pitch", U32); ("framebuffer_width", U32);
  ("framebuffer_height", U32); ("framebuffer_bpp", U8); ("framebuffer_type", U8);
  ("color_1", U32); ("color2", U16)].

Definition MULTIBOOT_SEARCH : Z := 8192.
Definition MULTIBOOT_HEADER_ALIGN : Z := 4.
Definition MULTIBOOT_MAGIC : Z := 464367618. (* 0x1badb002 *)
Definition MULTIBOOT_INFO_SIZE : Z := 120.

(** ** [multibootHeaderSearch] *)

(** Magic and checksum of the header at an address. *)
Definition header_valid (m : mem) (header : Z) : bool :=
  let magic := get multiboot_header "magic" m header in
  let flags := get multiboot_header "flags" m header in
  let checksum := get multiboot_header "checksum" m header in
  (magic =? MULTIBOOT_MAGIC) && (u32 (u32 (magic + flags) + checksum) =? 0).

(** The condition of the [for] loop. *)
Definition search_goes_on (ptr size header : Z) : bool :=
  (header <=? u32 (ptr + MULTIBOOT_SEARCH - 12)) || (u32 (ptr + size) <=? header).

Fixpoint search_loop (fuel : nat) (m : mem) (ptr size header : Z) : option Z :=
  match fuel with
  | O => None
  | S fuel' =>
      if search_goes_on ptr size header then
        if header_valid m header then Some header
        else search_loop fuel' m ptr size (u32 (header + MULTIBOOT_HEADER_ALIGN))
      else Some 0
  end.

Definition multibootHeaderSearch (fuel : nat) (m : mem) (file : Z) : option Z :=
  let ptr := get fat32_fileResult "ptr" m file in
  search_loop fuel m ptr (get fat32_fileResult "size" m file) ptr.

(** ** [buildMultibootInfo] *)

Section Build.
Variable int12 : mem -> bool * Z * mem.
Variable int15 : Z -> Z -> Z -> mem -> int15_result.

(** [returnStruct->f = v], and [header->flags & mask]. *)
Definition put_info (p : Z) (f : string) (v : Z) : prog machine unit :=
  store_ram (fun m => put multiboot_info_structure f m p v).
Definition header_flag (header mask : Z) : prog machine bool :=
  load_ram (fun m => negb (Z.land (get multiboot_header "flags" m header) mask =? 0)).

(** [returnStruct->flags = returnStruct->flags | bit]. *)
Definition or_flags (p bit : Z) : prog machine unit :=
  store_ram (fun m => put multiboot_info_structure "flags" m p
    (Z.lor (get multiboot_info_structure "flags" m p) bit)).

(** The memory fields, for [flags[0]]. *)
Definition memory_info (fuel : nat) (p : Z) : prog machine unit :=
  let* lower := queryLowerMemory int12 in
  do* put_info p "mem_lower" lower in
  let* upperMemStruct := queryUpperMemory int15 fuel in
  let* upper := load_ram (getUpperMemorySize upperMemStruct) in
  do* put_info p "mem_upper" upper in
  let* size := load_ram (fun m => get upperMemory_mmap_struct "size" m upperMemStruct) in
  do* put_info p "mmap_length" (u32 (size * 24)) in
  let* ptr := load_ram (fun m => get upperMemory_mmap_struct "ptr" m upperMemStruct) in
  do* put_info p "mmap_addr" ptr in
  do* or_flags p 1 in
  or_flags p 64.

Definition buildMultibootInfo (fuel : nat) (header bootDevice : Z) : prog machine Z :=
  let* returnStruct := new_bytes fuel (sizeof multiboot_info_structure) in
  do* put_info returnStruct "flags" 0 in
  let* mem_wanted := header_flag header 1 in
  do* (if mem_wanted then memory_info fuel returnStruct else ret tt) in
  let* device_wanted := header_flag header 2 in
  do* (if device_wanted then
         do* put_info returnStruct "boot_device" bootDevice in or_flags returnStruct 2
       else ret tt) in
  let* video_wanted := header_flag header 4 in
  if (video_wanted : bool) then ret 0 else
  let* others := header_flag header 65528 in
  if (others : bool) then ret 0 else
  ret returnStruct.
End Build.

(** ** The search, where the file is longer than the searched part *)

(** The result: the first of the [k] places from [header] on, or null. *)
Fixpoint first_valid (k : nat) (m : mem) (header : Z) : Z :=
  match k with
  | O => 0
  | S k' => if header_valid m header then header else first_valid k' m (header + 4)
  end.

Lemma info_size : sizeof multiboot_info_structure = MULTIBOOT_INFO_SIZE.
Proof. reflexivity. Qed.

(** [k] rounds that find nothing. *)
Lemma search_skip k fuel m ptr size header :
  0 <= header -> header + 4 * Z.of_nat k < 4294967296 ->
  (forall i, (i < k)%nat -> search_goes_on ptr size (header + 4 * Z.of_nat i) = true /\
     header_valid m (header + 4 * Z.of_nat i) = false) ->
  search_loop (k + fuel) m ptr size header = search_loop fuel m ptr size (header + 4 * Z.of_nat k).
Proof.
  revert header. induction k as [|k IH]; intros header H0 H1 Hi.
  - cbn [Nat.add]. f_equal. lia.
  - destruct (Hi 0%nat ltac:(lia)) as [Hg Hv]. rewrite Z.mul_0_r, Z.add_0_r in Hg, Hv.
    cbn [Nat.add search_loop]. rewrite Hg, Hv. unfold MULTIBOOT_HEADER_ALIGN.
    rewrite u32_small, IH by (lia || (intros i Hlt; destruct (Hi (S i) ltac:(lia)) as [H2 H3];
      replace (header + 4 + 4 * Z.of_nat i) with (header + 4 * Z.of_nat (S i)) by lia; done)).
    f_equal. lia.
Qed.

Lemma search_loop_first k fuel m ptr size header :
  (k < fuel)%nat -> 0 <= header -> header + 4 * Z.of_nat k < 4294967296 ->
  (forall i, (i < k)%nat -> search_goes_on ptr size (header + 4 * Z.of_nat i) = true) ->
  search_goes_on ptr size (header + 4 * Z.of_nat k) = false ->
  search_loop fuel m ptr size header = Some (first_valid k m header).
Proof.
  revert fuel header. induction k as [|k IH]; intros [|fuel] header Hf H0 H1 Hi Hend; try lia.
  - cbn [search_loop first_valid]. rewrite Z.mul_0_r, Z.add_0_r in Hend. by rewrite Hend.
  - cbn [search_loop first_valid]. specialize (Hi 0%nat) as Hg.
    rewrite Z.mul_0_r, Z.add_0_r in Hg. rewrite Hg by lia.
    destruct (header_valid m header); [done|]. unfold MULTIBOOT_HEADER_ALIGN.
    rewrite u32_small by lia. apply IH; [lia..| |].
    + intros i Hlt. replace (header + 4 + 4 * Z.of_nat i) with (header + 4 * Z.of_nat (S i)) by lia.
      apply Hi. lia.
    + by replace (header + 4 + 4 * Z.of_nat k) with (header + 4 * Z.of_nat (S k)) by lia.
Qed.

(** The condition of the loop at 4-byte steps from the start of the file. *)
Lemma goes_on_near ptr size i :
  0 <= ptr -> ptr + 8180 < 4294967296 -> (i <= 2045)%nat ->
  search_goes_on ptr size (ptr + 4 * Z.of_nat i) = true.
Proof.
  intros H0 H1 Hi. unfold search_goes_on, MULTIBOOT_SEARCH. rewrite u32_small by lia.
  by rewrite (proj2 (Z.leb_le _ _)) by lia.
Qed.

Lemma goes_on_small_file ptr size header :
  0 <= ptr -> ptr + 8180 < 4294967296 -> 0 <= size <= 8184 -> ptr + size < 4294967296 ->
  header mod 4 = ptr mod 4 -> search_goes_on ptr size header = true.
Proof.
  intros H0 H1 Hs H2 Hm. unfold search_goes_on, MULTIBOOT_SEARCH. rewrite !u32_small by lia.
  destruct (Z.leb_spec header (ptr + 8192 - 12)); [done|].
  apply Z.leb_le. Z.to_euclidean_division_equations. lia.
Qed.

Lemma search_loop_endless fuel m ptr size header :
  0 <= ptr -> ptr + 8180 < 4294967296 -> 0 <= size <= 8184 -> ptr + size < 4294967296 ->
  0 <= header < 4294967296 -> header mod 4 = ptr mod 4 ->
  (forall a, 0 <= a < 4294967296 -> a mod 4 = ptr mod 4 -> header_valid m a = false) ->
  search_loop fuel m ptr size header = None.
Proof.
  intros H0 H1 Hs H2 Hh Hm Hno. revert header Hh Hm. induction fuel as [|fuel IH]; intros header Hh Hm;
    cbn [search_loop]; [done|]. rewrite goes_on_small_file, (Hno header) by done.
  apply IH; [apply u32_bounds|]. unfold MULTIBOOT_HEADER_ALIGN, u32, wrap.
  Z.to_euclidean_division_equations. lia.
Qed.

(** ** The info structure *)

(** Documented behaviour of [int $0x12]: carry clear, the size in KiB in [%ax]. *)
Definition int12_reports (int12 : mem -> bool * Z * mem) (kb : Z) : Prop :=
  forall m, exists m', int12 m = (false, kb, m') /\
    forall a, 0 <= a < 4294967296 -> ~ scratch a -> rd8 m' a = rd8 m a.

Definition region_ok (r : region) : Prop :=
  0 <= rg_length r < 18446744073709551616 /\ 1 <= rg_type r < 4294967295.

(** The memory fields of an info structure at [p], with the map at [mp]. *)
Record memory_filled (m : mem) (p mp kb : Z) (rs : list region) : Prop := {
  mf_lower : get multiboot_info_structure "mem_lower" m p = kb;
  mf_upper : get multiboot_info_structure "mem_upper" m p = 0;
  mf_length : get multiboot_info_structure "mmap_length" m p = 24 * Z.of_nat (List.length rs);
  mf_addr : get multiboot_info_structure "mmap_addr" m p = mp;
  mf_regions : regions_at m mp rs;
}.

Lemma info_field_bounds f m p :
  fieldsize multiboot_info_structure f = 4 -> 0 <= get multiboot_info_structure f m p < 4294967296.
Proof. intros Hf. unfold get. rewrite Hf. apply ld32_bounds. Qed.

Lemma put_info_get f m p v :
  fieldsize multiboot_info_structure f = 4 -> 0 <= v < 4294967296 ->
  get multiboot_info_structure f (put multiboot_info_structure f m p v) p = v.
Proof. intros Hf Hv. rewrite get_put_eq, Hf by done. by apply Z.mod_small. Qed.

Lemma put_info_ne f g m p v :
  f <> g -> get multiboot_info_structure g (put multiboot_info_structure f m p v) p =
            get multiboot_info_structure g m p.
Proof. by apply get_put_ne. Qed.

Lemma put_info_changes f m p v :
  fits p 120 -> only_changes p 120 m (put multiboot_info_structure f m p v).
Proof. intros Hf. change 120 with (sizeof multiboot_info_structure). by apply put_only_changes. Qed.

Lemma regions_at_outside m m' p mp rs :
  regions_at m mp rs -> only_changes p 120 m m' -> fits p 120 -> p + 120 <= mp ->
  mp + 28 * Z.of_nat (List.length rs) < 4294967296 -> regions_at m' mp rs.
Proof.
  intros Hat C Hp Hlo Hhi k r Hk. eapply bytes_at_ext; [|by apply Hat].
  intros i Hi. rewrite length_region_bytes in Hi. apply lookup_lt_Some in Hk.
  destruct Hp as (? & ? & ?). apply (only_changes_out _ _ _ _ _ C); unfold fits; lia.
Qed.

Lemma map_header_outside f m m' p q :
  only_changes p 120 m m' -> fits p 120 -> p + 120 <= q -> q + 8 < 4294967296 ->
  get upperMemory_mmap_struct f m' q = get upperMemory_mmap_struct f m q.
Proof.
  intros C (? & ? & ?) Hlo Hhi. apply load_ext. intros i Hi. unfold fieldsize, offsetof in *.
  destruct (field_of upperMemory_mmap_struct f) as [[o t]|] eqn:E; [|cbn in Hi; lia].
  apply field_of_bounds in E; [|done]. change (sizeof upperMemory_mmap_struct) with 8 in E.
  apply (only_changes_out _ _ _ _ _ C); unfold fits; lia.
Qed.

(** Writing the fields the memory part does not use. *)
Lemma memory_filled_put f m p mp kb rs v :
  memory_filled m p mp kb rs -> f = "flags" \/ f = "boot_device" -> fits p 120 -> p + 120 <= mp ->
  mp + 28 * Z.of_nat (List.length rs) < 4294967296 ->
  memory_filled (put multiboot_info_structure f m p v) p mp kb rs.
Proof.
  intros [H1 H2 H3 H4 H5] Hf Hp Hlo Hhi.
  assert (forall g, g <> "flags" -> g <> "boot_device" ->
    get multiboot_info_structure g (put multiboot_info_structure f m p v) p =
    get multiboot_info_structure g m p) as Hget.
  { intros g Hg1 Hg2. apply put_info_ne. destruct Hf as [-> | ->]; done. }
  split; rewrite ?Hget by done; [done..|].
  eapply regions_at_outside; [done|by apply put_info_changes|done..].
Qed.

Lemma queryLowerMemory_spec int12 kb s :
  int12_reports int12 kb -> 0 < kb < 65536 -> mask_even (m_ram s) ->
  exists s', queryLowerMemory int12 s = Done kb s' /\ forall q, updates q 0 s s'.
Proof.
  intros H12 Hkb He. destruct (H12 (m_ram s)) as (m' & E & Hf).
  exists (set_ram m' s). split.
  - unfold queryLowerMemory, bind. rewrite (real_mode_call_even _ s kb m');
      [|done|unfold asmCall_int12; by rewrite E, u16_small by lia].
    by rewrite (proj2 (Z.eqb_neq kb 0)) by lia.
  - intros q. split; [apply ram_only_set|]. intros a Ha _ Hs. by apply Hf.
Qed.

Section Info.
Context (int12 : mem -> bool * Z * mem) (int15 : Z -> Z -> Z -> mem -> int15_result).
Context (kb : Z) (rs : list region).
Hypothesis H12 : int12_reports int12 kb.
Hypothesis Hkb : 0 < kb < 65536.
Hypothesis H15 : int15_lists int15 rs.
Hypothesis Hcount : (0 < List.length rs < 100)%nat.
Hypothesis Hregions : Forall region_ok rs.

(** Memory after the assignments of [memory_info] behind the two queries: [n] regions
    at [top]. *)
Definition info_writes (m : mem) (p n top : Z) : mem :=
  let or f m := put multiboot_info_structure "flags" m p (Z.lor (get multiboot_info_structure "flags" m p) f) in
  or 64 (or 1 (put multiboot_info_structure "mmap_addr"
    (put multiboot_info_structure "mmap_length" (put multiboot_info_structure "mem_upper" m p 0) p (24 * n)) p top)).

Lemma info_writes_changes m p n top : fits p 120 -> only_changes p 120 m (info_writes m p n top).
Proof. intros Hp. do 4 (eapply only_changes_trans; [|by apply put_info_changes]). by apply put_info_changes. Qed.

Lemma info_writes_flags m p n top :
  get multiboot_info_structure "flags" (info_writes m p n top) p =
    Z.lor (Z.lor (get multiboot_info_structure "flags" m p) 1) 64.
Proof.
  assert (forall m, 0 <= get multiboot_info_structure "flags" m p < 4294967296) as Hfb
    by (intros m'; by apply info_field_bounds).
  unfold info_writes. rewrite put_info_get by (done || by apply lor_u32).
  rewrite put_info_get by (done || by apply lor_u32). by rewrite !put_info_ne.
Qed.

Lemma info_writes_filled m p top :
  fits p 120 -> p + 120 <= top -> top + 28 * Z.of_nat (List.length rs) < 4294967296 ->
  get multiboot_info_structure "mem_lower" m p = kb -> regions_at m top rs ->
  memory_filled (info_writes m p (Z.of_nat (List.length rs)) top) p top kb rs.
Proof.
  intros Hfits Hpt Htop Hlow Hat. destruct (id Hfits) as (? & _ & ?).
  unfold info_writes. apply memory_filled_put; [apply memory_filled_put; [|by left|done|lia|lia]|by left|done|lia|lia].
  split.
  - by rewrite !put_info_ne.
  - rewrite !put_info_ne by done. by apply put_info_get.
  - rewrite put_info_ne by done. apply put_info_get; [done|lia].
  - apply put_info_get; [done|lia].
  - eapply regions_at_outside; [exact Hat| |done|lia|lia].
    do 2 (eapply only_changes_trans; [|by apply put_info_changes]). by apply put_info_changes.
Qed.

Lemma memory_info_spec s0 own0 s p top :
  let own := own0 ++ [(p, 120)] in
  let own' := (own ++ [(top, 2800)]) ++ [(top + 2808, 8)] in
  grows s0 own0 s own -> world s own top -> mask_safe s0 own0 -> top + 2824 <= m_heapEnd s ->
  exists s', returns (fun fuel => memory_info int12 int15 fuel p) s tt s' /\
    grows s0 own0 s' own' /\ world s' own' (top + 2824) /\
    memory_filled (m_ram s') p top kb rs /\
    get multiboot_info_structure "flags" (m_ram s') p =
      Z.lor (Z.lor (get multiboot_info_structure "flags" (m_ram s) p) 1) 64.
Proof.
  intros own own' Hg Hw Hmask Hroom.
  assert ((p, 120) ∈ own) as Hin by (apply elem_of_app; right; left).
  destruct (world_block _ _ _ _ _ Hw Hin) as (Hfits & ? & _ & Hptop & _).
  destruct (id Hfits) as (? & _ & _). pose proof (w_high _ _ _ Hw) as Hhigh.
  destruct (queryLowerMemory_spec int12 kb s H12 Hkb (proj1 (mask_safe_grows _ _ _ _ Hg Hmask))) as (s1 & E1 & U1).
  destruct (grows_update s0 own0 s own top s1 [(p, 120)] p 120 p 0 Hg Hw) as [Hg1 Hw1];
    [done|left|apply U1|lia..|].
  set (s2 := set_ram (put multiboot_info_structure "mem_lower" (m_ram s1) p kb) s1).
  destruct (grows_update s0 own0 s1 own top s2 [(p, 120)] p 120 p 120 Hg1 Hw1) as [Hg2 Hw2];
    [done|left|apply updates_store; [by apply put_info_changes|done]|lia..|].
  destruct (grows_end _ _ _ _ Hg) as [He _]. destruct (grows_end _ _ _ _ Hg2) as [He2 _].
  destruct (queryUpperMemory_spec int15 rs s2 own top H15 Hcount Hw2 (mask_safe_grows _ _ _ _ Hg2 Hmask) ltac:(lia))
    as (s3 & [n3 E3] & Hg3 & Hw3 & Hsize & Hptr & Hat). fold own' in Hg3, Hw3.
  assert (getUpperMemorySize (top + 2808) (m_ram s3) = 0) as Hzero.
  { destruct rs as [|r rs'] eqn:Ers; [cbn in Hcount; lia|].
    inversion Hregions as [|? ? [Hl Ht] _]. apply (upper_size_zero _ _ r rs'); [done| |done..].
    by rewrite Hptr. }
  set (m5 := info_writes (m_ram s3) p (Z.of_nat (List.length rs)) top).
  destruct (grows_update s0 own0 s3 own' (top + 2824) (set_ram m5 s3)
    ([(p, 120)] ++ [(top, 2800)] ++ [(top + 2808, 8)]) p 120 p 120) as [Hg4 Hw4];
    [by eapply grows_trans|exact Hw3|unfold own', own; by rewrite <- !app_assoc|left
    |apply updates_store; [by apply info_writes_changes|done]|lia..|].
  exists (set_ram m5 s3). split; [|split; [done|split; [done|split]]].
  - exists n3. intros fuel Hf. unfold memory_info, put_info, or_flags.
    run_call E1. run. fold s2. run_call (E3 fuel Hf). run. cbn [m_ram set_ram]. rewrite Hzero.
    rewrite (map_header_outside "size" (m_ram s3) _ p), Hsize by (lia || done || by apply put_info_changes).
    rewrite u32_small, (Z.mul_comm _ 24) by lia.
    rewrite (map_header_outside "ptr" (m_ram s3) _ p), Hptr by
      (lia || done || (eapply only_changes_trans; by apply put_info_changes)). reflexivity.
  - apply info_writes_filled; [done|lia|lia| |exact Hat].
    rewrite (grows_get _ "mem_lower" _ _ _ _ _ 120 Hg3 Hin) by done. apply put_info_get; [done|lia].
  - cbn [m_ram set_ram]. unfold m5. rewrite info_writes_flags. do 2 f_equal.
    rewrite (grows_get _ "flags" _ _ _ _ _ 120 Hg3 Hin) by done. unfold s2. cbn [m_ram set_ram].
    rewrite put_info_ne by done. apply load_ext. intros i Hi.
    change (offsetof multiboot_info_structure "flags") with 0. cbn in Hi. destruct (U1 p) as [_ U].
    apply U; [lia|lia|]. eapply not_scratch_heap; [exact Hw|]. unfold in_heap. lia.
Qed.

(** The header lies in a block of the heap, as the file the boot loader read does. *)
Definition header_block (own : list (Z * Z)) (header : Z) : Prop :=
  exists q n, (q, n) ∈ own /\ q <= header /\ header + 12 <= q + n.

Lemma header_flag_grows s own s' own' header :
  grows s own s' own' -> header_block own header ->
  get multiboot_header "flags" (m_ram s') header = get multiboot_header "flags" (m_ram s) header.
Proof.
  intros Hg (q & n & Hq & Hlo & Hhi). unfold get. apply load_ext. intros i Hi.
  change (offsetof multiboot_header "flags") with 4. cbn in Hi.
  replace (header + 4 + i) with (q + (header + 4 + i - q)) by lia.
  apply (grows_block _ _ _ _ _ n _ Hg Hq). lia.
Qed.

(** The part for [flags[1]]. *)
Lemma device_info_spec s0 own0 s new p top bootDevice :
  let own := own0 ++ new in
  let m := put multiboot_info_structure "boot_device" (m_ram s) p bootDevice in
  let m' := put multiboot_info_structure "flags" m p
    (Z.lor (get multiboot_info_structure "flags" m p) 2) in
  grows s0 own0 s own -> world s own top -> (p, 120) ∈ new ->
  bind (put_info p "boot_device" bootDevice) (fun _ => or_flags p 2) s = Done tt (set_ram m' s) /\
  grows s0 own0 (set_ram m' s) own /\ world (set_ram m' s) own top.
Proof.
  intros own m m' Hg Hw Hin. split; [reflexivity|].
  assert ((p, 120) ∈ own) as Hin' by (apply elem_of_app; by right).
  destruct (world_block _ _ _ _ _ Hw Hin') as (Hfits & _).
  eapply grows_update; [done|done|done|exact Hin|apply updates_store|..]; [|done|lia..].
  eapply only_changes_trans; by apply put_info_changes.
Qed.

(** The part for [flags[0]], wanted or not. *)
Lemma memory_phase s own s2 top (wanted : bool) :
  grows s own s2 (own ++ [(top, 120)]) -> world s2 (own ++ [(top, 120)]) (top + 128) -> (wanted = true -> mask_safe s own) ->
  top + 2952 <= m_heapEnd s ->
  get multiboot_info_structure "flags" (m_ram s2) top = 0 ->
  exists s3 new top3,
    returns (fun fuel => if wanted then memory_info int12 int15 fuel top else ret tt) s2 tt s3 /\
    grows s own s3 (own ++ new) /\ world s3 (own ++ new) top3 /\ (top, 120) ∈ new /\
    get multiboot_info_structure "flags" (m_ram s3) top = (if wanted then 65 else 0) /\
    (wanted = true -> memory_filled (m_ram s3) top (top + 128) kb rs).
Proof.
  intros Hg Hw Hmask Hroom Hfl. destruct wanted.
  - destruct (grows_end _ _ _ _ Hg) as [He _].
    destruct (memory_info_spec s own s2 top (top + 128) Hg Hw (Hmask eq_refl) ltac:(lia))
      as (s3 & Hr & Hg3 & Hw3 & Hm & Hf). rewrite Hfl in Hf.
    exists s3, ([(top, 120)] ++ [(top + 128, 2800)] ++ [(top + 128 + 2808, 8)]), (top + 128 + 2824).
    rewrite !app_assoc. split; [exact Hr|]. split; [exact Hg3|]. split; [exact Hw3|].
    split; [left|]. by split.
  - exists s2, [(top, 120)], (top + 128). split; [by exists 0%nat|]. split; [done|]. split; [done|].
    split; [left|]. by split.
Qed.

Lemma build_spec s own top header bootDevice :
  world s own top -> (Z.testbit (get multiboot_header "flags" (m_ram s) header) 0 = true -> mask_safe s own) ->
  header_block own header -> 0 <= bootDevice < 4294967296 ->
  top + 2952 <= m_heapEnd s ->
  let f := get multiboot_header "flags" (m_ram s) header in
  exists s' own', grows s own s' own' /\
    returns (fun fuel => buildMultibootInfo int12 int15 fuel header bootDevice) s
      (if Z.land f 65532 =? 0 then top else 0) s' /\
    get multiboot_info_structure "flags" (m_ram s') top =
      Z.lor (if Z.testbit f 0 then 65 else 0) (if Z.testbit f 1 then 2 else 0) /\
    (Z.testbit f 0 = true -> memory_filled (m_ram s') top (top + 128) kb rs) /\
    (Z.testbit f 1 = true -> get multiboot_info_structure "boot_device" (m_ram s') top = bootDevice).
Proof.
  intros Hw Hmask Hh Hdev Hroom f.
  destruct (new_bytes_spec s own top 120 Hw) as (s1 & [n1 E1] & Hg1 & Hw1 & He1 & _); [lia|lia|].
  set (own1 := own ++ [(top, 120)]) in *.
  assert ((top, 120) ∈ own1) as Hin by (apply elem_of_app; right; left).
  destruct (world_block _ _ _ _ _ Hw1 Hin) as (Hfits & _). pose proof (w_high _ _ _ Hw) as Hhigh.
  set (s2 := set_ram (put multiboot_info_structure "flags" (m_ram s1) top 0) s1).
  destruct (grows_update s own s1 own1 _ s2 [(top, 120)] top 120 top 120 Hg1 Hw1) as [Hg2 Hw2];
    [done|left|apply updates_store; [by apply put_info_changes|done]|lia..|].
  replace (top + 120 + 8) with (top + 128) in Hw2 by lia.
  assert (forall s' own', grows s own s' own' ->
    get multiboot_header "flags" (m_ram s') header = f) as Hf
    by (intros s' own' Hg; by apply (header_flag_grows s own s' own')).
  destruct (memory_phase s own s2 top (Z.testbit f 0) Hg2 Hw2 Hmask Hroom) as
    (s3 & new & top3 & [n3 E3] & Hg3 & Hw3 & Hnew & Hfl3 & Hm3); [by apply put_info_get|].
  assert (exists s4,
    (if Z.testbit f 1 then bind (put_info top "boot_device" bootDevice) (fun _ => or_flags top 2)
     else ret tt) s3 = Done tt s4 /\ grows s own s4 (own ++ new) /\
    get multiboot_info_structure "flags" (m_ram s4) top =
      Z.lor (if Z.testbit f 0 then 65 else 0) (if Z.testbit f 1 then 2 else 0) /\
    (Z.testbit f 0 = true -> memory_filled (m_ram s4) top (top + 128) kb rs) /\
    (Z.testbit f 1 = true -> get multiboot_info_structure "boot_device" (m_ram s4) top = bootDevice))
    as (s4 & E4 & Hg4 & Hpost).
  { destruct (Z.testbit f 1).
    - destruct (device_info_spec s own s3 new top top3 bootDevice Hg3 Hw3 Hnew) as (E & Hg4 & Hw4).
      eexists. split; [exact E|]. split; [exact Hg4|]. cbn [m_ram set_ram]. split; [|split].
      + rewrite put_info_get; [rewrite put_info_ne by done; by rewrite Hfl3|done|].
        apply lor_u32; [by apply info_field_bounds|lia].
      + intros Hb. apply memory_filled_put; [apply memory_filled_put; [by apply Hm3|by right|done|lia..]
          |by left|done|lia..].
      + intros _. rewrite put_info_ne by done. by apply put_info_get.
    - exists s3. split; [done|]. split; [done|]. rewrite Z.lor_0_r. by split. }
  exists s4, (own ++ new). split; [done|]. split; [|exact Hpost].
  exists (n1 + n3)%nat. intros fuel Hfuel. unfold buildMultibootInfo, put_info at 1, header_flag.
  change (sizeof multiboot_info_structure) with 120. run_call (E1 fuel ltac:(lia)). run. fold s2.
  pose proof (land_bit f 0 ltac:(lia)) as B0. pose proof (land_bit f 1 ltac:(lia)) as B1.
  change (2 ^ 0) with 1 in B0. change (2 ^ 1) with 2 in B1.
  rewrite (Hf s2 _ Hg2), B0, (bind_Done _ _ _ _ _ (E3 fuel ltac:(lia))). run.
  rewrite (Hf s3 _ Hg3), B1, (bind_Done _ _ _ _ _ E4). run.
  rewrite (Hf s4 _ Hg4). change 65532 with (Z.lor 4 65528). rewrite Z.land_lor_distr_r.
  destruct (Z.eqb_spec (Z.land f 4) 0) as [E4'|E4']; cbn [negb].
  - run. rewrite (Hf s4 _ Hg4), E4', Z.lor_0_l. by destruct (Z.eqb_spec (Z.land f 65528) 0).
  - destruct (Z.eqb_spec (Z.lor (Z.land f 4) (Z.land f 65528)) 0) as [Hz|]; [|done].
    by apply Z.lor_eq_0_iff in Hz as [? _].
Qed.
End Info.

(** ** A file of 8 KiB and the header of [kernel/boot.S] in it, for examples *)

Definition example_header : list Z :=
  bytes_le 4 464367618 ++ bytes_le 4 3 ++ bytes_le 4 (-464367621).

(** The result of a file read: a file of [size] bytes at 65536, described at 4096. *)
Definition example_file (size : Z) (header_at : Z) : mem :=
  write_bytes
    (put fat32_fileResult "ptr" (put fat32_fileResult "size" ∅ 4096 size) 4096 65536)
    header_at example_header.

(** ** Properties of the search *)

(** C32: for a file longer than the 8184 bytes the search may touch, it ends, with the
    first 4-byte aligned valid header in the first 8192 bytes, or null when there is
    none. *)
Theorem multibootHeaderSearch_first m file :
  let ptr := get fat32_fileResult "ptr" m file in
  let size := get fat32_fileResult "size" m file in
  8184 < size -> ptr + size < 4294967296 ->
  forall fuel, (2046 < fuel)%nat ->
    multibootHeaderSearch fuel m file = Some (first_valid 2046 m ptr).
Proof.
  intros ptr size Hs Hp fuel Hf. unfold multibootHeaderSearch. fold ptr size.
  assert (0 <= ptr) as H0 by apply ld32_bounds.
  apply search_loop_first; [lia|lia|lia| |].
  - intros i Hi. apply goes_on_near; lia.
  - unfold search_goes_on, MULTIBOOT_SEARCH. rewrite !u32_small by lia.
    by rewrite (proj2 (Z.leb_gt _ _)), (proj2 (Z.leb_gt _ _)) by lia.
Qed.

Lemma multibootHeaderSearch_first_witness :
  multibootHeaderSearch 2047 (example_file 9000 65552) 4096 = Some 65552.
Proof.
  etransitivity; [apply (multibootHeaderSearch_first (example_file 9000 65552) 4096)|];
    [vm_compute; reflexivity|vm_compute; reflexivity|lia|vm_compute; reflexivity].
Defined.

(** For a file of at most 8184 bytes the size test never stops the search: it
    returns the first valid header at any address up to the end of memory, however
    far beyond the end of the file, and with no valid header in memory it never ends:
    null is never returned. *)
Theorem multibootHeaderSearch_small_file m file :
  let ptr := get fat32_fileResult "ptr" m file in
  let size := get fat32_fileResult "size" m file in
  size <= 8184 -> ptr + 8184 < 4294967296 ->
  (forall k, ptr + 4 * Z.of_nat k < 4294967296 -> header_valid m (ptr + 4 * Z.of_nat k) = true ->
     (forall i, (i < k)%nat -> header_valid m (ptr + 4 * Z.of_nat i) = false) ->
     forall fuel, (k < fuel)%nat ->
       multibootHeaderSearch fuel m file = Some (ptr + 4 * Z.of_nat k)) /\
  ((forall a, 0 <= a < 4294967296 -> a mod 4 = ptr mod 4 -> header_valid m a = false) ->
   forall fuel, multibootHeaderSearch fuel m file = None).
Proof.
  intros ptr size Hs Hp.
  assert (0 <= ptr) as H0 by apply ld32_bounds. assert (0 <= size) as H1 by apply ld32_bounds.
  split.
  - intros k Hk Hv Hno fuel Hf. unfold multibootHeaderSearch. fold ptr size.
    replace fuel with (k + S (fuel - S k))%nat by lia. rewrite search_skip; [|lia|lia|].
    + cbn [search_loop]. rewrite goes_on_small_file, Hv; [done|lia..|].
      Z.to_euclidean_division_equations. lia.
    + intros i Hi. split; [|by apply Hno]. apply goes_on_small_file; [lia..|].
      Z.to_euclidean_division_equations. lia.
  - intros Hno fuel. unfold multibootHeaderSearch. fold ptr size.
    apply search_loop_endless; [lia..|split; [lia|]|done|done].
    destruct (ld32_bounds m (file + offsetof fat32_fileResult "ptr")). lia.
Qed.

(** A file of 100 bytes with the header 300 bytes behind its end. *)
Lemma multibootHeaderSearch_small_file_witness :
  multibootHeaderSearch 101 (example_file 100 (65536 + 400)) 4096 = Some 65936.
Proof.
  etransitivity; [apply (multibootHeaderSearch_small_file (example_file 100 65936) 4096) with (k := 100%nat)|];
    [vm_compute; discriminate|vm_compute; reflexivity|vm_compute; reflexivity|vm_compute; reflexivity| |
     lia|vm_compute; reflexivity].
  intros i Hi. replace (get fat32_fileResult "ptr" (example_file 100 65936) 4096) with 65536 by (vm_compute; reflexivity).
  assert (forallb (fun i => negb (header_valid (example_file 100 65936) (65536 + 4 * Z.of_nat i))) (seq 0 100) = true)
    as Hall by (vm_compute; reflexivity).
  apply negb_true_iff. rewrite forallb_forall in Hall. apply Hall. apply in_seq. lia.
Defined.

(** ** Properties of the info structure *)

(** C18: with a BIOS that reports its memory, [buildMultibootInfo] ends and follows the
    low 16 bits [f] of the header's flags on every branch: null when a bit from 2 to
    15 is set, otherwise the structure, whose flags are 65 (memory and map) for bit 0
    and 2 (boot device) for bit 1; the memory fields hold the size from int 12h, the
    address of the map with the BIOS's regions in order, 24 bytes of length per
    region and, as [mem_upper], 0; the boot device is the argument.  When the memory is
    asked for, the byte at 0xfffe has to be even, outside the heap or in a block handed out
    before, for the BIOS to be reached. *)
Theorem buildMultibootInfo_fills int12 int15 kb rs s own top header bootDevice :
  int12_reports int12 kb -> 0 < kb < 65536 ->
  int15_lists int15 rs -> (0 < List.length rs < 100)%nat -> Forall region_ok rs ->
  world s own top -> (Z.testbit (get multiboot_header "flags" (m_ram s) header) 0 = true -> mask_safe s own) ->
  header_block own header -> 0 <= bootDevice < 4294967296 ->
  top + 2952 <= m_heapEnd s ->
  let f := get multiboot_header "flags" (m_ram s) header in
  exists p s' own', grows s own s' own' /\
    returns (fun fuel => buildMultibootInfo int12 int15 fuel header bootDevice) s
      (if Z.land f 65532 =? 0 then p else 0) s' /\ p <> 0 /\
    get multiboot_info_structure "flags" (m_ram s') p =
      Z.lor (if Z.testbit f 0 then 65 else 0) (if Z.testbit f 1 then 2 else 0) /\
    (Z.testbit f 0 = true -> exists mp, memory_filled (m_ram s') p mp kb rs) /\
    (Z.testbit f 1 = true -> get multiboot_info_structure "boot_device" (m_ram s') p = bootDevice).
Proof.
  intros H12 Hkb H15 Hn Hrs Hw Hmask Hh Hdev Hroom f.
  destruct (build_spec int12 int15 kb rs H12 Hkb H15 Hn Hrs s own top header bootDevice Hw Hmask Hh Hdev Hroom)
    as (s' & own' & Hg & Hr & Hfl & Hm & Hd).
  exists top, s', own'. split; [done|]. split; [exact Hr|]. split.
  - destruct (arena_bounds _ _ _ _ _ (w_arena _ _ _ Hw)) as (? & ? & ? & ?). lia.
  - split; [done|]. split; [|done]. intros Hb. exists (top + 128). by apply Hm.
Qed.

(** The header of the kernel, in a heap block: bits 0 and 1, for page alignment and
    memory information, get the memory fields and the boot device. *)
Lemma example_kernel_world :
  exists s, world s [(65544, 12)] 65564 /\ mask_safe s [(65544, 12)] /\ m_heapEnd s = 131064 /\
    get multiboot_header "flags" (m_ram s) 65544 = 3.
Proof.
  destruct (new_bytes_spec example_heap_machine [] 65544 12 example_heap_world) as
    (s1 & _ & Hg1 & Hw1 & He & _); [lia|vm_compute; discriminate|].
  exists (set_ram (write_bytes (m_ram s1) 65544 example_header) s1).
  destruct (grows_update example_heap_machine [] s1 [(65544, 12)] 65564
    (set_ram (write_bytes (m_ram s1) 65544 example_header) s1) [(65544, 12)] 65544 12 65544 12 Hg1 Hw1)
    as [Hg Hw]; [done|left|apply updates_store; [|unfold fits; lia]|lia..|].
  { apply (write_bytes_only_changes _ _ example_header). vm_compute. reflexivity. }
  split; [exact Hw|]. split; [exact (mask_safe_grows _ _ _ _ Hg example_heap_mask)|]. split; [exact He|].
  transitivity (get multiboot_header "flags" (write_bytes ∅ 65544 example_header) 65544);
    [|vm_compute; reflexivity].
  apply load_ext. intros i Hi. change (offsetof multiboot_header "flags") with 4. cbn in Hi.
  cbn [m_ram set_ram]. rewrite !rd8_write_bytes by (vm_compute; reflexivity).
  rewrite u32_small by lia.
  destruct (lookup_lt_is_Some_2 example_header (Z.to_nat (65544 + 4 + i - 65544))) as [c ->]; [|done].
  change (List.length example_header) with 12%nat. lia.
Qed.

Definition example_int12 (m : mem) : bool * Z * mem := (false, 639, m).

Lemma buildMultibootInfo_fills_witness :
  exists s p s', get multiboot_header "flags" (m_ram s) 65544 = 3 /\
    returns (fun fuel => buildMultibootInfo example_int12 (example_int15 example_regions)
      fuel 65544 128) s p s' /\
    get multiboot_info_structure "flags" (m_ram s') p = 67 /\
    get multiboot_info_structure "boot_device" (m_ram s') p = 128 /\
    exists mp, memory_filled (m_ram s') p mp 639 example_regions.
Proof.
  destruct example_kernel_world as (s & Hw & Hms & He & Hf).
  destruct (buildMultibootInfo_fills example_int12 (example_int15 example_regions) 639 example_regions
    s [(65544, 12)] 65564 65544 128) as (p & s' & own' & _ & Hr & _ & Hfl & Hm & Hd).
  - intros m. exists m. by split.
  - lia.
  - apply example_int15_lists.
  - cbn. lia.
  - repeat (constructor; [unfold region_ok; cbn; lia|]). constructor.
  - exact Hw.
  - done.
  - exists 65544, 12. split; [left|lia].
  - lia.
  - rewrite He. lia.
  - rewrite Hf in Hr, Hfl, Hm, Hd. exists s, p, s'. split; [exact Hf|]. split; [exact Hr|].
    split; [exact Hfl|]. split; [by apply Hd|by apply Hm].
Defined.
