(* ===== verification/Stage1.v ===== *)
(** The second stage of the boot loader: [_stage1Main] of [bootloader/stage1main.cpp],
    which mounts the active partition, reads KERNEL.BIN, loads it and jumps to it. *)

From S2P Require Import Prelude PhysMem Layout CString Terminal Outstream Heap Machine DiskRead Arena Fat32 MemDetect Elf Multiboot.

Local Open Scope string_scope.
Local Open Scope list_scope.
Local Open Scope Z_scope.

(** ** The partition table: [include/fs/mbr.hpp] *)

Definition partitionTable : layout := Layout true [
  ("attributes", U8); ("chsStart", Arr 3 U8); ("partType", U8); ("chsEnd", Arr 3 U8);
  ("lbaBegin", U32); ("numSectors", U32)].

Definition MBR : layout := Layout true [
  ("bootstrap", Arr 440 U8); ("uniqueID", U32); ("reserved", U16);
  ("part1", sub partitionTable); ("part2", sub partitionTable);
  ("part3", sub partitionTable); ("part4", sub partitionTable); ("signature", U16)].

Definition mbr : Z := 2048. (* _final_mbr_address *)

(** The loop over the entries, [k] of them left, the next one [i]. *)
Fixpoint partition_rounds (k : nat) (i ptr : Z) : prog machine Z :=
  match k with
  | O => earlyPanic "getPartitionLBA(): Couldn't get the partition LBA!"
  | S k' =>
      let entry := ptr + sizeof partitionTable * i in
      let* attributes := load_ram (fun m => get partitionTable "attributes" m entry) in
      if negb (Z.land attributes 128 =? 0)
      then load_ram (fun m => get partitionTable "lbaBegin" m entry)
      else partition_rounds k' (i + 1) ptr
  end.

Definition getPartitionLBA : prog machine Z := partition_rounds 4 0 (mbr + 446).

(** ** [_stage1Main] *)

(** What [jumpKernel] is called with. *)
Record jump : Type := Jump { j_initAddr : Z; j_mbInfo : Z; j_termIndex : Z }.

(** [io::framebuffer_terminal terminal], [out.init], [setCursor] with its 8-bit
    parameters, [out.hex]. *)
Definition open_terminal (cursor : Z) : prog machine unit :=
  do* modify (fun s => set_out (out_init (new_terminal, m_ram s)) s) in
  let row := Z.shiftr cursor 8 in
  let column := Z.land cursor 65280 in
  do* modify (fun s => set_term (snd (setCursor (u8 row) (u8 column) (m_term s))) s) in
  modify (fun s => set_out (hex (out_of s)) s).

Definition print_banner : prog machine unit :=
  do* set_color VGA_COLOR_LIGHT_GREY VGA_COLOR_BLUE in
  do* print ("Welcome to RainbowOS 32-bit protected mode bootloader!" ++ newline) in
  set_color VGA_COLOR_LIGHT_GREY VGA_COLOR_BLACK.

Section Stage1.
Variable int12 : mem -> bool * Z * mem.
Variable int13 : Z -> Z -> mem -> bool * Z * mem.
Variable int15 : Z -> Z -> Z -> mem -> int15_result.

(** Where the linker puts the strings "LFN" and "KERNEL.BIN". *)
Variables (lfn kernel_name : Z).

(** [activePartition((&diskReadFunc))]. *)
#[local] Instance stage1_disk : Disk := int13_Disk int13.

(** From the file to the jump. *)
Definition load_kernel (fuel : nat) (kernelFile : Z) : prog machine jump :=
  let* mbHeader := run_opt (fun m => multibootHeaderSearch fuel m kernelFile) in
  do* print "mbHeader = " in
  do* print_u32 mbHeader in
  do* print newline in
  do* (if mbHeader =? 0 then earlyPanic "Couldn't find Multiboot Header!" else ret tt) in
  let* disk := gets m_disk in
  let* mbInfo := buildMultibootInfo int12 int15 fuel mbHeader disk in
  let* kernelElfHeader := load_ram (fun m => get fat32_fileResult "ptr" m kernelFile) in
  let* supported := load_ram (elf_check_file kernelElfHeader) in
  do* (if negb supported
       then earlyPanic "init.bin's ELF header is not recognized, or not supported!"
       else ret tt) in
  let* initEndPtr := elf32_load fuel kernelElfHeader in
  do* (if initEndPtr =? 0 then earlyPanic "Problems loading ELF binary kernel.bin" else ret tt) in
  do* print ("Everything seems to be good, jumping to init" ++ newline) in
  let* terminal := gets m_term in
  let index := u32 (getRow terminal * vga_width + getColumn terminal) in
  let* kernelAddr := load_ram (fun m => get elf32_Ehdr "e_entry" m kernelElfHeader) in
  ret (Jump kernelAddr mbInfo index).

(** The code that [init] returns is not looked at. *)
Definition _stage1Main (fuel : nat) (dx stop_stage1 cursor : Z) : prog machine jump :=
  do* open_terminal cursor in
  do* print_banner in
  let heapMaxSize := u32 (readBuffer - stop_stage1) in
  do* open_heap stop_stage1 heapMaxSize in
  let* activePartitionLBA := getPartitionLBA in
  do* modify (fun s => Machine (m_ram s) (m_term s) (m_base s) (m_heap s) (m_heapEnd s) (u8 dx)) in
  let* r := init fuel (Fat32 0 0 0) activePartitionLBA in
  let* kernelFile := getRootFile lfn fuel (snd r) kernel_name in
  let* returnCode := load_ram (fun m => get fat32_fileResult "returnCode" m kernelFile) in
  do* (if returnCode =? 1 then earlyPanic "Could not find KERNEL.BIN" else ret tt) in
  load_kernel fuel kernelFile.
End Stage1.

(** ** Properties *)

(** The BIOS reports the cursor as row * 256 + column; [_stage1Main] masks the
    wrong byte, so its terminal starts in the right row and always in column 0,
    whatever the first stages wrote there. *)
Theorem open_terminal_column row column s :
  0 <= row < 25 -> 0 <= column < 80 ->
  exists s', open_terminal (256 * row + column) s = Done tt s' /\
    getRow (m_term s') = row /\ getColumn (m_term s') = 0 /\ m_base s' = 16.
Proof.
  intros Hr Hc. unfold open_terminal, bind, modify. cbv beta iota zeta.
  eexists. split; [reflexivity|]. cbn [m_term set_out set_term hex out_of o_back o_base fst m_base].
  assert (u8 (Z.shiftr (256 * row + column) 8) = row) as ->.
  { rewrite Z.shiftr_div_pow2 by lia. change (2 ^ 8) with 256.
    replace ((256 * row + column) / 256) with row by (Z.to_euclidean_division_equations; lia).
    apply u8_small. lia. }
  assert (u8 (Z.land (256 * row + column) 65280) = 0) as ->.
  { unfold u8, wrap. rewrite <- Z.land_ones, <- Z.land_assoc by lia.
    change (Z.land 65280 (Z.ones 8)) with 0. apply Z.land_0_r. }
  unfold setCursor, vga_height, vga_width. rewrite (proj2 (Z.leb_gt 25 row)) by lia. by cbn.
Qed.

Lemma open_terminal_column_witness :
  exists s', open_terminal (256 * 5 + 2) (Machine ∅ new_terminal 0 0 0 0) = Done tt s' /\
    getRow (m_term s') = 5 /\ getColumn (m_term s') = 0.
Proof.
  destruct (open_terminal_column 5 2 (Machine ∅ new_terminal 0 0 0 0)) as (s' & E & H1 & H2 & _); [lia..|].
  exists s'. by split.
Defined.
