(* ===== verification/Boot.v ===== *)
(** The boot loader end to end: from the partition table and the disk to the jump into
    the kernel, composed from the theorems of its parts. *)

From S2P Require Import Prelude PhysMem Layout CString Terminal Outstream Heap Machine DiskRead Arena Fat32 FatVolume Fat32Proofs Fat32Props MemDetect Elf Multiboot Stage1.

Local Open Scope string_scope.
Local Open Scope list_scope.
Local Open Scope Z_scope.

(** ** What a kernel file must contain *)

(** The file laid out in an otherwise empty memory, to state what its fields are. *)
Definition image_base : Z := 65536.
Definition file_mem (file : list Z) : mem := write_bytes ∅ image_base file.

(** A segment above 1 MiB whose bytes are in the file. *)
Definition segment_high (len : Z) (g : segment) : Prop :=
  refused g = false /\
  (loadable g = true ->
    sg_filesz g <= sg_memsz g /\ 1048576 <= sg_paddr g /\
    sg_paddr g + sg_memsz g <= 4294967296 /\ sg_offset g + sg_filesz g <= len).

(** A Multiboot header, the first valid one, at [4 * k]; a supported ELF header; a
    table of [S phnum] program headers at [phoff]. *)
Record kernel_image (file : list Z) (k : nat) (phoff : Z) (phnum : nat) : Prop := {
  ki_length : 52 <= Z.of_nat (List.length file);
  ki_place : (k <= 2045)%nat /\ 4 * Z.of_nat k + 12 <= Z.of_nat (List.length file);
  ki_valid : header_valid (file_mem file) (image_base + 4 * Z.of_nat k) = true;
  ki_first i : (i < k)%nat -> header_valid (file_mem file) (image_base + 4 * Z.of_nat i) = false;
  ki_flags : Z.land (get multiboot_header "flags" (file_mem file) (image_base + 4 * Z.of_nat k)) 65532 = 0;
  ki_elf : elf_check_file image_base (file_mem file) = true;
  ki_phoff : get elf32_Ehdr "e_phoff" (file_mem file) image_base = phoff;
  ki_phnum : get elf32_Ehdr "e_phnum" (file_mem file) image_base = Z.of_nat (S phnum);
  ki_phentsize : get elf32_Ehdr "e_phentsize" (file_mem file) image_base = 32;
  ki_inside : phoff + 32 * Z.of_nat (S phnum) <= Z.of_nat (List.length file);
  ki_segments : Forall (segment_high (Z.of_nat (List.length file)))
    (program_headers (file_mem file) (image_base + phoff) (S phnum));
  ki_end : let g := segment_at (file_mem file) (image_base + phoff + 32 * Z.of_nat phnum) in
    u32 (sg_paddr g + sg_memsz g) <> 0;
}.

Definition kernel_segments (file : list Z) (phoff : Z) (phnum : nat) : list segment :=
  program_headers (file_mem file) (image_base + phoff) (S phnum).
Definition kernel_entry (file : list Z) : Z := get elf32_Ehdr "e_entry" (file_mem file) image_base.
Definition kernel_flags (file : list Z) (k : nat) : Z :=
  get multiboot_header "flags" (file_mem file) (image_base + 4 * Z.of_nat k).

(** ** The file in memory and the file laid out *)

Ltac eval_layout := repeat match goal with
  | |- context [offsetof ?L ?f] =>
      let v := eval vm_compute in (offsetof L f) in change (offsetof L f) with v
  | |- context [Z.to_nat (fieldsize ?L ?f)] =>
      let v := eval vm_compute in (Z.to_nat (fieldsize L f)) in change (Z.to_nat (fieldsize L f)) with v
  end.

(** Byte [i] of the file; memory holds the file at [buf]. *)
Definition file_byte (file : list Z) (i : Z) : Z := rd8 (file_mem file) (image_base + i).

Definition holds (m : mem) (buf : Z) (file : list Z) : Prop :=
  forall i, 0 <= i < Z.of_nat (List.length file) -> rd8 m (buf + i) = file_byte file i.

Lemma holds_get L f m buf file o :
  holds m buf file -> 0 <= o + offsetof L f ->
  o + offsetof L f + Z.of_nat (Z.to_nat (fieldsize L f)) <= Z.of_nat (List.length file) ->
  get L f m (buf + o) = get L f (file_mem file) (image_base + o).
Proof.
  intros H Ho Hl. apply load_ext. intros i Hi.
  replace (buf + o + offsetof L f + i) with (buf + (o + offsetof L f + i)) by lia.
  replace (image_base + o + offsetof L f + i) with (image_base + (o + offsetof L f + i)) by lia.
  apply H. lia.
Qed.

Lemma holds_segment m buf file o :
  holds m buf file -> 0 <= o -> o + 32 <= Z.of_nat (List.length file) ->
  segment_at m (buf + o) = segment_at (file_mem file) (image_base + o).
Proof.
  intros H Ho Hl. unfold segment_at.
  f_equal; apply holds_get; done || (eval_layout; lia).
Qed.

Lemma holds_headers m buf file o n :
  holds m buf file -> 0 <= o -> o + 32 * Z.of_nat n <= Z.of_nat (List.length file) ->
  program_headers m (buf + o) n = program_headers (file_mem file) (image_base + o) n.
Proof.
  intros H Ho Hl. unfold program_headers. apply map_ext_in. intros i Hi%in_seq.
  rewrite <- !Z.add_assoc. apply holds_segment; [done|lia|lia].
Qed.

Lemma holds_valid m buf file i :
  holds m buf file -> 4 * Z.of_nat i + 12 <= Z.of_nat (List.length file) ->
  header_valid m (buf + 4 * Z.of_nat i) = header_valid (file_mem file) (image_base + 4 * Z.of_nat i).
Proof.
  intros H Hl. unfold header_valid. rewrite !(holds_get multiboot_header _ m buf file) by (done || (eval_layout; lia)).
  done.
Qed.

Lemma holds_elf m buf file :
  holds m buf file -> 52 <= Z.of_nat (List.length file) -> buf <> 0 ->
  elf_check_file buf m = elf_check_file image_base (file_mem file).
Proof.
  intros H Hl Hb. unfold elf_check_file, e_ident. rewrite (proj2 (Z.eqb_neq buf 0) Hb).
  rewrite !H by (unfold EI_MAG0, EI_MAG1, EI_MAG2, EI_MAG3, EI_CLASS, EI_DATA, EI_VERSION; lia).
  rewrite <- (Z.add_0_r buf), !(holds_get elf32_Ehdr _ m buf file), !Z.add_0_r
    by (done || (eval_layout; lia)).
  done.
Qed.

Lemma holds_ehdr m buf file f :
  holds m buf file -> 52 <= Z.of_nat (List.length file) ->
  offsetof elf32_Ehdr f + Z.of_nat (Z.to_nat (fieldsize elf32_Ehdr f)) <= 52 ->
  0 <= offsetof elf32_Ehdr f ->
  get elf32_Ehdr f m buf = get elf32_Ehdr f (file_mem file) image_base.
Proof.
  intros H Hl Hf H0. rewrite <- (Z.add_0_r buf), (holds_get _ _ m buf file), Z.add_0_r; [done|done|lia|lia].
Qed.

Lemma holds_read m buf file :
  Z.of_nat (List.length file) < 4294967296 ->
  read_bytes m buf (List.length file) = file -> holds m buf file.
Proof.
  intros Hn E i Hi. unfold file_byte, file_mem, image_base. rewrite rd8_write_bytes by done.
  replace (65536 + i - 65536) with i by lia. rewrite u32_small by lia.
  rewrite <- E at 1. rewrite lookup_read_bytes by lia. rewrite Z2Nat.id by lia.
  symmetry. apply u8_small, rd8_bounds.
Qed.

(** ** The screen and the heap *)

Lemma world_quiet s own top s' :
  world s own top -> reached s (rd8 (m_ram s)) s' -> world s' own top.
Proof.
  intros [Hok Har Hlo Hhi] (Hok' & (_ & Hh & He & _) & Hb).
  split; rewrite ?Hh, ?He; [done| |done..].
  eapply arena_outside; [exact Har|]. intros a Ha.
  apply Hb; [lia|]. unfold on_screen, FRAMEBUFFER_LOCATION, cells. lia.
Qed.

Lemma mask_safe_quiet s own s' : mask_safe s own -> reached s (rd8 (m_ram s)) s' -> mask_safe s' own.
Proof.
  intros [He Ha] (_ & (_ & Hh & Hend & _) & Hb). split.
  - unfold mask_even. rewrite Hb; [done|unfold mask_address; lia|].
    unfold on_screen, FRAMEBUFFER_LOCATION, cells, mask_address. lia.
  - destruct Ha as [Ha|Ha]; [left|by right]. unfold in_heap in *. by rewrite Hh, Hend.
Qed.

Lemma memory_filled_same m m' p mp kb rs :
  memory_filled m p mp kb rs ->
  (forall i, 0 <= i < 120 -> rd8 m' (p + i) = rd8 m (p + i)) ->
  (forall i, 0 <= i < 28 * Z.of_nat (List.length rs) -> rd8 m' (mp + i) = rd8 m (mp + i)) ->
  memory_filled m' p mp kb rs.
Proof.
  intros [H1 H2 H3 H4 H5] Hp Hmp.
  assert (forall f, get multiboot_info_structure f m' p = get multiboot_info_structure f m p) as Hget.
  { intros f. by apply get_same. }
  split; rewrite ?Hget; [done..|]. intros k r Hk. eapply bytes_at_ext; [|by apply H5].
  intros i Hi. rewrite length_region_bytes in Hi. apply lookup_lt_Some in Hk.
  rewrite <- Z.add_assoc. apply Hmp. lia.
Qed.

(** Loading segments above 1 MiB leaves low memory alone. *)
Lemma loaded_byte_low file len gs old a :
  Forall (segment_high len) gs -> a < 1048576 -> loaded_byte file gs old a = old a.
Proof.
  intros Hgs Ha. unfold loaded_byte. generalize (old a). clear old.
  induction Hgs as [|g gs [_ Hg] Hgs IH]; intros b; cbn [fold_left]; [done|].
  rewrite IH. unfold seg_byte. destruct (loadable g); [|done].
  destruct (Hg eq_refl) as (_ & ? & _). by rewrite (proj2 (Z.leb_gt _ _)) by lia.
Qed.

Lemma segment_high_ok buf len g :
  segment_high len g -> 0 <= buf -> buf + len <= 458752 -> segment_ok buf len g.
Proof.
  intros [Hr Hg] Hb Hl. split; [done|]. intros H. destruct (Hg H) as (? & ? & ? & ?).
  unfold FRAMEBUFFER_LOCATION, cells. lia.
Qed.

Lemma terminal_index s :
  machine_ok s ->
  0 <= u32 (getRow (m_term s) * vga_width + getColumn (m_term s)) < 2000.
Proof.
  intros ([] & _ & _). unfold getRow, getColumn, vga_width, vga_height in *. rewrite u32_small; lia.
Qed.

(** ** From the file in memory to the jump *)

Section Load.
Context (int12 : mem -> bool * Z * mem) (int15 : Z -> Z -> Z -> mem -> int15_result).
Context (kb : Z) (rs : list region).
Hypothesis H12 : int12_reports int12 kb.
Hypothesis Hkb : 0 < kb < 65536.
Hypothesis H15 : int15_lists int15 rs.
Hypothesis Hcount : (0 < List.length rs < 100)%nat.
Hypothesis Hregions : Forall region_ok rs.
Context (file : list Z) (k : nat) (phoff : Z) (phnum : nat).
Hypothesis Hki : kernel_image file k phoff phnum.
Abbreviation len := (Z.of_nat (List.length file)).

(** The search finds the header in a file in memory. *)
Lemma search_finds m fp buf size fuel :
  get fat32_fileResult "ptr" m fp = buf -> get fat32_fileResult "size" m fp = size ->
  0 <= buf -> buf + len < 458752 -> holds m buf file -> (k < fuel)%nat ->
  multibootHeaderSearch fuel m fp = Some (buf + 4 * Z.of_nat k).
Proof.
  intros Hp Hs Hb Hl Hh Hf. destruct (ki_place _ _ _ _ Hki) as [Hk Hk2].
  unfold multibootHeaderSearch. rewrite Hp, Hs. replace fuel with (k + S (fuel - S k))%nat by lia.
  rewrite search_skip; [|lia|lia|].
  - cbn [search_loop]. rewrite goes_on_near by lia.
    by rewrite (holds_valid m buf file), (ki_valid _ _ _ _ Hki) by done.
  - intros i Hi. split; [apply goes_on_near; lia|].
    rewrite (holds_valid m buf file), (ki_first _ _ _ _ Hki); done || lia.
Qed.

Lemma holds_reached m m' buf :
  holds m buf file -> (forall i, 0 <= i < len -> rd8 m' (buf + i) = rd8 m (buf + i)) -> holds m' buf file.
Proof. intros H E i Hi. by rewrite E, H. Qed.

Lemma print_header_quiet s v :
  machine_ok s -> 0 <= v < 4294967296 ->
  exists s', reached s (rd8 (m_ram s)) s' /\
    forall A (c : unit -> prog machine A), bind (print "mbHeader = ") (fun _ => bind (print_u32 v)
      (fun _ => bind (print newline) c)) s = c tt s'.
Proof.
  intros Hok Hv. destruct (print_quiet "mbHeader = " s Hok) as (s1 & E1 & R1).
  destruct (id R1) as (Hok1 & _ & B1).
  destruct (print_u32_screen v s1 Hok1 Hv) as (s2 & E2 & R2%screen_reached).
  destruct (print_quiet newline s2 (proj1 R2)) as (s3 & E3 & R3). destruct (id R2) as (_ & _ & B2).
  exists s3. split; [eapply reached_trans; [exact R1| |exact B1]; by eapply reached_trans|].
  intros A c. by rewrite (bind_Done _ _ _ _ _ E1), (bind_Done _ _ _ _ _ E2), (bind_Done _ _ _ _ _ E3).
Qed.

(** The loader on the file in a heap block. *)
Lemma load_segments s buf :
  machine_ok s -> 0 < buf -> buf + len <= 458752 -> holds (m_ram s) buf file ->
  exists v s', returns (fun fuel => elf32_load fuel buf) s v s' /\ v <> 0 /\
    reached s (loaded_byte (file_byte file) (kernel_segments file phoff phnum) (rd8 (m_ram s))) s'.
Proof.
  intros Hok Hb Hl Hh. pose proof (ki_length _ _ _ _ Hki) as Hlen.
  assert (loadable_image buf len (file_byte file) (m_ram s) phoff (S phnum)) as Hli.
  { split.
    - split; [lia|unfold FRAMEBUFFER_LOCATION; lia|exact Hh].
    - rewrite (holds_ehdr _ _ _ "e_phoff" Hh) by (done || (eval_layout; lia)). apply Hki.
    - rewrite (holds_ehdr _ _ _ "e_phnum" Hh) by (done || (eval_layout; lia)). apply Hki.
    - rewrite (holds_ehdr _ _ _ "e_phentsize" Hh) by (done || (eval_layout; lia)). apply Hki.
    - apply Hki. }
  destruct (loadable_phoff _ _ _ _ _ _ Hli) as [Hp _]. pose proof (ki_inside _ _ _ _ Hki) as Hin.
  assert (program_headers (m_ram s) (buf + phoff) (S phnum) = kernel_segments file phoff phnum) as Egs
    by (apply holds_headers; done).
  destruct (elf32_load_lemma buf len (file_byte file) s phoff phnum Hok Hli) as (s' & Hr & R).
  { rewrite Egs. eapply Forall_impl; [apply Hki|]. intros g Hg. apply segment_high_ok; [done|lia|lia]. }
  rewrite Egs in R. eexists _, s'. split; [exact Hr|]. split; [|exact R].
  replace (buf + phoff + 32 * Z.of_nat phnum) with (buf + (phoff + 32 * Z.of_nat phnum)) by lia.
  rewrite (holds_segment _ _ file) by (done || lia). rewrite Z.add_assoc. apply (ki_end _ _ _ _ Hki).
Qed.

(** Memory the boot loader does not use for itself: above its read buffer, off the screen. *)
Definition untouched (a : Z) : Prop := 524288 <= a < 4294967296 /\ ~ on_screen a.

(** What the kernel finds: its arguments, the info structure, and above the boot
    loader's own memory the segments over what memory [m] held. *)
Record kernel_started (device : Z) (m : mem) (j : jump) (s' : machine) : Prop := {
  ks_entry : j_initAddr j = kernel_entry file;
  ks_ok : machine_ok s';
  ks_cursor : j_termIndex j = u32 (getRow (m_term s') * vga_width + getColumn (m_term s'));
  ks_index : 0 <= j_termIndex j < 2000;
  ks_info : j_mbInfo j <> 0;
  ks_flags : get multiboot_info_structure "flags" (m_ram s') (j_mbInfo j) =
    Z.lor (if Z.testbit (kernel_flags file k) 0 then 65 else 0)
          (if Z.testbit (kernel_flags file k) 1 then 2 else 0);
  ks_memory : Z.testbit (kernel_flags file k) 0 = true ->
    exists mp, memory_filled (m_ram s') (j_mbInfo j) mp kb rs;
  ks_device : Z.testbit (kernel_flags file k) 1 = true ->
    get multiboot_info_structure "boot_device" (m_ram s') (j_mbInfo j) = device;
  ks_segments a : untouched a ->
    rd8 (m_ram s') a =
      loaded_byte (file_byte file) (kernel_segments file phoff phnum) (rd8 m) a;
}.

(** Memory behind the loading of the segments and a message: low memory as before, the
    segments above 1 MiB. *)
Lemma loaded_memory s2 s3 s4 :
  reached s2 (loaded_byte (file_byte file) (kernel_segments file phoff phnum) (rd8 (m_ram s2))) s3 ->
  reached s3 (rd8 (m_ram s3)) s4 ->
  (forall a, 0 <= a < 458752 -> rd8 (m_ram s4) a = rd8 (m_ram s2) a) /\
  (forall a, untouched a -> rd8 (m_ram s4) a =
    loaded_byte (file_byte file) (kernel_segments file phoff phnum) (rd8 (m_ram s2)) a).
Proof.
  intros (_ & _ & B3) (_ & _ & B4). split; intros a Ha.
  - assert (~ on_screen a) by (unfold on_screen, FRAMEBUFFER_LOCATION, cells; lia). rewrite B4, B3 by (done || lia).
    eapply loaded_byte_low; [apply Hki|lia].
  - destruct Ha. by rewrite B4, B3 by (done || lia).
Qed.

(** The kernel's view of a machine with the info structure at [top] and the segments. *)
Lemma kernel_started_at device m s2 s4 top :
  let j := Jump (kernel_entry file) top (u32 (getRow (m_term s4) * vga_width + getColumn (m_term s4))) in
  machine_ok s4 -> 0 < top -> top + 128 + 2800 <= 458752 ->
  (forall a, 0 <= a < 458752 -> rd8 (m_ram s4) a = rd8 (m_ram s2) a) ->
  (forall a, untouched a -> rd8 (m_ram s4) a =
    loaded_byte (file_byte file) (kernel_segments file phoff phnum) (rd8 m) a) ->
  get multiboot_info_structure "flags" (m_ram s2) top =
    Z.lor (if Z.testbit (kernel_flags file k) 0 then 65 else 0) (if Z.testbit (kernel_flags file k) 1 then 2 else 0) ->
  (Z.testbit (kernel_flags file k) 0 = true -> memory_filled (m_ram s2) top (top + 128) kb rs) ->
  (Z.testbit (kernel_flags file k) 1 = true ->
    get multiboot_info_structure "boot_device" (m_ram s2) top = device) ->
  kernel_started device m j s4.
Proof.
  intros j Hok Htop Hroom Hlow Hhigh Hfl Hmem Hdev.
  assert (forall f, get multiboot_info_structure f (m_ram s4) top =
      get multiboot_info_structure f (m_ram s2) top) as Hinfo.
  { intros f. apply get_same; [done|]. change (sizeof multiboot_info_structure) with 120.
    intros i Hi. apply Hlow. lia. }
  split; cbn [j j_initAddr j_mbInfo j_termIndex]; rewrite ?Hinfo; try done.
  - by apply terminal_index.
  - lia.
  - intros Hb. exists (top + 128). apply (memory_filled_same (m_ram s2)); [by apply Hmem|..];
      intros i Hi; apply Hlow; lia.
Qed.

Lemma load_kernel_spec s own top fp buf blen :
  world s own top -> mask_safe s own -> (fp, 12) ∈ own -> (buf, blen) ∈ own -> len <= blen ->
  get fat32_fileResult "ptr" (m_ram s) fp = buf -> holds (m_ram s) buf file ->
  top + 2952 <= m_heapEnd s -> 0 <= m_disk s < 256 ->
  exists j s', returns (fun fuel => load_kernel int12 int15 fuel fp) s j s' /\
    kernel_started (m_disk s) (m_ram s) j s'.
Proof.
  intros Hw Hms Hfp Hbuf Hlen Hptr Hh Hroom Hdisk.
  destruct (ki_place _ _ _ _ Hki) as [Hk Hk2]. pose proof (ki_length _ _ _ _ Hki) as Hl52.
  destruct (world_block _ _ _ _ _ Hw Hfp) as ((? & ? & ?) & Hfp1 & _ & Hfp2 & _).
  destruct (world_block _ _ _ _ _ Hw Hbuf) as ((? & ? & ?) & Hb1 & _ & Hb2 & Htop).
  destruct (id Hw) as [Hok _ Hlo Hhi].
  set (h := buf + 4 * Z.of_nat k).
  destruct (print_header_quiet s h Hok ltac:(unfold h; lia)) as (s1 & R1 & E1).
  pose proof (world_quiet _ _ _ _ Hw R1) as Hw1. destruct (id R1) as (Hok1 & (_ & Hhp & He1 & Hd1) & B1).
  assert (forall a, 0 <= a < 458752 -> rd8 (m_ram s1) a = rd8 (m_ram s) a) as Hlow1.
  { intros a Ha. apply B1; [lia|]. unfold on_screen, FRAMEBUFFER_LOCATION, cells. lia. }
  assert (mask_safe s1 own) as Hms1 by (by apply (mask_safe_quiet s)).
  assert (holds (m_ram s1) buf file) as Hh1 by (intros i Hi; rewrite Hlow1 by lia; by apply Hh).
  assert (header_block own h) as Hhb by (exists buf, blen; split; [done|unfold h; lia]).
  assert (get multiboot_header "flags" (m_ram s1) h = kernel_flags file k) as Hkf
    by (apply holds_get; done || (eval_layout; lia)).
  destruct (build_spec int12 int15 kb rs H12 Hkb H15 Hcount Hregions s1 own top h (m_disk s) Hw1 (fun _ => Hms1) Hhb)
    as (s2 & own2 & Hg & [n2 E2] & Hfl & Hmem & Hdev); [lia|lia|]. rewrite Hkf in E2, Hfl, Hmem, Hdev.
  unfold kernel_flags in E2 at 1. rewrite (ki_flags _ _ _ _ Hki), Z.eqb_refl in E2.
  assert (machine_ok s2) as Hok2 by (eapply ram_only_ok; [apply Hg|done]).
  assert (holds (m_ram s2) buf file) as Hh2.
  { intros i Hi. rewrite (grows_block _ _ _ _ _ _ _ Hg Hbuf) by lia. by apply Hh1. }
  destruct (load_segments s2 buf Hok2 ltac:(lia) ltac:(lia) Hh2) as (v & s3 & [n3 E3] & Hv & R3).
  destruct (print_quiet ("Everything seems to be good, jumping to init" ++ newline) s3 (proj1 R3))
    as (s4 & E4 & R4). destruct (loaded_memory _ _ _ R3 R4) as [Hlow Hhigh].
  exists (Jump (kernel_entry file) top (u32 (getRow (m_term s4) * vga_width + getColumn (m_term s4)))), s4.
  split.
  - exists (k + n2 + n3)%nat. intros fuel Hf. unfold load_kernel.
    rewrite (bind_Done _ _ _ h s) by (unfold run_opt; by
      rewrite (search_finds _ fp buf _ _ Hptr eq_refl) by (done || lia)).
    rewrite E1, (proj2 (Z.eqb_neq h 0)) by (unfold h; lia). run.
    unfold gets at 1, bind at 1. rewrite Hd1, (bind_Done _ _ _ _ _ (E2 fuel ltac:(lia))). run.
    assert (get fat32_fileResult "ptr" (m_ram s2) fp = buf) as Hptr2.
    { rewrite (grows_get _ "ptr" _ _ _ _ _ 12 Hg Hfp) by done. rewrite <- Hptr.
      apply get_same; [done|]. change (sizeof fat32_fileResult) with 12. intros i Hi. apply Hlow1. lia. }
    rewrite Hptr2, (holds_elf _ _ _ Hh2), (ki_elf _ _ _ _ Hki) by lia. cbn [negb]. run.
    rewrite (bind_Done _ _ _ _ _ (E3 fuel ltac:(lia))), (proj2 (Z.eqb_neq v 0) Hv). run.
    rewrite (bind_Done _ _ _ _ _ E4). unfold gets at 1, bind at 1. run.
    unfold kernel_entry. rewrite (holds_ehdr (m_ram s4) buf file); [done| |lia|eval_layout; lia|eval_layout; lia].
    intros i Hi. rewrite Hlow by lia. by apply Hh2.
  - apply (kernel_started_at _ _ s2); [apply R4|lia|lia|done| |done|exact Hmem|exact Hdev].
    intros a Ha. rewrite Hhigh by done. unfold loaded_byte. f_equal.
    destruct Hg as (_ & _ & _ & O). destruct Ha.
    rewrite O, B1; [done|lia|done|lia| |unfold scratch; lia]. unfold in_heap. rewrite He1. lia.
Qed.
End Load.

(** ** From the start to the mounted partition *)

(** The entries of the partition table: bit 7 of the attributes marks a bootable one. *)
Definition partitions (m : mem) : list (Z * Z) :=
  map (fun i => (get partitionTable "attributes" m (mbr + 446 + 16 * i),
                 get partitionTable "lbaBegin" m (mbr + 446 + 16 * i))) [0; 1; 2; 3].
Definition bootable (e : Z * Z) : bool := Z.testbit (fst e) 7.
Definition active_partition (m : mem) : option Z := option_map snd (find bootable (partitions m)).

Lemma bootable_bit a : negb (Z.land a 128 =? 0) = Z.testbit a 7.
Proof. apply (land_bit a 7). lia. Qed.

Lemma getPartitionLBA_spec s :
  getPartitionLBA s =
  match active_partition (m_ram s) with
  | Some lba => Done lba s
  | None => earlyPanic "getPartitionLBA(): Couldn't get the partition LBA!" s
  end.
Proof.
  unfold getPartitionLBA, active_partition, partitions, bootable. cbn [partition_rounds map find fst].
  change (sizeof partitionTable) with 16. rewrite !bind_load, !bootable_bit.
  repeat (destruct (Z.testbit _ 7); [done|]; cbn [option_map]; rewrite ?bind_load, ?bootable_bit). done.
Qed.

Lemma partitions_same m m' :
  (forall a, 2048 <= a < 2560 -> rd8 m' a = rd8 m a) -> partitions m' = partitions m.
Proof.
  intros H. unfold partitions, mbr.
  assert (forall f i, 0 <= i < 4 ->
    get partitionTable f m' (2048 + 446 + 16 * i) = get partitionTable f m (2048 + 446 + 16 * i)) as Hget.
  { intros f i Hi. apply get_same; [done|]. change (sizeof partitionTable) with 16.
    intros o Ho. apply H. lia. }
  cbn [map]. by rewrite !Hget by lia.
Qed.

Lemma print_banner_quiet s :
  machine_ok s -> exists s', print_banner s = Done tt s' /\ reached s (rd8 (m_ram s)) s'.
Proof.
  intros Hok. destruct (set_color_quiet VGA_COLOR_LIGHT_GREY VGA_COLOR_BLUE s Hok) as (s1 & E1 & R1).
  destruct (id R1) as (Hok1 & _ & B1).
  destruct (print_quiet ("Welcome to RainbowOS 32-bit protected mode bootloader!" ++ newline) s1 Hok1)
    as (s2 & E2 & R2). destruct (id R2) as (Hok2 & _ & B2).
  destruct (set_color_quiet VGA_COLOR_LIGHT_GREY VGA_COLOR_BLACK s2 Hok2) as (s3 & E3 & R3).
  exists s3. split; [|eapply reached_trans; [exact R1| |exact B1]; by eapply reached_trans].
  unfold print_banner. by rewrite (bind_Done _ _ _ _ _ E1), (bind_Done _ _ _ _ _ E2).
Qed.

Lemma open_terminal_spec cursor s :
  0 <= cursor -> exists s', open_terminal cursor s = Done tt s' /\ machine_ok s' /\ m_ram s' = m_ram s.
Proof.
  intros Hc. unfold open_terminal, bind, modify. cbv beta iota zeta.
  eexists. split; [reflexivity|]. split; [|done]. split; [|split; [|cbn; lia]].
  - cbn [m_term set_out set_term]. apply setCursor_ok; [apply u8_bounds..|exact new_terminal_ok].
  - cbn [m_term set_out set_term hex out_of o_back fst]. unfold setCursor. by destruct (orb _ _).
Qed.

Lemma open_heap_spec ptr s :
  machine_ok s -> 4112 <= ptr -> ptr + 16 <= 458752 ->
  exists s', open_heap ptr (u32 (readBuffer - ptr)) s = Done tt s' /\ world s' [] (ptr + 8) /\
    m_heap s' = ptr /\ m_heapEnd s' = 458744 /\
    forall a, 0 <= a < ptr \/ ptr + 8 <= a < 458744 \/ 458752 <= a < 4294967296 -> rd8 (m_ram s') a = rd8 (m_ram s) a.
Proof.
  intros Hok Hlo Hhi. unfold open_heap, readBuffer. rewrite u32_small by lia.
  pose proof (arena_init ptr (458752 - ptr) (m_ram s) ltac:(lia) ltac:(lia) ltac:(lia)) as H.
  pose proof (heapInitialize_spec ptr (458752 - ptr) (m_ram s) ltac:(lia) ltac:(lia) ltac:(lia)) as Hi.
  destruct (heapInitialize ptr (458752 - ptr) (m_ram s)) as [[h e] m].
  destruct H as (-> & -> & H), Hi as (_ & _ & _ & Hb). eexists. split; [reflexivity|].
  split; [split; cbn [m_ram m_heap m_heapEnd]; [exact Hok|exact H|lia|lia]|].
  split; [done|]. split; [cbn; lia|]. intros a Ha. cbn [m_ram]. apply Hb; lia.
Qed.

(** The mask byte of the real-mode calls lies below the heap from [stop] on, or where the
    boot record or the FAT is read to, and these sectors leave it even. *)
Definition mask_placed (image : Z -> Z -> Z) (part stop : Z) : Prop :=
  mask_address < stop \/
  (stop + 8 <= mask_address < stop + 520 /\ even_byte (disk_byte image part (mask_address - (stop + 8)))) \/
  (stop + 528 <= mask_address < stop + 528 + 512 * v_spf image part /\
    even_byte (disk_byte image (part + v_reserved image part) (mask_address - (stop + 528)))).

Lemma mask_placed_off image part stop :
  mask_placed image part stop -> mask_address < stop \/ stop + 8 <= mask_address.
Proof. unfold mask_placed. lia. Qed.

(** What the first stage leaves in memory: the partition table, the strings and the free
    memory from [stop] on. *)
Record stage1_found (lfn kernel_name part stop cursor : Z) (m : mem) : Prop := {
  sf_partition : active_partition m = Some part;
  sf_stop : 4112 <= stop /\ 0 <= cursor;
  sf_lfn : cstring_at m lfn (bytes_of_string "LFN") /\ 4112 <= lfn /\ lfn + 4 <= stop;
  sf_name : cstring_at m kernel_name (bytes_of_string "KERNEL.BIN") /\
    4112 <= kernel_name /\ kernel_name + 11 <= stop;
}.

(** And with it a BIOS that reads drive [u8 dx], and a mask byte with which it can be
    called. *)
Record stage1_ready (int13 : Z -> Z -> mem -> bool * Z * mem) (image : Z -> Z -> Z)
    (lfn kernel_name part dx stop cursor : Z) (m : mem) : Prop := {
  sr_disk : int13_reads int13 (u8 dx) image;
  sr_found : stage1_found lfn kernel_name part stop cursor m;
  sr_mask : mask_even m /\ mask_placed image part stop;
}.

(** The disk has the file KERNEL.BIN, entry [j] of the root directory, in the
    clusters [l], and the heap from [stop] on has room for it. *)
Record kernel_on_disk (image : Z -> Z -> Z) (part n j : Z) (l : list Z) (file : list Z) (stop : Z) : Prop := {
  kd_volume : volume_ok image part n;
  kd_cluster : v_spc image part = 1;
  kd_find : find_entry image part (Z.to_nat n) 0 (bytes_of_string "KERNEL.BIN") = Some j;
  kd_chain : chain image part (de_cluster image part j) l;
  kd_size : 0 <= de_field image part j "size" <= 512 * Z.of_nat (List.length l);
  kd_file : file = file_bytes image part l (de_field image part j "size");
  kd_length : 512 * Z.of_nat (List.length l) <= 512 * (de_field image part j "size" / 512 + 1);
  kd_room : stop + 4056 + 512 * v_spf image part + 21 * n +
    512 * (de_field image part j "size" / 512 + 1) <= 458744;
}.

Section Start.
Context (int12 : mem -> bool * Z * mem) (int13 : Z -> Z -> mem -> bool * Z * mem).
Context (int15 : Z -> Z -> Z -> mem -> int15_result).
Context (image : Z -> Z -> Z) (lfn kernel_name part dx stop cursor : Z).

(** Up to the file system: the terminal, the heap, the partition. *)
Lemma stage1_start s0 :
  stage1_found lfn kernel_name part stop cursor (m_ram s0) -> stop + 16 <= 458752 ->
  exists s, world s [] (stop + 8) /\ m_heapEnd s = 458744 /\ m_disk s = u8 dx /\
    literal_at s kernel_name (bytes_of_string "KERNEL.BIN") /\
    literal_at s lfn (bytes_of_string "LFN") /\
    m_heap s = stop /\
    (mask_address < stop \/ stop + 8 <= mask_address -> rd8 (m_ram s) mask_address = rd8 (m_ram s0) mask_address) /\
    (forall a, untouched a -> rd8 (m_ram s) a = rd8 (m_ram s0) a) /\
    forall fuel, _stage1Main int12 int13 int15 lfn kernel_name fuel dx stop cursor s0 =
      bind (init (D := int13_Disk int13) fuel (Fat32 0 0 0) part) (fun r =>
        let* kernelFile := getRootFile (D := int13_Disk int13) lfn fuel (snd r) kernel_name in
        let* returnCode := load_ram (fun m => get fat32_fileResult "returnCode" m kernelFile) in
        do* (if returnCode =? 1 then earlyPanic "Could not find KERNEL.BIN" else ret tt) in
        load_kernel int12 int15 fuel kernelFile) s.
Proof.
  intros [Hpart [Hstop Hcur] (Hl1 & Hl2 & Hl3) (Hn1 & Hn2 & Hn3)] Hroom.
  destruct (open_terminal_spec cursor s0 Hcur) as (s1 & E1 & Hok1 & Hram1).
  destruct (print_banner_quiet s1 Hok1) as (s2 & E2 & Hok2 & Hst2 & B2). rewrite Hram1 in B2.
  destruct (open_heap_spec stop s2 Hok2 ltac:(lia) ltac:(lia)) as (s3 & E3 & Hw3 & Hh3 & He3 & B3).
  assert (forall a, 0 <= a < stop \/ stop + 8 <= a < 458744 \/ untouched a ->
    rd8 (m_ram s3) a = rd8 (m_ram s0) a) as Hsame.
  { unfold untouched, on_screen, FRAMEBUFFER_LOCATION, cells in *. intros a Ha. rewrite B3 by lia. apply B2; lia. }
  set (s4 := Machine (m_ram s3) (m_term s3) (m_base s3) (m_heap s3) (m_heapEnd s3) (u8 dx)).
  assert (forall p str, cstring_at (m_ram s0) p str -> 4112 <= p ->
    p + Z.of_nat (List.length str) + 1 <= stop -> literal_at s4 p str) as Hlit.
  { intros p str Hc Hp Hl. split.
    - eapply cstring_at_ext; [|exact Hc]. intros i Hi. apply Hsame. lia.
    - intros i Hi. unfold in_heap, scratch, s4. cbn [m_heap m_heapEnd]. lia. }
  exists s4. split; [by destruct Hw3|]. split; [done|]. split; [done|].
  split; [apply Hlit; [done|done|cbn; lia]|]. split; [apply Hlit; [done|done|cbn; lia]|].
  split; [exact Hh3|]. split.
  { intros Hm. apply Hsame. unfold mask_address in *. lia. }
  split; [intros a Ha; apply Hsame; by do 2 right|].
  intros fuel. unfold _stage1Main.
  rewrite (bind_Done _ _ _ _ _ E1), (bind_Done _ _ _ _ _ E2), (bind_Done _ _ _ _ _ E3).
  rewrite (bind_Done _ _ _ part s3); [reflexivity|].
  rewrite getPartitionLBA_spec. unfold active_partition.
  rewrite (partitions_same (m_ram s0)) by (intros a Ha; apply Hsame; lia).
  unfold active_partition in Hpart. by rewrite Hpart.
Qed.

(** The driver can call the BIOS. *)
Lemma stage1_device s m0 (H : int13_reads int13 (u8 dx) image) :
  m_heap s = stop -> m_disk s = u8 dx -> rd8 (m_ram s) mask_address = rd8 m0 mask_address ->
  mask_even m0 -> mask_placed image part stop ->
  device_ready (BD := int13_BlockDevice int13 image (u8 dx) H) part s [] (stop + 8).
Proof.
  intros Hh Hd Em He Hp. split.
  - exact Hd.
  - intros a ->. unfold bd_fine. cbn. by rewrite Em.
  - intros a ->. destruct Hp as [Hp|[Hp|[Hp He']]]; [left; left|right; left; split; [lia|apply Hp]|right; right].
    + unfold in_heap, scratch, mask_address in *. rewrite Hh. lia.
    + replace (stop + 8 + 520) with (stop + 528) by lia. split; [exact Hp|exact He'].
Qed.
End Start.

Lemma kernel_started_over kb rs file k phoff phnum device m m' j s' :
  kernel_started kb rs file k phoff phnum device m j s' ->
  (forall a, untouched a -> rd8 m a = rd8 m' a) ->
  kernel_started kb rs file k phoff phnum device m' j s'.
Proof.
  intros [H1 H2 H3 H4 H5 H6 H7 H8 H9] Hm. split; try done.
  intros a Ha. rewrite H9 by done. unfold loaded_byte. by rewrite Hm.
Qed.

Lemma file_bytes_length image part l size :
  v_spc image part = 1 -> 0 <= size <= 512 * Z.of_nat (List.length l) ->
  Z.of_nat (List.length (file_bytes image part l size)) = size.
Proof.
  intros Hspc Hs. unfold file_bytes. rewrite length_take.
  assert (List.length (flat_map (cluster_bytes image part) l) = (512 * List.length l)%nat) as ->; [|lia].
  clear Hs. induction l as [|c l IH]; cbn [flat_map]; [done|]. rewrite length_app, IH.
  unfold cluster_bytes. rewrite length_map, length_seqZ, Hspc. cbn [List.length]. lia.
Qed.

Record bios_memory (int12 : mem -> bool * Z * mem) (int15 : Z -> Z -> Z -> mem -> int15_result)
    (kb : Z) (rs : list region) : Prop := {
  bm_int12 : int12_reports int12 kb;
  bm_kb : 0 < kb < 65536;
  bm_int15 : int15_lists int15 rs;
  bm_count : (0 < List.length rs < 100)%nat;
  bm_regions : Forall region_ok rs;
}.

(** KERNEL.BIN is in a block of the heap when [load_kernel] starts. *)
Lemma stage1_reads_kernel int12 int13 int15 image lfn kernel_name part n j l file dx stop cursor s0 :
  stage1_ready int13 image lfn kernel_name part dx stop cursor (m_ram s0) ->
  kernel_on_disk image part n j l file stop ->
  exists s own top fp buf blen fuel0,
    world s own top /\ mask_safe s own /\ top + 2952 <= m_heapEnd s /\ m_disk s = u8 dx /\
    (fp, 12) ∈ own /\ (buf, blen) ∈ own /\ Z.of_nat (List.length file) <= blen /\
    get fat32_fileResult "ptr" (m_ram s) fp = buf /\ holds (m_ram s) buf file /\
    (forall a, untouched a -> rd8 (m_ram s) a = rd8 (m_ram s0) a) /\
    forall fuel, (fuel0 < fuel)%nat ->
      _stage1Main int12 int13 int15 lfn kernel_name fuel dx stop cursor s0 =
      load_kernel int12 int15 fuel fp s.
Proof.
  intros Hsr [Hvol Hspc Hfind Hch Hsize Hfile Hlen Hroom].
  set (size := de_field image part j "size") in *.
  assert (0 <= size / 512) by (apply Z.div_pos; lia). destruct (sf_stop _ _ _ _ _ _ (sr_found _ _ _ _ _ _ _ _ _ Hsr)) as [Hstop _].
  pose proof (vo_spf _ _ _ Hvol) as Hspf. destruct (vo_entries _ _ _ Hvol) as [Hn0 _].
  destruct (stage1_start int12 int13 int15 lfn kernel_name part dx stop cursor s0 (sr_found _ _ _ _ _ _ _ _ _ Hsr) ltac:(lia))
    as (s & Hw & He & Hd & Hname & Hlfn & Hh & Hmask & Hhigh & Erun).
  destruct (sr_mask _ _ _ _ _ _ _ _ _ Hsr) as [Heven Hplaced].
  pose proof (stage1_device int13 image part dx stop s (m_ram s0) (sr_disk _ _ _ _ _ _ _ _ _ Hsr) Hh Hd (Hmask (mask_placed_off _ _ _ Hplaced))
    Heven Hplaced) as Hdev.
  pose (BD := int13_BlockDevice int13 image (u8 dx) (sr_disk _ _ _ _ _ _ _ _ _ Hsr)).
  destruct (mount_and_find (BD := BD) lfn part n (Fat32 0 0 0) s [] (stop + 8) kernel_name
      (bytes_of_string "KERNEL.BIN") j l Hvol Hw Hdev Hname Hlfn Hfind Hch Hlen)
    as (fs & s1 & fp & s2 & [n1 E1] & [n2 E2] & own1 & Hg1 & Hm1 & own2 & top2 & Hg2 & Hw2 & Htop & Hfp & buf &
        (Hcode & _ & Hptr) & Hbuf & Hdata).
  { unfold buffer_size. change (bd_image (BlockDevice := BD)) with image. rewrite Hspc. fold size. lia. }
  unfold buffer_size in Htop, Hbuf. change (bd_image (BlockDevice := BD)) with image in Htop, Hbuf.
  rewrite Hspc in Htop. fold size in Htop, Hbuf.
  pose proof (file_bytes_length image part l size Hspc Hsize) as Hfl. rewrite <- Hfile in Hfl.
  pose proof (chain_at_file (BD := BD) part (m_ram s2) buf l size Hspc Hdata Hsize) as Hread.
  change (bd_image (BlockDevice := BD)) with image in Hread. rewrite <- Hfile in Hread.
  replace (Z.to_nat size) with (List.length file) in Hread by lia.
  pose proof (grows_trans _ _ _ _ _ _ Hg1 Hg2) as Hg. destruct (grows_end _ _ _ _ Hg) as [He2 _].
  assert (size < 512 * (size / 512 + 1)) by (Z.to_euclidean_division_equations; lia).
  exists s2, own2, top2, fp, buf, (512 * (size / 512 + 1)), (n1 + n2)%nat.
  split; [done|]. split.
  { apply (mask_safe_grows _ _ _ _ Hg2). split; [by apply (mo_fine _ _ _ _ Hm1)|by apply (mo_watch _ _ _ _ Hm1)]. }
  split; [lia|]. split; [destruct Hg as [-> _]; done|]. split; [done|]. split; [done|].
  split; [lia|]. split; [done|]. split; [apply holds_read; [lia|exact Hread]|]. split.
  - intros a Ha. rewrite <- Hhigh by done. destruct Hg as (_ & _ & _ & O).
    destruct Ha. apply O; [lia| |unfold scratch; lia]. unfold in_heap. rewrite He. lia.
  - intros fuel Hf. rewrite Erun, (bind_Done _ _ _ _ _ (E1 fuel ltac:(lia))). cbn [snd].
    rewrite (bind_Done _ _ _ _ _ (E2 fuel ltac:(lia))). run. by rewrite Hcode.
Qed.

Lemma stage1_boots_lemma int12 int13 int15 kb rs image lfn kernel_name part n j l file k phoff phnum
    dx stop cursor s0 :
  bios_memory int12 int15 kb rs ->
  stage1_ready int13 image lfn kernel_name part dx stop cursor (m_ram s0) ->
  kernel_on_disk image part n j l file stop -> kernel_image file k phoff phnum ->
  exists jmp s',
    returns (fun fuel => _stage1Main int12 int13 int15 lfn kernel_name fuel dx stop cursor) s0 jmp s' /\
    kernel_started kb rs file k phoff phnum (u8 dx) (m_ram s0) jmp s'.
Proof.
  intros [H12 Hkb H15 Hn Hrs] Hsr Hkd Hki.
  destruct (stage1_reads_kernel int12 int13 int15 image lfn kernel_name part n j l file dx stop cursor s0
    Hsr Hkd) as (s & own & top & fp & buf & blen & n1 & Hw & Hms & Hroom & Hd & Hfp & Hbuf & Hlen & Hptr & Hh &
    Hhigh & E1).
  destruct (load_kernel_spec int12 int15 kb rs H12 Hkb H15 Hn Hrs file k phoff phnum Hki s own top fp buf
    blen Hw Hms Hfp Hbuf Hlen Hptr Hh Hroom) as (jmp & s' & [n2 E2] & Hks); [rewrite Hd; apply u8_bounds|].
  exists jmp, s'. split.
  - exists (n1 + n2)%nat. intros fuel Hf. rewrite E1 by lia. apply E2. lia.
  - rewrite Hd in Hks. by eapply kernel_started_over.
Qed.

(** ** Properties *)

(** C3: the boot loader boots: on a machine the first stage left ready, with a BIOS
    that reads the disk and reports the memory, a byte at 0xfffe that is even and stays so
    ([stage1_ready]), and a volume that has a supported kernel as KERNEL.BIN, [_stage1Main] ends in the jump to the kernel's entry point,
    with the Multiboot info the header asks for, a cursor on the screen, and every
    segment of the file in place over what memory held above the boot loader. *)
Theorem stage1_boots int12 int13 int15 kb rs image lfn kernel_name part n j l file k phoff phnum
    dx stop cursor s0 :
  bios_memory int12 int15 kb rs ->
  stage1_ready int13 image lfn kernel_name part dx stop cursor (m_ram s0) ->
  kernel_on_disk image part n j l file stop -> kernel_image file k phoff phnum ->
  exists jmp s',
    returns (fun fuel => _stage1Main int12 int13 int15 lfn kernel_name fuel dx stop cursor) s0 jmp s' /\
    kernel_started kb rs file k phoff phnum (u8 dx) (m_ram s0) jmp s'.
Proof. apply stage1_boots_lemma. Qed.

(** *** An example: a disk with a kernel of 104 bytes, one segment at 1 MiB

    The heap starts at 0x5000 and the FAT has 512 sectors, so that the byte at 0xfffe is
    one of the FAT's, of an entry in no use. *)

Definition example_kernel : list Z :=
  example_ehdr 1 ++ example_phdr 1 96 1048576 8 16 ++ example_header ++
  [1; 2; 3; 4; 5; 6; 7; 8].

Definition example_kernel_bpb : list Z :=
  replicate 11 0 ++ bytes_le 2 512 ++ bytes_le 1 1 ++ bytes_le 2 1 ++ bytes_le 1 1 ++
  replicate 19 0 ++ bytes_le 4 512 ++ bytes_le 2 0 ++ bytes_le 2 0 ++ bytes_le 4 2.

Definition example_kernel_fat : list Z :=
  bytes_le 4 268435448 ++ bytes_le 4 268435455 ++ bytes_le 4 268435455 ++ bytes_le 4 268435455.

Definition example_kernel_root : list Z :=
  bytes_of_string "KERNEL  BIN" ++ [32; 0; 0; 0; 0; 0; 0; 0; 0; 0; 0; 0; 0; 0; 0] ++
  bytes_le 2 3 ++ bytes_le 4 104.

Definition example_kernel_disk (lba i : Z) : Z :=
  if lba =? 8 then u8 (nth (Z.to_nat i) example_kernel_bpb 0)
  else if lba =? 9 then u8 (nth (Z.to_nat i) example_kernel_fat 0)
  else if lba =? 521 then u8 (nth (Z.to_nat i) example_kernel_root 0)
  else if lba =? 522 then u8 (nth (Z.to_nat i) example_kernel 0) else 0.

(** A partition table with one bootable partition at sector 8, and the strings. *)
Definition example_stage1 : machine :=
  Machine
    (write_bytes (write_bytes (write_bytes ∅ 2494 ([128; 0; 0; 0; 12; 0; 0; 0] ++ bytes_le 4 8))
       12288 (bytes_of_string "LFN" ++ [0]))
     12304 (bytes_of_string "KERNEL.BIN" ++ [0])) new_terminal 0 0 0 0.

Lemma example_kernel_disk_byte lba i : 0 <= example_kernel_disk lba i < 256.
Proof. unfold example_kernel_disk. repeat destruct (_ =? _); try apply u8_bounds; lia. Qed.

Lemma example_stage1_found : stage1_found 12288 12304 8 20480 1282 (m_ram example_stage1).
Proof.
  split; [vm_compute; reflexivity|lia|..];
    (split; [apply example_string; [vm_compute; reflexivity|repeat constructor; done]|lia]).
Qed.

Lemma example_stage1_ready :
  stage1_ready (example_int13 example_kernel_disk) example_kernel_disk 12288 12304 8 128 20480 1282
    (m_ram example_stage1).
Proof.
  split; [apply example_int13_reads, example_kernel_disk_byte|apply example_stage1_found|].
  split; [vm_compute; reflexivity|]. right; right. repeat split; vm_compute; (reflexivity || discriminate).
Qed.

Lemma example_kernel_on_disk : kernel_on_disk example_kernel_disk 8 1 0 [3] example_kernel 20480.
Proof.
  split; try (vm_compute; reflexivity || (split; discriminate) || discriminate).
  - split; try (repeat split; vm_compute; (reflexivity || discriminate)).
    intros i Hi. assert (i = 0) as -> by lia. vm_compute. discriminate.
  - change (de_cluster example_kernel_disk 8 0) with 3.
    apply chain_next; [reflexivity|split; vm_compute; (reflexivity || discriminate)
      |split; vm_compute; (reflexivity || discriminate)|apply chain_end; reflexivity].
Qed.

Lemma example_kernel_image : kernel_image example_kernel 21 52 0.
Proof.
  split; [vm_compute; discriminate|split; [lia|vm_compute; discriminate]|vm_compute; reflexivity|
    |vm_compute; reflexivity..|vm_compute; discriminate| |].
  - intros i Hi. do 21 (destruct i as [|i]; [vm_compute; reflexivity|]). lia.
  - change (program_headers _ _ 1) with
      [segment_at (file_mem example_kernel) (image_base + 52 + 32 * Z.of_nat 0)].
    replace (segment_at _ _) with (Segment 1 96 1048576 8 16) by (vm_compute; reflexivity).
    constructor; [|constructor]. split; [reflexivity|]. intros _. cbn. lia.
  - replace (segment_at _ _) with (Segment 1 96 1048576 8 16) by (vm_compute; reflexivity).
    vm_compute. discriminate.
Qed.

Lemma example_bios_memory : bios_memory example_int12 (example_int15 example_regions) 639 example_regions.
Proof.
  split; [intros m; exists m; by split|lia|apply example_int15_lists|cbn; lia|].
  repeat (constructor; [unfold region_ok; cbn; lia|]). constructor.
Qed.

Lemma stage1_boots_witness :
  exists jmp s',
    returns (fun fuel => _stage1Main example_int12 (example_int13 example_kernel_disk)
      (example_int15 example_regions) 12288 12304 fuel 128 20480 1282) example_stage1 jmp s' /\
    j_initAddr jmp = 1048576 /\
    get multiboot_info_structure "flags" (m_ram s') (j_mbInfo jmp) = 67 /\
    map (rd8 (m_ram s')) (seqZ 1048576 17) =
      [1; 2; 3; 4; 5; 6; 7; 8; 0; 0; 0; 0; 0; 0; 0; 0; 0].
Proof.
  destruct (stage1_boots example_int12 (example_int13 example_kernel_disk) (example_int15 example_regions)
    639 example_regions example_kernel_disk 12288 12304 8 1 0 [3] example_kernel 21 52 0 128 20480 1282
    example_stage1) as (jmp & s' & Hr & Hks).
  - exact example_bios_memory.
  - exact example_stage1_ready.
  - exact example_kernel_on_disk.
  - exact example_kernel_image.
  - exists jmp, s'. split; [exact Hr|]. destruct Hks as [He _ _ _ _ Hf _ _ Hb].
    split; [exact He|]. split; [exact Hf|].
    transitivity (map (loaded_byte (file_byte example_kernel) (kernel_segments example_kernel 52 0)
      (rd8 (m_ram example_stage1))) (seqZ 1048576 17)); [|vm_compute; reflexivity].
    apply map_ext_in. intros a Ha%list_elem_of_In%elem_of_seqZ. apply Hb.
    unfold untouched, on_screen, FRAMEBUFFER_LOCATION, cells. lia.
Defined.

(** [getPartitionLBA] is the first sector of the first of the four entries with
    the bootable bit; with no such entry it prints its message and the machine
    halts. *)
Theorem getPartitionLBA_active s :
  machine_ok s ->
  match active_partition (m_ram s) with
  | Some lba => getPartitionLBA s = Done lba s
  | None => exists s', getPartitionLBA s =
      Panicked "getPartitionLBA(): Couldn't get the partition LBA!" s' /\ same_but_screen s s'
  end.
Proof.
  intros Hok. rewrite getPartitionLBA_spec. destruct (active_partition (m_ram s)); [done|].
  by apply earlyPanic_panics.
Qed.

Lemma getPartitionLBA_active_witness :
  getPartitionLBA (set_term new_terminal (Machine (m_ram example_stage1) new_terminal 16 0 0 0)) =
    Done 8 (Machine (m_ram example_stage1) new_terminal 16 0 0 0).
Proof.
  pose proof (getPartitionLBA_active (Machine (m_ram example_stage1) new_terminal 16 0 0 0)) as H.
  replace (active_partition _) with (Some 8) in H by (vm_compute; reflexivity). apply H.
  split; [exact new_terminal_ok|]. split; [done|]. cbn. lia.
Defined.

(** C36: without an entry named KERNEL.BIN in the root directory the boot loader ends
    in a panic that says so, when the byte at 0xfffe is even and stays so ([stage1_ready]). *)
Theorem stage1_no_kernel int12 int13 int15 image lfn kernel_name part n dx stop cursor s0 :
  stage1_ready int13 image lfn kernel_name part dx stop cursor (m_ram s0) ->
  volume_ok image part n ->
  find_entry image part (Z.to_nat n) 0 (bytes_of_string "KERNEL.BIN") = None ->
  stop + 600 + 512 * v_spf image part + 512 * v_spc image part + 21 * n <= 458744 ->
  exists s', panics (fun fuel => _stage1Main int12 int13 int15 lfn kernel_name fuel dx stop cursor) s0
    "Could not find KERNEL.BIN" s'.
Proof.
  intros Hsr Hvol Hfind Hroom. destruct (vo_entries _ _ _ Hvol) as [Hn0 _].
  pose proof (vo_spf _ _ _ Hvol). pose proof (vo_spc _ _ _ Hvol).
  destruct (stage1_start int12 int13 int15 lfn kernel_name part dx stop cursor s0 (sr_found _ _ _ _ _ _ _ _ _ Hsr) ltac:(lia))
    as (s & Hw & He & Hd & Hname & Hlfn & Hh & Hmask & _ & Erun).
  destruct (sr_mask _ _ _ _ _ _ _ _ _ Hsr) as [Heven Hplaced].
  pose proof (stage1_device int13 image part dx stop s (m_ram s0) (sr_disk _ _ _ _ _ _ _ _ _ Hsr) Hh Hd (Hmask (mask_placed_off _ _ _ Hplaced))
    Heven Hplaced) as Hdev.
  pose (BD := int13_BlockDevice int13 image (u8 dx) (sr_disk _ _ _ _ _ _ _ _ _ Hsr)).
  destruct (fat32_init_spec (BD := BD) part n Hvol (Fat32 0 0 0) s [] (stop + 8) Hw Hdev)
    as (s1 & [n1 E1] & Hg1 & Hw1 & Hm1);
    change (bd_image (BlockDevice := BD)) with image in *; [lia|].
  destruct (grows_end _ _ _ _ Hg1) as [He1 _].
  destruct (getRootFile_missing_lemma (BD := BD) lfn part n Hvol _ s1 _ _ kernel_name
    (bytes_of_string "KERNEL.BIN") Hw1 Hm1 (grows_literal _ _ _ _ _ _ Hg1 Hname)
    (grows_literal _ _ _ _ _ _ Hg1 Hlfn) Hfind) as (fp & s2 & [n2 E2] & own2 & top2 & Hg2 & Hw2 & Hcode & _);
    [change (bd_image (BlockDevice := BD)) with image; lia|].
  destruct (earlyPanic_panics (A := unit) "Could not find KERNEL.BIN" s2 (w_ok _ _ _ Hw2)) as (s3 & E3 & _).
  exists s3, (n1 + n2)%nat. intros fuel Hf. rewrite Erun, (bind_Done _ _ _ _ _ (E1 fuel ltac:(lia))).
  cbn [snd]. rewrite (bind_Done _ _ _ _ _ (E2 fuel ltac:(lia))). run. rewrite Hcode.
  by rewrite (bind_Panicked _ _ _ _ _ E3).
Qed.

(** The example disk with the file renamed. *)
Definition example_empty_disk (lba i : Z) : Z :=
  if (lba =? 521) && (i =? 0) then 88 else example_kernel_disk lba i.

Lemma stage1_no_kernel_witness :
  exists s', panics (fun fuel => _stage1Main example_int12 (example_int13 example_empty_disk)
    (example_int15 example_regions) 12288 12304 fuel 128 20480 1282) example_stage1
    "Could not find KERNEL.BIN" s'.
Proof.
  apply (stage1_no_kernel example_int12 (example_int13 example_empty_disk) (example_int15 example_regions)
    example_empty_disk 12288 12304 8 1 128 20480 1282 example_stage1).
  - split; [|exact example_stage1_found|].
    + apply example_int13_reads. intros lba i. unfold example_empty_disk.
      destruct (_ && _); [lia|apply example_kernel_disk_byte].
    + split; [vm_compute; reflexivity|]. right; right. repeat split; vm_compute; (reflexivity || discriminate).
  - split; try (repeat split; vm_compute; (reflexivity || discriminate)).
    intros i Hi. assert (i = 0) as -> by lia. vm_compute. discriminate.
  - vm_compute. reflexivity.
  - vm_compute. discriminate.
Defined.

(** C40: with an odd byte at 0xfffe, off the headers of the heap's first blocks, the boot
    loader faults in its first read of the disk, whatever is on it: the mask of
    [realModeCall] is that byte instead of the constant 0xfe. *)
Theorem stage1_odd_mask int12 int13 int15 lfn kernel_name part dx stop cursor s0 :
  stage1_found lfn kernel_name part stop cursor (m_ram s0) -> stop + 544 <= 458752 ->
  mask_address < stop \/ stop + 8 <= mask_address < stop + 520 \/ stop + 528 <= mask_address ->
  ~ mask_even (m_ram s0) ->
  faults (fun fuel => _stage1Main int12 int13 int15 lfn kernel_name fuel dx stop cursor) s0.
Proof.
  intros Hsf Hroom Hplace Hodd.
  destruct (stage1_start int12 int13 int15 lfn kernel_name part dx stop cursor s0 Hsf ltac:(lia))
    as (s & Hw & He & Hd & _ & _ & Hh & Hmask & _ & Erun).
  destruct (new_bytes_spec s [] (stop + 8) 512 Hw) as (s1 & [n1 E1] & _ & _ & _ & Hz & _ & Hfr); [lia|lia|].
  exists n1. intros fuel Hf. rewrite Erun. apply bind_Undefined. unfold init. change (sizeof VBR) with 512.
  rewrite (bind_Done _ _ _ _ _ (E1 fuel Hf)), (proj2 (Z.eqb_neq _ _)) by done.
  apply bind_Undefined, diskRead16_odd; [lia|]. unfold mask_even, mask_address in *.
  rewrite Hfr, Hmask by lia. exact Hodd.
Qed.

Lemma stage1_odd_mask_witness :
  faults (fun fuel => _stage1Main example_int12 (example_int13 example_kernel_disk) (example_int15 example_regions)
    12288 12304 fuel 128 20480 1282) (set_ram (wr8 (m_ram example_stage1) 65534 1) example_stage1).
Proof.
  apply (stage1_odd_mask _ _ _ 12288 12304 8).
  - split; [vm_compute; reflexivity|lia|..];
      (split; [apply example_string; [vm_compute; reflexivity|repeat constructor; done]|lia]).
  - lia.
  - unfold mask_address. lia.
  - vm_compute. discriminate.
Defined.
