(* ===== verification/Acpi.v ===== *)
(** Finding the ACPI tables: [kernel/devices/acpiKernel.cpp] (searching the root pointer),
    [kernel/system/acpi.cpp] (the tables) and [include/kernelInternal/acpi.hpp]. *)

From S2P Require Import Prelude PhysMem Layout CString Terminal Machine Arena Fat32.

Local Open Scope string_scope.
Local Open Scope list_scope.
Local Open Scope Z_scope.

(** ** Structures *)

Definition rsdp_desc : layout := Layout true [
  ("signature", Arr 8 U8); ("checksum", U8); ("OEMID", Arr 6 U8); ("revision", U8);
  ("rsdt_address", U32)].

Definition xsdp_desc : layout := Layout true [
  ("signature", Arr 8 U8); ("checksum", U8); ("oemid", Arr 6 U8); ("revision", U8);
  ("rsdt_address", U32); ("length", U32); ("xsdt_address", U64); ("extended_checksumn", U8);
  ("reserverd", Arr 3 U8)].

Definition acpi_sdt_header : layout := Layout true [
  ("signature", Arr 4 U8); ("length", U32); ("revision", U8); ("checksum", U8);
  ("oemid", Arr 6 U8); ("oemt_table_id", Arr 8 U8); ("oem_revision", U32); ("creator_id", U32);
  ("creator_revision", U32)].

(** [rsdp] and [xsdt] are a header with an array behind it. *)
Definition sdt_addresses (table : Z) : Z := table + sizeof acpi_sdt_header.

Definition madt_table : layout := Layout true [
  ("header", sub acpi_sdt_header); ("lapic_address", U32); ("flags", U32)].

Definition madt_entry_header : layout := Layout true [("entry_type", U8); ("record_length", U8)].

Definition madt_entry_type1 : layout := Layout true [
  ("header", sub madt_entry_header); ("io_apic_id", U8); ("reserved", U8);
  ("io_apic_address", U32); ("global_system_interrupt_base", U32)].

Definition EBDA_START : Z := 524288.
Definition EBDA_END : Z := 655359.
Definition BIOS_START : Z := 917504.
Definition BIOS_END : Z := 1048575.
Definition RSDP_SEARCH_STR_LEN : Z := 7.

(** ** The root pointer *)

(** The loop of [specialStrComp], [k] characters to go. *)
Fixpoint specialStrComp_from (k : nat) (i a b : Z) (m : mem) : bool :=
  match k with
  | O => true
  | S k' => if negb (rd8 m (a + i) =? rd8 m (b + i)) then false
            else specialStrComp_from k' (i + 1) a b m
  end.

Definition specialStrComp (a b : Z) (m : mem) : bool :=
  specialStrComp_from (Z.to_nat RSDP_SEARCH_STR_LEN) 0 a b m.

Section Rsdp.
(** The address of the array [RSDP_SEARCH_STR]. *)
Variable RSDP_SEARCH_STR : Z.

(** A loop from [ptr] on, one byte at a time, [k] rounds to its limit. *)
Fixpoint search_range (k : nat) (ptr : Z) (m : mem) : option Z :=
  match k with
  | O => None
  | S k' => if specialStrComp RSDP_SEARCH_STR ptr m then Some ptr else search_range k' (ptr + 1) m
  end.

Definition searchRSDPDesc (m : mem) : Z :=
  match search_range (Z.to_nat (EBDA_END - RSDP_SEARCH_STR_LEN - EBDA_START)) EBDA_START m with
  | Some ptr => ptr
  | None =>
      match search_range (Z.to_nat (BIOS_END - RSDP_SEARCH_STR_LEN - BIOS_START)) BIOS_START m with
      | Some ptr => ptr
      | None => 0
      end
  end.

Fixpoint checkSum_from (k : nat) (i res ptr : Z) (m : mem) : Z :=
  match k with
  | O => res
  | S k' => checkSum_from k' (i + 1) (u32 (res + rd8 m (ptr + i))) ptr m
  end.

Definition checkSum (ptr size : Z) (m : mem) : bool :=
  if Z.land (checkSum_from (Z.to_nat size) 0 0 ptr m) 255 =? 0 then true else false.

Definition checkRSDPDesc (ptr : Z) (m : mem) : bool :=
  let revision := get xsdp_desc "revision" m ptr in
  if revision =? 0 then checkSum ptr (sizeof rsdp_desc) m
  else if revision =? 2 then checkSum ptr (sizeof xsdp_desc) m
  else false.

(** The pointer is checked without a test for null. *)
Definition findRSDPDesc (m : mem) : Z :=
  let ptr := searchRSDPDesc m in
  if negb (checkRSDPDesc ptr m) then 0 else ptr.

(** ** [acpi_header] *)

Record acpi_header : Type := AcpiHeader { ah_ptr : Z; ah_type2 : bool }.

Definition new_acpi_header : prog machine acpi_header :=
  let* RSDPDescPtr := load_ram findRSDPDesc in
  do* (if RSDPDescPtr =? 0 then
         earlyPanic "In kernel::acpi::apicHeader() constructor: Error: Could not find the XSDP, aborting"
       else ret tt) in
  let* revision := load_ram (fun m => get xsdp_desc "revision" m RSDPDescPtr) in
  ret (AcpiHeader RSDPDescPtr (revision =? 2)).
End Rsdp.

(** The loop over [numEntries] addresses of [size] bytes; an address of 8 bytes is cut
    to a pointer. *)
Fixpoint find_table (k : nat) (index : Z) (size : nat) (addresses name : Z) (m : mem) : Z :=
  match k with
  | O => 0
  | S k' =>
      let tempPtr := u32 (load size m (addresses + Z.of_nat size * index)) in
      if memcmp m (tempPtr + offsetof acpi_sdt_header "signature") name 4 =? 0 then tempPtr
      else find_table k' (index + 1) size addresses name m
  end.

(** The number of entries of a table with addresses of [size] bytes. *)
Definition num_entries (table : Z) (size : nat) (m : mem) : Z :=
  u32 (get acpi_sdt_header "length" m table - sizeof acpi_sdt_header) / Z.of_nat size.

Definition table_lookup (size : nat) (table name : Z) (m : mem) : Z :=
  find_table (Z.to_nat (num_entries table size m)) 0 size (sdt_addresses table) name m.

Definition findEntry (fuel : nat) (h : acpi_header) (name : Z) : prog machine Z :=
  let* len := run_opt (fun m => strlen fuel m name) in
  do* (if negb (len =? 4) then
         earlyPanic "In kernel::acpi::apicHeader::findEntry(): Error: Input string has invalid size"
       else ret tt) in
  let* xsdt_address := load_ram (fun m => get xsdp_desc "xsdt_address" m (ah_ptr h)) in
  if ah_type2 h && negb (xsdt_address =? 0)
  then load_ram (table_lookup 8 (u32 xsdt_address) name)
  else
    let* rsdt_address := load_ram (fun m => get xsdp_desc "rsdt_address" m (ah_ptr h)) in
    load_ram (table_lookup 4 rsdt_address name).

Definition getType (h : acpi_header) : Z := if ah_type2 h then 2 else 1.

(** ** [acpi_madt] *)

(** The object's [_ptr]; [apic_name] is the address of the string "APIC". *)
Definition new_acpi_madt (fuel : nat) (apic_name : Z) (h : acpi_header) : prog machine Z :=
  let* foundPtr := findEntry fuel h apic_name in
  do* (if foundPtr =? 0 then
         earlyPanic "In kernel::acpi::acpiMadt constructor: Error: No MADT was found"
       else ret tt) in
  ret foundPtr.

Fixpoint walk_madt (fuel : nat) (walker limit : Z) (m : mem) : option Z :=
  match fuel with
  | O => None
  | S fuel' =>
      if walker <? limit then
        if get madt_entry_header "entry_type" m walker =? 1 then Some walker
        else walk_madt fuel' (u32 (walker + get madt_entry_header "record_length" m walker)) limit m
      else Some 0
  end.

Definition getEntry (fuel : nat) (madt type : Z) (m : mem) : option Z :=
  if negb (type =? 1) then Some 0 else
  walk_madt fuel (u32 (madt + sizeof madt_table))
    (u32 (madt + get acpi_sdt_header "length" m madt)) m.

(** ** Proofs: the root pointer *)

Lemma acpi_sizes :
  sizeof rsdp_desc = 20 /\ sizeof xsdp_desc = 36 /\ sizeof acpi_sdt_header = 36 /\
  sizeof madt_table = 44 /\ sizeof madt_entry_type1 = 12.
Proof. repeat split. Qed.

Lemma specialStrComp_from_spec k i a b m :
  specialStrComp_from k i a b m =
  bool_decide (read_bytes m (a + i) k = read_bytes m (b + i) k).
Proof.
  revert i. induction k as [|k IH]; intros i; cbn [specialStrComp_from read_bytes].
  - by rewrite bool_decide_eq_true_2.
  - rewrite IH, <- !Z.add_assoc. destruct (Z.eqb_spec (rd8 m (a + i)) (rd8 m (b + i))) as [E|E]; cbn [negb].
    + apply bool_decide_ext. rewrite E. split; [by intros ->|by intros [=]].
    + symmetry. apply bool_decide_eq_false_2. intros [=]. done.
Qed.

Definition rsdp_magic : list Z := bytes_of_string "RSD PTR".

(** The places the string is looked for, in order. *)
Definition search_places : list Z := seqZ EBDA_START 131064 ++ seqZ BIOS_START 131064.

(** The signature is at [p]. *)
Definition rsdp_at (m : mem) (p : Z) : Prop := read_bytes m p 7 = rsdp_magic.
#[export] Instance rsdp_at_dec m p : Decision (rsdp_at m p).
Proof. unfold rsdp_at. apply _. Defined.

Lemma search_range_find str k ptr m :
  cstring_at m str rsdp_magic ->
  search_range str k ptr m = find (fun p => bool_decide (rsdp_at m p)) (seqZ ptr (Z.of_nat k)).
Proof.
  intros Hs. revert ptr. induction k as [|k IH]; intros ptr; cbn [search_range]; [done|].
  rewrite seqZ_cons by lia. cbn [find]. unfold specialStrComp at 1. change (Z.to_nat RSDP_SEARCH_STR_LEN) with 7%nat.
  rewrite specialStrComp_from_spec, !Z.add_0_r.
  assert (read_bytes m str 7 = rsdp_magic) as -> by exact (cstring_at_read _ _ _ Hs).
  rewrite (bool_decide_ext (rsdp_magic = read_bytes m ptr 7) (rsdp_at m ptr)) by (split; done).
  destruct (bool_decide _); [done|]. rewrite IH. f_equal. f_equal; lia.
Qed.

Lemma find_app {A} (f : A -> bool) l1 l2 :
  find f (l1 ++ l2) = match find f l1 with Some x => Some x | None => find f l2 end.
Proof. induction l1 as [|x l1 IH]; cbn; [done|]. by destruct (f x). Qed.

Lemma searchRSDPDesc_spec str m :
  cstring_at m str rsdp_magic ->
  searchRSDPDesc str m =
  default 0 (find (fun p => bool_decide (rsdp_at m p)) search_places).
Proof.
  intros Hs. unfold searchRSDPDesc, search_places. rewrite !search_range_find, find_app by done.
  change (Z.of_nat (Z.to_nat (EBDA_END - RSDP_SEARCH_STR_LEN - EBDA_START))) with 131064.
  change (Z.of_nat (Z.to_nat (BIOS_END - RSDP_SEARCH_STR_LEN - BIOS_START))) with 131064.
  by repeat case_match.
Qed.

Lemma checkSum_from_spec k i res ptr m :
  checkSum_from k i res ptr m mod 256 =
  (res + fold_right Z.add 0 (read_bytes m (ptr + i) k)) mod 256.
Proof.
  revert i res. induction k as [|k IH]; intros i res; cbn [checkSum_from read_bytes fold_right].
  - by rewrite Z.add_0_r.
  - rewrite IH, <- Z.add_assoc. unfold u32, wrap.
    rewrite <- (Z.add_mod_idemp_l ((res + _) mod 2 ^ 32)) by lia.
    rewrite Z.mod_mod_divide by (exists 16777216; reflexivity).
    rewrite Z.add_mod_idemp_l by lia. f_equal. lia.
Qed.

Lemma checkSum_spec ptr size m :
  checkSum ptr size m = (fold_right Z.add 0 (read_bytes m ptr (Z.to_nat size)) mod 256 =? 0).
Proof.
  unfold checkSum. change 255 with (Z.ones 8). rewrite Z.land_ones by lia. change (2 ^ 8) with 256.
  rewrite checkSum_from_spec, Z.add_0_r, Z.add_0_l. by destruct (_ =? 0).
Qed.

(** The checksum the specification asks for, by revision. *)
Definition rsdp_valid (m : mem) (p : Z) : bool :=
  let sum n := fold_right Z.add 0 (read_bytes m p n) mod 256 =? 0 in
  if rd8 m (p + 15) =? 0 then sum 20%nat else if rd8 m (p + 15) =? 2 then sum 36%nat else false.

Lemma get_u8 L f m p o :
  field_of L f = Some (o, U8) -> get L f m p = rd8 m (p + o).
Proof.
  intros E. unfold get, offsetof, fieldsize. rewrite E. change (Z.to_nat (ty_size U8)) with 1%nat.
  cbn [load]. lia.
Qed.

Lemma checkRSDPDesc_spec ptr m : checkRSDPDesc ptr m = rsdp_valid m ptr.
Proof.
  unfold checkRSDPDesc, rsdp_valid. rewrite (get_u8 xsdp_desc "revision" m ptr 15) by reflexivity.
  rewrite !checkSum_spec. by change (sizeof rsdp_desc) with 20; change (sizeof xsdp_desc) with 36.
Qed.

(** ** Proofs: the tables *)

Definition table_addresses (size : nat) (table : Z) (n : Z) (m : mem) : list Z :=
  map (fun i => u32 (load size m (table + 36 + Z.of_nat size * i))) (seqZ 0 n).

Definition has_signature (m : mem) (name : list Z) (p : Z) : bool :=
  bool_decide (read_bytes m p 4 = name).

Lemma find_table_spec k i size table name str m :
  read_bytes m name 4 = str ->
  find_table k i size (table + 36) name m =
  default 0 (find (has_signature m str)
    (map (fun i => u32 (load size m (table + 36 + Z.of_nat size * i))) (seqZ i (Z.of_nat k)))).
Proof.
  intros Hn. revert i. induction k as [|k IH]; intros i; cbn [find_table]; [done|].
  rewrite seqZ_cons by lia. cbn [map find]. cbv zeta.
  change (offsetof acpi_sdt_header "signature") with 0. rewrite Z.add_0_r.
  set (p := u32 (load size m (table + 36 + Z.of_nat size * i))). unfold has_signature at 1.
  rewrite <- Hn. pose proof (memcmp_zero m p name 4) as Hz. change (Z.to_nat 4) with 4%nat in Hz.
  destruct (Z.eqb_spec (memcmp m p name 4) 0) as [E|E].
  - by rewrite bool_decide_eq_true_2 by tauto.
  - rewrite bool_decide_eq_false_2 by tauto. rewrite IH. rewrite Hn. do 4 f_equal; lia.
Qed.

Lemma num_entries_spec size table m :
  (0 < size)%nat -> 36 <= get acpi_sdt_header "length" m table ->
  num_entries table size m = (get acpi_sdt_header "length" m table - 36) / Z.of_nat size.
Proof.
  intros Hs Hl. unfold num_entries. change (sizeof acpi_sdt_header) with 36.
  destruct (ld32_bounds m (table + offsetof acpi_sdt_header "length")) as [_ H].
  change (ld32 m _) with (get acpi_sdt_header "length" m table) in H.
  by rewrite u32_small by lia.
Qed.

(** A length below that of a header makes the count wrap around. *)
Lemma num_entries_short size table m :
  get acpi_sdt_header "length" m table < 36 -> (0 < size <= 8)%nat ->
  536870907 <= num_entries table size m.
Proof.
  intros Hl Hs. unfold num_entries. change (sizeof acpi_sdt_header) with 36.
  destruct (ld32_bounds m (table + offsetof acpi_sdt_header "length")) as [H _].
  change (ld32 m _) with (get acpi_sdt_header "length" m table) in H.
  set (n := get acpi_sdt_header "length" m table) in *.
  replace (u32 (n - 36)) with (n - 36 + 4294967296)
    by (unfold u32, wrap; change (2 ^ 32) with 4294967296; Z.to_euclidean_division_equations; lia).
  apply Z.div_le_lower_bound; [lia|]. nia.
Qed.

(** The tables an ACPI header leads to, as addresses. *)
Definition tables_of (h : acpi_header) (m : mem) : list Z :=
  let xsdt := get xsdp_desc "xsdt_address" m (ah_ptr h) in
  let rsdt := get xsdp_desc "rsdt_address" m (ah_ptr h) in
  if ah_type2 h && negb (xsdt =? 0)
  then table_addresses 8 (u32 xsdt) ((get acpi_sdt_header "length" m (u32 xsdt) - 36) / 8) m
  else table_addresses 4 rsdt ((get acpi_sdt_header "length" m rsdt - 36) / 4) m.

Definition root_table (h : acpi_header) (m : mem) : Z :=
  let xsdt := get xsdp_desc "xsdt_address" m (ah_ptr h) in
  if ah_type2 h && negb (xsdt =? 0) then u32 xsdt else get xsdp_desc "rsdt_address" m (ah_ptr h).

Lemma table_lookup_spec size table name str m :
  (0 < size)%nat -> 36 <= get acpi_sdt_header "length" m table -> read_bytes m name 4 = str ->
  table_lookup size table name m =
  default 0 (find (has_signature m str)
    (table_addresses size table ((get acpi_sdt_header "length" m table - 36) / Z.of_nat size) m)).
Proof.
  intros Hs Hl Hn. unfold table_lookup, sdt_addresses. change (sizeof acpi_sdt_header) with 36.
  rewrite num_entries_spec, (find_table_spec _ _ _ _ _ str) by done. unfold table_addresses.
  rewrite Z2Nat.id; [done|]. apply Z.div_pos; lia.
Qed.

Lemma findEntry_spec fuel h name str s :
  cstring_at (m_ram s) name str -> List.length str = 4%nat -> (4 < fuel)%nat ->
  36 <= get acpi_sdt_header "length" (m_ram s) (root_table h (m_ram s)) ->
  findEntry fuel h name s =
    Done (default 0 (find (has_signature (m_ram s) str) (tables_of h (m_ram s)))) s.
Proof.
  intros Hc Hl Hf Hlen. unfold findEntry, tables_of, root_table in *.
  assert (read_bytes (m_ram s) name 4 = str) as Hn by (rewrite <- Hl; by apply cstring_at_read).
  rewrite (bind_Done _ _ s 4 s).
  2: { unfold run_opt. by rewrite (strlen_spec _ _ _ _ Hc), Hl by lia. }
  change (4 =? 4) with true. cbn [negb]. run. unfold load_ram, gets.
  destruct (ah_type2 h && _).
  - by rewrite (table_lookup_spec 8 _ _ str) by (done || lia).
  - unfold bind. by rewrite (table_lookup_spec 4 _ _ str) by (done || lia).
Qed.

(** ** Proofs: the MADT *)

(** The records (type, length) from [p] to [limit]. *)
Fixpoint records_at (m : mem) (p : Z) (l : list (Z * Z)) (limit : Z) : Prop :=
  match l with
  | [] => p = limit
  | (t, n) :: l' => rd8 m p = t /\ rd8 m (p + 1) = n /\ 0 < n /\ records_at m (p + n) l' limit
  end.

Fixpoint first_type1 (p : Z) (l : list (Z * Z)) : Z :=
  match l with
  | [] => 0
  | (t, n) :: l' => if t =? 1 then p else first_type1 (p + n) l'
  end.

Lemma records_le m p l limit : records_at m p l limit -> p <= limit.
Proof.
  revert p. induction l as [|[t n] l IH]; intros p H; cbn in H; [lia|].
  destruct H as (_ & _ & ? & H). apply IH in H. lia.
Qed.

Lemma walk_step fuel m p limit :
  p < limit ->
  walk_madt (S fuel) p limit m =
    if rd8 m p =? 1 then Some p else walk_madt fuel (u32 (p + rd8 m (p + 1))) limit m.
Proof.
  intros H. cbn [walk_madt]. rewrite (proj2 (Z.ltb_lt _ _) H).
  rewrite (get_u8 madt_entry_header "entry_type" m p 0), (get_u8 madt_entry_header "record_length" m p 1)
    by reflexivity. by rewrite Z.add_0_r.
Qed.

(** Records that are not of type 1 are skipped. *)
Lemma walk_skip m p l q limit fuel :
  records_at m p l q -> Forall (fun r => fst r <> 1) l -> 0 <= p -> q <= limit < 4294967296 ->
  walk_madt (List.length l + fuel) p limit m = walk_madt fuel q limit m.
Proof.
  revert p. induction l as [|[t n] l IH]; intros p H Hl Hp Hq; cbn [records_at List.length Nat.add] in *.
  - by rewrite H.
  - destruct H as (Ht & Hn & Hpos & H). inversion Hl as [|? ? Hne Hl']; subst. cbn [fst] in Hne.
    pose proof (records_le _ _ _ _ H).
    rewrite walk_step, (proj2 (Z.eqb_neq _ _) Hne), u32_small by lia. apply IH; done || lia.
Qed.

Lemma walk_madt_spec m p l limit fuel :
  records_at m p l limit -> 0 <= p -> limit < 4294967296 -> (List.length l < fuel)%nat ->
  walk_madt fuel p limit m = Some (first_type1 p l).
Proof.
  revert p fuel. induction l as [|[t n] l IH]; intros p [|fuel] H Hp Hl Hf; cbn [records_at] in H;
    try (simpl in Hf; lia).
  - cbn [walk_madt first_type1]. by rewrite H, Z.ltb_irrefl.
  - destruct H as (Ht & Hn & Hpos & H). pose proof (records_le _ _ _ _ H).
    rewrite walk_step by lia. cbn [first_type1]. rewrite Ht, Hn. destruct (t =? 1); [done|].
    rewrite u32_small by lia. apply IH; [done|lia|done|simpl in Hf; lia].
Qed.

Lemma walk_stuck fuel p limit m :
  p < limit -> 0 <= p < 4294967296 -> rd8 m p <> 1 -> rd8 m (p + 1) = 0 -> walk_madt fuel p limit m = None.
Proof.
  intros Hl Hp Ht Hn. induction fuel as [|fuel IH]; [done|].
  by rewrite walk_step, (proj2 (Z.eqb_neq _ _) Ht), Hn, Z.add_0_r, u32_small.
Qed.

Lemma walk_short m p l q limit fuel :
  records_at m p l q -> Forall (fun r => fst r <> 1) l -> 0 <= p -> q <= limit < 4294967296 ->
  (fuel <= List.length l)%nat -> walk_madt fuel p limit m = None.
Proof.
  revert p fuel. induction l as [|[t n] l IH]; intros p [|fuel] H Hl Hp Hq Hf; cbn in Hf; try done; [lia|].
  destruct H as (Ht & Hn & Hpos & H). inversion Hl as [|? ? Hne Hl']; subst. cbn [fst] in Hne.
  pose proof (records_le _ _ _ _ H).
  rewrite walk_step, (proj2 (Z.eqb_neq _ _) Hne), u32_small by lia. apply IH; done || lia.
Qed.

(** ** Proofs: memory the search depends on *)

Lemma find_ext_in {A} (f g : A -> bool) l : (forall x, x ∈ l -> f x = g x) -> find f l = find g l.
Proof.
  induction l as [|x l IH]; intros H; [done|]. cbn. rewrite (H x) by (by left). destruct (g x); [done|].
  apply IH. intros y Hy. apply H. by right.
Qed.

Lemma elem_search_places p :
  p ∈ search_places <-> EBDA_START <= p < EBDA_START + 131064 \/ BIOS_START <= p < BIOS_START + 131064.
Proof. unfold search_places. by rewrite elem_of_app, !elem_of_seqZ. Qed.

(** The areas of the search, with the descriptor at their last place. *)
Definition in_search_area (a : Z) : Prop :=
  EBDA_START <= a < EBDA_START + 131100 \/ BIOS_START <= a < BIOS_START + 131100.

(** The tables an ACPI header [h] leads to. *)
Definition in_tables (h : acpi_header) (m : mem) (a : Z) : Prop :=
  root_table h m <= a < root_table h m + get acpi_sdt_header "length" m (root_table h m) \/
  Exists (fun p => p <= a < p + 4) (tables_of h m).

(** The bytes of a structure. *)
Lemma get_agree (P : Z -> Prop) L f m m' p :
  layout_ok L = true -> (forall a, P a -> rd8 m' a = rd8 m a) -> (forall i, 0 <= i < sizeof L -> P (p + i)) ->
  get L f m' p = get L f m p.
Proof. intros HL H HP. apply get_same; [done|]. intros i Hi. by apply H, HP. Qed.

Lemma findRSDPDesc_agree str m m' :
  cstring_at m str rsdp_magic ->
  (forall a, str <= a < str + 8 \/ in_search_area a -> rd8 m' a = rd8 m a) ->
  cstring_at m' str rsdp_magic /\ findRSDPDesc str m' = findRSDPDesc str m.
Proof.
  intros Hs H.
  assert (cstring_at m' str rsdp_magic) as Hs'
    by (eapply cstring_at_ext; [|exact Hs]; intros i Hi; apply H; left; cbn in Hi; lia).
  split; [done|]. unfold findRSDPDesc. rewrite !searchRSDPDesc_spec by done.
  rewrite (find_ext_in _ (fun p => bool_decide (rsdp_at m p))).
  2: { intros p Hp%elem_search_places. apply bool_decide_ext. unfold rsdp_at.
    rewrite (read_bytes_ext m' m p p 7); [done|]. intros i Hi. apply H. right. unfold in_search_area. lia. }
  destruct (find _ _) as [p|] eqn:E; [change (default 0 (Some p)) with p|by repeat case_match].
  apply find_some in E as [Hp%list_elem_of_In%elem_search_places _].
  assert (rsdp_valid m' p = rsdp_valid m p) as Hv.
  { unfold rsdp_valid. rewrite (H (p + 15)) by (right; unfold in_search_area; lia).
    rewrite (read_bytes_ext m' m p p 20), (read_bytes_ext m' m p p 36); [done| |];
      intros i Hi; apply H; right; unfold in_search_area; lia. }
  by rewrite !checkRSDPDesc_spec, Hv.
Qed.

Lemma has_signature_agree m m' str p :
  (forall a, p <= a < p + 4 -> rd8 m' a = rd8 m a) -> has_signature m' str p = has_signature m str p.
Proof.
  intros H. apply bool_decide_ext. rewrite (read_bytes_ext m' m p p 4); [done|]. intros i Hi. apply H. lia.
Qed.

Lemma table_addresses_agree size table n m m' :
  (forall a, table + 36 <= a < table + 36 + Z.of_nat size * n -> rd8 m' a = rd8 m a) ->
  table_addresses size table n m' = table_addresses size table n m.
Proof.
  intros H. apply map_ext_in. intros i Hi%list_elem_of_In%elem_of_seqZ. f_equal.
  apply load_ext. intros j Hj. apply H. nia.
Qed.

Lemma tables_agree h m m' str :
  (forall i, 0 <= i < 36 -> rd8 m' (ah_ptr h + i) = rd8 m (ah_ptr h + i)) ->
  (forall a, in_tables h m a -> rd8 m' a = rd8 m a) ->
  36 <= get acpi_sdt_header "length" m (root_table h m) ->
  root_table h m' = root_table h m /\
  get acpi_sdt_header "length" m' (root_table h m) = get acpi_sdt_header "length" m (root_table h m) /\
  tables_of h m' = tables_of h m /\
  find (has_signature m' str) (tables_of h m') = find (has_signature m str) (tables_of h m).
Proof.
  intros Hp Ht Hlen.
  assert (forall f, get xsdp_desc f m' (ah_ptr h) = get xsdp_desc f m (ah_ptr h)) as Hx
    by (intros f; apply get_same; [done|]; apply Hp).
  assert (root_table h m' = root_table h m) as Hroot by (unfold root_table; by rewrite !Hx).
  assert (forall a, root_table h m <= a < root_table h m + get acpi_sdt_header "length" m (root_table h m) ->
    rd8 m' a = rd8 m a) as Hr by (intros a Ha; apply Ht; by left).
  assert (get acpi_sdt_header "length" m' (root_table h m) = get acpi_sdt_header "length" m (root_table h m)) as Hl.
  { apply get_same; [done|]. intros i Hi. change (sizeof acpi_sdt_header) with 36 in Hi. apply Hr. lia. }
  assert (tables_of h m' = tables_of h m) as Htab.
  { unfold tables_of, root_table in *. rewrite !Hx. destruct (ah_type2 h && _); rewrite Hl;
      apply table_addresses_agree; intros a Ha; apply Hr;
      Z.to_euclidean_division_equations; lia. }
  split; [done|]. split; [done|]. split; [done|]. rewrite Htab. apply find_ext_in. intros p Hpe.
  apply has_signature_agree. intros a Ha. apply Ht. right. by apply Exists_exists; exists p.
Qed.

Lemma records_agree m m' p l limit :
  (forall a, p <= a < limit -> rd8 m' a = rd8 m a) ->
  Forall (fun r => 2 <= snd r) l -> records_at m p l limit -> records_at m' p l limit.
Proof.
  revert p. induction l as [|[t n] l IH]; intros p H Hl Hr; cbn [records_at] in *; [done|].
  destruct Hr as (H1 & H2 & H3 & H4). inversion Hl as [|? ? Hn Hl']; subst. cbn [snd] in Hn.
  pose proof (records_le _ _ _ _ H4). rewrite !H by lia. split; [done|]. split; [done|]. split; [done|].
  apply IH; [|done|done]. intros a Ha. apply H. lia.
Qed.

(** ** Properties *)






(** C30: [findEntry] returns the first table of the root table (the XSDT for revision 2
    when its address is not 0, else the RSDT) whose signature is the name, or null. *)
Theorem findEntry_first h name str s fuel :
  cstring_at (m_ram s) name str -> List.length str = 4%nat -> (4 < fuel)%nat ->
  36 <= get acpi_sdt_header "length" (m_ram s) (root_table h (m_ram s)) ->
  findEntry fuel h name s =
    Done (default 0 (find (has_signature (m_ram s) str) (tables_of h (m_ram s)))) s.
Proof. apply findEntry_spec. Qed.

(** An RSDT at 5000 with two tables, the second one the MADT at 7000; a root pointer at
    4000; the string "APIC" at 4096. *)
Definition example_tables : mem :=
  let m := write_bytes ∅ 4096 (bytes_of_string "APIC" ++ [0]) in
  let m := put xsdp_desc "rsdt_address" m 4000 5000 in
  let m := put acpi_sdt_header "length" m 5000 44 in
  let m := write_bytes m 5036 (bytes_le 4 6000 ++ bytes_le 4 7000) in
  let m := write_bytes m 6000 (bytes_of_string "FACP") in
  let m := write_bytes m 7000 (bytes_of_string "APIC") in
  let m := put acpi_sdt_header "length" m 7000 64 in
  write_bytes m 7044 ([0; 8; 0; 0; 0; 0; 0; 0] ++ [1; 12; 0; 0] ++ bytes_le 4 4273995776).

Lemma findEntry_first_witness :
  findEntry 5 (AcpiHeader 4000 false) 4096 (Machine example_tables new_terminal 10 0 0 0) =
    Done 7000 (Machine example_tables new_terminal 10 0 0 0).
Proof.
  etransitivity; [apply (findEntry_first (AcpiHeader 4000 false) 4096 (bytes_of_string "APIC"))|].
  - split; [|vm_compute; reflexivity]. intros i c Hi.
    do 4 (destruct i as [|i]; [injection Hi as <-; split; [vm_compute; reflexivity|discriminate]|]). done.
  - reflexivity.
  - lia.
  - vm_compute. discriminate.
  - vm_compute. reflexivity.
Defined.

(** [getEntry] for type 1 walks the records of the MADT to the first I/O APIC
    record and returns its address, or null behind the last record; for any other
    type it returns null at once. *)
Theorem getEntry_first madt l m fuel type :
  let limit := madt + get acpi_sdt_header "length" m madt in
  records_at m (madt + 44) l limit -> 0 <= madt -> limit < 4294967296 -> (List.length l < fuel)%nat ->
  getEntry fuel madt type m = Some (if type =? 1 then first_type1 (madt + 44) l else 0).
Proof.
  intros limit H Hm Hl Hf. unfold getEntry. destruct (type =? 1); cbn [negb]; [|done].
  pose proof (records_le _ _ _ _ H). change (sizeof madt_table) with 44. fold limit.
  rewrite !u32_small by lia. apply walk_madt_spec; [done|lia|done|done].
Qed.

Lemma getEntry_first_witness : getEntry 3 7000 1 example_tables = Some 7052.
Proof.
  rewrite (getEntry_first 7000 [(0, 8); (1, 12)] example_tables 3 1).
  - vm_compute. reflexivity.
  - cbn [records_at]. repeat split; vm_compute; reflexivity.
  - lia.
  - vm_compute. reflexivity.
  - cbn. lia.
Defined.

(** A record of length 0 that is not of type 1 stops the walk's progress: if it is
    reached, [getEntry] never returns. *)
Theorem getEntry_endless madt l p m fuel :
  let limit := madt + get acpi_sdt_header "length" m madt in
  records_at m (madt + 44) l p -> Forall (fun r => fst r <> 1) l -> p < limit ->
  rd8 m p <> 1 -> rd8 m (p + 1) = 0 -> 0 <= madt -> limit < 4294967296 ->
  getEntry fuel madt 1 m = None.
Proof.
  intros limit H Hl Hp Ht Hn Hm Hlim. unfold getEntry. change (sizeof madt_table) with 44. cbn [Z.eqb negb Pos.eqb].
  fold limit. pose proof (records_le _ _ _ _ H). rewrite !u32_small by lia.
  destruct (Nat.le_gt_cases (List.length l) fuel) as [Hf|Hf].
  - replace fuel with (List.length l + (fuel - List.length l))%nat by lia.
    rewrite (walk_skip m _ l p) by (done || lia). by apply walk_stuck; try lia.
  - apply (walk_short m _ l p); done || lia.
Qed.

Lemma getEntry_endless_witness :
  getEntry 1000 7000 1 (write_bytes example_tables 7052 [2; 0]) = None.
Proof.
  apply (getEntry_endless 7000 [(0, 8)] 7052).
  - cbn [records_at]. repeat split; vm_compute; reflexivity.
  - repeat constructor. cbn. lia.
  - vm_compute. reflexivity.
  - vm_compute. discriminate.
  - vm_compute. reflexivity.
  - lia.
  - vm_compute. reflexivity.
Defined.
