(* ===== verification/Cpu.v ===== *)
(** The processor as the kernel sees it: what the instructions in
    [kernel/devices/cpu/cpuid.cpp], [msr.cpp], [checkCPUID.S] and
    [include/klib/cpuio.hpp] read and change, and bit fields. *)

From S2P Require Import Prelude PhysMem Layout Terminal Machine.

Local Open Scope string_scope.
Local Open Scope list_scope.
Local Open Scope Z_scope.

(** ** Bit fields: bits [lo] to [lo + w - 1] of a storage unit *)

Definition get_bits (lo w x : Z) : Z := Z.land (Z.shiftr x lo) (Z.ones w).
Definition set_bits (lo w v old : Z) : Z :=
  Z.lor (Z.ldiff old (Z.shiftl (Z.ones w) lo)) (Z.shiftl (Z.land v (Z.ones w)) lo).

(** ** The state *)

Record kernel : Type := Kernel {
  k_machine : machine;
  k_eflags : Z;
  k_msr : Z -> Z * Z;        (* the model specific registers: low, high *)
  k_ports : list (Z * Z);    (* the [outb]s so far: port and byte, in order *)
  k_idtr : Z * Z;            (* the IDT register: size, address *)
}.

Abbreviation k_ram k := (m_ram (k_machine k)).

Definition set_machine (s : machine) (k : kernel) : kernel :=
  Kernel s (k_eflags k) (k_msr k) (k_ports k) (k_idtr k).
Definition set_kram (m : mem) (k : kernel) : kernel := set_machine (set_ram m (k_machine k)) k.
Definition set_eflags (v : Z) (k : kernel) : kernel :=
  Kernel (k_machine k) v (k_msr k) (k_ports k) (k_idtr k).

(** A program of the shared library in the kernel. *)
Definition lift {A} (c : prog machine A) : prog kernel A := fun k =>
  match c (k_machine k) with
  | Done a s => Done a (set_machine s k)
  | Panicked msg s => Panicked msg (set_machine s k)
  | OutOfFuel => OutOfFuel
  | Undefined => Undefined
  end.

Definition kload {A} (f : mem -> A) : prog kernel A := gets (fun k => f (k_ram k)).
Definition kstore (f : mem -> mem) : prog kernel unit := modify (fun k => set_kram (f (k_ram k)) k).

(** ** [cpuio.hpp] *)

Definition io_port : Z := 128.

Definition outb (port byte : Z) : prog kernel unit :=
  modify (fun k => Kernel (k_machine k) (k_eflags k) (k_msr k) (k_ports k ++ [(u16 port, u8 byte)]) (k_idtr k)).

(** What a port answers to a read, by the bytes written to the ports before it: the devices
    are parameters, their registers such that reading them changes nothing. *)
Definition inb (port_answer : list (Z * Z) -> Z -> Z) (port : Z) : prog kernel Z :=
  gets (fun k => u8 (port_answer (k_ports k) (u16 port))).

Definition iowait : prog kernel unit := outb io_port 0.

(** ** [msr.cpp] *)

Definition IA32_APIC_BASE_MSR : Z := 27.
Definition IA32_APIC_BASE_MSR_ENABLE : Z := 2048.

Definition getMSR (msr : Z) : prog kernel (Z * Z) := gets (fun k => k_msr k msr).

Definition setMSR (msr low high : Z) : prog kernel unit :=
  modify (fun k => Kernel (k_machine k) (k_eflags k)
    (fun r => if r =? msr then (low, high) else k_msr k r) (k_ports k) (k_idtr k)).

(** ** [cpuid.cpp]

    What CPUID answers for a leaf: eax, ebx, ecx, edx. *)
Record cpuid_answer : Type := Cpuid { c_eax : Z; c_ebx : Z; c_ecx : Z; c_edx : Z }.

Inductive cpuid_features : Type :=
  | CPUID_FEAT_ECX_SSE3 | CPUID_FEAT_ECX_PCLMUL | CPUID_FEAT_ECX_DTES64 | CPUID_FEAT_ECX_MONITOR
  | CPUID_FEAT_ECX_DS_CPL | CPUID_FEAT_ECX_VMX | CPUID_FEAT_ECX_SMX | CPUID_FEAT_ECX_EST
  | CPUID_FEAT_ECX_TM2 | CPUID_FEAT_ECX_SSSE3 | CPUID_FEAT_ECX_CID | CPUID_FEAT_ECX_SDBG
  | CPUID_FEAT_ECX_FMA | CPUID_FEAT_ECX_CX16 | CPUID_FEAT_ECX_XTPR | CPUID_FEAT_ECX_PDCM
  | CPUID_FEAT_ECX_PCID | CPUID_FEAT_ECX_DCA | CPUID_FEAT_ECX_SSE4_1 | CPUID_FEAT_ECX_SSE4_2
  | CPUID_FEAT_ECX_X2APIC | CPUID_FEAT_ECX_MOVBE | CPUID_FEAT_ECX_POPCNT | CPUID_FEAT_ECX_TSC
  | CPUID_FEAT_ECX_AES | CPUID_FEAT_ECX_XSAVE | CPUID_FEAT_ECX_OSXSAVE | CPUID_FEAT_ECX_AVX
  | CPUID_FEAT_ECX_F16C | CPUID_FEAT_ECX_RDRAND | CPUID_FEAT_ECX_HYPERVISOR | CPUID_FEAT_EDX_FPU
  | CPUID_FEAT_EDX_VME | CPUID_FEAT_EDX_DE | CPUID_FEAT_EDX_PSE | CPUID_FEAT_EDX_TSC
  | CPUID_FEAT_EDX_MSR | CPUID_FEAT_EDX_PAE | CPUID_FEAT_EDX_MCE | CPUID_FEAT_EDX_CX8
  | CPUID_FEAT_EDX_APIC | CPUID_FEAT_EDX_SEP | CPUID_FEAT_EDX_MTRR | CPUID_FEAT_EDX_PGE
  | CPUID_FEAT_EDX_MCA | CPUID_FEAT_EDX_CMOV | CPUID_FEAT_EDX_PAT | CPUID_FEAT_EDX_PSE36
  | CPUID_FEAT_EDX_PSN | CPUID_FEAT_EDX_CLFLUSH | CPUID_FEAT_EDX_DS | CPUID_FEAT_EDX_ACPI
  | CPUID_FEAT_EDX_MMX | CPUID_FEAT_EDX_FXSR | CPUID_FEAT_EDX_SSE | CPUID_FEAT_EDX_SSE2
  | CPUID_FEAT_EDX_SS | CPUID_FEAT_EDX_HTT | CPUID_FEAT_EDX_TM | CPUID_FEAT_EDX_IA64
  | CPUID_FEAT_EDX_PBE.

(** The bit of a feature; the enumerator is [1 << bit] as an [int]. *)
Definition cpuid_feature_bit (f : cpuid_features) : Z :=
  match f with
  | CPUID_FEAT_ECX_SSE3 => 0 | CPUID_FEAT_ECX_PCLMUL => 1 | CPUID_FEAT_ECX_DTES64 => 2
  | CPUID_FEAT_ECX_MONITOR => 3 | CPUID_FEAT_ECX_DS_CPL => 4 | CPUID_FEAT_ECX_VMX => 5
  | CPUID_FEAT_ECX_SMX => 6 | CPUID_FEAT_ECX_EST => 7 | CPUID_FEAT_ECX_TM2 => 8
  | CPUID_FEAT_ECX_SSSE3 => 9 | CPUID_FEAT_ECX_CID => 10 | CPUID_FEAT_ECX_SDBG => 11
  | CPUID_FEAT_ECX_FMA => 12 | CPUID_FEAT_ECX_CX16 => 13 | CPUID_FEAT_ECX_XTPR => 14
  | CPUID_FEAT_ECX_PDCM => 15 | CPUID_FEAT_ECX_PCID => 17 | CPUID_FEAT_ECX_DCA => 18
  | CPUID_FEAT_ECX_SSE4_1 => 19 | CPUID_FEAT_ECX_SSE4_2 => 20 | CPUID_FEAT_ECX_X2APIC => 21
  | CPUID_FEAT_ECX_MOVBE => 22 | CPUID_FEAT_ECX_POPCNT => 23 | CPUID_FEAT_ECX_TSC => 24
  | CPUID_FEAT_ECX_AES => 25 | CPUID_FEAT_ECX_XSAVE => 26 | CPUID_FEAT_ECX_OSXSAVE => 27
  | CPUID_FEAT_ECX_AVX => 28 | CPUID_FEAT_ECX_F16C => 29 | CPUID_FEAT_ECX_RDRAND => 30
  | CPUID_FEAT_ECX_HYPERVISOR => 31 | CPUID_FEAT_EDX_FPU => 0 | CPUID_FEAT_EDX_VME => 1
  | CPUID_FEAT_EDX_DE => 2 | CPUID_FEAT_EDX_PSE => 3 | CPUID_FEAT_EDX_TSC => 4
  | CPUID_FEAT_EDX_MSR => 5 | CPUID_FEAT_EDX_PAE => 6 | CPUID_FEAT_EDX_MCE => 7
  | CPUID_FEAT_EDX_CX8 => 8 | CPUID_FEAT_EDX_APIC => 9 | CPUID_FEAT_EDX_SEP => 11
  | CPUID_FEAT_EDX_MTRR => 12 | CPUID_FEAT_EDX_PGE => 13 | CPUID_FEAT_EDX_MCA => 14
  | CPUID_FEAT_EDX_CMOV => 15 | CPUID_FEAT_EDX_PAT => 16 | CPUID_FEAT_EDX_PSE36 => 17
  | CPUID_FEAT_EDX_PSN => 18 | CPUID_FEAT_EDX_CLFLUSH => 19 | CPUID_FEAT_EDX_DS => 21
  | CPUID_FEAT_EDX_ACPI => 22 | CPUID_FEAT_EDX_MMX => 23 | CPUID_FEAT_EDX_FXSR => 24
  | CPUID_FEAT_EDX_SSE => 25 | CPUID_FEAT_EDX_SSE2 => 26 | CPUID_FEAT_EDX_SS => 27
  | CPUID_FEAT_EDX_HTT => 28 | CPUID_FEAT_EDX_TM => 29 | CPUID_FEAT_EDX_IA64 => 30
  | CPUID_FEAT_EDX_PBE => 31
  end.

(** [static_cast<uint32_t>] of an enumerator. *)
Definition cpuid_feature_mask (f : cpuid_features) : Z := u32 (sext 32 (Z.shiftl 1 (cpuid_feature_bit f))).

Section Cpuid.
Variable cpuid : Z -> cpuid_answer.

Definition checkMSR : bool :=
  negb (Z.land (c_edx (cpuid 1)) (cpuid_feature_mask CPUID_FEAT_EDX_MSR) =? 0).
Definition checkApic : bool :=
  negb (Z.land (c_edx (cpuid 1)) (cpuid_feature_mask CPUID_FEAT_EDX_APIC) =? 0).
End Cpuid.

(** ** [checkCPUID.S]

    [popfl] at the highest privilege changes the bits of [mask], those the
    processor lets a program change. *)
Definition popfl (mask v : Z) (k : kernel) : kernel :=
  set_eflags (Z.lor (Z.land v mask) (Z.ldiff (k_eflags k) mask)) k.

Definition check_CPUID_available (mask : Z) : prog kernel Z :=
  let* ecx := gets k_eflags in
  do* modify (popfl mask (Z.lxor (Z.shiftl 1 21) ecx)) in
  let* eax := gets k_eflags in
  do* modify (popfl mask ecx) in
  ret (if ecx =? eax then 0 else 1).

(** ** Proofs *)

(** A mask has one bit, the sign bit included. *)
Lemma cpuid_feature_mask_bit f : cpuid_feature_mask f = 2 ^ cpuid_feature_bit f.
Proof. by destruct f. Qed.

(** The tests are tests of bit 5 and bit 9 of edx. *)
Lemma checkMSR_bit cpuid : checkMSR cpuid = Z.testbit (c_edx (cpuid 1)) 5.
Proof. apply (land_bit _ 5). lia. Qed.
Lemma checkApic_bit cpuid : checkApic cpuid = Z.testbit (c_edx (cpuid 1)) 9.
Proof. apply (land_bit _ 9). lia. Qed.

Lemma get_set_bits lo w v old : 0 <= lo -> 0 <= w -> get_bits lo w (set_bits lo w v old) = v mod 2 ^ w.
Proof.
  intros Hlo Hw. unfold get_bits, set_bits. rewrite <- Z.land_ones by done.
  apply Z.bits_inj'. intros i Hi. rewrite !Z.land_spec, Z.shiftr_spec, Z.lor_spec, Z.ldiff_spec by done.
  rewrite !Z.shiftl_spec, Z.add_simpl_r, Z.land_spec by lia.
  destruct (Z.testbit (Z.ones w) i) eqn:E; [|by rewrite !andb_false_r].
  by rewrite andb_false_r, orb_false_l, !andb_true_r.
Qed.

(** A bit field of an [n]-bit unit stays in it. *)
Lemma set_bits_bound n lo w v old :
  0 <= lo -> 0 <= w -> lo + w <= n -> 0 <= old < 2 ^ n -> 0 <= set_bits lo w v old < 2 ^ n.
Proof.
  intros Hlo Hw Hl Ho. assert (set_bits lo w v old = Z.land (set_bits lo w v old) (Z.ones n)) as ->.
  { apply Z.bits_inj'. intros i Hi. rewrite Z.land_spec. destruct (Z.lt_ge_cases i n).
    - by rewrite Z.ones_spec_low, andb_true_r by lia.
    - rewrite Z.ones_spec_high, andb_false_r by lia. unfold set_bits.
      rewrite Z.lor_spec, Z.ldiff_spec, !Z.shiftl_spec, Z.land_spec, (Z.ones_spec_high w) by lia.
      rewrite andb_false_r, orb_false_r. replace old with (old mod 2 ^ n) by (rewrite Z.mod_small; lia).
      by rewrite Z.mod_pow2_bits_high by lia. }
  rewrite Z.land_ones by lia. apply Z.mod_pos_bound. lia.
Qed.

Lemma lift_Done {A} (c : prog machine A) k a s :
  c (k_machine k) = Done a s -> lift c k = Done a (set_machine s k).
Proof. unfold lift. by intros ->. Qed.

Lemma lift_Panicked {A} (c : prog machine A) k msg s :
  c (k_machine k) = Panicked msg s -> lift c k = Panicked msg (set_machine s k).
Proof. unfold lift. by intros ->. Qed.

(** Popping what was there before restores it. *)
Lemma popfl_restores mask v k : popfl mask (k_eflags k) (popfl mask v k) = k.
Proof.
  destruct k as [s e msr po idtr]. unfold popfl, set_eflags. cbn [k_eflags k_machine k_msr k_ports k_idtr].
  f_equal. apply Z.bits_inj'. intros i Hi.
  rewrite !Z.lor_spec, !Z.land_spec, !Z.ldiff_spec, Z.lor_spec, Z.land_spec, Z.ldiff_spec.
  by destruct (Z.testbit mask i), (Z.testbit e i), (Z.testbit v i).
Qed.

(** The answer is whether bit 21 can be changed, and the flags are as before. *)
Lemma check_CPUID_spec mask k :
  check_CPUID_available mask k = Done (if Z.testbit mask 21 then 1 else 0) k.
Proof.
  unfold check_CPUID_available, bind, gets, modify, ret. rewrite popfl_restores. f_equal.
  set (v := Z.lxor (Z.shiftl 1 21) (k_eflags k)).
  replace (k_eflags k =? k_eflags (popfl mask v k)) with (negb (Z.testbit mask 21)); [by destruct (Z.testbit mask 21)|].
  assert (forall i, 0 <= i -> Z.testbit (k_eflags (popfl mask v k)) i =
    if Z.testbit mask i then xorb (i =? 21) (Z.testbit (k_eflags k) i) else Z.testbit (k_eflags k) i) as Hb.
  { intros i Hi. cbn [k_eflags popfl set_eflags]. rewrite Z.lor_spec, Z.land_spec, Z.ldiff_spec. unfold v.
    rewrite Z.lxor_spec, Z.shiftl_1_l, Z.pow2_bits_eqb, (Z.eqb_sym 21) by lia.
    by destruct (Z.testbit mask i), (i =? 21), (Z.testbit (k_eflags k) i). }
  symmetry. destruct (Z.testbit mask 21) eqn:E; cbn [negb].
  - apply Z.eqb_neq. intros Heq. specialize (Hb 21 ltac:(lia)). rewrite E, <- Heq in Hb.
    by destruct (Z.testbit (k_eflags k) 21).
  - apply Z.eqb_eq, Z.bits_inj'. intros i Hi. rewrite Hb by done.
    destruct (Z.eqb_spec i 21) as [->|]; [by rewrite E|]. by destruct (Z.testbit mask i).
Qed.
