(* ===== verification/X86.v ===== *)
(** The processor as the assembly files see it: general and segment registers, flags,
    [%cr0], the descriptor table, memory through the A20 gate, ports and BIOS services.
    An instruction is a program on that state, so that the assembly functions are
    translated instruction by instruction. *)

From S2P Require Import Prelude PhysMem Layout Cpu.

Local Open Scope list_scope.
Local Open Scope Z_scope.

(** ** Registers *)

Inductive gpr : Type := EAX | ECX | EDX | EBX | ESP | EBP | ESI | EDI.
Inductive sreg : Type := CS | DS | ES | FS | GS | SS.

Record gprs : Type := Gprs {
  g_eax : Z; g_ecx : Z; g_edx : Z; g_ebx : Z; g_esp : Z; g_ebp : Z; g_esi : Z; g_edi : Z
}.

Definition gpr_get (r : gpr) (g : gprs) : Z :=
  match r with
  | EAX => g_eax g | ECX => g_ecx g | EDX => g_edx g | EBX => g_ebx g
  | ESP => g_esp g | EBP => g_ebp g | ESI => g_esi g | EDI => g_edi g
  end.

Definition gpr_set (r : gpr) (v : Z) (g : gprs) : gprs :=
  let '(Gprs a c d b sp bp si di) := g in
  match r with
  | EAX => Gprs v c d b sp bp si di | ECX => Gprs a v d b sp bp si di
  | EDX => Gprs a c v b sp bp si di | EBX => Gprs a c d v sp bp si di
  | ESP => Gprs a c d b v bp si di | EBP => Gprs a c d b sp v si di
  | ESI => Gprs a c d b sp bp v di | EDI => Gprs a c d b sp bp si v
  end.

(** A segment register: the selector and what is cached of the descriptor, its base and
    its D/B bit. *)
Record seg : Type := Seg { se_sel : Z; se_base : Z; se_big : bool }.

Record segs : Type := Segs { s_cs : seg; s_ds : seg; s_es : seg; s_fs : seg; s_gs : seg; s_ss : seg }.

Definition seg_get (r : sreg) (g : segs) : seg :=
  match r with
  | CS => s_cs g | DS => s_ds g | ES => s_es g | FS => s_fs g | GS => s_gs g | SS => s_ss g
  end.

Definition seg_set (r : sreg) (v : seg) (g : segs) : segs :=
  let '(Segs c d e f g s) := g in
  match r with
  | CS => Segs v d e f g s | DS => Segs c v e f g s | ES => Segs c d v f g s
  | FS => Segs c d e v g s | GS => Segs c d e f v s | SS => Segs c d e f g v
  end.

(** [x_gdtr] is limit and base; [x_tty] the characters the teletype service got so far;
    [x_dev] the rest of the machine, devices and the A20 gate among it. *)
Record x86 (D : Type) : Type := X86 {
  x_regs : gprs; x_segs : segs; x_flags : Z; x_cr0 : Z; x_gdtr : Z * Z;
  x_mem : mem; x_tty : list Z; x_dev : D
}.
Arguments X86 {D} _ _ _ _ _ _ _ _.
Arguments x_regs {D} _. Arguments x_segs {D} _. Arguments x_flags {D} _. Arguments x_cr0 {D} _.
Arguments x_gdtr {D} _. Arguments x_mem {D} _. Arguments x_tty {D} _. Arguments x_dev {D} _.

(** What is around the processor: the A20 gate, the ports, the BIOS services by their
    interrupt number. *)
Class Platform (D : Type) : Type := {
  a20 : D -> bool;
  port_in : Z -> D -> Z * D;
  port_out : Z -> Z -> D -> D;
  bios : Z -> x86 D -> x86 D;
}.

Section State.
Context {D : Type}.

Definition reg (r : gpr) (s : x86 D) : Z := gpr_get r (x_regs s).
Definition set_reg (r : gpr) (v : Z) (s : x86 D) : x86 D :=
  X86 (gpr_set r v (x_regs s)) (x_segs s) (x_flags s) (x_cr0 s) (x_gdtr s) (x_mem s) (x_tty s) (x_dev s).
Definition set_seg (r : sreg) (v : seg) (s : x86 D) : x86 D :=
  X86 (x_regs s) (seg_set r v (x_segs s)) (x_flags s) (x_cr0 s) (x_gdtr s) (x_mem s) (x_tty s) (x_dev s).
Definition set_flags (v : Z) (s : x86 D) : x86 D :=
  X86 (x_regs s) (x_segs s) v (x_cr0 s) (x_gdtr s) (x_mem s) (x_tty s) (x_dev s).
Definition set_cr0 (v : Z) (s : x86 D) : x86 D :=
  X86 (x_regs s) (x_segs s) (x_flags s) v (x_gdtr s) (x_mem s) (x_tty s) (x_dev s).
Definition set_gdtr (v : Z * Z) (s : x86 D) : x86 D :=
  X86 (x_regs s) (x_segs s) (x_flags s) (x_cr0 s) v (x_mem s) (x_tty s) (x_dev s).
Definition set_xmem (v : mem) (s : x86 D) : x86 D :=
  X86 (x_regs s) (x_segs s) (x_flags s) (x_cr0 s) (x_gdtr s) v (x_tty s) (x_dev s).
Definition set_tty (v : list Z) (s : x86 D) : x86 D :=
  X86 (x_regs s) (x_segs s) (x_flags s) (x_cr0 s) (x_gdtr s) (x_mem s) v (x_dev s).
Definition set_dev (v : D) (s : x86 D) : x86 D :=
  X86 (x_regs s) (x_segs s) (x_flags s) (x_cr0 s) (x_gdtr s) (x_mem s) (x_tty s) v.

(** Protected mode; the flags the code tests. *)
Definition pe (s : x86 D) : bool := Z.testbit (x_cr0 s) 0.
Definition cf (s : x86 D) : bool := Z.testbit (x_flags s) 0.
Definition zf (s : x86 D) : bool := Z.testbit (x_flags s) 6.
End State.

(** ** Descriptors *)

Definition d_base (d : Z) : Z := get_bits 16 24 d + 16777216 * get_bits 56 8 d.
Definition d_limit (d : Z) : Z := get_bits 0 16 d + 65536 * get_bits 48 4 d.
Definition d_executable (d : Z) : bool := Z.testbit d 43.
(** Bit 41: of a data segment, that it can be written, of a code segment, that it can be
    read. *)
Definition d_writable (d : Z) : bool := Z.testbit d 41.
Definition d_readable (d : Z) : bool := negb (d_executable d) || Z.testbit d 41.
Definition d_segment (d : Z) : bool := Z.testbit d 44.
Definition d_dpl (d : Z) : Z := get_bits 45 2 d.
Definition d_present (d : Z) : bool := Z.testbit d 47.
Definition d_big (d : Z) : bool := Z.testbit d 54.
Definition d_pages (d : Z) : bool := Z.testbit d 55.

(** What the processor accepts at privilege 0, where all the code runs: for the stack data
    that can be written, of privilege 0; for the other data segments whatever can be read,
    code included, of any privilege; for a jump, code of the size the code was assembled
    for. *)
Definition data_descriptor (stack : bool) (d : Z) : bool :=
  d_present d && d_segment d &&
  (if stack then negb (d_executable d) && d_writable d && (d_dpl d =? 0) else d_readable d).
Definition code_descriptor (big : bool) (d : Z) : bool :=
  d_present d && d_segment d && d_executable d && (d_dpl d =? 0) && Bool.eqb (d_big d) big.

(** ** Instructions

    [w] is the operand size in bits; operands are in the order of the source, the
    destination last.  Of the arithmetic flags only carry and zero are kept; limits of
    segments are not. *)
Module Asm.

Inductive ea : Type := Abs (a : Z) | Ind16 (r : gpr) | Ind32 (r : gpr).

(** [Lo r] with [w] = 8 is [%al] and the like, [Hi r] is [%ah]. *)
Inductive operand : Type := Imm (v : Z) | Lo (r : gpr) | Hi (r : gpr) | Mem (sr : sreg) (a : ea).

Definition set_low (w v old : Z) : Z := if w =? 32 then u32 v else old - wrap w old + wrap w v.
Definition get_high8 (x : Z) : Z := u8 (x / 256).
Definition set_high8 (v old : Z) : Z := old - 256 * get_high8 old + 256 * u8 v.

Section Machine.
Context {D : Type} {P : Platform D}.

Abbreviation code := (prog (x86 D) unit).

(** With the gate closed bit 20 of an address is 0.  (An operand does not cross a
    megabyte.) *)
Definition phys (d : D) (a : Z) : Z := if a20 d then u32 a else Z.clearbit (u32 a) 20.

Definition lin (sr : sreg) (off : Z) (s : x86 D) : Z := se_base (seg_get sr (x_segs s)) + off.

Definition ea_off (a : ea) (s : x86 D) : Z :=
  match a with Abs o => o | Ind16 r => u16 (reg r s) | Ind32 r => reg r s end.

Definition bytes (w : Z) : nat := Z.to_nat (w / 8).

Definition ldx (w a : Z) (s : x86 D) : Z := load (bytes w) (x_mem s) (phys (x_dev s) a).
Definition stx (w a v : Z) (s : x86 D) : x86 D := set_xmem (store (bytes w) (x_mem s) (phys (x_dev s) a) v) s.

Definition get_op (w : Z) (o : operand) (s : x86 D) : Z :=
  match o with
  | Imm v => wrap w v
  | Lo r => wrap w (reg r s)
  | Hi r => get_high8 (reg r s)
  | Mem sr a => ldx w (lin sr (ea_off a s) s) s
  end.

Definition put_op (w : Z) (o : operand) (v : Z) (s : x86 D) : x86 D :=
  match o with
  | Imm _ => s
  | Lo r => set_reg r (set_low w v (reg r s)) s
  | Hi r => set_reg r (set_high8 v (reg r s)) s
  | Mem sr a => stx w (lin sr (ea_off a s) s) v s
  end.

Definition mov (w : Z) (src dst : operand) : code := modify (fun s => put_op w dst (get_op w src s) s).
Definition lea (a : Z) (dst : gpr) : code := mov 16 (Imm a) (Lo dst).

Definition put_flag (bit : Z) (b : bool) (v : Z) : Z := set_bits bit 1 (Z.b2z b) v.
Definition arith_flags (carry : bool) (res : Z) (s : x86 D) : x86 D :=
  set_flags (put_flag 6 (res =? 0) (put_flag 0 carry (x_flags s))) s.

(** [f src dst] is the result before it is cut to [w] bits. *)
Definition alu (f : Z -> Z -> Z) (keep : bool) (w : Z) (src dst : operand) : code :=
  modify (fun s =>
    let v := f (get_op w src s) (get_op w dst s) in
    let s := arith_flags (negb (v =? wrap w v)) (wrap w v) s in
    if keep then put_op w dst (wrap w v) s else s).

Definition add := alu (fun a b => b + a) true.
Definition sub := alu (fun a b => b - a) true.
Definition cmp := alu (fun a b => b - a) false.
Definition and := alu Z.land true.
Definition or := alu Z.lor true.
Definition xor := alu Z.lxor true.
Definition test := alu Z.land false.
Definition not (w : Z) (dst : operand) : code :=
  modify (fun s => put_op w dst (2 ^ w - 1 - get_op w dst s) s).

Definition clc : code := modify (fun s => set_flags (put_flag 0 false (x_flags s)) s).
Definition cli : code := modify (fun s => set_flags (put_flag 9 false (x_flags s)) s).
Definition sti : code := modify (fun s => set_flags (put_flag 9 true (x_flags s)) s).
Definition cld : code := modify (fun s => set_flags (put_flag 10 false (x_flags s)) s).

(** String instructions: the direction flag gives the step; the addresses are 16 bits. *)
Definition string_step (n : Z) (s : x86 D) : Z := if Z.testbit (x_flags s) 10 then - n else n.
Definition advance (r : gpr) (n : Z) (s : x86 D) : x86 D := set_reg r (set_low 16 (reg r s + string_step n s) (reg r s)) s.

Definition lodsb : code := modify (fun s =>
  let v := ldx 8 (lin DS (u16 (reg ESI s)) s) s in
  advance ESI 1 (set_reg EAX (set_low 8 v (reg EAX s)) s)).

Definition movsw : code := modify (fun s =>
  let v := ldx 16 (lin DS (u16 (reg ESI s)) s) s in
  advance EDI 2 (advance ESI 2 (stx 16 (lin ES (u16 (reg EDI s)) s) v s))).

Fixpoint repeat_code (n : nat) (c : code) : code :=
  match n with
  | O => ret tt
  | S n' => do* c in do* modify (fun s => set_reg ECX (set_low 16 (reg ECX s - 1) (reg ECX s)) s) in repeat_code n' c
  end.
Definition rep_movsw : code := fun s => repeat_code (Z.to_nat (u16 (reg ECX s))) movsw s.

(** Conditional jumps: [c1] at the target, [c2] behind the jump. *)
Definition jc {A} (c1 c2 : prog (x86 D) A) : prog (x86 D) A := fun s => if cf s then c1 s else c2 s.
Definition je {A} (c1 c2 : prog (x86 D) A) : prog (x86 D) A := fun s => if zf s then c1 s else c2 s.
Definition jne {A} (c1 c2 : prog (x86 D) A) : prog (x86 D) A := fun s => if zf s then c2 s else c1 s.

(** The stack: [%esp], or [%sp] with a 16-bit stack segment. *)
Definition sp_width (s : x86 D) : Z := if se_big (seg_get SS (x_segs s)) then 32 else 16.
Definition sp (s : x86 D) : Z := wrap (sp_width s) (reg ESP s).
Definition move_sp (n : Z) (s : x86 D) : x86 D :=
  set_reg ESP (set_low (sp_width s) (reg ESP s + n) (reg ESP s)) s.

Definition push_value (w v : Z) : code :=
  modify (fun s => let s := move_sp (- (w / 8)) s in stx w (lin SS (sp s) s) v s).
Definition push (w : Z) (o : operand) : code := fun s => push_value w (get_op w o s) s.
Definition push_seg (w : Z) (r : sreg) : code := fun s => push_value w (se_sel (seg_get r (x_segs s))) s.
Definition pushf (w : Z) : code := fun s => push_value w (x_flags s) s.

Definition pop_value (w : Z) : prog (x86 D) Z := fun s =>
  Done (ldx w (lin SS (sp s) s) s) (move_sp (w / 8) s).
Definition pop (w : Z) (o : operand) : code := let* v := pop_value w in modify (put_op w o v).
Definition popf (w : Z) : code := let* v := pop_value w in modify (fun s => set_flags (set_low w v (x_flags s)) s).

(** A call: the return address is pushed, and the function has to come back to it. *)
Definition call (w ret_addr : Z) (f : code) : code :=
  do* push_value w ret_addr in
  do* f in
  let* v := pop_value w in
  if v =? wrap w ret_addr then ret tt else fun _ => Undefined.

(** A jump through a register ends the program: its result is the target. *)
Definition jmp_reg (w : Z) (r : gpr) : prog (x86 D) Z := gets (fun s => wrap w (reg r s)).

(** [hlt] with interrupts off. *)
Definition hlt {A} : prog (x86 D) A := fun s => Panicked "hlt" s.

(** ** Segments and modes *)

(** The descriptor a selector names, inside the table; the selectors of the files have the
    privilege and table bits 0. *)
Definition descriptor (sel : Z) (s : x86 D) : option Z :=
  let '(limit, base) := x_gdtr s in
  if (sel / 8 =? 0) || (limit <? 8 * (sel / 8) + 7) then None
  else Some (ld64 (x_mem s) (phys (x_dev s) (base + 8 * (sel / 8)))).

Definition is_stack (r : sreg) : bool := match r with SS => true | _ => false end.

(** In real mode the base is 16 times the selector and the size stays; in protected mode
    both come from a present segment.  The null selector is for all but the stack; what the
    processor does on an access through it, or on a write through a segment that is only
    read, is not modelled, as no code here makes one. *)
Definition load_seg (r : sreg) (sel : Z) : code := fun s =>
  if pe s then
    if sel / 8 =? 0 then if is_stack r then Undefined else Done tt (set_seg r (Seg sel 0 false) s)
    else
    match descriptor sel s with
    | Some d =>
        if data_descriptor (is_stack r) d
        then Done tt (set_seg r (Seg sel (d_base d) (d_big d)) s) else Undefined
    | None => Undefined
    end
  else Done tt (set_seg r (Seg sel (16 * sel) (se_big (seg_get r (x_segs s)))) s).

Definition mov_seg (src : operand) (r : sreg) : code := fun s => load_seg r (get_op 16 src s) s.

Definition mov_from_seg (r : sreg) (dst : operand) : code :=
  modify (fun s => put_op 16 dst (se_sel (seg_get r (x_segs s))) s).
Definition pop_seg (w : Z) (r : sreg) : code := let* v := pop_value w in load_seg r (u16 v).

(** The data segments loaded from one register, in the order all the files use. *)
Definition data_segments (r : gpr) : code :=
  do* mov_seg (Lo r) DS in do* mov_seg (Lo r) ES in do* mov_seg (Lo r) FS in do* mov_seg (Lo r) GS in
  mov_seg (Lo r) SS.

(** The far jump to code assembled for [big] (32) or 16 bits. *)
Definition ljmp (sel : Z) (big : bool) : code := fun s =>
  if pe s then
    match descriptor sel s with
    | Some d =>
        if code_descriptor big d
        then Done tt (set_seg CS (Seg sel (d_base d) big) s) else Undefined
    | None => Undefined
    end
  else if Bool.eqb (se_big (seg_get CS (x_segs s))) big
  then Done tt (set_seg CS (Seg sel (16 * sel) big) s) else Undefined.

Definition mov_from_cr0 (dst : gpr) : code := modify (fun s => set_reg dst (x_cr0 s) s).
Definition mov_to_cr0 (src : gpr) : code := modify (fun s => set_cr0 (reg src s) s).

(** A 16-bit [lgdt] takes 24 bits of the base. *)
Definition lgdt (w : Z) (a : ea) : code := modify (fun s =>
  let p := lin DS (ea_off a s) s in
  let base := ldx 32 (p + 2) s in
  set_gdtr (ldx 16 p s, if w =? 16 then Z.land base 16777215 else base) s).

(** ** The platform *)

(** A service needs real mode.  Service 0x0e of [int $0x10] prints [%al]. *)
Definition int (n : Z) : code := fun s =>
  if pe s then Undefined else
  let tty := if (n =? 16) && (get_high8 (reg EAX s) =? 14) then [u8 (reg EAX s)] else [] in
  Done tt (set_tty (x_tty s ++ tty) (bios n s)).

Definition inb (port : Z) : code := modify (fun s =>
  let '(v, d) := port_in port (x_dev s) in set_reg EAX (set_low 8 v (reg EAX s)) (set_dev d s)).
Definition outb (port : Z) : code := modify (fun s =>
  set_dev (port_out port (u8 (reg EAX s)) (x_dev s)) s).
End Machine.
End Asm.

(** ** Running straight-line code

    One equation per instruction: what the rest of the program starts from. *)

Lemma testbit_put_flag bit b v i :
  0 <= bit -> Z.testbit (Asm.put_flag bit b v) i = if i =? bit then b else Z.testbit v i.
Proof.
  intros Hb. destruct (Z.lt_ge_cases i 0) as [Hi|Hi].
  { rewrite !(Z.testbit_neg_r _ i) by done. by rewrite (proj2 (Z.eqb_neq i bit)) by lia. }
  unfold Asm.put_flag, set_bits. rewrite Z.lor_spec, Z.ldiff_spec, !Z.shiftl_spec, Z.land_spec by done.
  destruct (Z.eqb_spec i bit) as [->|Hne].
  - rewrite Z.sub_diag. change (Z.testbit (Z.ones 1) 0) with true. rewrite andb_false_r. by destruct b.
  - assert (Z.testbit (Z.ones 1) (i - bit) = false) as ->.
    { destruct (Z.lt_ge_cases (i - bit) 0); [by apply Z.testbit_neg_r|]. apply Z.ones_spec_high. lia. }
    by rewrite !andb_false_r, orb_false_r, andb_true_r.
Qed.

Section Run.
Import Asm.
Context {D : Type} {P : Platform D}.
Abbreviation code := (prog (x86 D) unit).

Lemma bind_modify {S A} (f : S -> S) (k : unit -> prog S A) s : bind (modify f) k s = k tt (f s).
Proof. done. Qed.

Lemma bind_mov {A} w a b (k : unit -> prog (x86 D) A) s : bind (mov w a b) k s = k tt (put_op w b (get_op w a s) s).
Proof. done. Qed.

Lemma bind_alu {A} f b w x y (k : unit -> prog (x86 D) A) s :
  bind (alu f b w x y) k s =
  k tt (let v := f (get_op w x s) (get_op w y s) in
        let s := arith_flags (negb (v =? wrap w v)) (wrap w v) s in
        if b then put_op w y (wrap w v) s else s).
Proof. done. Qed.

Lemma bind_push {A} w o (k : unit -> prog (x86 D) A) s :
  bind (push w o) k s = k tt (let s' := move_sp (- (w / 8)) s in stx w (lin SS (sp s') s') (get_op w o s) s').
Proof. done. Qed.

Lemma bind_pop {A} w o (k : unit -> prog (x86 D) A) s :
  bind (pop w o) k s = k tt (put_op w o (ldx w (lin SS (sp s) s) s) (move_sp (w / 8) s)).
Proof. done. Qed.

Lemma bind_load_seg_pe {A} r sel d (k : unit -> prog (x86 D) A) s :
  pe s = true -> descriptor sel s = Some d ->
  data_descriptor (is_stack r) d = true ->
  bind (load_seg r sel) k s = k tt (set_seg r (Seg sel (d_base d) (d_big d)) s).
Proof.
  intros E Ed Ec. unfold bind, load_seg. rewrite E, Ed, Ec. unfold descriptor in Ed.
  destruct (x_gdtr s) as [limit base]. by destruct (sel / 8 =? 0).
Qed.

Lemma bind_ljmp_pe {A} sel big d (k : unit -> prog (x86 D) A) s :
  pe s = true -> descriptor sel s = Some d ->
  code_descriptor big d = true ->
  bind (ljmp sel big) k s = k tt (set_seg CS (Seg sel (d_base d) big) s).
Proof. intros E Ed Ec. unfold bind, ljmp. by rewrite E, Ed, Ec. Qed.

Lemma bind_ljmp {A} sel big (k : unit -> prog (x86 D) A) s :
  pe s = false -> se_big (seg_get CS (x_segs s)) = big ->
  bind (ljmp sel big) k s = k tt (set_seg CS (Seg sel (16 * sel) big) s).
Proof. intros E Eb. unfold bind, ljmp. by rewrite E, Eb, Bool.eqb_reflx. Qed.

Lemma bind_mov_seg {A} o r (k : unit -> prog (x86 D) A) s :
  bind (mov_seg o r) k s = bind (load_seg r (get_op 16 o s)) k s.
Proof. done. Qed.

Lemma bind_load_seg {A} r v (k : unit -> prog (x86 D) A) s :
  pe s = false ->
  bind (load_seg r v) k s = k tt (set_seg r (Seg v (16 * v) (se_big (seg_get r (x_segs s)))) s).
Proof. intros E. unfold bind, load_seg. by rewrite E. Qed.

(** A call whose function comes back with the return address on top of the stack. *)
Lemma bind_call {A} w ra f (k : unit -> prog (x86 D) A) s s' :
  f (let s' := move_sp (- (w / 8)) s in stx w (lin SS (sp s') s') ra s') = Done tt s' ->
  ldx w (lin SS (sp s') s') s' = wrap w ra ->
  bind (call w ra f) k s = k tt (move_sp (w / 8) s').
Proof.
  intros E El. unfold call. rewrite bind_assoc. unfold push_value at 1. rewrite bind_modify, bind_assoc, (bind_Done _ _ _ _ _ E).
  unfold pop_value, bind at 1 2. by rewrite El, Z.eqb_refl.
Qed.

Lemma data_descriptor_any b d : data_descriptor true d = true -> data_descriptor b d = true.
Proof.
  unfold data_descriptor, d_readable. destruct b; [done|]. intros [-> H]%andb_prop.
  apply andb_prop in H as [[H _]%andb_prop _]. by rewrite H.
Qed.

(** All data segments with one value. *)
Definition with_data (v : seg) (s : x86 D) : x86 D :=
  X86 (x_regs s) (Segs (s_cs (x_segs s)) v v v v v) (x_flags s) (x_cr0 s) (x_gdtr s) (x_mem s) (x_tty s) (x_dev s).

Lemma bind_data_segments_pe {A} r sel d (k : unit -> prog (x86 D) A) s :
  pe s = true -> u16 (reg r s) = sel -> descriptor sel s = Some d ->
  data_descriptor true d = true ->
  bind (data_segments r) k s = k tt (with_data (Seg sel (d_base d) (d_big d)) s).
Proof.
  intros E <- Ed Ec. unfold data_segments. destruct s as [g [] fl cr0 gdtr m tty dev].
  rewrite !bind_assoc.
  repeat (rewrite ?bind_assoc, bind_mov_seg; rewrite (bind_load_seg_pe _ _ d) by (done || by apply data_descriptor_any); cbv beta). done.
Qed.

Lemma bind_data_segments {A} r sel big (k : unit -> prog (x86 D) A) s :
  pe s = false -> u16 (reg r s) = sel ->
  (forall x, x <> CS -> se_big (seg_get x (x_segs s)) = big) ->
  bind (data_segments r) k s = k tt (with_data (Seg sel (16 * sel) big) s).
Proof.
  intros E <- Hb. unfold data_segments. destruct s as [g [] fl cr0 gdtr m tty dev].
  pose proof (Hb DS) as H1. pose proof (Hb ES) as H2. pose proof (Hb FS) as H3.
  pose proof (Hb GS) as H4. pose proof (Hb SS) as H5. cbn in *.
  repeat (rewrite ?bind_assoc, bind_mov_seg; rewrite bind_load_seg by assumption; cbv beta; cbn [x_segs set_seg seg_get seg_set s_ds s_es s_fs s_gs s_ss]).
  rewrite H1, H2, H3, H4, H5 by discriminate. done.
Qed.

Lemma bind_je {A B} (c1 c2 : prog (x86 D) A) (k : A -> prog (x86 D) B) s :
  bind (je c1 c2) k s = if zf s then bind c1 k s else bind c2 k s.
Proof. unfold je, bind. by destruct (zf s). Qed.
Lemma bind_jne {A B} (c1 c2 : prog (x86 D) A) (k : A -> prog (x86 D) B) s :
  bind (jne c1 c2) k s = if zf s then bind c2 k s else bind c1 k s.
Proof. unfold jne, bind. by destruct (zf s). Qed.
Lemma bind_jc {A B} (c1 c2 : prog (x86 D) A) (k : A -> prog (x86 D) B) s :
  bind (jc c1 c2) k s = if cf s then bind c1 k s else bind c2 k s.
Proof. unfold jc, bind. by destruct (cf s). Qed.

(** Addresses below one megabyte do not see the gate. *)
Lemma phys_low d a : 0 <= a < 1048576 -> phys d a = a.
Proof.
  intros Ha. unfold phys. rewrite u32_small by lia. destruct (a20 d); [done|].
  apply Z.bits_inj'. intros i Hi. rewrite Z.clearbit_eqb.
  destruct (Z.eqb_spec 20 i) as [<-|]; [|by rewrite andb_true_r].
  rewrite andb_false_r. symmetry. apply Z.testbit_false; [lia|]. rewrite Z.div_small by lia. done.
Qed.

Lemma phys_open d a : a20 d = true -> 0 <= a < 4294967296 -> phys d a = a.
Proof. intros E Ha. unfold phys. by rewrite E, u32_small by lia. Qed.
End Run.

(** ** Descriptor tables in memory *)

Definition table_at (table : list Z) (m : mem) (g : Z) : Prop :=
  forall (i : nat) d, table !! i = Some d -> ld64 m (g + 8 * Z.of_nat i) = d.

Definition table_limit (table : list Z) : Z := 8 * Z.of_nat (List.length table) - 1.

Lemma table_at_ext table m m' g :
  (forall i, 0 <= i < 8 * Z.of_nat (List.length table) -> rd8 m' (g + i) = rd8 m (g + i)) ->
  table_at table m g -> table_at table m' g.
Proof.
  intros H Hg i d Hi. rewrite <- (Hg i d Hi). apply load_ext. intros j Hj.
  apply lookup_lt_Some in Hi. cbn in Hi, Hj. rewrite <- !Z.add_assoc. apply H. lia.
Qed.

(** What a selector without privilege and table bits finds. *)
Lemma table_descriptor {D} {P : Platform D} table g (s : x86 D) i :
  table_at table (x_mem s) g -> x_gdtr s = (table_limit table, g) ->
  (forall a, g <= a < g + 8 * Z.of_nat (List.length table) -> Asm.phys (x_dev s) a = a) ->
  Asm.descriptor (8 * Z.of_nat i) s = if (i =? 0)%nat then None else table !! i.
Proof.
  intros Ht E Hp. unfold Asm.descriptor. rewrite E, (Z.mul_comm 8 (Z.of_nat i)), Z.div_mul by lia.
  destruct i as [|i]; [done|]. rewrite (proj2 (Z.eqb_neq (Z.of_nat (S i)) 0)) by lia. cbn [orb Nat.eqb].
  unfold table_limit. set (n := List.length table). destruct (table !! S i) as [d|] eqn:Ed.
  - apply lookup_lt_Some in Ed as Hl. fold n in Hl. rewrite (proj2 (Z.ltb_ge _ _)) by lia. rewrite Hp by lia. by rewrite (Ht _ _ Ed).
  - apply lookup_ge_None in Ed. fold n in Ed. by rewrite (proj2 (Z.ltb_lt _ _)) by lia.
Qed.

(** Normal form of a state: a constructor with its components. *)
Ltac x_norm :=
  cbv beta iota zeta delta [
    Asm.put_op Asm.get_op Asm.ea_off Asm.lin Asm.stx Asm.ldx Asm.move_sp Asm.sp Asm.sp_width Asm.arith_flags
    reg set_reg set_seg set_flags set_cr0 set_gdtr set_xmem set_tty set_dev gpr_get gpr_set seg_get seg_set
    g_eax g_ecx g_edx g_ebx g_esp g_ebp g_esi g_edi s_cs s_ds s_es s_fs s_gs s_ss se_sel se_base se_big
    with_data x_regs x_segs x_flags x_cr0 x_gdtr x_mem x_tty x_dev];
  repeat match goal with |- context [Asm.set_low 32 ?v ?o] => change (Asm.set_low 32 v o) with (u32 v) end;
  change (32 / 8) with 4; change (16 / 8) with 2; change (8 / 8) with 1;
  change (- (4)) with (-4); change (- (2)) with (-2);
  change (Asm.bytes 32) with 4%nat; change (Asm.bytes 16) with 2%nat; change (Asm.bytes 8) with 1%nat.

Ltac x_step :=
  first [rewrite bind_assoc | rewrite bind_mov | rewrite bind_alu | rewrite bind_push | rewrite bind_pop
    | rewrite bind_modify | rewrite bind_mov_seg]; x_norm.

(** Conditions on flags that instructions set. *)
Ltac x_flags :=
  unfold Asm.jc, Asm.je, Asm.jne, cf, zf, pe; x_norm; rewrite ?testbit_put_flag by lia; cbn [Z.eqb Pos.eqb].

Lemma land_pow2 x k : 0 <= k -> Z.land x (2 ^ k) = if Z.testbit x k then 2 ^ k else 0.
Proof.
  intros Hk. apply Z.bits_inj'. intros i Hi. rewrite Z.land_spec, Z.pow2_bits_eqb by done.
  destruct (Z.eqb_spec k i) as [->|Hne].
  - rewrite andb_true_r. destruct (Z.testbit x i); [by rewrite Z.pow2_bits_true|by rewrite Z.bits_0].
  - rewrite andb_false_r. destruct (Z.testbit x k); [by rewrite Z.pow2_bits_false by lia|by rewrite Z.bits_0].
Qed.

(** ** Memory off a store *)

Lemma load_store_out n k m a v p :
  0 <= a -> a + Z.of_nat k <= 4294967296 -> 0 <= p -> p + Z.of_nat n <= 4294967296 -> Z.of_nat k < 4294967296 ->
  p + Z.of_nat n <= a \/ a + Z.of_nat k <= p -> load n (store k m a v) p = load n m p.
Proof. intros. apply load_ext. intros i Hi. apply rd8_store_out; lia. Qed.

(** ** Parts of registers *)

Section Parts.
Import Asm.

Lemma u16_set_low v old : u16 (set_low 16 v old) = u16 v.
Proof. unfold set_low. change (16 =? 32) with false. cbv iota. wrap_lia. Qed.

Lemma set_low_16 v old : 0 <= v < 65536 -> 0 <= old < 65536 -> set_low 16 v old = v.
Proof.
  intros. unfold set_low. change (16 =? 32) with false. cbv iota. rewrite !(wrap_small 16) by (pow2_simpl; lia). lia.
Qed.

Lemma testbit0_low w v old :
  (w =? 32) = false -> 0 < w -> Z.testbit (set_low w v old) 0 = Z.testbit v 0.
Proof.
  intros E Hw. unfold set_low. rewrite E, !Z.bit0_odd. unfold wrap.
  rewrite (Z.mod_eq old), (Z.mod_eq v) by lia.
  replace (old - (old - 2 ^ w * (old / 2 ^ w)) + (v - 2 ^ w * (v / 2 ^ w))) with
    (v + 2 * (2 ^ (w - 1) * (old / 2 ^ w - v / 2 ^ w))).
  - by rewrite Z.odd_add_mul_2.
  - assert (2 ^ w = 2 * 2 ^ (w - 1)) as -> by (rewrite <- Z.pow_succ_r by lia; f_equal; lia). ring.
Qed.

Lemma set_low_set_low w v v' old : (w =? 32) = false -> set_low w v (set_low w v' old) = set_low w v old.
Proof.
  intros E. unfold set_low. rewrite E.
  replace (old - wrap w old + wrap w v' - wrap w (old - wrap w old + wrap w v')) with (old - wrap w old); [done|].
  assert (wrap w (old - wrap w old + wrap w v') = wrap w v') as ->; [|lia].
  rewrite wrap_add_r, <- Z.add_sub_swap, wrap_sub_r. f_equal. lia.
Qed.

Lemma get_set_high8 v x : get_high8 (set_high8 v x) = u8 v.
Proof. unfold set_high8, get_high8. wrap_lia. Qed.

Lemma set_low_u16 v old : set_low 16 (u16 v) old = set_low 16 v old.
Proof. unfold set_low. cbn [Z.eqb Pos.eqb]. by rewrite wrap_wrap. Qed.

Lemma set_low_add x k old : set_low 16 (set_low 16 x old + k) (set_low 16 x old) = set_low 16 (x + k) old.
Proof. unfold set_low. cbn [Z.eqb Pos.eqb]. wrap_lia. Qed.

Lemma testbit_set_low v old i : 0 <= i < 16 -> Z.testbit (set_low 16 v old) i = Z.testbit v i.
Proof.
  intros Hi. rewrite <- (Z.mod_pow2_bits_low (set_low 16 v old) 16 i), <- (Z.mod_pow2_bits_low v 16 i) by lia.
  f_equal. apply u16_set_low.
Qed.

Lemma set_low_self x y : set_low 16 (u16 x) (set_low 16 y x) = x.
Proof. unfold set_low. cbn [Z.eqb Pos.eqb]. wrap_lia. Qed.

Lemma set_low_16_8 v x old : set_low 16 v (set_low 8 x old) = set_low 16 v old.
Proof. unfold set_low. cbn [Z.eqb Pos.eqb]. wrap_lia. Qed.
End Parts.
