(* ===== verification/RealMode.v ===== *)
(** Calling the BIOS from protected mode: [lib/earlyLib/realModeCall.S] and the functions
    it runs in real mode, [asmCall_int12.S], [asmCall_int13.S] and [asmCall_int15.S]. *)

From S2P Require Import Prelude PhysMem Layout CString Terminal Machine DiskRead Arena MemDetect Cpu X86.
Import Asm.

Local Open Scope list_scope.
Local Open Scope Z_scope.

(** Selectors of [include/bootloader/commonDefines.h] and the table of [stage1.S]. *)
Definition CODE32_SEGMENT : Z := 8.
Definition DATA32_SEGMENT : Z := 16.
Definition CODE16_SEGMENT : Z := 24.
Definition DATA16_SEGMENT : Z := 32.

(** [gdt_start] of [bootloader/stage1.S]. *)
Definition stage1_gdt : list Z :=
  [0; 0x00CF9A000000FFFF; 0x00CF92000000FFFF; 0x008F9A000000FFFF; 0x008F92000000FFFF].

Section RealMode.
Context {D : Type} {P : Platform D}.

Abbreviation code := (prog (x86 D) unit).

(** ** [realModeCall.S] *)

(** The address of its [_temp]; the functions of the program by their address; where the
    call returns to. *)
Context (_temp : Z) (code_at : Z -> option code) (ret_addr : Z).

Definition call_at (w target : Z) : code :=
  match code_at target with Some f => call w ret_addr f | None => fun _ => Undefined end.

(** From the entry to real mode; [and ~0x01, %al] has no [$]: its operand is the byte in
    memory at that 16-bit address. *)
Definition enter_real_mode : code :=
  do* pop 32 (Lo EAX) in
  do* mov 32 (Lo EAX) (Mem DS (Abs _temp)) in
  do* mov 32 (Lo EBP) (Mem DS (Abs (_temp + 4))) in
  do* mov 32 (Lo ESP) (Mem DS (Abs (_temp + 8))) in
  do* cli in
  do* cld in
  do* ljmp CODE16_SEGMENT false in
  do* mov 16 (Imm DATA16_SEGMENT) (Lo EAX) in
  do* data_segments EAX in
  do* mov_from_cr0 EAX in
  do* and 8 (Mem DS (Abs (u16 (-2)))) (Lo EAX) in
  do* mov_to_cr0 EAX in
  do* ljmp 0 false in
  do* mov 16 (Lo ESP) (Lo EBP) in
  do* mov 16 (Imm 0) (Lo EAX) in
  data_segments EAX.

(** From the return of the function back to the caller; the last [ret] is in [call]. *)
Definition leave_real_mode : code :=
  do* cli in
  do* cld in
  do* mov_from_cr0 EAX in
  do* or 32 (Imm 1) (Lo EAX) in
  do* mov_to_cr0 EAX in
  do* ljmp CODE32_SEGMENT true in
  do* mov 32 (Imm DATA32_SEGMENT) (Lo EAX) in
  do* data_segments EAX in
  do* mov 32 (Mem DS (Abs (_temp + 8))) (Lo ESP) in
  do* mov 32 (Mem DS (Abs (_temp + 4))) (Lo EBP) in
  do* mov 32 (Mem DS (Abs _temp)) (Lo EAX) in
  push 32 (Lo EAX).

Definition realModeCall : code :=
  do* enter_real_mode in
  do* pop 32 (Lo EAX) in
  do* (fun s => call_at 32 (reg EAX s) s) in
  leave_real_mode.
End RealMode.

(** ** The functions for real mode *)

Module Stubs.
Section Stubs.
Context {D : Type} {P : Platform D}.

Abbreviation code := (prog (x86 D) unit).

(** The next argument, [%di] behind it. *)
Definition next_argument (r : gpr) : code :=
  do* add 16 (Imm 4) (Lo EDI) in mov 32 (Mem DS (Ind16 EDI)) (Lo r).

Definition asmCall_int12 : code :=
  do* mov 16 (Lo ESP) (Lo EDI) in
  do* next_argument EBX in
  do* clc in
  do* xor 32 (Lo EAX) (Lo EAX) in
  do* int 0x12 in
  jc (do* xor 32 (Lo EAX) (Lo EAX) in mov 32 (Lo EAX) (Mem DS (Ind32 EBX)))
     (mov 32 (Lo EAX) (Mem DS (Ind32 EBX))).

Definition asmCall_int13 : code :=
  do* mov 16 (Lo ESP) (Lo EDI) in
  do* next_argument EDX in
  do* next_argument ECX in
  do* mov 16 (Imm dap) (Lo ESI) in
  do* mov 32 (Imm 0x4200) (Lo EAX) in
  do* int 0x13 in
  jc (mov 8 (Hi EAX) (Mem DS (Ind32 ECX))) (mov 8 (Imm 0) (Mem DS (Ind32 ECX))).

(** [temp] is the label [_temp] of this file. *)
Definition asmCall_int15 (temp : Z) : code :=
  do* mov 16 (Lo ESP) (Lo EDI) in
  do* next_argument EAX in
  do* next_argument ECX in
  do* mov_seg (Lo ECX) ES in
  do* next_argument EBX in
  do* next_argument ECX in
  do* mov 32 (Lo ECX) (Mem DS (Abs temp)) in
  do* next_argument ECX in
  do* mov 32 (Lo ECX) (Mem DS (Abs (temp + 4))) in
  do* next_argument ECX in
  do* mov 32 (Lo ECX) (Mem DS (Abs (temp + 8))) in
  do* next_argument ECX in
  do* mov 32 (Lo ECX) (Mem DS (Abs (temp + 12))) in
  do* mov 16 (Lo EAX) (Lo EDI) in
  do* mov 32 (Imm 0xE820) (Lo EAX) in
  do* mov 32 (Imm eaxSignature) (Lo EDX) in
  do* mov 32 (Imm 24) (Lo ECX) in
  do* clc in
  do* int 0x15 in
  jc (do* mov 32 (Mem DS (Abs (temp + 12))) (Lo EDX) in mov 16 (Imm 1) (Mem DS (Ind32 EDX)))
     (do* mov 32 (Mem DS (Abs temp)) (Lo EDX) in
      do* mov 32 (Lo EBX) (Mem DS (Ind32 EDX)) in
      do* mov 32 (Mem DS (Abs (temp + 4))) (Lo EDX) in
      do* mov 32 (Lo EAX) (Mem DS (Ind32 EDX)) in
      do* mov 32 (Mem DS (Abs (temp + 8))) (Lo EDX) in
      mov 32 (Lo ECX) (Mem DS (Ind32 EDX))).
End Stubs.
End Stubs.

(** ** Proofs: the table and the modes *)

Definition gdt_at : mem -> Z -> Prop := table_at stage1_gdt.

Lemma gdt_at_ext m m' g :
  (forall i, 0 <= i < 40 -> rd8 m' (g + i) = rd8 m (g + i)) -> gdt_at m g -> gdt_at m' g.
Proof. exact (table_at_ext stage1_gdt m m' g). Qed.

Section Modes.
Context {D : Type} {P : Platform D}.

Lemma gdt_descriptor (i : nat) d g (s : x86 D) :
  stage1_gdt !! i = Some d -> (0 < i)%nat -> gdt_at (x_mem s) g -> 0 <= g -> g + 40 <= 1048576 ->
  x_gdtr s = (39, g) -> descriptor (8 * Z.of_nat i) s = Some d.
Proof.
  intros Hi H0 Hg Hg0 Hg1 E. rewrite (table_descriptor stage1_gdt g s i Hg E), Hi; [by destruct i; [lia|]|].
  intros a Ha. apply phys_low. cbn in Ha. lia.
Qed.

(** Flat 32-bit segments, the 16-bit ones of the way to real mode, real mode. *)
Definition pm_segs : segs :=
  let d := Seg DATA32_SEGMENT 0 true in Segs (Seg CODE32_SEGMENT 0 true) d d d d d.
Definition real_segs : segs := let d := Seg 0 0 false in Segs d d d d d d.

End Modes.

Section Calls.
Context {D : Type} {P : Platform D}.
Context (_temp : Z) (code_at : Z -> option (prog (x86 D) unit)) (ret_addr : Z).

(** Where the loader's data are: below one megabyte and apart from one another; the stack
    with the arguments of the call ends at [top]. *)
Record call_layout (g sp top : Z) : Prop := {
  cl_stack : 0 <= sp /\ sp + 8 <= top /\ top < 65536;
  cl_temp : 0 <= _temp /\ _temp + 12 <= 1048576 /\ (_temp + 12 <= sp \/ top <= _temp);
  cl_gdt : 0 <= g /\ g + 40 <= 1048576 /\ (g + 40 <= _temp \/ _temp + 12 <= g) /\ (g + 40 <= sp \/ top <= g);
  cl_mask : 65534 < _temp \/ _temp + 12 <= 65534;
}.

Definition saved (m : mem) (sp bp : Z) : mem :=
  st32 (st32 (st32 m _temp (ld32 m sp)) (_temp + 4) bp) (_temp + 8) (sp + 4).

Lemma saved_out m sp bp a :
  0 <= _temp -> _temp + 12 <= 1048576 -> 0 <= a < 4294967296 -> a < _temp \/ _temp + 12 <= a ->
  rd8 (saved m sp bp) a = rd8 m a.
Proof. intros. unfold saved. by rewrite !rd8_store_out by (cbn; lia). Qed.

(** Up to the second jump: bit 0 of [%cr0] is then that of the byte at 0xfffe. *)
Lemma enter_real_mode_prefix {A} top a c d b sp bp si di fl cr0 g m tty dev (k : unit -> prog (x86 D) A) :
  call_layout g sp top -> gdt_at m g -> Z.testbit cr0 0 = true -> 0 <= bp < 4294967296 ->
  exists a' fl' cr0', Z.testbit cr0' 0 = Z.testbit (rd8 m 65534) 0 /\
    bind (enter_real_mode _temp) k (X86 (Gprs a c d b sp bp si di) pm_segs fl cr0 (39, g) m tty dev) =
    bind (do* ljmp 0 false in do* mov 16 (Lo ESP) (Lo EBP) in do* mov 16 (Imm 0) (Lo EAX) in data_segments EAX) k
      (X86 (Gprs a' c d b (sp + 4) bp si di)
        (let x := Seg DATA16_SEGMENT 0 false in Segs (Seg CODE16_SEGMENT 0 false) x x x x x)
        fl' cr0' (39, g) (saved m sp bp) tty dev).
Proof.
  intros [[Hs0 Hs1] (Ht0 & Ht1 & Ht2) (Hg0 & Hg1 & Hg2 & Hg3) Hm] Hg Hcr Hbp.
  unfold enter_real_mode, pm_segs, CODE32_SEGMENT, DATA32_SEGMENT.
  unfold Asm.and, cli, cld, mov_from_cr0, mov_to_cr0. repeat x_step.
  rewrite !Z.add_0_l, !phys_low, !u32_small by (rewrite ?u32_small by lia; auto with wrap; lia).
  change (st32 (st32 (st32 m _temp (ld32 m sp)) (_temp + 4) bp) (_temp + 8) (sp + 4)) with (saved m sp bp).
  assert (gdt_at (saved m sp bp) g) as Hg' by (eapply gdt_at_ext; [|exact Hg]; intros; apply saved_out; lia).
  assert (forall s : x86 D, x_mem s = saved m sp bp -> x_gdtr s = (39, g) ->
    descriptor CODE16_SEGMENT s = Some 0x008F9A000000FFFF /\ descriptor DATA16_SEGMENT s = Some 0x008F92000000FFFF) as Hde.
  { intros s Em Eg. split; [apply (gdt_descriptor 3 _ g)|apply (gdt_descriptor 4 _ g)]; rewrite ?Em; done || lia. }
  rewrite (bind_ljmp_pe _ _ 0x008F9A000000FFFF) by first [exact Hcr | by apply Hde | done]. x_norm.
  change (d_base 0x008F9A000000FFFF) with 0. repeat x_step.
  rewrite (bind_data_segments_pe _ DATA16_SEGMENT 0x008F92000000FFFF)
    by first [exact Hcr | by apply Hde | unfold reg; x_norm; apply u16_set_low | done]. x_norm.
  change (d_base 0x008F92000000FFFF) with 0. change (d_big 0x008F92000000FFFF) with false. repeat x_step.
  change (0 + u16 (-2)) with 65534. rewrite phys_low by lia.
  assert (load 1 (saved m sp bp) 65534 = rd8 m 65534) as ->
    by (rewrite <- (saved_out m sp bp 65534) by lia; cbn [load]; lia).
  set (v := u8 (Z.land (rd8 m 65534) (u8 cr0))).
  exists (set_low 8 v cr0). eexists _, (set_low 8 v cr0). split; [|rewrite bind_assoc; reflexivity].
  rewrite testbit0_low by lia. unfold v, wrap. rewrite Z.mod_pow2_bits_low, Z.land_spec, Z.mod_pow2_bits_low by lia.
  by rewrite Hcr, andb_true_r.
Qed.

Lemma saved_reads m sp bp :
  0 <= _temp -> _temp + 12 <= 1048576 -> 0 <= bp < 4294967296 -> 0 <= sp < 65536 ->
  ld32 (saved m sp bp) _temp = ld32 m sp /\ ld32 (saved m sp bp) (_temp + 4) = bp /\
  ld32 (saved m sp bp) (_temp + 8) = sp + 4.
Proof.
  intros. pose proof (ld32_bounds m sp). unfold saved.
  split; [|split]; [do 2 (rewrite load_store_ne by (cbn; lia || (intros; apply in_range_false; cbn in *; lia)))
    |rewrite load_store_ne by (cbn; lia || (intros; apply in_range_false; cbn in *; lia))|];
    rewrite load_store by (cbn; lia); apply Z.mod_small; change (256 ^ Z.of_nat 4) with 4294967296; lia.
Qed.

Lemma enter_real_mode_run {A} top a c d b sp bp si di fl cr0 g m tty dev (k : unit -> prog (x86 D) A) :
  call_layout g sp top -> gdt_at m g -> Z.testbit cr0 0 = true -> 0 <= bp < 4294967296 ->
  Z.testbit (rd8 m 65534) 0 = false ->
  exists a' bp' fl' cr0', Z.testbit cr0' 0 = false /\
    bind (enter_real_mode _temp) k (X86 (Gprs a c d b sp bp si di) pm_segs fl cr0 (39, g) m tty dev) =
    k tt (X86 (Gprs a' c d b (sp + 4) bp' si di) real_segs fl' cr0' (39, g) (saved m sp bp) tty dev).
Proof.
  intros Hl Hg Hcr Hbp Hodd.
  destruct (enter_real_mode_prefix top a c d b sp bp si di fl cr0 g m tty dev k Hl Hg Hcr Hbp) as (a' & fl' & cr0' & Hpe & E).
  rewrite Hodd in Hpe. rewrite E, bind_assoc, bind_ljmp by done. repeat x_step.
  rewrite (bind_data_segments _ 0 false) by (exact Hpe || (unfold reg; x_norm; apply u16_set_low) || by intros []).
  x_norm. do 4 eexists. split; [exact Hpe|]. reflexivity.
Qed.

(** With that bit set the jump names the null selector in protected mode. *)
Lemma enter_real_mode_stuck {A} top a c d b sp bp si di fl cr0 g m tty dev (k : unit -> prog (x86 D) A) :
  call_layout g sp top -> gdt_at m g -> Z.testbit cr0 0 = true -> 0 <= bp < 4294967296 ->
  Z.testbit (rd8 m 65534) 0 = true ->
  bind (enter_real_mode _temp) k (X86 (Gprs a c d b sp bp si di) pm_segs fl cr0 (39, g) m tty dev) = Undefined.
Proof.
  intros Hl Hg Hcr Hbp Hodd.
  destruct (enter_real_mode_prefix top a c d b sp bp si di fl cr0 g m tty dev k Hl Hg Hcr Hbp) as (a' & fl' & cr0' & Hpe & ->).
  rewrite bind_assoc. unfold bind at 1, ljmp, pe. x_norm. by rewrite Hpe, Hodd.
Qed.

Lemma leave_real_mode_run {A} a c d b sp0 bp0 si di sg fl cr0 g m tty dev r sp bp (k : unit -> prog (x86 D) A) :
  0 <= sp -> sp + 8 < 65536 -> 0 <= g -> g + 40 <= 1048576 -> 0 <= _temp -> _temp + 12 <= 1048576 ->
  gdt_at m g -> Z.testbit cr0 0 = false -> ld32 m _temp = r -> ld32 m (_temp + 4) = bp -> ld32 m (_temp + 8) = sp + 4 ->
  exists fl' cr0', Z.testbit cr0' 0 = true /\
    bind (leave_real_mode _temp) k (X86 (Gprs a c d b sp0 bp0 si di) sg fl cr0 (39, g) m tty dev) =
    k tt (X86 (Gprs r c d b sp bp si di) pm_segs fl' cr0' (39, g) (st32 m sp r) tty dev).
Proof.
  intros Hs0 Hs1 Hg0 Hg1 Ht0 Ht1 Hg Hcr Hr Hbp Hsp.
  assert (forall s : x86 D, x_mem s = m -> x_gdtr s = (39, g) ->
    descriptor CODE32_SEGMENT s = Some 0x00CF9A000000FFFF /\ descriptor DATA32_SEGMENT s = Some 0x00CF92000000FFFF) as Hde.
  { intros s Em Eg. split; [apply (gdt_descriptor 1 _ g)|apply (gdt_descriptor 2 _ g)]; rewrite ?Em; done || lia. }
  unfold leave_real_mode, or, cli, cld, mov_from_cr0, mov_to_cr0. repeat x_step.
  set (v := u32 (u32 (Z.lor (u32 1) (u32 cr0)))).
  assert (Z.testbit v 0 = true) as Hv.
  { unfold v, wrap. by rewrite !Z.mod_pow2_bits_low, Z.lor_spec, Z.mod_pow2_bits_low by lia. }
  rewrite (bind_ljmp_pe _ _ 0x00CF9A000000FFFF) by first [exact Hv | by apply Hde | done]. x_norm.
  change (d_base 0x00CF9A000000FFFF) with 0. destruct sg. repeat x_step.
  rewrite (bind_data_segments_pe _ DATA32_SEGMENT 0x00CF92000000FFFF)
    by first [exact Hv | by apply Hde | done]. x_norm.
  change (d_base 0x00CF92000000FFFF) with 0. change (d_big 0x00CF92000000FFFF) with true. repeat x_step.
  rewrite !Z.add_0_l, !phys_low, Hr, Hbp, Hsp by lia.
  pose proof (ld32_bounds m _temp). pose proof (ld32_bounds m (_temp + 4)).
  rewrite !(u32_small r), !(u32_small bp), !(u32_small (sp + 4)) by lia.
  replace (sp + 4 + -4) with sp by lia. rewrite !(u32_small sp) by lia. rewrite phys_low by lia.
  do 2 eexists. split; [exact Hv|]. reflexivity.
Qed.

(** How a function finds the machine, called from [realModeCall]: real mode, the return
    address on the stack. *)
Definition real_entry (fn c d b sp si di g : Z) (m : mem) (tty : list Z) (dev : D) (s : x86 D) : Prop :=
  exists bp fl cr0, Z.testbit cr0 0 = false /\
    s = X86 (Gprs fn c d b (sp + 4) bp si di) real_segs fl cr0 (39, g) (st32 m (sp + 4) ret_addr) tty dev.

(** What [realModeCall] needs again: its variables, the table, the return address. *)
Definition own (g sp a : Z) : Prop :=
  _temp <= a < _temp + 12 \/ g <= a < g + 40 \/ sp + 4 <= a < sp + 8.

Record real_return (g sp : Z) (m : mem) (s : x86 D) : Prop := {
  rr_esp : reg ESP s = sp + 4;
  rr_stack : s_ss (x_segs s) = Seg 0 0 false;
  rr_real : pe s = false;
  rr_gdtr : x_gdtr s = (39, g);
  rr_own a : own g sp a -> rd8 (x_mem s) a = rd8 (st32 m (sp + 4) ret_addr) a;
}.

Lemma realModeCall_call top fn f a c d b sp bp si di fl cr0 g m tty dev :
  call_layout g sp top -> gdt_at m g -> Z.testbit cr0 0 = true -> 0 <= bp < 4294967296 ->
  Z.testbit (rd8 m 65534) 0 = false -> ld32 m (sp + 4) = fn -> code_at fn = Some f ->
  exists bp' fl' cr0', Z.testbit cr0' 0 = false /\
    realModeCall _temp code_at ret_addr (X86 (Gprs a c d b sp bp si di) pm_segs fl cr0 (39, g) m tty dev) =
    bind (call 32 ret_addr f) (fun _ => leave_real_mode _temp)
      (X86 (Gprs fn c d b (sp + 8) bp' si di) real_segs fl' cr0' (39, g) (saved m sp bp) tty dev).
Proof.
  intros Hl Hg Hcr Hbp Hodd Hfn Hf. destruct (id Hl) as [[Hs0 Hs1] (Ht0 & Ht1 & Ht2) _ _].
  unfold realModeCall.
  match goal with |- context [bind _ ?k (X86 _ _ _ _ _ _ _ _) = _] =>
    destruct (enter_real_mode_run top a c d b sp bp si di fl cr0 g m tty dev k Hl Hg Hcr Hbp Hodd)
      as (a1 & bp1 & fl1 & cr1 & Hpe & E) end.
  exists bp1, fl1, cr1. split; [exact Hpe|].
  rewrite E. clear E. unfold real_segs. x_step. rewrite !Z.add_0_l, (wrap_small 16 (sp + 4)), !phys_low by (pow2_simpl; lia).
  rewrite (set_low_16 (sp + 4 + 4)) by lia. replace (sp + 4 + 4) with (sp + 8) by lia.
  assert (ld32 (saved m sp bp) (sp + 4) = fn) as ->.
  { rewrite <- Hfn. apply load_ext. intros j Hj. apply saved_out; lia. }
  rewrite (u32_small fn) by (rewrite <- Hfn; apply ld32_bounds).
  unfold bind at 1, call_at, reg. x_norm. by rewrite Hf.
Qed.

Lemma realModeCall_run top fn f (Q : x86 D -> x86 D -> Prop) a c d b sp bp si di fl cr0 g m tty dev :
  call_layout g sp top -> gdt_at m g -> Z.testbit cr0 0 = true -> 0 <= bp < 4294967296 ->
  0 <= ret_addr < 4294967296 -> Z.testbit (rd8 m 65534) 0 = false ->
  ld32 m (sp + 4) = fn -> code_at fn = Some f ->
  (forall s, real_entry fn c d b sp si di g (saved m sp bp) tty dev s ->
    exists s', f s = Done tt s' /\ real_return g sp (saved m sp bp) s' /\ Q s s') ->
  exists s0 s1 fl' cr0', real_entry fn c d b sp si di g (saved m sp bp) tty dev s0 /\ Q s0 s1 /\
    Z.testbit cr0' 0 = true /\
    realModeCall _temp code_at ret_addr (X86 (Gprs a c d b sp bp si di) pm_segs fl cr0 (39, g) m tty dev) =
    Done tt (X86 (Gprs (ld32 m sp) (reg ECX s1) (reg EDX s1) (reg EBX s1) sp bp (reg ESI s1) (reg EDI s1))
      pm_segs fl' cr0' (39, g) (st32 (x_mem s1) sp (ld32 m sp)) (x_tty s1) (x_dev s1)).
Proof.
  intros Hl Hg Hcr Hbp Hra Hodd Hfn Hf Hrun. destruct (id Hl) as [[Hs0 Hs1] (Ht0 & Ht1 & Ht2) (Hg0 & Hg1 & Hg2 & Hg3) Hm].
  destruct (realModeCall_call top fn f a c d b sp bp si di fl cr0 g m tty dev Hl Hg Hcr Hbp Hodd Hfn Hf)
    as (bp1 & fl1 & cr1 & Hpe & ->).
  set (s0 := X86 (Gprs fn c d b (sp + 4) bp1 si di) real_segs fl1 cr1 (39, g) (st32 (saved m sp bp) (sp + 4) ret_addr) tty dev).
  assert (real_entry fn c d b sp si di g (saved m sp bp) tty dev s0) as H0 by (by eexists _, _, _).
  destruct (Hrun s0 H0) as (s1 & E1 & [Hesp Hss Hpe1 Hgd Hown] & HQ).
  assert (forall (p : Z), _temp <= p -> p + 4 <= _temp + 12 -> ld32 (x_mem s1) p = ld32 (saved m sp bp) p) as Htemp.
  { intros p Hp1 Hp2. apply load_ext. intros i Hi. rewrite Hown by (left; lia). apply rd8_store_out; cbn; lia. }
  assert (ld32 (x_mem s1) (sp + 4) = ret_addr) as Hret.
  { transitivity (ld32 (st32 (saved m sp bp) (sp + 4) ret_addr) (sp + 4)).
    - apply load_ext. intros i Hi. apply Hown. right. right. lia.
    - rewrite load_store by (cbn; lia). by apply Z.mod_small. }
  assert (gdt_at (x_mem s1) g) as Hg'.
  { eapply gdt_at_ext; [|exact Hg]. intros i Hi. rewrite Hown by (right; left; lia).
    rewrite rd8_store_out by (cbn; lia). apply saved_out; lia. }
  destruct s1 as [[a1 c1 d1 b1 sp1 bp2 si1 di1] sg1 fl2 cr2 gd1 m1 tty1 dev1].
  unfold reg, pe in *. cbn [gpr_get x_regs g_esp x_segs x_cr0 x_gdtr x_mem] in *. subst sp1 gd1.
  destruct sg1 as [cs1 ds1 es1 fs1 gs1 ss1]. cbn [s_ss] in Hss. subst ss1.
  set (st := X86 (Gprs fn c d b (sp + 8) bp1 si di) real_segs fl1 cr1 (39, g) (saved m sp bp) tty dev).
  assert ((let s' := move_sp (- (32 / 8)) st in stx 32 (lin SS (Asm.sp s') s') ret_addr s') = s0) as Hpush.
  { unfold st, s0, real_segs. x_norm. rewrite set_low_16 by lia.
    replace (sp + 8 + -4) with (sp + 4) by lia. by rewrite (wrap_small 16), Z.add_0_l, phys_low by (pow2_simpl; lia). }
  rewrite (bind_call _ _ _ _ _ (X86 (Gprs a1 c1 d1 b1 (sp + 4) bp2 si1 di1)
    (Segs cs1 ds1 es1 fs1 gs1 (Seg 0 0 false)) fl2 cr2 (39, g) m1 tty1 dev1)).
  2: by rewrite Hpush.
  2: { x_norm. rewrite (wrap_small 16), Z.add_0_l, phys_low, Hret, u32_small by (pow2_simpl; lia). done. }
  destruct (saved_reads m sp bp ltac:(lia) ltac:(lia) Hbp ltac:(lia)) as (R1 & R2 & R3).
  x_norm. rewrite <- bind_ret_r.
  destruct (leave_real_mode_run a1 c1 d1 b1 (set_low 16 (sp + 4 + 4) (sp + 4)) bp2 si1 di1
    (Segs cs1 ds1 es1 fs1 gs1 (Seg 0 0 false)) fl2 cr2 g m1 tty1 dev1 (ld32 m sp) sp bp ret) as (fl3 & cr3 & Hcr3 & E3);
    [lia..|exact Hg'|exact Hpe1| | | |].
  { by rewrite Htemp, R1 by lia. }
  { by rewrite Htemp, R2 by lia. }
  { by rewrite Htemp, R3 by lia. }
  exists s0. eexists _, fl3, cr3. split; [exact H0|]. split; [exact HQ|]. split; [exact Hcr3|].
  rewrite E3. reflexivity.
Qed.
End Calls.

(** ** Proofs: the functions for real mode *)

Section StubProofs.
Context {D : Type} {P : Platform D}.

(** The BIOS services as the functions the C++ code is modelled with: what they take from
    the registers and leave there; all other registers are kept. *)
Definition bios_int13 (int13 : Z -> Z -> mem -> bool * Z * mem) : Prop :=
  forall s : x86 D, pe s = false -> get_high8 (reg EAX s) = 0x42 ->
    exists dev, bios 0x13 s =
      let '(carry, ah, m) := int13 (u8 (reg EDX s)) (lin DS (u16 (reg ESI s)) s) (x_mem s) in
      set_dev dev (set_flags (put_flag 0 carry (x_flags s))
        (set_reg EAX (set_high8 ah (reg EAX s)) (set_xmem m s))).

Lemma bind_int {A} n (k : unit -> prog (x86 D) A) s s' :
  pe s = false -> n <> 16 -> bios n s = s' ->
  bind (int n) k s = k tt (set_tty (x_tty s) s').
Proof.
  intros E Hn <-. unfold bind, int. rewrite E, (proj2 (Z.eqb_neq n 16) Hn). cbn [andb]. by rewrite app_nil_r.
Qed.

Lemma cf_put_flag b v : Z.testbit (put_flag 0 b v) 0 = b.
Proof.
  unfold put_flag, set_bits. rewrite !Z.shiftl_0_r, Z.lor_spec, Z.ldiff_spec, Z.land_spec.
  change (Z.testbit (Z.ones 1) 0) with true. rewrite andb_false_r. by destruct b.
Qed.

Lemma store_1 m a v : store 1 m a v = wr8 m a v.
Proof. done. Qed.

Lemma bind_next_argument {A} r (k : unit -> prog (x86 D) A) s x y di :
  reg EDI s = set_low 16 x di -> 0 <= x -> y = x + 4 -> y < 65536 -> se_base (s_ds (x_segs s)) = 0 -> r <> EDI ->
  exists fl, bind (Stubs.next_argument r) k s =
    k tt (set_reg r (ld32 (x_mem s) y) (set_reg EDI (set_low 16 y di) (set_flags fl s))).
Proof.
  destruct s as [[a c d b sp bp si di0] [cs ds es fs gs ss] fl cr0 gdtr m tty dev]. intros Hdi Hx -> Hx4 Hds Hr.
  unfold reg in Hdi. cbn [gpr_get x_regs g_edi s_ds x_segs] in Hdi, Hds. subst di0. destruct ds as [sel base big]. cbn [se_base] in Hds. subst base.
  pose proof (ld32_bounds m (x + 4)). unfold Stubs.next_argument, add. destruct r; try done; do 3 x_step.
  all: repeat first [rewrite u16_set_low | rewrite set_low_set_low by done | rewrite (wrap_small 16 x) by (pow2_simpl; lia)
    | rewrite (wrap_small 16 4) by (pow2_simpl; lia) | rewrite (wrap_small 16 (x + 4)) by (pow2_simpl; lia)].
  all: rewrite Z.add_0_l. all: rewrite phys_low by lia. all: rewrite (u32_small (ld32 m (x + 4))) by lia.
  all: eexists; reflexivity.
Qed.

End StubProofs.

Ltac next_arg x y di :=
  match goal with |- context [bind (Stubs.next_argument ?r) ?k ?s] =>
    let fl := fresh "fl" in let E := fresh "E" in
    destruct (bind_next_argument r k s x y di) as (fl & E); [reflexivity|lia|lia|lia|reflexivity|discriminate|];
    rewrite E; clear E; x_norm
  end.

Section Functions.
Context {D : Type} {P : Platform D}.

Lemma asmCall_int13_run int13 a c d b sp bp si di fl cr0 gdtr m tty dev disk res :
  bios_int13 int13 -> Z.testbit cr0 0 = false -> 0 <= sp -> sp + 16 < 65536 ->
  ld32 m (sp + 8) = disk -> ld32 m (sp + 12) = res -> disk < 256 -> res < 1048576 ->
  exists a' fl' dev', Stubs.asmCall_int13 (X86 (Gprs a c d b (sp + 4) bp si di) real_segs fl cr0 gdtr m tty dev) =
    let '(r, m') := DiskRead.asmCall_int13 int13 disk m in
    Done tt (X86 (Gprs a' res disk b (sp + 4) bp (set_low 16 dap si) (set_low 16 (sp + 12) di))
      real_segs fl' cr0 gdtr (wr8 m' res r) tty dev').
Proof.
  intros Hb Hcr Hs0 Hs1 Hd Hr Hdk Hrs. pose proof (ld32_bounds m (sp + 8)). pose proof (ld32_bounds m (sp + 12)).
  unfold Stubs.asmCall_int13, real_segs. x_step. rewrite (wrap_small 16 (sp + 4)) by (pow2_simpl; lia).
  next_arg (sp + 4) (sp + 8) di. next_arg (sp + 8) (sp + 12) di. rewrite Hd, Hr. do 2 x_step.
  change (u32 16896) with 16896. change (u16 dap) with dap.
  match goal with |- context [bind (int _) ?k ?s] => destruct (Hb s Hcr eq_refl) as (dev' & E);
    rewrite (bind_int 19 k s _ Hcr ltac:(done) E); clear E end.
  unfold reg, lin. cbn [gpr_get x_regs g_edx g_eax g_esi x_segs seg_get s_ds se_base x_mem].
  rewrite u16_set_low, (u8_small disk) by lia. change (0 + u16 dap) with dap. unfold DiskRead.asmCall_int13.
  destruct (int13 disk dap m) as [[carry ah] m1]. x_norm. unfold jc, cf. x_norm. rewrite cf_put_flag.
  exists (set_high8 ah 16896). do 2 eexists.
  destruct carry; unfold mov, modify; x_norm; rewrite Z.add_0_l, phys_low, store_1 by lia;
    rewrite ?get_set_high8, ?(u32_small 16896) by lia; reflexivity.
Qed.

Definition bios_int12 (int12 : mem -> bool * Z * mem) : Prop :=
  forall s : x86 D, pe s = false ->
    exists dev, bios 0x12 s =
      let '(carry, ax, m) := int12 (x_mem s) in
      set_dev dev (set_flags (put_flag 0 carry (x_flags s))
        (set_reg EAX (set_low 16 ax (reg EAX s)) (set_xmem m s))).

Lemma asmCall_int12_run int12 a c d b sp bp si di fl cr0 gdtr m tty dev res :
  bios_int12 int12 -> Z.testbit cr0 0 = false -> 0 <= sp -> sp + 12 < 65536 ->
  ld32 m (sp + 8) = res -> res < 1048576 ->
  exists a' di' fl' dev', Stubs.asmCall_int12 (X86 (Gprs a c d b (sp + 4) bp si di) real_segs fl cr0 gdtr m tty dev) =
    let '(r, m') := MemDetect.asmCall_int12 int12 m in
    Done tt (X86 (Gprs a' c d res (sp + 4) bp si di') real_segs fl' cr0 gdtr (st32 m' res r) tty dev').
Proof.
  intros Hb Hcr Hs0 Hs1 Hr Hrs. pose proof (ld32_bounds m (sp + 8)).
  unfold Stubs.asmCall_int12, clc, xor, real_segs. x_step. rewrite (wrap_small 16 (sp + 4)) by (pow2_simpl; lia).
  next_arg (sp + 4) (sp + 8) di. rewrite Hr. do 2 x_step. rewrite Z.lxor_nilpotent. change (u32 (u32 0)) with 0.
  match goal with |- context [bind (int _) ?k ?s] => destruct (Hb s Hcr) as (dev' & E);
    rewrite (bind_int 18 k s _ Hcr ltac:(done) E); clear E end.
  cbn [x_mem]. unfold MemDetect.asmCall_int12.
  destruct (int12 m) as [[carry ax] m1]. x_norm. unfold jc, cf. x_norm. rewrite cf_put_flag.
  destruct carry.
  - x_step. rewrite Z.lxor_nilpotent. unfold mov, modify. x_norm. rewrite Z.add_0_l, phys_low by lia.
    do 4 eexists. reflexivity.
  - unfold mov, modify. x_norm. rewrite Z.add_0_l, phys_low by lia.
    assert (set_low 16 ax 0 = u16 ax) as -> by (unfold set_low; change (16 =? 32) with false; cbv iota; wrap_lia).
    pose proof (u16_bounds ax). rewrite (u32_small (u16 ax)) by lia. do 4 eexists. reflexivity.
Qed.

(** [%ecx] = 24 is the size of the entry asked for. *)
Definition bios_int15 (int15 : Z -> Z -> Z -> mem -> int15_result) : Prop :=
  forall s : x86 D, pe s = false -> reg EAX s = 0xE820 -> reg EDX s = eaxSignature -> reg ECX s = 24 ->
    exists dev, bios 0x15 s =
      let r := int15 (se_sel (s_es (x_segs s))) (u16 (reg EDI s)) (reg EBX s) (x_mem s) in
      set_dev dev (set_flags (put_flag 0 (r15_carry r) (x_flags s))
        (set_reg EAX (u32 (r15_eax r)) (set_reg EBX (u32 (r15_ebx r)) (set_reg ECX (u32 (r15_ecx r))
          (set_xmem (r15_mem r) s))))).
End Functions.

Section Int15.
Context {D : Type} {P : Platform D}.

(** The pointers the function puts aside. *)
Definition saved15 (temp : Z) (m : mem) (pb pa pc pk : Z) : mem :=
  st32 (st32 (st32 (st32 m temp pb) (temp + 4) pa) (temp + 8) pc) (temp + 12) pk.

Lemma saved15_out temp m pb pa pc pk x :
  0 <= temp -> temp + 16 <= 1048576 -> 0 <= x < 4294967296 -> x < temp \/ temp + 16 <= x ->
  rd8 (saved15 temp m pb pa pc pk) x = rd8 m x.
Proof. intros. unfold saved15. by rewrite !rd8_store_out by (cbn; lia). Qed.

Lemma saved15_reads temp m pb pa pc pk :
  0 <= temp -> temp + 16 <= 1048576 -> 0 <= pb < 4294967296 -> 0 <= pa < 4294967296 -> 0 <= pc < 4294967296 ->
  0 <= pk < 4294967296 -> let m1 := saved15 temp m pb pa pc pk in
  ld32 m1 temp = pb /\ ld32 m1 (temp + 4) = pa /\ ld32 m1 (temp + 8) = pc /\ ld32 m1 (temp + 12) = pk.
Proof.
  intros. unfold m1, saved15. split; [|split; [|split]];
    repeat (rewrite ld32_st32_out by lia); by rewrite ld32_st32 by lia.
Qed.

Record pointers_ok (temp sp : Z) (ps : list Z) : Prop := {
  po_temp : 0 <= temp /\ temp + 16 <= 1048576 /\ (temp + 16 <= sp + 8 \/ sp + 36 <= temp);
  po_ptrs : Forall (fun p => 0 <= p /\ p + 4 <= 1048576 /\ (p + 4 <= temp \/ temp + 16 <= p)) ps;
}.

(** The arguments of [asmCall_int15] from [p] on. *)
Record args15 (m : mem) (p off sg ebx pb pa pc pk : Z) : Prop := {
  a15_offset : ld32 m p = off; a15_segment : ld32 m (p + 4) = sg; a15_ebx : ld32 m (p + 8) = ebx;
  a15_ebxPtr : ld32 m (p + 12) = pb; a15_eaxPtr : ld32 m (p + 16) = pa; a15_ecxPtr : ld32 m (p + 20) = pc;
  a15_carryPtr : ld32 m (p + 24) = pk;
}.

Lemma asmCall_int15_run int15 temp a c d b sp bp si di fl cr0 gdtr m tty dev off sg ebx pb pa pc pk :
  bios_int15 int15 -> Z.testbit cr0 0 = false -> 0 <= sp -> sp + 36 < 65536 ->
  args15 m (sp + 8) off sg ebx pb pa pc pk -> pointers_ok temp sp [pb; pa; pc; pk] ->
  let m1 := saved15 temp m pb pa pc pk in let r := int15 (u16 sg) (u16 off) ebx m1 in
  (forall x, temp <= x < temp + 16 -> rd8 (r15_mem r) x = rd8 m1 x) ->
  exists a' c' d' b' di' fl' dev',
    Stubs.asmCall_int15 temp (X86 (Gprs a c d b (sp + 4) bp si di) real_segs fl cr0 gdtr m tty dev) =
    Done tt (X86 (Gprs a' c' d' b' (sp + 4) bp si di')
      (let z := Seg 0 0 false in Segs z z (Seg (u16 sg) (16 * u16 sg) false) z z z) fl' cr0 gdtr
      (if r15_carry r then st16 (r15_mem r) pk 1
       else st32 (st32 (st32 (r15_mem r) pb (u32 (r15_ebx r))) pa (u32 (r15_eax r))) pc (u32 (r15_ecx r))) tty dev').
Proof.
  intros Hb Hcr Hs0 Hs1 [A1 A2 A3 A4 A5 A6 A7] [Htemp Hptrs] m1 r Hkeep.
  rewrite !Forall_cons, Forall_nil in Hptrs. destruct Hptrs as (B1 & B2 & B3 & B4 & _).
  replace (sp + 8 + 4) with (sp + 12) in A2 by lia. replace (sp + 8 + 8) with (sp + 16) in A3 by lia.
  replace (sp + 8 + 12) with (sp + 20) in A4 by lia. replace (sp + 8 + 16) with (sp + 24) in A5 by lia.
  replace (sp + 8 + 20) with (sp + 28) in A6 by lia. replace (sp + 8 + 24) with (sp + 32) in A7 by lia.
  assert (forall x, 0 <= ld32 m x < 4294967296) as Hw by (intros; apply ld32_bounds).
  unfold Stubs.asmCall_int15, real_segs. x_step. rewrite (wrap_small 16 (sp + 4)) by (pow2_simpl; lia).
  next_arg (sp + 4) (sp + 8) di. next_arg (sp + 8) (sp + 12) di. rewrite A1, A2. x_step.
  rewrite bind_load_seg by exact Hcr. x_norm.
  next_arg (sp + 12) (sp + 16) di. next_arg (sp + 16) (sp + 20) di. rewrite A3, A4. x_step.
  rewrite Z.add_0_l, phys_low by lia.
  rewrite (u32_small pb) by lia.
  next_arg (sp + 20) (sp + 24) di. rewrite ld32_st32_out, A5 by lia. x_step.
  rewrite Z.add_0_l, phys_low, (u32_small pa) by lia.
  next_arg (sp + 24) (sp + 28) di. rewrite !ld32_st32_out, A6 by lia. x_step.
  rewrite Z.add_0_l, phys_low, (u32_small pc) by lia.
  next_arg (sp + 28) (sp + 32) di. rewrite !ld32_st32_out, A7 by lia. x_step.
  rewrite Z.add_0_l, phys_low, (u32_small pk) by lia.
  change (st32 (st32 (st32 (st32 m temp pb) (temp + 4) pa) (temp + 8) pc) (temp + 12) pk) with m1.
  do 4 x_step. rewrite set_low_set_low by done. unfold clc at 1. x_step.
  match goal with |- context [bind (int _) ?k ?s] => destruct (Hb s Hcr eq_refl eq_refl eq_refl) as (dev' & E);
    rewrite (bind_int 21 k s _ Hcr ltac:(done) E); clear E end.
  unfold reg. cbn [gpr_get x_regs g_ebx g_edi x_segs s_es se_sel x_mem]. rewrite u16_set_low, (wrap_wrap 16 off).
  change (int15 (u16 sg) (u16 off) ebx m1) with r. x_norm. unfold jc, cf. x_norm. rewrite cf_put_flag.
  destruct (saved15_reads temp m pb pa pc pk) as (R1 & R2 & R3 & R4); [lia..|]. fold m1 in R1, R2, R3, R4.
  assert (forall p, temp <= p -> p + 4 <= temp + 16 -> ld32 (r15_mem r) p = ld32 m1 p) as Hsv.
  { intros p Hp1 Hp2. apply load_ext. intros j Hj. apply Hkeep. lia. }
  destruct (r15_carry r).
  - x_step. unfold mov, modify. x_norm. rewrite !Z.add_0_l, (phys_low _ (temp + 12)), Hsv, R4, !(u32_small pk), phys_low by lia.
    do 7 eexists. reflexivity.
  - x_step. rewrite !Z.add_0_l, phys_low, Hsv, R1, !(u32_small pb) by lia.
    x_step. rewrite !Z.add_0_l, phys_low by lia. x_step.
    rewrite !Z.add_0_l, phys_low, ld32_st32_out, Hsv, R2, !(u32_small pa) by lia.
    x_step. rewrite !Z.add_0_l, phys_low by lia. x_step.
    rewrite !Z.add_0_l, phys_low, !ld32_st32_out, Hsv, R3, !(u32_small pc) by lia.
    unfold mov, modify. x_norm. rewrite !Z.add_0_l, phys_low, !wrap_wrap by lia. do 7 eexists. reflexivity.
Qed.
End Int15.

(** ** A call from the C++ code *)

Section Refinement.
Context {D : Type} {P : Platform D}.
Context (_temp : Z) (code_at : Z -> option (prog (x86 D) unit)) (ret_addr : Z).

(** The machine in the C++ code: 32-bit protected mode with the table of [stage1.S], stack,
    table and variables in low memory; the byte at 0xfffe is odd or even. *)
Record loader_state (odd : bool) (g top : Z) (s : x86 D) : Prop := {
  ls_segs : x_segs s = pm_segs;
  ls_pe : pe s = true;
  ls_gdtr : x_gdtr s = (39, g);
  ls_gdt : gdt_at (x_mem s) g;
  ls_layout : call_layout _temp g (reg ESP s) top;
  ls_ebp : 0 <= reg EBP s < 4294967296;
  ls_mask : Z.testbit (rd8 (x_mem s) 65534) 0 = odd;
}.

(** Memory the call itself uses: its variables and the slot of the function's address. *)
Definition call_memory (sp a : Z) : Prop := _temp <= a < _temp + 12 \/ sp + 4 <= a < sp + 8.

(** Back in the caller: the same segments, stack and frame pointer, protected mode. *)
Record call_returned (s s' : x86 D) : Prop := {
  cr_segs : x_segs s' = pm_segs;
  cr_pe : pe s' = true;
  cr_gdtr : x_gdtr s' = x_gdtr s;
  cr_esp : reg ESP s' = reg ESP s;
  cr_ebp : reg EBP s' = reg EBP s;
  cr_eip : ld32 (x_mem s') (reg ESP s) = ld32 (x_mem s) (reg ESP s);
}.

Lemma entry_memory m sp bp a :
  0 <= _temp -> _temp + 12 <= 1048576 -> 0 <= sp -> sp + 8 < 65536 -> 0 <= a < 4294967296 ->
  ~ call_memory sp a -> rd8 (st32 (saved _temp m sp bp) (sp + 4) ret_addr) a = rd8 m a.
Proof.
  intros. unfold call_memory in *. rewrite rd8_store_out by (cbn; lia). apply saved_out; lia.
Qed.

(** The caller's memory but for what the call uses. *)
Definition caller_memory (s : x86 D) (m : mem) : Prop :=
  forall x, 0 <= x < 4294967296 -> ~ call_memory (reg ESP s) x -> rd8 m x = rd8 (x_mem s) x.

(** What a function called this way is proved to do: from any entry state whose memory [m]
    is the caller's but for [call_memory], it returns in a state related to [m] by [R]. *)
Definition real_function (g : Z) (s : x86 D) (f : prog (x86 D) unit) (R : mem -> x86 D -> Prop) : Prop :=
  forall a bp fl cr0 m, Z.testbit cr0 0 = false ->
    (forall x, 0 <= x < 4294967296 -> ~ call_memory (reg ESP s) x -> rd8 m x = rd8 (x_mem s) x) ->
    exists s1,
      f (X86 (Gprs a (reg ECX s) (reg EDX s) (reg EBX s) (reg ESP s + 4) bp (reg ESI s) (reg EDI s))
        real_segs fl cr0 (39, g) m (x_tty s) (x_dev s)) = Done tt s1 /\
      reg ESP s1 = reg ESP s + 4 /\ s_ss (x_segs s1) = Seg 0 0 false /\ pe s1 = false /\ x_gdtr s1 = (39, g) /\
      (forall x, own _temp g (reg ESP s) x -> rd8 (x_mem s1) x = rd8 m x) /\ R m s1.

Lemma call_lemma f R g top s :
  loader_state false g top s -> 0 <= ret_addr < 4294967296 ->
  code_at (ld32 (x_mem s) (reg ESP s + 4)) = Some f -> real_function g s f R ->
  exists m1 s1 s', realModeCall _temp code_at ret_addr s = Done tt s' /\ call_returned s s' /\ R m1 s1 /\
    (forall x, 0 <= x < 4294967296 -> ~ call_memory (reg ESP s) x -> rd8 m1 x = rd8 (x_mem s) x) /\
    (forall x, 0 <= x < 4294967296 -> ~ (reg ESP s <= x < reg ESP s + 4) -> rd8 (x_mem s') x = rd8 (x_mem s1) x) /\
    reg EBX s' = reg EBX s1 /\ reg EDI s' = reg EDI s1 /\ reg ESI s' = reg ESI s1.
Proof.
  destruct s as [[a c d b sp bp si di] sg fl cr0 gd m tty dev].
  intros [Hsg Hpe Hgd Hg Hl Hbp Hmask] Hra Hcode Hf. unfold real_function in Hf.
  unfold pe, reg in *. cbn [x_segs x_cr0 x_gdtr x_mem gpr_get x_regs g_ebp g_esp g_eax g_ecx g_edx g_ebx g_esi g_edi x_tty x_dev] in *.
  subst sg gd. destruct (id Hl) as [(Hs0 & Hs1 & Hs2) (Ht0 & Ht1 & Ht2) _ _].
  set (m1 := st32 (saved _temp m sp bp) (sp + 4) ret_addr).
  assert (forall x, 0 <= x < 4294967296 -> ~ call_memory sp x -> rd8 m1 x = rd8 m x) as Hm1
    by (intros x Hx Hc; apply entry_memory; lia || done).
  destruct (realModeCall_run _temp code_at ret_addr top _ _ (fun _ s2 => R m1 s2) a c d b sp bp si di fl cr0 g m tty dev
    Hl Hg Hpe Hbp Hra Hmask eq_refl Hcode) as (s0 & s1 & fl' & cr' & _ & HR & Hcr' & E).
  { intros s (bp1 & fl1 & cr1 & Hcr1 & ->).
    destruct (Hf (ld32 m (sp + 4)) bp1 fl1 cr1 m1 Hcr1 Hm1) as (s1 & E & H1 & H2 & H3 & H4 & H5 & HR).
    exists s1. split; [exact E|]. split; [by split|exact HR]. }
  exists m1, s1. eexists. split; [exact E|]. split; [|split; [exact HR|split; [exact Hm1|split; [|done]]]].
  - split; try reflexivity; [exact Hcr'|]. cbn [x_mem]. unfold reg. cbn [gpr_get x_regs g_esp].
    rewrite load_store by (cbn; lia). apply Z.mod_small, ld32_bounds.
  - intros x Hx Hc. cbn [x_mem]. by rewrite rd8_store_out by (cbn; lia).
Qed.

(** The arguments of a call are still there when the function runs. *)
Lemma call_argument g top s m p :
  loader_state false g top s -> reg ESP s + 8 <= p -> p + 4 <= top ->
  (forall x, 0 <= x < 4294967296 -> ~ call_memory (reg ESP s) x -> rd8 m x = rd8 (x_mem s) x) ->
  ld32 m p = ld32 (x_mem s) p.
Proof.
  intros [_ _ _ _ [? ? ? _] _ _] Hp1 Hp2 H. apply load_ext. intros i Hi. apply H; [lia|]. unfold call_memory. lia.
Qed.

(** C6: [diskRead16]'s call through [realModeCall] does what the model of the stub says: from
    32-bit protected mode, with the disk number and the address of the result on the stack,
    it comes back to the caller in protected mode with the same segments, stack and frame
    pointer, and memory is that of [DiskRead.asmCall_int13] run on the caller's memory, with
    the result stored where the argument says; the registers %edi and %esi, which the C++
    code expects to be kept, are changed. *)
Theorem realModeCall_int13 int13 g top s sp disk res :
  reg ESP s = sp -> ld32 (x_mem s) (sp + 8) = disk -> ld32 (x_mem s) (sp + 12) = res ->
  loader_state false g top s -> sp + 16 <= top -> 0 <= ret_addr < 4294967296 -> bios_int13 int13 ->
  code_at (ld32 (x_mem s) (sp + 4)) = Some Stubs.asmCall_int13 ->
  disk < 256 -> res < 1048576 -> ~ own _temp g sp res ->
  (forall m a, caller_memory s m -> own _temp g sp a -> rd8 (snd (int13 disk dap m)) a = rd8 m a) ->
  exists m1 s', realModeCall _temp code_at ret_addr s = Done tt s' /\ call_returned s s' /\
    (forall a, 0 <= a < 4294967296 -> ~ call_memory sp a -> rd8 m1 a = rd8 (x_mem s) a) /\
    (let '(r, m2) := DiskRead.asmCall_int13 int13 disk m1 in
     forall a, 0 <= a < 4294967296 -> ~ (sp <= a < sp + 4) ->
       rd8 (x_mem s') a = if a =? res then u8 r else rd8 m2 a) /\
    reg EDI s' = set_low 16 (sp + 12) (reg EDI s) /\ reg ESI s' = set_low 16 dap (reg ESI s).
Proof.
  intros <- Hdisk Hres Hls Htop Hra Hb Hcode Hdk Hr Hown Hkeep.
  destruct (id (ls_layout _ _ _ _ Hls)) as [(Hs0 & Hs1 & Hs2) (Ht0 & Ht1 & Ht2) (Hg0 & Hg1 & Hg2 & Hg3) _].
  pose proof (ld32_bounds (x_mem s) (reg ESP s + 12)) as Hb12.
  destruct (call_lemma _ (fun m s1 => let '(r, m2) := DiskRead.asmCall_int13 int13 disk m in
      x_mem s1 = wr8 m2 res r /\ reg EDI s1 = set_low 16 (reg ESP s + 12) (reg EDI s) /\
      reg ESI s1 = set_low 16 dap (reg ESI s)) g top s Hls Hra Hcode)
    as (m1 & s1 & s' & E & Hret & HR & Hm1 & Hout & _ & Hdi & Hsi).
  { intros a bp fl cr0 m Hcr Hm.
    destruct (asmCall_int13_run int13 a (reg ECX s) (reg EDX s) (reg EBX s) (reg ESP s) bp (reg ESI s) (reg EDI s) fl cr0
      (39, g) m (x_tty s) (x_dev s) disk res) as (a' & fl2 & dev2 & E); [done|done|lia|lia| | |lia|lia|].
    1, 2: by rewrite (call_argument g top s) by (done || lia).
    pose proof (fun x => Hkeep m x Hm) as Hk. unfold DiskRead.asmCall_int13 in *.
    destruct (int13 disk dap m) as [[carry ah] m2]. cbn [snd] in Hk.
    destruct carry; (eexists; split; [exact E|]; do 4 (split; [done|]); split; [|done];
      intros x Hx; cbn [x_mem]; rewrite rd8_wr8_ne; [by apply Hk|]; rewrite !u32_small;
      unfold own in *; try lia; intros ->; auto). }
  exists m1, s'. split; [exact E|]. split; [exact Hret|]. split; [exact Hm1|]. rewrite Hdi, Hsi.
  destruct (DiskRead.asmCall_int13 int13 disk m1) as [r m2]. destruct HR as (Em & -> & ->).
  split; [|done]. intros x Hx Hc. rewrite Hout, Em by done.
  destruct (Z.eqb_spec x res) as [->|Hne]; [by rewrite rd8_wr8_eq|].
  rewrite rd8_wr8_ne; [done|]. rewrite !u32_small by lia. congruence.
Qed.

(** The same for the size of the lower memory. *)
Lemma realModeCall_int12 int12 g top s sp res :
  reg ESP s = sp -> ld32 (x_mem s) (sp + 8) = res ->
  loader_state false g top s -> sp + 12 <= top -> 0 <= ret_addr < 4294967296 -> bios_int12 int12 ->
  code_at (ld32 (x_mem s) (sp + 4)) = Some Stubs.asmCall_int12 ->
  res + 4 <= 1048576 -> (forall i, 0 <= i < 4 -> ~ own _temp g sp (res + i)) ->
  (forall m a, caller_memory s m -> own _temp g sp a -> rd8 (snd (int12 m)) a = rd8 m a) ->
  exists m1 s', realModeCall _temp code_at ret_addr s = Done tt s' /\ call_returned s s' /\
    (forall a, 0 <= a < 4294967296 -> ~ call_memory sp a -> rd8 m1 a = rd8 (x_mem s) a) /\
    (let '(r, m2) := MemDetect.asmCall_int12 int12 m1 in
     forall a, 0 <= a < 4294967296 -> ~ (sp <= a < sp + 4) -> rd8 (x_mem s') a = rd8 (st32 m2 res r) a) /\
    reg EBX s' = res.
Proof.
  intros <- Hres Hls Htop Hra Hb Hcode Hr Hown Hkeep.
  destruct (id (ls_layout _ _ _ _ Hls)) as [(Hs0 & Hs1 & Hs2) (Ht0 & Ht1 & Ht2) (Hg0 & Hg1 & Hg2 & Hg3) _].
  pose proof (ld32_bounds (x_mem s) (reg ESP s + 8)) as Hb8.
  destruct (call_lemma _ (fun m s1 => let '(r, m2) := MemDetect.asmCall_int12 int12 m in
      x_mem s1 = st32 m2 res r /\ reg EBX s1 = res) g top s Hls Hra Hcode)
    as (m1 & s1 & s' & E & Hret & HR & Hm1 & Hout & Hbx & _).
  { intros a bp fl cr0 m Hcr Hm.
    destruct (asmCall_int12_run int12 a (reg ECX s) (reg EDX s) (reg EBX s) (reg ESP s) bp (reg ESI s) (reg EDI s) fl cr0
      (39, g) m (x_tty s) (x_dev s) res) as (a' & di' & fl2 & dev2 & E); [done|done|lia|lia| |lia|].
    1: by rewrite (call_argument g top s) by (done || lia).
    pose proof (fun x => Hkeep m x Hm) as Hk. unfold MemDetect.asmCall_int12 in *.
    destruct (int12 m) as [[carry ax] m2]. cbn [snd] in Hk.
    destruct carry; (eexists; split; [exact E|]; do 4 (split; [done|]); split; [|done];
      intros x Hx; cbn [x_mem]; rewrite rd8_store_out; [by apply Hk|lia|cbn; lia|cbn; lia|unfold own in Hx; lia|];
      destruct (Z.lt_ge_cases x res); [by left|]; destruct (Z.lt_ge_cases x (res + 4)); [|right; cbn; lia];
      destruct (Hown (x - res)); [lia|]; by replace (res + (x - res)) with x by lia). }
  exists m1, s'. split; [exact E|]. split; [exact Hret|]. split; [exact Hm1|]. rewrite Hbx.
  destruct (MemDetect.asmCall_int12 int12 m1) as [r m2]. destruct HR as (Em & ->).
  split; [|done]. intros x Hx Hc. by rewrite Hout, Em.
Qed.

(** A store of [n] bytes at a pointer that stays off a set of addresses. *)
Lemma store_keeps (Q : Z -> Prop) n m p v x :
  0 <= p -> p + Z.of_nat n <= 1048576 -> 0 <= x < 4294967296 -> (forall i, 0 <= i < Z.of_nat n -> ~ Q (p + i)) -> Q x ->
  rd8 (store n m p v) x = rd8 m x.
Proof.
  intros Hp Hp4 Hx Hq HQ. apply rd8_store_out; [lia..|].
  destruct (Z.lt_ge_cases x p); [by left|]. destruct (Z.lt_ge_cases x (p + Z.of_nat n)); [|by right].
  destruct (Hq (x - p)); [lia|]. by replace (p + (x - p)) with x by lia.
Qed.

(** C20: [queryUpperMemory]'s call through [realModeCall] stores through its four pointers what
    the model of the stub returns for the memory the BIOS sees, which is the caller's but for
    the variables of the two assembly files: on success the continuation value, the signature
    and the size, on carry the failure flag. *)
Theorem realModeCall_int15 int15 temp g top s sp off sg ebx pb pa pc pk :
  reg ESP s = sp -> args15 (x_mem s) (sp + 8) off sg ebx pb pa pc pk ->
  loader_state false g top s -> sp + 36 <= top -> 0 <= ret_addr < 4294967296 -> bios_int15 int15 ->
  code_at (ld32 (x_mem s) (sp + 4)) = Some (Stubs.asmCall_int15 temp) ->
  pointers_ok temp sp [pb; pa; pc; pk] -> (forall i, 0 <= i < 16 -> ~ own _temp g sp (temp + i)) ->
  Forall (fun p => forall i, 0 <= i < 4 -> ~ own _temp g sp (p + i)) [pb; pa; pc; pk] ->
  (forall m a, (exists m0, caller_memory s m0 /\ m = saved15 temp m0 pb pa pc pk) ->
    own _temp g sp a \/ temp <= a < temp + 16 ->
    rd8 (r15_mem (int15 (u16 sg) (u16 off) ebx m)) a = rd8 m a) ->
  exists m1 s', realModeCall _temp code_at ret_addr s = Done tt s' /\ call_returned s s' /\
    (forall a, 0 <= a < 4294967296 -> ~ call_memory sp a -> ~ (temp <= a < temp + 16) -> rd8 m1 a = rd8 (x_mem s) a) /\
    let r := MemDetect.asmCall_int15 int15 off sg ebx m1 in
    forall a, 0 <= a < 4294967296 -> ~ (sp <= a < sp + 4) ->
      rd8 (x_mem s') a = rd8 (if r15_carry r then st16 (r15_mem r) pk 1
        else st32 (st32 (st32 (r15_mem r) pb (u32 (r15_ebx r))) pa (u32 (r15_eax r))) pc (u32 (r15_ecx r))) a.
Proof.
  intros <- [A1 A2 A3 A4 A5 A6 A7] Hls Htop Hra Hb Hcode Hpo Htown Hpown Hkeep.
  destruct (id (ls_layout _ _ _ _ Hls)) as [(Hs0 & Hs1 & Hs2) (Ht0 & Ht1 & Ht2) (Hg0 & Hg1 & Hg2 & Hg3) _].
  destruct (id Hpo) as [Htemp Hptrs]. rewrite !Forall_cons, Forall_nil in Hptrs, Hpown.
  destruct Hptrs as (B1 & B2 & B3 & B4 & _), Hpown as (O1 & O2 & O3 & O4 & _).
  destruct (call_lemma _ (fun m s1 => let m1 := saved15 temp m pb pa pc pk in
      let r := MemDetect.asmCall_int15 int15 off sg ebx m1 in
      x_mem s1 = if r15_carry r then st16 (r15_mem r) pk 1
        else st32 (st32 (st32 (r15_mem r) pb (u32 (r15_ebx r))) pa (u32 (r15_eax r))) pc (u32 (r15_ecx r)))
      g top s Hls Hra Hcode)
    as (m1 & s1 & s' & E & Hret & HR & Hm1 & Hout & _).
  { intros a bp fl cr0 m Hcr Hm.
    destruct (asmCall_int15_run int15 temp a (reg ECX s) (reg EDX s) (reg EBX s) (reg ESP s) bp (reg ESI s) (reg EDI s)
      fl cr0 (39, g) m (x_tty s) (x_dev s) off sg ebx pb pa pc pk) as (a' & c' & d' & b' & di' & fl' & dev' & E);
      [done|done|lia|lia| |done|by intros; apply Hkeep; [exists m|right]|].
    { split; rewrite (call_argument g top s) by (done || lia); done. }
    eexists. split; [exact E|]. do 4 (split; [done|]). split; [|done].
    intros x Hx. cbn [x_mem]. assert (0 <= x < 4294967296) as Hxr by (unfold own in Hx; lia).
    transitivity (rd8 (saved15 temp m pb pa pc pk) x).
    - rewrite <- (Hkeep (saved15 temp m pb pa pc pk) x) by (by exists m || by left). destruct (r15_carry _).
      + apply (store_keeps (own _temp g (reg ESP s))); [lia|cbn; lia|lia| |done]. intros i Hi. apply O4. cbn in Hi. lia.
      + by rewrite !(store_keeps (own _temp g (reg ESP s))) by first [lia | exact O1 | exact O2 | exact O3 | exact Hx].
    - apply saved15_out; [lia..|]. destruct (Z.lt_ge_cases x temp); [by left|].
      destruct (Z.lt_ge_cases x (temp + 16)); [|by right]. destruct (Htown (x - temp)); [lia|].
      by replace (temp + (x - temp)) with x by lia. }
  exists (saved15 temp m1 pb pa pc pk), s'. split; [exact E|]. split; [exact Hret|]. split.
  - intros x Hx Hc Ht. rewrite saved15_out by lia. by apply Hm1.
  - intros r x Hx Hc. rewrite Hout by done. by rewrite HR.
Qed.

Lemma realModeCall_odd g top s :
  loader_state true g top s -> realModeCall _temp code_at ret_addr s = Undefined.
Proof.
  destruct s as [[a c d b sp bp si di] sg fl cr0 gd m tty dev]. intros [Hsg Hpe Hgd Hg Hl Hbp Hmask].
  unfold pe, reg in *. cbn [x_segs x_cr0 x_gdtr x_mem gpr_get x_regs g_ebp g_esp] in *. subst sg gd.
  exact (enter_real_mode_stuck _temp top a c d b sp bp si di fl cr0 g m tty dev _ Hl Hg Hpe Hbp Hmask).
Qed.

(** [Machine.real_mode_call], with which the C++ code is modelled, is this call: for memory
    that is the caller's but for the call's own, it faults when the assembly does, and
    otherwise runs the function, as [realModeCall_int12] to [realModeCall_int15] say the
    assembly does. *)
Lemma real_mode_call_agrees {A} (fn : mem -> A * mem) odd g top s gm :
  loader_state odd g top s -> reg ESP s + 8 <= mask_address ->
  (forall a, 0 <= a < 4294967296 -> ~ call_memory (reg ESP s) a -> rd8 (m_ram gm) a = rd8 (x_mem s) a) ->
  if odd then realModeCall _temp code_at ret_addr s = Undefined /\ real_mode_call fn gm = Undefined
  else real_mode_call fn gm = let '(r, m) := fn (m_ram gm) in Done r (set_ram m gm).
Proof.
  intros Hls Hsp Hm. destruct (id Hls) as [_ _ _ _ Hlay _ Hmask].
  change 65534 with mask_address in Hmask. rewrite <- (Hm mask_address) in Hmask.
  - unfold real_mode_call. destruct odd; rewrite Hmask; [|done]. split; [by eapply realModeCall_odd|done].
  - unfold mask_address. lia.
  - destruct Hlay as [_ _ _ Hl]. unfold call_memory, mask_address in *. lia.
Qed.

(** C25: [and ~0x01, %al] reads its mask from memory at 0xfffe, an address of the boot loader's
    heap: with an odd byte there the processor stays in protected mode, and the jump to the
    null selector that follows has no meaning. *)
Theorem realModeCall_stuck g top s :
  loader_state true g top s -> realModeCall _temp code_at ret_addr s = Undefined.
Proof. apply realModeCall_odd. Qed.
End Refinement.

(** ** Examples: a platform made of the services of the other files, a call on the stack *)

Definition example_platform (rs : list region) (image : Z -> Z -> Z) : Platform unit := {|
  a20 _ := true;
  port_in _ d := (0, d);
  port_out _ _ d := d;
  bios n s :=
    if n =? 0x13 then
      let '(carry, ah, m) := example_int13 image (u8 (reg EDX s)) (lin DS (u16 (reg ESI s)) s) (x_mem s) in
      set_flags (put_flag 0 carry (x_flags s)) (set_reg EAX (set_high8 ah (reg EAX s)) (set_xmem m s))
    else if n =? 0x15 then
      let r := example_int15 rs (se_sel (s_es (x_segs s))) (u16 (reg EDI s)) (reg EBX s) (x_mem s) in
      set_flags (put_flag 0 (r15_carry r) (x_flags s))
        (set_reg EAX (u32 (r15_eax r)) (set_reg EBX (u32 (r15_ebx r)) (set_reg ECX (u32 (r15_ecx r))
          (set_xmem (r15_mem r) s))))
    else s |}.

Lemma example_bios_int13 rs image : @bios_int13 unit (example_platform rs image) (example_int13 image).
Proof.
  intros s _ _. exists tt. destruct s as [? ? ? ? ? ? ? []]. unfold bios, example_platform. cbn [Z.eqb Pos.eqb].
  by destruct (example_int13 image _ _ _) as [[? ?] ?].
Qed.

Lemma example_bios_int15 rs image : @bios_int15 unit (example_platform rs image) (example_int15 rs).
Proof. intros s _ _ _ _. exists tt. cbn. by destruct s as [? ? ? ? ? ? ? []]. Qed.

(** The table at 0x3000, [_temp] at 0x3100, a request for one sector to 0x70000. *)
Definition example_memory (frame : list Z) (odd : Z) : mem :=
  write_bytes (write_bytes (write_bytes (write_bytes ∅ 12288 (flat_map (bytes_le 8) stage1_gdt))
    dap ([16; 0; 1; 0; 0; 0; 0; 112] ++ bytes_le 8 7)) 1792 (flat_map (bytes_le 4) frame)) 65534 [odd].

Definition example_caller (m : mem) : x86 unit :=
  X86 (Gprs 0 0 0 0 1792 2000 0 0) pm_segs 2 17 (39, 12288) m [] tt.

Lemma example_loader_state frame odd :
  gdt_at (example_memory frame odd) 12288 -> Z.testbit (rd8 (example_memory frame odd) 65534) 0 = Z.odd odd ->
  loader_state 12544 (Z.odd odd) 12288 2047 (example_caller (example_memory frame odd)).
Proof.
  intros Hg Hm. split; try done. split; cbn; lia.
Qed.

Ltac example_gdt :=
  unfold gdt_at; intros i d Hi; do 5 (destruct i as [|i]; [injection Hi as <-; vm_compute; reflexivity|]); discriminate.

Lemma realModeCall_stuck_witness :
  @realModeCall unit (example_platform [] (fun _ _ => 0)) 12544 (fun _ => None) 0
    (example_caller (example_memory [0] 1)) = Undefined.
Proof.
  apply (@realModeCall_stuck unit _ 12544 _ 0 12288 2047), (example_loader_state [0] 1); [example_gdt|].
  vm_compute. reflexivity.
Defined.

Definition example_code (f : prog (x86 unit) unit) (a : Z) : option (prog (x86 unit) unit) :=
  if a =? 8192 then Some f else None.

(** The request is read from the 16 bytes of the packet. *)
Lemma dap_request_ext m m' :
  (forall i, 0 <= i < 16 -> rd8 m' (dap + i) = rd8 m (dap + i)) -> dap_request m' = dap_request m.
Proof.
  intros H. unfold dap_request.
  assert (forall f, existsb (String.eqb f) ["size"; "LBA"; "numSectors"; "buffer"]%string = true ->
    get DAP f m' dap = get DAP f m dap) as E; [|by rewrite !E].
  intros f Hf. unfold get. apply load_ext. intros i Hi. rewrite <- Z.add_assoc. apply H.
  assert (0 <= offsetof DAP f /\ offsetof DAP f + Z.of_nat (Z.to_nat (fieldsize DAP f)) <= 16); [|lia].
  apply existsb_exists in Hf as (f' & Hin & ->%String.eqb_eq).
  cbn [In] in Hin. destruct Hin as [<-|[<-|[<-|[<-|[]]]]]; split; vm_compute; discriminate.
Qed.

Definition example_frame13 : list Z := [4096; 8192; 128; 2032].

Lemma realModeCall_int13_witness :
  let _ := example_platform [] (fun lba i => u8 (lba + i)) in
  let s := example_caller (example_memory example_frame13 0) in
  exists s', realModeCall 12544 (example_code Stubs.asmCall_int13) 65536 s = Done tt s' /\ call_returned s s' /\
    rd8 (x_mem s') 2032 = 0 /\ rd8 (x_mem s') (458752 + 5) = 12.
Proof.
  intros pl s.
  destruct (@realModeCall_int13 unit pl 12544 (example_code Stubs.asmCall_int13) 65536
    (example_int13 (fun lba i => u8 (lba + i))) 12288 2047 s 1792 128 2032) as (m1 & s' & E & Hret & Hm1 & Hm & _).
  - reflexivity.
  - vm_compute. reflexivity.
  - vm_compute. reflexivity.
  - apply (example_loader_state example_frame13 0); [example_gdt|vm_compute; reflexivity].
  - lia.
  - lia.
  - apply example_bios_int13.
  - assert (ld32 (x_mem s) (1792 + 4) = 8192) as -> by (vm_compute; reflexivity). reflexivity.
  - lia.
  - lia.
  - unfold own. lia.
  - intros m a Hc Ho. unfold example_int13. rewrite (dap_request_ext (x_mem s)).
    + replace (dap_request (x_mem s)) with (16, 7, 1, 458752) by (vm_compute; reflexivity). cbn [Z.eqb Pos.eqb snd].
      rewrite rd8_write_bytes by (vm_compute; reflexivity). unfold own in Ho.
      rewrite lookup_ge_None_2; [done|]. unfold sector_bytes. rewrite length_map, length_seqZ. wrap_lia.
    + intros i Hi. apply Hc; [unfold dap; lia|]. unfold call_memory, dap, reg. cbn. lia.
  - exists s'. split; [exact E|]. split; [exact Hret|].
    assert (dap_request m1 = (16, 7, 1, 458752)) as Hd.
    { rewrite (dap_request_ext (x_mem s)); [vm_compute; reflexivity|].
      intros i Hi. apply Hm1; [unfold dap; lia|]. unfold call_memory, dap. lia. }
    unfold DiskRead.asmCall_int13, example_int13 in Hm. rewrite Hd in Hm. cbn [Z.eqb Pos.eqb] in Hm.
    split; [rewrite Hm by lia; reflexivity|]. rewrite Hm by lia. cbn [Z.eqb Pos.eqb Z.add].
    rewrite rd8_write_bytes by (vm_compute; reflexivity). vm_compute. reflexivity.
Defined.

(** The buffer for an entry at 0x5000, the pointers of the call at 0x3300. *)
Definition example_frame15 : list Z := [4096; 8192; 0; 1280; 0; 13056; 13060; 13064; 13068].
Definition example_region : region := Region 0 654336 1.

Lemma realModeCall_int15_witness :
  let _ := example_platform [example_region] (fun _ _ => 0) in
  let s := example_caller (example_memory example_frame15 0) in
  exists s', realModeCall 12544 (example_code (Stubs.asmCall_int15 12800)) 65536 s = Done tt s' /\
    call_returned s s' /\ ld32 (x_mem s') 13064 = 20.
Proof.
  intros pl s.
  assert (forall m, r15_mem (example_int15 [example_region] (u16 1280) (u16 0) 0 m) =
    write_bytes m 20480 (region_bytes example_region)) as Eb by reflexivity.
  destruct (@realModeCall_int15 unit pl 12544 (example_code (Stubs.asmCall_int15 12800)) 65536
    (example_int15 [example_region]) 12800 12288 2047 s 1792 0 1280 0 13056 13060 13064 13068)
    as (m1 & s' & E & Hret & _ & Hm).
  - reflexivity.
  - split; vm_compute; reflexivity.
  - apply (example_loader_state example_frame15 0); [example_gdt|vm_compute; reflexivity].
  - lia.
  - lia.
  - apply example_bios_int15.
  - assert (ld32 (x_mem s) (1792 + 4) = 8192) as -> by (vm_compute; reflexivity). reflexivity.
  - split; [lia|]. repeat constructor; lia.
  - intros i Hi. unfold own. lia.
  - repeat constructor; intros i Hi; unfold own; lia.
  - intros m a _ Ha. rewrite Eb, rd8_write_bytes by (vm_compute; reflexivity). unfold own in Ha.
    rewrite lookup_ge_None_2; [done|]. replace (List.length _) with 20%nat by reflexivity. wrap_lia.
  - exists s'. split; [exact E|]. split; [exact Hret|]. unfold MemDetect.asmCall_int15 in Hm.
    rewrite Eb in Hm. change (r15_carry _) with false in Hm. change (u32 (r15_ecx _)) with 20 in Hm. cbv iota in Hm.
    erewrite load_ext by (intros i Hi; apply Hm; lia). rewrite ld32_st32; [reflexivity|lia].
Defined.
