(* ===== verification/Teletype.v ===== *)
(** What the 16-bit code of [stage0.S] and [stage1.S] shares: [write_loop] and [error],
    which both files contain, the stack of real mode, and what the BIOS may change. *)

From S2P Require Import Prelude PhysMem Layout CString Cpu X86 RealMode.
Import Asm.

Local Open Scope list_scope.
Local Open Scope Z_scope.

Section Code.
Context {D : Type} {P : Platform D}.

Abbreviation code := (prog (x86 D) unit).

(** A round a character. *)
Fixpoint write_loop (fuel : nat) : code :=
  match fuel with
  | O => fun _ => OutOfFuel
  | S fuel' =>
      do* xor 8 (Hi EBX) (Hi EBX) in
      do* lodsb in
      do* or 8 (Lo EAX) (Lo EAX) in
      je (ret tt) (do* mov 8 (Imm 0x0e) (Hi EAX) in do* int 0x10 in write_loop fuel')
  end.

(** [ra] is where the call returns to. *)
Definition error {A} (ra : Z) (fuel : nat) : prog (x86 D) A :=
  do* call 16 ra (write_loop fuel) in
  do* cli in
  hlt.
End Code.

Lemma panics_eq {S A} (c c' : nat -> prog S A) s s' msg t :
  (forall fuel, c fuel s = c' fuel s') -> panics c' s' msg t -> panics c s msg t.
Proof. intros E [n H]. exists n. intros fuel Hf. rewrite E. by apply H. Qed.

(** What a fuelled program ends with, once the fuel is enough. *)
Definition ends {S A} (c : nat -> prog S A) (s : S) (Q : outcome S A -> Prop) : Prop :=
  exists n o, Q o /\ forall fuel, (n < fuel)%nat -> c fuel s = o.

Lemma ends_done {S A} (c : nat -> prog S A) s a s' (Q : outcome S A -> Prop) :
  (forall fuel, c fuel s = Done a s') -> Q (Done a s') -> ends c s Q.
Proof. intros E HQ. exists 0%nat, (Done a s'). by split. Qed.

Lemma ends_eq {S A} (c c' : nat -> prog S A) s s' Q : (forall fuel, c fuel s = c' fuel s') -> ends c' s' Q -> ends c s Q.
Proof. intros E (n & o & HQ & H). exists n, o. split; [done|]. intros fuel Hf. rewrite E. by apply H. Qed.

Lemma ends_mono {S A} (c : nat -> prog S A) s (Q Q' : outcome S A -> Prop) :
  ends c s Q -> (forall o, Q o -> Q' o) -> ends c s Q'.
Proof. intros (n & o & HQ & H) HQQ. exists n, o. split; [by apply HQQ|done]. Qed.

Definition returning {S A} (R : A -> S -> Prop) (o : outcome S A) : Prop := exists a s', o = Done a s' /\ R a s'.

(** A first part that returns. *)
Lemma ends_bind {S A B} (c : nat -> prog S A) (k : nat -> A -> prog S B) s (R : A -> S -> Prop) Q :
  ends c s (returning R) ->
  (forall a s', R a s' -> ends (fun fuel => k fuel a) s' Q) ->
  ends (fun fuel => bind (c fuel) (k fuel)) s Q.
Proof.
  intros (n & o & (a & s' & -> & HR) & H) Hk. destruct (Hk a s' HR) as (n' & o' & HQ & H').
  exists (n + n')%nat, o'. split; [done|]. intros fuel Hf. rewrite (bind_Done _ _ _ _ _ (H fuel ltac:(lia))).
  apply H'. lia.
Qed.

Lemma ends_modify {S A} f (k : nat -> unit -> prog S A) s Q :
  ends (fun fuel => k fuel tt) (f s) Q -> ends (fun fuel => bind (modify f) (k fuel)) s Q.
Proof. intros H. exact H. Qed.

(** ** Memory the BIOS and the code below a stack pointer leave alone *)

Definition kept (sp : Z) (m m' : mem) : Prop :=
  forall a, sp <= a < 720896 \/ 786432 <= a < 4294967296 -> rd8 m' a = rd8 m a.

Lemma kept_refl sp m : kept sp m m.
Proof. done. Qed.

Lemma kept_trans sp m1 m2 m3 : kept sp m1 m2 -> kept sp m2 m3 -> kept sp m1 m3.
Proof. intros H1 H2 a Ha. by rewrite H2, H1. Qed.

Lemma kept_weaken sp sp' m m' : sp <= sp' -> kept sp m m' -> kept sp' m m'.
Proof. intros Hs H a Ha. apply H. lia. Qed.

Lemma kept_store n sp m m' a v :
  kept sp m m' -> 0 <= a -> a + Z.of_nat n <= sp -> sp < 65536 -> kept sp m (store n m' a v).
Proof. intros H Ha Hn Hs b Hb. rewrite rd8_store_out by lia. by apply H. Qed.

Lemma kept_load n sp m m' a :
  kept sp m m' -> sp <= a -> a + Z.of_nat n <= 524288 -> load n m' a = load n m a.
Proof. intros H Ha Hn. apply load_ext. intros i Hi. apply H. lia. Qed.

Lemma kept_cstring sp m m' p l :
  kept sp m m' -> sp <= p -> p + Z.of_nat (List.length l) < 524288 -> cstring_at m p l -> cstring_at m' p l.
Proof. intros H Hp Hl. apply cstring_at_ext. intros i Hi. apply H. lia. Qed.

#[export] Hint Resolve kept_refl : core.

Definition z16 : seg := Seg 0 0 false.

(** ** The teletype service *)

Section Output.
Context {D : Type} {P : Platform D}.

(** Documented behaviour: registers are kept but for %eax; of memory the service changes its
    stack frame below the stack pointer, its variables there (they end at 0x500, the stack
    lies above) and the text screens between 0xb0000 and 0xc0000. *)
Definition bios_tty : Prop :=
  forall s : x86 D, pe s = false -> get_high8 (reg EAX s) = 14 ->
    exists a m dev, bios 0x10 s = set_reg EAX a (set_dev dev (set_xmem m s)) /\
      kept (u16 (reg ESP s)) (x_mem s) m /\ a20 dev = a20 (x_dev s).

Hypothesis Htty : bios_tty.

Lemma bind_int10_tty s :
  pe s = false -> get_high8 (reg EAX s) = 14 ->
  exists a m dev, kept (u16 (reg ESP s)) (x_mem s) m /\ a20 dev = a20 (x_dev s) /\
    forall A (k : unit -> prog (x86 D) A), bind (int 0x10) k s =
      k tt (set_tty (x_tty s ++ [u8 (reg EAX s)]) (set_reg EAX a (set_dev dev (set_xmem m s)))).
Proof.
  intros Hpe Ha. destruct (Htty s Hpe Ha) as (a & m & dev & E & Hm & Hd). exists a, m, dev.
  split; [done|]. split; [done|]. intros A k. unfold bind, int. rewrite Hpe, Ha, E. done.
Qed.

(** A round up to its jump. *)
Lemma bind_load_char p x a c d b sp bp si di cs sel big es fs gs ss fl cr0 gdtr m tty dev :
  u16 si = p -> rd8 m p = x -> Z.testbit fl 10 = false ->
  exists fl', Z.testbit fl' 10 = false /\ Z.testbit fl' 6 = (x =? 0) /\ forall A (k : unit -> prog (x86 D) A),
    bind (xor 8 (Hi EBX) (Hi EBX)) (fun _ => bind lodsb (fun _ => bind (or 8 (Lo EAX) (Lo EAX)) k))
      (X86 (Gprs a c d b sp bp si di) (Segs cs (Seg sel 0 big) es fs gs ss) fl cr0 gdtr m tty dev) =
    k tt (X86 (Gprs (set_low 8 x a) c d (set_high8 0 b) sp bp (set_low 16 (si + 1) si) di)
      (Segs cs (Seg sel 0 big) es fs gs ss) fl' cr0 gdtr m tty dev).
Proof.
  intros <- <- Hdf. pose proof (u16_bounds si). pose proof (rd8_bounds m (u16 si)) as Hx.
  set (x := rd8 m (u16 si)) in *.
  exists (put_flag 6 (x =? 0) (put_flag 0 false (put_flag 6 true (put_flag 0 false fl)))).
  split; [by rewrite !testbit_put_flag by lia|]. split; [by rewrite !testbit_put_flag by lia|]. intros A k.
  unfold xor, or, lodsb. repeat x_step. unfold advance, string_step; x_norm.
  rewrite Z.lxor_nilpotent, !testbit_put_flag, Z.add_0_l, phys_low by lia. cbn [Z.eqb Pos.eqb].
  rewrite Hdf. change (load 1 m (u16 si)) with (x + 256 * 0). rewrite Z.mul_0_r, Z.add_0_r.
  assert (u8 (set_low 8 x a) = x) as -> by (unfold set_low; cbn [Z.eqb Pos.eqb]; wrap_lia).
  rewrite Z.lor_diag, !(u8_small x) by lia.
  assert (set_low 8 x (set_low 8 x a) = set_low 8 x a) as -> by (by apply set_low_set_low).
  rewrite Z.eqb_refl. reflexivity.
Qed.

(** The message at [p] is printed. *)
Lemma write_loop_run l p a c d b sp bp si di sg fl cr0 gdtr m tty dev :
  Z.testbit cr0 0 = false -> Z.testbit fl 10 = false -> se_base (s_ds sg) = 0 ->
  u16 si = p -> cstring_at m p l -> u16 sp <= p -> p + Z.of_nat (List.length l) < 65536 ->
  exists a' b' si' fl' m' dev', kept (u16 sp) m m' /\ a20 dev' = a20 dev /\ Z.testbit fl' 10 = false /\
    forall fuel, (List.length l < fuel)%nat ->
    write_loop fuel (X86 (Gprs a c d b sp bp si di) sg fl cr0 gdtr m tty dev) =
      Done tt (X86 (Gprs a' c d b' sp bp si' di) sg fl' cr0 gdtr m' (tty ++ l) dev').
Proof.
  intros Hcr. destruct sg as [cs [sel base big] es fs gs ss]. cbn [s_ds se_base].
  intros Hdf ->. revert p a b si fl m tty dev Hdf.
  induction l as [|x l IH]; intros p a b si fl m tty dev Hdf Hsi Hs Hp Hl; cbn [List.length] in *.
  - apply cstring_at_nil in Hs.
    destruct (bind_load_char p 0 a c d b sp bp si di cs sel big es fs gs ss fl cr0 gdtr m tty dev Hsi Hs Hdf)
      as (fl' & Hdf' & Hz & E).
    do 6 eexists. split; [apply kept_refl|]. split; [reflexivity|]. split; [exact Hdf'|].
    intros [|fuel] Hf; [lia|]. cbn [write_loop]. rewrite E. x_flags. by rewrite Hz, app_nil_r.
  - destruct (cstring_at_head _ _ _ _ Hs) as [Hx Hx0]. pose proof (rd8_bounds m p) as Hr.
    destruct (bind_load_char p x a c d b sp bp si di cs sel big es fs gs ss fl cr0 gdtr m tty dev Hsi Hx Hdf)
      as (fl' & Hdf' & Hz & E).
    set (s1 := X86 (Gprs (set_high8 14 (set_low 8 x a)) c d (set_high8 0 b) sp bp (set_low 16 (si + 1) si) di)
      (Segs cs (Seg sel 0 big) es fs gs ss) fl' cr0 gdtr m tty dev).
    destruct (bind_int10_tty s1) as (a' & m' & dev' & Hm & Hd & E10); [exact Hcr|apply get_set_high8|].
    unfold reg in Hm. cbn [gpr_get x_regs g_esp x_mem x_dev s1] in Hm, Hd.
    destruct (IH (p + 1) a' (set_high8 0 b) (set_low 16 (si + 1) si) fl' m' (tty ++ [x]) dev')
      as (a2 & b2 & si2 & fl2 & m2 & dev2 & Hm2 & Hd2 & Hf2 & E2); [done| | |lia|lia|].
    + rewrite u16_set_low. wrap_lia.
    + eapply kept_cstring; [exact Hm|lia|lia|]. by eapply cstring_at_tail.
    + do 6 eexists. split; [by eapply kept_trans|]. split; [by rewrite Hd2|]. split; [exact Hf2|].
      intros [|fuel] Hf; [lia|]. cbn [write_loop]. rewrite E. x_flags. rewrite Hz, (proj2 (Z.eqb_neq x 0)) by done.
      x_step. fold s1. rewrite E10. unfold s1, reg. x_norm.
      assert (u8 (set_high8 14 (set_low 8 x a)) = x) as ->
        by (unfold set_high8, get_high8, set_low; cbn [Z.eqb Pos.eqb]; wrap_lia).
      rewrite E2, <- app_assoc by lia. done.
Qed.

(** ** Calls on a real mode stack *)

Lemma kept_return sp m m' ra :
  2 <= sp < 65536 -> kept (sp - 2) (st16 m (sp - 2) ra) m' -> ld16 m' (sp - 2) = u16 ra.
Proof. intros Hs Hm. rewrite (kept_load 2 (sp - 2) _ _ _ Hm) by lia. by rewrite (load_store 2) by lia. Qed.

Lemma bind_call16 {A} ra f (k : unit -> prog (x86 D) A) a c d b sp bp si di cs ds es fs gs sel fl cr0 gdtr m tty dev s' :
  2 <= sp < 65536 ->
  f (X86 (Gprs a c d b (sp - 2) bp si di) (Segs cs ds es fs gs (Seg sel 0 false)) fl cr0 gdtr (st16 m (sp - 2) ra) tty dev)
    = Done tt s' ->
  reg ESP s' = sp - 2 -> s_ss (x_segs s') = Seg sel 0 false -> ld16 (x_mem s') (sp - 2) = u16 ra ->
  bind (call 16 ra f) k
    (X86 (Gprs a c d b sp bp si di) (Segs cs ds es fs gs (Seg sel 0 false)) fl cr0 gdtr m tty dev) =
  k tt (set_reg ESP sp s').
Proof.
  intros Hsp Ef Hesp Hss Hm. rewrite (bind_call _ _ _ _ _ s').
  - destruct s' as [[a1 c1 d1 b1 sp1 bp1 si1 di1] [cs1 ds1 es1 fs1 gs1 ss1] fl1 cr1 gd1 m1 tty1 dev1].
    unfold reg in Hesp. cbn [x_mem gpr_get x_regs g_esp x_segs s_ss] in Hesp, Hss. subst. x_norm.
    rewrite set_low_16 by lia. by replace (sp - 2 + 2) with sp by lia.
  - rewrite <- Ef. x_norm. rewrite set_low_16 by lia.
    by rewrite (wrap_small 16), Z.add_0_l, phys_low by (pow2_simpl; lia).
  - destruct s' as [[a1 c1 d1 b1 sp1 bp1 si1 di1] [cs1 ds1 es1 fs1 gs1 ss1] fl1 cr1 gd1 m1 tty1 dev1].
    unfold reg in Hesp. cbn [x_mem gpr_get x_regs g_esp x_segs s_ss] in Hesp, Hss, Hm. subst. x_norm.
    rewrite (wrap_small 16 (sp - 2)), Z.add_0_l, phys_low by (pow2_simpl; lia).
    exact Hm.
Qed.

Lemma bind_push16 {A} v (k : unit -> prog (x86 D) A) a c d b sp bp si di cs ds es fs gs sel fl cr0 gdtr m tty dev :
  2 <= sp < 65536 ->
  bind (push_value 16 v) k
    (X86 (Gprs a c d b sp bp si di) (Segs cs ds es fs gs (Seg sel 0 false)) fl cr0 gdtr m tty dev) =
  k tt (X86 (Gprs a c d b (sp - 2) bp si di) (Segs cs ds es fs gs (Seg sel 0 false)) fl cr0 gdtr
    (st16 m (sp - 2) v) tty dev).
Proof.
  intros Hsp. unfold push_value. rewrite bind_modify. x_norm. rewrite set_low_16 by lia.
  by rewrite (wrap_small 16), Z.add_0_l, phys_low by (pow2_simpl; lia).
Qed.

Lemma bind_pop16 {A} (k : Z -> prog (x86 D) A) a c d b sp bp si di cs ds es fs gs sel fl cr0 gdtr m tty dev :
  0 <= sp < 65534 ->
  bind (pop_value 16) k
    (X86 (Gprs a c d b sp bp si di) (Segs cs ds es fs gs (Seg sel 0 false)) fl cr0 gdtr m tty dev) =
  k (ld16 m sp) (X86 (Gprs a c d b (sp + 2) bp si di) (Segs cs ds es fs gs (Seg sel 0 false)) fl cr0 gdtr m tty dev).
Proof.
  intros Hsp. unfold pop_value, bind. x_norm. rewrite set_low_16 by lia.
  by rewrite (wrap_small 16), Z.add_0_l, phys_low by (pow2_simpl; lia).
Qed.

Lemma bind_push_op {A} w o (k : unit -> prog (x86 D) A) s : bind (push w o) k s = bind (push_value w (get_op w o s)) k s.
Proof. done. Qed.
Lemma bind_push_seg {A} w r (k : unit -> prog (x86 D) A) s :
  bind (push_seg w r) k s = bind (push_value w (se_sel (seg_get r (x_segs s)))) k s.
Proof. done. Qed.
Lemma bind_pushf {A} w (k : unit -> prog (x86 D) A) s : bind (pushf w) k s = bind (push_value w (x_flags s)) k s.
Proof. done. Qed.
Lemma bind_pop_op {A} w o (k : unit -> prog (x86 D) A) s :
  bind (pop w o) k s = bind (pop_value w) (fun v => bind (modify (put_op w o v)) k) s.
Proof. unfold pop. by rewrite bind_assoc. Qed.
Lemma bind_pop_seg {A} w r (k : unit -> prog (x86 D) A) s :
  bind (pop_seg w r) k s = bind (pop_value w) (fun v => bind (load_seg r (u16 v)) k) s.
Proof. unfold pop_seg. by rewrite bind_assoc. Qed.

(** [error] prints its message and halts. *)
Lemma error_run {A} l p ra a c d b sp bp si di cs sel base big es fs gs ssel fl cr0 gdtr m tty dev :
  Z.testbit cr0 0 = false -> Z.testbit fl 10 = false -> base = 0 ->
  u16 si = p -> cstring_at m p l -> 2 <= sp -> sp <= p -> p + Z.of_nat (List.length l) < 65536 ->
  exists s', x_tty s' = tty ++ l /\
    panics (fun fuel => @error D P A ra fuel) (X86 (Gprs a c d b sp bp si di)
      (Segs cs (Seg sel base big) es fs gs (Seg ssel 0 false)) fl cr0 gdtr m tty dev) "hlt" s'.
Proof.
  intros Hcr Hdf -> Hsi Hs Hsp Hp Hl.
  destruct (write_loop_run l p a c d b (sp - 2) bp si di (Segs cs (Seg sel 0 big) es fs gs (Seg ssel 0 false)) fl cr0 gdtr
    (st16 m (sp - 2) ra) tty dev) as (a' & b' & si' & fl' & m' & dev' & Hm & Hd & Hf & E);
    [done|done|done|done| |rewrite u16_small by lia; lia|lia|].
  - eapply (kept_cstring sp m); [|lia|lia|exact Hs]. apply kept_store; [done|lia|cbn; lia|lia].
  - rewrite u16_small in Hm by lia. eexists. split; [|exists (List.length l); intros fuel Hfu; unfold error].
    2: { erewrite bind_call16; [|lia|exact (E fuel Hfu)|reflexivity|reflexivity|by eapply kept_return; [lia|]].
      unfold cli, hlt. rewrite bind_modify. reflexivity. }
    reflexivity.
Qed.
End Output.
