(* ===== verification/Stage0.v ===== *)
(** The master boot record, [bootloader/stage0.S]: it moves itself out of the way, reads the
    second stage from the disk and jumps to it. *)

From S2P Require Import Prelude PhysMem Layout CString DiskRead Cpu X86 RealMode Teletype.
Import Asm.

Local Open Scope list_scope.
Local Open Scope Z_scope.

(** [include/bootloader/commonDefines.h] *)
Definition _initial_mbr_address : Z := 0x7C00.
Definition _final_mbr_address : Z := 0x0800.
Definition _stack_pointer : Z := 0x7ff.
Definition _dap_memory_location : Z := 0x1000.
Definition _heap_location : Z := 0x1010.
Definition _stage1_magic : Z := 0x3141.

(** The messages of the file. *)
Definition reset_error_text : list Z := bytes_of_string "Error: Reset controller failed".
Definition stage1_magic_notFound_text : list Z := bytes_of_string "Error: Stage1 magic not found".
Definition read_error_text : list Z := bytes_of_string "Error: Read".

(** Where the messages are; where the calls return to, in the order of the file. *)
Record stage0_labels : Type := {
  reset_error_msg : Z;
  stage1_magic_notFound_error_msg : Z;
  read_error_msg : Z;
  stage0_return : nat -> Z;
}.

Section Stage0.
Context {D : Type} {P : Platform D}.
Context (L : stage0_labels) (fuel : nat).

Abbreviation code := (prog (x86 D) unit).

Definition lba_read : code :=
  do* mov 8 (Imm 0x10) (Mem DS (Ind16 EDI)) in
  do* add 16 (Imm 1) (Lo EDI) in
  do* mov 8 (Imm 0) (Mem DS (Ind16 EDI)) in
  do* add 16 (Imm 1) (Lo EDI) in
  do* mov 16 (Lo ECX) (Mem DS (Ind16 EDI)) in
  do* add 16 (Imm 2) (Lo EDI) in
  do* mov_from_seg FS (Mem DS (Ind16 EDI)) in
  do* add 16 (Imm 2) (Lo EDI) in
  do* mov_from_seg ES (Mem DS (Ind16 EDI)) in
  do* add 16 (Imm 2) (Lo EDI) in
  do* mov 32 (Lo EBX) (Mem DS (Ind16 EDI)) in
  do* sub 16 (Imm 8) (Lo EDI) in
  do* mov 16 (Lo EDI) (Lo ESI) in
  do* mov 8 (Imm 0x42) (Hi EAX) in
  do* int 0x13 in
  do* lea (read_error_msg L) ESI in
  jc (error (stage0_return L 2) fuel) (ret tt).

(** Behind the first read: the signature, all sectors, the jump; the result is its target. *)
Definition read_stage1 : prog (x86 D) Z :=
  do* mov 16 (Imm _heap_location) (Lo EBX) in
  do* mov 16 (Mem DS (Ind16 EBX)) (Lo EAX) in
  do* mov 16 (Imm _stage1_magic) (Lo EBX) in
  do* lea (stage1_magic_notFound_error_msg L) ESI in
  do* cmp 16 (Lo EAX) (Lo EBX) in
  jne (error (stage0_return L 2) fuel)
    (do* mov 16 (Imm (_heap_location + 2)) (Lo EBX) in
     do* mov 16 (Mem DS (Ind16 EBX)) (Lo ECX) in
     do* mov 32 (Imm 1) (Lo EBX) in
     do* call 16 (stage0_return L 1) lba_read in
     do* xor 16 (Lo EAX) (Lo EAX) in
     do* mov_seg (Lo EAX) FS in
     do* mov 16 (Imm (_heap_location + 4)) (Lo EAX) in
     jmp_reg 16 EAX).

(** From the label [low_memory] on. *)
Definition low_memory : prog (x86 D) Z :=
  do* mov 16 (Imm _stack_pointer) (Lo EAX) in
  do* mov 16 (Lo EAX) (Lo ESP) in
  do* mov 16 (Lo EAX) (Lo EBP) in
  do* sti in
  do* mov 8 (Imm 0) (Hi EAX) in
  do* int 0x13 in
  do* lea (reset_error_msg L) ESI in
  jc (error (stage0_return L 2) fuel)
    (do* mov 16 (Imm _dap_memory_location) (Lo EDI) in
     do* mov 16 (Imm _heap_location) (Lo EAX) in
     do* mov_seg (Lo EAX) FS in
     do* mov 16 (Imm 1) (Lo ECX) in
     do* mov 32 (Imm 1) (Lo EBX) in
     do* call 16 (stage0_return L 0) lba_read in
     read_stage1).

Definition _start : prog (x86 D) Z :=
  do* cli in
  do* mov 16 (Imm 0) (Lo EAX) in
  do* data_segments EAX in
  do* mov 16 (Imm 0x0100) (Lo ECX) in
  do* mov 16 (Imm _initial_mbr_address) (Lo ESI) in
  do* mov 16 (Imm _final_mbr_address) (Lo EDI) in
  do* rep_movsw in
  do* ljmp 0 false in
  low_memory.
End Stage0.

(** ** Proofs: moving the record *)

Section Move.
Context {D : Type} {P : Platform D}.

Lemma copy_word m dst src :
  0 <= dst -> dst + 2 <= 4294967296 -> is_copy m dst src 2 (st16 m dst (ld16 m src)).
Proof.
  intros Hd Hd2 x Hx. pose proof (rd8_bounds m src). pose proof (rd8_bounds m (src + 1)).
  destruct (Z.leb_spec dst x); [destruct (Z.ltb_spec x (dst + 2))|]; cbn [andb]; [|apply rd8_store_out; cbn; lia..].
  cbn [store load]. destruct (Z.eq_dec x dst) as [->|Hne].
  - rewrite rd8_wr8_ne, rd8_wr8_eq, Z.sub_diag, !Z.add_0_r by (rewrite ?u32_small; lia). wrap_lia.
  - replace x with (dst + 1) by lia. rewrite rd8_wr8_eq by done. replace (src + (dst + 1 - dst)) with (src + 1) by lia. wrap_lia.
Qed.

(** Copies one behind the other, the source out of reach. *)
Lemma is_copy_app m m1 m2 dst src n k :
  0 <= n -> 0 <= k -> dst + n + k <= src -> 0 <= dst -> src + n + k <= 4294967296 ->
  is_copy m dst src n m1 -> is_copy m1 (dst + n) (src + n) k m2 -> is_copy m dst src (n + k) m2.
Proof.
  intros Hn Hk Hds Hd Hs H1 H2 x Hx. rewrite H2 by done.
  destruct (Z.leb_spec (dst + n) x), (Z.ltb_spec x (dst + n + k)), (Z.leb_spec dst x), (Z.ltb_spec x (dst + (n + k)));
    cbn [andb]; try lia; rewrite H1 by lia.
  all: match goal with |- (if ?b then _ else _) = _ => destruct b eqn:E end; try lia; f_equal; lia.
Qed.

Lemma bind_movsw {A} (k : unit -> prog (x86 D) A) src dst si di a c d b sp bp cs sel1 sel2 fs gs ss fl cr0 gdtr m tty dev :
  Z.testbit fl 10 = false -> 0 <= src < 65536 -> 0 <= dst < 65536 ->
  bind movsw k (X86 (Gprs a c d b sp bp (set_low 16 src si) (set_low 16 dst di))
    (Segs cs (Seg sel1 0 false) (Seg sel2 0 false) fs gs ss) fl cr0 gdtr m tty dev) =
  k tt (X86 (Gprs a c d b sp bp (set_low 16 (src + 2) si) (set_low 16 (dst + 2) di))
    (Segs cs (Seg sel1 0 false) (Seg sel2 0 false) fs gs ss) fl cr0 gdtr (st16 m dst (ld16 m src)) tty dev).
Proof.
  intros Hdf Hs Hd. unfold movsw. rewrite bind_modify. unfold advance, string_step. x_norm.
  by rewrite Hdf, !u16_set_low, !(u16_small src), !(u16_small dst), !Z.add_0_l, !phys_low, !set_low_add by lia.
Qed.

Lemma rep_movsw_run n src dst c si di a d b sp bp cs sel1 sel2 fs gs ss fl cr0 gdtr m tty (dev : D) :
  Z.testbit fl 10 = false -> 0 <= dst -> dst + 2 * Z.of_nat n <= src -> src + 2 * Z.of_nat n <= 65536 ->
  exists m', is_copy m dst src (2 * Z.of_nat n) m' /\
    rep_movsw (X86 (Gprs a (set_low 16 (Z.of_nat n) c) d b sp bp (set_low 16 src si) (set_low 16 dst di))
      (Segs cs (Seg sel1 0 false) (Seg sel2 0 false) fs gs ss) fl cr0 gdtr m tty dev) =
    Done tt (X86 (Gprs a (set_low 16 0 c) d b sp bp (set_low 16 (src + 2 * Z.of_nat n) si)
      (set_low 16 (dst + 2 * Z.of_nat n) di))
      (Segs cs (Seg sel1 0 false) (Seg sel2 0 false) fs gs ss) fl cr0 gdtr m' tty dev).
Proof.
  intros Hdf Hd0 Hds0 Hs0. unfold rep_movsw, reg. cbn [gpr_get x_regs g_ecx]. rewrite u16_set_low, u16_small, Nat2Z.id by lia.
  revert src dst m Hd0 Hds0 Hs0. induction n as [|n IH]; intros src dst m Hd Hds Hs.
  { exists m. split; [intros x Hx|cbn; by rewrite !Z.add_0_r].
    by destruct (Z.leb_spec dst x), (Z.ltb_spec x (dst + 2 * Z.of_nat 0)); try lia. }
  destruct (IH (src + 2) (dst + 2) (st16 m dst (ld16 m src))) as (m' & Hc & E); [lia..|].
  exists m'. split.
  - replace (2 * Z.of_nat (S n)) with (2 + 2 * Z.of_nat n) by lia.
    eapply is_copy_app; [lia..|apply copy_word; lia|exact Hc].
  - cbn [repeat_code]. rewrite bind_movsw, bind_modify by (done || lia). x_norm. unfold Z.sub. rewrite set_low_add.
    replace (Z.of_nat (S n) + - (1)) with (Z.of_nat n) by lia. rewrite E.
    replace (dst + 2 + 2 * Z.of_nat n) with (dst + 2 * Z.of_nat (S n)) by lia.
    by replace (src + 2 + 2 * Z.of_nat n) with (src + 2 * Z.of_nat (S n)) by lia.
Qed.
End Move.

(** ** Proofs: reading sectors *)

(** Memory with the packet; the upper half of its block address is not written. *)
Definition packet (lba n sg off : Z) (m : mem) : mem :=
  st32 (st16 (st16 (st16 (store 1 (store 1 m dap 16) (dap + 1) 0) (dap + 2) n) (dap + 4) off) (dap + 6) sg)
    (dap + 8) lba.

Lemma packet_out lba n sg off m a :
  0 <= a < 4294967296 -> a < dap \/ dap + 12 <= a -> rd8 (packet lba n sg off m) a = rd8 m a.
Proof. intros Ha Ho. unfold packet, dap in *. rewrite !rd8_store_out by (cbn; lia). done. Qed.

Lemma packet_request lba n sg off m :
  0 <= lba < 4294967296 -> 0 <= n < 65536 -> 0 <= sg < 65536 -> 0 <= off < 65536 ->
  dap_request (packet lba n sg off m) = (16, lba + 4294967296 * ld32 m (dap + 12), n, 16 * sg + off).
Proof.
  intros Hl Hn Hs Ho. pose (M := packet lba n sg off m).
  assert (rd8 M dap + 256 * 0 = 16 /\ ld16 M (dap + 2) = n /\ ld16 M (dap + 4) = off /\ ld16 M (dap + 6) = sg /\
    ld32 M (dap + 8) = lba /\ ld32 M (dap + 12) = ld32 m (dap + 12)) as (H1 & H2 & H3 & H4 & H5 & H6).
  { change (rd8 M dap + 256 * 0) with (load 1 M dap). unfold M, packet, dap.
    repeat split; repeat first [rewrite load_store by (cbn; lia) | rewrite load_store_out by (cbn; lia)];
      try done; apply Z.mod_small; cbn; lia. }
  fold M. unfold dap_request, get.
  change (load _ M (dap + offsetof DAP "size")) with (load 1 M (dap + 0)).
  change (load _ M (dap + offsetof DAP "LBA")) with (load (4 + 4) M (dap + 8)).
  change (load _ M (dap + offsetof DAP "numSectors")) with (ld16 M (dap + 2)).
  change (load _ M (dap + offsetof DAP "buffer")) with (load (2 + 2) M (dap + 4)).
  rewrite !load_app. change (256 ^ Z.of_nat 4) with 4294967296. change (256 ^ Z.of_nat 2) with 65536.
  change (dap + 8 + Z.of_nat 4) with (dap + 12). change (dap + 4 + Z.of_nat 2) with (dap + 6).
  change (load 1 M (dap + 0)) with (rd8 M dap + 256 * 0). rewrite H1, H2, H3, H4, H5, H6.
  f_equal. Z.to_euclidean_division_equations; lia.
Qed.

Section Read.
Context {D : Type} {P : Platform D}.
Context (L : stage0_labels) (int13 : Z -> Z -> mem -> bool * Z * mem).
Hypothesis Hint13 : bios_int13 int13.

(** Moving a 16-bit pointer. *)
Lemma bind_add_di {A} (k : unit -> prog (x86 D) A) n x a c d b sp bp si di sg fl cr0 gdtr m tty dev :
  0 <= x < 65536 -> 0 <= n < 65536 -> x + n < 65536 ->
  bind (add 16 (Imm n) (Lo EDI)) k (X86 (Gprs a c d b sp bp si (set_low 16 x di)) sg fl cr0 gdtr m tty dev) =
  k tt (X86 (Gprs a c d b sp bp si (set_low 16 (x + n) di)) sg
    (put_flag 6 (x + n =? 0) (put_flag 0 false fl)) cr0 gdtr m tty dev).
Proof.
  intros Hx Hn Hs. unfold add. rewrite bind_alu. x_norm.
  rewrite !u16_set_low, !(u16_small x), !(u16_small n), !(u16_small (x + n)), Z.eqb_refl by lia.
  by rewrite set_low_set_low.
Qed.

Lemma bind_sub_di {A} (k : unit -> prog (x86 D) A) n x a c d b sp bp si di sg fl cr0 gdtr m tty dev :
  0 <= x < 65536 -> 0 <= n <= x ->
  bind (sub 16 (Imm n) (Lo EDI)) k (X86 (Gprs a c d b sp bp si (set_low 16 x di)) sg fl cr0 gdtr m tty dev) =
  k tt (X86 (Gprs a c d b sp bp si (set_low 16 (x - n) di)) sg
    (put_flag 6 (x - n =? 0) (put_flag 0 false fl)) cr0 gdtr m tty dev).
Proof.
  intros Hx Hn. unfold sub. rewrite bind_alu. x_norm.
  rewrite !u16_set_low, !(u16_small x), !(u16_small n), !(u16_small (x - n)), Z.eqb_refl by lia.
  by rewrite set_low_set_low.
Qed.

(** [lba_read] up to its test: the packet is filled in and the service called. *)
Lemma lba_read_prefix a c d b sp bp si di cs ds es fs gs ss fl cr0 gdtr m tty dev :
  Z.testbit cr0 0 = false -> se_base ds = 0 -> 0 <= b < 4294967296 -> 0 <= se_sel fs < 65536 -> 0 <= se_sel es < 65536 ->
  exists a' fl' dev', let '(carry, ah, m') := int13 (u8 d) dap (packet b (u16 c) (se_sel es) (se_sel fs) m) in
    Z.testbit fl' 0 = carry /\ Z.testbit fl' 10 = Z.testbit fl 10 /\ forall fuel,
    lba_read L fuel (X86 (Gprs a c d b sp bp si (set_low 16 dap di)) (Segs cs ds es fs gs ss) fl cr0 gdtr m tty dev) =
    jc (error (stage0_return L 2) fuel) (ret tt)
      (X86 (Gprs a' c d b sp bp (set_low 16 (read_error_msg L) si) (set_low 16 dap di))
        (Segs cs ds es fs gs ss) fl' cr0 gdtr m' tty dev').
Proof.
  intros Hcr Hds Hb Hfs Hes. destruct ds as [dsel dbase dbig], es as [esel ebase ebig], fs as [fsel fbase fbig].
  cbn [se_base se_sel] in *. subst dbase.
  set (fl1 := put_flag 6 (dap + 1 + 1 + 2 + 2 + 2 - 8 =? 0) (put_flag 0 false (put_flag 6 (dap + 1 + 1 + 2 + 2 + 2 =? 0)
    (put_flag 0 false (put_flag 6 (dap + 1 + 1 + 2 + 2 =? 0) (put_flag 0 false (put_flag 6 (dap + 1 + 1 + 2 =? 0)
    (put_flag 0 false (put_flag 6 (dap + 1 + 1 =? 0) (put_flag 0 false (put_flag 6 (dap + 1 =? 0)
    (put_flag 0 false fl)))))))))))).
  assert (Z.testbit fl1 10 = Z.testbit fl 10) as Hdf by (unfold fl1; by rewrite !testbit_put_flag by lia).
  set (s1 := X86 (Gprs (set_high8 66 a) c d b sp bp (set_low 16 dap si) (set_low 16 dap di))
    (Segs cs (Seg dsel 0 dbig) (Seg esel ebase ebig) (Seg fsel fbase fbig) gs ss) fl1 cr0 gdtr
    (packet b (u16 c) esel fsel m) tty dev).
  destruct (Hint13 s1 Hcr (get_set_high8 _ _)) as (dev' & E).
  change (reg EDX s1) with d in E. change (x_mem s1) with (packet b (u16 c) esel fsel m) in E.
  change (lin DS (u16 (reg ESI s1)) s1) with (u16 (set_low 16 dap si)) in E. rewrite u16_set_low in E.
  change (u16 dap) with dap in E.
  destruct (int13 (u8 d) dap (packet b (u16 c) esel fsel m)) as [[carry ah] m1].
  exists (set_high8 ah (set_high8 66 a)), (put_flag 0 carry fl1), dev'.
  split; [by rewrite testbit_put_flag by lia|]. split; [by rewrite testbit_put_flag by lia|]. intros fuel.
  unfold lba_read, mov_from_seg, lea.
  repeat first [rewrite bind_add_di by (unfold dap; lia) | rewrite bind_sub_di by (unfold dap; lia) | x_step].
  change (dap + 1 + 1 + 2 + 2 + 2 - 8) with dap. change (dap + 1 + 1 + 2 + 2 + 2) with (dap + 8).
  change (dap + 1 + 1 + 2 + 2) with (dap + 6). change (dap + 1 + 1 + 2) with (dap + 4). change (dap + 1 + 1) with (dap + 2).
  rewrite !u16_set_low, !Z.add_0_l, (u32_small b) by lia.
  rewrite !(u16_small (dap + _)), !(u16_small dap) by (unfold dap; lia). rewrite !phys_low by (unfold dap; lia).
  change (u8 16) with 16. change (u8 0) with 0.
  change (st32 _ (dap + 8) b) with (packet b (u16 c) esel fsel m).
  rewrite ?set_low_u16. change (u8 66) with 66. fold fl1. fold s1.
  rewrite (bind_int 19 _ s1 _ Hcr ltac:(done) E). unfold s1, reg. x_norm. x_step. by rewrite set_low_u16, set_low_set_low.
Qed.
(** A call that reads. *)
Lemma call_lba_read ra a c d b bp si di fsel fbase fl cr0 gdtr m tty dev ah m' :
  Z.testbit cr0 0 = false -> 0 <= b < 4294967296 -> 0 <= fsel < 65536 ->
  int13 (u8 d) dap (packet b (u16 c) 0 fsel (st16 m 2045 ra)) = (false, ah, m') -> ld16 m' 2045 = u16 ra ->
  exists a' si' fl' dev', Z.testbit fl' 10 = Z.testbit fl 10 /\
    forall fuel A (k : unit -> prog (x86 D) A), bind (call 16 ra (lba_read L fuel)) k
      (X86 (Gprs a c d b 2047 bp si (set_low 16 dap di)) (Segs z16 z16 z16 (Seg fsel fbase false) z16 z16)
        fl cr0 gdtr m tty dev) =
    k tt (X86 (Gprs a' c d b 2047 bp si' (set_low 16 dap di)) (Segs z16 z16 z16 (Seg fsel fbase false) z16 z16)
        fl' cr0 gdtr m' tty dev').
Proof.
  intros Hcr Hb Hf E Hret.
  pose proof (lba_read_prefix a c d b 2045 bp si di z16 z16 z16 (Seg fsel fbase false) z16 z16 fl cr0 gdtr
    (st16 m 2045 ra) tty dev Hcr eq_refl Hb Hf ltac:(cbn; lia)) as (a' & fl' & dev' & H).
  cbn [se_sel z16] in H. rewrite E in H. destruct H as (Hc & Hd & H).
  exists a', (set_low 16 (read_error_msg L) si), fl', dev'. split; [exact Hd|]. intros fuel A k.
  refine (bind_call16 ra (lba_read L fuel) k a c d b 2047 bp si (set_low 16 dap di) z16 z16 z16 (Seg fsel fbase false) z16 0
    fl cr0 gdtr m tty dev (X86 (Gprs a' c d b 2045 bp (set_low 16 (read_error_msg L) si) (set_low 16 dap di))
      (Segs z16 z16 z16 (Seg fsel fbase false) z16 z16) fl' cr0 gdtr m' tty dev') ltac:(lia) _ eq_refl eq_refl Hret).
  change (2047 - 2) with 2045. fold z16. rewrite H. x_flags. by rewrite Hc.
Qed.

(** A call whose service fails ends with the message. *)
Lemma call_lba_read_fails {A} ra a c d b bp si di fsel fbase fl cr0 gdtr m tty dev ah m' (k : nat -> unit -> prog (x86 D) A) :
  bios_tty -> Z.testbit cr0 0 = false -> Z.testbit fl 10 = false -> 0 <= b < 4294967296 -> 0 <= fsel < 65536 ->
  int13 (u8 d) dap (packet b (u16 c) 0 fsel (st16 m 2045 ra)) = (true, ah, m') ->
  2047 <= read_error_msg L < 65536 - Z.of_nat (List.length read_error_text) ->
  cstring_at m' (read_error_msg L) read_error_text ->
  exists s', x_tty s' = tty ++ read_error_text /\ panics (fun fuel => bind (call 16 ra (lba_read L fuel)) (k fuel))
    (X86 (Gprs a c d b 2047 bp si (set_low 16 dap di)) (Segs z16 z16 z16 (Seg fsel fbase false) z16 z16)
        fl cr0 gdtr m tty dev) "hlt" s'.
Proof.
  intros Htty Hcr Hdf Hb Hf E Hl Hs.
  pose proof (lba_read_prefix a c d b 2045 bp si di z16 z16 z16 (Seg fsel fbase false) z16 z16 fl cr0 gdtr
    (st16 m 2045 ra) tty dev Hcr eq_refl Hb Hf ltac:(cbn; lia)) as (a' & fl' & dev' & H).
  cbn [se_sel z16] in H. rewrite E in H. destruct H as (Hc & Hd & H).
  destruct (error_run (A := unit) Htty read_error_text (read_error_msg L) (stage0_return L 2) a' c d b 2045 bp
    (set_low 16 (read_error_msg L) si) (set_low 16 dap di) z16 0 0 false z16 (Seg fsel fbase false) z16 0 fl' cr0 gdtr m' tty dev')
    as (s' & Ht & n & Hp); [done|by rewrite Hd|done|rewrite u16_set_low, u16_small; lia|done|lia..|].
  exists s'. split; [exact Ht|]. exists n. intros fuel Hfu. unfold call. rewrite bind_assoc.
  unfold push_value at 1. rewrite bind_modify. unfold z16 at 1 2 3 4 5. x_norm.
  change (set_low _ (2047 + -2) 2047) with 2045. rewrite (phys_low dev 2045) by lia. rewrite bind_assoc.
  eapply bind_Panicked. fold z16. rewrite H. x_flags. rewrite Hc. by apply Hp.
Qed.
(** The record moves itself and all segments to the bottom of memory. *)
Lemma start_prefix a c d b sp bp si di sg fl cr0 gdtr m tty (dev : D) :
  Z.testbit cr0 0 = false -> Z.testbit fl 10 = false -> (forall r, se_big (seg_get r sg) = false) ->
  exists a' c' si' di' fl' m', is_copy m 0x800 0x7C00 512 m' /\ Z.testbit fl' 10 = false /\
    forall fuel, _start L fuel (X86 (Gprs a c d b sp bp si di) sg fl cr0 gdtr m tty dev) =
      low_memory L fuel (X86 (Gprs a' c' d b sp bp si' di') real_segs fl' cr0 gdtr m' tty dev).
Proof.
  intros Hcr Hdf Hbig.
  set (fl1 := put_flag 9 false fl). assert (Z.testbit fl1 10 = false) as Hdf1 by (unfold fl1; by rewrite testbit_put_flag by lia).
  destruct (rep_movsw_run 256 31744 2048 c si di (set_low 16 0 a) d b sp bp (s_cs sg) 0 0 z16 z16 z16 fl1 cr0 gdtr m
    tty dev Hdf1) as (m' & Hc & E); [lia..|].
  do 6 eexists. split; [exact Hc|]. split; [exact Hdf1|]. intros fuel.
  unfold _start, cli. rewrite bind_modify. x_norm. x_step. change (u16 0) with 0.
  rewrite (bind_data_segments _ 0 false); [|exact Hcr|exact (u16_set_low 0 a)|by intros x _; apply Hbig].
  x_norm. repeat x_step.
  rewrite !set_low_u16. unfold z16 in E. rewrite (bind_Done _ _ _ _ _ E).
  rewrite bind_ljmp; [|exact Hcr|exact (Hbig CS)]. reflexivity.
Qed.
(** Documented behaviour of the reset of a drive: carry says whether it failed. *)
Definition bios_reset (reset_fails : Z -> bool) : Prop :=
  forall s : x86 D, pe s = false -> get_high8 (reg EAX s) = 0 ->
    exists ah m dev, bios 0x13 s =
        set_dev dev (set_flags (put_flag 0 (reset_fails (u8 (reg EDX s))) (x_flags s))
          (set_reg EAX (set_high8 ah (reg EAX s)) (set_xmem m s))) /\
      kept (u16 (reg ESP s)) (x_mem s) m.

Lemma low_memory_prefix reset_fails a c d b sp bp si di fl cr0 gdtr m tty dev :
  bios_reset reset_fails -> Z.testbit cr0 0 = false -> Z.testbit fl 10 = false -> 0 <= sp < 65536 ->
  exists a' bp' fl' m' dev', kept 2047 m m' /\ Z.testbit fl' 10 = false /\ forall fuel,
    low_memory L fuel (X86 (Gprs a c d b sp bp si di) real_segs fl cr0 gdtr m tty dev) =
    if reset_fails (u8 d) then
      error (stage0_return L 2) fuel
        (X86 (Gprs a' c d b 2047 bp' (set_low 16 (reset_error_msg L) si) di) real_segs fl' cr0 gdtr m' tty dev')
    else
      bind (call 16 (stage0_return L 0) (lba_read L fuel)) (fun _ => read_stage1 L fuel)
        (X86 (Gprs (set_low 16 _heap_location a') (set_low 16 1 c) d 1 2047 bp' (set_low 16 (reset_error_msg L) si) (set_low 16 dap di))
          (Segs z16 z16 z16 (Seg _heap_location (16 * _heap_location) false) z16 z16) fl' cr0 gdtr m' tty dev').
Proof.
  intros Hreset Hcr Hdf Hsp.
  set (fl1 := put_flag 9 true fl).
  assert (Z.testbit fl1 10 = false) as Hdf1 by (unfold fl1; by rewrite testbit_put_flag by lia).
  set (s1 := X86 (Gprs (set_high8 0 (set_low 16 2047 a)) c d b 2047 (set_low 16 2047 bp) si di) real_segs fl1 cr0 gdtr m tty dev).
  destruct (Hreset s1 Hcr (get_set_high8 _ _)) as (ah & m1 & dev1 & E & Hm).
  change (u16 (reg ESP s1)) with 2047 in Hm. change (reg EDX s1) with d in E.
  exists (set_high8 ah (set_high8 0 (set_low 16 2047 a))), (set_low 16 2047 bp), (put_flag 0 (reset_fails (u8 d)) fl1), m1, dev1.
  split; [exact Hm|]. split; [by rewrite testbit_put_flag by lia|]. intros fuel.
  unfold low_memory, sti, lea. do 5 x_step. change (u16 (u16 _stack_pointer)) with 2047.
  rewrite set_low_u16, u16_set_low. change (u16 _stack_pointer) with 2047. change (u16 2047) with 2047.
  rewrite (set_low_16 2047 sp) by lia. change _stack_pointer with 2047. fold fl1. fold s1.
  rewrite (bind_int 19 _ s1 _ Hcr ltac:(done) E). unfold s1, reg. x_norm. x_step. rewrite !set_low_u16.
  x_flags. destruct (reset_fails (u8 d)); [reflexivity|].
  repeat x_step. rewrite bind_load_seg by exact Hcr. x_norm. repeat x_step. 
  rewrite !set_low_u16, u16_set_low. reflexivity.
Qed.
(** The comparison with the signature. *)
Lemma read_stage1_prefix a c d b bp si di fseg fl cr0 gdtr m tty (dev : D) :
  Z.testbit fl 10 = false ->
  exists fl' a' b', Z.testbit fl' 10 = false /\ forall fuel,
    read_stage1 L fuel (X86 (Gprs a c d b 2047 bp si (set_low 16 dap di)) (Segs z16 z16 z16 fseg z16 z16)
        fl cr0 gdtr m tty dev) =
    if ld16 m _heap_location =? _stage1_magic then
      bind (call 16 (stage0_return L 1) (lba_read L fuel)) (fun _ =>
        do* xor 16 (Lo EAX) (Lo EAX) in
        do* mov_seg (Lo EAX) FS in
        do* mov 16 (Imm (_heap_location + 4)) (Lo EAX) in
        jmp_reg 16 EAX)
        (X86 (Gprs a' (set_low 16 (ld16 m (_heap_location + 2)) c) d 1 2047 bp
            (set_low 16 (stage1_magic_notFound_error_msg L) si) (set_low 16 dap di))
          (Segs z16 z16 z16 fseg z16 z16) fl' cr0 gdtr m tty dev)
    else
      error (stage0_return L 2) fuel
        (X86 (Gprs a' c d b' 2047 bp (set_low 16 (stage1_magic_notFound_error_msg L) si) (set_low 16 dap di))
          (Segs z16 z16 z16 fseg z16 z16) fl' cr0 gdtr m tty dev).
Proof.
  intros Hdf. set (w := ld16 m _heap_location). assert (0 <= w < 65536) as Hw by (apply (load_bounds 2)).
  set (v := _stage1_magic - w).
  exists (put_flag 6 (u16 v =? 0) (put_flag 0 (negb (v =? u16 v)) fl)), (set_low 16 w a), (set_low 16 _stage1_magic (set_low 16 _heap_location b)).
  split; [by rewrite !testbit_put_flag by lia|]. intros fuel.
  unfold read_stage1, lea, cmp, z16. repeat x_step.
  rewrite !u16_set_low, !set_low_u16, !wrap_wrap, !Z.add_0_l. change (u16 _heap_location) with _heap_location.
  rewrite (phys_low dev _heap_location) by (unfold _heap_location; lia). fold w.
  change (u16 _stage1_magic) with _stage1_magic. rewrite !(u16_small w) by lia. fold v.
  x_flags.
  assert ((u16 v =? 0) = (w =? _stage1_magic)) as Hv by (unfold v, _stage1_magic; wrap_lia).
  rewrite <- Hv. destruct (u16 v =? 0); [|reflexivity].
  repeat x_step. rewrite !u16_set_low, !Z.add_0_l. change (u16 (u16 (_heap_location + 2))) with (_heap_location + 2).
  rewrite (phys_low dev (_heap_location + 2)) by (unfold _heap_location; lia). reflexivity.
Qed.

(** The rest behind a read of all sectors. *)
Lemma read_stage1_found a c d b bp si di fsel fbase fl cr0 gdtr m tty dev ah m' :
  Z.testbit cr0 0 = false -> Z.testbit fl 10 = false -> 0 <= fsel < 65536 ->
  ld16 m _heap_location = _stage1_magic ->
  int13 (u8 d) dap (packet 1 (ld16 m (_heap_location + 2)) 0 fsel (st16 m 2045 (stage0_return L 1))) = (false, ah, m') ->
  ld16 m' 2045 = u16 (stage0_return L 1) ->
  exists a' c' si' fl' dev', Z.testbit fl' 10 = false /\ forall fuel,
    read_stage1 L fuel (X86 (Gprs a c d b 2047 bp si (set_low 16 dap di))
      (Segs z16 z16 z16 (Seg fsel fbase false) z16 z16) fl cr0 gdtr m tty dev) =
    Done 0x1014 (X86 (Gprs a' c' d 1 2047 bp si' (set_low 16 dap di)) real_segs fl' cr0 gdtr m' tty dev').
Proof.
  intros Hcr Hdf Hfs Hmagic E Hret. pose proof (load_bounds 2 m (_heap_location + 2)) as Hn. cbn in Hn.
  destruct (read_stage1_prefix a c d b bp si di (Seg fsel fbase false) fl cr0 gdtr m tty dev Hdf)
    as (fl1 & a1 & b1 & Hdf1 & E1). rewrite Hmagic, Z.eqb_refl in E1.
  destruct (call_lba_read (stage0_return L 1) a1 (set_low 16 (ld16 m (_heap_location + 2)) c) d 1 bp
    (set_low 16 (stage1_magic_notFound_error_msg L) si) di fsel fbase fl1 cr0 gdtr m tty dev ah m')
    as (a2 & si2 & fl2 & dev2 & Hdf2 & E2); [done|lia|done|by rewrite u16_set_low, u16_small|done|].
  set (fl3 := put_flag 6 true (put_flag 0 false fl2)).
  eexists _, _, _, fl3, _. split; [unfold fl3; by rewrite !testbit_put_flag, Hdf2 by lia|].
  intros fuel. rewrite E1, E2. unfold xor. x_step. rewrite Z.lxor_nilpotent. change (u16 0) with 0. x_step.
  rewrite bind_load_seg by exact Hcr. x_norm. x_step. rewrite u16_set_low, !set_low_u16. unfold jmp_reg, gets, reg. x_norm.
  rewrite u16_set_low. reflexivity.
Qed.
End Read.

(** ** Proofs: the whole record *)

Section Whole.
Context {D : Type} {P : Platform D}.
Context (L : stage0_labels) (int13 : Z -> Z -> mem -> bool * Z * mem) (reset_fails : Z -> bool).

(** The word of the stack in use during a read is not the service's. *)
Definition keeps_stack : Prop :=
  forall drive m lba n buf a, dap_request m = (16, lba, n, buf) -> 0 <= n <= 127 -> 2048 <= buf -> fits buf (512 * n) ->
    2045 <= a < 2047 -> rd8 (snd (int13 drive dap m)) a = rd8 m a.

(** What the firmware starts the record with: real mode, a direction flag that is clear and
    an upper half of %esp and of the packet's block address that are 0, since the code sets
    none of them. *)
Record boot_state (s : x86 D) : Prop := {
  bs_real : pe s = false;
  bs_size : forall r, se_big (seg_get r (x_segs s)) = false;
  bs_up : Z.testbit (x_flags s) 10 = false;
  bs_esp : 0 <= reg ESP s < 65536;
  bs_lba : ld32 (x_mem s) (dap + 12) = 0;
}.

Definition image_word (image : Z -> Z -> Z) (lba i : Z) : Z := image lba i + 256 * image lba (i + 1).

(** At the jump to the second stage of [n] sectors. *)
Record stage1_loaded (image : Z -> Z -> Z) (n : Z) (s s' : x86 D) : Prop := {
  sl_image i : 0 <= i < 512 * n -> rd8 (x_mem s') (_heap_location + i) = image (1 + i / 512) (i mod 512);
  sl_record i : 0 <= i < 512 -> rd8 (x_mem s') (_final_mbr_address + i) = rd8 (x_mem s) (_initial_mbr_address + i);
  sl_other a : 2560 <= a < 720896 \/ 786432 <= a < 4294967296 -> a < dap \/ _heap_location + 512 * n <= a ->
    rd8 (x_mem s') a = rd8 (x_mem s) a;
  sl_segs : x_segs s' = real_segs;
  sl_real : pe s' = false;
  sl_up : Z.testbit (x_flags s') 10 = false;
  sl_esp : reg ESP s' = _stack_pointer;
  sl_edx : reg EDX s' = reg EDX s;
  sl_tty : x_tty s' = x_tty s;
}.

Hypothesis Hint13 : bios_int13 int13.
Hypothesis Hstack : keeps_stack.

(** One read of sectors from the second on. *)
Lemma read_sectors drive image ra n m :
  int13_reads int13 drive image -> 0 <= n <= 127 -> ld32 m (dap + 12) = 0 ->
  exists ah m', int13 drive dap (packet 1 n 0 _heap_location (st16 m 2045 ra)) = (false, ah, m') /\
    ld16 m' 2045 = u16 ra /\
    (forall i, 0 <= i < 512 * n -> rd8 m' (_heap_location + i) = image (1 + i / 512) (i mod 512)) /\
    (forall a, 2048 <= a < 4294967296 -> a < dap \/ dap + 12 <= a -> a < _heap_location \/ _heap_location + 512 * n <= a ->
      rd8 m' a = rd8 m a).
Proof.
  intros Hr Hn Hz. unfold _heap_location, dap in *.
  assert (dap_request (packet 1 n 0 4112 (st16 m 2045 ra)) = (16, 1, n, 4112)) as Hreq.
  { rewrite packet_request by lia. unfold dap. by rewrite load_store_out, Hz by (cbn; lia). }
  destruct (Hr _ _ _ _ Hreq Hn) as (ah & m' & E & Hb & Ho); [unfold fits; lia|].
  exists ah, m'. split; [exact E|]. split; [|split; [exact Hb|]].
  - transitivity (ld16 (packet 1 n 0 4112 (st16 m 2045 ra)) 2045).
    + apply load_ext. intros i Hi. cbn in Hi.
      pose proof (Hstack drive _ _ _ _ (2045 + i) Hreq Hn ltac:(lia) ltac:(unfold fits; lia) ltac:(lia)) as Hk.
      by rewrite E in Hk.
    + transitivity (ld16 (st16 m 2045 ra) 2045); [|by rewrite (load_store 2) by lia].
      apply load_ext. intros i Hi. cbn in Hi. apply packet_out; unfold dap; lia.
  - intros a Ha Hd Hh. rewrite Ho, packet_out, rd8_store_out by (unfold dap; cbn; lia). done.
Qed.

(** What the second sector starts with. *)
Lemma sector_word image m k :
  (forall i, 0 <= i < 512 * 1 -> rd8 m (_heap_location + i) = image (1 + i / 512) (i mod 512)) -> 0 <= k < 511 ->
  ld16 m (_heap_location + k) = image_word image 1 k.
Proof.
  intros H Hk. unfold image_word. cbn [load]. rewrite <- Z.add_assoc, !H, !Z.div_small, !Z.mod_small, !Z.add_0_r by lia. lia.
Qed.

(** The bytes of the packet that nothing writes. *)
Lemma packet_room m m1 m2 :
  is_copy m 0x800 0x7C00 512 m1 -> kept 2047 m1 m2 -> ld32 m (dap + 12) = 0 -> ld32 m2 (dap + 12) = 0.
Proof.
  intros Hc Hm2 <-. rewrite (kept_load 4 2047 m1 m2 _ Hm2) by (unfold dap; cbn; lia). apply load_ext. intros i Hi.
  rewrite Hc by (unfold dap; cbn in Hi; lia). unfold dap. cbn in Hi.
  by replace ((2048 <=? 4096 + 12 + i) && (4096 + 12 + i <? 2048 + 512)) with false by lia.
Qed.

Lemma stage0_loads_lemma image n s :
  int13_reads int13 (u8 (reg EDX s)) image -> bios_reset reset_fails -> boot_state s ->
  reset_fails (u8 (reg EDX s)) = false ->
  image_word image 1 0 = _stage1_magic -> image_word image 1 2 = n -> 1 <= n <= 127 ->
  exists s', returns (fun fuel => _start L fuel) s 0x1014 s' /\ stage1_loaded image n s s'.
Proof.
  intros Hr Hreset [Hreal Hsize Hup Hesp Hlba] Hrs Hmagic Hcount Hn.
  destruct s as [[a c d b sp bp si di] sg fl cr0 gdtr m tty dev]. unfold pe, reg in *.
  cbn [x_cr0 x_segs x_flags x_mem gpr_get x_regs g_esp g_edx] in *.
  destruct (start_prefix L a c d b sp bp si di sg fl cr0 gdtr m tty dev Hreal Hup Hsize)
    as (a1 & c1 & si1 & di1 & fl1 & m1 & Hc & Hdf1 & E1).
  destruct (low_memory_prefix L reset_fails a1 c1 d b sp bp si1 di1 fl1 cr0 gdtr m1 tty dev Hreset Hreal Hdf1 Hesp)
    as (a2 & bp2 & fl2 & m2 & dev2 & Hm2 & Hdf2 & E2). rewrite Hrs in E2.
  assert (ld32 m2 (dap + 12) = 0) as Hz2 by (by eapply packet_room).
  destruct (read_sectors (u8 d) image (stage0_return L 0) 1 m2 Hr ltac:(lia) Hz2) as (ah3 & m3 & E3 & Hret3 & Hi3 & Ho3).
  destruct (call_lba_read L int13 Hint13 (stage0_return L 0) (set_low 16 _heap_location a2) (set_low 16 1 c1) d 1 bp2
    (set_low 16 (reset_error_msg L) si1) di1 _heap_location (16 * _heap_location) fl2 cr0 gdtr m2 tty dev2 ah3 m3)
    as (a4 & si4 & fl4 & dev4 & Hdf4 & E4); [done|lia|unfold _heap_location; lia|by rewrite u16_set_low|done|].
  pose proof (sector_word image m3) as Hw.
  assert (ld32 m3 (dap + 12) = 0) as Hz3.
  { rewrite <- Hz2. apply load_ext. intros i Hi. cbn in Hi. apply Ho3; unfold dap, _heap_location; lia. }
  destruct (read_sectors (u8 d) image (stage0_return L 1) n m3 Hr ltac:(lia) Hz3) as (ah5 & m5 & E5 & Hret5 & Hi5 & Ho5).
  destruct (read_stage1_found L int13 Hint13 a4 (set_low 16 1 c1) d 1 bp2 si4 di1 _heap_location (16 * _heap_location)
    fl4 cr0 gdtr m3 tty dev4 ah5 m5) as (a6 & c6 & si6 & fl6 & dev6 & Hdf6 & E6);
    [done|congruence|unfold _heap_location; lia|by rewrite <- (Z.add_0_r _heap_location), Hw by (done || lia)
    |by rewrite Hw, Hcount by (done || lia)|done|].
  eexists. split; [exists 0%nat; intros fuel _; rewrite E1, E2, E4; apply E6|].
  split; try done; cbn [x_mem x_segs].
  - intros i Hi. unfold _final_mbr_address, _initial_mbr_address.
    rewrite Ho5, Ho3, Hm2, Hc by (unfold dap, _heap_location; lia).
    replace ((2048 <=? 2048 + i) && (2048 + i <? 2048 + 512)) with true by lia. f_equal. lia.
  - intros x Hx Hx2. assert (dap = 4096 /\ _heap_location = 4112) as [Hd Hh] by done.
    rewrite Ho5, Ho3, Hm2, Hc by lia. by replace ((2048 <=? x) && (x <? 2048 + 512)) with false by lia.
Qed.

(** C5: from the power-on state, with a drive that resets and reads, and a second sector that
    starts with the signature and a count [n] of 1 to 127 sectors, the record copies itself to
    0x800, loads the [n] sectors to 0x1010 and jumps to 0x1014, with its stack at 0x7ff, all
    segments 0 and the drive number still in %edx. *)
Theorem stage0_loads image n s :
  int13_reads int13 (u8 (reg EDX s)) image -> bios_reset reset_fails -> boot_state s ->
  reset_fails (u8 (reg EDX s)) = false ->
  image_word image 1 0 = _stage1_magic -> image_word image 1 2 = n -> 1 <= n <= 127 ->
  exists s', returns (fun fuel => _start L fuel) s 0x1014 s' /\ stage1_loaded image n s s'.
Proof. apply stage0_loads_lemma. Qed.

(** What stops the record, with its message. *)
Inductive stage0_fault (image : Z -> Z -> Z) (drive : Z) : list Z -> Prop :=
  | Fault_reset : reset_fails drive = true -> stage0_fault image drive reset_error_text
  | Fault_read : reset_fails drive = false ->
      (forall m, exists ah m', int13 drive dap m = (true, ah, m') /\ kept 2048 m m') ->
      stage0_fault image drive read_error_text
  | Fault_magic : reset_fails drive = false -> int13_reads int13 drive image -> image_word image 1 0 <> _stage1_magic ->
      stage0_fault image drive stage1_magic_notFound_text.

(** A message in the record, which the firmware puts at 0x7c00 and the code expects at 0x800. *)
Definition message_at (m : mem) (label : Z) (text : list Z) : Prop :=
  2048 <= label /\ label + Z.of_nat (List.length text) < 2560 /\
  cstring_at m (label - _final_mbr_address + _initial_mbr_address) text.

Lemma message_moved m m1 m2 label text :
  message_at m label text -> is_copy m 0x800 0x7C00 512 m1 -> (forall a, 2048 <= a < 2560 -> rd8 m2 a = rd8 m1 a) ->
  cstring_at m2 label text.
Proof.
  intros (H1 & H2 & Hs) Hc Hk. eapply cstring_at_ext; [|exact Hs]. intros i Hi.
  rewrite Hk, Hc by lia. replace ((2048 <=? label + i) && (label + i <? 2048 + 512)) with true by lia.
  f_equal. unfold _final_mbr_address, _initial_mbr_address. lia.
Qed.

(** C24: a drive that does not reset, a read that fails, a second sector without the signature:
    each ends with its message on the screen and the processor halted. *)
Theorem stage0_refuses image s text :
  boot_state s -> bios_tty -> bios_reset reset_fails ->
  message_at (x_mem s) (reset_error_msg L) reset_error_text ->
  message_at (x_mem s) (read_error_msg L) read_error_text ->
  message_at (x_mem s) (stage1_magic_notFound_error_msg L) stage1_magic_notFound_text ->
  stage0_fault image (u8 (reg EDX s)) text ->
  exists s', x_tty s' = x_tty s ++ text /\ panics (fun fuel => _start L fuel) s "hlt" s'.
Proof.
  intros [Hreal Hsize Hup Hesp Hlba] Htty Hreset Hm1 Hm2 Hm3 Hf.
  destruct s as [[a c d b sp bp si di] sg fl cr0 gdtr m tty dev]. unfold pe, reg in *.
  cbn [x_cr0 x_segs x_flags x_mem gpr_get x_regs g_esp g_edx x_tty] in *.
  destruct (start_prefix L a c d b sp bp si di sg fl cr0 gdtr m tty dev Hreal Hup Hsize)
    as (a1 & c1 & si1 & di1 & fl1 & m1 & Hc & Hdf1 & E1).
  destruct (low_memory_prefix L reset_fails a1 c1 d b sp bp si1 di1 fl1 cr0 gdtr m1 tty dev Hreset Hreal Hdf1 Hesp)
    as (a2 & bp2 & fl2 & m2 & dev2 & Hk2 & Hdf2 & E2).
  assert (forall x, 2048 <= x < 2560 -> rd8 m2 x = rd8 m1 x) as Hk by (intros; apply Hk2; lia).
  assert (forall l t, message_at m l t -> u16 l = l /\ 2047 <= l /\ l + Z.of_nat (List.length t) < 65536) as Hlab
    by (intros l t (? & ? & _); rewrite u16_small; lia).
  destruct Hf as [Hrs|Hrs Hread|Hrs Hr Hmagic]; rewrite Hrs in E2.
  - destruct (Hlab _ _ Hm1) as (Hl1 & Hl2 & Hl3).
    destruct (error_run (A := Z) Htty reset_error_text (reset_error_msg L) (stage0_return L 2) a2 c1 d b 2047 bp2
      (set_low 16 (reset_error_msg L) si1) di1 z16 0 0 false z16 z16 z16 0 fl2 cr0 gdtr m2 tty dev2) as (s' & Ht & Hp);
      [done|done|done|by rewrite u16_set_low|by eapply message_moved|lia..|].
    exists s'. split; [exact Ht|]. eapply panics_eq; [|exact Hp]. intros fuel. by rewrite E1, E2.
  - destruct (Hlab _ _ Hm2) as (Hl1 & Hl2 & Hl3).
    destruct (Hread (packet 1 1 0 _heap_location (st16 m2 2045 (stage0_return L 0)))) as (ah & m3 & E3 & Hk3).
    destruct (call_lba_read_fails L int13 Hint13 (stage0_return L 0) (set_low 16 _heap_location a2) (set_low 16 1 c1) d 1 bp2
      (set_low 16 (reset_error_msg L) si1) di1 _heap_location (16 * _heap_location) fl2 cr0 gdtr m2 tty dev2 ah m3
      (fun fuel _ => read_stage1 L fuel))
      as (s' & Ht & Hp); [done|done|done|lia|unfold _heap_location; lia|by rewrite u16_set_low|lia| |].
    { eapply message_moved; [exact Hm2|exact Hc|]. intros x Hx.
      rewrite Hk3, packet_out, rd8_store_out, Hk by (unfold dap; cbn; lia). done. }
    exists s'. split; [exact Ht|]. eapply panics_eq; [|exact Hp]. intros fuel. by rewrite E1, E2.
  - destruct (Hlab _ _ Hm3) as (Hl1 & Hl2 & Hl3).
    assert (ld32 m2 (dap + 12) = 0) as Hz2 by (by eapply packet_room).
    destruct (read_sectors (u8 d) image (stage0_return L 0) 1 m2 Hr ltac:(lia) Hz2) as (ah3 & m3 & E3 & Hret3 & Hi3 & Ho3).
    destruct (call_lba_read L int13 Hint13 (stage0_return L 0) (set_low 16 _heap_location a2) (set_low 16 1 c1) d 1 bp2
      (set_low 16 (reset_error_msg L) si1) di1 _heap_location (16 * _heap_location) fl2 cr0 gdtr m2 tty dev2 ah3 m3)
      as (a4 & si4 & fl4 & dev4 & Hdf4 & E4); [done|lia|unfold _heap_location; lia|by rewrite u16_set_low|done|].
    destruct (read_stage1_prefix L a4 (set_low 16 1 c1) d 1 bp2 si4 di1 (Seg _heap_location (16 * _heap_location) false)
      fl4 cr0 gdtr m3 tty dev4) as (fl5 & a5 & b5 & Hdf5 & E5); [congruence|].
    rewrite <- (Z.add_0_r _heap_location), (sector_word image m3 0), Z.add_0_r, (proj2 (Z.eqb_neq _ _) Hmagic) in E5
      by (done || lia).
    destruct (error_run (A := Z) Htty stage1_magic_notFound_text (stage1_magic_notFound_error_msg L) (stage0_return L 2) a5
      (set_low 16 1 c1) d b5 2047 bp2 (set_low 16 (stage1_magic_notFound_error_msg L) si4) (set_low 16 dap di1) z16 0 0 false
      z16 (Seg _heap_location (16 * _heap_location) false) z16 0 fl5 cr0 gdtr m3 tty dev4) as (s' & Ht & Hp);
      [done|done|done|by rewrite u16_set_low| |lia..|].
    { eapply message_moved; [exact Hm3|exact Hc|]. intros x Hx.
      rewrite Ho3, Hk by (unfold dap, _heap_location; lia). done. }
    exists s'. split; [exact Ht|]. eapply panics_eq; [|exact Hp]. intros fuel. rewrite E1, E2, E4. apply E5.
Qed.
End Whole.

(** ** Examples: a drive 128 that resets and reads, a second sector with a count of 1 *)

Definition boot_platform (image : Z -> Z -> Z) : Platform unit := {|
  a20 _ := false;
  port_in _ d := (0, d);
  port_out _ _ d := d;
  bios n s :=
    if n =? 0x13 then
      if get_high8 (reg EAX s) =? 0 then
        set_flags (put_flag 0 (negb (u8 (reg EDX s) =? 128)) (x_flags s)) (set_reg EAX (set_high8 0 (reg EAX s)) s)
      else
        let '(carry, ah, m) := example_int13 image (u8 (reg EDX s)) (lin DS (u16 (reg ESI s)) s) (x_mem s) in
        set_flags (put_flag 0 carry (x_flags s)) (set_reg EAX (set_high8 ah (reg EAX s)) (set_xmem m s))
    else s |}.

Lemma boot_platform_int13 image : @bios_int13 unit (boot_platform image) (example_int13 image).
Proof.
  intros s _ Ha. exists tt. destruct s as [? ? ? ? ? ? ? []]. unfold bios, boot_platform. rewrite Ha. cbn [Z.eqb Pos.eqb].
  by destruct (example_int13 image _ _ _) as [[? ?] ?].
Qed.

Lemma boot_platform_reset image : @bios_reset unit (boot_platform image) (fun d => negb (d =? 128)).
Proof.
  intros s _ Ha. exists 0, (x_mem s), tt. unfold bios, boot_platform. rewrite Ha. cbn [Z.eqb Pos.eqb].
  by destruct s as [? ? ? ? ? ? ? []].
Qed.

Lemma boot_platform_tty image : @bios_tty unit (boot_platform image).
Proof. intros s _ _. exists (reg EAX s), (x_mem s), tt. by destruct s as [[] ? ? ? ? ? ? []]. Qed.

Lemma example_keeps_stack image : keeps_stack (example_int13 image).
Proof.
  intros drive m lba n buf a Hq Hn Hb [_ [_ Hf]] Ha. unfold example_int13. rewrite Hq.
  destruct (drive =? 128); [|done]. cbn [snd]. unfold sector_bytes.
  rewrite rd8_write_bytes by (rewrite length_map, length_seqZ; lia).
  rewrite lookup_ge_None_2; [done|]. rewrite length_map, length_seqZ. wrap_lia.
Qed.

Definition power_on (m : mem) : x86 unit :=
  X86 (Gprs 0 0 128 0 4096 0 0 0) (let z := Seg 1984 31744 false in Segs z z z z z z) 514 16 (0, 0) m [] tt.

Lemma power_on_boot_state m : ld32 m (dap + 12) = 0 -> boot_state (power_on m).
Proof. intros H. split; [done|by intros []|done|cbn; lia|exact H]. Qed.

Definition example_labels : stage0_labels := {|
  reset_error_msg := 2304;
  stage1_magic_notFound_error_msg := 2352;
  read_error_msg := 2400;
  stage0_return := fun n => 2200 + Z.of_nat n;
|}.

Definition example_stage1_image (lba i : Z) : Z := if lba =? 1 then u8 (nth (Z.to_nat i) [0x41; 0x31; 1; 0; 0xFA] 0) else 0.

Lemma example_stage1_byte lba i : 0 <= example_stage1_image lba i < 256.
Proof. unfold example_stage1_image. destruct (lba =? 1); [apply u8_bounds|lia]. Qed.

Lemma stage0_loads_witness :
  let _ := boot_platform example_stage1_image in
  let s := power_on (write_bytes ∅ 31744 [0xFA; 0xB8]) in
  exists s', returns (fun fuel => _start example_labels fuel) s 0x1014 s' /\
    rd8 (x_mem s') 0x1014 = 0xFA /\ rd8 (x_mem s') 0x801 = 0xB8.
Proof.
  intros pl s.
  destruct (stage0_loads example_labels (example_int13 example_stage1_image) (fun d => negb (d =? 128))
    (boot_platform_int13 _) (example_keeps_stack _) example_stage1_image 1 s)
    as (s' & E & [Hi Hr _ _ _ _ _ _ _]).
  - apply example_int13_reads, example_stage1_byte.
  - apply boot_platform_reset.
  - apply power_on_boot_state. vm_compute. reflexivity.
  - reflexivity.
  - reflexivity.
  - reflexivity.
  - lia.
  - exists s'. split; [exact E|]. split; [exact (Hi 4 ltac:(lia))|]. change 0x801 with (_final_mbr_address + 1). rewrite (Hr 1) by lia. vm_compute. reflexivity.
Defined.

Definition example_record : mem :=
  write_bytes (write_bytes (write_bytes ∅ 32000 (reset_error_text ++ [0])) 32048 (stage1_magic_notFound_text ++ [0]))
    32096 (read_error_text ++ [0]).

Ltac example_message :=
  split; [vm_compute; discriminate|split; [vm_compute; reflexivity|]];
  apply example_string; [vm_compute; reflexivity|repeat constructor; discriminate].

Lemma stage0_refuses_witness :
  let _ := boot_platform (fun _ _ => 0) in
  exists s', x_tty s' = bytes_of_string "Error: Stage1 magic not found" /\
    panics (fun fuel => _start example_labels fuel) (power_on example_record) "hlt" s'.
Proof.
  intros pl.
  destruct (stage0_refuses example_labels (example_int13 (fun _ _ => 0)) (fun d => negb (d =? 128))
    (boot_platform_int13 _) (example_keeps_stack _) (fun _ _ => 0) (power_on example_record) stage1_magic_notFound_text)
    as (s' & Ht & Hp).
  - apply power_on_boot_state. vm_compute. reflexivity.
  - apply boot_platform_tty.
  - apply boot_platform_reset.
  - example_message.
  - example_message.
  - example_message.
  - apply Fault_magic; [reflexivity| |discriminate]. apply example_int13_reads. lia.
  - by exists s'.
Defined.
