(* ===== verification/A20.v ===== *)
(** The A20 gate, in [bootloader/stage1.S]: testing it and the three ways to open it. *)

From S2P Require Import Prelude PhysMem Layout CString Cpu X86 RealMode Teletype.
Import Asm.

Local Open Scope list_scope.
Local Open Scope Z_scope.

(** The messages of the file. *)
Definition crlf : list Z := [10; 13].
Definition a20_line_disabled_text : list Z := bytes_of_string "A20 line is not enabled, attempting to enable it..." ++ crlf.
Definition a20_line_enabled_text : list Z := bytes_of_string "A20 line enabled successfully!" ++ crlf.
Definition a20_line_error_text : list Z := bytes_of_string "Error: Could not enable A20 line, aborting!".
Definition a20_line_attempt_keyboard_text : list Z :=
  bytes_of_string "Int 15h enable failed, attempting keyboard enable..." ++ crlf.
Definition a20_line_attempt_fast_text : list Z :=
  bytes_of_string "Keyboard enable failed, attempting fast A20 enable... " ++ crlf.
Definition a20_line_skip_text : list Z := bytes_of_string "A20 line is already enabled, skipping enabling" ++ crlf.

(** Addresses of [stage1.S]: its messages and data; where the calls return to, in the order
    of the file. *)
Record stage1_labels : Type := {
  a20_line_disabled_msg : Z;
  a20_line_enabled_msg : Z;
  a20_line_error_msg : Z;
  a20_line_attempt_keyboard_msg : Z;
  a20_line_attempt_fast_msg : Z;
  a20_line_skip_msg : Z;
  stage1_temp : Z;
  gdt_start : Z;
  gdt_desc : Z;
  __stop_stage1 : Z;
  stage1_return : nat -> Z;
}.

Section A20.
Context {D : Type} {P : Platform D}.

Abbreviation code := (prog (x86 D) unit).

(** [check_a20] puts aside the registers it uses, *)
Definition check_a20_save : code :=
  do* pushf 16 in
  do* push_seg 16 DS in
  do* push_seg 16 ES in
  do* push 16 (Lo EDI) in
  push 16 (Lo ESI).

(** writes different words to 0x500 ([%es:%di]) and 0x100500 ([%ds:%si]), which are the same
    place with the gate closed, *)
Definition check_a20_probe : code :=
  do* cli in
  do* xor 16 (Lo EAX) (Lo EAX) in
  do* mov_seg (Lo EAX) ES in
  do* not 16 (Lo EAX) in
  do* mov_seg (Lo EAX) DS in
  do* mov 16 (Imm 0x0500) (Lo EDI) in
  do* mov 16 (Imm 0x0510) (Lo ESI) in
  do* mov 8 (Mem ES (Ind16 EDI)) (Lo EAX) in
  do* push 16 (Lo EAX) in
  do* mov 8 (Mem DS (Ind16 ESI)) (Lo EAX) in
  do* push 16 (Lo EAX) in
  do* mov 16 (Imm 0) (Mem ES (Ind16 EDI)) in
  do* mov 16 (Imm 0xff) (Mem DS (Ind16 ESI)) in
  do* cmp 16 (Imm 0xff) (Mem ES (Ind16 EDI)) in
  do* pop 16 (Lo EAX) in
  do* mov 8 (Lo EAX) (Mem DS (Ind16 ESI)) in
  do* pop 16 (Lo EAX) in
  mov 8 (Lo EAX) (Mem ES (Ind16 EDI)).

(** and answers in [%ax]. *)
Definition check_a20_exit : code :=
  do* mov 16 (Imm 0) (Lo EAX) in
  do* je (ret tt) (mov 16 (Imm 1) (Lo EAX)) in
  do* pop 16 (Lo ESI) in
  do* pop 16 (Lo EDI) in
  do* pop_seg 16 ES in
  do* pop_seg 16 DS in
  popf 16.

Definition check_a20 : code :=
  do* check_a20_save in
  do* check_a20_probe in
  check_a20_exit.

(** The keyboard controller takes no byte, or has none to give, yet. *)
Fixpoint a20_wait (fuel : nat) : code :=
  match fuel with
  | O => fun _ => OutOfFuel
  | S fuel' => do* inb 0x64 in do* test 8 (Imm 2) (Lo EAX) in jne (a20_wait fuel') (ret tt)
  end.

Fixpoint a20_wait_2 (fuel : nat) : code :=
  match fuel with
  | O => fun _ => OutOfFuel
  | S fuel' => do* inb 0x64 in do* test 8 (Imm 1) (Lo EAX) in je (a20_wait_2 fuel') (ret tt)
  end.

Context (L : stage1_labels) (fuel : nat).

Abbreviation ra := (stage1_return L).

Definition a20_gate_enabled : code :=
  do* lea (a20_line_enabled_msg L) ESI in
  call 16 (ra 17) (write_loop fuel).

Definition a20_gate_failed : code :=
  do* lea (a20_line_error_msg L) ESI in
  error (ra 18) fuel.

(** [%ax] is 1. *)
Definition if_a20 (yes no : code) : code :=
  do* mov 16 (Imm 1) (Lo EBX) in
  do* cmp 16 (Lo EAX) (Lo EBX) in
  je yes no.

Definition fast_a20_enable : code :=
  do* lea (a20_line_attempt_fast_msg L) ESI in
  do* call 16 (ra 15) (write_loop fuel) in
  do* inb 0x92 in
  do* test 8 (Imm 2) (Lo EAX) in
  jne a20_gate_failed
    (do* or 8 (Imm 2) (Lo EAX) in
     do* and 8 (Imm 0xfe) (Lo EAX) in
     do* outb 0x92 in
     do* call 16 (ra 16) check_a20 in
     if_a20 a20_gate_enabled a20_gate_failed).

(** The command that announces a byte for the output port. *)
Definition write_to_output : code :=
  do* call 16 (ra 10) (a20_wait fuel) in
  do* mov 8 (Imm 0xd1) (Lo EAX) in
  do* outb 0x64 in
  call 16 (ra 11) (a20_wait fuel).

Definition keyboard_enable : code :=
  do* lea (a20_line_attempt_keyboard_msg L) ESI in
  do* call 16 (ra 6) (write_loop fuel) in
  do* cli in
  do* call 16 (ra 7) (a20_wait fuel) in
  do* mov 8 (Imm 0xad) (Lo EAX) in
  do* outb 0x64 in
  do* call 16 (ra 8) (a20_wait fuel) in
  do* mov 8 (Imm 0xd0) (Lo EAX) in
  do* outb 0x64 in
  do* call 16 (ra 9) (a20_wait_2 fuel) in
  do* inb 0x60 in
  do* push 32 (Lo EAX) in
  do* write_to_output in
  do* pop 32 (Lo EAX) in
  do* or 8 (Imm 2) (Lo EAX) in
  do* outb 0x60 in
  do* call 16 (ra 12) (a20_wait fuel) in
  do* mov 8 (Imm 0xae) (Lo EAX) in
  do* outb 0x64 in
  do* call 16 (ra 13) (a20_wait fuel) in
  do* sti in
  do* call 16 (ra 14) check_a20 in
  if_a20 a20_gate_enabled fast_a20_enable.

Definition enable_20_gate : code :=
  do* clc in
  do* mov 16 (Imm 0x2403) (Lo EAX) in
  do* int 0x15 in
  jc keyboard_enable
    (do* test 8 (Hi EAX) (Hi EAX) in
     jne keyboard_enable
       (do* mov 16 (Imm 0x2401) (Lo EAX) in
        do* int 0x15 in
        jc keyboard_enable
          (do* test 8 (Hi EAX) (Hi EAX) in
           jne keyboard_enable
             (do* call 16 (ra 5) check_a20 in
              if_a20 a20_gate_enabled keyboard_enable)))).
End A20.

(** ** Proofs: the test *)

(** Straight-line code up to the next use of the stack. *)
Ltac x_run :=
  repeat lazymatch goal with
  | |- bind (push _ _) _ _ = _ => fail
  | |- bind (pop _ _) _ _ = _ => fail
  | |- _ => x_step
  end.

Section Check.
Context {D : Type} {P : Platform D}.

(** The five words it saves. *)
Definition saved_words (m : mem) (sp fl si di : Z) : mem :=
  st16 (st16 (st16 (st16 (st16 m (sp - 2) fl) (sp - 4) 0) (sp - 6) 0) (sp - 8) (u16 di)) (sp - 10) (u16 si).

Lemma saved_words_read m m' sp fl si di :
  1536 <= sp < 65536 -> (forall x, sp - 10 <= x < sp -> rd8 m' x = rd8 (saved_words m sp fl si di) x) ->
  ld16 m' (sp - 10) = u16 si /\ ld16 m' (sp - 8) = u16 di /\ ld16 m' (sp - 6) = 0 /\ ld16 m' (sp - 4) = 0 /\
  ld16 m' (sp - 2) = u16 fl.
Proof.
  intros Hsp H.
  assert (forall k, sp - 10 <= k -> k + 2 <= sp -> ld16 m' k = ld16 (saved_words m sp fl si di) k) as E
    by (intros; apply load_ext; intros i Hi; apply H; cbn in Hi; lia).
  rewrite !E by lia. unfold saved_words.
  repeat split; repeat first [rewrite (load_store 2) by lia | rewrite load_store_out by (cbn; lia)];
    first [done | apply (wrap_wrap 16)].
Qed.

(** The probe: the byte at 0x500 and the one 20 bits higher, which may be the same. *)
Definition probe_high (dev : D) : Z := if a20 dev then 1049856 else 1280.

Lemma phys_probe dev : phys dev (16 * 65535 + 1296) = probe_high dev.
Proof. unfold phys, probe_high. by destruct (a20 dev). Qed.

(** Memory during and after the probe, the words [w1], [w2] put aside on the stack. *)
Definition probing (m : mem) (sp p w1 w2 : Z) : mem :=
  st16 (st16 (st16 (st16 m (sp - 12) w1) (sp - 14) w2) 1280 0) p 255.

Definition probed (m : mem) (sp p w1 w2 : Z) : mem :=
  store 1 (store 1 (probing m sp p w1 w2) p (u8 w2)) 1280 (u8 w1).

Lemma rd8_st16 m a v : rd8 (st16 m a v) a = u8 v /\ rd8 (st16 m a v) (a + 1) = u8 (v / 256).
Proof.
  cbn [store]. split; [|by rewrite rd8_wr8_eq].
  rewrite rd8_wr8_ne, rd8_wr8_eq by (done || wrap_lia). done.
Qed.

Lemma probing_reads m sp p w1 w2 :
  1536 <= sp < 65536 -> p = 1280 \/ p = 1049856 ->
  ld16 (probing m sp p w1 w2) (sp - 14) = u16 w2 /\ ld16 (store 1 (probing m sp p w1 w2) p (u8 w2)) (sp - 12) = u16 w1 /\
  ld16 (probing m sp p w1 w2) 1280 = if p =? 1280 then 255 else 0.
Proof.
  intros Hsp Hp.
  assert (forall x v, sp - 14 <= x -> x + 2 <= sp -> ld16 (st16 v p 255) x = ld16 v x /\ ld16 (store 1 v p (u8 w2)) x = ld16 v x) as E.
  { intros x v Hx1 Hx2. split; apply load_ext; intros i Hi; cbn in Hi; apply rd8_store_out; cbn; lia. }
  unfold probing. split; [|split].
  - rewrite (proj1 (E (sp - 14) _ ltac:(lia) ltac:(lia))), load_store_out, (load_store 2) by (cbn; lia). done.
  - rewrite (proj2 (E (sp - 12) _ ltac:(lia) ltac:(lia))), (proj1 (E (sp - 12) _ ltac:(lia) ltac:(lia))).
    rewrite 2!load_store_out, (load_store 2) by (cbn; lia). done.
  - destruct Hp as [-> | ->]; [by rewrite (load_store 2) by lia|]. cbn [Z.eqb Pos.eqb].
    transitivity (ld16 (st16 (st16 (st16 m (sp - 12) w1) (sp - 14) w2) 1280 0) 1280); [|by rewrite (load_store 2) by lia].
    apply load_ext. intros i Hi. cbn in Hi. apply rd8_store_out; cbn; lia.
Qed.

(** The two bytes are restored, their right neighbours are cleared. *)
Lemma probed_rd8 m sp p w1 w2 x :
  1536 <= sp < 65536 -> p = 1280 \/ p = 1049856 -> u8 w1 = rd8 m 1280 -> u8 w2 = rd8 m p ->
  0 <= x < 4294967296 -> x < sp - 14 \/ sp - 10 <= x ->
  rd8 (probed m sp p w1 w2) x = if (x =? 1281) || (x =? p + 1) then 0 else rd8 m x.
Proof.
  intros Hsp Hp H1 H2 Hx Ho. unfold probed, probing. change (store 1 ?m ?a ?v) with (wr8 m a v).
  set (m1 := st16 (st16 m (sp - 12) w1) (sp - 14) w2).
  assert (rd8 m1 x = rd8 m x) as Hm1 by (unfold m1; rewrite !rd8_store_out by (cbn; lia); done).
  destruct (rd8_st16 m1 1280 0) as [A1 A2]. destruct (rd8_st16 (st16 m1 1280 0) p 255) as [B1 B2].
  destruct (Z.eq_dec x 1280) as [->|N1].
  { rewrite rd8_wr8_eq, wrap_wrap, H1 by done. replace (_ || _) with false by lia. done. }
  rewrite rd8_wr8_ne by (rewrite !u32_small; lia).
  destruct (Z.eq_dec x p) as [->|N2].
  { rewrite rd8_wr8_eq, wrap_wrap, H2 by done. replace (_ || _) with false by lia. done. }
  rewrite rd8_wr8_ne by (rewrite !u32_small; lia).
  destruct (Z.eq_dec x (p + 1)) as [->|N3].
  { rewrite B2, Z.eqb_refl, orb_true_r. done. }
  rewrite (rd8_store_out 2 _ p) by (cbn; lia). rewrite (proj2 (Z.eqb_neq x (p + 1)) N3), orb_false_r.
  destruct (Z.eqb_spec x 1281) as [->|N4]; [exact A2|]. by rewrite rd8_store_out by (cbn; lia).
Qed.

Lemma bind_check_a20_save {A} (k : unit -> prog (x86 D) A) a c d b sp bp si di fl cr0 gdtr m tty dev :
  1536 <= sp < 65536 ->
  bind check_a20_save k (X86 (Gprs a c d b sp bp si di) real_segs fl cr0 gdtr m tty dev) =
  k tt (X86 (Gprs a c d b (sp - 10) bp si di) real_segs fl cr0 gdtr (saved_words m sp fl si di) tty dev).
Proof.
  intros Hsp. unfold check_a20_save, real_segs. rewrite !bind_assoc.
  repeat (rewrite ?bind_assoc, ?bind_pushf, ?bind_push_seg, ?bind_push_op; rewrite bind_push16 by lia).
  x_norm. unfold saved_words. rewrite <- !Z.sub_add_distr. reflexivity.
Qed.

(** [sp] is the stack pointer before all of it. *)
Lemma check_a20_probe_run a c d b sp bp si di fl cr0 gdtr m tty dev :
  Z.testbit cr0 0 = false -> 1536 <= sp < 65536 ->
  exists a' si' di' fl' ds es w1 w2, se_big ds = false /\ se_big es = false /\ u8 w1 = rd8 m 1280 /\ u8 w2 = rd8 m (probe_high dev) /\
    Z.testbit fl' 6 = negb (a20 dev) /\ forall A (k : unit -> prog (x86 D) A),
    bind check_a20_probe k (X86 (Gprs a c d b (sp - 10) bp si di) real_segs fl cr0 gdtr m tty dev) =
    k tt (X86 (Gprs (set_low 16 a' a) c d b (sp - 10) bp (set_low 16 si' si) (set_low 16 di' di))
      (Segs (Seg 0 0 false) ds es (Seg 0 0 false) (Seg 0 0 false) (Seg 0 0 false)) fl' cr0 gdtr
      (probed m sp (probe_high dev) w1 w2) tty dev).
Proof.
  intros Hcr Hsp. set (p := probe_high dev).
  assert (p = 1280 \/ p = 1049856) as Hp by (unfold p, probe_high; destruct (a20 dev); lia).
  assert ((p =? 1280) = negb (a20 dev)) as Ha by (unfold p, probe_high; by destruct (a20 dev)).
  set (a1 := set_low 8 (rd8 m 1280) (set_low 16 65535 a)).
  set (a2 := set_low 8 (rd8 (st16 m (sp - 12) (u16 a1)) p) a1).
  set (w := ld16 (probing m sp p (u16 a1) (u16 a2)) 1280).
  destruct (probing_reads m sp p (u16 a1) (u16 a2) Hsp Hp) as (R1 & R2 & R3). rewrite Ha in R3. fold w in R3.
  pose proof (rd8_bounds m 1280) as B1. pose proof (rd8_bounds (st16 m (sp - 12) (u16 a1)) p) as B2.
  exists (u16 (u16 a1)), 1296, 1280.
  exists (put_flag 6 (u16 (w - 255) =? 0) (put_flag 0 (negb (w - 255 =? u16 (w - 255))) (put_flag 6 true (put_flag 0 false (put_flag 9 false fl))))).
  exists (Seg 65535 (16 * 65535) false), (Seg 0 0 false), (u16 a1), (u16 a2).
  split; [done|]. split; [done|]. split; [|split; [|split; [|intros A k]]].
  - unfold a1, set_low. cbn [Z.eqb Pos.eqb]. wrap_lia.
  - transitivity (rd8 (st16 m (sp - 12) (u16 a1)) p); [unfold a2, set_low; cbn [Z.eqb Pos.eqb]; wrap_lia|].
    apply rd8_store_out; cbn; lia.
  - rewrite !testbit_put_flag by lia. cbn [Z.eqb Pos.eqb]. rewrite R3. by destruct (a20 dev).
  - unfold check_a20_probe, real_segs, cli, xor, not, cmp. x_run. rewrite bind_load_seg by exact Hcr. x_norm.
    x_run. rewrite bind_load_seg by exact Hcr. x_norm. x_run.
    rewrite Z.lxor_nilpotent. change (u16 0) with 0. rewrite !u16_set_low. change (u16 0) with 0.
    change (2 ^ 16 - 1 - 0) with 65535. change (u16 65535) with 65535. rewrite !set_low_set_low by done.
    change (16 * 0 + u16 (u16 1280)) with 1280. rewrite (phys_low dev 1280) by lia.
    change (load 1 m 1280) with (rd8 m 1280 + 256 * 0). rewrite Z.add_0_r. fold a1.
    rewrite bind_push_op, bind_push16 by lia. x_run.
    replace (16 * 65535 + u16 (set_low 16 (u16 1296) si)) with (16 * 65535 + 1296) by (by rewrite u16_set_low).
    rewrite phys_probe. fold p. rewrite bind_push_op, bind_push16 by lia. x_run.
    change (load 1 ?m p) with (rd8 m p + 256 * 0). rewrite Z.add_0_r, <- !Z.sub_add_distr.
    replace (16 * 65535 + u16 (set_low 16 (u16 1296) si)) with (16 * 65535 + 1296) by (by rewrite u16_set_low).
    replace (16 * 0 + u16 (set_low 16 (u16 1280) di)) with 1280 by (by rewrite u16_set_low).
    rewrite phys_probe, (phys_low dev 1280) by lia. fold p.
    change (sp - (10 + 2)) with (sp - 12). fold a2. change (sp - (12 + 2)) with (sp - 14).
    change (st16 (st16 _ 1280 (u16 0)) p (u16 255)) with (probing m sp p (u16 a1) (u16 a2)). fold w.
    change (sp - (10 + 2 + 2)) with (sp - 14). rewrite bind_pop_op, bind_pop16, R1, bind_modify by lia. x_norm. x_run.
    replace (16 * 65535 + u16 (set_low 16 (u16 1296) si)) with (16 * 65535 + 1296) by (by rewrite u16_set_low).
    rewrite phys_probe. fold p. replace (sp - 14 + 2) with (sp - 12) by lia.
    assert (u8 (set_low 16 (u16 (u16 a2)) a2) = u8 (u16 a2)) as -> by (unfold set_low; cbn [Z.eqb Pos.eqb]; wrap_lia).
    rewrite bind_pop_op, bind_pop16, R2, bind_modify by lia. x_norm. unfold mov, modify, bind. x_norm.
    replace (16 * 0 + u16 (set_low 16 (u16 1280) di)) with 1280 by (by rewrite u16_set_low).
    rewrite (phys_low dev 1280) by lia. replace (sp - 12 + 2) with (sp - 10) by lia.
    assert (u8 (set_low 16 (u16 (u16 a1)) (set_low 16 (u16 (u16 a2)) a2)) = u8 (u16 a1)) as ->
      by (unfold set_low; cbn [Z.eqb Pos.eqb]; wrap_lia).
    assert (set_low 16 (u16 (u16 a1)) (set_low 16 (u16 (u16 a2)) a2) = set_low 16 (u16 (u16 a1)) a) as ->
      by (unfold a2, a1; rewrite set_low_set_low, !set_low_16_8, set_low_set_low by done; done).
    reflexivity.
Qed.

Lemma check_a20_exit_run a c d b sp bp si di si0 di0 cs ds es fs gs fl fl0 cr0 gdtr m tty dev :
  Z.testbit cr0 0 = false -> 1536 <= sp < 65536 -> se_big ds = false -> se_big es = false -> 
  ld16 m (sp - 10) = u16 si0 -> ld16 m (sp - 8) = u16 di0 -> ld16 m (sp - 6) = 0 -> ld16 m (sp - 4) = 0 ->
  ld16 m (sp - 2) = u16 fl0 ->
  exists fl', (forall i, 0 <= i < 16 -> Z.testbit fl' i = Z.testbit fl0 i) /\
   check_a20_exit (X86 (Gprs a c d b (sp - 10) bp (set_low 16 si si0) (set_low 16 di di0)) (Segs cs ds es fs gs (Seg 0 0 false)) fl cr0 gdtr m tty dev) = 
   Done tt (X86 (Gprs (set_low 16 (if Z.testbit fl 6 then 0 else 1) a) c d b sp bp si0 di0) (Segs cs (Seg 0 0 false) (Seg 0 0 false) fs gs (Seg 0 0 false)) fl' cr0 gdtr m tty dev).
Proof.
  intros Hcr Hsp Hds Hes R1 R2 R3 R4 R5. destruct ds as [dsel dbase dbig], es as [esel ebase ebig]. cbn [se_big] in *. subst dbig ebig.
  exists (set_low 16 (ld16 m (sp - 2)) fl). split.
  { intros i Hi. by rewrite R5, set_low_u16, testbit_set_low. }
  unfold check_a20_exit. x_step. rewrite bind_je. x_flags.
  assert (forall A (k : unit -> prog (x86 D) A) s, (if Z.testbit fl 6 then bind (ret tt) k s else bind (mov 16 (Imm 1) (Lo EAX)) k s) = 
    k tt (set_reg EAX (if Z.testbit fl 6 then reg EAX s else set_low 16 1 (reg EAX s)) s)) as ->.
  { intros A k s. destruct (Z.testbit fl 6); [by destruct s as [[] ? ? ? ? ? ? ?]|done]. }
  unfold reg. x_norm.
  rewrite bind_pop_op, bind_pop16, R1, bind_modify by lia. x_norm. 
  rewrite bind_pop_op, bind_pop16 by lia. replace (sp - 10 + 2) with (sp - 8) by lia. rewrite R2, bind_modify. x_norm.
  rewrite bind_pop_seg, bind_pop16, bind_load_seg by (exact Hcr || lia). x_norm. 
  rewrite bind_pop_seg, bind_pop16, bind_load_seg by (exact Hcr || lia). x_norm. 
  replace (sp - 8 + 2) with (sp - 6) by lia. replace (sp - 6 + 2) with (sp - 4) by lia. rewrite R3, R4.
  unfold popf. rewrite bind_pop16 by lia. replace (sp - 4 + 2) with (sp - 2) by lia. unfold modify. x_norm.
  rewrite !set_low_self. replace (sp - 2 + 2) with sp by lia.
  by destruct (Z.testbit fl 6); rewrite ?set_low_set_low.
Qed.

(** The answer is whether the gate is open; off its stack the function changes nothing but
    the two bytes behind the bytes it tests. *)
Lemma check_a20_run a c d b sp bp si di fl cr0 gdtr m tty dev :
  Z.testbit cr0 0 = false -> 1536 <= sp < 65536 ->
  exists fl' m', (forall i, 0 <= i < 16 -> Z.testbit fl' i = Z.testbit fl i) /\
    (forall x, 0 <= x < 4294967296 -> x < sp - 14 \/ sp <= x -> rd8 m' x =
      if (x =? 1281) || (x =? probe_high dev + 1) then 0 else rd8 m x) /\
    check_a20 (X86 (Gprs a c d b sp bp si di) real_segs fl cr0 gdtr m tty dev) =
      Done tt (X86 (Gprs (set_low 16 (Z.b2z (a20 dev)) a) c d b sp bp si di) real_segs fl' cr0 gdtr m' tty dev).
Proof.
  intros Hcr Hsp. set (m1 := saved_words m sp fl si di).
  destruct (check_a20_probe_run a c d b sp bp si di fl cr0 gdtr m1 tty dev Hcr Hsp)
    as (a1 & si1 & di1 & fl1 & ds & es & w1 & w2 & Hds & Hes & H1 & H2 & Hz & E).
  set (m2 := probed m1 sp (probe_high dev) w1 w2) in *.
  assert (probe_high dev = 1280 \/ probe_high dev = 1049856) as Hp by (unfold probe_high; destruct (a20 dev); lia).
  assert (forall x, 0 <= x < 4294967296 -> x < sp - 14 \/ sp - 10 <= x -> rd8 m2 x =
    if (x =? 1281) || (x =? probe_high dev + 1) then 0 else rd8 m1 x) as Hm2 by (intros; by apply probed_rd8).
  destruct (saved_words_read m m2 sp fl si di Hsp) as (R1 & R2 & R3 & R4 & R5).
  { intros x Hx. rewrite Hm2 by lia. by replace (_ || _) with false by lia. }
  destruct (check_a20_exit_run (set_low 16 a1 a) c d b sp bp si1 di1 si di (Seg 0 0 false) ds es (Seg 0 0 false)
    (Seg 0 0 false) fl1 fl cr0 gdtr m2 tty dev Hcr Hsp Hds Hes R1 R2 R3 R4 R5) as (fl' & Hfl & E').
  exists fl', m2. split; [exact Hfl|]. split.
  - intros x Hx Ho. rewrite Hm2 by lia. destruct (_ || _) eqn:Ex; [done|].
    unfold m1, saved_words. by rewrite !rd8_store_out by (cbn; lia).
  - unfold check_a20. rewrite bind_check_a20_save by lia. fold m1. rewrite E, E', Hz, set_low_set_low by done.
    by destruct (a20 dev).
Qed.
End Check.

(** ** Proofs: between the steps of opening the gate *)

Section Steps.
Context {D : Type} {P : Platform D}.

(** Real mode as [stage0.S] leaves it, with a stack below the program. *)
Record real_mode (s : x86 D) : Prop := {
  rm_segs : x_segs s = real_segs;
  rm_real : pe s = false;
  rm_up : Z.testbit (x_flags s) 10 = false;
  rm_esp : 1536 <= reg ESP s <= 4096;
}.

(** What the steps keep: the stack pointer, the drive in %edx, memory off the stack, the
    BIOS's and the byte [check_a20] clears above one megabyte. *)
Record steps (s s' : x86 D) : Prop := {
  st_real : real_mode s';
  st_esp : reg ESP s' = reg ESP s;
  st_edx : reg EDX s' = reg EDX s;
  st_mem a : reg ESP s <= a < 720896 \/ 786432 <= a < 4294967296 -> a <> 1049857 ->
    rd8 (x_mem s') a = rd8 (x_mem s) a;
}.

Lemma steps_refl s : real_mode s -> steps s s.
Proof. by split. Qed.

Lemma steps_trans s1 s2 s3 : steps s1 s2 -> steps s2 s3 -> steps s1 s3.
Proof.
  intros [R1 E1 D1 M1] [R2 E2 D2 M2]. split; [done|congruence|congruence|].
  intros a Ha Hn. rewrite M2, M1 by (rewrite ?E1; done). done.
Qed.

(** Instructions on %eax, %ebx, %esi, flags and devices. *)
Lemma steps_eax s v : real_mode s -> steps s (set_reg EAX v s).
Proof. destruct s as [[] ? ? ? ? ? ? ?]. intros []. by split; [split|..]. Qed.
Lemma steps_ebx s v : real_mode s -> steps s (set_reg EBX v s).
Proof. destruct s as [[] ? ? ? ? ? ? ?]. intros []. by split; [split|..]. Qed.
Lemma steps_esi s v : real_mode s -> steps s (set_reg ESI v s).
Proof. destruct s as [[] ? ? ? ? ? ? ?]. intros []. by split; [split|..]. Qed.
Lemma steps_dev s v : real_mode s -> steps s (set_dev v s).
Proof. destruct s as [[] ? ? ? ? ? ? ?]. intros []. by split; [split|..]. Qed.
Lemma steps_flags s v : Z.testbit v 10 = Z.testbit (x_flags s) 10 -> real_mode s -> steps s (set_flags v s).
Proof. destruct s as [[] ? ? ? ? ? ? ?]. intros E [H1 H2 H3 H4]. cbn in *. rewrite <- E in H3. by split; [split|..]. Qed.

(** A call: the return address is pushed below the stack pointer. *)
Definition pushed (ra : Z) (s : x86 D) : x86 D :=
  set_reg ESP (reg ESP s - 2) (set_xmem (st16 (x_mem s) (reg ESP s - 2) ra) s).

Lemma pushed_real_mode ra s : real_mode s -> 1538 <= reg ESP s -> real_mode (pushed ra s).
Proof.
  destruct s as [[] ? ? ? ? ? ? ?]. unfold pushed, reg. cbn. intros [H1 H2 H3 H4] H. unfold reg in H4. cbn in H4.
  split; [done..|]. unfold reg. cbn. lia.
Qed.

Lemma pushed_steps ra s s' : real_mode s -> 1538 <= reg ESP s -> steps (pushed ra s) s' -> steps s (set_reg ESP (reg ESP s) s').
Proof.
  destruct s as [[a c d b sp bp si di] sg fl cr0 gdtr m tty dev], s' as [[] ? ? ? ? ? ? ?].
  unfold pushed, reg. cbn. intros [_ _ _ R4] Hsp [[S1 S2 S3 S4] Hesp Hedx Hm]. unfold reg in *. cbn in *.
  split; [split; done|done|done|]. cbn. intros x Hx Hn. rewrite Hm by lia.
  change (rd8 (st16 m (sp - 2) ra) x = rd8 m x). apply rd8_store_out; cbn; lia.
Qed.

Lemma ends_call16 ra f s (R : list Z -> D -> Z -> Prop) :
  real_mode s -> 1538 <= reg ESP s ->
  ends f (pushed ra s) (returning (fun _ s' => steps (pushed ra s) s' /\ R (x_tty s') (x_dev s') (reg EAX s'))) ->
  ends (fun fuel => call 16 ra (f fuel)) s (returning (fun _ s' => steps s s' /\ R (x_tty s') (x_dev s') (reg EAX s'))).
Proof.
  intros Hr Hsp (n & o & ([] & s' & -> & Hst & HR) & H).
  exists n, (Done tt (set_reg ESP (reg ESP s) s')). split.
  { exists tt. eexists. split; [done|]. split; [by eapply pushed_steps|]. by destruct s' as [[] ? ? ? ? ? ? ?]. }
  intros fuel Hf. rewrite <- bind_ret_r. destruct Hst as [Hr' Hesp Hedx Hm].
  destruct s as [[a c d b sp bp si di] sg fl cr0 gdtr m tty dev], Hr as [Hsg _ _ Hesp0].
  unfold reg, pushed in *. cbn [gpr_get x_regs g_esp x_segs x_mem set_reg gpr_set set_xmem g_edx] in *. subst sg.
  apply (bind_call16 ra (f fuel) ret a c d b sp bp si di z16 z16 z16 z16 z16 0 fl cr0 gdtr m tty dev s');
    [lia|exact (H fuel Hf)|exact Hesp|by rewrite (rm_segs _ Hr')|].
  transitivity (ld16 (st16 m (sp - 2) ra) (sp - 2)); [|by rewrite (load_store 2) by lia].
  apply load_ext. intros i Hi. cbn in Hi. apply Hm; unfold reg; cbn; lia.
Qed.

(** Printing a message. *)
Lemma ends_say ra p l s :
  bios_tty -> real_mode s -> 1538 <= reg ESP s -> u16 (reg ESI s) = p -> 4112 <= p ->
  p + Z.of_nat (List.length l) < 65536 -> cstring_at (x_mem s) p l ->
  ends (fun fuel => call 16 ra (write_loop fuel)) s
    (returning (fun _ s' => steps s s' /\ x_tty s' = x_tty s ++ l /\ a20 (x_dev s') = a20 (x_dev s))).
Proof.
  intros Htty Hr Hsp Hsi Hp Hl Hs.
  eapply ends_mono; [apply (ends_call16 ra write_loop s (fun t dv _ => t = x_tty s ++ l /\ a20 dv = a20 (x_dev s)) Hr Hsp)|done].
  pose proof (pushed_real_mode ra s Hr Hsp) as [Hps Hpr Hpu Hpe].
  destruct s as [[a c d b sp bp si di] sg fl cr0 gdtr m tty dev]. destruct Hr as [R1 R2 R3 R4].
  unfold reg, pushed, pe in *. cbn [gpr_get x_regs g_esp g_esi x_segs x_mem set_reg gpr_set set_xmem x_flags x_cr0 x_tty x_dev reg] in *.
  unfold reg in *. cbn [gpr_get x_regs g_esp g_esi] in *. subst sg.
  destruct (write_loop_run Htty l p a c d b (sp - 2) bp si di real_segs fl cr0 gdtr (st16 m (sp - 2) ra) tty dev)
    as (a' & b' & si' & fl' & m' & dev' & Hm & Hd & Hf & E); [done|done|done|done| |rewrite u16_small by lia; lia|lia|].
  - eapply (kept_cstring sp m); [|lia|lia|exact Hs]. apply kept_store; [done|lia|cbn; lia|lia].
  - rewrite u16_small in Hm by lia. eexists (List.length l), _. split; [|exact E].
    eexists _, _. split; [reflexivity|]. split; [|done].
    split; [split; done|done|done|]. intros x Hx _. apply Hm. exact Hx.
Qed.

(** The test as a call. *)
Lemma ends_check ra s :
  real_mode s -> 1538 <= reg ESP s ->
  ends (fun _ => call 16 ra check_a20) s
    (returning (fun _ s' => steps s s' /\ x_tty s' = x_tty s /\ x_dev s' = x_dev s /\
      u16 (reg EAX s') = Z.b2z (a20 (x_dev s)))).
Proof.
  intros Hr Hsp.
  eapply ends_mono; [apply (ends_call16 ra (fun _ => check_a20) s
    (fun t dv a => t = x_tty s /\ dv = x_dev s /\ u16 a = Z.b2z (a20 (x_dev s))) Hr Hsp)|done].
  pose proof (pushed_real_mode ra s Hr Hsp) as [Hps Hpr Hpu Hpe].
  destruct s as [[a c d b sp bp si di] sg fl cr0 gdtr m tty dev]. destruct Hr as [R1 R2 R3 R4].
  unfold reg, pushed, pe in *. cbn [gpr_get x_regs g_esp g_esi x_segs x_mem set_reg gpr_set set_xmem x_flags x_cr0 x_tty x_dev reg] in *.
  unfold reg in *. cbn [gpr_get x_regs g_esp g_esi] in *. subst sg.
  destruct (check_a20_run a c d b (sp - 2) bp si di fl cr0 gdtr (st16 m (sp - 2) ra) tty dev)
    as (fl' & m' & Hf & Hm & E); [done|lia|].
  eapply ends_done; [intros _; exact E|]. eexists _, _. split; [reflexivity|]. split.
  - split; [split; [done|done|cbn [x_flags]; by rewrite Hf by lia|exact Hpe]|done|done|].
    + intros x Hx Hn. change (sp - 2 <= x < 720896 \/ 786432 <= x < 4294967296) in Hx. cbn [x_mem].
      rewrite Hm by lia. unfold probe_high. destruct (a20 dev); by replace (_ || _) with false by lia.
  - split; [done|]. split; [done|]. unfold reg. cbn [gpr_get x_regs g_eax]. rewrite u16_set_low. by destruct (a20 dev).
Qed.

(** ** The keyboard controller *)

(** Reading the status port until a bit has a value. *)
Inductive becomes (bit : Z) (want : bool) : D -> D -> Prop :=
  | becomes_now d v d' : port_in 0x64 d = (v, d') -> Z.testbit v bit = want -> becomes bit want d d'
  | becomes_later d v d1 d' : port_in 0x64 d = (v, d1) -> Z.testbit v bit = negb want -> becomes bit want d1 d' ->
      becomes bit want d d'.

Lemma wait_round port bit v d1 s :
  port_in port (x_dev s) = (v, d1) -> real_mode s -> 0 <= bit < 8 ->
  exists s1, steps s s1 /\ x_tty s1 = x_tty s /\ x_dev s1 = d1 /\ zf s1 = negb (Z.testbit v bit) /\
    forall A (k : unit -> prog (x86 D) A),
      bind (inb port) (fun _ => bind (test 8 (Imm (2 ^ bit)) (Lo EAX)) k) s = k tt s1.
Proof.
  intros Ep Hr Hb. eexists. split; [|split; [|split; [|split; [|intros A k]]]].
  5: { unfold inb, test. rewrite bind_modify, Ep, bind_alu. reflexivity. }
  - eapply steps_trans; [apply (steps_dev s d1 Hr)|]. eapply steps_trans; [apply steps_eax; by apply steps_dev|].
    apply steps_flags; [by rewrite !testbit_put_flag by lia|]. apply steps_eax. by apply steps_dev.
  - done.
  - done.
  - unfold zf. cbn [x_flags arith_flags set_flags]. rewrite testbit_put_flag by lia. cbn [Z.eqb Pos.eqb].
    destruct s as [[a c d b sp bp si di] sg fl cr0 gdtr m tty dev]. x_norm.
    assert (Z.testbit (u8 (set_low 8 v a)) bit = Z.testbit v bit) as <-.
    { unfold wrap. rewrite Z.mod_pow2_bits_low by lia. unfold set_low. cbn [Z.eqb Pos.eqb].
      transitivity (Z.testbit ((a - wrap 8 a + wrap 8 v) mod 2 ^ 8) bit); [by rewrite Z.mod_pow2_bits_low by lia|].
      transitivity (Z.testbit (v mod 2 ^ 8) bit); [|by rewrite Z.mod_pow2_bits_low by lia]. f_equal. wrap_lia. }
    set (x := u8 (set_low 8 v a)). rewrite Z.land_comm.
    assert (u8 (2 ^ bit) = 2 ^ bit) as ->.
    { apply wrap_small. split; [lia|]. apply Z.pow_lt_mono_r; lia. }
    rewrite land_pow2 by lia. assert (0 < 2 ^ bit < 256) by (split; [lia|apply (Z.pow_lt_mono_r 2 bit 8); lia]).
    destruct (Z.testbit x bit); [|done]. rewrite u8_small by lia. apply Z.eqb_neq. lia.
Qed.

Lemma ends_wait ra bit (loop : nat -> prog (x86 D) unit) s d' want :
  0 <= bit < 8 -> becomes bit want (x_dev s) d' -> real_mode s -> 1538 <= reg ESP s ->
  (forall fuel s, loop (S fuel) s = bind (inb 0x64) (fun _ => bind (test 8 (Imm (2 ^ bit)) (Lo EAX))
    (fun _ s => if Bool.eqb (negb (zf s)) want then Done tt s else loop fuel s)) s) ->
  ends (fun fuel => call 16 ra (loop fuel)) s
    (returning (fun _ s' => steps s s' /\ x_tty s' = x_tty s /\ x_dev s' = d')).
Proof.
  intros Hbit Hb Hr Hsp Hloop.
  eapply ends_mono; [apply (ends_call16 ra loop s (fun t dv _ => t = x_tty s /\ dv = d') Hr Hsp)|done].
  pose proof (pushed_real_mode ra s Hr Hsp) as Hp.
  change (x_tty s) with (x_tty (pushed ra s)). change (x_dev s) with (x_dev (pushed ra s)) in Hb.
  generalize dependent (pushed ra s). clear s Hr Hsp. intros s Hb. remember (x_dev s) as d eqn:Ed.
  revert s Ed. induction Hb as [d v d' Ep Hv|d v d1 d' Ep Hv Hb IH]; intros s -> Hr.
  - destruct (wait_round 0x64 bit v d' s Ep Hr Hbit) as (s1 & Hst & Ht & Hd & Hz & E).
    exists 0%nat, (Done tt s1). split; [by exists tt, s1|]. intros [|fuel] Hf; [lia|].
    by rewrite Hloop, E, Hz, negb_involutive, Hv, Bool.eqb_reflx.
  - destruct (wait_round 0x64 bit v d1 s Ep Hr Hbit) as (s1 & Hst & Ht & Hd & Hz & E).
    destruct (IH s1 (eq_sym Hd) (st_real _ _ Hst)) as (n & o & (a & s2 & -> & Hst2 & Ht2 & Hd2) & H).
    exists (S n), (Done a s2). split.
    + exists a, s2. split; [done|]. split; [by eapply steps_trans|]. by rewrite Ht2, Ht.
    + intros [|fuel] Hf; [lia|]. rewrite Hloop, E, Hz, negb_involutive, Hv.
      replace (Bool.eqb (negb want) want) with false by (by destruct want). apply H. lia.
Qed.

(** The controller takes a byte after a while, and has one after the command to read. *)
Definition controller_accepts : Prop := forall d, exists d', becomes 1 false d d'.
Definition controller_answers : Prop := forall d, exists d', becomes 0 true (port_out 0x64 0xd0 d) d'.

Lemma ends_a20_wait ra s :
  controller_accepts -> real_mode s -> 1538 <= reg ESP s ->
  ends (fun fuel => call 16 ra (a20_wait fuel)) s
    (returning (fun _ s' => steps s s' /\ x_tty s' = x_tty s /\ becomes 1 false (x_dev s) (x_dev s'))).
Proof.
  intros Hc Hr Hsp. destruct (Hc (x_dev s)) as [d' Hd].
  eapply ends_mono; [apply (ends_wait ra 1 a20_wait s d' false); [lia|done..|]|].
  - intros fuel s1. cbn [a20_wait]. unfold bind, jne, ret. destruct (inb _ s1) as [[] s2| | |]; [|done..].
    change (2 ^ 1) with 2. destruct (test _ _ _ s2) as [[] s3| | |]; [|done..]. by destruct (zf s3).
  - intros o (a & s' & -> & H1 & H2 & <-). by exists a, s'.
Qed.

Lemma ends_a20_wait_2 ra s d' :
  becomes 0 true (x_dev s) d' -> real_mode s -> 1538 <= reg ESP s ->
  ends (fun fuel => call 16 ra (a20_wait_2 fuel)) s (returning (fun _ s' => steps s s' /\ x_tty s' = x_tty s)).
Proof.
  intros Hd Hr Hsp.
  eapply ends_mono; [apply (ends_wait ra 0 a20_wait_2 s d' true); [lia|done..|]|].
  - intros fuel s1. cbn [a20_wait_2]. unfold bind, je, ret. destruct (inb _ s1) as [[] s2| | |]; [|done..].
    change (2 ^ 0) with 1. destruct (test _ _ _ s2) as [[] s3| | |]; [|done..]. by destruct (zf s3).
  - intros o (a & s' & -> & H1 & H2 & _). by exists a, s'.
Qed.

(** ** Proofs: the three ways *)

Context (L : stage1_labels) (may_halt : Prop).

Definition message (m : mem) (p : Z) (text : list Z) : Prop :=
  4112 <= p /\ p + Z.of_nat (List.length text) < stage1_temp L < 65536 /\ cstring_at m p text.

(** The messages, in the program's image below its data. *)
Record messages (m : mem) : Prop := {
  ms_disabled : message m (a20_line_disabled_msg L) a20_line_disabled_text;
  ms_enabled : message m (a20_line_enabled_msg L) a20_line_enabled_text;
  ms_error : message m (a20_line_error_msg L) a20_line_error_text;
  ms_keyboard : message m (a20_line_attempt_keyboard_msg L) a20_line_attempt_keyboard_text;
  ms_fast : message m (a20_line_attempt_fast_msg L) a20_line_attempt_fast_text;
  ms_skip : message m (a20_line_skip_msg L) a20_line_skip_text;
}.

Lemma messages_ext m m' :
  (forall a, 4112 <= a < 65536 -> a < stage1_temp L -> rd8 m' a = rd8 m a) -> messages m -> messages m'.
Proof.
  intros H. assert (forall p t, message m p t -> message m' p t) as E.
  { intros p t (H1 & H2 & Hs). split; [done|]. split; [done|]. eapply cstring_at_ext; [|exact Hs]. intros; apply H; lia. }
  intros []. split; by apply E.
Qed.

Lemma messages_steps s s' : real_mode s -> steps s s' -> messages (x_mem s) -> messages (x_mem s').
Proof. intros [_ _ _ Hr] [_ _ _ Hm]. apply messages_ext. intros a Ha _. apply Hm; lia. Qed.

Lemma ends_lea p (k : nat -> unit -> prog (x86 D) unit) s Q :
  ends (fun fuel => k fuel tt) (set_reg ESI (set_low 16 p (reg ESI s)) s) Q ->
  ends (fun fuel => bind (lea p ESI) (k fuel)) s Q.
Proof.
  intros H. eapply ends_eq; [|exact H]. intros fuel. unfold lea. rewrite bind_mov. cbn [put_op get_op]. by rewrite set_low_u16.
Qed.

(** The end of an attempt: the gate is open and says so, or, where that may be, the message
    and a halt. *)
Definition opened (s : x86 D) (o : outcome (x86 D) unit) : Prop :=
  (exists s' l, o = Done tt s' /\ steps s s' /\ a20 (x_dev s') = true /\ x_tty s' = x_tty s ++ l ++ a20_line_enabled_text) \/
  (may_halt /\ exists s' l, o = Panicked "hlt" s' /\ x_tty s' = x_tty s ++ l ++ a20_line_error_text).

Lemma opened_from s s1 l o : steps s s1 -> x_tty s1 = x_tty s ++ l -> opened s1 o -> opened s o.
Proof.
  intros Hst Ht [(s' & l' & -> & Hst' & Ha & Ht')|(Hh & s' & l' & -> & Ht')].
  - left. exists s', (l ++ l'). rewrite Ht', Ht, !app_assoc. split; [done|]. split; [by eapply steps_trans|done].
  - right. split; [done|]. exists s', (l ++ l'). by rewrite Ht', Ht, !app_assoc.
Qed.

Hypothesis Htty : bios_tty.

(** A message of the table behind [lea]. *)
Lemma ends_message ra p t (k : nat -> unit -> prog (x86 D) unit) s Q :
  real_mode s -> 1538 <= reg ESP s -> message (x_mem s) p t ->
  (forall s', steps s s' -> x_tty s' = x_tty s ++ t -> a20 (x_dev s') = a20 (x_dev s) -> ends (fun fuel => k fuel tt) s' Q) ->
  ends (fun fuel => bind (lea p ESI) (fun _ => bind (call 16 ra (write_loop fuel)) (k fuel))) s Q.
Proof.
  intros Hr Hsp (H1 & H2 & Hs) Hk. apply (ends_lea p). pose proof (steps_esi s (set_low 16 p (reg ESI s)) Hr) as Hst.
  rewrite <- (st_esp _ _ Hst) in Hsp.
  eapply ends_bind; [eapply (ends_say ra p t); [done|exact (st_real _ _ Hst)|exact Hsp| |lia|lia|]|].
  - destruct s as [[a c d b sp bp si di] sg fl cr0 gdtr m tty dev]. unfold reg. cbn [gpr_get x_regs set_reg gpr_set g_esi].
    rewrite u16_set_low. apply u16_small. lia.
  - by destruct s as [[] ? ? ? ? ? ? ?].
  - intros [] s' (Hst' & Ht & Ha). apply Hk; [by eapply steps_trans|by destruct s as [[] ? ? ? ? ? ? ?]..].
Qed.

Lemma ends_enabled s :
  real_mode s -> 1538 <= reg ESP s -> messages (x_mem s) -> a20 (x_dev s) = true ->
  ends (a20_gate_enabled L) s (opened s).
Proof.
  intros Hr Hsp Hms Ha. eapply ends_eq; [|eapply (ends_message (stage1_return L 17) _ _ (fun _ _ => ret tt) s _ Hr Hsp (ms_enabled _ Hms))].
  - intros fuel. unfold a20_gate_enabled, lea. rewrite !bind_mov. unfold bind.
    by destruct (call _ _ _ _) as [[] ?| | |].
  - intros s' Hst Ht Ha'. eapply ends_done; [done|]. left. exists s', []. by rewrite Ha'.
Qed.

Lemma ends_failed s :
  may_halt -> real_mode s -> 1538 <= reg ESP s -> messages (x_mem s) -> ends (a20_gate_failed L) s (opened s).
Proof.
  intros Hh Hr Hsp Hms. destruct (ms_error _ Hms) as (H1 & H2 & Hs). apply ends_lea.
  destruct s as [[a c d b sp bp si di] sg fl cr0 gdtr m tty dev]. destruct Hr as [R1 R2 R3 R4].
  unfold reg, pe in *. cbn [gpr_get x_regs g_esp g_esi x_segs x_mem set_reg gpr_set x_flags x_cr0] in *. subst sg.
  destruct (error_run (A := unit) Htty a20_line_error_text (a20_line_error_msg L) (stage1_return L 18) a c d b sp bp
    (set_low 16 (a20_line_error_msg L) si) di z16 0 0 false z16 z16 z16 0 fl cr0 gdtr m tty dev) as (s' & Ht & n & Hp);
    [done|done|done|rewrite u16_set_low; apply u16_small; lia|done|lia..|].
  exists n, (Panicked "hlt" s'). split; [|exact Hp]. right. split; [done|]. by exists s', [].
Qed.

Lemma ends_if_a20 (yes no : nat -> prog (x86 D) unit) s b Q :
  real_mode s -> u16 (reg EAX s) = Z.b2z b ->
  (forall s', steps s s' -> x_tty s' = x_tty s -> x_mem s' = x_mem s -> x_dev s' = x_dev s ->
    ends (if b then yes else no) s' Q) ->
  ends (fun fuel => if_a20 (yes fuel) (no fuel)) s Q.
Proof.
  intros Hr Ha Hk.
  set (v := u16 (set_low 16 (u16 1) (reg EBX s)) - u16 (reg EAX s)).
  set (s1 := set_flags (put_flag 6 (u16 v =? 0) (put_flag 0 (negb (v =? u16 v)) (x_flags s)))
    (set_reg EBX (set_low 16 (u16 1) (reg EBX s)) s)).
  assert (zf s1 = b) as Hz.
  { unfold zf, s1. cbn [x_flags set_flags]. rewrite testbit_put_flag by lia. cbn [Z.eqb Pos.eqb].
    unfold v. rewrite u16_set_low, Ha. by destruct b. }
  assert (steps s s1) as Hst.
  { eapply steps_trans; [by apply steps_ebx|]. apply steps_flags; [|by apply steps_ebx]. unfold s1.
    cbn [x_flags set_reg]. by rewrite !testbit_put_flag by lia. }
  eapply ends_eq; [|apply (Hk s1); [exact Hst|by destruct s as [[] ? ? ? ? ? ? ?]..]].
  intros fuel. unfold if_a20, cmp. rewrite bind_mov, bind_alu. destruct s as [[a c d b0 sp bp si di] sg fl cr0 gdtr m tty dev].
  unfold je. change (zf _) with (zf s1). rewrite Hz. by destruct b.
Qed.

(** Instructions that touch registers, flags and devices only. *)
Definition quiet (c : prog (x86 D) unit) : Prop :=
  forall s, real_mode s -> exists s', c s = Done tt s' /\ steps s s' /\ x_tty s' = x_tty s.

Lemma quiet_mov v w : quiet (mov w (Imm v) (Lo EAX)).
Proof. intros s Hr. eexists. split; [reflexivity|]. split; [by apply steps_eax|done]. Qed.

Lemma quiet_alu f v : quiet (alu f true 8 (Imm v) (Lo EAX)).
Proof.
  intros s Hr. eexists. split; [reflexivity|]. split; [|done]. cbn [put_op get_op].
  eapply steps_trans; [apply (steps_flags s); [|done]|apply steps_eax; apply (steps_flags s); [|done]];
    by rewrite !testbit_put_flag by lia.
Qed.

Lemma quiet_flag b v : b <> 10 -> 0 <= b -> quiet (modify (fun s => set_flags (put_flag b v (x_flags s)) s)).
Proof.
  intros Hb Hb0 s Hr. eexists. split; [reflexivity|]. split; [|done]. apply steps_flags; [|done].
  rewrite testbit_put_flag by done. by rewrite (proj2 (Z.eqb_neq 10 b)) by lia.
Qed.

Lemma quiet_inb port : quiet (inb port).
Proof.
  intros s Hr. unfold inb, modify. destruct (port_in port (x_dev s)) as [v d]. eexists. split; [reflexivity|].
  split; [|done]. eapply steps_trans; [by apply (steps_dev s d)|]. apply steps_eax. by apply steps_dev.
Qed.

Lemma quiet_outb port : quiet (outb port).
Proof. intros s Hr. eexists. split; [reflexivity|]. split; [by apply steps_dev|done]. Qed.

(** Where the attempts start from. *)
Record ready (s : x86 D) : Prop := {
  rd_real : real_mode s;
  rd_esp : 1560 <= reg ESP s;
  rd_messages : messages (x_mem s);
}.

Lemma ready_steps s s' : ready s -> steps s s' -> ready s'.
Proof.
  intros [Hr Hsp Hm] Hst. split; [by destruct Hst|by rewrite (st_esp _ _ Hst)|by eapply messages_steps].
Qed.

Definition opens (c : nat -> prog (x86 D) unit) : Prop := forall s, ready s -> ends c s (opened s).

Lemma opens_then c k s (R : x86 D -> Prop) :
  ready s -> ends c s (returning (fun (_ : unit) s' => steps s s' /\ (exists l, x_tty s' = x_tty s ++ l) /\ R s')) ->
  (forall s', ready s' -> R s' -> ends (fun fuel => k fuel tt) s' (opened s')) ->
  ends (fun fuel => bind (c fuel) (k fuel)) s (opened s).
Proof.
  intros Hr Hc Hk. eapply ends_bind; [exact Hc|]. intros [] s' (Hst & (l & Ht) & HR).
  eapply ends_mono; [apply Hk; [by eapply ready_steps|done]|]. intros o. by eapply opened_from.
Qed.

Lemma opens_quiet c k : quiet c -> opens (fun fuel => k fuel tt) -> opens (fun fuel => bind c (k fuel)).
Proof.
  intros Hc Hk s Hr. destruct (Hc s (rd_real _ Hr)) as (s' & E & Hst & Ht).
  apply (opens_then (fun _ => c) k s (fun _ => True) Hr); [|by intros; apply Hk].
  eapply ends_done; [intros _; exact E|]. exists tt, s'. split; [done|]. split; [done|]. split; [|done].
  exists []. by rewrite app_nil_r.
Qed.

Lemma opens_call ra f k :
  (forall s, real_mode s -> 1538 <= reg ESP s ->
    ends (fun fuel => call 16 ra (f fuel)) s (returning (fun _ s' => steps s s' /\ x_tty s' = x_tty s))) ->
  opens (fun fuel => k fuel tt) -> opens (fun fuel => bind (call 16 ra (f fuel)) (k fuel)).
Proof.
  intros Hc Hk s Hr. apply (opens_then (fun fuel => call 16 ra (f fuel)) k s (fun _ => True) Hr); [|by intros; apply Hk].
  eapply ends_mono; [apply Hc; [apply Hr|pose proof (rd_esp _ Hr); lia]|].
  intros o ([] & s' & -> & Hst & Ht). exists tt, s'. split; [done|]. split; [done|]. split; [|done].
  exists []. by rewrite app_nil_r.
Qed.

Lemma opens_message ra p t k :
  (forall m, messages m -> message m p t) -> opens (fun fuel => k fuel tt) ->
  opens (fun fuel => bind (lea p ESI) (fun _ => bind (call 16 ra (write_loop fuel)) (k fuel))).
Proof.
  intros Hm Hk s Hr. destruct (id Hr) as [Hreal Hsp Hms].
  apply (ends_message ra p t k s); [done|lia|by apply Hm|]. intros s' Hst Ht _.
  eapply ends_mono; [apply Hk; by eapply ready_steps|]. intros o. by eapply opened_from.
Qed.

Lemma opens_failed : may_halt -> opens (a20_gate_failed L).
Proof. intros Hh s [Hr Hsp Hm]. apply ends_failed; [done|done|lia|done]. Qed.

(** The test behind an attempt. *)
Lemma opens_check ra no :
  opens no ->
  opens (fun fuel => bind (call 16 ra check_a20) (fun _ => if_a20 (a20_gate_enabled L fuel) (no fuel))).
Proof.
  intros Hno s Hr. destruct (id Hr) as [Hreal Hsp Hms].
  apply (opens_then (fun _ => call 16 ra check_a20) (fun fuel _ => if_a20 (a20_gate_enabled L fuel) (no fuel)) s
    (fun s' => u16 (reg EAX s') = Z.b2z (a20 (x_dev s'))) Hr).
  - eapply ends_mono; [apply ends_check; [done|lia]|]. intros o ([] & s' & -> & Hst & Ht & Hd & Ha).
    exists tt, s'. split; [done|]. split; [done|]. split; [exists []; by rewrite app_nil_r|]. by rewrite Ha, Hd.
  - intros s1 Hr1 Ha. apply (ends_if_a20 (a20_gate_enabled L) no s1 (a20 (x_dev s1))); [apply Hr1|done|].
    intros s2 Hst Ht Hm Hd. pose proof (ready_steps _ _ Hr1 Hst) as [Hr2 Hsp2 Hms2].
    eapply ends_mono; [|intros o; eapply (opened_from s1 s2 []); [done|by rewrite app_nil_r]].
    destruct (a20 (x_dev s1)) eqn:E; [apply ends_enabled; [done|lia|done|congruence]|]. by apply Hno.
Qed.

Lemma opens_test port bit yes no :
  0 <= bit < 8 -> opens yes -> opens no ->
  opens (fun fuel => bind (inb port) (fun _ => bind (test 8 (Imm (2 ^ bit)) (Lo EAX)) (fun _ => jne (yes fuel) (no fuel)))).
Proof.
  intros Hb Hy Hn s Hr. destruct (port_in port (x_dev s)) as [v d1] eqn:Ep.
  destruct (wait_round port bit v d1 s Ep (rd_real _ Hr) Hb) as (s1 & Hst & Ht & _ & Hz & E).
  pose proof (ready_steps _ _ Hr Hst) as Hr1.
  eapply ends_mono; [|intros o; eapply (opened_from s s1 []); [done|by rewrite app_nil_r]].
  apply (ends_eq _ (fun fuel => jne (yes fuel) (no fuel)) s s1); [by intros; apply E|].
  apply (ends_eq _ (fun fuel => if Z.testbit v bit then yes fuel else no fuel) s1 s1).
  - intros fuel. unfold jne. rewrite Hz. by destruct (Z.testbit v bit).
  - destruct (Z.testbit v bit); [by apply Hy|by apply Hn].
Qed.

Lemma opens_fast : may_halt -> opens (fast_a20_enable L).
Proof.
  intros Hh.
  apply (opens_message (stage1_return L 15) _ a20_line_attempt_fast_text (fun fuel _ => _) ms_fast).
  apply (opens_test 0x92 1 (a20_gate_failed L)); [lia|by apply opens_failed|].
  apply (opens_quiet _ (fun fuel _ => _) (quiet_alu _ 2)).
  apply (opens_quiet _ (fun fuel _ => _) (quiet_alu _ 0xfe)).
  apply (opens_quiet _ (fun fuel _ => _) (quiet_outb 0x92)).
  apply (opens_check (stage1_return L 16) (a20_gate_failed L)). by apply opens_failed.
Qed.

(** A byte to a port. *)
Lemma bind_out_byte {A} port v (k : unit -> prog (x86 D) A) s :
  0 <= v < 256 ->
  bind (mov 8 (Imm v) (Lo EAX)) (fun _ => bind (outb port) k) s =
  k tt (set_dev (port_out port v (x_dev s)) (set_reg EAX (set_low 8 v (reg EAX s)) s)).
Proof.
  intros Hv. rewrite bind_mov. unfold outb. rewrite bind_modify. f_equal.
  destruct s as [[a c d b sp bp si di] sg fl cr0 gdtr m tty dev]. x_norm. rewrite (u8_small v) by done.
  assert (u8 (set_low 8 v a) = v) as -> by (unfold set_low; cbn [Z.eqb Pos.eqb]; wrap_lia). done.
Qed.

Hypothesis Haccepts : controller_accepts.
Hypothesis Hanswers : controller_answers.

Lemma opens_wait ra k :
  opens (fun fuel => k fuel tt) -> opens (fun fuel => bind (call 16 ra (a20_wait fuel)) (k fuel)).
Proof.
  intros Hk. apply opens_call; [|done]. intros s Hr Hsp. eapply ends_mono; [by apply ends_a20_wait|].
  intros o (a & s' & -> & H1 & H2 & _). by exists a, s'.
Qed.

(** The command to read and its answer. *)
Lemma opens_read_command ra k :
  opens (fun fuel => k fuel tt) ->
  opens (fun fuel => bind (mov 8 (Imm 0xd0) (Lo EAX)) (fun _ => bind (outb 0x64) (fun _ =>
    bind (call 16 ra (a20_wait_2 fuel)) (k fuel)))).
Proof.
  intros Hk s Hr.
  set (s1 := set_dev (port_out 0x64 0xd0 (x_dev s)) (set_reg EAX (set_low 8 0xd0 (reg EAX s)) s)).
  assert (steps s s1) as Hst.
  { eapply steps_trans; [apply steps_eax; apply Hr|]. apply steps_dev, steps_eax, Hr. }
  pose proof (ready_steps _ _ Hr Hst) as Hr1.
  eapply ends_mono; [|intros o; eapply (opened_from s s1 []); [done|by rewrite app_nil_r]].
  apply (ends_eq _ (fun fuel => bind (call 16 ra (a20_wait_2 fuel)) (k fuel)) s s1).
  { intros fuel. by rewrite (bind_out_byte 0x64 0xd0). }
  apply (opens_then (fun fuel => call 16 ra (a20_wait_2 fuel)) k s1 (fun _ => True) Hr1); [|by intros; apply Hk].
  destruct (Hanswers (x_dev s)) as [d' Hd].
  eapply ends_mono; [apply (ends_a20_wait_2 ra s1 d'); [exact Hd|apply Hr1|pose proof (rd_esp _ Hr1); lia]|].
  intros o ([] & s' & -> & Hst' & Ht). exists tt, s'. split; [done|]. split; [done|]. split; [|done].
  exists []. by rewrite app_nil_r.
Qed.

(** Over the 4 bytes pushed, the steps of the region in between are steps of the whole. *)
Definition pushed32 (s : x86 D) : x86 D :=
  set_reg ESP (reg ESP s - 4) (set_xmem (st32 (x_mem s) (reg ESP s - 4) (u32 (reg EAX s))) s).

Lemma bind_push32 {A} (k : unit -> prog (x86 D) A) s :
  real_mode s -> 1560 <= reg ESP s -> bind (push 32 (Lo EAX)) k s = k tt (pushed32 s) /\ real_mode (pushed32 s).
Proof.
  destruct s as [[a c d b sp bp si di] sg fl cr0 gdtr m tty dev]. intros [H1 H2 H3 H4] Hsp. unfold pushed32, reg in *.
  cbn [gpr_get x_regs g_esp g_eax x_segs x_flags] in *. subst sg. split.
  - unfold real_segs. rewrite bind_push. x_norm. rewrite set_low_16 by lia.
    replace (sp + -4) with (sp - 4) by lia. by rewrite (wrap_small 16), Z.add_0_l, phys_low by (pow2_simpl; lia).
  - split; try done. unfold reg. cbn. lia.
Qed.

Lemma bind_pop32 {A} (k : unit -> prog (x86 D) A) s s2 :
  real_mode s -> 1560 <= reg ESP s -> steps (pushed32 s) s2 ->
  exists s3, bind (pop 32 (Lo EAX)) k s2 = k tt s3 /\ steps s s3 /\ x_tty s3 = x_tty s2 /\ x_dev s3 = x_dev s2.
Proof.
  destruct s as [[a c d b sp bp si di] sg fl cr0 gdtr m tty dev].
  destruct s2 as [[a2 c2 d2 b2 sp2 bp2 si2 di2] sg2 fl2 cr2 gdtr2 m2 tty2 dev2].
  intros [H1 H2 H3 H4] Hsp [[S1 S2 S3 S4] Hesp Hedx Hm]. unfold pushed32, reg in *.
  cbn [gpr_get x_regs g_esp g_eax x_segs x_flags x_mem set_reg gpr_set set_xmem g_edx] in *. subst sg sg2 sp2 d2.
  eexists. split; [|split].
  - unfold real_segs. rewrite bind_pop. x_norm. reflexivity.
  - split; [split; [done..|]|..]; unfold reg; cbn [gpr_get x_regs g_esp g_edx x_mem]; rewrite ?set_low_16 by lia; try lia.
    intros x Hx Hn. rewrite Hm by (unfold reg; cbn; lia). rewrite rd8_store_out by (cbn; lia). done.
  - done.
Qed.

(** The controller waits for the byte of the output port. *)
Definition output_announced (d : D) : Prop := exists d0, becomes 1 false (port_out 0x64 0xd1 d0) d.

Lemma ends_write_to_output s :
  real_mode s -> 1546 <= reg ESP s ->
  ends (write_to_output L) s
    (returning (fun _ s' => steps s s' /\ x_tty s' = x_tty s /\ output_announced (x_dev s'))).
Proof.
  intros Hr Hsp. apply (ends_bind (fun fuel => call 16 (stage1_return L 10) (a20_wait fuel)) (fun fuel _ => _) _
    (fun _ s' => steps s s' /\ x_tty s' = x_tty s /\ becomes 1 false (x_dev s) (x_dev s'))).
  { apply ends_a20_wait; [done|done|lia]. }
  intros _ s1 (Hst1 & Ht1 & _).
  set (s2 := set_reg EAX (set_low 8 0xd1 (reg EAX s1)) s1). set (s3 := set_dev (port_out 0x64 0xd1 (x_dev s1)) s2).
  pose proof (steps_eax s1 (set_low 8 0xd1 (reg EAX s1)) (st_real _ _ Hst1)) as Hst2. fold s2 in Hst2.
  pose proof (steps_dev s2 (port_out 0x64 0xd1 (x_dev s1)) (st_real _ _ Hst2)) as Hst3. fold s3 in Hst3.
  pose proof (steps_trans _ _ _ Hst1 (steps_trans _ _ _ Hst2 Hst3)) as Hst.
  apply (ends_eq _ (fun fuel => call 16 (stage1_return L 11) (a20_wait fuel)) s1 s3).
  { intros fuel. by rewrite (bind_out_byte 0x64 0xd1). }
  eapply ends_mono; [apply ends_a20_wait; [done|apply Hst|rewrite (st_esp _ _ Hst); lia]|].
  intros o ([] & s' & -> & Hst' & Ht & Hb). exists tt, s'. split; [done|]. split; [by eapply steps_trans|].
  split; [rewrite Ht, <- Ht1; by destruct s1 as [[] ? ? ? ? ? ? ?]|]. by exists (x_dev s1).
Qed.

Lemma opens_output k :
  (forall s, ready s -> output_announced (x_dev s) -> ends (fun fuel => k fuel tt) s (opened s)) ->
  opens (fun fuel => bind (push 32 (Lo EAX)) (fun _ => bind (write_to_output L fuel) (fun _ => bind (pop 32 (Lo EAX)) (k fuel)))).
Proof.
  intros Hk s Hr. destruct (id Hr) as [Hreal Hsp _].
  pose proof (fun A k => proj1 (@bind_push32 A k s Hreal Hsp)) as E1.
  pose proof (proj2 (@bind_push32 unit ret s Hreal Hsp)) as Hr1.
  apply (ends_eq _ (fun fuel => bind (write_to_output L fuel) (fun _ => bind (pop 32 (Lo EAX)) (k fuel))) s (pushed32 s)).
  { intros fuel. apply E1. }
  eapply ends_bind; [apply ends_write_to_output; [done|]|].
  { destruct s as [[a c d b sp bp si di] sg fl cr0 gdtr m tty dev]. unfold pushed32, reg in *. cbn in *. lia. }
  intros [] s2 (Hst2 & Ht2 & Ho). destruct (bind_pop32 (A := unit) ret s s2 Hreal Hsp Hst2) as (s3 & E3 & Hst3 & Ht3 & Hd3).
  eapply ends_mono; [|intros o; eapply (opened_from s s3 []); [done|rewrite app_nil_r, Ht3, Ht2; by destruct s as [[] ? ? ? ? ? ? ?]]].
  apply (ends_eq _ (fun fuel => k fuel tt) s2 s3); [|apply Hk; [by eapply ready_steps|by rewrite Hd3]].
  intros fuel. rewrite bind_ret_r in E3. by rewrite (bind_Done _ _ _ _ _ E3).
Qed.

(** What a working controller does: the byte announced drives the gate, nothing else moves it. *)
Record controller_works : Prop := {
  cw_out v d : output_announced d -> Z.testbit v 1 = true -> a20 (port_out 0x60 v d) = true;
  cw_in port d : a20 (snd (port_in port d)) = a20 d;
  cw_enable d : a20 (port_out 0x64 0xae d) = a20 d;
}.

Lemma becomes_a20 bit want d d' : controller_works -> becomes bit want d d' -> a20 d' = a20 d.
Proof.
  intros [_ Hin _] Hb. induction Hb as [d v d' Ep _|d v d1 d' Ep _ _ IH].
  - pose proof (Hin 0x64 d) as H. by rewrite Ep in H.
  - rewrite IH. pose proof (Hin 0x64 d) as H. by rewrite Ep in H.
Qed.

(** Behind the byte for the output port. *)
Definition keyboard_tail (fuel : nat) : prog (x86 D) unit :=
  do* call 16 (stage1_return L 12) (a20_wait fuel) in
  do* mov 8 (Imm 0xae) (Lo EAX) in
  do* outb 0x64 in
  do* call 16 (stage1_return L 13) (a20_wait fuel) in
  do* sti in
  do* call 16 (stage1_return L 14) check_a20 in
  if_a20 (a20_gate_enabled L fuel) (fast_a20_enable L fuel).

Lemma opens_keyboard_head :
  (forall s, ready s -> output_announced (x_dev s) ->
    ends (fun fuel => bind (or 8 (Imm 2) (Lo EAX)) (fun _ => bind (outb 0x60) (fun _ => keyboard_tail fuel))) s (opened s)) ->
  opens (keyboard_enable L).
Proof.
  intros Htail.
  apply (opens_message (stage1_return L 6) _ a20_line_attempt_keyboard_text (fun fuel _ => _) ms_keyboard).
  apply (opens_quiet cli (fun fuel _ => _)); [apply (quiet_flag 9 false); lia|].
  apply (opens_wait (stage1_return L 7) (fun fuel _ => _)).
  apply (opens_quiet _ (fun fuel _ => _) (quiet_mov 0xad 8)).
  apply (opens_quiet _ (fun fuel _ => _) (quiet_outb 0x64)).
  apply (opens_wait (stage1_return L 8) (fun fuel _ => _)).
  apply (opens_read_command (stage1_return L 9) (fun fuel _ => _)).
  apply (opens_quiet _ (fun fuel _ => _) (quiet_inb 0x60)).
  apply (opens_output (fun fuel _ => _)), Htail.
Qed.

Lemma opens_keyboard : may_halt -> opens (keyboard_enable L).
Proof.
  intros Hh. apply opens_keyboard_head. intros s Hr _. revert s Hr.
  apply (opens_quiet _ (fun fuel _ => _) (quiet_alu _ 2)).
  apply (opens_quiet _ (fun fuel _ => _) (quiet_outb 0x60)).
  apply (opens_wait (stage1_return L 12) (fun fuel _ => _)).
  apply (opens_quiet _ (fun fuel _ => _) (quiet_mov 0xae 8)).
  apply (opens_quiet _ (fun fuel _ => _) (quiet_outb 0x64)).
  apply (opens_wait (stage1_return L 13) (fun fuel _ => _)).
  apply (opens_quiet sti (fun fuel _ => _)); [apply (quiet_flag 9 true); lia|].
  apply (opens_check (stage1_return L 14) (fast_a20_enable L)). by apply opens_fast.
Qed.

(** A wait leaves an open gate open. *)
Lemma opens_wait_open ra k s :
  controller_works -> ready s -> a20 (x_dev s) = true ->
  (forall s', ready s' -> a20 (x_dev s') = true -> ends (fun fuel => k fuel tt) s' (opened s')) ->
  ends (fun fuel => bind (call 16 ra (a20_wait fuel)) (k fuel)) s (opened s).
Proof.
  intros Hw Hr Ha Hk.
  apply (opens_then (fun fuel => call 16 ra (a20_wait fuel)) k s (fun s' => a20 (x_dev s') = true) Hr); [|done].
  eapply ends_mono; [apply ends_a20_wait; [done|apply Hr|pose proof (rd_esp _ Hr); lia]|].
  intros o ([] & s' & -> & Hst & Ht & Hb). exists tt, s'. split; [done|]. split; [done|].
  split; [exists []; by rewrite app_nil_r|]. by rewrite (becomes_a20 _ _ _ _ Hw Hb).
Qed.

(** Quiet programs with what they leave known. *)
Lemma opens_known c k s s' :
  ready s -> c s = Done tt s' -> steps s s' -> x_tty s' = x_tty s ->
  (ready s' -> ends (fun fuel => k fuel tt) s' (opened s')) -> ends (fun fuel => bind c (k fuel)) s (opened s).
Proof.
  intros Hr E Hst Ht Hk. eapply ends_mono; [|intros o; eapply (opened_from s s' []); [done|by rewrite app_nil_r]].
  apply (ends_eq _ (fun fuel => k fuel tt) s s'); [intros fuel; by rewrite (bind_Done _ _ _ _ _ E)|].
  apply Hk. by eapply ready_steps.
Qed.

Lemma opens_out_byte port v k s :
  ready s -> 0 <= v < 256 ->
  (forall s', ready s' -> x_dev s' = port_out port v (x_dev s) -> ends (fun fuel => k fuel tt) s' (opened s')) ->
  ends (fun fuel => bind (mov 8 (Imm v) (Lo EAX)) (fun _ => bind (outb port) (k fuel))) s (opened s).
Proof.
  intros Hr Hv Hk.
  set (s' := set_dev (port_out port v (x_dev s)) (set_reg EAX (set_low 8 v (reg EAX s)) s)).
  assert (steps s s') as Hst.
  { eapply steps_trans; [apply steps_eax; apply Hr|]. apply steps_dev, steps_eax, Hr. }
  eapply ends_mono; [|intros o; eapply (opened_from s s' []); [done|by rewrite app_nil_r]].
  apply (ends_eq _ (fun fuel => k fuel tt) s s'); [intros fuel; by rewrite bind_out_byte|].
  apply Hk; [by eapply ready_steps|done].
Qed.

(** The test with the gate open. *)
Lemma opens_check_open ra no s :
  ready s -> a20 (x_dev s) = true ->
  ends (fun fuel => bind (call 16 ra check_a20) (fun _ => if_a20 (a20_gate_enabled L fuel) (no fuel))) s (opened s).
Proof.
  intros Hr Hopen. destruct (id Hr) as [Hreal Hsp Hms].
  apply (opens_then (fun _ => call 16 ra check_a20) (fun fuel _ => if_a20 (a20_gate_enabled L fuel) (no fuel)) s
    (fun s' => u16 (reg EAX s') = Z.b2z true /\ a20 (x_dev s') = true) Hr).
  - eapply ends_mono; [apply ends_check; [done|lia]|]. intros o ([] & s' & -> & Hst & Ht & Hd & Ha).
    exists tt, s'. split; [done|]. split; [done|]. split; [exists []; by rewrite app_nil_r|]. by rewrite Ha, Hd, Hopen.
  - intros s1 Hr1 [Ha Hd1]. apply (ends_if_a20 (a20_gate_enabled L) no s1 true); [apply Hr1|done|].
    intros s2 Hst Ht Hm Hd. pose proof (ready_steps _ _ Hr1 Hst) as [Hr2 Hsp2 Hms2].
    eapply ends_mono; [|intros o; eapply (opened_from s1 s2 []); [done|by rewrite app_nil_r]].
    apply ends_enabled; [done|lia|done|congruence].
Qed.

Lemma opens_keyboard_works : controller_works -> opens (keyboard_enable L).
Proof.
  intros Hw. apply opens_keyboard_head. intros s Hr Ho.
  destruct (quiet_alu Z.lor 2 s (rd_real _ Hr)) as (s1 & E1 & Hst1 & Ht1).
  assert (x_dev s1 = x_dev s /\ Z.testbit (u8 (reg EAX s1)) 1 = true) as [Hd1 Hb1].
  { clear - E1. destruct s as [[a c d b sp bp si di] sg fl cr0 gdtr m tty dev]. injection E1 as <-. split; [done|].
    unfold reg. x_norm. set (v := Z.lor (u8 2) (u8 a)).
    assert (u8 (set_low 8 (u8 v) a) = u8 v) as -> by (unfold set_low; cbn [Z.eqb Pos.eqb]; wrap_lia).
    unfold wrap at 1. rewrite Z.mod_pow2_bits_low by lia. unfold v. by rewrite Z.lor_spec. }
  apply (opens_known _ (fun fuel _ => _) s s1 Hr E1 Hst1 Ht1). intros Hr1.
  set (s2 := set_dev (port_out 0x60 (u8 (reg EAX s1)) (x_dev s1)) s1).
  apply (opens_known _ (fun fuel _ => _) s1 s2 Hr1 eq_refl (steps_dev s1 _ (rd_real _ Hr1)) eq_refl). intros Hr2.
  assert (a20 (x_dev s2) = true) as Ha2 by (apply (cw_out Hw); [by rewrite Hd1|done]).
  clearbody s2. clear s s1 Hr Hr1 Ho E1 Hst1 Ht1 Hd1 Hb1. unfold keyboard_tail.
  apply (opens_wait_open (stage1_return L 12) (fun fuel _ => _) s2 Hw Hr2 Ha2). intros s3 Hr3 Ha3.
  apply (opens_out_byte 0x64 0xae (fun fuel _ => _) s3 Hr3); [lia|]. intros s4 Hr4 Hd4.
  assert (a20 (x_dev s4) = true) as Ha4 by (by rewrite Hd4, (cw_enable Hw)).
  apply (opens_wait_open (stage1_return L 13) (fun fuel _ => _) s4 Hw Hr4 Ha4). intros s5 Hr5 Ha5.
  destruct (quiet_flag 9 true ltac:(lia) ltac:(lia) s5 (rd_real _ Hr5)) as (s6 & E6 & Hst6 & Ht6).
  apply (opens_known sti (fun fuel _ => _) s5 s6 Hr5 E6 Hst6 Ht6). intros Hr6.
  apply (opens_check_open (stage1_return L 14) (fast_a20_enable L)); [done|]. by injection E6 as <-.
Qed.

(** ** Proofs: all of it *)

(** Documented behaviour of the two functions of [int $0x15]: %eax and %ebx, the arithmetic
    flags and the devices may change. *)
Definition bios_gate : Prop :=
  forall s : x86 D, pe s = false -> u16 (reg EAX s) = 0x2403 \/ u16 (reg EAX s) = 0x2401 ->
    exists a b fl m dev,
      bios 0x15 s = set_dev dev (set_flags fl (set_reg EBX b (set_reg EAX a (set_xmem m s)))) /\
      Z.testbit fl 10 = Z.testbit (x_flags s) 10 /\ kept (u16 (reg ESP s)) (x_mem s) m.

Hypothesis Hgate : bios_gate.

Lemma opens_int15 f k :
  f = 0x2403 \/ f = 0x2401 -> opens (fun fuel => k fuel tt) ->
  opens (fun fuel => bind (mov 16 (Imm f) (Lo EAX)) (fun _ => bind (int 0x15) (k fuel))).
Proof.
  intros Hf Hk s Hr. pose proof (steps_eax s (set_low 16 f (reg EAX s)) (rd_real _ Hr)) as Hst1.
  set (s1 := set_reg EAX (set_low 16 f (reg EAX s)) s) in *. destruct (st_real _ _ Hst1) as [R1 R2 R3 R4].
  assert (u16 (reg EAX s1) = f) as Ha.
  { destruct s as [[a c d b sp bp si di] sg fl cr0 gdtr m tty dev]. unfold s1, reg. cbn [gpr_get x_regs set_reg gpr_set g_eax].
    rewrite u16_set_low. apply u16_small. lia. }
  destruct (Hgate s1 R2) as (a & b & fl & m & dev & E & Hdf & Hm); [by rewrite Ha|].
  set (s2 := set_dev dev (set_flags fl (set_reg EBX b (set_reg EAX a (set_xmem m s1))))) in *.
  assert (steps s1 s2) as Hst2.
  { clear E Hst1. clearbody s1. destruct s1 as [[? ? ? ? ? ? ? ?] ? ? ? ? ? ? ?]. unfold s2, reg in *. cbn in R1, R2, R3, R4, Hdf, Hm.
    split; [split; [done|done|by cbn; rewrite Hdf|done]|done|done|]. intros x Hx _. rewrite u16_small in Hm by lia.
    unfold reg in Hx. cbn in *. by apply Hm. }
  eapply ends_mono; [|intros o; eapply (opened_from s s2 []); [by eapply steps_trans|]].
  2: { rewrite app_nil_r. by destruct s as [[] ? ? ? ? ? ? ?]. }
  apply (ends_eq _ (fun fuel => k fuel tt) s s2); [|apply Hk; eapply ready_steps; [done|by eapply steps_trans]].
  intros fuel. rewrite bind_mov. cbn [put_op get_op]. rewrite set_low_u16. fold s1.
  rewrite (bind_int 21 _ s1 s2 R2 ltac:(done) E). f_equal.
Qed.

Lemma opens_jc yes no : opens yes -> opens no -> opens (fun fuel => jc (yes fuel) (no fuel)).
Proof.
  intros Hy Hn s Hr. apply (ends_eq _ (fun fuel => if cf s then yes fuel else no fuel) s s).
  - intros fuel. unfold jc. by destruct (cf s).
  - destruct (cf s); [by apply Hy|by apply Hn].
Qed.

Lemma opens_jne yes no : opens yes -> opens no -> opens (fun fuel => jne (yes fuel) (no fuel)).
Proof.
  intros Hy Hn s Hr. apply (ends_eq _ (fun fuel => if zf s then no fuel else yes fuel) s s).
  - intros fuel. unfold jne. by destruct (zf s).
  - destruct (zf s); [by apply Hn|by apply Hy].
Qed.

Lemma quiet_test o : quiet (test 8 o o).
Proof.
  intros s Hr. eexists. split; [reflexivity|]. split; [|done]. apply steps_flags; [|done].
  by rewrite !testbit_put_flag by lia.
Qed.

Lemma opens_gate : opens (keyboard_enable L) -> opens (enable_20_gate L).
Proof.
  intros Hk.
  apply (opens_quiet clc (fun fuel _ => _)); [apply (quiet_flag 0 false); lia|].
  apply (opens_int15 0x2403 (fun fuel _ => _)); [by left|]. apply opens_jc; [done|].
  apply (opens_quiet _ (fun fuel _ => _) (quiet_test (Hi EAX))). apply opens_jne; [done|].
  apply (opens_int15 0x2401 (fun fuel _ => _)); [by right|]. apply opens_jc; [done|].
  apply (opens_quiet _ (fun fuel _ => _) (quiet_test (Hi EAX))). apply opens_jne; [done|].
  by apply (opens_check (stage1_return L 5) (keyboard_enable L)).
Qed.
End Steps.

(** ** The functions *)

Section Functions.
Context {D : Type} {P : Platform D}.

(** C21: [check_a20] answers in %ax whether the gate is open, with every other register, the
    segments, the devices and the low flags as before.  Off its 14 bytes of stack it changes
    two bytes of memory: the words it writes are restored as bytes, so 0x501 and its
    neighbour 20 bits higher are left 0. *)
Theorem check_a20_correct (s : x86 D) :
  pe s = false -> x_segs s = real_segs -> 1536 <= reg ESP s < 65536 ->
  exists s', check_a20 s = Done tt s' /\
    u16 (reg EAX s') = Z.b2z (a20 (x_dev s)) /\ (forall r, r <> EAX -> reg r s' = reg r s) /\
    x_segs s' = x_segs s /\ x_dev s' = x_dev s /\ x_tty s' = x_tty s /\
    (forall i, 0 <= i < 16 -> Z.testbit (x_flags s') i = Z.testbit (x_flags s) i) /\
    forall x, 0 <= x < 4294967296 -> x < reg ESP s - 14 \/ reg ESP s <= x ->
      rd8 (x_mem s') x = if (x =? 0x501) || (x =? (if a20 (x_dev s) then 0x100501 else 0x501)) then 0 else rd8 (x_mem s) x.
Proof.
  destruct s as [[a c d b sp bp si di] sg fl cr0 gdtr m tty dev]. unfold pe. change (reg ESP _) with sp.
  cbn [x_segs x_cr0 x_dev x_tty x_flags x_mem]. intros Hcr -> Hsp.
  destruct (check_a20_run a c d b sp bp si di fl cr0 gdtr m tty dev Hcr Hsp) as (fl' & m' & Hf & Hm & E).
  eexists. split; [exact E|]. unfold reg. cbn [x_segs x_cr0 x_dev x_tty x_flags x_mem x_regs].
  split; [cbn [gpr_get g_eax]; rewrite u16_set_low; by destruct (a20 dev)|]. split; [by intros []|]. do 3 (split; [done|]). split; [exact Hf|]. intros x Hx Ho. rewrite Hm by done.
  unfold probe_high. by destruct (a20 dev).
Qed.

Context (L : stage1_labels).

(** C23: where the keyboard controller takes and gives its bytes, opening the gate comes to an
    end: it returns with the gate open, the stack pointer and %edx kept and the message of
    success printed last, or it halts with the message of failure printed last; it never
    returns with the gate closed. *)
Theorem enable_20_gate_ends (s : x86 D) :
  bios_tty -> bios_gate -> controller_accepts -> controller_answers -> ready L s ->
  ends (enable_20_gate L) s (fun o =>
    (exists s' l, o = Done tt s' /\ a20 (x_dev s') = true /\ reg ESP s' = reg ESP s /\ reg EDX s' = reg EDX s /\
      x_tty s' = x_tty s ++ l ++ a20_line_enabled_text) \/
    exists s' l, o = Panicked "hlt" s' /\ x_tty s' = x_tty s ++ l ++ a20_line_error_text).
Proof.
  intros Ht Hg Hc Hq Hr.
  eapply ends_mono; [apply (opens_gate L True Ht Hg (opens_keyboard L True Ht Hc Hq I)), Hr|].
  intros o [(s' & l & -> & Hst & Ha & Hl)|(_ & H)]; [left|by right].
  exists s', l. destruct Hst. by repeat split.
Qed.

(** C19: a keyboard controller whose output port drives the gate gets it opened, whatever the
    BIOS does and whether the gate was open before. *)
Theorem enable_20_gate_opens (s : x86 D) :
  bios_tty -> bios_gate -> controller_accepts -> controller_answers -> controller_works -> ready L s ->
  exists s' l, returns (enable_20_gate L) s tt s' /\ a20 (x_dev s') = true /\ steps s s' /\
    x_tty s' = x_tty s ++ l ++ a20_line_enabled_text.
Proof.
  intros Ht Hg Hc Hq Hw Hr.
  destruct (opens_gate L False Ht Hg (opens_keyboard_works L False Ht Hc Hq Hw) s Hr)
    as (n & o & [(s' & l & -> & Hst & Ha & Hl)|[[] _]] & H).
  exists s', l. split; [by exists n|done].
Qed.
End Functions.

(** ** Examples: a BIOS without the two functions, the cursor in row 1, a keyboard controller that takes a byte
    for its output port after 0xd1 *)

Definition example_gate : Platform (bool * bool) := {|
  a20 := fst;
  port_in port d := (if port =? 0x64 then 1 else 0, d);
  port_out port v '(gate, announced) :=
    if port =? 0x64 then (gate, v =? 0xd1)
    else if (port =? 0x60) && announced then (Z.testbit v 1, false) else (gate, announced);
  bios n s :=
    if n =? 0x15 then set_flags (put_flag 0 true (x_flags s)) s
    else if get_high8 (reg EAX s) =? 3 then set_reg EDX (set_low 16 256 (reg EDX s)) s else s |}.

Definition example_stage1 : stage1_labels := {|
  a20_line_disabled_msg := 8192; a20_line_enabled_msg := 8256; a20_line_error_msg := 8320;
  a20_line_attempt_keyboard_msg := 8384; a20_line_attempt_fast_msg := 8448; a20_line_skip_msg := 8512;
  stage1_temp := 8576; gdt_start := 8584; gdt_desc := 8624; __stop_stage1 := 8640;
  stage1_return := fun n => 4200 + 16 * Z.of_nat n;
|}.

Definition example_stage1_memory : mem :=
  write_bytes ∅ 8192 (flat_map (fun l => l ++ repeat 0 (64 - List.length l))
    [a20_line_disabled_text; a20_line_enabled_text; a20_line_error_text; a20_line_attempt_keyboard_text;
     a20_line_attempt_fast_text; a20_line_skip_text]
    ++ bytes_le 8 0 ++ flat_map (bytes_le 8) stage1_gdt ++ bytes_le 2 39 ++ bytes_le 4 8584).

Definition example_entry (D : Type) (d : D) : x86 D :=
  X86 (Gprs 0 0 128 0 2047 0 0 0) real_segs 514 16 (0, 0) example_stage1_memory [] d.

Lemma example_ready (D : Type) (d : D) : ready example_stage1 (example_entry D d).
Proof.
  split; [split; [done..|cbn; lia]|cbn; lia|].
  split; (split; [vm_compute; discriminate|]); (split; [vm_compute; split; reflexivity|]);
    apply example_string; try (vm_compute; reflexivity); repeat constructor; discriminate.
Qed.

Lemma example_gate_tty : @bios_tty _ example_gate.
Proof.
  intros s _ Ha. exists (reg EAX s), (x_mem s), (x_dev s). unfold bios, example_gate. rewrite Ha.
  by destruct s as [[] ? ? ? ? ? ? ?].
Qed.

Lemma example_gate_gate : @bios_gate _ example_gate.
Proof.
  intros s _ _. exists (reg EAX s), (reg EBX s), (put_flag 0 true (x_flags s)), (x_mem s), (x_dev s).
  split; [by destruct s as [[] ? ? ? ? ? ? ?]|]. split; [|done]. by rewrite testbit_put_flag by lia.
Qed.

Lemma example_gate_ready bit want d : Z.testbit 1 bit = want -> @becomes _ example_gate bit want d d.
Proof. intros E. by apply (@becomes_now _ example_gate bit want d 1 d). Qed.

Lemma example_gate_becomes bit want d d' : @becomes _ example_gate bit want d d' -> d' = d.
Proof. induction 1 as [d v d' E _|d v d1 d' E _ _ ->]; by injection E as <- <-. Qed.

Lemma example_gate_works : @controller_works _ example_gate.
Proof.
  split; [|by intros port []|by intros []].
  intros v d [[] Hb] Hv. apply example_gate_becomes in Hb as ->. exact Hv.
Qed.

Lemma check_a20_correct_witness :
  let _ := example_gate in
  exists s', check_a20 (example_entry (bool * bool) (true, false)) = Done tt s' /\ u16 (reg EAX s') = 1 /\
    ld32 (x_mem s') (stage1_temp example_stage1 + 16) = 65535.
Proof.
  intros pl. set (s := example_entry (bool * bool) (true, false)).
  destruct (check_a20_correct s) as (s' & E & Ha & _ & _ & _ & _ & _ & Hm); [done|done|cbn; lia|].
  exists s'. split; [exact E|]. split; [exact Ha|]. transitivity (ld32 (x_mem s) 8592); [|vm_compute; reflexivity].
  apply load_ext. intros i Hi. cbn in Hi. change (stage1_temp example_stage1 + 16) with 8592. change (reg ESP s) with 2047 in Hm.
  rewrite Hm by lia. cbn [x_dev a20 s example_entry fst]. change (a20 (true, false)) with true. cbv iota.
  by replace (_ || _) with false by lia.
Defined.

Lemma enable_20_gate_ends_witness :
  let _ := example_gate in
  exists n o, (forall fuel, (n < fuel)%nat -> enable_20_gate example_stage1 fuel (example_entry (bool * bool) (false, false)) = o) /\
    o <> OutOfFuel.
Proof.
  intros pl.
  destruct (enable_20_gate_ends example_stage1 (example_entry (bool * bool) (false, false)))
    as (n & o & Ho & H); [apply example_gate_tty|apply example_gate_gate|..].
  - intros d. exists d. by apply example_gate_ready.
  - intros d. eexists. by apply example_gate_ready.
  - apply example_ready.
  - exists n, o. split; [exact H|]. by destruct Ho as [(? & ? & -> & _)|(? & ? & -> & _)].
Defined.

Lemma enable_20_gate_opens_witness :
  let _ := example_gate in
  exists s', returns (enable_20_gate example_stage1) (example_entry (bool * bool) (false, false)) tt s' /\
    fst (x_dev s') = true.
Proof.
  intros pl.
  destruct (enable_20_gate_opens example_stage1 (example_entry (bool * bool) (false, false)))
    as (s' & l & E & Ha & _); [apply example_gate_tty|apply example_gate_gate|..].
  - intros d. exists d. by apply example_gate_ready.
  - intros d. eexists. by apply example_gate_ready.
  - apply example_gate_works.
  - apply example_ready.
  - by exists s'.
Defined.
