(* ===== verification/Stage1Entry.v ===== *)
(** The rest of [bootloader/stage1.S]: from the jump of [stage0.S] to the call of
    [_stage1Main], and from the call of [jumpKernel] to the kernel. *)

From S2P Require Import Prelude PhysMem Layout CString Cpu X86 RealMode Teletype A20.
Import Asm.

Local Open Scope list_scope.
Local Open Scope Z_scope.

(** [gdt_end - gdt_start - 1], the limit in [gdt_desc]. *)
Definition gdt_limit : Z := table_limit stage1_gdt.

Section Code.
Context {D : Type} {P : Platform D}.
Context (L : stage1_labels).

Abbreviation code := (prog (x86 D) unit).

(** [.a20_stuff] up to [a20_done]. *)
Definition a20_stuff (fuel : nat) : code :=
  do* call 16 (stage1_return L 0) check_a20 in
  if_a20
    (do* lea (a20_line_skip_msg L) ESI in
     call 16 (stage1_return L 3) (write_loop fuel))
    (do* lea (a20_line_disabled_msg L) ESI in
     do* call 16 (stage1_return L 1) (write_loop fuel) in
     call 16 (stage1_return L 2) (enable_20_gate L fuel)).

(** [a20_done] up to the jump. *)
Definition enter_protected_mode : code :=
  do* mov 8 (Imm 0x03) (Hi EAX) in
  do* mov 8 (Imm 0) (Hi EBX) in
  do* int 0x10 in
  do* mov 16 (Lo EDX) (Mem DS (Abs (stage1_temp L + 2))) in
  do* cli in
  do* mov 32 (Imm (gdt_desc L)) (Lo EAX) in
  do* lgdt 16 (Ind32 EAX) in
  do* mov_from_cr0 EAX in
  do* or 32 (Imm 1) (Lo EAX) in
  do* mov_to_cr0 EAX in
  ljmp CODE32_SEGMENT true.

(** [.pmEntry] up to the call. *)
Definition push_arguments : code :=
  do* mov 32 (Imm DATA32_SEGMENT) (Lo EAX) in
  do* data_segments EAX in
  do* xor 16 (Lo EAX) (Lo EAX) in
  do* mov 16 (Mem DS (Abs (stage1_temp L + 2))) (Lo EAX) in
  do* push 32 (Lo EAX) in
  do* mov 32 (Imm (__stop_stage1 L)) (Lo EAX) in
  do* push 32 (Lo EAX) in
  do* xor 32 (Lo EDX) (Lo EDX) in
  do* mov 16 (Mem DS (Abs (stage1_temp L))) (Lo EDX) in
  push 32 (Lo EDX).

Definition enter_stage1 (fuel : nat) : code :=
  do* mov 16 (Lo EDX) (Mem DS (Abs (stage1_temp L))) in
  do* a20_stuff fuel in
  do* enter_protected_mode in
  push_arguments.

(** [_stage1Main] does not return; behind the call the code halts for ever. *)
Definition _start (stage1Main : code) (fuel : nat) : code :=
  do* enter_stage1 fuel in
  do* call 32 (stage1_return L 4) stage1Main in
  do* cli in
  hlt.

(** Called from the C++ code with the return address on the stack; the result is the
    address it jumps to.  [(%di)] is a 32-bit stack pointer cut to 16 bits. *)
Definition jumpKernel : prog (x86 D) Z :=
  do* mov 16 (Lo ESP) (Lo EDI) in
  do* Stubs.next_argument ECX in
  do* Stubs.next_argument EBX in
  do* Stubs.next_argument EDX in
  do* mov 32 (Imm 0x2BADB003) (Lo EAX) in
  jmp_reg 32 ECX.
End Code.

(** ** Proofs: opening the gate *)

Section Gate.
Context {D : Type} {P : Platform D}.
Context (L : stage1_labels) (may_halt : Prop).

(** The gate is open, or, where that may be, the message and a halt. *)
Definition gated (s : x86 D) (o : outcome (x86 D) unit) : Prop :=
  (exists s' l, o = Done tt s' /\ steps s s' /\ a20 (x_dev s') = true /\ x_tty s' = x_tty s ++ l) \/
  (may_halt /\ exists s' l, o = Panicked "hlt" s' /\ x_tty s' = x_tty s ++ l ++ a20_line_error_text).

Lemma opened_gated s o : opened may_halt s o -> gated s o.
Proof.
  intros [(s' & l & -> & H1 & H2 & H3)|H]; [left|by right].
  exists s', (l ++ a20_line_enabled_text). by rewrite H3.
Qed.

Lemma gated_from s s1 l o : steps s s1 -> x_tty s1 = x_tty s ++ l -> gated s1 o -> gated s o.
Proof.
  intros Hst Ht [(s' & l' & -> & Hst' & Ha & Ht')|(Hh & s' & l' & -> & Ht')].
  - left. exists s', (l ++ l'). rewrite Ht', Ht, !app_assoc. split; [done|]. split; [by eapply steps_trans|done].
  - right. split; [done|]. exists s', (l ++ l'). by rewrite Ht', Ht, !app_assoc.
Qed.

(** A call that may not come back. *)
Lemma gated_call ra f s :
  real_mode s -> 1538 <= reg ESP s -> ends f (pushed ra s) (gated (pushed ra s)) ->
  ends (fun fuel => call 16 ra (f fuel)) s (gated s).
Proof.
  intros Hr Hsp (n & o & [(s' & l & -> & Hst & Ha & Ht)|(Hh & s' & l & -> & Ht)] & H).
  - eapply ends_mono; [apply (ends_call16 ra f s (fun t dv _ => t = x_tty s ++ l /\ a20 dv = true) Hr Hsp)|].
    + exists n, (Done tt s'). split; [|exact H]. exists tt, s'. split; [done|]. split; [done|]. split; [|done].
      rewrite Ht. by destruct s as [[] ? ? ? ? ? ? ?].
    + intros o ([] & s'' & -> & Hst' & Ht' & Ha'). left. by exists s'', l.
  - exists n, (Panicked "hlt" s'). split.
    + right. split; [done|]. exists s', l. split; [done|]. rewrite Ht. by destruct s as [[] ? ? ? ? ? ? ?].
    + intros fuel Hf. destruct Hr as [Hsg _ _ Hesp0]. specialize (H fuel Hf).
      destruct s as [[a c d b sp bp si di] sg fl cr0 gdtr m tty dev]. unfold reg, pushed in *.
      cbn [gpr_get x_regs g_esp x_segs] in *. subst sg. unfold call, real_segs. rewrite bind_push16 by lia.
      by apply bind_Panicked.
Qed.

Hypothesis Htty : bios_tty.

Lemma ends_a20_stuff s :
  ready L s -> 1570 <= reg ESP s -> opens L may_halt (enable_20_gate L) -> ends (a20_stuff L) s (gated s).
Proof.
  intros [Hr Hsp Hms] Hsp2 Hopens.
  eapply ends_bind; [apply (ends_check (stage1_return L 0)); [done|lia]|]. intros [] s1 (Hst1 & Ht1 & Hd1 & Ha1).
  pose proof (st_real _ _ Hst1) as Hr1.
  apply (ends_if_a20 (fun fuel => _) (fun fuel => _) s1 (a20 (x_dev s))); [done|done|]. intros s2 Hst2 Ht2 _ Hd2.
  pose proof (steps_trans _ _ _ Hst1 Hst2) as Hst. pose proof (st_real _ _ Hst) as Hr2.
  pose proof (messages_steps L s s2 Hr Hst Hms) as Hms2.
  assert (reg ESP s2 = reg ESP s) as Hesp by apply Hst.
  eapply ends_mono; [|intros o; eapply (gated_from s s2 []); [done|by rewrite app_nil_r, Ht2, Ht1]].
  destruct (a20 (x_dev s)) eqn:Eg.
  - apply (ends_eq _ (fun fuel => do* lea (a20_line_skip_msg L) ESI in
      do* call 16 (stage1_return L 3) (write_loop fuel) in ret tt) s2 s2).
    { intros fuel. unfold lea. rewrite !bind_mov. unfold bind. by destruct (call _ _ _ _) as [[] ?| | |]. }
    apply (ends_message L Htty (stage1_return L 3) _ a20_line_skip_text (fun _ _ => ret tt)); [done|lia|apply Hms2|].
    intros s3 Hst3 Ht3 Ha3. eapply ends_done; [done|]. left. exists s3, a20_line_skip_text.
    split; [done|]. split; [done|]. split; [congruence|done].
  - apply (ends_message L Htty (stage1_return L 1) _ a20_line_disabled_text (fun fuel _ => _)); [done|lia|apply Hms2|].
    intros s3 Hst3 Ht3 _. pose proof (st_real _ _ Hst3) as Hr3.
    assert (reg ESP s3 = reg ESP s) as Hesp3 by (by rewrite (st_esp _ _ Hst3)).
    eapply ends_mono; [|intros o; eapply (gated_from s2 s3); [done|exact Ht3]].
    apply (gated_call _ (enable_20_gate L)); [done|lia|].
    eapply ends_mono; [apply Hopens|intros o; by apply opened_gated].
    split; [apply pushed_real_mode; [done|lia]|..].
    + destruct s3 as [[a c d b sp bp si di] sg fl cr0 gdtr m tty dev]. unfold pushed, reg in *. cbn in *. lia.
    + apply (messages_ext L (x_mem s3)); [|by apply (messages_steps L s2 s3)]. intros x Hx _. pose proof (rm_esp _ Hr3) as Hb.
      destruct s3 as [[a c d b sp bp si di] sg fl cr0 gdtr m tty dev]. unfold pushed, reg in *.
      cbn [x_mem set_reg set_xmem gpr_get x_regs g_esp] in *. apply rd8_store_out; cbn; lia.
Qed.
End Gate.

(** ** Proofs: protected mode *)

(** The table and its descriptor in the program's image, apart from the saved registers. *)
Record program_data (L : stage1_labels) (m : mem) : Prop := {
  pd_limit : ld16 m (gdt_desc L) = gdt_limit;
  pd_base : ld32 m (gdt_desc L + 2) = gdt_start L;
  pd_gdt : gdt_at m (gdt_start L);
  pd_places : 4112 <= gdt_desc L /\ gdt_desc L + 6 < 65536 /\ 4112 <= gdt_start L /\ gdt_start L + 40 < 65536;
  pd_temp : 4112 <= stage1_temp L /\ stage1_temp L + 4 < 65536;
  pd_apart : (stage1_temp L + 4 <= gdt_desc L \/ gdt_desc L + 6 <= stage1_temp L) /\
    (stage1_temp L + 4 <= gdt_start L \/ gdt_start L + 40 <= stage1_temp L);
  pd_stop : 0 <= __stop_stage1 L < 4294967296;
}.

Lemma program_data_ext L m m' :
  (forall a, 4112 <= a < 65536 -> a < stage1_temp L \/ stage1_temp L + 4 <= a -> rd8 m' a = rd8 m a) ->
  program_data L m -> program_data L m'.
Proof.
  intros H [H1 H2 H3 H4 H5 H6 H7]. split; try done.
  - rewrite <- H1. apply load_ext. intros i Hi. cbn in Hi. apply H; lia.
  - rewrite <- H2. apply load_ext. intros i Hi. cbn in Hi. apply H; lia.
  - eapply gdt_at_ext; [|exact H3]. intros i Hi. apply H; lia.
Qed.

Section Protected.
Context {D : Type} {P : Platform D}.
Context (L : stage1_labels) (cursor : D -> Z).

(** Documented behaviour of [int $0x10], function 3: %dx is the cursor, row and column. *)
Definition bios_cursor : Prop :=
  forall s : x86 D, pe s = false -> get_high8 (reg EAX s) = 3 -> get_high8 (reg EBX s) = 0 ->
    exists a c m dev, bios 0x10 s =
        set_dev dev (set_reg EDX (set_low 16 (cursor (x_dev s)) (reg EDX s)) (set_reg ECX c (set_reg EAX a (set_xmem m s)))) /\
      kept (u16 (reg ESP s)) (x_mem s) m /\ a20 dev = a20 (x_dev s).

Hypothesis Hcursor : bios_cursor.

Lemma bind_int10_cursor {A} (k : unit -> prog (x86 D) A) s s' :
  pe s = false -> get_high8 (reg EAX s) = 3 -> bios 0x10 s = s' -> bind (int 0x10) k s = k tt (set_tty (x_tty s) s').
Proof. intros Hpe Ha <-. unfold bind, int. rewrite Hpe, Ha. cbn [Z.eqb Pos.eqb andb]. by rewrite app_nil_r. Qed.

(** What is on the stack and around it behind [push_arguments]. *)
Record arguments (sp dx cur : Z) (m m' : mem) : Prop := {
  ar_dx : ld32 m' (sp - 12) = dx;
  ar_stop : ld32 m' (sp - 8) = __stop_stage1 L;
  ar_cursor : ld32 m' (sp - 4) = cur;
  ar_mem x : sp <= x < 720896 \/ 786432 <= x < 4294967296 -> x < stage1_temp L \/ stage1_temp L + 4 <= x ->
    rd8 m' x = rd8 m x;
}.

Lemma push_arguments_run a c d b sp bp si di fl cr0 m tty dev sg :
  Z.testbit cr0 0 = true -> program_data L m -> 1536 <= sp <= 4096 ->
  exists a' fl' m', arguments sp (ld16 m (stage1_temp L)) (ld16 m (stage1_temp L + 2)) m m' /\
    push_arguments L (X86 (Gprs a c d b sp bp si di) (Segs (Seg CODE32_SEGMENT 0 true) sg sg sg sg sg) fl cr0
      (gdt_limit, gdt_start L) m tty dev) =
    Done tt (X86 (Gprs a' c (ld16 m (stage1_temp L)) b (sp - 12) bp si di) pm_segs fl' cr0
      (gdt_limit, gdt_start L) m' tty dev).
Proof.
  intros Hcr [_ _ Hg (_ & _ & Hg1 & Hg2) (Ht1 & Ht2) _ Hst] Hsp.
  set (dx := ld16 m (stage1_temp L)). set (cur := ld16 m (stage1_temp L + 2)). set (stop := __stop_stage1 L) in *.
  assert (0 <= dx < 65536 /\ 0 <= cur < 65536) as [Hdx Hcur] by (split; apply (load_bounds 2)).
  set (m1 := st32 (st32 m (sp - 4) cur) (sp - 8) stop).
  assert (ld16 m1 (stage1_temp L) = dx) as Hdx1 by (unfold m1; by rewrite !load_store_out by (cbn; lia)).
  exists stop. eexists. exists (st32 m1 (sp - 12) dx). split.
  - unfold m1. split.
    + rewrite (load_store 4) by lia. apply Z.mod_small. change (256 ^ Z.of_nat 4) with 4294967296. lia.
    + rewrite load_store_out, (load_store 4) by (cbn; lia). apply Z.mod_small. change (256 ^ Z.of_nat 4) with 4294967296. lia.
    + rewrite 2!load_store_out, (load_store 4) by (cbn; lia). apply Z.mod_small. change (256 ^ Z.of_nat 4) with 4294967296. lia.
    + intros x Hx _. by rewrite !rd8_store_out by (cbn; lia).
  - unfold push_arguments, xor. x_step.
    rewrite (bind_data_segments_pe _ DATA32_SEGMENT 0x00CF92000000FFFF); [|exact Hcr|reflexivity| |reflexivity].
    2: { apply (gdt_descriptor 2 _ (gdt_start L)); [done|lia|exact Hg|lia|lia|reflexivity]. }
    x_norm. change (d_base 0x00CF92000000FFFF) with 0. change (d_big 0x00CF92000000FFFF) with true.
    do 2 x_step. rewrite Z.lxor_nilpotent, Z.add_0_l, phys_low by lia. fold cur. change (u16 0) with 0.
    change (set_low 16 0 (u32 (u32 DATA32_SEGMENT))) with 0. rewrite (set_low_16 cur 0) by lia.
    do 4 x_step. rewrite !Z.lxor_nilpotent, !(u32_small cur) by lia. change (u32 0) with 0.
    rewrite !u32_small by (rewrite ?u32_small; lia).
    replace (sp + -4 + -4) with (sp - 8) by lia. replace (sp + -4) with (sp - 4) by lia.
    fold stop. rewrite !Z.add_0_l, !phys_low by lia. fold m1. 
    x_step. rewrite <- bind_ret_r. x_step.
    rewrite !Z.add_0_l, (phys_low dev (stage1_temp L)), Hdx1, (set_low_16 dx 0), (u32_small dx) by lia.
    replace (sp - 8 + -4) with (sp - 12) by lia. rewrite !(u32_small (sp - 12)), phys_low by lia. reflexivity.
Qed.

Lemma enter_protected_mode_run a c d b sp bp si di fl cr0 gdtr m tty dev :
  Z.testbit cr0 0 = false -> program_data L m -> 1536 <= sp <= 4096 ->
  exists a' c' d' b' fl' cr' m' dev', Z.testbit cr' 0 = true /\ a20 dev' = a20 dev /\ program_data L m' /\
    ld16 m' (stage1_temp L) = ld16 m (stage1_temp L) /\ ld16 m' (stage1_temp L + 2) = u16 (cursor dev) /\
    (forall x, sp <= x < 720896 \/ 786432 <= x < 4294967296 -> x < stage1_temp L \/ stage1_temp L + 4 <= x ->
      rd8 m' x = rd8 m x) /\
    forall k : unit -> prog (x86 D) unit,
    bind (enter_protected_mode L) k (X86 (Gprs a c d b sp bp si di) real_segs fl cr0 gdtr m tty dev) =
    k tt (X86 (Gprs a' c' d' b' sp bp si di) (let z := Seg 0 0 false in Segs (Seg CODE32_SEGMENT 0 true) z z z z z) fl' cr'
      (gdt_limit, gdt_start L) m' tty dev').
Proof.
  intros Hcr Hpd Hsp. destruct (id Hpd) as [_ _ _ (P1 & P2 & P3 & P4) (T1 & T2) (A1 & A2) _].
  set (s1 := X86 (Gprs (set_high8 3 a) c d (set_high8 0 b) sp bp si di) real_segs fl cr0 gdtr m tty dev).
  destruct (Hcursor s1 Hcr (get_set_high8 _ _) (get_set_high8 _ _)) as (a1 & c1 & m1 & dev1 & E & Hm1 & Hd1).
  change (u16 (reg ESP s1)) with (u16 sp) in Hm1. rewrite u16_small in Hm1 by lia. cbn [x_mem s1] in Hm1.
  set (d1 := set_low 16 (cursor dev) d). set (m2 := st16 m1 (stage1_temp L + 2) (u16 d1)).
  assert (forall x, sp <= x < 720896 \/ 786432 <= x < 4294967296 -> x < stage1_temp L + 2 \/ stage1_temp L + 4 <= x ->
    rd8 m2 x = rd8 m x) as Hm2.
  { intros x Hx Ht. unfold m2. rewrite rd8_store_out by (cbn; lia). by apply Hm1. }
  assert (program_data L m2) as Hpd2 by (eapply program_data_ext; [|exact Hpd]; intros x Hx Ht; apply Hm2; lia).
  set (v := u32 (u32 (Z.lor (u32 1) (u32 cr0)))).
  assert (Z.testbit v 0 = true) as Hv.
  { unfold v, wrap. by rewrite !Z.mod_pow2_bits_low, Z.lor_spec, Z.mod_pow2_bits_low by lia. }
  do 5 eexists. exists v, m2, dev1. split; [exact Hv|]. split; [exact Hd1|]. split; [exact Hpd2|].
  split; [apply load_ext; intros i Hi; cbn in Hi; apply Hm2; lia|]. split.
  { unfold m2, d1. rewrite (load_store 2), u16_set_low by lia. apply (wrap_wrap 16). }
  split; [intros x Hx Ht; apply Hm2; lia|]. intros k.
  unfold enter_protected_mode, cli, lgdt, mov_from_cr0, or, mov_to_cr0. do 4 x_step.
  change (u8 3) with 3. change (u8 0) with 0. fold s1.
  rewrite bind_assoc, (bind_int10_cursor _ s1 _ Hcr (get_set_high8 _ _) E). unfold s1, reg. x_norm. fold d1.
  repeat x_step. rewrite !Z.add_0_l, phys_low by lia. fold m2.
  rewrite !(u32_small (gdt_desc L)), !(phys_low dev1), (pd_limit _ _ Hpd2), (pd_base _ _ Hpd2) by (rewrite ?u32_small; lia).
  change (if 16 =? 16 then ?x else _) with x. change 16777215 with (Z.ones 24).
  rewrite land_ones_wrap, (wrap_small 24) by (change (2 ^ 24) with 16777216; lia). fold v.
  rewrite (bind_ljmp_pe _ _ 0x00CF9A000000FFFF); [|exact Hv| |reflexivity]; [reflexivity|].
  apply (gdt_descriptor 1 _ (gdt_start L)); [done|lia|apply Hpd2|lia|lia|reflexivity].
Qed.

(** Behind [enter_stage1]: protected mode with the table of the file, the gate open, and the
    arguments of [_stage1Main] on the stack. *)
Record stage1_entered (s s' : x86 D) : Prop := {
  se_pe : pe s' = true;
  se_segs : x_segs s' = pm_segs;
  se_gdtr : x_gdtr s' = (gdt_limit, gdt_start L);
  se_gdt : gdt_at (x_mem s') (gdt_start L);
  se_a20 : a20 (x_dev s') = true;
  se_esp : reg ESP s' = reg ESP s - 12;
  se_dx : ld32 (x_mem s') (reg ESP s') = u16 (reg EDX s);
  se_stop : ld32 (x_mem s') (reg ESP s' + 4) = __stop_stage1 L;
  se_cursor : exists d, ld32 (x_mem s') (reg ESP s' + 8) = u16 (cursor d);
  se_mem x : reg ESP s <= x < 720896 \/ 786432 <= x < 4294967296 -> x < stage1_temp L \/ stage1_temp L + 4 <= x ->
    x <> 1049857 -> rd8 (x_mem s') x = rd8 (x_mem s) x;
}.

Definition entered (may_halt : Prop) (s : x86 D) (o : outcome (x86 D) unit) : Prop :=
  (exists s', o = Done tt s' /\ stage1_entered s s') \/
  (may_halt /\ exists s' l, o = Panicked "hlt" s' /\ x_tty s' = x_tty s ++ l ++ a20_line_error_text).

Lemma ends_enter_stage1 may_halt s :
  bios_tty -> ready L s -> 1570 <= reg ESP s -> program_data L (x_mem s) ->
  opens L may_halt (enable_20_gate L) -> ends (enter_stage1 L) s (entered may_halt s).
Proof.
  intros Htty Hr Hsp Hpd Hopens. destruct (id Hr) as [Hreal Hsp0 Hms]. destruct (id Hreal) as [R1 R2 R3 R4].
  destruct (id Hpd) as [_ _ _ _ (T1 & T2) _ _].
  set (dx := u16 (reg EDX s)). set (s1 := set_xmem (st16 (x_mem s) (stage1_temp L) dx) s).
  assert (forall x, 0 <= x < 4294967296 -> x < stage1_temp L \/ stage1_temp L + 2 <= x -> rd8 (x_mem s1) x = rd8 (x_mem s) x) as Hm1.
  { intros x Hx Ht. apply rd8_store_out; cbn; lia. }
  assert (ready L s1) as Hr1.
  { split; [by split|done|]. eapply messages_ext; [|exact Hms]. intros x Hx Ht. apply Hm1; lia. }
  assert (program_data L (x_mem s1)) as Hpd1 by (eapply program_data_ext; [|exact Hpd]; intros x Hx Ht; apply Hm1; lia).
  destruct (ends_a20_stuff L may_halt Htty s1 Hr1 Hsp Hopens) as (n & o & HQ & H).
  assert (forall fuel, enter_stage1 L fuel s = bind (a20_stuff L fuel) (fun _ => bind (enter_protected_mode L) (fun _ => push_arguments L)) s1) as E1.
  { intros fuel. unfold enter_stage1. rewrite bind_mov. f_equal. destruct s as [[a c d b sp bp si di] sg fl cr0 gdtr m tty dev].
    cbn [x_segs] in R1. subst sg. unfold s1, dx, reg. x_norm. by rewrite Z.add_0_l, phys_low by lia. }
  destruct HQ as [(s2 & l & -> & Hst & Ha & Ht)|(Hh & s2 & l & -> & Ht)].
  2: { exists n, (Panicked "hlt" s2). split; [right; split; [done|]; by exists s2, l|].
    intros fuel Hf. rewrite E1. by apply bind_Panicked, H. }
  assert (reg ESP s1 = reg ESP s) as He1 by done.
  assert (program_data L (x_mem s2)) as Hpd2
    by (eapply program_data_ext; [|exact Hpd1]; intros x Hx _; apply (st_mem _ _ Hst); rewrite ?He1; lia).
  assert (ld16 (x_mem s2) (stage1_temp L) = dx) as Hdx.
  { transitivity (ld16 (x_mem s1) (stage1_temp L)).
    - apply load_ext. intros i Hi. cbn in Hi. apply (st_mem _ _ Hst); rewrite ?He1; lia.
    - unfold s1. cbn [x_mem set_xmem]. rewrite (load_store 2) by lia. apply (wrap_wrap 16). }
  assert (reg ESP s2 = reg ESP s) as Hesp2 by (by rewrite (st_esp _ _ Hst)).
  assert (forall x, reg ESP s <= x < 720896 \/ 786432 <= x < 4294967296 -> x < stage1_temp L \/ stage1_temp L + 4 <= x ->
    x <> 1049857 -> rd8 (x_mem s2) x = rd8 (x_mem s) x) as Hm2.
  { intros x Hx Hx2 Hn. rewrite (st_mem _ _ Hst), Hm1 by (rewrite ?He1; done || lia). done. }
  destruct (st_real _ _ Hst) as [S1 S2 _ S4]. clear Hst Ht.
  destruct s2 as [[a c d b sp bp si di] sg fl cr0 gdtr m tty dev]. unfold pe in S2.
  change (reg ESP (X86 (Gprs a c d b sp bp si di) sg fl cr0 gdtr m tty dev)) with sp in Hesp2, S4. cbn [x_segs x_cr0 x_mem x_dev] in *. subst sg.
  destruct (enter_protected_mode_run a c d b sp bp si di fl cr0 gdtr m tty dev S2 Hpd2 S4)
    as (a3 & c3 & d3 & b3 & fl3 & cr3 & m3 & dev3 & Hcr3 & Ha3 & Hpd3 & Hdx3 & Hcur3 & Hm3 & E3).
  destruct (push_arguments_run a3 c3 d3 b3 sp bp si di fl3 cr3 m3 tty dev3 (Seg 0 0 false) Hcr3 Hpd3 S4)
    as (a4 & fl4 & m4 & [D1 D2 D3 Hm4] & E4).
  eexists n, _. split; [|intros fuel Hf; rewrite E1, (bind_Done _ _ _ _ _ (H fuel Hf)), E3; exact E4].
  left. eexists. split; [reflexivity|]. rewrite <- Hesp2 in Hm2.
  match goal with |- stage1_entered s ?x => assert (reg ESP x = sp - 12) as He4 by done end.
  split; rewrite ?He4, <- ?Hesp2; cbn [x_mem x_dev]; try done.
  - eapply gdt_at_ext; [|apply Hpd3]. destruct Hpd as [_ _ _ (? & ? & ? & ?) _ (? & ?) _].
    intros i Hi. apply Hm4; lia.
  - congruence.
  - rewrite D1, Hdx3. exact Hdx.
  - replace (sp - 12 + 4) with (sp - 8) by lia. exact D2.
  - exists dev. replace (sp - 12 + 8) with (sp - 4) by lia. by rewrite D3.
  - intros x Hx Ht' Hn. rewrite Hm4, Hm3 by done. by apply Hm2.
Qed.
End Protected.

(** ** Proofs: leaving for the kernel *)

Section Jump.
Context {D : Type} {P : Platform D}.

Lemma jumpKernel_run a c d b sp bp si di fl cr0 gdtr m tty (dev : D) :
  0 <= sp -> sp + 16 < 65536 ->
  exists di' fl', jumpKernel (X86 (Gprs a c d b sp bp si di) pm_segs fl cr0 gdtr m tty dev) =
    Done (ld32 m (sp + 4)) (X86 (Gprs 0x2BADB003 (ld32 m (sp + 4)) (ld32 m (sp + 12)) (ld32 m (sp + 8)) sp bp si di')
      pm_segs fl' cr0 gdtr m tty dev).
Proof.
  intros Hs0 Hs1. pose proof (ld32_bounds m (sp + 4)) as Hb. unfold jumpKernel, pm_segs. x_step.
  rewrite (wrap_small 16 sp) by (pow2_simpl; lia).
  next_arg sp (sp + 4) di. next_arg (sp + 4) (sp + 8) di. next_arg (sp + 8) (sp + 12) di. x_step.
  unfold jmp_reg, gets, reg. cbn [gpr_get x_regs g_ecx]. rewrite (wrap_small 32) by (pow2_simpl; lia).
  do 2 eexists. reflexivity.
Qed.
End Jump.

(** ** The functions *)

Section Functions.
Context {D : Type} {P : Platform D}.
Context (L : stage1_labels) (cursor : D -> Z).

(** C7: with a working keyboard controller the entry of the second stage comes to the call of
    its main function: in protected mode, in the flat segments of its descriptor table, with
    the gate open, the drive, the end of the program and the cursor on the stack in the order
    of [_stage1Main]'s parameters; memory from the stack up is what it was, but for the saved
    words and the byte at 0x100501 that testing the gate may clear. *)
Theorem stage1_enters (s : x86 D) :
  bios_tty -> bios_gate -> bios_cursor cursor ->
  controller_accepts -> controller_answers -> controller_works ->
  ready L s -> 1570 <= reg ESP s -> program_data L (x_mem s) ->
  exists s', returns (enter_stage1 L) s tt s' /\ stage1_entered L cursor s s'.
Proof.
  intros Ht Hg Hcur Hc Hq Hw Hr Hsp Hpd.
  destruct (ends_enter_stage1 L cursor Hcur False s Ht Hr Hsp Hpd
    (opens_gate L False Ht Hg (opens_keyboard_works L False Ht Hc Hq Hw))) as (n & o & [(s' & -> & H')|[[] _]] & H).
  exists s'. split; [by exists n|exact H'].
Qed.

Lemma jumpKernel_lemma (s : x86 D) :
  x_segs s = pm_segs -> 0 <= reg ESP s -> reg ESP s + 16 < 65536 ->
  let arg i := ld32 (x_mem s) (reg ESP s + 4 * i) in
  exists s', jumpKernel s = Done (arg 1) s' /\
    reg EAX s' = 0x2BADB003 /\ reg EBX s' = arg 2 /\ reg EDX s' = arg 3 /\
    reg ESP s' = reg ESP s /\ reg EBP s' = reg EBP s /\ reg ESI s' = reg ESI s /\
    x_segs s' = x_segs s /\ x_cr0 s' = x_cr0 s /\ x_gdtr s' = x_gdtr s /\
    x_mem s' = x_mem s /\ x_dev s' = x_dev s /\ x_tty s' = x_tty s.
Proof.
  destruct s as [[a c d b sp bp si di] sg fl cr0 gdtr m tty dev]. change (reg ESP (X86 (Gprs a c d b sp bp si di) sg fl cr0 gdtr m tty dev)) with sp. cbn [x_segs x_mem].
  intros -> Hs0 Hs1. destruct (jumpKernel_run a c d b sp bp si di fl cr0 gdtr m tty dev Hs0 Hs1) as (di' & fl' & E).
  eexists. split; [exact E|]. done.
Qed.

(** The jump to the kernel goes to the address given, with the magic number of the loader
    in %eax, the information structure in %ebx and the terminal's index in %edx, all read
    through a 16-bit copy of the stack pointer, so with a stack below 64 KiB; mode, segments,
    memory, devices and the other registers but %ecx and %edi are as before. *)
Theorem jumpKernel_jumps (s : x86 D) :
  x_segs s = pm_segs -> 0 <= reg ESP s -> reg ESP s + 16 < 65536 ->
  let arg i := ld32 (x_mem s) (reg ESP s + 4 * i) in
  exists s', jumpKernel s = Done (arg 1) s' /\
    reg EAX s' = 0x2BADB003 /\ reg EBX s' = arg 2 /\ reg EDX s' = arg 3 /\
    reg ESP s' = reg ESP s /\ reg EBP s' = reg EBP s /\ reg ESI s' = reg ESI s /\
    x_segs s' = x_segs s /\ x_cr0 s' = x_cr0 s /\ x_gdtr s' = x_gdtr s /\
    x_mem s' = x_mem s /\ x_dev s' = x_dev s /\ x_tty s' = x_tty s.
Proof. apply jumpKernel_lemma. Qed.
End Functions.

(** ** Examples *)

Definition example_cursor (d : bool * bool) : Z := 256.

Lemma example_gate_cursor : @bios_cursor _ example_gate example_cursor.
Proof.
  intros s _ Ha _. exists (reg EAX s), (reg ECX s), (x_mem s), (x_dev s). unfold bios, example_gate. rewrite Ha.
  by destruct s as [[] ? ? ? ? ? ? ?].
Qed.

Lemma example_program_data : program_data example_stage1 example_stage1_memory.
Proof.
  split; [vm_compute; reflexivity|vm_compute; reflexivity|example_gdt|cbn; lia..].
Qed.

Lemma stage1_enters_witness :
  let _ := example_gate in
  exists s', returns (enter_stage1 example_stage1) (example_entry (bool * bool) (false, false)) tt s' /\
    pe s' = true /\ ld32 (x_mem s') (reg ESP s') = 128.
Proof.
  intros pl.
  destruct (stage1_enters example_stage1 example_cursor (example_entry (bool * bool) (false, false)))
    as (s' & E & [Hpe _ _ _ _ _ Hdx _ _ _]);
    [apply example_gate_tty|apply example_gate_gate|apply example_gate_cursor|..].
  - intros d. exists d. by apply example_gate_ready.
  - intros d. eexists. by apply example_gate_ready.
  - apply example_gate_works.
  - apply example_ready.
  - cbn. lia.
  - apply example_program_data.
  - exists s'. split; [exact E|]. split; [exact Hpe|exact Hdx].
Defined.

Definition example_jump : x86 (bool * bool) :=
  X86 (Gprs 0 0 0 0 1792 0 0 0) pm_segs 2 17 (39, 8584)
    (write_bytes ∅ 1796 (bytes_le 4 0x100010 ++ bytes_le 4 0x3000 ++ bytes_le 4 7)) [] (true, false).

Lemma jumpKernel_jumps_witness :
  let _ := example_gate in
  exists s', jumpKernel example_jump = Done 0x100010 s' /\ reg EBX s' = 0x3000 /\ reg EDX s' = 7.
Proof.
  intros pl. destruct (jumpKernel_jumps example_jump) as (s' & E & _ & Hb & Hd & _); [done|cbn; lia..|].
  exists s'. split; [|split].
  - rewrite E. vm_compute. reflexivity.
  - rewrite Hb. vm_compute. reflexivity.
  - rewrite Hd. vm_compute. reflexivity.
Defined.
