(* ===== verification/Interrupts.v ===== *)
(** Interrupts: the descriptor table, the 8259 controllers and the handler of
    [kernel/system/interrupts.cpp], with the stubs of
    [kernel/system/interruptHandler.S] that lead from the processor to it. *)

From S2P Require Import Prelude PhysMem Layout CString Xtoa Terminal Outstream Machine Elf Cpu.

Local Open Scope string_scope.
Local Open Scope list_scope.
Local Open Scope Z_scope.

(** ** Structures *)

Definition CODE32_KSEGMENT : Z := 8.
Definition MASTER_PIC_VECTOR_OFFSET : Z := 254.
Definition SLAVE_PIC_VECTOR_OFFSET : Z := 254.

(** The bit fields of [interruptDescriptorFlags], as assignments. *)
Definition set_type (v flags : Z) : Z := set_bits 0 4 v flags.
Definition set_zero (v flags : Z) : Z := set_bits 4 1 v flags.
Definition set_dpl (v flags : Z) : Z := set_bits 5 2 v flags.
Definition set_present (v flags : Z) : Z := set_bits 7 1 v flags.

Definition interruptDescriptor : layout := Layout true [
  ("address_low", U16); ("segment_selector", U16); ("reserved", U8); ("flags", U8);
  ("address_high", U16)].

Definition pushad_frame : layout := Layout true [
  ("edi", U32); ("esi", U32); ("ebp", U32); ("esp", U32); ("ebx", U32); ("edx", U32); ("ecx", U32);
  ("eax", U32)].

Definition isr_frame_t : layout := Layout false [
  ("pFrame", sub pushad_frame); ("intNumber", U32); ("errorCode", U32); ("eip", U32); ("cs", U32);
  ("eflags", U32)].

(** ** [interruptDescriptorTable]

    The object; its constructor takes the static table [__idt_table]. *)
Record interruptDescriptorTable : Type := InterruptDescriptorTable { d_IDT : Z; d_initialized : bool }.

Definition new_interruptDescriptorTable (__idt_table : Z) : interruptDescriptorTable :=
  InterruptDescriptorTable __idt_table false.

Definition update_flags (entry : Z) (f : Z -> Z) (m : mem) : mem :=
  put interruptDescriptor "flags" m entry (f (get interruptDescriptor "flags" m entry)).

Definition installInterrupt (_IDT vector handler dpl : Z) : prog kernel bool :=
  let handler_addr := handler in
  let entry := _IDT + sizeof interruptDescriptor * vector in
  do* kstore (fun m => put interruptDescriptor "address_low" m entry (Z.land handler_addr 65535)) in
  do* kstore (fun m => put interruptDescriptor "address_high" m entry
                         (Z.land (Z.shiftr handler_addr 16) 65535)) in
  do* kstore (fun m => put interruptDescriptor "segment_selector" m entry CODE32_KSEGMENT) in
  do* kstore (update_flags entry (set_dpl dpl)) in
  do* kstore (update_flags entry (set_present 1)) in
  do* kstore (update_flags entry (set_type 14)) in
  do* kstore (update_flags entry (set_zero 0)) in
  ret true.

Definition enableInterrupts : prog kernel unit := modify (fun k => set_eflags (set_bits 9 1 1 (k_eflags k)) k).
Definition disableInterrupts : prog kernel unit := modify (fun k => set_eflags (set_bits 9 1 0 (k_eflags k)) k).

Definition lidt (size address : Z) : prog kernel unit :=
  modify (fun k => Kernel (k_machine k) (k_eflags k) (k_msr k) (k_ports k) (size, address)).

Definition loadIDT (_IDT : Z) : prog kernel unit :=
  do* disableInterrupts in
  do* lidt 4095 _IDT in
  enableInterrupts.

(** The array of the addresses of the stubs is at [_handler_stub_table]. *)
Definition installAll (_IDT _handler_stub_table : Z) : prog kernel unit :=
  for_loop 256 0 (fun i =>
    let* handler := kload (fun m => ld32 m (_handler_stub_table + 4 * i)) in
    do* installInterrupt _IDT (u8 i) handler 0 in ret tt).

(** ** The 8259s *)

Definition PIC_COMMAND_MASTER : Z := 32.
Definition PIC_DATA_MASTER : Z := 33.
Definition PIC_COMMAND_SLAVE : Z := 160.
Definition PIC_DATA_SLAVE : Z := 161.
Definition ICW1_INIT : Z := 16.
Definition ICW1_ICW4 : Z := 1.
Definition ICW4_8086 : Z := 1.
Definition PIC_MASK_INTERRUPTS : Z := 255.

Definition disablePIC : prog kernel unit :=
  do* outb PIC_COMMAND_MASTER (Z.lor ICW1_INIT ICW1_ICW4) in
  do* iowait in
  do* outb PIC_COMMAND_SLAVE (Z.lor ICW1_INIT ICW1_ICW4) in
  do* iowait in
  do* outb PIC_DATA_MASTER MASTER_PIC_VECTOR_OFFSET in
  do* iowait in
  do* outb PIC_DATA_SLAVE SLAVE_PIC_VECTOR_OFFSET in
  do* iowait in
  do* outb PIC_DATA_MASTER 4 in
  do* iowait in
  do* outb PIC_DATA_SLAVE 2 in
  do* iowait in
  do* outb PIC_DATA_MASTER ICW4_8086 in
  do* iowait in
  do* outb PIC_DATA_SLAVE ICW4_8086 in
  do* iowait in
  do* outb PIC_DATA_MASTER PIC_MASK_INTERRUPTS in
  outb PIC_DATA_SLAVE PIC_MASK_INTERRUPTS.

(** The member [initialized] is only read.  The last statement is not a [return]: the
    result is then [None], no value. *)
Definition init (this : interruptDescriptorTable) (_handler_stub_table : Z) : prog kernel (option bool) :=
  if d_initialized this then ret (Some false)
  else
    do* disablePIC in
    do* installAll (d_IDT this) _handler_stub_table in
    do* loadIDT (d_IDT this) in
    ret None.

(** ** The handler *)

Definition string_of_bytes (l : list Z) : string :=
  string_of_list_ascii (map (fun c => ascii_of_nat (Z.to_nat c)) l).

(** [tempNum0] is what the local array holds before [xtoa] writes it. *)
Definition interruptHandler (tempNum0 : list Z) (isr_frame : Z) : prog kernel unit :=
  let* vector := kload (fun m => get isr_frame_t "intNumber" m isr_frame) in
  if vector =? 255 then lift (print ("Warning: Spurious interrupt caught" ++ newline)%string)
  else
    do* lift (print " INFO: Interrupt called with vector 0x") in
    do* lift (print_u32 vector) in
    do* lift (print newline) in
    match xtoa 32 false vector tempNum0 16 with
    | Val r =>
        let tempNum := default tempNum0 r in
        let msg := (bytes_of_string "Interrupt called with vector xxx" ++ [0])%list in
        let msg := <[29%nat := tempNum !!! 0%nat]> msg in
        let msg := <[30%nat := tempNum !!! 1%nat]> msg in
        let msg := <[31%nat := tempNum !!! 2%nat]> msg in
        lift (earlyPanic (string_of_bytes (c_str msg)))
    | Fault => fun _ => Undefined
    | NoFuel => fun _ => OutOfFuel
    end.

(** ** From the processor to the handler *)

(** The registers [pushal] saves. *)
Record registers : Type := Registers {
  r_eax : Z; r_ecx : Z; r_edx : Z; r_ebx : Z; r_ebp : Z; r_esi : Z; r_edi : Z
}.

Definition push (v : Z) (st : Z * mem) : Z * mem :=
  let esp := u32 (fst st - 4) in (esp, store 4 (snd st) esp v).

(** What the processor pushes: [err] for the exceptions with an error code. *)
Definition cpu_entry (eflags cs eip : Z) (err : option Z) (st : Z * mem) : Z * mem :=
  let st := push eip (push cs (push eflags st)) in
  match err with Some e => push e st | None => st end.

Definition pushal (r : registers) (st : Z * mem) : Z * mem :=
  let esp0 := fst st in
  push (r_edi r) (push (r_esi r) (push (r_ebp r) (push esp0
    (push (r_ebx r) (push (r_edx r) (push (r_ecx r) (push (r_eax r) st))))))).

(** The macros [CREATE_HANDLER_NO_ERR] and [CREATE_HANDLER_ERR], with the common code
    up to the call, which pushes the return address [back]. *)
Definition handler_stub (has_err : bool) (number back : Z) (r : registers) (st : Z * mem) : Z * mem :=
  let st := if has_err then st else push 0 st in
  push back (pushal r (push number st)).

Definition pop (st : Z * mem) : Z * (Z * mem) := (ld32 (snd st) (fst st), (u32 (fst st + 4), snd st)).

(** The place of %esp is skipped. *)
Definition popal (st : Z * mem) : registers * (Z * mem) :=
  let '(edi, st) := pop st in let '(esi, st) := pop st in let '(ebp, st) := pop st in let '(_, st) := pop st in
  let '(ebx, st) := pop st in let '(edx, st) := pop st in let '(ecx, st) := pop st in let '(eax, st) := pop st in
  (Registers eax ecx edx ebx ebp esi edi, st).

(** Where a program goes on, and with what. *)
Record resumed : Type := Resumed { i_eip : Z; i_cs : Z; i_eflags : Z; i_esp : Z; i_regs : registers }.

#[export] Instance registers_eq_dec : EqDecision registers.
Proof. solve_decision. Defined.

#[export] Instance resumed_eq_dec : EqDecision resumed.
Proof. solve_decision. Defined.

(** The stubs behind the call: the registers, number and error code dropped, [iret]. *)
Definition handler_return (st : Z * mem) : resumed :=
  let '(r, st) := popal st in
  let st := (u32 (fst st + 8), snd st) in
  let '(eip, st) := pop st in let '(cs, st) := pop st in let '(eflags, st) := pop st in
  Resumed eip cs eflags (fst st) r.

(** The vectors created with [CREATE_HANDLER_ERR]. *)
Definition handler_err (number : Z) : bool :=
  bool_decide (number ∈ [8; 10; 11; 12; 13; 14; 17; 21; 29; 30]).

(** The address the processor goes to for a vector, when the table and the gate let it. *)
Definition gate (idtr : Z * Z) (vector : Z) (m : mem) : option Z :=
  if 8 * vector + 7 <=? fst idtr then
    let entry := snd idtr + 8 * vector in
    let flags := get interruptDescriptor "flags" m entry in
    if (get_bits 7 1 flags =? 1) && (get_bits 0 5 flags =? 14)
       && (get interruptDescriptor "segment_selector" m entry =? CODE32_KSEGMENT)
    then Some (65536 * get interruptDescriptor "address_high" m entry +
               get interruptDescriptor "address_low" m entry)
    else None
  else None.

Section Raise.
(** The vector whose stub starts at an address. *)
Variable stub_at : Z -> option Z.

(** [int $vector]: the gate, the frame on the stack, the handler, and the way back when it
    returns, which has to end where the program was.  Without a usable gate the machine
    faults. *)
Definition int_n (tempNum0 : list Z) (vector esp cs eip back : Z) (r : registers) : prog kernel unit := fun k =>
  match gate (k_idtr k) vector (k_ram k) with
  | Some address =>
      match stub_at address with
      | Some number =>
          let st := cpu_entry (k_eflags k) cs eip None (esp, k_ram k) in
          let '(esp', m) := handler_stub (handler_err number) number back r st in
          match interruptHandler tempNum0 (u32 (esp' + 4)) (set_eflags (set_bits 9 1 0 (k_eflags k)) (set_kram m k)) with
          | Done _ k' =>
              let f := handler_return (u32 (esp' + 4), k_ram k') in
              if decide (f = Resumed eip cs (i_eflags f) esp r) then Done tt (set_eflags (i_eflags f) k') else Undefined
          | Panicked msg k' => Panicked msg k'
          | OutOfFuel => OutOfFuel
          | Undefined => Undefined
          end
      | None => Undefined
      end
  | None => Undefined
  end.
End Raise.

(** ** Proofs: the table *)

Lemma set_kram_set_kram m1 m2 k : set_kram m2 (set_kram m1 k) = set_kram m2 k.
Proof. by destruct k as [[]]. Qed.

Lemma set_kram_same k : k = set_kram (k_ram k) k.
Proof. by destruct k as [[]]. Qed.

Lemma bind_kstore {A} (f : mem -> mem) (c : unit -> prog kernel A) m k :
  bind (kstore f) c (set_kram m k) = c tt (set_kram (f m) k).
Proof. reflexivity. Qed.

Lemma bind_kload {A B} (f : mem -> A) (c : A -> prog kernel B) k :
  bind (kload f) c k = c (f (k_ram k)) k.
Proof. done. Qed.

Lemma k_ram_set_kram m k : k_ram (set_kram m k) = m.
Proof. done. Qed.

Definition gate_flags (dpl flags : Z) : Z := set_zero 0 (set_type 14 (set_present 1 (set_dpl dpl flags))).

(** Whatever the byte was before. *)
Lemma gate_flags_value dpl flags :
  0 <= flags < 256 -> 0 <= dpl < 4 -> gate_flags dpl flags = 142 + 32 * dpl.
Proof.
  intros Hf Hd.
  assert (forallb (fun d => forallb (fun f => gate_flags d f =? 142 + 32 * d) (seqZ 0 256)) (seqZ 0 4) = true) as H
    by (vm_compute; reflexivity).
  rewrite forallb_forall in H. specialize (H dpl). rewrite forallb_forall in H.
  apply Z.eqb_eq, H; apply list_elem_of_In, elem_of_seqZ; lia.
Qed.

(** The bits stay in a byte. *)
Lemma set_bits_byte lo w v old :
  0 <= lo -> 0 <= w -> lo + w <= 8 -> 0 <= old < 256 -> 0 <= set_bits lo w v old < 256.
Proof. apply (set_bits_bound 8). Qed.

(** As the byte is stored after each assignment. *)
Lemma gate_flags_steps dpl flags :
  0 <= flags < 256 -> 0 <= dpl < 4 ->
  set_zero 0 (set_type 14 (set_present 1 (set_dpl dpl flags mod 256) mod 256) mod 256) mod 256 = 142 + 32 * dpl.
Proof.
  intros Hf Hd. rewrite <- (gate_flags_value dpl flags Hf Hd). unfold gate_flags.
  rewrite (Z.mod_small (set_dpl dpl flags)) by (by apply set_bits_byte).
  set (f1 := set_dpl dpl flags). assert (0 <= f1 < 256) as H1 by (by apply set_bits_byte). clearbody f1.
  rewrite (Z.mod_small (set_present 1 f1)) by (by apply set_bits_byte).
  set (f2 := set_present 1 f1). assert (0 <= f2 < 256) as H2 by (by apply set_bits_byte). clearbody f2.
  rewrite (Z.mod_small (set_type 14 f2)) by (by apply set_bits_byte).
  set (f3 := set_type 14 f2). assert (0 <= f3 < 256) as H3 by (by apply set_bits_byte). clearbody f3.
  apply Z.mod_small. by apply set_bits_byte.
Qed.

Lemma interruptDescriptor_ok : layout_ok interruptDescriptor = true.
Proof. reflexivity. Qed.
#[local] Hint Resolve interruptDescriptor_ok : core.

(** What a descriptor must hold. *)
Record gate_at (m : mem) (entry handler dpl : Z) : Prop := {
  ga_low : get interruptDescriptor "address_low" m entry = handler mod 65536;
  ga_high : get interruptDescriptor "address_high" m entry = handler / 65536;
  ga_segment : get interruptDescriptor "segment_selector" m entry = CODE32_KSEGMENT;
  ga_flags : get interruptDescriptor "flags" m entry = 142 + 32 * dpl;
}.

Lemma get_flags_bounds m p : 0 <= get interruptDescriptor "flags" m p < 256.
Proof. apply (load_bounds 1). Qed.

Lemma update_flags_spec f m entry :
  let m' := update_flags entry f m in
  get interruptDescriptor "flags" m' entry = f (get interruptDescriptor "flags" m entry) mod 256 /\
  (forall g, g <> "flags" -> get interruptDescriptor g m' entry = get interruptDescriptor g m entry) /\
  only_changes entry 8 m m'.
Proof.
  intros m'. unfold m', update_flags. split; [by rewrite get_put_eq|]. split.
  - intros g Hg. by rewrite get_put_ne.
  - by apply (put_only_changes interruptDescriptor).
Qed.

Lemma installInterrupt_spec idt vector handler dpl k :
  0 <= handler < 4294967296 -> 0 <= dpl < 4 ->
  exists m', installInterrupt idt vector handler dpl k = Done true (set_kram m' k) /\
    gate_at m' (idt + 8 * vector) handler dpl /\ only_changes (idt + 8 * vector) 8 (k_ram k) m'.
Proof.
  intros Hh Hd. remember (idt + 8 * vector) as e eqn:Ee.
  assert (installInterrupt idt vector handler dpl k = Done true (set_kram (update_flags e (set_zero 0)
    (update_flags e (set_type 14) (update_flags e (set_present 1) (update_flags e (set_dpl dpl)
    (put interruptDescriptor "segment_selector" (put interruptDescriptor "address_high"
      (put interruptDescriptor "address_low" (k_ram k) e (Z.land handler 65535))
      e (Z.land (Z.shiftr handler 16) 65535)) e CODE32_KSEGMENT))))) k)) as E.
  { rewrite (set_kram_same k) at 1. unfold installInterrupt. rewrite !bind_kstore. by subst e. }
  remember (put _ "address_low" _ _ _) as m1 eqn:E1. remember (put _ "address_high" _ _ _) as m2 eqn:E2.
  remember (put _ "segment_selector" _ _ _) as m3 eqn:E3. remember (update_flags e (set_dpl _) _) as m4 eqn:E4.
  remember (update_flags e (set_present _) _) as m5 eqn:E5. remember (update_flags e (set_type _) _) as m6 eqn:E6.
  remember (update_flags e (set_zero _) _) as m7 eqn:E7. exists m7. split; [exact E|]. clear E Ee.
  destruct (update_flags_spec (set_dpl dpl) m3 e) as (F4 & O4 & C4). rewrite <- E4 in F4, O4, C4.
  destruct (update_flags_spec (set_present 1) m4 e) as (F5 & O5 & C5). rewrite <- E5 in F5, O5, C5.
  destruct (update_flags_spec (set_type 14) m5 e) as (F6 & O6 & C6). rewrite <- E6 in F6, O6, C6.
  destruct (update_flags_spec (set_zero 0) m6 e) as (F7 & O7 & C7). rewrite <- E7 in F7, O7, C7.
  split.
  - split.
    + rewrite O7, O6, O5, O4 by done. rewrite E3, E2, E1, !get_put_ne, get_put_eq by done.
      change 65535 with (Z.ones 16). rewrite Z.land_ones by lia.
      change (256 ^ fieldsize interruptDescriptor "address_low") with (2 ^ 16). by rewrite Z.mod_mod.
    + rewrite O7, O6, O5, O4 by done. rewrite E3, E2, get_put_ne, get_put_eq by done.
      change 65535 with (Z.ones 16). rewrite Z.land_ones, Z.shiftr_div_pow2 by lia.
      change (256 ^ fieldsize interruptDescriptor "address_high") with (2 ^ 16). change (2 ^ 16) with 65536.
      rewrite Z.mod_mod by done. apply Z.mod_small. split; [apply Z.div_pos; lia|apply Z.div_lt_upper_bound; lia].
    + by rewrite O7, O6, O5, O4, E3, get_put_eq.
    + rewrite F7, F6, F5, F4. apply gate_flags_steps; [apply get_flags_bounds|done].
  - subst m1 m2 m3. do 3 (eapply only_changes_trans; [by apply (put_only_changes interruptDescriptor)|]).
    eapply only_changes_trans; [exact C4|]. eapply only_changes_trans; [exact C5|].
    by eapply only_changes_trans.
Qed.

Lemma gate_at_frame m m' e h d p n :
  gate_at m e h d -> only_changes p n m m' -> fits p n -> fits e 8 -> e + 8 <= p \/ p + n <= e ->
  gate_at m' e h d.
Proof.
  intros [H1 H2 H3 H4] Hc Hp He Ho. destruct (id He) as (? & _ & ?).
  assert (forall f, 0 <= offsetof interruptDescriptor f ->
    offsetof interruptDescriptor f + Z.of_nat (Z.to_nat (fieldsize interruptDescriptor f)) <= 8 ->
    get interruptDescriptor f m' e = get interruptDescriptor f m e) as Hf.
  { intros f Hf0 Hf8. apply (load_out _ _ _ _ _ _ Hc Hp); [|lia]. unfold fits. lia. }
  split; rewrite Hf; done || (vm_compute; discriminate).
Qed.

(** The handler addresses of the table of stubs. *)
Definition handler_of (stubs : Z) (m : mem) (v : Z) : Z := ld32 m (stubs + 4 * v).

Lemma installAll_spec idt stubs k :
  fits idt 2048 -> fits stubs 1024 -> stubs + 1024 <= idt \/ idt + 2048 <= stubs ->
  exists m', installAll idt stubs k = Done tt (set_kram m' k) /\
    only_changes idt 2048 (k_ram k) m' /\
    forall v, 0 <= v < 256 -> gate_at m' (idt + 8 * v) (handler_of stubs (k_ram k) v) 0.
Proof.
  intros Hi Hs Ho. destruct (id Hi) as (? & _ & ?). destruct (id Hs) as (? & _ & ?).
  set (P := fun j k' => exists m', k' = set_kram m' k /\ only_changes idt 2048 (k_ram k) m' /\
    forall v, 0 <= v < j -> gate_at m' (idt + 8 * v) (handler_of stubs (k_ram k) v) 0).
  destruct (for_loop_inv P 256 0 (fun i =>
    let* handler := kload (fun m => ld32 m (stubs + 4 * i)) in
    do* installInterrupt idt (u8 i) handler 0 in ret tt) k) as (k' & E & m' & -> & Hc & Hg).
  - exists (k_ram k). split; [by destruct k as [[]]|]. split; [apply only_changes_refl|]. intros. lia.
  - intros j k1 Hj (m1 & -> & Hc1 & Hg1). change (Z.of_nat 256) with 256 in Hj.
    assert (ld32 m1 (stubs + 4 * j) = handler_of stubs (k_ram k) j) as Eh.
    { apply (load_out _ _ _ _ _ _ Hc1 Hi); unfold fits; lia. }
    destruct (installInterrupt_spec idt (u8 j) (handler_of stubs (k_ram k) j) 0 (set_kram m1 k))
      as (m2 & E2 & Hg2 & Hc2); [apply ld32_bounds|lia|]. rewrite (u8_small j) in * by lia.
    exists (set_kram m2 k). split.
    { rewrite bind_kload, k_ram_set_kram, Eh, (bind_Done _ _ _ _ _ E2). unfold ret. by rewrite set_kram_set_kram. }
    exists m2. split; [done|]. rewrite k_ram_set_kram in Hc2. split.
    + eapply only_changes_trans; [exact Hc1|]. eapply only_changes_sub; [exact Hc2|done|lia..].
    + intros v Hv. destruct (Z.eq_dec v j) as [->|Hne]; [done|].
      eapply gate_at_frame; [apply Hg1; lia|exact Hc2|unfold fits; lia|unfold fits; lia|lia].
  - exists m'. change (0 + Z.of_nat 256) with 256 in Hg. split; [exact E|by split].
Qed.

(** ** Proofs: the 8259s

    What an 8259A does with the bytes written to it: command word 1 (bit 4) starts the
    initialisation; the next data bytes are the vector base, the cascade word (unless
    single) and, if announced, word 4; any other data byte is the mask. *)
Inductive pic_step : Type := PicReady | PicWord2 | PicWord3 | PicWord4.

Record pic : Type := Pic {
  p_step : pic_step; p_single : bool; p_word4 : bool;
  p_base : Z; p_cascade : Z; p_mode : Z; p_mask : Z
}.

Definition pic_command (v : Z) (p : pic) : pic :=
  if Z.testbit v 4 then Pic PicWord2 (Z.testbit v 1) (Z.testbit v 0) (p_base p) (p_cascade p) 0 0 else p.

Definition pic_data (v : Z) (p : pic) : pic :=
  let last := if p_word4 p then PicWord4 else PicReady in
  match p_step p with
  | PicReady => Pic PicReady (p_single p) (p_word4 p) (p_base p) (p_cascade p) (p_mode p) v
  | PicWord2 => Pic (if p_single p then last else PicWord3) (p_single p) (p_word4 p) (Z.land v 248)
                  (p_cascade p) (p_mode p) (p_mask p)
  | PicWord3 => Pic last (p_single p) (p_word4 p) (p_base p) v (p_mode p) (p_mask p)
  | PicWord4 => Pic PicReady (p_single p) (p_word4 p) (p_base p) (p_cascade p) v (p_mask p)
  end.

(** The port with its controller: master, slave. *)
Definition pics_write (ps : pic * pic) (w : Z * Z) : pic * pic :=
  let '(port, v) := w in
  if port =? PIC_COMMAND_MASTER then (pic_command v (fst ps), snd ps)
  else if port =? PIC_DATA_MASTER then (pic_data v (fst ps), snd ps)
  else if port =? PIC_COMMAND_SLAVE then (fst ps, pic_command v (snd ps))
  else if port =? PIC_DATA_SLAVE then (fst ps, pic_data v (snd ps))
  else ps.

(** Initialised, in 8086 mode, every line masked, vectors 0xf8 to 0xff. *)
Definition pic_off (cascade : Z) (p : pic) : Prop :=
  p_step p = PicReady /\ p_mode p = 1 /\ p_mask p = 255 /\ p_base p = 248 /\ p_cascade p = cascade.

(** The state after some more port writes. *)
Definition wrote (ws : list (Z * Z)) (k : kernel) : kernel :=
  Kernel (k_machine k) (k_eflags k) (k_msr k) (k_ports k ++ ws) (k_idtr k).

Lemma wrote_nil k : k = wrote [] k.
Proof. destruct k. unfold wrote. cbn. by rewrite app_nil_r. Qed.

Lemma outb_wrote port v ws k : outb port v (wrote ws k) = Done tt (wrote (ws ++ [(u16 port, u8 v)]) k).
Proof. unfold wrote, outb, modify. cbn [k_machine k_eflags k_msr k_ports k_idtr]. by rewrite app_assoc. Qed.

Lemma bind_outb {A} port v ws k (c : unit -> prog kernel A) :
  bind (outb port v) c (wrote ws k) = c tt (wrote (ws ++ [(u16 port, u8 v)]) k).
Proof. by rewrite (bind_Done _ _ _ _ _ (outb_wrote _ _ _ _)). Qed.

Lemma disablePIC_spec k :
  exists ws, disablePIC k = Done tt (wrote ws k) /\
    forall ps, let '(master, slave) := fold_left pics_write ws ps in pic_off 4 master /\ pic_off 2 slave.
Proof.
  eexists. split.
  - rewrite (wrote_nil k) at 1. unfold disablePIC, iowait. rewrite !bind_outb, outb_wrote. reflexivity.
  - intros [p1 p2]. vm_compute. by repeat split.
Qed.

(** The mask registers, as the data ports of the controllers [ps] answer a read. *)
Definition pics_answer (ps : pic * pic) (ws : list (Z * Z)) (port : Z) : Z :=
  let '(master, slave) := fold_left pics_write ws ps in
  if port =? PIC_DATA_MASTER then p_mask master else if port =? PIC_DATA_SLAVE then p_mask slave else 0.

(** What [inb] reads back after [disablePIC]: every line of both is masked. *)
Lemma disablePIC_read ps k :
  exists k', disablePIC k = Done tt k' /\ inb (pics_answer ps) PIC_DATA_MASTER k' = Done PIC_MASK_INTERRUPTS k' /\
    inb (pics_answer ps) PIC_DATA_SLAVE k' = Done PIC_MASK_INTERRUPTS k'.
Proof.
  destruct (disablePIC_spec k) as (ws & E & Hpic). exists (wrote ws k). split; [exact E|].
  unfold inb, gets, wrote, pics_answer. cbn [k_ports]. rewrite fold_left_app.
  specialize (Hpic (fold_left pics_write (k_ports k) ps)). destruct (fold_left pics_write ws _) as [master slave].
  destruct Hpic as [(_ & _ & Hm & _) (_ & _ & Hs & _)]. cbn. by rewrite Hm, Hs.
Qed.

Lemma enabled_bit v : Z.testbit (set_bits 9 1 1 v) 9 = true.
Proof.
  unfold set_bits. by rewrite Z.lor_spec, Z.ldiff_spec, !Z.shiftl_spec by lia; rewrite orb_true_r.
Qed.

Lemma gate_at_gate idt v h m :
  0 <= v < 256 -> 0 <= h < 4294967296 -> gate_at m (idt + 8 * v) h 0 -> gate (4095, idt) v m = Some h.
Proof.
  intros Hv Hh [H1 H2 H3 H4]. unfold gate. cbn [fst snd]. rewrite (proj2 (Z.leb_le _ _)) by lia.
  rewrite H1, H2, H3, H4. cbn [get_bits andb].
  change (get_bits 7 1 (142 + 32 * 0) =? 1) with true. change (get_bits 0 5 (142 + 32 * 0) =? 14) with true.
  rewrite Z.eqb_refl. cbn [andb]. f_equal. pose proof (Z.div_mod h 65536). lia.
Qed.

Lemma init_lemma idt stubs k :
  fits idt 2048 -> fits stubs 1024 -> stubs + 1024 <= idt \/ idt + 2048 <= stubs ->
  exists ws m', init (new_interruptDescriptorTable idt) stubs k = Done None
    (Kernel (set_ram m' (k_machine k)) (set_bits 9 1 1 (set_bits 9 1 0 (k_eflags k))) (k_msr k)
      (k_ports k ++ ws) (4095, idt)) /\
    only_changes idt 2048 (k_ram k) m' /\
    (forall v, 0 <= v < 256 -> gate (4095, idt) v m' = Some (handler_of stubs (k_ram k) v)) /\
    (forall ps, let '(master, slave) := fold_left pics_write ws ps in pic_off 4 master /\ pic_off 2 slave).
Proof.
  intros Hi Hs Ho. destruct (disablePIC_spec k) as (ws & E1 & Hpic).
  destruct (installAll_spec idt stubs (wrote ws k) Hi Hs Ho) as (m' & E2 & Hc & Hg).
  exists ws, m'. split.
  - unfold init. cbn [d_initialized d_IDT new_interruptDescriptorTable].
    rewrite (bind_Done _ _ _ _ _ E1), (bind_Done _ _ _ _ _ E2). reflexivity.
  - split; [exact Hc|]. split; [|exact Hpic].
    intros v Hv. apply gate_at_gate; [done|apply ld32_bounds|by apply Hg].
Qed.

(** ** Proofs: the frame *)

Lemma ld32_push v st :
  0 <= v < 4294967296 -> 4 <= fst st < 4294967296 -> ld32 (snd (push v st)) (fst st - 4) = v.
Proof.
  intros Hv Hs. unfold push. cbn [snd]. rewrite u32_small, load_store by lia.
  by rewrite Z.mod_small by (change (256 ^ Z.of_nat 4) with 4294967296; lia).
Qed.

(** A push leaves what is above it. *)
Lemma ld32_push_above v st a :
  4 <= fst st < 4294967296 -> fst st <= a -> a + 4 <= 4294967296 ->
  ld32 (snd (push v st)) a = ld32 (snd st) a.
Proof.
  intros Hs Ha Ha2. unfold push. cbn [snd]. rewrite u32_small by lia.
  apply load_store_ne; [lia|]. intros i Hi. apply in_range_false; lia.
Qed.

Lemma fst_push v st : 4 <= fst st < 4294967296 -> fst (push v st) = fst st - 4.
Proof. intros. unfold push. cbn [fst]. by rewrite u32_small by lia. Qed.

(** A list of values pushed one after the other. *)
Definition pushes (l : list Z) (st : Z * mem) : Z * mem := fold_left (fun st v => push v st) l st.

Lemma pushes_above l st a :
  4 * Z.of_nat (List.length l) <= fst st < 4294967296 -> fst st <= a -> a + 4 <= 4294967296 ->
  ld32 (snd (pushes l st)) a = ld32 (snd st) a.
Proof.
  revert st. induction l as [|v l IH]; intros st Hs Ha Ha2; cbn [pushes fold_left List.length] in *; [done|].
  change (fold_left _ l ?x) with (pushes l x). rewrite IH, ld32_push_above by (rewrite ?fst_push; lia). done.
Qed.

Lemma fst_pushes l st :
  4 * Z.of_nat (List.length l) <= fst st < 4294967296 ->
  fst (pushes l st) = fst st - 4 * Z.of_nat (List.length l).
Proof.
  revert st. induction l as [|v l IH]; intros st Hs; cbn [pushes fold_left List.length] in *; [lia|].
  change (fold_left _ l ?x) with (pushes l x). rewrite IH, fst_push by (rewrite ?fst_push; lia). lia.
Qed.

Lemma ld32_pushes l st (i : nat) v :
  l !! i = Some v -> 0 <= v < 4294967296 -> 4 * Z.of_nat (List.length l) <= fst st < 4294967296 ->
  ld32 (snd (pushes l st)) (fst st - 4 * (Z.of_nat i + 1)) = v.
Proof.
  revert st i. induction l as [|x l IH]; intros st i Hi Hv Hs; [done|].
  cbn [pushes fold_left List.length] in *. change (fold_left _ l ?x) with (pushes l x).
  destruct i as [|i]; cbn in Hi.
  - injection Hi as ->. rewrite pushes_above by (rewrite ?fst_push; lia).
    replace (fst st - 4 * (Z.of_nat 0 + 1)) with (fst st - 4) by lia. apply ld32_push; lia.
  - replace (fst st - 4 * (Z.of_nat (S i) + 1)) with (fst (push x st) - 4 * (Z.of_nat i + 1)) by (rewrite fst_push; lia).
    apply IH; [done..|]. rewrite fst_push; lia.
Qed.

(** Everything pushed on the way to the handler. *)
Definition entry_words (eflags cs eip : Z) (err : option Z) (number esp : Z) (r : registers) (back : Z) : list Z :=
  [eflags; cs; eip; default 0 err; number; r_eax r; r_ecx r; r_edx r; r_ebx r; esp - 20; r_ebp r; r_esi r;
   r_edi r; back].

Lemma entry_pushes eflags cs eip err has_err number back r esp m :
  has_err = bool_decide (is_Some err) -> 20 <= esp < 4294967296 ->
  handler_stub has_err number back r (cpu_entry eflags cs eip err (esp, m)) =
  pushes (entry_words eflags cs eip err number esp r back) (esp, m).
Proof.
  intros -> He. assert (forall a b c d e, fst (pushes [a; b; c; d; e] (esp, m)) = esp - 20) as Hp
    by (intros; rewrite fst_pushes by (cbn; lia); cbn; lia).
  destruct err as [e|].
  - rewrite bool_decide_eq_true_2 by done. unfold handler_stub, cpu_entry, pushal, entry_words.
    cbn [default]. rewrite <- (Hp eflags cs eip e number). reflexivity.
  - rewrite bool_decide_eq_false_2 by (by intros []). unfold handler_stub, cpu_entry, pushal, entry_words.
    cbn [default]. rewrite <- (Hp eflags cs eip 0 number). reflexivity.
Qed.

Definition word (v : Z) : Prop := 0 <= v < 4294967296.

Definition registers_ok (r : registers) : Prop :=
  word (r_eax r) /\ word (r_ecx r) /\ word (r_edx r) /\ word (r_ebx r) /\ word (r_ebp r) /\
  word (r_esi r) /\ word (r_edi r).

(** The structure the C++ handler receives, at [p]. *)
Record frame_at (m : mem) (p eflags cs eip err number esp : Z) (r : registers) : Prop := {
  fr_number : get isr_frame_t "intNumber" m p = number;
  fr_error : get isr_frame_t "errorCode" m p = err;
  fr_eip : get isr_frame_t "eip" m p = eip;
  fr_cs : get isr_frame_t "cs" m p = cs;
  fr_eflags : get isr_frame_t "eflags" m p = eflags;
  fr_esp : get pushad_frame "esp" m p = esp;
  fr_general :
    map (fun f => get pushad_frame f m p) ["eax"; "ecx"; "edx"; "ebx"; "ebp"; "esi"; "edi"] =
    [r_eax r; r_ecx r; r_edx r; r_ebx r; r_ebp r; r_esi r; r_edi r];
}.

Lemma frame_lemma eflags cs eip err number back r esp m :
  word eflags -> word cs -> word eip -> word (default 0 err) -> word number -> registers_ok r ->
  word back -> 56 <= esp < 4294967296 ->
  let '(esp', m') := handler_stub (bool_decide (is_Some err)) number back r (cpu_entry eflags cs eip err (esp, m)) in
  u32 (esp' + 4) = esp - 52 /\ frame_at m' (esp - 52) eflags cs eip (default 0 err) number (esp - 20) r.
Proof.
  intros Hf Hc Hi He Hn (? & ? & ? & ? & ? & ? & ?) Hb Hs. rewrite entry_pushes by (done || lia).
  set (l := entry_words eflags cs eip err number esp r back).
  pose proof (fst_pushes l (esp, m)) as Hfst. cbn [fst List.length l entry_words] in Hfst.
  pose proof (ld32_pushes l (esp, m)) as Hld. cbn [fst] in Hld. change (Z.of_nat (List.length l)) with 14 in *.
  destruct (pushes l (esp, m)) as [esp' m']. cbn [fst snd] in *. rewrite Hfst by lia.
  assert (forall L f (i : nat) v, l !! i = Some v -> word v -> fieldsize L f = 4 ->
    offsetof L f = 52 - 4 * (Z.of_nat i + 1) -> get L f m' (esp - 52) = v) as Hget.
  { intros L f i v Hl Hv Hfs Ho. unfold get. rewrite Hfs, Ho. change (load (Z.to_nat 4)) with ld32.
    rewrite <- (Hld i v Hl Hv) by lia. f_equal. lia. }
  split; [rewrite u32_small; lia|]. unfold word in Hget. split.
  - by apply (Hget _ _ 4%nat).
  - by apply (Hget _ _ 3%nat).
  - by apply (Hget _ _ 2%nat).
  - by apply (Hget _ _ 1%nat).
  - by apply (Hget _ _ 0%nat).
  - apply (Hget _ _ 9%nat); [done|lia|done|done].
  - cbn [map]. repeat f_equal; [by apply (Hget _ _ 5%nat)|by apply (Hget _ _ 6%nat)|by apply (Hget _ _ 7%nat)|
      by apply (Hget _ _ 8%nat)|by apply (Hget _ _ 10%nat)|by apply (Hget _ _ 11%nat)|by apply (Hget _ _ 12%nat)].
Qed.

(** The way back from a frame that is as it was received. *)
Lemma handler_return_frame m p eflags cs eip err number esp r :
  0 <= p -> p + 52 < 4294967296 -> frame_at m p eflags cs eip err number esp r ->
  handler_return (p, m) = Resumed eip cs eflags (p + 52) r.
Proof.
  intros H0 H1 [_ _ He Hc Hf _ Hg]. unfold handler_return, popal, pop. cbn [fst snd].
  repeat match goal with |- context [u32 (?a + 4)] => rewrite (u32_small (a + 4)) by lia end.
  rewrite (u32_small (_ + 8)) by lia.
  repeat match goal with |- context [u32 (?a + 4)] => rewrite (u32_small (a + 4)) by lia end.
  rewrite <- !Z.add_assoc.
  injection Hg as G1 G2 G3 G4 G5 G6 G7. destruct r. cbn [r_eax r_ecx r_edx r_ebx r_ebp r_esi r_edi] in *.
  change (ld32 m (p + 40) = eip) in He. change (ld32 m (p + 44) = cs) in Hc. change (ld32 m (p + 48) = eflags) in Hf.
  change (ld32 m (p + 28) = r_eax0) in G1. change (ld32 m (p + 24) = r_ecx0) in G2. change (ld32 m (p + 20) = r_edx0) in G3.
  change (ld32 m (p + 16) = r_ebx0) in G4. change (ld32 m (p + 8) = r_ebp0) in G5. change (ld32 m (p + 4) = r_esi0) in G6.
  change (ld32 m (p + 0) = r_edi0) in G7. rewrite Z.add_0_r in G7. subst. reflexivity.
Qed.

Lemma frame_at_ext m m' p eflags cs eip err number esp r :
  (forall i, 0 <= i < 52 -> rd8 m' (p + i) = rd8 m (p + i)) ->
  frame_at m p eflags cs eip err number esp r -> frame_at m' p eflags cs eip err number esp r.
Proof.
  intros H.
  assert (forall L f, 0 <= offsetof L f -> offsetof L f + fieldsize L f <= 52 -> 0 <= fieldsize L f -> get L f m' p = get L f m p) as E.
  { intros L f H0 H1 H2. apply load_ext. intros i Hi. rewrite <- !Z.add_assoc. apply H. lia. }
  intros [H1 H2 H3 H4 H5 H6 H7].
  split; [rewrite E; (done || (vm_compute; discriminate))..|]. cbn [map] in *.
  by rewrite !E by (vm_compute; discriminate).
Qed.

(** ** Proofs: the handler's message *)

Lemma numeral_value_app base s c :
  0 <= base -> Forall (is_digit base) s -> c * base ^ Z.of_nat (List.length s) <= fold_left (fun acc d => acc * base + char_value d) s c.
Proof.
  intros Hb Hs. revert c. induction Hs as [|d s [Hd _] Hs IH]; intros c; cbn [fold_left List.length].
  - change (Z.of_nat 0) with 0. lia.
  - eapply Z.le_trans; [|apply IH]. rewrite Nat2Z.inj_succ, Z.pow_succ_r, Z.mul_assoc by lia.
    apply Z.mul_le_mono_nonneg_r; [apply Z.pow_nonneg; lia|lia].
Qed.

(** A numeral below 4096 in base 16 has at most three digits. *)
Lemma three_digits s :
  Forall (is_digit 16) s -> (head s = Some 48 -> s = [48]) -> numeral_value 16 s < 4096 ->
  (List.length s <= 3)%nat.
Proof.
  intros Hs Hz Hv. destruct s as [|d s]; [cbn; lia|].
  destruct (Z.eq_dec d 48) as [->|Hd]; [rewrite Hz by done; cbn; lia|].
  inversion Hs as [|? ? Hd0 Hs']; subst. unfold numeral_value in Hv. cbn [fold_left] in Hv.
  pose proof (numeral_value_app 16 s (0 * 16 + char_value d) ltac:(lia) Hs') as Hle.
  assert (1 <= 0 * 16 + char_value d) as H1.
  { destruct Hd0 as [Hr Hc]. unfold char_value in *. destruct (Z.ltb_spec d 65); lia. }
  cbn [List.length]. apply le_n_S. destruct (Nat.le_gt_cases (List.length s) 2) as [|Hl]; [done|].
  pose proof (Z.pow_le_mono_r 16 3 (Z.of_nat (List.length s)) ltac:(lia) ltac:(lia)).
  change (16 ^ 3) with 4096 in *. nia.
Qed.

Lemma c_str_three buf :
  (3 <= List.length buf)%nat -> (List.length (c_str buf) <= 3)%nat ->
  c_str [buf !!! 0%nat; buf !!! 1%nat; buf !!! 2%nat; 0] = c_str buf.
Proof.
  destruct buf as [|a [|b [|c buf]]]; cbn [List.length]; try lia. intros _ Hl.
  cbn [lookup_total list_lookup_total] in *. cbn [c_str] in *.
  destruct (a =? 0); [done|]. destruct (b =? 0); [done|]. destruct (c =? 0); [done|].
  cbn [List.length] in Hl. destruct (c_str buf) as [|d l]; [done|]. cbn [List.length] in Hl. lia.
Qed.

Lemma string_of_bytes_app l1 l2 : string_of_bytes (l1 ++ l2) = (string_of_bytes l1 ++ string_of_bytes l2)%string.
Proof.
  unfold string_of_bytes. rewrite map_app. induction (map _ l1) as [|c l IH]; [done|]. cbn. by rewrite IH.
Qed.

Lemma c_str_app_nz s t : Forall (fun c => c <> 0) s -> c_str (s ++ t) = (s ++ c_str t)%list.
Proof.
  induction 1 as [|c s Hc H IH]; [done|]. cbn [app c_str]. by rewrite (proj2 (Z.eqb_neq c 0)), IH by done.
Qed.

Definition handler_text : string := "Interrupt called with vector ".

Lemma handler_message buf :
  (3 <= List.length buf)%nat -> (List.length (c_str buf) <= 3)%nat ->
  string_of_bytes (c_str (<[31%nat := buf !!! 2%nat]> (<[30%nat := buf !!! 1%nat]>
    (<[29%nat := buf !!! 0%nat]> (bytes_of_string "Interrupt called with vector xxx" ++ [0])%list)))) =
  (handler_text ++ string_of_bytes (c_str buf))%string.
Proof.
  intros Hl Hc. rewrite <- (c_str_three buf Hl Hc).
  generalize (buf !!! 0%nat) (buf !!! 1%nat) (buf !!! 2%nat). intros a b c.
  change (<[31%nat := c]> (<[30%nat := b]> (<[29%nat := a]> (bytes_of_string "Interrupt called with vector xxx" ++ [0])%list)))
    with (bytes_of_string handler_text ++ [a; b; c; 0])%list.
  rewrite c_str_app_nz by (repeat constructor; discriminate). by rewrite string_of_bytes_app.
Qed.

Lemma print_screen_k str k :
  machine_ok (k_machine k) ->
  exists s, lift (print str) k = Done tt (set_machine s k) /\ same_but_screen (k_machine k) s.
Proof.
  intros Hok. destruct (print_screen str _ Hok) as (s & E & H). exists s. split; [|done]. by apply lift_Done.
Qed.

(** A local array of 65 characters, with anything in it. *)
Definition local_array (l : list Z) : Prop :=
  Z.of_nat (List.length l) = MAX_NUM_STR_SIZE /\ Forall (fun c => 0 <= c < 256) l.

(** [digits] is the numeral of [v] in base 16, without leading zeros. *)
Definition hex_numeral (v : Z) (digits : list Z) : Prop :=
  Forall (is_digit 16) digits /\ numeral_value 16 digits = v /\ (head digits = Some 48 -> digits = [48]).

Lemma interruptHandler_panics junk frame k vector :
  local_array junk -> machine_ok (k_machine k) ->
  get isr_frame_t "intNumber" (k_ram k) frame = vector -> 0 <= vector < 4096 -> vector <> 255 ->
  exists digits s, hex_numeral vector digits /\
    interruptHandler junk frame k = Panicked (handler_text ++ string_of_bytes digits)%string (set_machine s k) /\
    same_but_screen (k_machine k) s.
Proof.
  intros [Hl Hj] Hok Hv Hr Hne.
  destruct (xtoa_digits 32 false vector junk 16) as (buf & Ex & Hbl & Hd & Hval & Hz);
    [lia|lia|by apply wrap_small; lia|lia|done|done|].
  destruct (print_screen " INFO: Interrupt called with vector 0x" _ Hok) as (s1 & E1 & H1).
  destruct (print_u32_screen vector s1 (proj1 H1) ltac:(lia)) as (s2 & E2 & H2).
  destruct (print_screen newline s2 (proj1 H2)) as (s3 & E3 & H3).
  destruct (earlyPanic_panics (A := unit) (handler_text ++ string_of_bytes (c_str buf))%string s3 (proj1 H3)) as (s4 & E4 & H4).
  exists (c_str buf), s4. split; [by split|]. split.
  - unfold interruptHandler. change (bind (kload ?f) ?c k) with (c (f (k_ram k)) k). cbv beta.
    rewrite Hv, (proj2 (Z.eqb_neq _ _) Hne).
    rewrite (bind_Done _ _ _ _ _ (lift_Done _ k _ _ E1)).
    rewrite (bind_Done _ _ _ _ _ (lift_Done _ (set_machine s1 k) _ _ E2)).
    rewrite (bind_Done _ _ _ _ _ (lift_Done _ (set_machine s2 (set_machine s1 k)) _ _ E3)).
    rewrite Ex. cbn [default]. unfold id. rewrite handler_message.
    + by rewrite (lift_Panicked _ (set_machine s3 (set_machine s2 (set_machine s1 k))) _ _ E4).
    + unfold MAX_NUM_STR_SIZE in Hl. lia.
    + apply three_digits; [done..|lia].
  - eapply same_but_screen_trans; [exact H1|]. eapply same_but_screen_trans; [exact H2|].
    by eapply same_but_screen_trans.
Qed.

Lemma interruptHandler_spurious junk frame k :
  machine_ok (k_machine k) -> get isr_frame_t "intNumber" (k_ram k) frame = 255 ->
  exists s, interruptHandler junk frame k = Done tt (set_machine s k) /\ same_but_screen (k_machine k) s.
Proof.
  intros Hok Hv. destruct (print_screen_k ("Warning: Spurious interrupt caught" ++ newline)%string k Hok) as (s & E & H).
  exists s. split; [|done]. unfold interruptHandler. change (bind (kload ?f) ?c k) with (c (f (k_ram k)) k). cbv beta.
  by rewrite Hv.
Qed.

(** The stubs: an address of the table leads to the code of its vector. *)
Definition stubs_placed (stub_at : Z -> option Z) (stubs : Z) (m : mem) : Prop :=
  forall v, 0 <= v < 256 -> stub_at (handler_of stubs m v) = Some v.

(** The processor's state at an [int] instruction, with room on a stack off the screen. *)
Record int_context (esp cs eip back eflags : Z) (r : registers) : Prop := {
  ic_stack : 56 <= esp < 4294967296;
  ic_words : word cs /\ word eip /\ word back /\ word eflags;
  ic_registers : registers_ok r;
  ic_screen a : esp - 56 <= a < esp -> ~ on_screen a;
}.

(** Raised by [int], a vector with an error code comes without one: its frame is 4 bytes
    short, but the number is where the handler looks for it. *)
Lemma frame_without_code eflags cs eip number back r esp m :
  word number -> 56 <= esp < 4294967296 ->
  let '(esp', m') := handler_stub true number back r (cpu_entry eflags cs eip None (esp, m)) in
  get isr_frame_t "intNumber" m' (u32 (esp' + 4)) = number.
Proof.
  intros Hn Hs.
  set (l := [eflags; cs; eip; number; r_eax r; r_ecx r; r_edx r; r_ebx r; fst (pushes [eflags; cs; eip; number] (esp, m));
    r_ebp r; r_esi r; r_edi r; back]).
  change (handler_stub true _ _ _ _) with (pushes l (esp, m)).
  pose proof (fst_pushes l (esp, m)) as Hfst. pose proof (ld32_pushes l (esp, m) 3 number eq_refl Hn) as Hld.
  cbn [fst List.length l] in Hfst, Hld. destruct (pushes l (esp, m)) as [esp' m']. cbn [fst snd] in *.
  rewrite Hfst, u32_small by lia. etransitivity; [|apply Hld; lia].
  unfold get. change (offsetof isr_frame_t "intNumber") with 32. apply f_equal. lia.
Qed.

Lemma int_n_lemma stub_at stubs m0 junk vector esp cs eip back r k :
  stubs_placed stub_at stubs m0 -> local_array junk -> machine_ok (k_machine k) -> 0 <= vector < 256 ->
  gate (k_idtr k) vector (k_ram k) = Some (handler_of stubs m0 vector) ->
  int_context esp cs eip back (k_eflags k) r ->
  if vector =? 255
  then exists s, int_n stub_at junk vector esp cs eip back r k = Done tt (set_machine s k) /\ machine_ok s
  else exists digits k', hex_numeral vector digits /\
    int_n stub_at junk vector esp cs eip back r k = Panicked (handler_text ++ string_of_bytes digits)%string k' /\
    k_msr k' = k_msr k /\ k_ports k' = k_ports k /\ k_idtr k' = k_idtr k.
Proof.
  intros Hst Hj Hok Hv Hg [Hs (Hcs & Heip & Hback & Hf) Hr Hscr]. unfold int_n. rewrite Hg, Hst by done.
  destruct (Z.eqb_spec vector 255) as [->|Hne].
  - pose proof (frame_lemma (k_eflags k) cs eip None 255 back r esp (k_ram k) Hf Hcs Heip) as H.
    change (handler_err 255) with (bool_decide (is_Some (@None Z))).
    destruct (handler_stub _ _ _ _ _) as [esp' m'].
    destruct H as [Hp Hfr]; [unfold word; cbn; lia|unfold word; lia|done|done|lia|]. rewrite Hp.
    set (k1 := set_eflags (set_bits 9 1 0 (k_eflags k)) (set_kram m' k)).
    destruct (interruptHandler_spurious junk (esp - 52) k1 Hok ltac:(apply Hfr)) as (s & -> & H1).
    exists s. assert (handler_return (esp - 52, k_ram (set_machine s k1)) = Resumed eip cs (k_eflags k) esp r) as ->.
    { rewrite <- (Z.sub_add 52 esp) at 2. apply (handler_return_frame _ (esp - 52) (k_eflags k) cs eip 0 255 (esp - 20) r); [lia..|].
      eapply frame_at_ext; [|exact Hfr]. intros i Hi. destruct H1 as (_ & _ & Honly).
      specialize (Hscr (esp - 52 + i) ltac:(lia)). unfold on_screen in Hscr.
      apply Honly, in_range_false; unfold FRAMEBUFFER_LOCATION, cells in *; lia. }
    cbn [i_eflags]. rewrite decide_True by done. split; [by destruct k|apply H1].
  - assert (let '(esp', m') := handler_stub (handler_err vector) vector back r (cpu_entry (k_eflags k) cs eip None (esp, k_ram k)) in
      get isr_frame_t "intNumber" m' (u32 (esp' + 4)) = vector) as H.
    { destruct (handler_err vector).
      - apply frame_without_code; [unfold word; lia|lia].
      - pose proof (frame_lemma (k_eflags k) cs eip None vector back r esp (k_ram k) Hf Hcs Heip) as H.
        change (bool_decide (is_Some (@None Z))) with false in H. destruct (handler_stub false _ _ _ _) as [esp' m'].
        destruct H as [-> Hfr]; [unfold word; cbn; lia|unfold word; lia|done|done|lia|]. apply Hfr. }
    destruct (handler_stub _ _ _ _ _) as [esp' m'].
    set (k1 := set_eflags (set_bits 9 1 0 (k_eflags k)) (set_kram m' k)).
    destruct (interruptHandler_panics junk (u32 (esp' + 4)) k1 vector Hj Hok H ltac:(lia) Hne)
      as (digits & s & Hd & -> & _). exists digits, (set_machine s k1).
    split; [exact Hd|]. split; [reflexivity|]. by split.
Qed.

(** ** Properties *)

(** C26: [init] on a fresh table leaves all 256 vectors with a present 32-bit interrupt
    gate in the kernel code segment that leads to the stub of that vector, the table in
    the IDT register, interrupts enabled, both 8259s initialised with every line masked
    and the vectors 0xf8 to 0xff, and nothing but the table changed in memory. *)
Theorem init_installs idt stubs k :
  fits idt 2048 -> fits stubs 1024 -> stubs + 1024 <= idt \/ idt + 2048 <= stubs ->
  exists k' ws, init (new_interruptDescriptorTable idt) stubs k = Done None k' /\
    (forall v, 0 <= v < 256 -> gate (k_idtr k') v (k_ram k') = Some (handler_of stubs (k_ram k) v)) /\
    only_changes idt 2048 (k_ram k) (k_ram k') /\ Z.testbit (k_eflags k') 9 = true /\
    k_ports k' = (k_ports k ++ ws)%list /\
    (forall ps, let '(master, slave) := fold_left pics_write ws ps in pic_off 4 master /\ pic_off 2 slave) /\
    k_msr k' = k_msr k /\ k_machine k' = set_ram (k_ram k') (k_machine k).
Proof.
  intros Hi Hs Ho. destruct (init_lemma idt stubs k Hi Hs Ho) as (ws & m' & E & Hc & Hg & Hp).
  eexists _, ws. split; [exact E|]. cbn [k_idtr k_machine k_eflags k_ports k_msr m_ram set_ram].
  split; [exact Hg|]. split; [exact Hc|]. split; [apply enabled_bit|]. split; [reflexivity|].
  split; [exact Hp|]. by split.
Qed.

(** A table of stubs at 0x201000: that of vector [v] starts at 0x100000 + 16 v. *)
Definition example_stub (v : Z) : Z := 1048576 + 16 * v.
Definition example_stub_at (a : Z) : option Z := Some ((a - 1048576) / 16).
Definition example_stub_table : list Z := List.concat (map (fun v => bytes_le 4 (example_stub v)) (seqZ 0 256)).
Definition example_stubs : mem := write_bytes ∅ 2101248 example_stub_table.
Definition example_kernel_state : kernel :=
  Kernel (Machine example_stubs new_terminal 16 0 0 0) 2 (fun _ => (0, 0)) [] (0, 0).

Lemma example_handler v : 0 <= v < 256 -> handler_of 2101248 example_stubs v = example_stub v.
Proof.
  intros Hv.
  assert (forallb (fun v => handler_of 2101248 example_stubs v =? example_stub v) (seqZ 0 256) = true) as H
    by (vm_compute; reflexivity).
  rewrite forallb_forall in H. apply Z.eqb_eq, H, list_elem_of_In, elem_of_seqZ. lia.
Qed.

Lemma example_stub_at_stub v : example_stub_at (example_stub v) = Some v.
Proof. unfold example_stub_at, example_stub. f_equal. rewrite Z.add_simpl_l, Z.mul_comm. by rewrite Z.div_mul. Qed.

Lemma example_fits : fits 2097152 2048 /\ fits 2101248 1024.
Proof. unfold fits. lia. Qed.

Lemma init_installs_witness :
  exists k', init (new_interruptDescriptorTable 2097152) 2101248 example_kernel_state = Done None k' /\
    gate (k_idtr k') 52 (k_ram k') = Some 1049408.
Proof.
  destruct (init_installs 2097152 2101248 example_kernel_state) as (k' & ws & E & Hg & _).
  - apply example_fits.
  - apply example_fits.
  - lia.
  - exists k'. split; [exact E|]. rewrite (Hg 52) by lia. cbn [k_machine example_kernel_state m_ram].
    rewrite example_handler by lia. reflexivity.
Defined.

(** C28: the frame that the processor, the stub of a vector and [pushal] build on the
    stack is the structure [isr_frame_t] the C++ handler reads: the vector, the error
    code or 0, the interrupted instruction and the registers, for stubs with and
    without an error code. *)
Theorem isr_frame_received eflags cs eip err number back r esp m :
  word eflags -> word cs -> word eip -> word (default 0 err) -> word number -> registers_ok r ->
  word back -> 56 <= esp < 4294967296 ->
  let '(esp', m') := handler_stub (bool_decide (is_Some err)) number back r (cpu_entry eflags cs eip err (esp, m)) in
  u32 (esp' + 4) = esp - 52 /\ frame_at m' (esp - 52) eflags cs eip (default 0 err) number (esp - 20) r.
Proof. apply frame_lemma. Qed.

(** C29: an interrupt whose handler returns goes back to where it came from: after processor,
    stub and [pushal] built the frame, on any memory where the frame is unchanged the way back
    restores every register, drops the vector and the error code (the processor's or the
    dummy) and resumes at the interrupted instruction with its flags and its stack. *)
Theorem isr_roundtrip eflags cs eip err number back r esp m :
  word eflags -> word cs -> word eip -> word (default 0 err) -> word number -> registers_ok r ->
  word back -> 56 <= esp < 4294967296 ->
  let '(esp', m1) := handler_stub (bool_decide (is_Some err)) number back r (cpu_entry eflags cs eip err (esp, m)) in
  forall m2, (forall a, esp - 52 <= a < esp -> rd8 m2 a = rd8 m1 a) ->
    handler_return (u32 (esp' + 4), m2) = Resumed eip cs eflags esp r.
Proof.
  intros Hf Hc Hi He Hn Hr Hb Hs.
  pose proof (frame_lemma eflags cs eip err number back r esp m Hf Hc Hi He Hn Hr Hb Hs) as H.
  destruct (handler_stub _ _ _ _ _) as [esp' m1]. destruct H as [-> H]. intros m2 Hm.
  rewrite <- (Z.sub_add 52 esp) at 2. eapply handler_return_frame; [lia|lia|].
  eapply frame_at_ext; [|exact H]. intros i Hi2. apply Hm. lia.
Qed.

Definition example_registers : registers := Registers 1 2 3 4 5 6 7.

Lemma isr_roundtrip_witness :
  let '(esp', m1) := handler_stub true 14 1060000 example_registers (cpu_entry 514 8 1050000 (Some 2) (8192, ∅)) in
  handler_return (u32 (esp' + 4), st16 m1 4096 7) = Resumed 1050000 8 514 8192 example_registers.
Proof.
  pose proof (isr_roundtrip 514 8 1050000 (Some 2) 14 1060000 example_registers 8192 ∅) as H.
  change (bool_decide (is_Some (Some 2))) with true in H.
  destruct (handler_stub _ _ _ _ _) as [esp' m1]. apply H.
  all: unfold registers_ok, word; cbn [default r_eax r_ecx r_edx r_ebx r_ebp r_esi r_edi example_registers]; unfold id; try lia.
  intros a Ha. apply (store_only_changes 2 m1 4096 7); [done|]. apply in_range_false; lia.
Defined.

Lemma isr_frame_received_witness :
  let '(esp', m') := handler_stub true 14 1060000 example_registers (cpu_entry 514 8 1050000 (Some 2) (8192, ∅)) in
  u32 (esp' + 4) = 8140 /\ frame_at m' 8140 514 8 1050000 2 14 8172 example_registers.
Proof.
  apply (isr_frame_received 514 8 1050000 (Some 2) 14 1060000 example_registers 8192 ∅);
    unfold registers_ok, word; cbn; lia.
Defined.

(** C27: once [init] has run, [int $vector] ends in the panic that names the vector in
    base 16, also for the vectors whose exception has an error code, which [int] does not
    push; for the spurious vector 0xff the handler returns and the flags are those of before. *)
Theorem int_after_init stub_at idt stubs k junk vector esp cs eip back r :
  fits idt 2048 -> fits stubs 1024 -> stubs + 1024 <= idt \/ idt + 2048 <= stubs ->
  stubs_placed stub_at stubs (k_ram k) -> local_array junk -> machine_ok (k_machine k) ->
  0 <= vector < 256 ->
  int_context esp cs eip back (set_bits 9 1 1 (set_bits 9 1 0 (k_eflags k))) r ->
  let run := bind (init (new_interruptDescriptorTable idt) stubs) (fun _ => int_n stub_at junk vector esp cs eip back r) in
  if vector =? 255 then exists k', run k = Done tt k' /\ Z.testbit (k_eflags k') 9 = true
  else exists digits k', hex_numeral vector digits /\
    run k = Panicked (handler_text ++ string_of_bytes digits)%string k'.
Proof.
  intros Hi Hs Ho Hst Hj Hok Hv Hic run.
  destruct (init_lemma idt stubs k Hi Hs Ho) as (ws & m' & E & Hc & Hg & _).
  unfold run. rewrite (bind_Done _ _ _ _ _ E). clear E run Hc.
  set (k1 := Kernel _ _ _ _ _).
  pose proof (int_n_lemma stub_at stubs (k_ram k) junk vector esp cs eip back r k1 Hst Hj Hok Hv (Hg vector Hv) Hic) as H.
  destruct (vector =? 255).
  - destruct H as (s & Es & _). exists (set_machine s k1). split; [exact Es|]. apply enabled_bit.
  - destruct H as (digits & k' & Hd & Es & _). exists digits, k'. split; [exact Hd|exact Es].
Qed.

Lemma example_kernel_machine_ok : machine_ok (k_machine example_kernel_state).
Proof. split; [apply new_terminal_ok|]. split; [done|]. cbn. lia. Qed.

Lemma int_after_init_witness :
  exists digits k', hex_numeral 52 digits /\
    bind (init (new_interruptDescriptorTable 2097152) 2101248) (fun _ =>
      int_n example_stub_at uninit 52 1200000 8 1050000 1060000 example_registers) example_kernel_state =
    Panicked (handler_text ++ string_of_bytes digits)%string k'.
Proof.
  apply (int_after_init example_stub_at 2097152 2101248 example_kernel_state uninit 52 1200000 8 1050000 1060000
    example_registers).
  - apply example_fits.
  - apply example_fits.
  - lia.
  - intros v Hv. change (k_ram example_kernel_state) with example_stubs. rewrite example_handler by done. apply example_stub_at_stub.
  - split; [done|]. apply Forall_replicate. lia.
  - exact example_kernel_machine_ok.
  - lia.
  - split; [lia| | |unfold on_screen, FRAMEBUFFER_LOCATION, cells; lia]; repeat split; vm_compute; (reflexivity || discriminate).
Defined.
