(* ===== verification/KernelEntry.v ===== *)
(** The kernel's entry, [kernel/boot.S] with the selectors of [include/kernelInternal/gdt.h]:
    the multiboot header, the kernel's descriptor table, the way to [kmain]. *)

From S2P Require Import Prelude PhysMem Layout Arena Fat32 Multiboot Cpu Interrupts X86 RealMode Teletype A20 Stage1Entry.
Import Asm.

Local Open Scope string_scope.
Local Open Scope list_scope.
Local Open Scope Z_scope.

(** ** Data *)

(** The header; its constants, [MULTIBOOT_MAGIC] apart, which the loader shares. *)
Definition ALIGN : Z := Z.shiftl 1 0.
Definition MEMINFO : Z := Z.shiftl 1 1.
Definition FLAGS : Z := Z.lor ALIGN MEMINFO.
Definition CHECKSUM : Z := - (MULTIBOOT_MAGIC + FLAGS).
Definition kernel_header : list Z := bytes_le 4 MULTIBOOT_MAGIC ++ bytes_le 4 FLAGS ++ bytes_le 4 CHECKSUM.

Definition DATA32_KSEGMENT : Z := 16.
Definition CODE32_USEGMENT : Z := 24.
Definition DATA32_USEGMENT : Z := 32.

(** [gdt_start]. *)
Definition kernel_gdt : list Z :=
  [0; 0x00CF9A000000FFFF; 0x00CF92000000FFFF; 0x00CFFA000000FFFF; 0x008FF2000000FFFF].

(** [stack_bottom]. *)
Definition kernel_stack_size : Z := 16384.

(** Addresses of the file; where the call returns to. *)
Record kernel_labels : Type := {
  stack_top : Z;
  kernel_gdt_start : Z;
  kernel_gdt_desc : Z;
  kernel_return : Z;
}.

(** ** Code *)

Section Code.
Context {D : Type} {P : Platform D}.
Context (L : kernel_labels).

Abbreviation code := (prog (x86 D) unit).

(** Up to [.gdt_reload]. *)
Definition load_kernel_gdt : code :=
  do* cli in
  do* mov 32 (Imm (stack_top L)) (Lo ESP) in
  do* mov 32 (Imm (stack_top L)) (Lo EBP) in
  do* push 32 (Lo EAX) in
  do* cli in
  do* mov 32 (Imm (kernel_gdt_desc L)) (Lo EAX) in
  do* lgdt 32 (Ind32 EAX) in
  do* mov_from_cr0 EAX in
  do* or 32 (Imm 1) (Lo EAX) in
  mov_to_cr0 EAX.

(** [.gdt_reload] up to the call; %cs is not loaded. *)
Definition push_kernel_arguments : code :=
  do* mov 32 (Imm DATA32_KSEGMENT) (Lo EAX) in
  do* data_segments EAX in
  do* pop 32 (Lo EAX) in
  do* push 32 (Lo EDX) in
  do* push 32 (Lo EBX) in
  push 32 (Lo EAX).

Definition enter_kernel : code :=
  do* load_kernel_gdt in
  push_kernel_arguments.

(** Behind the call the code halts for ever. *)
Definition _start (kmain : code) : code :=
  do* enter_kernel in
  do* call 32 (kernel_return L) kmain in
  do* cli in
  hlt.
End Code.

(** ** Proofs *)

(** The table and its descriptor in the kernel's image, the stack off them. *)
Record kernel_image_data (L : kernel_labels) (m : mem) : Prop := {
  ki_limit : ld16 m (kernel_gdt_desc L) = table_limit kernel_gdt;
  ki_base : ld32 m (kernel_gdt_desc L + 2) = kernel_gdt_start L;
  ki_gdt : table_at kernel_gdt m (kernel_gdt_start L);
  ki_desc : 0 <= kernel_gdt_desc L /\ kernel_gdt_desc L + 6 <= 4294967296;
  ki_start : kernel_gdt_start L + 40 <= 4294967296;
  ki_stack : kernel_stack_size <= stack_top L < 4294967296;
  ki_apart : (kernel_gdt_desc L + 6 <= stack_top L - kernel_stack_size \/ stack_top L <= kernel_gdt_desc L) /\
    (kernel_gdt_start L + 40 <= stack_top L - kernel_stack_size \/ stack_top L <= kernel_gdt_start L);
}.

(** The data segments of the kernel. *)
Definition kernel_data_seg : seg := Seg DATA32_KSEGMENT 0 true.

Section Proofs.
Context {D : Type} {P : Platform D}.
Context (L : kernel_labels).

(** Flat 32-bit data and stack segments, as a multiboot loader leaves them. *)
Definition flat (sg : segs) : Prop :=
  se_base (s_ds sg) = 0 /\ se_base (s_ss sg) = 0 /\ se_big (s_ss sg) = true.

Lemma bind_push32_flat {A} o (k : unit -> prog (x86 D) A) a c d b sp bp si di sg fl cr0 gdtr m tty dev :
  se_base (s_ss sg) = 0 -> se_big (s_ss sg) = true -> a20 dev = true -> 4 <= sp < 4294967296 ->
  let s := X86 (Gprs a c d b sp bp si di) sg fl cr0 gdtr m tty dev in
  bind (push 32 o) k s =
  k tt (X86 (Gprs a c d b (sp - 4) bp si di) sg fl cr0 gdtr (st32 m (sp - 4) (get_op 32 o s)) tty dev).
Proof.
  destruct sg as [cs ds es fs gs [sel base big]]. intros Hb Hbig Ha Hsp s. cbn [s_ss se_base se_big] in Hb, Hbig. subst base big.
  rewrite bind_push. subst s. x_norm. rewrite Z.add_0_l, !(u32_small (sp + -4)) by (rewrite ?u32_small; lia).
  by rewrite phys_open by (done || lia).
Qed.

Lemma load_kernel_gdt_run {A} (k : unit -> prog (x86 D) A) a c d b sp bp si di sg fl cr0 gdtr m tty dev :
  flat sg -> a20 dev = true -> kernel_image_data L m ->
  exists a' fl' cr0', Z.testbit cr0' 0 = true /\ Z.testbit fl' 9 = false /\
  bind (load_kernel_gdt L) k (X86 (Gprs a c d b sp bp si di) sg fl cr0 gdtr m tty dev) =
  k tt (X86 (Gprs a' c d b (stack_top L - 4) (stack_top L) si di) sg fl' cr0'
    (table_limit kernel_gdt, kernel_gdt_start L) (st32 m (stack_top L - 4) (u32 a)) tty dev).
Proof.
  intros (Hds & Hss & Hbig) Ha [H1 H2 _ [D1 D2] _ Hst [A1 A2]]. unfold kernel_stack_size in *.
  set (v := u32 (u32 (Z.lor (u32 1) (u32 cr0)))).
  assert (Z.testbit v 0 = true) as Hv.
  { unfold v, wrap. by rewrite !Z.mod_pow2_bits_low, Z.lor_spec, Z.mod_pow2_bits_low by lia. }
  set (m' := st32 m (stack_top L - 4) (u32 a)).
  exists v. eexists. exists v. split; [exact Hv|]. split.
  2: { unfold load_kernel_gdt, cli, lgdt, mov_from_cr0, or, mov_to_cr0. do 6 x_step.
    rewrite !(u32_small (stack_top L)) by (rewrite ?u32_small; lia). rewrite bind_assoc, bind_push32_flat by (done || lia).
    x_norm. repeat x_step. change (32 =? 16) with false. cbv iota.
    destruct sg as [cs [dsel dbase dbig] es fs gs ss]. cbn [s_ds se_base] in Hds. subst dbase.
    rewrite !Z.add_0_l, !(u32_small (kernel_gdt_desc L)) by (rewrite ?u32_small; lia).
    rewrite !(phys_open dev) by (done || lia). fold m'.
    assert (ld16 m' (kernel_gdt_desc L) = table_limit kernel_gdt) as -> by (unfold m'; by rewrite load_store_out by (cbn; lia)).
    assert (ld32 m' (kernel_gdt_desc L + 2) = kernel_gdt_start L) as -> by (unfold m'; by rewrite load_store_out by (cbn; lia)).
    fold v. reflexivity. }
  rewrite !testbit_put_flag by lia. done.
Qed.

(** The table is read through the open gate, off the stack. *)
Lemma kernel_descriptor m x i (s : x86 D) :
  kernel_image_data L m -> x_mem s = st32 m (stack_top L - 4) x -> a20 (x_dev s) = true ->
  x_gdtr s = (table_limit kernel_gdt, kernel_gdt_start L) ->
  descriptor (8 * Z.of_nat i) s = if (i =? 0)%nat then None else kernel_gdt !! i.
Proof.
  intros [_ Hb Hg _ Hs Ht [_ A]] Hm Ha E. unfold kernel_stack_size in *. pose proof (ld32_bounds m (kernel_gdt_desc L + 2)).
  apply (table_descriptor kernel_gdt (kernel_gdt_start L)); [|exact E|intros; apply phys_open; [done|cbn in *; lia]].
  rewrite Hm. eapply table_at_ext; [|exact Hg]. intros j Hj. cbn in Hj. apply rd8_store_out; cbn; lia.
Qed.

Definition kernel_segs (cs : seg) : segs :=
  let d := kernel_data_seg in Segs cs d d d d d.

Lemma push_kernel_arguments_run a0 a c d b si di sg fl cr0 m tty dev :
  Z.testbit cr0 0 = true -> a20 dev = true -> kernel_image_data L m ->
  let top := stack_top L in
  let gdtr := (table_limit kernel_gdt, kernel_gdt_start L) in
  push_kernel_arguments (X86 (Gprs a0 c d b (top - 4) top si di) sg fl cr0 gdtr (st32 m (top - 4) (u32 a)) tty dev) =
  Done tt (X86 (Gprs (u32 a) c d b (top - 12) top si di) (kernel_segs (s_cs sg)) fl cr0 gdtr
    (st32 (st32 (st32 (st32 m (top - 4) (u32 a)) (top - 4) (u32 d)) (top - 8) (u32 b)) (top - 12) (u32 a)) tty dev).
Proof.
  intros Hcr Ha Hk top gdtr. destruct (id Hk) as [_ _ _ _ _ Hst _]. unfold kernel_stack_size in Hst. fold top in Hst.
  unfold push_kernel_arguments. x_step.
  rewrite (bind_data_segments_pe _ DATA32_KSEGMENT 0x00CF92000000FFFF); [|exact Hcr|reflexivity| |reflexivity].
  2: { by apply (kernel_descriptor m (u32 a) 2). }
  x_norm. change (Seg DATA32_KSEGMENT (d_base 0x00CF92000000FFFF) (d_big 0x00CF92000000FFFF)) with kernel_data_seg.
  rewrite bind_pop. unfold kernel_data_seg. x_norm. rewrite !(u32_small (top - 4)), Z.add_0_l, phys_open by (done || lia).
  rewrite (load_store 4) by lia. change (256 ^ Z.of_nat 4) with (2 ^ 32). fold (u32 (u32 a)).
  replace (top - 4 + 4) with top by lia. rewrite (u32_small top) by lia.
  rewrite bind_push32_flat by (done || lia). x_norm. rewrite bind_push32_flat by (done || lia). x_norm.
  rewrite <- bind_ret_r, bind_push32_flat by (done || lia). x_norm. unfold wrap. rewrite !Z.mod_mod by lia.
  replace (top - 4 - 4) with (top - 8) by lia. by replace (top - 8 - 4) with (top - 12) by lia.
Qed.
End Proofs.

(** ** Properties *)

(** What a selector is for. *)
Inductive segment_kind : Type := CodeSegment (big : bool) | DataSegment (big : bool) | UserCode | UserData (big : bool).

Definition stage1_selector (sel : Z) : option segment_kind :=
  if sel =? CODE32_SEGMENT then Some (CodeSegment true)
  else if sel =? DATA32_SEGMENT then Some (DataSegment true)
  else if sel =? CODE16_SEGMENT then Some (CodeSegment false)
  else if sel =? DATA16_SEGMENT then Some (DataSegment false)
  else None.

(** The descriptor of [DATA32_USEGMENT] is that of a 16-bit segment. *)
Definition kernel_selector (sel : Z) : option segment_kind :=
  if sel =? CODE32_KSEGMENT then Some (CodeSegment true)
  else if sel =? DATA32_KSEGMENT then Some (DataSegment true)
  else if sel =? CODE32_USEGMENT then Some UserCode
  else if sel =? DATA32_USEGMENT then Some (UserData false)
  else None.

Inductive program_table : list Z -> (Z -> option segment_kind) -> Prop :=
  | table_of_stage1 : program_table stage1_gdt stage1_selector
  | table_of_kernel : program_table kernel_gdt kernel_selector.

(** The stack takes the data segments of its own privilege, the other segment registers all
    data and all code, which can be read in both tables. *)
Definition load_typed (kind : option segment_kind) (r : sreg) : option bool :=
  match kind with
  | Some (DataSegment big) => Some big
  | Some (UserData big) | Some (CodeSegment big) => if is_stack r then None else Some big
  | Some UserCode => if is_stack r then None else Some true
  | None => None
  end.

Definition jump_typed (kind : option segment_kind) (big : bool) : bool :=
  match kind with Some (CodeSegment b) => Bool.eqb b big | _ => false end.

Section Properties.
Context {D : Type} {P : Platform D}.

(** The selectors of the two tables, the null selector aside, are what the names say: a
    segment register takes the data segments and, but for %ss, the code segments and the
    user's; a far jump to code of some size goes to exactly the kernel's code segments of
    that size.  All segments start at 0. *)
Theorem selectors_typed table kind g (s : x86 D) (i : nat) :
  program_table table kind -> pe s = true ->
  table_at table (x_mem s) g -> x_gdtr s = (table_limit table, g) ->
  (forall a, g <= a < g + 8 * Z.of_nat (List.length table) -> phys (x_dev s) a = a) ->
  let sel := 8 * Z.of_nat i in
  (forall r, (0 < i)%nat -> load_seg r sel s = match load_typed (kind sel) r with
    | Some big => Done tt (set_seg r (Seg sel 0 big) s)
    | None => Undefined
    end) /\
  forall big, ljmp sel big s =
    if jump_typed (kind sel) big then Done tt (set_seg CS (Seg sel 0 big) s) else Undefined.
Proof.
  intros Ht Hpe Hg E Hp sel. unfold load_seg, ljmp. rewrite Hpe.
  pose proof (table_descriptor table g s i Hg E Hp) as Hd. fold sel in Hd. rewrite Hd. clear Hd Hg E Hp.
  assert (List.length table = 5%nat) as Hl by (by destruct Ht).
  destruct (decide (i < 5)%nat) as [Hi|Hi].
  - do 5 (destruct i as [|i]; [destruct Ht; (split; [intros [] H0; (reflexivity || lia)|intros []; reflexivity])|]). lia.
  - rewrite (lookup_ge_None_2 table i) by lia.
    assert (kind sel = None) as ->.
    { destruct Ht; unfold stage1_selector, kernel_selector, CODE32_SEGMENT, DATA32_SEGMENT, CODE16_SEGMENT, DATA16_SEGMENT,
        CODE32_KSEGMENT, DATA32_KSEGMENT, CODE32_USEGMENT, DATA32_USEGMENT;
      by rewrite !(proj2 (Z.eqb_neq sel _)) by lia. }
    rewrite (proj2 (Z.eqb_neq (sel / 8) 0)) by (unfold sel; rewrite Z.mul_comm, Z.div_mul; lia).
    by destruct (i =? 0)%nat.
Qed.

Context (L : kernel_labels).

Lemma kernel_enters_lemma (s : x86 D) :
  flat (x_segs s) -> a20 (x_dev s) = true -> kernel_image_data L (x_mem s) ->
  exists s', enter_kernel L s = Done tt s' /\
    pe s' = true /\ Z.testbit (x_flags s') 9 = false /\
    x_segs s' = kernel_segs (s_cs (x_segs s)) /\ x_gdtr s' = (table_limit kernel_gdt, kernel_gdt_start L) /\
    reg ESP s' = stack_top L - 12 /\ reg EBP s' = stack_top L /\
    ld32 (x_mem s') (reg ESP s') = u32 (reg EAX s) /\
    ld32 (x_mem s') (reg ESP s' + 4) = u32 (reg EBX s) /\
    ld32 (x_mem s') (reg ESP s' + 8) = u32 (reg EDX s) /\
    (forall a, 0 <= a < 4294967296 -> a < stack_top L - 12 \/ stack_top L <= a -> rd8 (x_mem s') a = rd8 (x_mem s) a) /\
    x_dev s' = x_dev s /\ x_tty s' = x_tty s.
Proof.
  destruct s as [[a c d b sp bp si di] sg fl cr0 gdtr m tty dev]. unfold reg. cbn [x_segs x_dev x_mem x_tty x_regs gpr_get g_eax g_ebx g_edx].
  intros Hf Ha Hk. destruct (id Hk) as [_ _ _ _ _ Hst _]. unfold kernel_stack_size in Hst. set (top := stack_top L) in *.
  destruct (load_kernel_gdt_run L (fun _ => push_kernel_arguments) a c d b sp bp si di sg fl cr0 gdtr m tty dev Hf Ha Hk)
    as (a' & fl' & cr0' & Hcr & Hif & E).
  eexists. split; [unfold enter_kernel; rewrite E; by apply push_kernel_arguments_run|].
  unfold pe. cbn [x_segs x_dev x_mem x_tty x_regs x_cr0 x_flags x_gdtr gpr_get g_esp g_ebp]. fold top.
  split; [exact Hcr|]. split; [exact Hif|]. do 4 (split; [done|]).
  assert (forall v, u32 v mod 256 ^ Z.of_nat 4 = u32 v) as Hw by (intros v; apply Z.mod_mod; lia).
  replace (top - 12 + 4) with (top - 8) by lia. replace (top - 12 + 8) with (top - 4) by lia.
  split; [rewrite (load_store 4) by lia; apply Hw|].
  split; [rewrite load_store_out, (load_store 4) by (cbn; lia); apply Hw|].
  split; [rewrite 2!load_store_out, (load_store 4) by (cbn; lia); apply Hw|].
  split; [|done]. intros x Hx Ho. by rewrite !rd8_store_out by (cbn; lia).
Qed.

(** C8: from flat segments and an open gate, the entry comes to the call of [kmain] in
    protected mode, interrupts off, with the kernel's table and its data segments, but %cs as
    the loader left it; on the stack are %eax, %ebx and %edx as the loader passed them, in the
    order of [kmain]'s parameters, and only these three words of memory are changed. *)
Theorem kernel_enters (s : x86 D) :
  flat (x_segs s) -> a20 (x_dev s) = true -> kernel_image_data L (x_mem s) ->
  exists s', enter_kernel L s = Done tt s' /\
    pe s' = true /\ Z.testbit (x_flags s') 9 = false /\
    x_segs s' = kernel_segs (s_cs (x_segs s)) /\ x_gdtr s' = (table_limit kernel_gdt, kernel_gdt_start L) /\
    reg ESP s' = stack_top L - 12 /\ reg EBP s' = stack_top L /\
    ld32 (x_mem s') (reg ESP s') = u32 (reg EAX s) /\
    ld32 (x_mem s') (reg ESP s' + 4) = u32 (reg EBX s) /\
    ld32 (x_mem s') (reg ESP s' + 8) = u32 (reg EDX s) /\
    (forall a, 0 <= a < 4294967296 -> a < stack_top L - 12 \/ stack_top L <= a -> rd8 (x_mem s') a = rd8 (x_mem s) a) /\
    x_dev s' = x_dev s /\ x_tty s' = x_tty s.
Proof. apply kernel_enters_lemma. Qed.

(** The loader accepts the kernel's header: where its bytes are in memory, magic number
    and checksum are valid, of the flags it asks for, memory and boot device, both are
    supported and no other is set. *)
Theorem kernel_header_accepted (m : mem) (p : Z) :
  (forall i c, kernel_header !! i = Some c -> rd8 m (p + Z.of_nat i) = c) ->
  header_valid m p = true /\ get multiboot_header "flags" m p = 3 /\
  Z.land (get multiboot_header "flags" m p) 65532 = 0.
Proof.
  intros H.
  assert (forall k, (k <= 8)%nat -> ld32 m (p + Z.of_nat k) = ld32 (write_bytes ∅ 0 kernel_header) (Z.of_nat k)) as W.
  { intros k Hk. apply load_ext. intros i Hi. cbn in Hi. rewrite rd8_write_bytes by (cbn; lia).
    assert (List.length kernel_header = 12%nat) as Hl by done.
    rewrite Z.sub_0_r, u32_small by lia.
    destruct (lookup_lt_is_Some_2 kernel_header (Z.to_nat (Z.of_nat k + i)) ltac:(lia)) as [c Hc]. rewrite Hc.
    rewrite <- (H _ _ Hc), Z2Nat.id, u8_small by (lia || apply rd8_bounds). f_equal. lia. }
  assert (get multiboot_header "magic" m p = MULTIBOOT_MAGIC) as E1
    by (change (ld32 m (p + Z.of_nat 0) = MULTIBOOT_MAGIC); rewrite W by lia; vm_compute; reflexivity).
  assert (get multiboot_header "flags" m p = 3) as E2
    by (change (ld32 m (p + Z.of_nat 4) = 3); rewrite W by lia; vm_compute; reflexivity).
  assert (get multiboot_header "checksum" m p = u32 CHECKSUM) as E3
    by (change (ld32 m (p + Z.of_nat 8) = u32 CHECKSUM); rewrite W by lia; vm_compute; reflexivity).
  unfold header_valid. rewrite E1, E2, E3. by vm_compute.
Qed.
End Properties.

(** ** Examples: a kernel with its table at 0x140000, its stack below 0x160000 *)

Definition example_kernel : kernel_labels := {|
  stack_top := 1441792; kernel_gdt_start := 1310720; kernel_gdt_desc := 1310760; kernel_return := 1310900;
|}.

Definition example_kernel_memory : mem :=
  write_bytes (write_bytes ∅ 1310720 (flat_map (bytes_le 8) kernel_gdt ++ bytes_le 2 39 ++ bytes_le 4 1310720))
    1048576 kernel_header.

Definition example_kernel_entry : x86 unit :=
  X86 (Gprs 0x2BADB003 0x100010 7 0x3000 2000 0 0 0) pm_segs 514 17 (39, 1310720) example_kernel_memory [] tt.

Lemma example_kernel_table : table_at kernel_gdt example_kernel_memory 1310720.
Proof. example_gdt. Qed.

Lemma selectors_typed_witness :
  let _ := example_platform [] (fun _ _ => 0) in
  load_seg SS DATA32_USEGMENT example_kernel_entry = Undefined /\
  ljmp CODE32_KSEGMENT true example_kernel_entry = Done tt (set_seg CS (Seg 8 0 true) example_kernel_entry).
Proof.
  intros pl.
  assert (forall a, phys (x_dev example_kernel_entry) a = u32 a) as Hp by done.
  assert (forall a, 1310720 <= a < 1310720 + 8 * Z.of_nat (List.length kernel_gdt) -> phys (x_dev example_kernel_entry) a = a) as Hg
    by (intros a Ha; cbn in Ha; rewrite Hp, u32_small by lia; done).
  split.
  - destruct (selectors_typed kernel_gdt kernel_selector 1310720 example_kernel_entry 4 table_of_kernel eq_refl
      example_kernel_table eq_refl Hg) as [H _]. exact (H SS ltac:(lia)).
  - destruct (selectors_typed kernel_gdt kernel_selector 1310720 example_kernel_entry 1 table_of_kernel eq_refl
      example_kernel_table eq_refl Hg) as [_ H]. exact (H true).
Defined.

Lemma kernel_enters_witness :
  let _ := example_platform [] (fun _ _ => 0) in
  exists s', enter_kernel example_kernel example_kernel_entry = Done tt s' /\
    ld32 (x_mem s') 1441780 = 0x2BADB003 /\ ld32 (x_mem s') 1441784 = 0x3000 /\ ld32 (x_mem s') 1441788 = 7.
Proof.
  intros pl. destruct (kernel_enters example_kernel example_kernel_entry)
    as (s' & E & _ & _ & _ & _ & Hesp & _ & H1 & H2 & H3 & _).
  - by split.
  - done.
  - split; [vm_compute; reflexivity|vm_compute; reflexivity|exact example_kernel_table|cbn; unfold kernel_stack_size; lia..].
  - exists s'. rewrite Hesp in H1, H2, H3. split; [exact E|]. split; [exact H1|]. split; [exact H2|exact H3].
Defined.

Lemma kernel_header_accepted_witness : header_valid example_kernel_memory 1048576 = true.
Proof.
  apply (kernel_header_accepted example_kernel_memory 1048576). intros i c Hi.
  do 12 (destruct i as [|i]; [injection Hi as <-; vm_compute; reflexivity|]). discriminate.
Defined.
