(* ===== verification/Apic.v ===== *)
(** The interrupt controllers of [kernel/devices/cpu/apic.cpp]: the local APIC behind its
    base register, and the I/O APIC behind a pair of memory-mapped registers, which is an
    interface the program is proved against. *)

From S2P Require Import Prelude PhysMem Layout Terminal Outstream Machine Acpi Cpu.

Local Open Scope string_scope.
Local Open Scope list_scope.
Local Open Scope Z_scope.

(** ** The local APIC *)

(** [lapic_base_register]: the bit fields from bit 12 on. *)
Definition lapic_address (m : mem) (reg : Z) : Z := get_bits 12 20 (ld32 m reg).

(** The two members of [spurious_interrupt_vector_register] that are assigned: the byte
    [sp_vector] and bit 0 of the byte behind it. *)
Definition set_sp_vector (v : Z) (m : mem) (p : Z) : mem := wr8 m p v.
Definition set_enable_flag (v : Z) (m : mem) (p : Z) : mem := wr8 m (p + 1) (set_bits 0 1 v (rd8 m (p + 1))).

Inductive lapic_registers : Type :=
  | LAPIC_ID | LAPIC_VERSION | TASK_PRIORITY | ARBITRATION_PRIORITY | PROCESSOR_PRIORITY | EOI
  | REMOTE_READ | LOGICAL_DESTINATION | DESTINATION_FORMAT | SPURIOUS_INTERRUPT_VECTOR | IN_SERVICE
  | TRIGGER_MODE | INTERRUPT_REQUEST | ERROR_STATUS | LVT_CMCI | INTERRUPT_COMMAND | LVT_TIMER
  | LVT_THERMAL_SENSOR | LVT_PERF_MONITORING | LVT_LINT0 | LVT_LINT1 | LVT_ERROR | INITIAL_COUNT
  | CURRENT_COUNT | DIVIDE_CONFIGURATION.

Definition lapic_register_offset (r : lapic_registers) : Z :=
  match r with
  | LAPIC_ID => 32 | LAPIC_VERSION => 48 | TASK_PRIORITY => 128 | ARBITRATION_PRIORITY => 144
  | PROCESSOR_PRIORITY => 160 | EOI => 176 | REMOTE_READ => 192 | LOGICAL_DESTINATION => 208
  | DESTINATION_FORMAT => 224 | SPURIOUS_INTERRUPT_VECTOR => 240 | IN_SERVICE => 256
  | TRIGGER_MODE => 384 | INTERRUPT_REQUEST => 512 | ERROR_STATUS => 640 | LVT_CMCI => 752
  | INTERRUPT_COMMAND => 768 | LVT_TIMER => 800 | LVT_THERMAL_SENSOR => 816
  | LVT_PERF_MONITORING => 832 | LVT_LINT0 => 848 | LVT_LINT1 => 864 | LVT_ERROR => 880
  | INITIAL_COUNT => 896 | CURRENT_COUNT => 912 | DIVIDE_CONFIGURATION => 992
  end.

(** The member [_reg]: register eax of CPUID leaf 1. *)
Definition new_l_apic (cpuid : Z -> cpuid_answer) : prog kernel Z :=
  do* (if negb (checkApic cpuid)
       then lift (earlyPanic "In kernel::cpu::l_apic constructor: Error: No APIC present!")
       else ret tt) in
  ret (c_eax (cpuid 1)).

(** [lapicReg + n] for a pointer to 32-bit words. *)
Definition lapic_word (base : Z) (r : lapic_registers) : Z := u32 (base + 4 * lapic_register_offset r).

Definition enable (_reg : Z) : prog kernel unit :=
  do* setMSR IA32_APIC_BASE_MSR (Z.land _reg 4294963200) 0 in
  let* lapicReg := kload (fun m => u32 (Z.shiftl (lapic_address m _reg) 12)) in
  let regPtr := lapic_word lapicReg SPURIOUS_INTERRUPT_VECTOR in
  do* kstore (fun m => set_enable_flag 1 m regPtr) in
  kstore (fun m => set_sp_vector 255 m regPtr).

(** ** The I/O APIC *)

Inductive ioapic_mm_register : Type := IOAPICID | IOAPICVER | IOAPICARB | IOREDTBL.

Definition ioapic_mm_code (r : ioapic_mm_register) : Z :=
  match r with IOAPICID => 0 | IOAPICVER => 1 | IOAPICARB => 2 | IOREDTBL => 3 end.

(** The member [_ptr]. *)
Definition new_io_apic (fuel : nat) (madt : Z) : prog kernel Z :=
  let* entry := lift (run_opt (getEntry fuel madt 1)) in
  do* (if entry =? 0
       then lift (earlyPanic "In kernel::cpu::io_apic constructor: Error: Couldn't find a MADT type 1 entry!")
       else ret tt) in
  ret entry.

(** Volatile accesses of 32 bits to a device. *)
Class Mmio (D : Type) : Type := {
  mmio_read : Z -> D -> Z * D;
  mmio_write : Z -> Z -> D -> D;
}.

Section IoApic.
Context {D : Type} `{Mmio D}.

(** [_ptr->io_apic_address] is read from the table each time. *)
Definition ioapic_ptr (ptr : Z) (m : mem) : Z := get madt_entry_type1 "io_apic_address" m ptr.

Definition read (ptr reg : Z) (m : mem) (d : D) : Z * D :=
  let ioapicPtr := ioapic_ptr ptr m in
  mmio_read (ioapicPtr + 4 * 4) (mmio_write (ioapicPtr + 4 * 0) (Z.land reg 255) d).

Definition write (ptr reg value : Z) (m : mem) (d : D) : D :=
  let ioapicPtr := ioapic_ptr ptr m in
  mmio_write (ioapicPtr + 4 * 4) value (mmio_write (ioapicPtr + 4 * 0) (Z.land reg 255) d).
End IoApic.

(** What an I/O APIC at [base] promises: a write to the first word selects a register, the
    word at 16 is a window on it.  Only the bits of its mask can be written. *)
Class IoApic (D : Type) `{Mmio D} (base : Z) : Type := {
  ia_selected : D -> Z;
  ia_register : D -> Z -> Z;
  ia_mask : Z -> Z;
  ia_select v d : ia_selected (mmio_write base v d) = v;
  ia_select_frame v d r : ia_register (mmio_write base v d) r = ia_register d r;
  ia_read d : mmio_read (base + 16) d = (ia_register d (ia_selected d), d);
  ia_write v d r : ia_register (mmio_write (base + 16) v d) r =
    if r =? ia_selected d then Z.lor (Z.land v (ia_mask r)) (Z.ldiff (ia_register d r) (ia_mask r))
    else ia_register d r;
}.
Arguments ia_register {D _} base {_} d r.
Arguments ia_mask {D _} base {_} r.

(** ** Proofs *)

Lemma and_page a : Z.land a 4294963200 = Z.shiftl (get_bits 12 20 a) 12.
Proof.
  unfold get_bits. apply Z.bits_inj'. intros i Hi. rewrite Z.land_spec.
  change 4294963200 with (Z.shiftl (Z.ones 20) 12). rewrite !Z.shiftl_spec by lia.
  destruct (Z.lt_ge_cases i 12) as [Hl|Hl].
  - rewrite !(Z.testbit_neg_r _ (i - 12)) by lia. apply andb_false_r.
  - rewrite Z.land_spec, Z.shiftr_spec, Z.sub_add by lia. done.
Qed.

(** The low 12 bits of a page address are clear. *)
Lemma page_low a i : 0 <= i < 12 -> Z.testbit (Z.land a 4294963200) i = false.
Proof.
  intros Hi. rewrite and_page, Z.shiftl_spec by lia. apply Z.testbit_neg_r. lia.
Qed.

Lemma wr8_only_changes m a v : only_changes a 1 m (wr8 m a v).
Proof.
  intros b Hb. apply rd8_wr8_ne. unfold in_range in Hb. apply Z.ltb_ge in Hb.
  intros E%u32_sub_zero. rewrite E in Hb. lia.
Qed.

(** Where [enable] writes. *)
Definition enable_target (m : mem) (reg : Z) : Z :=
  lapic_word (Z.shiftl (lapic_address m reg) 12) SPURIOUS_INTERRUPT_VECTOR.

Lemma enable_target_page m reg : enable_target m reg mod 4096 = 960.
Proof.
  unfold enable_target, lapic_word, wrap. change (4 * lapic_register_offset SPURIOUS_INTERRUPT_VECTOR) with 960.
  rewrite Z.shiftl_mul_pow2 by lia. change (2 ^ 12) with 4096. change (2 ^ 32) with 4294967296.
  Z.to_euclidean_division_equations. lia.
Qed.

Lemma enable_spec reg k :
  let p := enable_target (k_ram k) reg in
  exists k', enable reg k = Done tt k' /\
    k_ram k' = set_sp_vector 255 (set_enable_flag 1 (k_ram k) p) p /\
    (forall r, k_msr k' r = if r =? IA32_APIC_BASE_MSR then (Z.land reg 4294963200, 0) else k_msr k r) /\
    k_eflags k' = k_eflags k /\ k_ports k' = k_ports k /\ k_idtr k' = k_idtr k /\
    k_machine k' = set_ram (k_ram k') (k_machine k).
Proof.
  intros p. eexists. split; [unfold enable, setMSR, kload, kstore, gets, modify, bind; reflexivity|].
  assert (lapic_word (u32 (Z.shiftl (lapic_address (k_ram k) reg) 12)) SPURIOUS_INTERRUPT_VECTOR = p) as Hp.
  { unfold p, enable_target, lapic_word. by rewrite wrap_add_l. }
  cbn [k_machine m_ram set_machine set_ram k_msr k_eflags k_ports k_idtr set_kram]. rewrite Hp.
  split; [done|]. split; [done|]. by repeat split.
Qed.

Lemma enable_ram_changes reg k k' :
  k_ram k' = set_sp_vector 255 (set_enable_flag 1 (k_ram k) (enable_target (k_ram k) reg)) (enable_target (k_ram k) reg) ->
  forall a, 0 <= a < 4294967296 -> a <> enable_target (k_ram k) reg -> a <> u32 (enable_target (k_ram k) reg + 1) ->
  rd8 (k_ram k') a = rd8 (k_ram k) a.
Proof.
  intros -> a Ha H1 H2. set (p := enable_target (k_ram k) reg) in *.
  assert (u32 p = p) as Hp by apply wrap_wrap.
  unfold set_sp_vector, set_enable_flag. rewrite !rd8_wr8_ne; [done| |]; rewrite (u32_small a Ha); congruence.
Qed.

(** ** Properties *)

(** C34: [enable] writes the APIC base register with the page of the pointer it was given
    and the low 12 bits clear, the global enable bit 11 among them; it then sets bit 0 of
    the second byte and stores 0xff in the first byte of the spurious vector word, which
    it places 0x3c0 bytes from the address in the pointed-to base register, not at offset
    0xf0; nothing else changes. *)
Theorem enable_effect reg k :
  let p := enable_target (k_ram k) reg in
  exists k', enable reg k = Done tt k' /\
    fst (k_msr k' IA32_APIC_BASE_MSR) = Z.shiftl (get_bits 12 20 reg) 12 /\
    Z.land (fst (k_msr k' IA32_APIC_BASE_MSR)) IA32_APIC_BASE_MSR_ENABLE = 0 /\
    (forall r, r <> IA32_APIC_BASE_MSR -> k_msr k' r = k_msr k r) /\
    p = u32 (Z.shiftl (lapic_address (k_ram k) reg) 12 + 960) /\
    rd8 (k_ram k') p = 255 /\ Z.testbit (rd8 (k_ram k') (p + 1)) 0 = true /\
    (forall a, 0 <= a < 4294967296 -> a <> p -> a <> u32 (p + 1) -> rd8 (k_ram k') a = rd8 (k_ram k) a).
Proof.
  intros p. destruct (enable_spec reg k) as (k' & E & Hr & Hm & _). fold p in Hr.
  exists k'. split; [exact E|]. rewrite Hm. change (IA32_APIC_BASE_MSR =? IA32_APIC_BASE_MSR) with true. cbn [fst].
  split; [apply and_page|]. split.
  { rewrite <- Z.land_assoc. apply Z.land_0_r. }
  split; [intros r Hne; by rewrite Hm, (proj2 (Z.eqb_neq _ _) Hne)|]. split; [done|]. split.
  { rewrite Hr. unfold set_sp_vector. by rewrite rd8_wr8_eq. }
  split; [|by apply enable_ram_changes].
  rewrite Hr. unfold set_sp_vector, set_enable_flag. rewrite rd8_wr8_ne, rd8_wr8_eq by (done || wrap_lia).
  unfold u8, wrap. rewrite Z.mod_pow2_bits_low by lia. unfold set_bits.
  by rewrite Z.lor_spec, orb_true_r.
Qed.

(** C31: through any device that behaves as an I/O APIC at the address of the MADT entry,
    [read] after [write] of a register returns the bits that were written where the
    register can be written and its old bits elsewhere; every other register reads as
    before. *)
Theorem ioapic_read_write {D} `{Mmio D} base (apic : IoApic D base) ptr m (d : D) reg value :
  ioapic_ptr ptr m = base -> 0 <= reg < 256 ->
  let d' := write ptr reg value m d in
  fst (read ptr reg m d') =
    Z.lor (Z.land value (ia_mask base reg)) (Z.ldiff (ia_register base d reg) (ia_mask base reg)) /\
  (forall r, 0 <= r < 256 -> r <> reg -> fst (read ptr r m d') = fst (read ptr r m d)).
Proof.
  intros Hb Hr d'. unfold d', read, write. rewrite Hb. change (4 * 4) with 16. rewrite Z.mul_0_r, Z.add_0_r.
  assert (forall r, 0 <= r < 256 -> Z.land r 255 = r) as Hid.
  { intros r ?. change 255 with (Z.ones 8). rewrite Z.land_ones by lia. by apply Z.mod_small. }
  rewrite Hid by done. split.
  - by rewrite ia_read, ia_select, ia_select_frame, ia_write, ia_select, ia_select_frame, Z.eqb_refl.
  - intros r Hr' Hne. rewrite Hid, !ia_read, !ia_select, !ia_select_frame, ia_write, ia_select by done.
    by rewrite (proj2 (Z.eqb_neq _ _) Hne), ia_select_frame.
Qed.

(** A device: the selected register and the contents; the identification register can be
    written in bits 24 to 27, the version and arbitration registers not at all. *)
Record example_device : Type := ExampleDevice { ed_selected : Z; ed_registers : Z -> Z }.

Definition example_mask (r : Z) : Z :=
  if r =? 0 then 251658240 else if r <? 16 then 0 else 4294967295.

#[export] Instance example_Mmio : Mmio example_device := {
  mmio_read a d := if a =? 4273995792 then (ed_registers d (ed_selected d), d) else (0, d);
  mmio_write a v d :=
    if a =? 4273995776 then ExampleDevice v (ed_registers d)
    else if a =? 4273995792 then ExampleDevice (ed_selected d) (fun r =>
      if r =? ed_selected d
      then Z.lor (Z.land v (example_mask r)) (Z.ldiff (ed_registers d r) (example_mask r))
      else ed_registers d r)
    else d;
}.

#[export] Instance example_IoApic : IoApic example_device 4273995776.
Proof. by refine {| ia_selected := ed_selected; ia_register := ed_registers; ia_mask := example_mask |}. Defined.

(** The table of the ACPI example: its I/O APIC record is at 7052. *)
Lemma ioapic_read_write_witness :
  fst (read 7052 0 example_tables (write 7052 0 4294967295 example_tables (ExampleDevice 7 (fun r => r)))) = 251658240 /\
  fst (read 7052 1 example_tables (write 7052 0 4294967295 example_tables (ExampleDevice 7 (fun r => r)))) = 1.
Proof.
  destruct (ioapic_read_write 4273995776 example_IoApic 7052 example_tables (ExampleDevice 7 (fun r => r)) 0 4294967295)
    as [H1 H2].
  - vm_compute. reflexivity.
  - lia.
  - split; [rewrite H1; reflexivity|]. rewrite (H2 1) by lia. vm_compute. reflexivity.
Defined.
