(* ===== verification/Kmain.v ===== *)
(** The kernel's [kmain], [kernel/kmain.cpp], from the registers the boot loader leaves to
    the software interrupt it ends with: terminal, temporary heap, ACPI tables, interrupt
    controllers, interrupt table. *)

From S2P Require Import KernelEntry Prelude PhysMem Layout CString Xtoa Terminal Outstream Heap Machine Arena Elf Acpi Cpu Interrupts Apic.

Local Open Scope string_scope.
Local Open Scope list_scope.
Local Open Scope Z_scope.

Definition MULTIBOOT_CUSTOM_BOOTLOADER_MAGIC : Z := 732803075.

(** [out << ptr]: the address as a [uint64_t]. *)
Definition print_ptr (ptr : Z) : prog machine unit := fun s =>
  match shl_ptr ptr uninit (out_of s) with
  | Val o => Done tt (set_out o s)
  | Fault => Undefined
  | NoFuel => OutOfFuel
  end.

(** [initTerminal], [out.init], [out.hex]; then the cursor where the boot loader left it,
    or a clear screen. *)
Definition open_kernel_terminal (multiboot_flag terminalIndex : Z) : prog machine unit :=
  do* modify (fun s => set_out (out_init (new_terminal, m_ram s)) s) in
  do* modify (fun s => set_out (hex (out_of s)) s) in
  if multiboot_flag =? MULTIBOOT_CUSTOM_BOOTLOADER_MAGIC then
    let _row := u8 (terminalIndex / vga_width) in
    let _column := u8 (u32 (terminalIndex - _row * vga_width)) in
    modify (fun s => set_term (snd (setCursor _row _column (m_term s))) s)
  else modify (fun s => set_ram (clear (m_term s) (m_ram s)) s).

Definition print_kernel_banner : prog machine unit :=
  do* set_color VGA_COLOR_LIGHT_GREY VGA_COLOR_BLUE in
  do* print ("Entering RainbowOS 32-bit protected mode kernel.bin" ++ newline) in
  set_color VGA_COLOR_LIGHT_GREY VGA_COLOR_BLACK.

Section Kmain.
(** The processor: CPUID, the flags that can be changed, the stub at an address. *)
Context (cpuid : Z -> cpuid_answer) (flags_mask : Z) (stub_at : Z -> option Z).
(** Addresses the linker chooses: [_endSymbol], the strings "RSD PTR" and "APIC",
    [__idt_table] and [_handler_stub_table]. *)
Context (_endSymbol RSDP_SEARCH_STR apic_name __idt_table _handler_stub_table : Z).
(** The stack pointer, code segment and registers at the [int] instruction, the addresses
    behind it and behind the call in the stub, and an uninitialised local array. *)
Context (esp cs eip back : Z) (regs : registers) (tempNum0 : list Z).

Definition open_kernel_heap : prog machine unit :=
  let endOfBinary := _endSymbol in
  do* print "Creating a temporary heap at 0x" in
  do* print_ptr endOfBinary in
  do* print (" of size 4k" ++ newline) in
  open_heap endOfBinary (4 * 1024).

Definition require_CPUID : prog kernel unit :=
  let* available := check_CPUID_available flags_mask in
  if negb (available =? 0) then lift (print ("CPUID is supported" ++ newline))
  else lift (earlyPanic "Error: CPUID is not supported, aborting!").

(** [acpiHeader] and [madt]. *)
Definition find_tables (fuel : nat) : prog machine Z :=
  let* acpiHeader := new_acpi_header RSDP_SEARCH_STR in
  do* (if getType acpiHeader =? 1 then print ("We have a type 1 ACPI table" ++ newline)
       else print ("We have a type 2 ACPI table" ++ newline)) in
  let* madt := new_acpi_madt fuel apic_name acpiHeader in
  let* type1 := run_opt (getEntry fuel madt 1) in
  do* print "Found type 1 MADT @ " in
  do* print_u32 type1 in
  do* print newline in
  ret madt.

Definition start_controllers (fuel : nat) (madt : Z) : prog kernel unit :=
  let* ioAPIC := new_io_apic fuel madt in
  do* lift (print ("IO APIC is good" ++ newline)) in
  let* localAPIC := new_l_apic cpuid in
  do* enable localAPIC in
  lift (print ("Enabled local APIC" ++ newline)).

(** The value of [idt.init()] is not used. *)
Definition start_interrupts : prog kernel unit :=
  do* lift (print ("Attempting to enable interrupts" ++ newline)) in
  let idt := new_interruptDescriptorTable __idt_table in
  do* init idt _handler_stub_table in
  lift (print ("Are they enabled?..." ++ newline)).

Definition kmain (fuel : nat) (multiboot_flag terminalIndex : Z) : prog kernel unit :=
  do* lift (open_kernel_terminal multiboot_flag terminalIndex) in
  do* lift print_kernel_banner in
  do* lift open_kernel_heap in
  do* require_CPUID in
  let* madt := lift (find_tables fuel) in
  do* start_controllers fuel madt in
  do* start_interrupts in
  do* int_n stub_at tempNum0 52 esp cs eip back regs in
  lift (earlyPanic "Shouldn't be seeing this!!!").
End Kmain.

(** ** Proofs: steps that print *)

Lemma print_ptr_screen ptr s :
  machine_ok s -> 0 <= ptr < 4294967296 ->
  exists s', print_ptr ptr s = Done tt s' /\ same_but_screen s s'.
Proof.
  intros Hok Hn. destruct (id Hok) as (_ & _ & Hb).
  unfold print_ptr, shl_ptr, shl_num, writeNum, write_radix.
  destruct (xtoa_digits 64 false ptr uninit (m_base s)) as (buf & E & _ & Hd & _);
    [lia|done|apply wrap_small; lia|lia|apply Forall_replicate; lia|done|].
  cbn [out_of o_base o_back]. rewrite E. cbn [buf_bind snd writeString].
  eexists. split; [reflexivity|]. apply set_out_screen; [done|].
  eapply Forall_impl; [exact Hd|]. intros c [_ Hc]. lia.
Qed.

(** From [k] to [k'] memory at the addresses [keep] and the processor's registers are the
    same. *)
Record goes (keep : Z -> Prop) (k k' : kernel) : Prop := {
  go_ok : machine_ok (k_machine k');
  go_keep a : 0 <= a < 4294967296 -> keep a -> rd8 (k_ram k') a = rd8 (k_ram k) a;
  go_eflags : k_eflags k' = k_eflags k;
  go_msr : k_msr k' = k_msr k;
  go_ports : k_ports k' = k_ports k;
  go_idtr : k_idtr k' = k_idtr k;
}.

Lemma goes_refl keep k : machine_ok (k_machine k) -> goes keep k k.
Proof. by split. Qed.

Lemma goes_trans keep k1 k2 k3 : goes keep k1 k2 -> goes keep k2 k3 -> goes keep k1 k3.
Proof.
  intros [A1 A2 A3 A4 A5 A6] [B1 B2 B3 B4 B5 B6]. split; [done| |congruence..].
  intros a Ha Hk. by rewrite B2, A2.
Qed.

Lemma goes_weaken (keep keep' : Z -> Prop) k k' :
  (forall a, keep' a -> keep a) -> goes keep k k' -> goes keep' k k'.
Proof. intros H [A1 A2 A3 A4 A5 A6]. split; [done| |done..]. intros a Ha Hk. apply A2; auto. Qed.

Definition off_screen (a : Z) : Prop := ~ on_screen a.

Lemma goes_reached k s : reached (k_machine k) (rd8 (k_ram k)) s -> goes off_screen k (set_machine s k).
Proof. intros (Hok & _ & H). by split. Qed.

Lemma goes_screen k s : same_but_screen (k_machine k) s -> goes off_screen k (set_machine s k).
Proof. intros H. by apply goes_reached, screen_reached. Qed.

(** A program that runs and only touches the screen, lifted. *)
Lemma lift_screen (c : prog machine unit) k :
  (exists s, c (k_machine k) = Done tt s /\ same_but_screen (k_machine k) s) ->
  exists k', lift c k = Done tt k' /\ goes off_screen k k'.
Proof.
  intros (s & E & H). exists (set_machine s k). split; [by apply lift_Done|by apply goes_screen].
Qed.

Lemma lift_print str k :
  machine_ok (k_machine k) -> exists k', lift (print str) k = Done tt k' /\ goes off_screen k k'.
Proof. intros Hok. by apply lift_screen, print_screen. Qed.

(** Sequences of such steps. *)
Lemma goes_bind {A B} keep (c : prog kernel A) (f : A -> prog kernel B) k a k1 b k2 :
  c k = Done a k1 -> goes keep k k1 -> f a k1 = Done b k2 -> goes keep k1 k2 ->
  bind c f k = Done b k2 /\ goes keep k k2.
Proof. intros E1 G1 E2 G2. rewrite (bind_Done _ _ _ _ _ E1). split; [done|by eapply goes_trans]. Qed.

(** ** Proofs: the phases *)

Lemma lift_modify f k : lift (modify f) k = Done tt (set_machine (f (k_machine k)) k).
Proof. done. Qed.

Lemma open_kernel_terminal_spec flag index k :
  exists k', lift (open_kernel_terminal flag index) k = Done tt k' /\ goes off_screen k k'.
Proof.
  set (s1 := set_out (hex (out_of (set_out (out_init (new_terminal, m_ram (k_machine k))) (k_machine k))))
               (set_out (out_init (new_terminal, m_ram (k_machine k))) (k_machine k))).
  assert (machine_ok s1 /\ m_ram s1 = k_ram k /\ m_term s1 = new_terminal) as (Hok & Hr & Ht).
  { split; [|done]. split; [apply new_terminal_ok|]. split; [done|]. cbn. lia. }
  destruct (flag =? MULTIBOOT_CUSTOM_BOOTLOADER_MAGIC) eqn:Ef.
  - set (t := snd (setCursor (u8 (index / vga_width)) (u8 (u32 (index - u8 (index / vga_width) * vga_width))) (m_term s1))).
    exists (set_machine (set_term t s1) k). split.
    { apply lift_Done. unfold open_kernel_terminal. rewrite Ef. done. }
    split; [|intros a _ _; cbn [k_machine set_machine m_ram set_term]; by rewrite Hr|done..].
    destruct (id Hok) as (Hto & Hb & Hbase). split; [|split; [|done]].
    + apply setCursor_ok; [apply u8_bounds|apply u8_bounds|done].
    + unfold t, setCursor. by destruct (_ || _).
  - exists (set_machine (set_ram (clear (m_term s1) (m_ram s1)) s1) k). split.
    { apply lift_Done. unfold open_kernel_terminal. rewrite Ef. done. }
    split; [exact Hok| |done..]. intros a Ha Ho. cbn [k_machine set_machine m_ram set_ram].
    rewrite <- Hr. destruct (clear_screen (m_term s1) (m_ram s1) _ (proj1 Hok) (read_screen_at _ _)) as [_ Hc].
    rewrite Ht in *. eapply only_changes_out; [exact Hc| |done|]; unfold off_screen, on_screen, fits, FRAMEBUFFER_LOCATION, cells in *;
      cbn [t_buffer new_terminal]; unfold FRAMEBUFFER_LOCATION; lia.
Qed.

Lemma open_kernel_terminal_cursor t s :
  terminal_ok t ->
  exists s', open_kernel_terminal MULTIBOOT_CUSTOM_BOOTLOADER_MAGIC
      (u32 (getRow t * vga_width + getColumn t)) s = Done tt s' /\
    getRow (m_term s') = getRow t /\ getColumn (m_term s') = getColumn t /\
    m_ram s' = m_ram s /\ m_base s' = 16 /\ machine_ok s'.
Proof.
  intros [Hr Hc _ _]. unfold getRow, getColumn in *. change vga_width with 80 in *. change vga_height with 25 in *.
  set (row := t_row t) in *. set (col := t_column t) in *.
  assert (u8 (u32 (row * 80 + col) / 80) = row) as Hrow.
  { rewrite (u32_small (row * 80 + col)), Z.div_add_l, (Z.div_small col), Z.add_0_r by lia. apply u8_small. lia. }
  assert (u8 (u32 (u32 (row * 80 + col) - row * 80)) = col) as Hcol.
  { rewrite (u32_small (row * 80 + col)), Z.add_simpl_l, (u32_small col) by lia. apply u8_small. lia. }
  unfold open_kernel_terminal. change (MULTIBOOT_CUSTOM_BOOTLOADER_MAGIC =? MULTIBOOT_CUSTOM_BOOTLOADER_MAGIC) with true.
  cbv iota. change vga_width with 80. rewrite Hrow, Hcol. eexists. split; [reflexivity|].
  cbn [m_term set_term set_out hex out_of out_init o_back o_base fst snd m_ram m_base].
  unfold setCursor. change vga_width with 80. change vga_height with 25.
  rewrite (proj2 (Z.leb_gt 25 row)), (proj2 (Z.leb_gt 80 col)) by lia. cbn [orb snd t_row t_column].
  split; [done|]. split; [done|]. split; [done|]. split; [done|].
  split; [|split; [done|cbn; lia]]. pose proof new_terminal_ok as []. by split; cbn in *; try lia.
Qed.

Lemma print_kernel_banner_spec k :
  machine_ok (k_machine k) -> exists k', lift print_kernel_banner k = Done tt k' /\ goes off_screen k k'.
Proof.
  intros Hok. destruct (set_color_quiet VGA_COLOR_LIGHT_GREY VGA_COLOR_BLUE _ Hok) as (s1 & E1 & R1).
  destruct (print_quiet ("Entering RainbowOS 32-bit protected mode kernel.bin" ++ newline) s1 (proj1 R1)) as (s2 & E2 & R2).
  destruct (set_color_quiet VGA_COLOR_LIGHT_GREY VGA_COLOR_BLACK s2 (proj1 R2)) as (s3 & E3 & R3).
  destruct (id R1) as (_ & _ & B1). destruct (id R2) as (_ & _ & B2).
  exists (set_machine s3 k). split.
  - apply lift_Done. unfold print_kernel_banner. by rewrite (bind_Done _ _ _ _ _ E1), (bind_Done _ _ _ _ _ E2).
  - apply goes_reached. eapply reached_trans; [exact R1| |exact B1]. by eapply reached_trans.
Qed.

(** The addresses that neither the screen nor the temporary heap takes. *)
Definition kept (_endSymbol a : Z) : Prop :=
  off_screen a /\ ~ (_endSymbol <= a < _endSymbol + 4096).

Lemma open_kernel_heap_spec _endSymbol k :
  machine_ok (k_machine k) -> 0 < _endSymbol -> _endSymbol + 4096 <= 4294967296 ->
  exists k', lift (open_kernel_heap _endSymbol) k = Done tt k' /\ goes (kept _endSymbol) k k'.
Proof.
  intros Hok H0 He.
  destruct (print_screen "Creating a temporary heap at 0x" _ Hok) as (s1 & E1 & H1).
  destruct (print_ptr_screen _endSymbol s1 (proj1 H1) ltac:(lia)) as (s2 & E2 & H2).
  destruct (print_screen (" of size 4k" ++ newline) s2 (proj1 H2)) as (s3 & E3 & H3).
  pose proof (same_but_screen_trans _ _ _ (same_but_screen_trans _ _ _ H1 H2) H3) as H.
  pose proof (heapInitialize_spec _endSymbol 4096 (m_ram s3) H0 ltac:(lia) He) as Hh.
  destruct (heapInitialize _endSymbol 4096 (m_ram s3)) as [[heap heapEnd] m] eqn:Eh.
  destruct Hh as (_ & _ & _ & Hm).
  exists (set_machine (Machine m (m_term s3) (m_base s3) heap heapEnd (m_disk s3)) k). split.
  - apply lift_Done. unfold open_kernel_heap.
    rewrite (bind_Done _ _ _ _ _ E1), (bind_Done _ _ _ _ _ E2), (bind_Done _ _ _ _ _ E3).
    unfold open_heap. change (4 * 1024) with 4096. by rewrite Eh.
  - split; [exact (proj1 H)| |done..]. intros a Ha [Ho Hn]. cbn [k_machine set_machine m_ram].
    rewrite Hm by lia. apply (go_keep _ _ _ (goes_screen k s3 H)); done.
Qed.

Lemma require_CPUID_spec mask k :
  machine_ok (k_machine k) -> Z.testbit mask 21 = true ->
  exists k', require_CPUID mask k = Done tt k' /\ goes off_screen k k'.
Proof.
  intros Hok Hm. destruct (lift_print ("CPUID is supported" ++ newline) k Hok) as (k' & E & G).
  exists k'. split; [|done]. unfold require_CPUID.
  by rewrite (bind_Done _ _ _ _ _ (check_CPUID_spec mask k)), Hm.
Qed.

(** ** Proofs: the firmware's tables *)

Definition apic_signature : list Z := bytes_of_string "APIC".

Section Firmware.
Context (str name : Z).

(** The firmware presents a root pointer, a root table with a MADT in it, and an I/O APIC
    record in the MADT; [l] is the list of the MADT's records. *)
Record firmware (m : mem) (h : acpi_header) (madt : Z) (l : list (Z * Z)) : Prop := {
  fw_string : cstring_at m str rsdp_magic;
  fw_name : cstring_at m name apic_signature;
  fw_rsdp : findRSDPDesc str m = ah_ptr h;
  fw_found : ah_ptr h <> 0;
  fw_type : ah_type2 h = (get xsdp_desc "revision" m (ah_ptr h) =? 2);
  fw_root : 36 <= get acpi_sdt_header "length" m (root_table h m);
  fw_madt : find (has_signature m apic_signature) (tables_of h m) = Some madt;
  fw_range : 0 < madt /\ madt + get acpi_sdt_header "length" m madt < 4294967296;
  fw_records : records_at m (madt + 44) l (madt + get acpi_sdt_header "length" m madt);
  fw_lengths : Forall (fun r => 2 <= snd r) l;
  fw_ioapic : first_type1 (madt + 44) l <> 0;
}.

(** What the search reads. *)
Definition firmware_data (m : mem) (h : acpi_header) (madt a : Z) : Prop :=
  str <= a < str + 8 \/ name <= a < name + 5 \/ in_search_area a \/ in_tables h m a \/
  madt <= a < madt + get acpi_sdt_header "length" m madt.

Lemma findRSDPDesc_place m p :
  cstring_at m str rsdp_magic -> findRSDPDesc str m = p -> p <> 0 -> p ∈ search_places.
Proof.
  intros Hs <- Hne. revert Hne. unfold findRSDPDesc. rewrite searchRSDPDesc_spec by done.
  destruct (find _ _) as [p|] eqn:E.
  - change (default 0 (Some p)) with p. destruct (negb _); [done|]. intros _.
    by apply find_some in E as [Hp%list_elem_of_In _].
  - change (default 0 None) with 0. by destruct (negb _).
Qed.

Lemma firmware_agree m m' h madt l :
  firmware m h madt l -> (forall a, firmware_data m h madt a -> rd8 m' a = rd8 m a) ->
  firmware m' h madt l /\ (forall a, firmware_data m' h madt a <-> firmware_data m h madt a).
Proof.
  intros [Hs Hn Hr Hf Ht Hroot Hm Hrange Hrec Hlen Hio] H. unfold firmware_data in H.
  destruct (findRSDPDesc_agree str m m' Hs) as [Hs' Hr']; [intros a [Ha|Ha]; apply H; tauto|].
  assert (forall i, 0 <= i < 36 -> rd8 m' (ah_ptr h + i) = rd8 m (ah_ptr h + i)) as Hp.
  { intros i Hi. apply H. do 2 right. left. pose proof (findRSDPDesc_place _ _ Hs Hr Hf) as Hpl.
    apply elem_search_places in Hpl. unfold in_search_area. lia. }
  destruct (tables_agree h m m' apic_signature Hp) as (Hroot' & Hrl & Htab & Hfind); [intros a Ha; apply H; tauto|done|].
  pose proof (records_le _ _ _ _ Hrec) as Hle.
  assert (get acpi_sdt_header "length" m' madt = get acpi_sdt_header "length" m madt) as Hml.
  { apply get_same; [done|]. intros i Hi. apply H. do 4 right. change (sizeof acpi_sdt_header) with 36 in Hi. lia. }
  split; [|intros a; unfold firmware_data, in_tables; by rewrite Hroot', Hrl, Htab, Hml].
  split; rewrite ?Hml; try done.
  - eapply cstring_at_ext; [|exact Hn]. intros i Hi. apply H. right. left. cbn in Hi. lia.
  - by rewrite Hr'.
  - rewrite Ht. f_equal. symmetry. apply get_same; [done|exact Hp].
  - by rewrite Hroot', Hrl.
  - by rewrite Hfind.
  - eapply records_agree; [|done|done]. intros a Ha. apply H. do 4 right. lia.
Qed.

Context (h : acpi_header) (madt : Z) (l : list (Z * Z)).

(** The MADT as the kernel finds it. *)
Lemma firmware_entry m fuel :
  firmware m h madt l -> (List.length l < fuel)%nat -> getEntry fuel madt 1 m = Some (first_type1 (madt + 44) l).
Proof.
  intros [_ _ _ _ _ _ _ [Hm Hl] Hrec _ _] Hf. pose proof (records_le _ _ _ _ Hrec).
  unfold getEntry. change (1 =? 1) with true. cbn [negb]. change (sizeof madt_table) with 44.
  rewrite !u32_small by lia. by apply walk_madt_spec; [|lia|lia|].
Qed.

Lemma first_type1_bounds m p lim :
  records_at m p l lim -> first_type1 p l = 0 \/ p <= first_type1 p l < lim.
Proof.
  revert p. induction l as [|[t n] l' IH]; intros p H; cbn [first_type1 records_at] in *; [by left|].
  destruct H as (_ & _ & Hn & H). pose proof (records_le _ _ _ _ H).
  destruct (t =? 1); [right; lia|]. destruct (IH _ H) as [->|?]; [by left|right; lia].
Qed.

Lemma find_tables_spec k m :
  machine_ok (k_machine k) -> firmware m h madt l ->
  (forall a, firmware_data m h madt a -> 0 <= a < 4294967296 /\ off_screen a) ->
  (forall a, firmware_data m h madt a -> rd8 (k_ram k) a = rd8 m a) ->
  exists k', goes off_screen k k' /\ forall fuel, (List.length l + 4 < fuel)%nat ->
    lift (find_tables str name fuel) k = Done madt k'.
Proof.
  intros Hok Hfw Hdata Hm. set (s := k_machine k).
  destruct (firmware_agree _ _ _ _ _ Hfw Hm) as [F0 _]. fold s in F0.
  assert (forall s', same_but_screen s s' -> firmware (m_ram s') h madt l) as Hnext.
  { intros s' Hs. apply (firmware_agree m); [done|]. intros a Ha. rewrite <- Hm by done.
    destruct (Hdata a Ha). by apply (go_keep _ _ _ (goes_screen k s' Hs)). }
  assert (exists s1, (if getType h =? 1 then print ("We have a type 1 ACPI table" ++ newline)
    else print ("We have a type 2 ACPI table" ++ newline)) s = Done tt s1 /\ same_but_screen s s1) as (s1 & E1 & H1)
    by (destruct (getType h =? 1); by apply print_screen).
  pose proof (Hnext _ H1) as F1. destruct (id F1) as [_ Hname _ _ _ Hroot Hfind [Hmadt _] _ _ _].
  destruct (print_screen "Found type 1 MADT @ " s1 (proj1 H1)) as (s2 & E2 & H2).
  assert (0 <= first_type1 (madt + 44) l < 4294967296) as Hb.
  { destruct F1 as [_ _ _ _ _ _ _ Hr Hrec _ _]. destruct (first_type1_bounds _ _ _ Hrec) as [->|]; lia. }
  destruct (print_u32_screen _ s2 (proj1 H2) Hb) as (s3 & E3 & H3).
  destruct (print_screen newline s3 (proj1 H3)) as (s4 & E4 & H4).
  exists (set_machine s4 k). split.
  - apply goes_screen. eapply same_but_screen_trans; [exact H1|]. eapply same_but_screen_trans; [exact H2|].
    by eapply same_but_screen_trans.
  - intros fuel Hf. apply lift_Done. fold s. unfold find_tables.
    rewrite (bind_Done _ _ s h s).
    2: { unfold new_acpi_header. rewrite bind_load, (fw_rsdp _ _ _ _ F0), (proj2 (Z.eqb_neq _ _) (fw_found _ _ _ _ F0)).
         rewrite bind_ret_l, bind_load, <- (fw_type _ _ _ _ F0). by destruct h. }
    rewrite (bind_Done _ _ _ _ _ E1).
    rewrite (bind_Done _ _ s1 madt s1).
    2: { unfold new_acpi_madt. rewrite (bind_Done _ _ _ _ _ (findEntry_spec fuel h name apic_signature s1 Hname eq_refl ltac:(lia) Hroot)).
         rewrite Hfind. change (default 0 (Some madt)) with madt. by rewrite (proj2 (Z.eqb_neq _ _)) by lia. }
    rewrite (bind_Done _ _ s1 (first_type1 (madt + 44) l) s1) by (unfold run_opt; by rewrite (firmware_entry _ _ F1) by lia).
    by rewrite (bind_Done _ _ _ _ _ E2), (bind_Done _ _ _ _ _ E3), (bind_Done _ _ _ _ _ E4).
Qed.
End Firmware.

(** ** Proofs: controllers and interrupts *)

(** The bits of the page of [reg], and the global enable bit clear. *)
Definition apic_disabled (reg : Z) (k : kernel) : Prop :=
  k_msr k IA32_APIC_BASE_MSR = (Z.land reg 4294963200, 0).

(** The addresses [enable] leaves alone. *)
Definition spared (m : mem) (reg a : Z) : Prop :=
  a <> enable_target m reg /\ a <> u32 (enable_target m reg + 1).

Lemma start_controllers_spec cpuid str name h madt l m k :
  machine_ok (k_machine k) -> firmware str name m h madt l ->
  (forall a, firmware_data str name m h madt a -> 0 <= a < 4294967296 /\ off_screen a) ->
  (forall a, firmware_data str name m h madt a -> rd8 (k_ram k) a = rd8 m a) ->
  checkApic cpuid = true ->
  let reg := c_eax (cpuid 1) in
  0 <= reg -> (forall i, 0 <= i < 4 -> reg + i < 4294967296 /\ off_screen (reg + i) /\ rd8 (k_ram k) (reg + i) = rd8 m (reg + i)) ->
  exists k', (forall fuel, (List.length l < fuel)%nat -> start_controllers cpuid fuel madt k = Done tt k') /\
    machine_ok (k_machine k') /\
    (forall a, 0 <= a < 4294967296 -> off_screen a -> spared m reg a -> rd8 (k_ram k') a = rd8 (k_ram k) a) /\
    apic_disabled reg k' /\ k_eflags k' = k_eflags k /\ k_ports k' = k_ports k /\ k_idtr k' = k_idtr k.
Proof.
  intros Hok Hfw Hdata Hm Hapic reg Hreg Hword.
  destruct (firmware_agree _ _ _ _ _ _ _ Hfw Hm) as [F0 _].
  destruct (lift_print ("IO APIC is good" ++ newline) k Hok) as (k1 & E1 & [Hok1 B1 Q1 _ P1 I1]).
  destruct (enable_spec reg k1) as (k2 & E2 & R2 & M2 & Q2 & P2 & I2 & Hset).
  pose proof (enable_ram_changes reg k1 k2 R2) as B2.
  assert (machine_ok (k_machine k2)) as Hok2 by (rewrite Hset; exact Hok1).
  destruct (lift_print ("Enabled local APIC" ++ newline) k2 Hok2) as (k3 & E3 & [Hok3 B3 Q3 M3 P3 I3]).
  assert (enable_target (k_ram k1) reg = enable_target m reg) as Ht.
  { unfold enable_target, lapic_address. do 3 f_equal. apply load_ext. intros i Hi.
    destruct (Hword i) as (? & ? & <-); [lia|]. by apply B1; [lia|]. }
  rewrite Ht in B2.
  exists k3. split.
  { intros fuel Hf. unfold start_controllers, new_io_apic, new_l_apic.
    rewrite (bind_Done _ _ k (first_type1 (madt + 44) l) k).
    2: { rewrite (bind_Done _ _ k (first_type1 (madt + 44) l) k).
         - by rewrite (proj2 (Z.eqb_neq _ _) (fw_ioapic _ _ _ _ _ _ F0)).
         - unfold lift, run_opt. rewrite (firmware_entry _ _ _ _ _ _ _ F0 Hf). by destruct k. }
    rewrite (bind_Done _ _ _ _ _ E1), Hapic. cbn [negb]. rewrite (bind_Done _ _ k1 reg k1) by done.
    by rewrite (bind_Done _ _ _ _ _ E2). }
  split; [done|]. split.
  { intros a Ha Ho [Hs1 Hs2]. by rewrite B3, B2, B1. }
  split; [unfold apic_disabled; rewrite M3, M2; done|]. by rewrite Q3, P3, I3, Q2, P2, I2.
Qed.

Lemma start_interrupts_spec idt stubs k :
  machine_ok (k_machine k) -> fits idt 2048 -> fits stubs 1024 ->
  stubs + 1024 <= idt \/ idt + 2048 <= stubs ->
  (forall a, stubs <= a < stubs + 1024 -> off_screen a) -> (forall a, idt <= a < idt + 2048 -> off_screen a) ->
  exists k' ws, start_interrupts idt stubs k = Done tt k' /\ machine_ok (k_machine k') /\
    k_idtr k' = (4095, idt) /\ k_msr k' = k_msr k /\
    k_eflags k' = set_bits 9 1 1 (set_bits 9 1 0 (k_eflags k)) /\
    (forall v, 0 <= v < 256 -> gate (k_idtr k') v (k_ram k') = Some (handler_of stubs (k_ram k) v)) /\
    k_ports k' = (k_ports k ++ ws)%list /\
    (forall ps, let '(master, slave) := fold_left pics_write ws ps in pic_off 4 master /\ pic_off 2 slave).
Proof.
  intros Hok Hi Hs Ho Hso Hio. destruct (id Hs) as (? & _ & ?). destruct (id Hi) as (? & _ & ?).
  destruct (lift_print ("Attempting to enable interrupts" ++ newline) k Hok) as (k1 & E1 & [Hok1 B1 Q1 M1 P1 I1]).
  destruct (init_lemma idt stubs k1 Hi Hs Ho) as (ws & m' & E2 & _ & Hg & Hpic). rewrite Q1, M1, P1 in E2.
  set (k2 := Kernel (set_ram m' (k_machine k1)) (set_bits 9 1 1 (set_bits 9 1 0 (k_eflags k))) (k_msr k)
    (k_ports k ++ ws) (4095, idt)) in *.
  destruct (lift_print ("Are they enabled?..." ++ newline) k2 Hok1) as (k3 & E3 & [Hok3 B3 Q3 M3 P3 I3]).
  exists k3, ws. split.
  { unfold start_interrupts. by rewrite (bind_Done _ _ _ _ _ E1), (bind_Done _ _ _ _ _ E2). }
  split; [done|]. split; [by rewrite I3|]. split; [by rewrite M3|]. split; [by rewrite Q3|].
  split; [|split; [by rewrite P3|done]]. intros v Hv. rewrite I3. cbn [k_idtr k2].
  transitivity (gate (4095, idt) v m').
  - unfold gate. cbn [fst snd].
    assert (forall f, get interruptDescriptor f (k_ram k3) (idt + 8 * v) = get interruptDescriptor f m' (idt + 8 * v)) as Hget.
    { intros f. apply get_same; [done|]. intros i Hi8. change (sizeof interruptDescriptor) with 8 in Hi8.
      apply B3; [lia|]. apply Hio. lia. }
    by rewrite !Hget.
  - rewrite Hg by done. f_equal. apply load_ext. intros i Hi4. apply B1; [lia|]. apply Hso. lia.
Qed.

(** The two characters of 52 in base 16. *)
Lemma hex_52 digits : hex_numeral 52 digits -> digits = [51; 52].
Proof.
  intros (Hd & Hv & Hz). pose proof (three_digits _ Hd Hz ltac:(lia)) as Hl.
  assert (forall c, is_digit 16 c -> 48 <= c <= 57 /\ char_value c = c - 48 \/ 65 <= c <= 70 /\ char_value c = c - 55) as Hc.
  { intros c [_ H]. unfold char_value. destruct (Z.ltb_spec c 65); lia. }
  destruct digits as [|a [|b [|c [|? ?]]]]; cbn [List.length] in Hl; try lia; unfold numeral_value in Hv; cbn [fold_left] in Hv;
    repeat match goal with H : Forall _ (_ :: _) |- _ => inversion H; clear H; subst end;
    repeat match goal with H : is_digit 16 ?x |- _ => apply Hc in H end.
  - lia.
  - lia.
  - f_equal; [|f_equal]; lia.
  - assert (a = 48) as -> by lia. by specialize (Hz eq_refl).
Qed.

(** ** The kernel from its first instruction to the interrupt *)

(** The addresses of the linker and what the processor and the firmware provide when the
    kernel starts: CPUID with an APIC, the ACPI tables, the table of stubs; none of it in
    the way of the screen, the temporary heap and the word [enable] writes. *)
Record kernel_ready (cpuid : Z -> cpuid_answer) (mask : Z) (stub_at : Z -> option Z)
    (endSymbol str name idt stubs : Z) (h : acpi_header) (madt : Z) (l : list (Z * Z)) (m : mem) : Prop := {
  kr_cpuid : Z.testbit mask 21 = true;
  kr_apic : checkApic cpuid = true;
  kr_heap : 0 < endSymbol /\ endSymbol + 4096 <= 4294967296;
  kr_firmware : firmware str name m h madt l;
  kr_data a : firmware_data str name m h madt a -> 0 <= a < 4294967296 /\ kept endSymbol a;
  kr_register : 0 <= c_eax (cpuid 1) /\
    forall i, 0 <= i < 4 -> c_eax (cpuid 1) + i < 4294967296 /\ kept endSymbol (c_eax (cpuid 1) + i);
  kr_tables : fits idt 2048 /\ fits stubs 1024 /\ (stubs + 1024 <= idt \/ idt + 2048 <= stubs);
  kr_idt a : idt <= a < idt + 2048 -> off_screen a;
  kr_stubs a : stubs <= a < stubs + 1024 -> kept endSymbol a /\ spared m (c_eax (cpuid 1)) a;
  kr_placed : stubs_placed stub_at stubs m;
}.

Lemma kernel_prelude cpuid mask stub_at endSymbol str name idt stubs h madt l flag index k :
  kernel_ready cpuid mask stub_at endSymbol str name idt stubs h madt l (k_ram k) ->
  exists k', goes (kept endSymbol) k k' /\
    forall fuel, (List.length l + 4 < fuel)%nat -> forall B (c : Z -> prog kernel B),
      bind (lift (open_kernel_terminal flag index)) (fun _ => bind (lift print_kernel_banner) (fun _ =>
        bind (lift (open_kernel_heap endSymbol)) (fun _ => bind (require_CPUID mask) (fun _ =>
          bind (lift (find_tables str name fuel)) c)))) k = c madt k'.
Proof.
  intros [Hm _ [He1 He2] Hfw Hdata _ _ _ _ _].
  destruct (open_kernel_terminal_spec flag index k) as (k1 & E1 & G1).
  destruct (print_kernel_banner_spec k1 (go_ok _ _ _ G1)) as (k2 & E2 & G2).
  destruct (open_kernel_heap_spec endSymbol k2 (go_ok _ _ _ G2) He1 He2) as (k3 & E3 & G3).
  destruct (require_CPUID_spec mask k3 (go_ok _ _ _ G3) Hm) as (k4 & E4 & G4).
  assert (forall a, kept endSymbol a -> off_screen a) as Hsub by (by intros a []).
  assert (goes (kept endSymbol) k k4) as G.
  { eapply goes_trans; [eapply goes_weaken; [exact Hsub|eapply goes_trans; [exact G1|exact G2]]|].
    eapply goes_trans; [exact G3|]. by eapply goes_weaken. }
  destruct (find_tables_spec str name h madt l k4 (k_ram k) (go_ok _ _ _ G4) Hfw) as (k5 & G5 & E5).
  { intros a Ha. destruct (Hdata a Ha) as [? []]. done. }
  { intros a Ha. destruct (Hdata a Ha). by apply (go_keep _ _ _ G). }
  exists k5. split; [eapply goes_trans; [exact G|by eapply goes_weaken]|].
  intros fuel Hf B c. by rewrite (bind_Done _ _ _ _ _ E1), (bind_Done _ _ _ _ _ E2), (bind_Done _ _ _ _ _ E3),
    (bind_Done _ _ _ _ _ E4), (bind_Done _ _ _ _ _ (E5 fuel Hf)).
Qed.

(** What of the memory it starts in the kernel relies on. *)
Definition kernel_data (str name stubs : Z) (h : acpi_header) (madt : Z) (m : mem) (a : Z) : Prop :=
  firmware_data str name m h madt a \/ stubs <= a < stubs + 1024.

(** Where in a page [enable] writes. *)
Definition spared_offset (a : Z) : Prop := a mod 4096 <> 960 /\ a mod 4096 <> 961.

Lemma spared_page m reg a : 0 <= a < 4294967296 -> spared_offset a -> spared m reg a.
Proof.
  intros Ha [H1 H2]. pose proof (enable_target_page m reg) as Ht. split; [congruence|].
  intros E. apply H2. rewrite E. unfold wrap. change (2 ^ 32) with 4294967296.
  Z.to_euclidean_division_equations. lia.
Qed.

Lemma kernel_ready_agree cpuid mask stub_at endSymbol str name idt stubs h madt l m m' :
  kernel_ready cpuid mask stub_at endSymbol str name idt stubs h madt l m ->
  (forall a, kernel_data str name stubs h madt m a -> rd8 m' a = rd8 m a) ->
  (forall a, stubs <= a < stubs + 1024 -> spared_offset a) ->
  kernel_ready cpuid mask stub_at endSymbol str name idt stubs h madt l m'.
Proof.
  intros [Hc Ha Hh Hf Hd Hr Ht Hi Hs Hp] Hm Hpage. unfold kernel_data in Hm.
  destruct (firmware_agree _ _ _ m' _ _ _ Hf) as [Hf' Hdata]; [by intros a ?; apply Hm; left|].
  split; try done.
  - intros a ?%Hdata. by apply Hd.
  - intros a Hst. split; [by apply Hs|]. apply spared_page; [|by apply Hpage].
    destruct Ht as (_ & (? & _ & ?) & _). lia.
  - intros v Hv. rewrite <- (Hp v Hv). f_equal. apply load_ext. intros i Hi4. apply Hm. right. lia.
Qed.

Lemma kmain_lemma cpuid mask stub_at endSymbol str name idt stubs esp cs eip back regs junk h madt l
    flag index k :
  kernel_ready cpuid mask stub_at endSymbol str name idt stubs h madt l (k_ram k) ->
  local_array junk -> word (k_eflags k) ->
  (forall e, word e -> int_context esp cs eip back e regs) ->
  exists k' ws,
    panics (fun fuel => kmain cpuid mask stub_at endSymbol str name idt stubs esp cs eip back regs junk fuel flag index)
      k "Interrupt called with vector 34" k' /\
    apic_disabled (c_eax (cpuid 1)) k' /\ k_idtr k' = (4095, idt) /\ k_ports k' = (k_ports k ++ ws)%list /\
    (forall ps, let '(master, slave) := fold_left pics_write ws ps in pic_off 4 master /\ pic_off 2 slave).
Proof.
  intros Hkr Hj He Hic.
  destruct (kernel_prelude _ _ _ _ _ _ _ _ _ _ _ flag index k Hkr) as (k1 & G1 & E1).
  destruct (id Hkr) as [_ Hapic _ Hfw Hdata [Hr0 Hreg] (Hi & Hs & Ho) Hidt Hstubs Hplaced].
  destruct (id Hs) as (? & _ & ?). destruct (id G1) as [Hok1 B1 Q1 M1 P1 I1].
  destruct (start_controllers_spec cpuid str name h madt l (k_ram k) k1 Hok1 Hfw) as (k2 & E2 & Hok2 & B2 & M2 & Q2 & P2 & I2);
    [|by intros a Ha; apply B1; apply Hdata|exact Hapic|exact Hr0| |].
  { intros a Ha. destruct (Hdata a Ha) as [? []]. done. }
  { intros i Hi4. destruct (Hreg i Hi4) as [? Hk]. split; [done|]. split; [apply Hk|]. apply B1; [lia|done]. }
  assert (forall a, stubs <= a < stubs + 1024 -> off_screen a) as Hso by (intros a Ha; apply (Hstubs a Ha)).
  destruct (start_interrupts_spec idt stubs k2 Hok2 Hi Hs Ho Hso Hidt) as (k3 & ws & E3 & Hok3 & I3 & M3 & Q3 & Hg & P3 & Hpic).
  assert (forall v, 0 <= v < 256 -> handler_of stubs (k_ram k2) v = handler_of stubs (k_ram k) v) as Hh.
  { intros v Hv. apply load_ext. intros i Hi4. destruct (Hstubs (stubs + 4 * v + i) ltac:(lia)) as [Hk Hsp].
    rewrite B2, B1; [done|lia|done|lia|apply Hk|done]. }
  assert (word (k_eflags k3)) as Hw.
  { unfold word. rewrite Q3. change 4294967296 with (2 ^ 32). rewrite Q2, Q1.
    apply set_bits_bound; [lia..|]. apply set_bits_bound; [lia..|exact He]. }
  pose proof (int_n_lemma stub_at stubs (k_ram k) junk 52 esp cs eip back regs k3 Hplaced Hj Hok3 ltac:(lia)) as Hint.
  rewrite Hg, Hh in Hint by lia. specialize (Hint eq_refl (Hic _ Hw)). change (52 =? 255) with false in Hint. cbv iota in Hint.
  destruct Hint as (digits & k4 & Hd%hex_52 & E4 & M4 & P4 & I4). subst digits.
  exists k4, ws. split.
  - exists (List.length l + 4)%nat. intros fuel Hf. unfold kmain. rewrite E1 by done.
    rewrite (bind_Done _ _ _ _ _ (E2 fuel ltac:(lia))), (bind_Done _ _ _ _ _ E3).
    by rewrite (bind_Panicked _ _ _ _ _ E4).
  - unfold apic_disabled in *. rewrite M4, M3, P4, P3, P2, P1, I4.
    split; [exact M2|]. split; [exact I3|]. split; [reflexivity|exact Hpic].
Qed.

(** ** Properties *)

(** C4: on a machine with CPUID, an APIC and ACPI tables that list an I/O APIC, the kernel
    runs from its entry through all its steps to [int $0x34], which goes through the gate
    it installed to the C++ handler: it ends in the panic "Interrupt called with vector
    34". By then both 8259s are masked and the IDT register holds the table; the APIC
    base register holds the page of CPUID's signature with the enable bit clear. *)
Theorem kmain_interrupted cpuid mask stub_at endSymbol str name idt stubs esp cs eip back regs junk h madt l
    flag index k :
  kernel_ready cpuid mask stub_at endSymbol str name idt stubs h madt l (k_ram k) ->
  local_array junk -> word (k_eflags k) ->
  (forall e, word e -> int_context esp cs eip back e regs) ->
  exists k' ws,
    panics (fun fuel => kmain cpuid mask stub_at endSymbol str name idt stubs esp cs eip back regs junk fuel flag index)
      k "Interrupt called with vector 34" k' /\
    apic_disabled (c_eax (cpuid 1)) k' /\ k_idtr k' = (4095, idt) /\ k_ports k' = (k_ports k ++ ws)%list /\
    (forall ps, let '(master, slave) := fold_left pics_write ws ps in pic_off 4 master /\ pic_off 2 slave).
Proof. apply kmain_lemma. Qed.

(** The index the boot loader computes from its cursor brings the kernel's cursor to the
    same row and column, with the screen as the boot loader left it. *)
Theorem terminal_handover t s :
  terminal_ok t ->
  exists s', open_kernel_terminal MULTIBOOT_CUSTOM_BOOTLOADER_MAGIC
      (u32 (getRow t * vga_width + getColumn t)) s = Done tt s' /\
    getRow (m_term s') = getRow t /\ getColumn (m_term s') = getColumn t /\
    m_ram s' = m_ram s /\ m_base s' = 16 /\ machine_ok s'.
Proof. apply open_kernel_terminal_cursor. Qed.

Lemma terminal_handover_witness :
  exists s', open_kernel_terminal 732803075 327 (Machine ∅ new_terminal 10 0 0 0) = Done tt s' /\
    getRow (m_term s') = 4 /\ getColumn (m_term s') = 7.
Proof.
  destruct (terminal_handover (Terminal 4 7 7 false FRAMEBUFFER_LOCATION) (Machine ∅ new_terminal 10 0 0 0))
    as (s' & E & H1 & H2 & _).
  - pose proof new_terminal_ok as []. split; cbn in *; unfold vga_height, vga_width in *; done || lia.
  - exists s'. split; [exact E|]. by split.
Defined.

(** *** An example machine: root pointer at 0x80010, its table at 0x400000 with the tables
    FACP and APIC, an I/O APIC record in the latter; at 0x140400 what a kernel file would
    hold, the two strings, the table of stubs, the descriptor table and its descriptor; CPUID's signature 0x306a9. *)
Definition example_cpuid (leaf : Z) : cpuid_answer := Cpuid 198313 0 0 512.

Definition example_firmware_mem : mem :=
  let m := write_bytes ∅ 524304 (rsdp_magic ++ [32; 161; 0; 0; 0; 0; 0; 0; 0; 0; 0; 64; 0]) in
  let m := put acpi_sdt_header "length" m 4194304 44 in
  let m := write_bytes m 4194340 (bytes_le 4 4198400 ++ bytes_le 4 4202496) in
  let m := write_bytes m 4198400 (bytes_of_string "FACP") in
  let m := write_bytes m 4202496 apic_signature in
  let m := put acpi_sdt_header "length" m 4202496 64 in
  write_bytes m 4202540 ([0; 8; 0; 0; 0; 0; 0; 0] ++ [1; 12; 0; 0] ++ bytes_le 4 4273995776).

Definition example_kernel_bytes : list Z :=
  rsdp_magic ++ [0] ++ apic_signature ++ [0; 0; 0; 0] ++ example_stub_table ++
  flat_map (bytes_le 8) kernel_gdt ++ bytes_le 2 39 ++ bytes_le 4 1312784.

Definition example_boot_mem : mem := write_bytes example_firmware_mem 1311744 example_kernel_bytes.

Definition example_boot_kernel : kernel :=
  Kernel (Machine example_boot_mem new_terminal 10 0 0 0) 2 (fun _ => (0, 0)) [] (0, 0).

Definition example_header : acpi_header := AcpiHeader 524304 false.

(** A literal at an address: all its characters and the terminator. *)
Lemma cstring_check m p str :
  forallb (fun i => rd8 m (p + Z.of_nat i) =? str !!! i) (seq 0 (List.length str)) = true ->
  forallb (fun c => negb (c =? 0)) str = true -> rd8 m (p + Z.of_nat (List.length str)) = 0 -> cstring_at m p str.
Proof.
  rewrite !forallb_forall. intros H Hnz H0. split; [|done]. intros i c Hi.
  pose proof (lookup_lt_Some _ _ _ Hi) as Hl. specialize (H i). rewrite (list_lookup_total_correct _ _ _ Hi) in H.
  split; [apply Z.eqb_eq, H, in_seq; lia|]. intros ->.
  assert (List.In 0 str) as Hin by (apply list_elem_of_In; by eapply list_elem_of_lookup_2).
  by apply Hnz in Hin.
Qed.

Lemma example_firmware :
  firmware 1311744 1311752 example_boot_mem example_header 4202496 [(0, 8); (1, 12)].
Proof.
  split.
  - apply cstring_check; vm_compute; reflexivity.
  - apply cstring_check; vm_compute; reflexivity.
  - vm_compute. reflexivity.
  - done.
  - vm_compute. reflexivity.
  - vm_compute. discriminate.
  - vm_compute. reflexivity.
  - split; [lia|vm_compute; reflexivity].
  - cbn [records_at]. repeat split; vm_compute; reflexivity.
  - repeat constructor; cbn; lia.
  - vm_compute. discriminate.
Qed.

(** Every place the example's firmware data can be in is above the boot loader and off the
    screen. *)
Lemma example_places a :
  firmware_data 1311744 1311752 example_boot_mem example_header 4202496 a ->
  524288 <= a < 671744 \/ 917504 <= a < 1048604 \/ 1311744 <= a < 1311757 \/ 4194304 <= a < 4202560.
Proof.
  unfold firmware_data, in_tables, in_search_area, EBDA_START, BIOS_START.
  replace (root_table example_header example_boot_mem) with 4194304 by (vm_compute; reflexivity).
  replace (get acpi_sdt_header "length" example_boot_mem 4194304) with 44 by (vm_compute; reflexivity).
  replace (get acpi_sdt_header "length" example_boot_mem 4202496) with 64 by (vm_compute; reflexivity).
  replace (tables_of example_header example_boot_mem) with [4198400; 4202496] by (vm_compute; reflexivity).
  rewrite !Exists_cons, Exists_nil. lia.
Qed.

Lemma example_data a :
  firmware_data 1311744 1311752 example_boot_mem example_header 4202496 a ->
  0 <= a < 4294967296 /\ kept 3145728 a.
Proof. intros H%example_places. unfold kept, off_screen, on_screen, FRAMEBUFFER_LOCATION, cells. lia. Qed.

Lemma example_kernel_ready :
  kernel_ready example_cpuid 2097152 example_stub_at 3145728 1311744 1311752 2097152 1311760
    example_header 4202496 [(0, 8); (1, 12)] example_boot_mem.
Proof.
  split.
  - reflexivity.
  - reflexivity.
  - lia.
  - exact example_firmware.
  - exact example_data.
  - cbn. split; [lia|]. intros i Hi. unfold kept, off_screen, on_screen, FRAMEBUFFER_LOCATION, cells. lia.
  - unfold fits. lia.
  - intros a Ha. unfold off_screen, on_screen, FRAMEBUFFER_LOCATION, cells. lia.
  - intros a Ha. unfold spared. replace (enable_target example_boot_mem (c_eax (example_cpuid 1))) with 960 by (vm_compute; reflexivity).
    change (u32 (960 + 1)) with 961. unfold kept, off_screen, on_screen, FRAMEBUFFER_LOCATION, cells. lia.
  - intros v Hv. assert (handler_of 1311760 example_boot_mem v = example_stub v) as ->.
    { assert (forallb (fun v => handler_of 1311760 example_boot_mem v =? example_stub v) (seqZ 0 256) = true) as H
        by (vm_compute; reflexivity).
      rewrite forallb_forall in H. apply Z.eqb_eq, H, list_elem_of_In, elem_of_seqZ. lia. }
    apply example_stub_at_stub.
Qed.

Lemma example_local_array : local_array uninit.
Proof. split; [done|]. apply Forall_replicate. lia. Qed.

Lemma example_int_context e : word e -> int_context 1200000 8 1050000 1060000 e example_registers.
Proof. intros He. split; [lia| | |unfold on_screen, FRAMEBUFFER_LOCATION, cells; lia]; unfold registers_ok; repeat split; unfold word in *; cbn; lia. Qed.

Lemma kmain_interrupted_witness :
  exists k', panics (fun fuel => kmain example_cpuid 2097152 example_stub_at 3145728 1311744 1311752 2097152 1311760
      1200000 8 1050000 1060000 example_registers uninit fuel 732803075 960)
    example_boot_kernel "Interrupt called with vector 34" k' /\ apic_disabled 198313 k'.
Proof.
  destruct (kmain_interrupted example_cpuid 2097152 example_stub_at 3145728 1311744 1311752 2097152 1311760
    1200000 8 1050000 1060000 example_registers uninit example_header 4202496 [(0, 8); (1, 12)] 732803075 960
    example_boot_kernel) as (k' & ws & H & Ha & _).
  - exact example_kernel_ready.
  - exact example_local_array.
  - unfold word. cbn. lia.
  - exact example_int_context.
  - exists k'. split; [exact H|exact Ha].
Defined.
