(* ===== verification/System.v ===== *)
(** The machine from the boot loader's entry to the kernel's interrupt handler: the two
    programs composed through the memory and the registers one leaves for the other. *)

From S2P Require Import RealMode A20 Prelude PhysMem Layout CString Terminal Outstream Heap Machine DiskRead Arena Fat32 FatVolume Fat32Proofs Fat32Props MemDetect Elf Multiboot Stage1 Boot Acpi Cpu Interrupts Apic Kmain.

Local Open Scope string_scope.
Local Open Scope list_scope.
Local Open Scope Z_scope.

(** The byte at an address once the segments of the kernel file lie over memory [m]. *)
Definition booted_byte (file : list Z) (phoff : Z) (phnum : nat) (m : mem) (a : Z) : Z :=
  loaded_byte (file_byte file) (kernel_segments file phoff phnum) (rd8 m) a.

(** Memory [m1] is what the kernel needs; where the kernel relies on it, it is what the file
    and memory [m0] before the boot give, off the boot loader's own memory.  The table of
    stubs avoids the page offsets [enable] writes at. *)
Record kernel_provided (cpuid : Z -> cpuid_answer) (mask : Z) (stub_at : Z -> option Z)
    (endSymbol str name idt stubs : Z) (h : acpi_header) (madt : Z) (records : list (Z * Z))
    (file : list Z) (phoff : Z) (phnum : nat) (m0 m1 : mem) : Prop := {
  kp_ready : kernel_ready cpuid mask stub_at endSymbol str name idt stubs h madt records m1;
  kp_data a : kernel_data str name stubs h madt m1 a ->
    untouched a /\ rd8 m1 a = booted_byte file phoff phnum m0 a;
  kp_stubs a : stubs <= a < stubs + 1024 -> spared_offset a;
}.

Lemma kernel_provided_ready cpuid mask stub_at endSymbol str name idt stubs h madt records
    kb rs file k phoff phnum device m0 m1 jmp s1 :
  kernel_provided cpuid mask stub_at endSymbol str name idt stubs h madt records file phoff phnum m0 m1 ->
  kernel_started kb rs file k phoff phnum device m0 jmp s1 ->
  kernel_ready cpuid mask stub_at endSymbol str name idt stubs h madt records (m_ram s1).
Proof.
  intros [Hr Hd Hs] Hks. eapply kernel_ready_agree; [exact Hr| |exact Hs].
  intros a Ha. destruct (Hd a Ha) as [Hu ->]. by apply (ks_segments _ _ _ _ _ _ _ _ _ _ Hks).
Qed.

(** ** Properties *)

(** C2: from the boot loader's entry to the kernel's interrupt handler: with a BIOS, a disk
    with KERNEL.BIN, an even byte at 0xfffe ([stage1_ready]) and firmware tables, where the file and memory hold what the kernel
    needs, [_stage1Main] ends in the jump to the file's entry point; whatever the kernel's
    registers and own globals are, from the memory of that moment and with the magic number
    and the index of the jump, [kmain] puts its cursor where the boot loader left it, keeping
    the screen, and runs up to the panic of its handler for vector 0x34. *)
Theorem system_boots int12 int13 int15 kb rs image lfn kernel_name part n j l file k phoff phnum dx stop
    cursor s0 cpuid mask stub_at endSymbol str name idt stubs h madt records m1 esp cs eip back regs junk :
  bios_memory int12 int15 kb rs ->
  stage1_ready int13 image lfn kernel_name part dx stop cursor (m_ram s0) ->
  kernel_on_disk image part n j l file stop -> kernel_image file k phoff phnum ->
  kernel_provided cpuid mask stub_at endSymbol str name idt stubs h madt records file phoff phnum
    (m_ram s0) m1 ->
  local_array junk -> (forall e, word e -> int_context esp cs eip back e regs) ->
  exists jmp s1,
    returns (fun fuel => _stage1Main int12 int13 int15 lfn kernel_name fuel dx stop cursor) s0 jmp s1 /\
    j_initAddr jmp = kernel_entry file /\
    forall kn, k_ram kn = m_ram s1 -> word (k_eflags kn) ->
      (exists s2, open_kernel_terminal MULTIBOOT_CUSTOM_BOOTLOADER_MAGIC (j_termIndex jmp) (k_machine kn) =
          Done tt s2 /\
        getRow (m_term s2) = getRow (m_term s1) /\ getColumn (m_term s2) = getColumn (m_term s1) /\
        m_ram s2 = m_ram s1) /\
      exists kn', panics (fun fuel => kmain cpuid mask stub_at endSymbol str name idt stubs esp cs eip back
          regs junk fuel MULTIBOOT_CUSTOM_BOOTLOADER_MAGIC (j_termIndex jmp)) kn
          "Interrupt called with vector 34" kn' /\
        apic_disabled (c_eax (cpuid 1)) kn' /\ k_idtr kn' = (4095, idt).
Proof.
  intros Hbios Hsr Hkd Hki Hkp Hj Hic.
  destruct (stage1_boots_lemma int12 int13 int15 kb rs image lfn kernel_name part n j l file k phoff phnum
    dx stop cursor s0 Hbios Hsr Hkd Hki) as (jmp & s1 & Hrun & Hks).
  pose proof (kernel_provided_ready _ _ _ _ _ _ _ _ _ _ _ _ _ _ _ _ _ _ _ _ _ _ Hkp Hks) as Hkr.
  exists jmp, s1. split; [exact Hrun|]. destruct Hks as [Hentry Hok Hcur _ _ _ _ _ _]. split; [exact Hentry|].
  intros kn Hram He. split.
  - rewrite Hcur. destruct (open_kernel_terminal_cursor (m_term s1) (k_machine kn) (proj1 Hok))
      as (s2 & E & Hrow & Hcol & Hm & _). exists s2. by rewrite Hm.
  - rewrite <- Hram in Hkr. destruct (kmain_lemma _ _ _ _ _ _ _ _ esp cs eip back regs junk _ _ _
      MULTIBOOT_CUSTOM_BOOTLOADER_MAGIC (j_termIndex jmp) kn Hkr Hj He Hic) as (kn' & ws & Hp & Ha & Hi & _).
    exists kn'. by split.
Qed.

(** *** An example: the firmware of the kernel's example, and a disk whose KERNEL.BIN holds
    its strings and its table of stubs in one segment at 0x140400 *)

Definition system_file : list Z :=
  example_ehdr 1 ++ example_phdr 1 96 1311744 1086 1086 ++ Multiboot.example_header ++ example_kernel_bytes.

Definition system_fat : list Z :=
  bytes_le 4 268435448 ++ bytes_le 4 268435455 ++ bytes_le 4 268435455 ++ bytes_le 4 4 ++ bytes_le 4 5 ++
  bytes_le 4 268435455.

Definition system_root : list Z :=
  bytes_of_string "KERNEL  BIN" ++ [32; 0; 0; 0; 0; 0; 0; 0; 0; 0; 0; 0; 0; 0; 0] ++
  bytes_le 2 3 ++ bytes_le 4 1182.

(** Behind the record the second stage: its header, from the sixteenth byte on its messages,
    its saved words, its descriptor table, the two strings. *)
Definition system_stage1 : list Z :=
  [65; 49; 1; 0] ++ repeat 144 12 ++
  flat_map (fun l => l ++ repeat 0 (64 - List.length l))
    [a20_line_disabled_text; a20_line_enabled_text; a20_line_error_text; a20_line_attempt_keyboard_text;
     a20_line_attempt_fast_text; a20_line_skip_text] ++
  bytes_le 8 0 ++ flat_map (bytes_le 8) stage1_gdt ++ bytes_le 2 39 ++ bytes_le 4 4520 ++ [0; 0] ++
  bytes_of_string "LFN" ++ [0] ++ bytes_of_string "KERNEL.BIN" ++ [0].

Definition system_disk (lba i : Z) : Z :=
  if lba =? 1 then u8 (nth (Z.to_nat i) system_stage1 0)
  else if lba =? 8 then u8 (nth (Z.to_nat i) example_bpb 0)
  else if lba =? 9 then u8 (nth (Z.to_nat i) system_fat 0)
  else if lba =? 10 then u8 (nth (Z.to_nat i) system_root 0)
  else if (11 <=? lba) && (lba <=? 13) then u8 (nth (Z.to_nat (512 * (lba - 11) + i)) system_file 0)
  else 0.

Definition system_mem : mem :=
  write_bytes (write_bytes (write_bytes example_firmware_mem 2494 ([128; 0; 0; 0; 12; 0; 0; 0] ++ bytes_le 4 8))
    12288 (bytes_of_string "LFN" ++ [0])) 12304 (bytes_of_string "KERNEL.BIN" ++ [0]).

Definition system_start : machine := Machine system_mem new_terminal 0 0 0 0.

Lemma system_disk_byte lba i : 0 <= system_disk lba i < 256.
Proof. unfold system_disk. repeat destruct (_ =? _); try destruct (_ && _); try apply u8_bounds; lia. Qed.

Lemma system_stage1_ready :
  stage1_ready (example_int13 system_disk) system_disk 12288 12304 8 128 65536 1282 (m_ram system_start).
Proof.
  split; [apply example_int13_reads, system_disk_byte| |split; [vm_compute; reflexivity|by left]].
  split; [vm_compute; reflexivity|lia|..]; (split; [apply example_string; [vm_compute; reflexivity|repeat constructor; done]|lia]).
Qed.

Lemma system_kernel_on_disk : kernel_on_disk system_disk 8 1 0 [3; 4; 5] system_file 65536.
Proof.
  split; try (vm_compute; reflexivity || (split; discriminate) || discriminate).
  - split; try (repeat split; vm_compute; (reflexivity || discriminate)).
    intros i Hi. assert (i = 0) as -> by lia. vm_compute. discriminate.
  - change (de_cluster system_disk 8 0) with 3.
    repeat (apply chain_next; [vm_compute; reflexivity|split; vm_compute; (reflexivity || discriminate)
      |split; vm_compute; (reflexivity || discriminate)|]). apply chain_end; vm_compute; reflexivity.
Qed.

Lemma system_kernel_image : kernel_image system_file 21 52 0.
Proof.
  split; [vm_compute; discriminate|split; [lia|vm_compute; discriminate]|vm_compute; reflexivity|
    |vm_compute; reflexivity..|vm_compute; discriminate| |].
  - intros i Hi. do 21 (destruct i as [|i]; [vm_compute; reflexivity|]). lia.
  - change (program_headers _ _ 1) with (kernel_segments system_file 52 0).
    replace (kernel_segments system_file 52 0) with [Segment 1 96 1311744 1086 1086] by (vm_compute; reflexivity).
    replace (List.length system_file) with 1182%nat by (vm_compute; reflexivity).
    constructor; [|constructor]. split; [reflexivity|]. intros _. cbn [sg_filesz sg_memsz sg_paddr sg_offset]. lia.
  - replace (segment_at _ _) with (Segment 1 96 1311744 1086 1086) by (vm_compute; reflexivity).
    vm_compute. discriminate.
Qed.

(** The file's segment over the firmware's memory is the memory of the kernel's example. *)
Lemma system_booted_byte a :
  untouched a -> rd8 example_boot_mem a = booted_byte system_file 52 0 system_mem a.
Proof.
  intros [Ha _]. unfold booted_byte, loaded_byte.
  replace (kernel_segments system_file 52 0) with [Segment 1 96 1311744 1086 1086] by (vm_compute; reflexivity).
  assert (List.length example_kernel_bytes = 1086%nat) as Hl by (vm_compute; reflexivity).
  cbn [fold_left]. unfold seg_byte, example_boot_mem. cbn [sg_paddr sg_memsz sg_filesz sg_offset].
  change (loadable _) with true. rewrite rd8_write_bytes by (rewrite Hl; lia). cbn [andb].
  destruct (decide (1311744 <= a < 1311744 + 1086)) as [Hin|Hout].
  - rewrite (proj2 (Z.leb_le _ _)), (proj2 (Z.ltb_lt _ _)) by lia. cbn [andb].
    unfold file_byte, file_mem, image_base.
    assert (List.length system_file = 1182%nat) as Hf by (vm_compute; reflexivity).
    rewrite rd8_write_bytes by (rewrite Hf; lia).
    replace (65536 + (96 + (a - 1311744)) - 65536) with (96 + (a - 1311744)) by lia. rewrite !u32_small by lia.
    assert (system_file !! Z.to_nat (96 + (a - 1311744)) = example_kernel_bytes !! Z.to_nat (a - 1311744)) as ->.
    { unfold system_file. rewrite !app_assoc, lookup_app_r by (cbn; lia). f_equal. cbn. lia. }
    by destruct (lookup_lt_is_Some_2 example_kernel_bytes (Z.to_nat (a - 1311744)) ltac:(lia)) as [v ->].
  - replace ((1311744 <=? a) && (a <? 1311744 + 1086)) with false by lia. cbn iota.
    rewrite lookup_ge_None_2 by (rewrite Hl; wrap_lia). unfold system_mem.
    rewrite !rd8_write_bytes by (cbn; lia). by rewrite !lookup_ge_None_2 by (cbn; wrap_lia).
Qed.

Lemma system_provided :
  kernel_provided example_cpuid 2097152 example_stub_at 3145728 1311744 1311752 2097152 1311760
    Kmain.example_header 4202496 [(0, 8); (1, 12)] system_file 52 0 (m_ram system_start) example_boot_mem.
Proof.
  split; [exact example_kernel_ready| |intros a Ha; unfold spared_offset; Z.to_euclidean_division_equations; lia].
  intros a Ha. assert (untouched a) as Hu; [|by split; [|apply system_booted_byte]].
  unfold untouched, on_screen, FRAMEBUFFER_LOCATION, cells. destruct Ha as [Ha%example_places|Ha]; lia.
Qed.

Lemma system_boots_witness :
  exists jmp s1,
    returns (fun fuel => _stage1Main example_int12 (example_int13 system_disk) (example_int15 example_regions)
      12288 12304 fuel 128 65536 1282) system_start jmp s1 /\
    exists kn', panics (fun fuel => kmain example_cpuid 2097152 example_stub_at 3145728 1311744 1311752 2097152
        1311760 1200000 8 1050000 1060000 example_registers uninit fuel MULTIBOOT_CUSTOM_BOOTLOADER_MAGIC
        (j_termIndex jmp))
      (Kernel s1 2 (fun _ => (0, 0)) [] (0, 0)) "Interrupt called with vector 34" kn' /\
      k_idtr kn' = (4095, 2097152).
Proof.
  destruct (system_boots example_int12 (example_int13 system_disk) (example_int15 example_regions)
    639 example_regions system_disk 12288 12304 8 1 0 [3; 4; 5] system_file 21 52 0 128 65536 1282 system_start
    example_cpuid 2097152 example_stub_at 3145728 1311744 1311752 2097152 1311760 Kmain.example_header 4202496
    [(0, 8); (1, 12)] example_boot_mem 1200000 8 1050000 1060000 example_registers uninit)
    as (jmp & s1 & Hr & _ & Hk).
  - exact example_bios_memory.
  - exact system_stage1_ready.
  - exact system_kernel_on_disk.
  - exact system_kernel_image.
  - exact system_provided.
  - exact example_local_array.
  - exact example_int_context.
  - destruct (Hk (Kernel s1 2 (fun _ => (0, 0)) [] (0, 0)) eq_refl) as [_ (kn' & Hp & _ & Hi)].
    + unfold word. cbn. lia.
    + exists jmp, s1. split; [exact Hr|]. exists kn'. split; [exact Hp|exact Hi].
Defined.
