(* ===== verification/PowerOn.v ===== *)
(** The machine from its first instruction to the kernel's interrupt handler: the assembly
    files composed with the two C++ programs of [System], through the memory, registers and
    stack that each leaves for the next. *)

From S2P Require Import Prelude PhysMem Layout CString Terminal Outstream Heap Machine DiskRead Arena Fat32 FatVolume MemDetect Elf Multiboot Stage1 Boot Acpi Cpu Interrupts Apic Kmain System.
From S2P Require Import X86 RealMode Teletype Stage0 A20 Stage1Entry KernelEntry.

Local Open Scope string_scope.
Local Open Scope list_scope.
Local Open Scope Z_scope.

(** Documented behaviour of the firmware and the keyboard controller, all of it. *)
Record firmware_works {D} {P : Platform D} (int13 : Z -> Z -> mem -> bool * Z * mem)
    (reset_fails : Z -> bool) (cursor : D -> Z) : Prop := {
  fw_int13 : bios_int13 int13;
  fw_stack : keeps_stack int13;
  fw_reset : bios_reset reset_fails;
  fw_tty : bios_tty;
  fw_gate : bios_gate;
  fw_cursor : bios_cursor cursor;
  fw_accepts : controller_accepts;
  fw_answers : controller_answers;
  fw_works : controller_works;
}.

(** Memory holds the second stage as [stage0.S] loads it. *)
Definition stage1_in (image : Z -> Z -> Z) (n : Z) (m : mem) : Prop :=
  forall i, 0 <= i < 512 * n -> rd8 m (_heap_location + i) = image (1 + i / 512) (i mod 512).

(** The second stage on the disk: signature, number of sectors, and in them the data of its
    assembly and the two strings of its main function. *)
Record stage1_on_disk (image : Z -> Z -> Z) (n : Z) (L : stage1_labels) (lfn kernel_name : Z) : Prop := {
  so_magic : image_word image 1 0 = _stage1_magic;
  so_count : image_word image 1 2 = n;
  so_sectors : 1 <= n <= 127;
  so_messages m : stage1_in image n m -> messages L m;
  so_data m : stage1_in image n m -> program_data L m;
  so_lfn m : stage1_in image n m -> cstring_at m lfn (bytes_of_string "LFN");
  so_name m : stage1_in image n m -> cstring_at m kernel_name (bytes_of_string "KERNEL.BIN");
  so_places : 4112 <= lfn /\ lfn + 4 <= __stop_stage1 L /\ 4112 <= kernel_name /\ kernel_name + 11 <= __stop_stage1 L /\
    __stop_stage1 L <= 458752;
  so_apart : (lfn + 4 <= stage1_temp L \/ stage1_temp L + 4 <= lfn) /\
    (kernel_name + 11 <= stage1_temp L \/ stage1_temp L + 4 <= kernel_name);
  so_end : _heap_location + 512 * n <= 524288;
}.

(** The byte at 0xfffe once the second stage is loaded over memory [m0]: [_stage1Main] can
    call the BIOS with it, and reading the file system leaves it so. *)
Definition loaded_mask (image : Z -> Z -> Z) (n : Z) (m0 : mem) : Z :=
  let i := mask_address - _heap_location in
  if i <? 512 * n then image (1 + i / 512) (i mod 512) else rd8 m0 mask_address.

Record mask_at_start (image : Z -> Z -> Z) (n part : Z) (L : stage1_labels) (m0 : mem) : Prop := {
  ma_even : even_byte (loaded_mask image n m0);
  ma_placed : mask_placed image part (__stop_stage1 L);
  ma_temp : mask_address < stage1_temp L \/ stage1_temp L + 4 <= mask_address;
}.

(** The partition in the record the firmware loaded. *)
Definition record_partition (m0 : mem) (part : Z) : Prop :=
  forall m, (forall i, 0 <= i < 512 -> rd8 m (_final_mbr_address + i) = rd8 m0 (_initial_mbr_address + i)) ->
    active_partition m = Some part.

(** What of memory the kernel's entry and [kmain] rely on. *)
Definition kernel_relies (K : kernel_labels) (str name stubs : Z) (h : acpi_header) (madt : Z) (m : mem) (a : Z) : Prop :=
  kernel_data str name stubs h madt m a \/
  kernel_gdt_start K <= a < kernel_gdt_start K + 40 \/ kernel_gdt_desc K <= a < kernel_gdt_desc K + 6.

(** Memory [m1] is what the kernel and its entry need; where they rely on it, it is what the
    file and memory [m0] at power-on give, off the boot loader's memory, the text screens,
    the byte that testing the gate clears and the kernel's own stack. *)
Record kernel_placed (K : kernel_labels) (cpuid : Z -> cpuid_answer) (mask : Z) (stub_at : Z -> option Z)
    (endSymbol str name idt stubs : Z) (h : acpi_header) (madt : Z) (records : list (Z * Z))
    (file : list Z) (phoff : Z) (phnum : nat) (m0 m1 : mem) : Prop := {
  kq_ready : kernel_ready cpuid mask stub_at endSymbol str name idt stubs h madt records m1;
  kq_image : kernel_image_data K m1;
  kq_data a : kernel_relies K str name stubs h madt m1 a ->
    untouched a /\ rd8 m1 a = booted_byte file phoff phnum m0 a;
  kq_clear a : kernel_relies K str name stubs h madt m1 a ->
    (a < 720896 \/ 786432 <= a) /\ a <> 1049857 /\ (a < stack_top K - 12 \/ stack_top K <= a);
  kq_stubs a : stubs <= a < stubs + 1024 -> spared_offset a;
}.

(** ** From the first instruction to the main function of the second stage *)

Section Loader.
Context {D : Type} {P : Platform D}.
Context (int13 : Z -> Z -> mem -> bool * Z * mem) (reset_fails : Z -> bool) (cursor : D -> Z).
Context (L0 : stage0_labels) (L : stage1_labels).

Lemma stage1_loaded_ready image n lfn kernel_name (s0 s1 : x86 D) :
  stage1_on_disk image n L lfn kernel_name -> stage1_loaded image n s0 s1 ->
  ready L s1 /\ program_data L (x_mem s1) /\ reg ESP s1 = 2047.
Proof.
  intros Hd Hl. pose proof (sl_image _ _ _ _ Hl) as Hi. pose proof (sl_esp _ _ _ _ Hl) as He. change _stack_pointer with 2047 in He.
  split; [split; [split; [apply Hl|apply Hl|apply Hl|lia]|lia|by eapply so_messages]|].
  split; [by eapply so_data|exact He].
Qed.

(** What [_stage1Main] is called with. *)
Record main_called (image : Z -> Z -> Z) (lfn kernel_name part : Z) (s0 s2 : x86 D) : Prop := {
  mc_pe : pe s2 = true;
  mc_segs : x_segs s2 = pm_segs;
  mc_a20 : a20 (x_dev s2) = true;
  mc_ready : stage1_ready int13 image lfn kernel_name part (ld32 (x_mem s2) (reg ESP s2))
    (ld32 (x_mem s2) (reg ESP s2 + 4)) (ld32 (x_mem s2) (reg ESP s2 + 8)) (x_mem s2);
  mc_drive : ld32 (x_mem s2) (reg ESP s2) = u16 (reg EDX s0);
  mc_stop : ld32 (x_mem s2) (reg ESP s2 + 4) = __stop_stage1 L;
  mc_mem a : 524288 <= a < 720896 \/ 786432 <= a < 4294967296 -> a <> 1049857 ->
    rd8 (x_mem s2) a = rd8 (x_mem s0) a;
}.

Lemma loader_enters image n lfn kernel_name part (s0 : x86 D) :
  firmware_works int13 reset_fails cursor -> boot_state s0 ->
  int13_reads int13 (u8 (reg EDX s0)) image -> reset_fails (u8 (reg EDX s0)) = false ->
  stage1_on_disk image n L lfn kernel_name -> record_partition (x_mem s0) part ->
  mask_at_start image n part L (x_mem s0) ->
  exists s1 s2,
    returns (fun fuel => Stage0._start L0 fuel) s0 0x1014 s1 /\
    returns (enter_stage1 L) s1 tt s2 /\ main_called image lfn kernel_name part s0 s2.
Proof.
  intros Hfw Hb Hr Hreset Hd Hp [K1 K2 K3]. destruct (id Hfw) as [F1 F2 F3 F4 F5 F6 F7 F8 F9]. destruct (id Hd) as [D1 D2 D3 D4 D5 D6 D7 D8 D9 D10].
  destruct (stage0_loads_lemma L0 int13 reset_fails F1 F2 image n s0 Hr F3 Hb Hreset D1 D2 D3) as (s1 & E1 & Hl).
  destruct (stage1_loaded_ready image n lfn kernel_name s0 s1 Hd Hl) as (Hrd & Hpd & Hesp).
  destruct (ends_enter_stage1 L cursor F6 False s1 F4 Hrd ltac:(lia) Hpd
    (opens_gate L False F4 F5 (opens_keyboard_works L False F4 F7 F8 F9))) as (n2 & o & [(s2 & -> & Hs2)|[[] _]] & H2).
  exists s1, s2. split; [exact E1|]. split; [by exists n2|]. destruct Hs2 as [G1 G2 G3 G4 G5 G6 G7 G8 [d G9] G10].
  pose proof Hl as Hl0. destruct Hl as [H1 Hrec Hoth Hseg1 Hre1 Hup1 He1 Hedx Htty]. destruct (id Hpd) as [_ _ _ _ (T1 & T2) _ _].
  assert (forall a, 2048 <= a < 524288 -> a < stage1_temp L \/ stage1_temp L + 4 <= a -> rd8 (x_mem s2) a = rd8 (x_mem s1) a) as Hm12.
  { intros a Ha Ht. apply G10; lia. }
  split; [exact G1|exact G2|exact G5| |by rewrite G7, Hedx|exact G8|].
  - rewrite G7, G8, G9, Hedx. split.
    + assert (u8 (u16 (reg EDX s0)) = u8 (reg EDX s0)) as -> by wrap_lia. exact Hr.
    + split.
      * apply Hp. intros i Hi. rewrite Hm12, Hrec by (unfold _final_mbr_address in *; lia). done.
      * pose proof (u16_bounds (cursor d)). lia.
      * split; [|lia]. eapply cstring_at_ext; [|by apply D6]. intros i Hi. cbn in Hi. apply Hm12; lia.
      * split; [|lia]. eapply cstring_at_ext; [|by apply D7]. intros i Hi. cbn in Hi. apply Hm12; lia.
    + split; [|exact K2]. unfold mask_even. rewrite Hm12 by (unfold mask_address in *; lia). unfold loaded_mask in K1.
      destruct (Z.ltb_spec (mask_address - _heap_location) (512 * n)) as [Hin|Hout].
      * replace mask_address with (_heap_location + (mask_address - _heap_location)) by lia.
        rewrite (sl_image _ _ _ _ Hl0) by (unfold mask_address, _heap_location in *; lia). exact K1.
      * rewrite Hoth by (unfold mask_address, dap, _heap_location in *; lia). exact K1.
  - intros a Ha Hn. rewrite G10, Hoth by (unfold dap, _heap_location in *; lia). done.
Qed.
End Loader.

(** ** From the jump to [kmain] *)

Lemma booted_byte_ext file phoff phnum m m' a :
  rd8 m' a = rd8 m a -> booted_byte file phoff phnum m' a = booted_byte file phoff phnum m a.
Proof. intros E. unfold booted_byte, loaded_byte. by rewrite E. Qed.

Lemma kernel_image_data_ext K m m' :
  (forall a, kernel_gdt_start K <= a < kernel_gdt_start K + 40 \/ kernel_gdt_desc K <= a < kernel_gdt_desc K + 6 ->
    rd8 m' a = rd8 m a) -> kernel_image_data K m -> kernel_image_data K m'.
Proof.
  intros H [H1 H2 H3 H4 H5 H6 H7]. split; try done.
  - rewrite <- H1. apply load_ext. intros i Hi. cbn in Hi. apply H. lia.
  - rewrite <- H2. apply load_ext. intros i Hi. cbn in Hi. apply H. lia.
  - eapply table_at_ext; [|exact H3]. intros i Hi. cbn in Hi. apply H. lia.
Qed.

Section Kernel.
Context {D : Type} {P : Platform D}.

(** The call of [jumpKernel] by [_stage1Main], which ended with [jmp] and memory [m3]; the
    loader's stack is below the record. *)
Record jump_called (jmp : jump) (m3 : mem) (sj : x86 D) : Prop := {
  jc_segs : x_segs sj = pm_segs;
  jc_a20 : a20 (x_dev sj) = true;
  jc_esp : 0 <= reg ESP sj /\ reg ESP sj + 16 <= 2048;
  jc_entry : ld32 (x_mem sj) (reg ESP sj + 4) = j_initAddr jmp;
  jc_info : ld32 (x_mem sj) (reg ESP sj + 8) = j_mbInfo jmp;
  jc_index : ld32 (x_mem sj) (reg ESP sj + 12) = j_termIndex jmp;
  jc_mem a : 524288 <= a < 4294967296 -> rd8 (x_mem sj) a = rd8 m3 a;
}.

Context (K : kernel_labels).

(** [kmain]'s parameters on its stack, and the segments it runs in. *)
Record kmain_called (jmp : jump) (s5 : x86 D) : Prop := {
  kc_flag : ld32 (x_mem s5) (reg ESP s5) = MULTIBOOT_CUSTOM_BOOTLOADER_MAGIC;
  kc_info : ld32 (x_mem s5) (reg ESP s5 + 4) = j_mbInfo jmp;
  kc_index : ld32 (x_mem s5) (reg ESP s5 + 8) = j_termIndex jmp;
  kc_segs : x_segs s5 = kernel_segs (Seg CODE32_SEGMENT 0 true);
  kc_pe : pe s5 = true;
  kc_if : Z.testbit (x_flags s5) 9 = false;
}.

Lemma kernel_called cpuid mask stub_at endSymbol str name idt stubs h madt records kb rs file k phoff phnum device
    m0 m1 m2 jmp s3 sj :
  kernel_placed K cpuid mask stub_at endSymbol str name idt stubs h madt records file phoff phnum m0 m1 ->
  (forall a, 524288 <= a < 720896 \/ 786432 <= a < 4294967296 -> a <> 1049857 -> rd8 m2 a = rd8 m0 a) ->
  kernel_started kb rs file k phoff phnum device m2 jmp s3 -> jump_called jmp (m_ram s3) sj ->
  exists s4 s5, jumpKernel sj = Done (kernel_entry file) s4 /\ enter_kernel K s4 = Done tt s5 /\
    kmain_called jmp s5 /\
    kernel_ready cpuid mask stub_at endSymbol str name idt stubs h madt records (x_mem s5).
Proof.
  intros [Q1 Q2 Q3 Q4 Q5] H2 Hks [J1 J2 [J3 J3'] J4 J5 J6 J7].
  destruct (jumpKernel_lemma sj J1 J3 ltac:(lia)) as (s4 & E4 & A1 & A2 & A3 & _ & _ & _ & A4 & A5 & A6 & A7 & A8 & A9).
  change (4 * 1) with 4 in *. change (4 * 2) with 8 in *. change (4 * 3) with 12 in *.
  assert (forall a, kernel_relies K str name stubs h madt m1 a -> rd8 (x_mem s4) a = rd8 m1 a) as Hm4.
  { intros a Ha. destruct (Q3 a Ha) as [Hu ->]. destruct (Q4 a Ha) as (C1 & C2 & _). pose proof Hu as [Hu' _].
    rewrite A7, J7 by done. rewrite (ks_segments _ _ _ _ _ _ _ _ _ _ Hks a Hu).
    apply booted_byte_ext. apply H2; lia. }
  assert (kernel_image_data K (x_mem s4)) as Hk4.
  { eapply kernel_image_data_ext; [|exact Q2]. intros a Ha. apply Hm4. by right. }
  destruct (kernel_enters_lemma K s4) as (s5 & E5 & B1 & B2 & B3 & B4 & B5 & B6 & B7 & B8 & B9 & B10 & _).
  { by rewrite A4, J1. }
  { by rewrite A8. }
  { exact Hk4. }
  exists s4, s5. split; [rewrite E4, J4; by rewrite (ks_entry _ _ _ _ _ _ _ _ _ _ Hks)|]. split; [exact E5|]. split.
  - split; [by rewrite B7, A1| | |by rewrite B3, A4, J1|done|done].
    + rewrite B8, A2, J5. apply u32_small. rewrite <- J5. apply ld32_bounds.
    + rewrite B9, A3, J6. apply u32_small. rewrite <- J6. apply ld32_bounds.
  - eapply kernel_ready_agree; [exact Q1| |exact Q5]. intros a Ha.
    assert (kernel_relies K str name stubs h madt m1 a) as Ha' by (by left).
    destruct (Q3 a Ha') as [[Hu _] _]. destruct (Q4 a Ha') as (_ & _ & C3). rewrite B10 by lia. by apply Hm4.
Qed.
End Kernel.

(** ** Properties *)

(** C1: from the first instruction of the master boot record to the kernel's interrupt
    handler.  With a firmware and a keyboard controller that do what is documented, a disk
    with the second stage behind the record and KERNEL.BIN in the active partition, a byte
    at 0xfffe that is even once the second stage is loaded and stays so, and
    memory that holds what the kernel needs: [stage0.S] loads the second stage and jumps to
    it; that opens the A20 gate and reaches [_stage1Main] in protected mode; [_stage1Main],
    with the arguments found on the stack and the memory of that moment, ends in a jump;
    [jumpKernel], called with it, goes to the file's entry point; the entry of the kernel
    reaches [kmain]; and [kmain], with the arguments found on its stack and the memory of
    that moment, runs up to the panic of its handler for vector 0x34. *)
Theorem power_on_boots {D} {P : Platform D} int12 int13 int15 reset_fails (cursor : D -> Z) L0 L K image n kb rs
    lfn kernel_name part spf j l file k phoff phnum cpuid mask stub_at endSymbol str name idt stubs h madt
    records m1 esp cs eip back regs junk (s0 : x86 D) :
  firmware_works int13 reset_fails cursor -> boot_state s0 ->
  int13_reads int13 (u8 (reg EDX s0)) image -> reset_fails (u8 (reg EDX s0)) = false ->
  bios_memory int12 int15 kb rs ->
  stage1_on_disk image n L lfn kernel_name -> record_partition (x_mem s0) part ->
  mask_at_start image n part L (x_mem s0) ->
  kernel_on_disk image part spf j l file (__stop_stage1 L) -> kernel_image file k phoff phnum ->
  kernel_placed K cpuid mask stub_at endSymbol str name idt stubs h madt records file phoff phnum (x_mem s0) m1 ->
  local_array junk -> (forall e, word e -> int_context esp cs eip back e regs) ->
  exists s1 s2,
    returns (fun fuel => Stage0._start L0 fuel) s0 0x1014 s1 /\ returns (enter_stage1 L) s1 tt s2 /\
    let arg := fun (s : x86 D) i => ld32 (x_mem s) (reg ESP s + 4 * i) in
    forall g, m_ram g = x_mem s2 -> exists jmp s3,
      returns (fun fuel => _stage1Main int12 int13 int15 lfn kernel_name fuel (arg s2 0) (arg s2 1) (arg s2 2)) g jmp s3 /\
      forall sj, jump_called jmp (m_ram s3) sj -> exists s4 s5,
        jumpKernel sj = Done (kernel_entry file) s4 /\ enter_kernel K s4 = Done tt s5 /\
        arg s5 1 = j_mbInfo jmp /\
        forall kn, k_ram kn = x_mem s5 -> word (k_eflags kn) -> exists kn',
          panics (fun fuel => kmain cpuid mask stub_at endSymbol str name idt stubs esp cs eip back regs junk fuel
            (arg s5 0) (arg s5 2)) kn "Interrupt called with vector 34" kn'.
Proof.
  intros Hfw Hb Hr Hreset Hbios Hd Hp Hma Hkd Hki Hkq Hj Hic.
  destruct (loader_enters int13 reset_fails cursor L0 L image n lfn kernel_name part s0 Hfw Hb Hr Hreset Hd Hp Hma)
    as (s1 & s2 & E1 & E2 & [_ _ _ Hsr _ Hstop Hm]).
  exists s1, s2. split; [exact E1|]. split; [exact E2|]. cbv beta zeta. intros g Hg.
  rewrite Z.mul_0_r, Z.add_0_r, Z.mul_1_r, Hstop. rewrite Hstop, <- Hg in Hsr. change (4 * 2) with 8.
  destruct (stage1_boots_lemma int12 int13 int15 kb rs image lfn kernel_name part spf j l file k phoff phnum _ _ _ g
    Hbios Hsr Hkd Hki) as (jmp & s3 & E3 & Hks).
  exists jmp, s3. split; [by rewrite Hg in E3|]. intros sj Hjc. rewrite Hg in Hks.
  destruct (kernel_called K _ _ _ _ _ _ _ _ _ _ _ _ _ _ _ _ _ _ (x_mem s0) m1 (x_mem s2) jmp s3 sj Hkq Hm Hks Hjc)
    as (s4 & s5 & E4 & E5 & [C1 C2 C3 _ _ _] & Hkr).
  exists s4, s5. split; [exact E4|]. split; [exact E5|]. rewrite Z.add_0_r, C1, C3.
  split; [exact C2|]. intros kn Hkn He. rewrite <- Hkn in Hkr.
  destruct (kmain_lemma _ _ _ _ _ _ _ _ esp cs eip back regs junk _ _ _ MULTIBOOT_CUSTOM_BOOTLOADER_MAGIC (j_termIndex jmp)
    kn Hkr Hj He Hic) as (kn' & ws & Hpa & _). by exists kn'.
Qed.

(** *** An example: the disk and the kernel of [System]'s, the firmware of the loader's parts *)

Definition power_platform : Platform (bool * bool) := {|
  a20 := fst;
  port_in port d := (if port =? 0x64 then 1 else 0, d);
  port_out := @port_out _ example_gate;
  bios n s :=
    if n =? 0x13 then
      if Asm.get_high8 (reg EAX s) =? 0 then
        set_flags (Asm.put_flag 0 (negb (u8 (reg EDX s) =? 128)) (x_flags s)) (set_reg EAX (Asm.set_high8 0 (reg EAX s)) s)
      else
        let '(carry, ah, m) := example_int13 system_disk (u8 (reg EDX s)) (Asm.lin DS (u16 (reg ESI s)) s) (x_mem s) in
        set_flags (Asm.put_flag 0 carry (x_flags s)) (set_reg EAX (Asm.set_high8 ah (reg EAX s)) (set_xmem m s))
    else @bios _ example_gate n s |}.

Lemma power_becomes bit want d d' : @becomes _ power_platform bit want d d' -> d' = d.
Proof. induction 1 as [d v d' E _|d v d1 d' E _ _ ->]; by injection E as <- <-. Qed.

Lemma power_firmware :
  @firmware_works _ power_platform (example_int13 system_disk) (fun d => negb (d =? 128)) example_cursor.
Proof.
  split.
  - intros s _ Ha. exists (x_dev s). destruct s as [? ? ? ? ? ? ? dev]. unfold bios, power_platform. rewrite Ha. cbn [Z.eqb Pos.eqb].
    by destruct (example_int13 system_disk _ _ _) as [[? ?] ?].
  - apply example_keeps_stack.
  - intros s _ Ha. exists 0, (x_mem s), (x_dev s). unfold bios, power_platform. rewrite Ha. cbn [Z.eqb Pos.eqb]. by destruct s.
  - exact example_gate_tty.
  - exact example_gate_gate.
  - exact example_gate_cursor.
  - intros d. exists d. by apply (@becomes_now _ power_platform 1 false d 1 d).
  - intros d. eexists. by eapply (@becomes_now _ power_platform 0 true _ 1).
  - split; [|by intros port []|by intros []].
    intros v d [[] Hb] Hv. apply power_becomes in Hb as ->. exact Hv.
Qed.

Definition power_labels : stage1_labels := {|
  a20_line_disabled_msg := 4128; a20_line_enabled_msg := 4192; a20_line_error_msg := 4256;
  a20_line_attempt_keyboard_msg := 4320; a20_line_attempt_fast_msg := 4384; a20_line_skip_msg := 4448;
  stage1_temp := 4512; gdt_start := 4520; gdt_desc := 4560; __stop_stage1 := 65536;
  stage1_return := fun n => 4116 + Z.of_nat n;
|}.

Definition power_kernel : kernel_labels := {|
  stack_top := 4194304; kernel_gdt_start := 1312784; kernel_gdt_desc := 1312824; kernel_return := 1320000;
|}.

(** The table entry of the active partition in the record at 0x7c00. *)
Definition power_mem : mem := write_bytes example_firmware_mem 32190 ([128; 0; 0; 0; 12; 0; 0; 0] ++ bytes_le 4 8).

Definition power_state : x86 (bool * bool) :=
  X86 (Gprs 0 0 128 0 4096 0 0 0) (let z := Seg 0 0 false in Segs z z z z z z) 514 16 (0, 0) power_mem [] (false, false).

(** The second stage as it lies in memory, whatever else is there. *)
Definition stage1_example : mem := write_bytes ∅ 4112 (map (system_disk 1) (seqZ 0 512)).

Lemma stage1_example_byte m a :
  stage1_in system_disk 1 m -> 4112 <= a < 4624 -> rd8 m a = rd8 stage1_example a.
Proof.
  intros H Ha. pose proof (H (a - 4112) ltac:(lia)) as E. change _heap_location with 4112 in E.
  replace (4112 + (a - 4112)) with a in E by lia. rewrite E, Z.div_small, Z.mod_small, Z.add_0_r by lia.
  unfold stage1_example. rewrite rd8_write_bytes by (rewrite length_map, length_seqZ; lia). rewrite u32_small by lia.
  rewrite list_lookup_fmap, (lookup_seqZ_lt 0 512 (Z.to_nat (a - 4112))) by lia. cbn [fmap option_fmap option_map].
  rewrite Z2Nat.id, Z.add_0_l, u8_small by (lia || apply system_disk_byte). done.
Qed.

Lemma power_stage1 : stage1_on_disk system_disk 1 power_labels 4568 4572.
Proof.
  assert (forall m p l, stage1_in system_disk 1 m -> 4112 <= p -> p + Z.of_nat (List.length l) < 4624 ->
    cstring_at stage1_example p l -> cstring_at m p l) as Hs.
  { intros m p l Hm Hp Hl. apply cstring_at_ext. intros i Hi. apply stage1_example_byte; [done|lia]. }
  split.
  - vm_compute. reflexivity.
  - vm_compute. reflexivity.
  - lia.
  - intros m Hm. split; (split; [vm_compute; discriminate|split; [vm_compute; split; reflexivity|]]);
      (apply Hs; [done|vm_compute; discriminate|vm_compute; reflexivity|]);
      apply example_string; (vm_compute; reflexivity) || (repeat constructor; discriminate).
  - intros m Hm. assert (forall n p, 4112 <= p -> p + Z.of_nat n <= 4624 -> load n m p = load n stage1_example p) as Hl
      by (intros; apply load_ext; intros; apply stage1_example_byte; [done|lia]).
    split; [rewrite Hl by (cbn; lia); vm_compute; reflexivity|rewrite Hl by (cbn; lia); vm_compute; reflexivity
      | |cbn; lia..].
    intros i d Hi. pose proof (lookup_lt_Some _ _ _ Hi) as Hi5. cbn in Hi5. rewrite Hl by (cbn; lia). clear Hi5. revert i d Hi.
    change (table_at stage1_gdt stage1_example 4520). example_gdt.
  - intros m Hm. apply Hs; [done|lia|cbn; lia|]. apply example_string; [vm_compute; reflexivity|repeat constructor; done].
  - intros m Hm. apply Hs; [done|lia|cbn; lia|]. apply example_string; [vm_compute; reflexivity|repeat constructor; done].
  - cbn. lia.
  - cbn. lia.
  - unfold _heap_location. lia.
Qed.

Lemma power_partition : record_partition power_mem 8.
Proof.
  intros m H. unfold active_partition, partitions.
  assert (forall f i, 0 <= i < 4 -> 0 <= offsetof partitionTable f -> offsetof partitionTable f + fieldsize partitionTable f <= 16 ->
    get partitionTable f m (mbr + 446 + 16 * i) = get partitionTable f power_mem (31744 + 446 + 16 * i)) as E.
  { intros f i Hi H0 H1. apply load_ext. intros x Hx. unfold mbr, _final_mbr_address, _initial_mbr_address in *.
    replace (2048 + 446 + 16 * i + offsetof partitionTable f + x) with (2048 + (446 + 16 * i + offsetof partitionTable f + x)) by lia.
    rewrite H by lia. f_equal. lia. }
  cbn [map]. rewrite !E by (lia || (vm_compute; discriminate)). vm_compute. reflexivity.
Qed.

Lemma power_placed :
  kernel_placed power_kernel example_cpuid 2097152 example_stub_at 3145728 1311744 1311752 2097152 1311760
    Kmain.example_header 4202496 [(0, 8); (1, 12)] system_file 52 0 power_mem example_boot_mem.
Proof.
  assert (forall a, kernel_relies power_kernel 1311744 1311752 1311760 Kmain.example_header 4202496 example_boot_mem a ->
    524288 <= a < 671744 \/ 917504 <= a < 1048604 \/ 1311744 <= a < 1312830 \/ 4194304 <= a < 4202560) as Hp.
  { intros a [[Ha%example_places|Ha]|Ha]; cbn in *; lia. }
  split.
  - exact example_kernel_ready.
  - split; [vm_compute; reflexivity|vm_compute; reflexivity|example_gdt|cbn; unfold kernel_stack_size; lia..].
  - intros a Ha%Hp. assert (untouched a) as Hu by (unfold untouched, on_screen, FRAMEBUFFER_LOCATION, cells; lia).
    split; [exact Hu|]. rewrite (system_booted_byte a Hu). apply booted_byte_ext. unfold system_mem, power_mem.
    rewrite !rd8_write_bytes by (cbn; lia). by rewrite !lookup_ge_None_2 by (cbn; wrap_lia).
  - intros a Ha%Hp. cbn [stack_top power_kernel]. lia.
  - apply (kp_stubs _ _ _ _ _ _ _ _ _ _ _ _ _ _ _ _ system_provided).
Qed.

Lemma power_on_boots_witness :
  let _ := power_platform in
  exists s1 s2 jmp s3,
    returns (fun fuel => Stage0._start example_labels fuel) power_state 0x1014 s1 /\
    returns (enter_stage1 power_labels) s1 tt s2 /\
    returns (fun fuel => _stage1Main example_int12 (example_int13 system_disk) (example_int15 example_regions) 4568 4572 fuel
      (ld32 (x_mem s2) (reg ESP s2 + 4 * 0)) (ld32 (x_mem s2) (reg ESP s2 + 4 * 1)) (ld32 (x_mem s2) (reg ESP s2 + 4 * 2)))
      (Machine (x_mem s2) new_terminal 0 0 0 0) jmp s3 /\
    forall sj, jump_called jmp (m_ram s3) sj -> exists s4 s5,
      jumpKernel sj = Done (kernel_entry system_file) s4 /\ enter_kernel power_kernel s4 = Done tt s5.
Proof.
  intros pl.
  destruct (power_on_boots example_int12 (example_int13 system_disk) (example_int15 example_regions)
    (fun d => negb (d =? 128)) example_cursor example_labels power_labels power_kernel system_disk 1 639 example_regions
    4568 4572 8 1 0 [3; 4; 5] system_file 21 52 0 example_cpuid 2097152 example_stub_at 3145728 1311744 1311752 2097152
    1311760 Kmain.example_header 4202496 [(0, 8); (1, 12)] example_boot_mem 1200000 8 1050000 1060000 example_registers
    uninit power_state) as (s1 & s2 & E1 & E2 & Hg).
  - exact power_firmware.
  - split; [done|by intros []|done|cbn; lia|vm_compute; reflexivity].
  - apply example_int13_reads, system_disk_byte.
  - done.
  - exact example_bios_memory.
  - exact power_stage1.
  - exact power_partition.
  - split; [vm_compute; reflexivity|by left|cbn; unfold mask_address; lia].
  - exact system_kernel_on_disk.
  - exact system_kernel_image.
  - exact power_placed.
  - exact example_local_array.
  - exact example_int_context.
  - destruct (Hg (Machine (x_mem s2) new_terminal 0 0 0 0) eq_refl) as (jmp & s3 & E3 & Hj).
    exists s1, s2, jmp, s3. split; [exact E1|]. split; [exact E2|]. split; [exact E3|]. intros sj Hsj.
    destruct (Hj sj Hsj) as (s4 & s5 & E4 & E5 & _). exists s4, s5. split; [exact E4|exact E5].
Defined.
